(* ===== verification/_CoqProject ===== *)
-Q . S2P
Prelude.v
JsSort.v
JsNumber.v
JsText.v
JsValue.v
Markup.v
JsFloor.v
UrlParams.v
BenchmarkData.v
SampleData.v
Filters.v
ChartData.v
ChartSpec.v
Ranking.v
DashboardState.v
Session.v
View.v
ViewSpec.v
UseToast.v
BenchmarkUtils.v
Sidebar.v
Carousel.v
Chart.v
Form.v
UiKit.v
UiElements.v
UiOverlays.v
UiMenus.v
SidebarMenu.v
UiSpec.v
UiRender.v
Toaster.v
SidebarSession.v
UiControls.v
CarouselSession.v
UiOptions.v
Theme.v
UiPage.v
Page.v
Entry.v
Spa.v
