(* ===== verification/Prelude.v ===== *)
(** * The itsi benchmark dashboard, verified: root file and shared prelude

    The repository holds the itsi web server (Rust and Ruby) and, in TypeScript,
    the dashboard that publishes its benchmark results:
    [docs/benchmark-dashboard].  This development verifies the dashboard with its
    library of components, and the example application [examples/spa].

    ** The program

    [app/page.tsx] ([Home]) loads the results and shows [BenchmarkDashboard] of
    [components/benchmark-dashboard.tsx].  That component flattens the hierarchy
    cpu / group / test / server of the results, derives the options its filters
    offer, keeps a selection (filters, visible servers, hovered bar) in React state,
    writes the selection into the query string and reads it back when it mounts,
    repairs selections that the data does not have, and draws a bar chart, a
    summary and a table of top performers.  It is drawn with the components of
    [components/ui], and published by [embed.tsx], which fetches the results and
    renders the dashboard into the page.  Around it are [hooks/use-toast.ts] (a
    module-level store of notifications with timers), [components/ui/toaster.tsx],
    [components/ui/sidebar.tsx] with [hooks/use-mobile.tsx],
    [components/ui/carousel.tsx], [components/ui/chart.tsx],
    [components/ui/form.tsx] and
    [lib/benchmark-utils.ts].

    ** The files

    The language, as far as the source uses it:
    - this file: boolean reflection, list and option lemmas, tactics;
    - [JsSort]: [Array.prototype.sort] with its stability and uniqueness;
    - [JsNumber]: binary64 numbers, and that [a - b] compares them exactly;
    - [JsText]: strings, [split], [replace], [String(n)], [parseInt], [toFixed];
    - [JsValue]: primitive values, truthiness, [===], Sets, objects used as maps
      with [Object.prototype] behind them, exceptions ([exc]);
    - [JsFloor]: [Math.floor] and the rounding of a product with [Math.random()];
    - [Markup]: element trees and the merging of properties, over a class of
      property values ([PropValue]) with one instance for the page and one for
      components with handlers;
    - [UrlParams]: [URLSearchParams] and the location.

    The dashboard, in the order of the source:
    - [BenchmarkData]: [flattenedData], [allFilterOptions], [filterOptions],
      [serverColors], [groupedTestCases];
    - [SampleData]: [sampleHierarchicalData] of [app/page.tsx], value by value;
    - [Filters]: [parseUrlParams], [updateUrlParams],
      [validateAndSanitizeFilters], the initial state, the repair effect;
    - [ChartData]: [filteredData], [chartData], [visibleDataKeys],
      [handleChartHover], [metricInfo], [summaryStats], [topPerformers]; its
      theorems are in [ChartSpec] and [Ranking];
    - [DashboardState]: the state ([Dash]), the handlers and the four effects as
      steps ([dispatch], [flush], [mount]); [Session] proves what holds in every
      reachable state;
    - [View]: the JSX as a function from the state to a tree, with handlers as
      functions into the actions of [DashboardState]; [ViewSpec] relates the tree to
      the state machine;
    - [Page]: [Home];
    - [Entry]: [embed.tsx], [app/layout.tsx], [components/theme-provider.tsx] and
      [app/api/benchmarks/route.ts].

    The components with state or logic of their own: [UseToast], [BenchmarkUtils],
    [Sidebar], [Carousel], [Chart], [Form].

    The library of components, [components/ui], one definition per component and
    one section per source file:
    - [UiKit]: what the components are written with: destructured properties with
      their defaults, [...props], class names, and the interface [Styling] to [cn]
      and [cva];
    - [UiElements] (buttons, cards, inputs, selects, tabs, tables, toasts, ...),
      [UiOverlays] (dialogs, sheets, drawers, popovers), [UiMenus] (menubar,
      dropdown, context and navigation menus, command palette), [SidebarMenu] (the
      part of [sidebar.tsx] after [SidebarInset]), [UiOptions] (calendar and
      notifications, which take objects of options);
    - [UiSpec]: the table of the library with the interface of each component, and
      that every one keeps it; [UiControls]: the components that compute;
      [UiRender]: trees rendered through the library, and what arrives on the screen,
      proved from the interface alone; [UiPage]: the dashboard's page drawn through
      the library.

    Components on the screen, where the parts meet: [Toaster] (store, toaster and
    library), [SidebarSession] (provider, sidebar and library, over time) and
    [CarouselSession] (engine, component and library, over time).
    [Theme]: the theme of [tailwind.config.ts] against [app/globals.css].

    The example application: [Spa] ([examples/spa/src]).

    ** What the theorems show

    - Data: the flattened list, the options, the menu and the colours are exactly
      the ones the hierarchy determines, and which malformed inputs throw.
    - Selection: whatever the URL says, the initial selection is valid; a valid
      selection with a visible server and without commas in the names survives
      writing to and reading from the URL; the repair effect settles in two runs on an
      offered selection.
    - Chart: the points are the axis values in numeric order, each visible result
      has its bar, the list of bar keys is exact in both modes of the protocol filter,
      the summary numbers are those of the data (and what a [null] latency does to
      them), and the ranking is by wins of best averages.
    - Session: effects come to rest, on a repaired selection when the CPU or the test
      case changed; in every reachable state the address bar shows the session, and on
      gap-free data the selection is valid and a reload restores a repaired one with a
      visible server; legend clicks do what they say; filters, legend and
      hovering do not disturb each other in any interleaving, and the address
      depends on the filter changes and the legend clicks only.
    - Page: it renders in every reachable state; each control performs an action the
      state machine offers (the tree refines [offered_action]); bars have their
      server's colour; the application comes up at every address with its sample
      data, and what the embedding script does with and without a root element, a
      rejected request, an answer that is no data, and results.
    - Library: the components pass on the properties they are given, let the caller's
      class name win and show the caller's children, with every exception listed and
      shown to be one; drawn through the library, the page has the same controls and
      texts.
    - Toasts: the invariant of the store over all interleavings of calls, timers and
      the moments of the hooks, which hooks are up to date, and which can miss a toast;
      dismissed toasts vanish; ids do not repeat; the screen shows the store, and
      closing a toast on the screen reaches it.
    - Sidebar and carousel: the sidebar on the screen and its cookie through a
      session with late handlers, for a provider with its own state and for one that a
      parent controls, handler merging, the tooltips of the menu,
      the width of its loading skeleton under rounding, the carousel's buttons
      against the engine through sessions with late events.
    - Chart container: which entry of the configuration a tooltip or legend item is
      shown with, and the generated style sheet.  Form fields: the ids that tie
      label, control, description and message together.
    - Example application: the page shown follows the address through clicks and
      moves in the session history, and when a move is missed.
    - Statements of kind "error" describe behaviour that differs from what the code
      means to do; each has a concrete instance.

    ** Parameters, bounds and fuel

    [localeCompare] ([lc]), the platform's number formatting, the text of inherited
    members, [toLocaleString], clsx and tailwind-merge (of which [cn] is made), [cva]
    (class-variance-authority), the Embla engine, [getFieldState] of
    react-hook-form, the sidebar's parent, the number drawn by [Math.random()],
    what [fetch] gives and [NextResponse.json] are arguments of the
    definitions.  [flush] takes a budget of renders:
    [Session.effects_settle] shows that 2 are enough, more change nothing.
    [run_due] takes the number of timers, which bounds how many can be due.  Every
    other definition is total without fuel.  Numbers are binary64; toast ids wrap
    at [MAX_SAFE_INTEGER] as in the source.

    Strings are sequences of UTF-8 bytes.  The default order of [sort()] is that of the
    UTF-16 code units ([string_cmp] compares the bytes accordingly), and the white space
    that number parsing skips includes the characters beyond ASCII.

    React runs a component in parts: render, effect, clean-up.  Where a component reads
    outside state in its first render and subscribes in an effect ([UseToast], [Spa]),
    these are separate steps and anything may happen in between.

    ** Not modelled

    The Rust and Ruby code; the packages (React, recharts, Radix, Embla,
    react-hook-form, react-day-picker, sonner, clsx), of which only what the source
    relies on appears, as above: their elements are tags.  Of the library's
    components, references ([ref]) and display names are left out.
    [components/ui/use-toast.ts] and [components/ui/use-mobile.tsx] are copies of the
    modelled files in [hooks], and nothing imports them.  Build configuration other
    than the theme, the metadata record of [app/layout.tsx], the generated bundles and the framework templates of the Rails
    examples hold no logic of the program. *)

From Stdlib Require Export ZArith Lia Ascii.
From stdpp Require Export base tactics numbers strings gmap sorting list.

Declare Scope js_scope.
Delimit Scope js_scope with js.

Create HintDb js.

(** ** Boolean reflection *)

(** Turns the boolean facts that executable definitions produce into
    propositions, in the goal and in the context. *)
Ltac breflect :=
  repeat match goal with
  | H : (_ && _)%bool = true |- _ => apply andb_prop in H as [? ?]
  | H : (_ || _)%bool = false |- _ => apply orb_false_elim in H as [? ?]
  | H : negb _ = true |- _ => apply negb_true_iff in H
  | H : negb _ = false |- _ => apply negb_false_iff in H
  | H : bool_decide _ = true |- _ => apply bool_decide_eq_true in H
  | H : bool_decide _ = false |- _ => apply bool_decide_eq_false in H
  | H : String.eqb _ _ = true |- _ => apply String.eqb_eq in H
  | H : String.eqb _ _ = false |- _ => apply String.eqb_neq in H
  end.

(** Case analysis on every [if] and [match] of the goal, then clean-up. *)
Ltac split_ifs := repeat (case_match || case_decide); breflect; simplify_eq/=.

(** ** Induction on the length of a string *)

Lemma string_len_ind (P : string → Prop) :
  (∀ s, (∀ t, String.length t < String.length s → P t) → P s) → ∀ s, P s.
Proof.
  intros H s. remember (String.length s) as n eqn:Hn. revert s Hn.
  induction (lt_wf n) as [n _ IH]. intros s ->. apply H. intros t Ht. by eapply IH.
Qed.

(** ** [Array.prototype.filter], [some], [includes] on boolean predicates *)

Section BoolLists.
Context {A : Type}.
Implicit Types (f : A → bool) (l : list A).

Lemma elem_of_lfilter f l x : x ∈ List.filter f l ↔ f x = true ∧ x ∈ l.
Proof. rewrite !list_elem_of_In, List.filter_In. tauto. Qed.

Lemma existsb_elem f l : existsb f l = true ↔ ∃ x, x ∈ l ∧ f x = true.
Proof.
  rewrite List.existsb_exists. split; intros (x & Hx & ?); exists x;
    rewrite ?list_elem_of_In in *; auto.
Qed.

Lemma existsb_not_elem f l : existsb f l = false ↔ ∀ x, x ∈ l → f x = false.
Proof.
  split.
  - intros H x Hx. destruct (f x) eqn:E; [|done].
    assert (existsb f l = true) by (apply existsb_elem; eauto). congruence.
  - intros H. destruct (existsb f l) eqn:E; [|done].
    apply existsb_elem in E as (x & Hx & Hf). rewrite H in Hf; done.
Qed.

Lemma lfilter_app f l1 l2 :
  List.filter f (l1 ++ l2) = List.filter f l1 ++ List.filter f l2.
Proof. induction l1; simpl; [done|]. case_match; simpl; congruence. Qed.

Lemma lfilter_all f l : (∀ x, x ∈ l → f x = true) → List.filter f l = l.
Proof.
  induction l as [|x l IH]; intros H; simpl; [done|].
  rewrite (H x) by set_solver. f_equal. apply IH. set_solver.
Qed.

Lemma lfilter_none f l : (∀ x, x ∈ l → f x = false) → List.filter f l = [].
Proof.
  induction l as [|x l IH]; intros H; simpl; [done|].
  rewrite (H x) by set_solver. apply IH. set_solver.
Qed.

Lemma NoDup_lfilter f l : NoDup l → NoDup (List.filter f l).
Proof.
  induction 1 as [|x l Hx _ IH]; simpl; [constructor|].
  case_match; [constructor|]; auto. rewrite elem_of_lfilter. tauto.
Qed.

Lemma Forall_lfilter (P : A → Prop) f l : Forall P l → Forall P (List.filter f l).
Proof. induction 1; simpl; [constructor|]. case_match; [constructor|]; auto. Qed.
End BoolLists.

(** ** [[...new Set(xs)]]: first occurrences, in order *)

Section DedupFirst.
Context {A : Type} (eqb : A → A → bool).

(** One [Set.prototype.add] on the insertion-ordered elements. *)
Definition set_add (acc : list A) (x : A) : list A :=
  if existsb (eqb x) acc then acc else acc ++ [x].

(** [Array.from(new Set(xs))]. *)
Definition set_of (xs : list A) : list A := foldl set_add [] xs.

Context (P : A → Prop).
Hypothesis eqb_ok : ∀ x y, P x → P y → eqb x y = true ↔ x = y.

Lemma set_add_elem acc x y :
  Forall P acc → P x → y ∈ set_add acc x ↔ y ∈ acc ∨ y = x.
Proof.
  intros HP Hx. unfold set_add. case_match eqn:E; [|clear eqb_ok; set_solver].
  apply existsb_elem in E as (z & Hz & Heq).
  rewrite Forall_forall in HP. assert (x = z) as -> by (apply eqb_ok; auto).
  clear eqb_ok. set_solver.
Qed.

Lemma foldl_set_add_elem xs acc y :
  Forall P acc → Forall P xs → y ∈ foldl set_add acc xs ↔ y ∈ acc ∨ y ∈ xs.
Proof.
  revert acc. induction xs as [|x xs IH]; intros acc Ha Hxs; simpl; [clear; set_solver|].
  inversion Hxs; subst. rewrite IH, set_add_elem; auto; [clear; set_solver|].
  unfold set_add. case_match; [done|]. apply Forall_app. auto.
Qed.

(** A set holds exactly the elements of the array it is built from. *)
Lemma elem_of_set_of xs y : Forall P xs → y ∈ set_of xs ↔ y ∈ xs.
Proof.
  intros. unfold set_of. rewrite foldl_set_add_elem; auto. clear; set_solver.
Qed.

Lemma set_add_NoDup acc x : Forall P acc → P x → NoDup acc → NoDup (set_add acc x).
Proof.
  intros HP Hx Hnd. unfold set_add. case_match eqn:E; [done|].
  apply NoDup_app. split_and!; [done| |apply NoDup_singleton].
  intros y Hy. rewrite list_elem_of_singleton. intros ->.
  rewrite existsb_not_elem in E. specialize (E _ Hy).
  rewrite (proj2 (eqb_ok x x Hx Hx)) in E; done.
Qed.

Lemma set_of_NoDup xs : Forall P xs → NoDup (set_of xs).
Proof.
  intros Hxs. unfold set_of.
  cut (∀ acc, Forall P acc → NoDup acc → NoDup (foldl set_add acc xs)).
  { intros H. apply H; constructor. }
  induction Hxs as [|x xs Hx Hxs IH]; intros acc Ha Hnd; simpl; [done|].
  apply IH; [|by apply set_add_NoDup].
  unfold set_add. case_match; [done|]. apply Forall_app. auto.
Qed.

(** A list without duplicates is its own set, in the same order. *)
Lemma set_of_NoDup_id xs : Forall P xs → NoDup xs → set_of xs = xs.
Proof.
  intros Hxs Hnd. unfold set_of.
  cut (∀ acc, Forall P acc → (∀ x, x ∈ acc → x ∉ xs) → foldl set_add acc xs = acc ++ xs).
  { intros H. rewrite H; [done|constructor|clear; set_solver]. }
  induction Hnd as [|x xs Hx Hnd IH]; intros acc Ha Hd; simpl; [by rewrite app_nil_r|].
  inversion Hxs; subst. unfold set_add at 2.
  assert (existsb (eqb x) acc = false) as ->.
  { apply existsb_not_elem. intros y Hy. apply not_true_is_false. intros Heq.
    rewrite Forall_forall in Ha. assert (x = y) as -> by (apply eqb_ok; auto).
    by apply Hd in Hy; rewrite elem_of_cons in Hy; tauto. }
  rewrite IH; auto; [by rewrite <- app_assoc| |].
  - apply Forall_app. auto.
  - intros y [Hy | ->%list_elem_of_singleton]%elem_of_app; [|done].
    apply Hd in Hy. rewrite elem_of_cons in Hy. tauto.
Qed.
End DedupFirst.
