(* ===== verification/JsSort.v ===== *)
(** * [Array.prototype.sort]

    The language fixes the result of [sort(compareFn)] for a consistent
    comparator: the one permutation that is ordered and keeps the relative
    order of equal elements.  [sort_by] computes it by insertion; the lemmas
    show that it is a permutation, ordered and stable, and that these three
    facts determine the result, so nothing depends on the algorithm an engine
    uses. *)

From S2P Require Import Prelude.

Section StableSort.
Context {A : Type} (cmp : A → A → comparison).

(** [x] goes in front of the first element it does not exceed. *)
Fixpoint insert_by (x : A) (l : list A) : list A :=
  match l with
  | [] => [x]
  | y :: l' => match cmp x y with
               | Gt => y :: insert_by x l'
               | _ => x :: y :: l'
               end
  end.

Definition sort_by (l : list A) : list A := foldr insert_by [] l.

Definition cmp_le (x y : A) : Prop := cmp x y ≠ Gt.
Definition cmp_eqb (x y : A) : bool :=
  match cmp x y with Eq => true | _ => false end.
End StableSort.

(** What a comparator owes to [sort]: on the values of [P] it is a total
    preorder ("consistent comparator" in the language definition). *)
Class ConsistentCmp {A} (P : A → Prop) (cmp : A → A → comparison) : Prop := {
  cmp_opp : ∀ x y, P x → P y → cmp y x = CompOpp (cmp x y);
  cmp_trans : ∀ x y z, P x → P y → P z →
    cmp_le cmp x y → cmp_le cmp y z → cmp_le cmp x z;
}.

Section Permutation.
Context {A : Type} (cmp : A → A → comparison).

Lemma insert_by_Permutation x l : insert_by cmp x l ≡ₚ x :: l.
Proof.
  induction l as [|y l IH]; simpl; [done|]. case_match; [done|done|].
  rewrite IH. apply Permutation_swap.
Qed.

Lemma sort_by_Permutation l : sort_by cmp l ≡ₚ l.
Proof.
  induction l as [|x l IH]; simpl; [done|]. by rewrite insert_by_Permutation, IH.
Qed.

Lemma elem_of_sort_by x l : x ∈ sort_by cmp l ↔ x ∈ l.
Proof. by rewrite sort_by_Permutation. Qed.

Lemma sort_by_NoDup l : NoDup (sort_by cmp l) ↔ NoDup l.
Proof. by rewrite sort_by_Permutation. Qed.

Lemma sort_by_length l : length (sort_by cmp l) = length l.
Proof. by rewrite sort_by_Permutation. Qed.
End Permutation.

Section Consistent.
Context {A : Type} (P : A → Prop) (cmp : A → A → comparison) `{!ConsistentCmp P cmp}.

Lemma cmp_refl x : P x → cmp x x = Eq.
Proof. intros Hx. pose proof (cmp_opp x x Hx Hx). by destruct (cmp x x). Qed.

Lemma cmp_gt_le x y : P x → P y → cmp x y = Gt → cmp_le cmp y x.
Proof. intros Hx Hy E. unfold cmp_le. by rewrite (cmp_opp x y), E. Qed.

Lemma cmp_le_antisym x y : P x → P y → cmp_le cmp x y → cmp_le cmp y x → cmp x y = Eq.
Proof.
  unfold cmp_le. intros Hx Hy H1 H2. rewrite (cmp_opp x y) in H2 by done.
  by destruct (cmp x y).
Qed.

Lemma cmp_eq_class x y z : P x → P y → P z → cmp z x = Eq → cmp z y = Eq → cmp x y = Eq.
Proof.
  intros Hx Hy Hz E1 E2.
  assert (E1' : cmp x z = Eq) by (rewrite (cmp_opp z x), E1; done).
  assert (E2' : cmp y z = Eq) by (rewrite (cmp_opp z y), E2; done).
  apply cmp_le_antisym; auto; apply (cmp_trans _ z); auto; unfold cmp_le; congruence.
Qed.

Lemma insert_by_StronglySorted x l :
  P x → Forall P l → StronglySorted (cmp_le cmp) l →
  StronglySorted (cmp_le cmp) (insert_by cmp x l).
Proof.
  intros Hx Hl Hs. induction Hs as [|y l Hs IH Hall]; simpl; [repeat constructor|].
  inversion Hl; subst. destruct (cmp x y) eqn:E.
  1,2: constructor; [by constructor|]; constructor; [unfold cmp_le; congruence|];
    apply Forall_forall; intros z Hz; rewrite Forall_forall in *;
    apply (cmp_trans _ y); auto; unfold cmp_le; congruence.
  constructor; [by apply IH|]. rewrite insert_by_Permutation.
  constructor; [by apply cmp_gt_le|done].
Qed.

Lemma sort_by_Forall l : Forall P l → Forall P (sort_by cmp l).
Proof. by rewrite sort_by_Permutation. Qed.

(** The result is ordered. *)
Lemma sort_by_StronglySorted l :
  Forall P l → StronglySorted (cmp_le cmp) (sort_by cmp l).
Proof.
  induction 1 as [|x l Hx Hl IH]; simpl; [constructor|].
  apply insert_by_StronglySorted; auto. by apply sort_by_Forall.
Qed.

Lemma insert_by_stable z x l :
  P z → P x → Forall P l →
  List.filter (cmp_eqb cmp z) (insert_by cmp x l) = List.filter (cmp_eqb cmp z) (x :: l).
Proof.
  intros Hz Hx. induction 1 as [|y l Hy Hl IH]; simpl; [done|].
  destruct (cmp x y) eqn:E; simpl; [done|done|]. rewrite IH. simpl.
  unfold cmp_eqb. destruct (cmp z x) eqn:E1, (cmp z y) eqn:E2; try done.
  by rewrite (cmp_eq_class x y z) in E.
Qed.

(** Equal elements keep the order they had. *)
Lemma sort_by_stable z l :
  P z → Forall P l →
  List.filter (cmp_eqb cmp z) (sort_by cmp l) = List.filter (cmp_eqb cmp z) l.
Proof.
  intros Hz. induction 1 as [|x l Hx Hl IH]; simpl; [done|].
  rewrite insert_by_stable by auto using sort_by_Forall. simpl. by rewrite IH.
Qed.

(** Ordered and stable permutations are equal: the result of a stable sort
    is unique. *)
Lemma stable_sorted_unique l1 l2 :
  Forall P l1 → l1 ≡ₚ l2 →
  StronglySorted (cmp_le cmp) l1 → StronglySorted (cmp_le cmp) l2 →
  (∀ z, P z → List.filter (cmp_eqb cmp z) l1 = List.filter (cmp_eqb cmp z) l2) →
  l1 = l2.
Proof.
  intros HP Hperm Hs1. revert HP l2 Hperm.
  induction Hs1 as [|a l1 Hs1 IH Ha]; intros HP l2 Hperm Hs2 Hst.
  { by apply Permutation_nil_l in Hperm. }
  destruct l2 as [|b l2]; [by apply Permutation_nil_r in Hperm|].
  inversion HP; subst. inversion Hs2 as [|?? Hs2' Hb]; subst.
  assert (HP2 : Forall P (b :: l2)) by (by rewrite <- Hperm).
  inversion HP2; subst. rewrite Forall_forall in *.
  assert (cmp a b = Eq) as Hab.
  { apply cmp_le_antisym; auto.
    - assert (b ∈ a :: l1) as [->|Hin]%elem_of_cons by (rewrite Hperm; left);
        [unfold cmp_le; by rewrite cmp_refl|auto].
    - assert (a ∈ b :: l2) as [->|Hin]%elem_of_cons by (rewrite <- Hperm; left);
        [unfold cmp_le; by rewrite cmp_refl|auto]. }
  pose proof (Hst a ltac:(auto)) as Hcls. simpl in Hcls. unfold cmp_eqb in Hcls.
  rewrite cmp_refl, Hab in Hcls by done. simplify_eq. f_equal.
  apply IH; auto.
  - by apply Permutation_cons_inv in Hperm.
  - intros z Hz. specialize (Hst z Hz). simpl in Hst. case_match; by simplify_eq.
Qed.

(** Sorting an ordered array changes nothing. *)
Lemma sort_by_id l :
  Forall P l → StronglySorted (cmp_le cmp) l → sort_by cmp l = l.
Proof.
  intros HP Hs. apply stable_sorted_unique; auto using sort_by_Forall,
    sort_by_StronglySorted, sort_by_stable, sort_by_Permutation.
Qed.
End Consistent.

#[export] Hint Resolve sort_by_Permutation : js.
