(* ===== verification/JsNumber.v ===== *)
(** * JavaScript numbers

    A JavaScript [Number] is an IEEE 754 binary64 value.  It is modelled by the
    executable [spec_float] of the Standard Library at precision 53 and maximal
    exponent 1024, so sums, quotients and products round exactly as in the
    engine.  The file also has the conversions the dashboard uses: number
    literals, [String(n)], [Number.parseInt], [Number(s)], [toFixed], and
    [Math.min]/[Math.max].

    The main result, [nsub_cmp], is about the comparator [(a, b) => a - b]:
    on every pair of doubles the sign of the rounded difference is the order
    of the operands, so sorting with it sorts numerically. *)

From Stdlib Require Import SpecFloat.
From S2P Require Import Prelude JsSort.

#[local] Open Scope Z_scope.

Abbreviation num := spec_float.

(** ** Arithmetic *)

Definition nadd : num → num → num := SFadd 53 1024.
Definition nsub : num → num → num := SFsub 53 1024.
Definition nmul : num → num → num := SFmul 53 1024.
Definition ndiv : num → num → num := SFdiv 53 1024.

Definition is_nan (x : num) : bool := match x with S754_nan => true | _ => false end.

(** The double closest to an integer, to a fraction, to [s * 10^k]. *)
Definition of_Z (z : Z) : num := binary_normalize 53 1024 z 0 false.

Definition of_ratio (neg : bool) (p q : positive) : num :=
  let '(m, e, l) := SFdiv_core_binary 53 1024 (Zpos p) 0 (Zpos q) 0 in
  binary_round_aux 53 1024 neg m e l.

Definition of_dec (neg : bool) (s : N) (k : Z) : num :=
  match s with
  | N0 => S754_zero neg
  | Npos p =>
      if 0 <=? k then of_ratio neg (p * Z.to_pos (10 ^ k)) 1
      else of_ratio neg p (Z.to_pos (10 ^ (- k)))
  end.

(** A decimal literal of the source, [lit 1619649 (-2)] for [16196.49]. *)
Definition lit (s : N) (k : Z) : num := of_dec false s k.

(** ** Order

    [a < b], [a >= b], [a === b] (so [NaN !== NaN] and [0 === -0]). *)
Definition nlt (x y : num) : bool := SFltb x y.
Definition nle (x y : num) : bool := SFleb x y.
Definition nge (x y : num) : bool := SFleb y x.
Definition nstrict_eq (x y : num) : bool := SFeqb x y.

(** The sign a comparator's result has for [sort]: NaN counts as [+0]. *)
Definition sign_cmp (n : num) : comparison :=
  match n with
  | S754_infinity s | S754_finite s _ _ => if s then Lt else Gt
  | S754_zero _ | S754_nan => Eq
  end.

(** [Math.min(...values)] and [Math.max(...values)]: NaN is contagious,
    [-0] is below [+0]. *)
Definition nmin2 (x y : num) : num :=
  match x, y with
  | S754_nan, _ | _, S754_nan => S754_nan
  | S754_zero sx, S754_zero sy => S754_zero (sx || sy)
  | _, _ => if SFltb y x then y else x
  end.

Definition nmax2 (x y : num) : num :=
  match x, y with
  | S754_nan, _ | _, S754_nan => S754_nan
  | S754_zero sx, S754_zero sy => S754_zero (sx && sy)
  | _, _ => if SFltb x y then y else x
  end.

Definition math_min (l : list num) : num := foldl nmin2 (S754_infinity false) l.
Definition math_max (l : list num) : num := foldl nmax2 (S754_infinity true) l.

(** ** The comparator [(a, b) => a - b] *)

Definition valid (x : num) : bool := valid_binary 53 1024 x.

(** What the dashboard's data holds: a well-formed double that is not NaN. *)
Definition real_num (x : num) : Prop := valid x = true ∧ is_nan x = false.

#[global] Instance real_num_dec x : Decision (real_num x).
Proof. unfold real_num. apply _. Defined.

Definition num_cmp (x y : num) : comparison :=
  match SFcompare x y with Some c => c | None => Eq end.

Definition sub_cmp (x y : num) : comparison := sign_cmp (nsub x y).

Lemma iter_pos_nat {A} (f : A → A) n x : SpecFloat.iter_pos f n x = Nat.iter (Pos.to_nat n) f x.
Proof.
  revert x. induction n as [n IH|n IH|]; intros x; cbn [SpecFloat.iter_pos].
  - rewrite !IH, Pos2Nat.inj_xI, Nat.iter_succ_r, <- Nat.iter_add.
    f_equal. lia.
  - rewrite !IH, Pos2Nat.inj_xO, <- Nat.iter_add. f_equal. lia.
  - done.
Qed.

Lemma digits2_bounds p :
  2 ^ (Zpos (digits2_pos p) - 1) ≤ Zpos p < 2 ^ Zpos (digits2_pos p).
Proof.
  induction p as [p IH|p IH|]; simpl digits2_pos; [| |simpl; lia].
  all: rewrite Pos2Z.inj_succ; unfold Z.succ;
    rewrite Z.add_simpl_r; rewrite Z.pow_add_r by lia;
    assert (2 ^ Zpos (digits2_pos p) = 2 * 2 ^ (Zpos (digits2_pos p) - 1))
      by (rewrite <- Z.pow_succ_r by lia; f_equal; lia); lia.
Qed.

(** Shifting out fewer bits than the mantissa has leaves it positive. *)
Lemma shr_iter_pos n p r s :
  Z.of_nat n < Zpos (digits2_pos p) →
  ∃ q r' s', Nat.iter n shr_1 (Build_shr_record (Zpos p) r s)
             = Build_shr_record (Zpos q) r' s'.
Proof.
  revert p r s. induction n as [|n IH]; intros p r s Hn; [simpl; eauto|].
  rewrite Nat.iter_succ_r. destruct p as [p|p|]; simpl in Hn.
  3: lia.
  all: rewrite Pos2Z.inj_succ in Hn; apply IH; lia.
Qed.

Lemma shr_fexp_pos p e l :
  -1074 ≤ e → ∃ q r s e', shr_fexp 53 1024 (Zpos p) e l = (Build_shr_record (Zpos q) r s, e')
                        ∧ -1074 ≤ e'.
Proof.
  intros He. unfold shr_fexp, shr, fexp, emin.
  pose proof (Pos2Z.is_pos (digits2_pos p)) as Hd. simpl Zdigits2.
  assert (∃ r s, shr_record_of_loc (Zpos p) l = Build_shr_record (Zpos p) r s) as (r & s & ->).
  { destruct l as [|[]]; simpl; eauto. }
  destruct (_ - e) as [|d|d] eqn:E; [eauto 10| |eauto 10].
  rewrite iter_pos_nat. destruct (shr_iter_pos (Pos.to_nat d) p r s) as (q & r' & s' & ->).
  { rewrite positive_nat_Z. lia. }
  do 4 eexists. split; [done|]. lia.
Qed.

Lemma binary_round_aux_sign sx p e l :
  -1074 ≤ e → sign_cmp (binary_round_aux 53 1024 sx (Zpos p) e l) = if sx then Lt else Gt.
Proof.
  intros He. unfold binary_round_aux.
  destruct (shr_fexp_pos p e l He) as (q & r & s & e' & -> & He').
  assert (∃ q', round_nearest_even (shr_m (Build_shr_record (Zpos q) r s))
      (loc_of_shr_record (Build_shr_record (Zpos q) r s)) = Zpos q') as [q' ->].
  { destruct r, s; simpl; try case_match; eauto. }
  destruct (shr_fexp_pos q' e' loc_Exact He') as (q2 & r2 & s2 & e2 & -> & _).
  simpl. by case_match.
Qed.

Lemma binary_round_sign sx p e :
  -1074 ≤ e → sign_cmp (binary_round 53 1024 sx p e) = if sx then Lt else Gt.
Proof.
  intros He. unfold binary_round, shl_align, fexp, emin.
  destruct (_ - e); apply binary_round_aux_sign; lia.
Qed.

Lemma binary_normalize_sign m e :
  -1074 ≤ e → sign_cmp (binary_normalize 53 1024 m e false) = (m ?= 0).
Proof. intros He. destruct m; simpl; [done|..]; by rewrite binary_round_sign. Qed.

Lemma iter_xO_value p d : Zpos (Pos.iter xO p d) = Zpos p * 2 ^ Zpos d.
Proof.
  induction d as [|d IH] using Pos.peano_ind; [simpl; lia|].
  rewrite Pos.iter_succ, Pos2Z.inj_xO, IH, Pos2Z.inj_succ, Z.pow_succ_r; lia.
Qed.

Lemma shl_align_value p e e' :
  e' ≤ e → Zpos (fst (shl_align p e e')) = Zpos p * 2 ^ (e - e').
Proof.
  intros He. unfold shl_align. destruct (e' - e) as [|d|d] eqn:E; cbn [fst]; [|lia|].
  - replace (e - e') with 0 by lia. lia.
  - replace (e - e') with (Zpos d) by lia. apply iter_xO_value.
Qed.

(** A finite double has either 53 significant bits or the least exponent. *)
Lemma valid_finite s m e :
  valid (S754_finite s m e) = true →
  -1074 ≤ e ∧ Zpos (digits2_pos m) ≤ 53 ∧ (Zpos (digits2_pos m) = 53 ∨ e = -1074).
Proof.
  unfold valid, valid_binary, bounded, canonical_mantissa, fexp, emin. intros H. breflect.
  lia.
Qed.

(** On magnitudes the exponents decide, then the mantissas. *)
Lemma magnitude_lt s1 s2 m1 e1 m2 e2 :
  valid (S754_finite s1 m1 e1) = true → valid (S754_finite s2 m2 e2) = true →
  e1 < e2 → Zpos m1 < Zpos m2 * 2 ^ (e2 - e1).
Proof.
  intros (?&?&?)%valid_finite (?&?&?)%valid_finite Hlt.
  pose proof (digits2_bounds m1) as [_ Hm1]. pose proof (digits2_bounds m2) as [Hm2 _].
  assert (2 ^ Zpos (digits2_pos m1) ≤ 2 ^ 53) by (apply Z.pow_le_mono_r; lia).
  assert (Zpos (digits2_pos m2) = 53) as Hd by lia. rewrite Hd in Hm2.
  assert (2 ^ 1 ≤ 2 ^ (e2 - e1)) by (apply Z.pow_le_mono_r; lia).
  change (2 ^ (53 - 1)) with 4503599627370496 in *. change (2 ^ 53) with 9007199254740992 in *.
  change (2 ^ 1) with 2 in *. nia.
Qed.

Lemma aligned_cmp s1 s2 m1 e1 m2 e2 :
  valid (S754_finite s1 m1 e1) = true → valid (S754_finite s2 m2 e2) = true →
  (Zpos m1 * 2 ^ (e1 - Z.min e1 e2) ?= Zpos m2 * 2 ^ (e2 - Z.min e1 e2))
  = match e1 ?= e2 with Lt => Lt | Gt => Gt | Eq => Pos.compare_cont Eq m1 m2 end.
Proof.
  intros H1 H2. destruct (Z.compare_spec e1 e2) as [->|Hlt|Hlt].
  - rewrite Z.min_id, Z.sub_diag, !Z.mul_1_r. done.
  - rewrite Z.min_l, Z.sub_diag, Z.mul_1_r by lia.
    apply Z.compare_lt_iff. by eapply magnitude_lt.
  - rewrite Z.min_r, Z.sub_diag, Z.mul_1_r by lia.
    apply Z.compare_gt_iff. by eapply magnitude_lt.
Qed.

(** The sign of the rounded difference of two doubles is their order. *)
Lemma nsub_cmp x y : real_num x → real_num y → sub_cmp x y = num_cmp x y.
Proof.
  intros [Hx Nx] [Hy Ny]. unfold sub_cmp, num_cmp.
  destruct x as [sx|sx| |sx mx ex], y as [sy|sy| |sy my ey];
    try discriminate Nx; try discriminate Ny.
  1-8: by destruct sx, sy.
  unfold nsub, SFsub. rewrite binary_normalize_sign.
  2: { apply valid_finite in Hx, Hy. lia. }
  rewrite !shl_align_value by lia. cbn [SFcompare].
  pose proof (aligned_cmp _ _ _ _ _ _ Hx Hy) as Hc.
  set (a := Zpos mx * _) in *. set (b := Zpos my * _) in *.
  assert (0 < a) by (unfold a; apply Z.mul_pos_pos; [lia|apply Z.pow_pos_nonneg; lia]).
  assert (0 < b) by (unfold b; apply Z.mul_pos_pos; [lia|apply Z.pow_pos_nonneg; lia]).
  clearbody a b. destruct sx, sy; unfold cond_Zopp.
  - transitivity (CompOpp (a ?= b)).
    + rewrite <- Z.compare_antisym. destruct (Z.compare_spec b a);
        [apply Z.compare_eq_iff|apply Z.compare_lt_iff|apply Z.compare_gt_iff]; lia.
    + rewrite Hc. by destruct (ex ?= ey).
  - apply Z.compare_lt_iff. lia.
  - apply Z.compare_gt_iff. lia.
  - rewrite <- Hc. destruct (Z.compare_spec a b);
      [apply Z.compare_eq_iff|apply Z.compare_lt_iff|apply Z.compare_gt_iff]; lia.
Qed.

(** ** The numeric order is a total preorder

    Doubles embed into lexicographically ordered triples of integers. *)

Definition num_key (x : num) : Z * Z * Z :=
  match x with
  | S754_infinity true => (-2, 0, 0)
  | S754_finite true m e => (-1, - e, - Zpos m)
  | S754_zero _ | S754_nan => (0, 0, 0)
  | S754_finite false m e => (1, e, Zpos m)
  | S754_infinity false => (2, 0, 0)
  end.

Definition lex3 (a b : Z * Z * Z) : comparison :=
  let '(a1, a2, a3) := a in let '(b1, b2, b3) := b in
  match a1 ?= b1 with
  | Eq => match a2 ?= b2 with Eq => a3 ?= b3 | c => c end
  | c => c
  end.

Lemma lex3_opp a b : lex3 b a = CompOpp (lex3 a b).
Proof.
  destruct a as [[a1 a2] a3], b as [[b1 b2] b3]. unfold lex3.
  rewrite (Z.compare_antisym a1 b1), (Z.compare_antisym a2 b2), (Z.compare_antisym a3 b3).
  by destruct (a1 ?= b1), (a2 ?= b2), (a3 ?= b3).
Qed.

Lemma lex3_trans a b c : lex3 a b ≠ Gt → lex3 b c ≠ Gt → lex3 a c ≠ Gt.
Proof.
  destruct a as [[a1 a2] a3], b as [[b1 b2] b3], c as [[c1 c2] c3]. unfold lex3.
  destruct (Z.compare_spec a1 b1), (Z.compare_spec b1 c1), (Z.compare_spec a1 c1);
    try (intros; lia || done); subst;
  destruct (Z.compare_spec a2 b2), (Z.compare_spec b2 c2), (Z.compare_spec a2 c2);
    try (intros; lia || done); subst;
  destruct (Z.compare_spec a3 b3), (Z.compare_spec b3 c3), (Z.compare_spec a3 c3);
    intros; lia || done.
Qed.

Lemma num_cmp_key x y :
  is_nan x = false → is_nan y = false → num_cmp x y = lex3 (num_key x) (num_key y).
Proof.
  intros Nx Ny. unfold num_cmp.
  destruct x as [[]|[]| |[] mx ex], y as [[]|[]| |[] my ey];
    try discriminate Nx; try discriminate Ny; try done; unfold num_key, lex3, SFcompare.
  change (-1 ?= -1) with Eq. rewrite !Z.compare_opp, (Z.compare_antisym ex ey).
  rewrite (Z.compare_antisym (Zpos mx)). by destruct (ex ?= ey).
Qed.

#[global] Instance num_cmp_consistent : ConsistentCmp (λ x, is_nan x = false) num_cmp.
Proof.
  split; intros.
  - rewrite !num_cmp_key by done. apply lex3_opp.
  - unfold cmp_le in *. rewrite num_cmp_key in * by done. by eapply lex3_trans.
Qed.

(** [(a, b) => a - b] is a consistent comparator on doubles other than NaN. *)
#[global] Instance sub_cmp_consistent : ConsistentCmp real_num sub_cmp.
Proof.
  split.
  - intros x y Hx Hy. rewrite !nsub_cmp by done.
    apply (cmp_opp (P := λ x, is_nan x = false)); [apply Hx|apply Hy].
  - intros x y z Hx Hy Hz. unfold cmp_le. rewrite !nsub_cmp by done.
    apply (cmp_trans (P := λ x, is_nan x = false)); [apply Hx|apply Hy|apply Hz].
Qed.

(** Sorting with [(a, b) => a - b] is sorting by the numeric order. *)
Lemma sort_sub_cmp l : Forall real_num l → sort_by sub_cmp l = sort_by num_cmp l.
Proof.
  intros Hl. induction Hl as [|x l Hx Hl IH]; simpl; [done|]. rewrite IH.
  assert (Hs : Forall real_num (sort_by num_cmp l)) by (by rewrite sort_by_Permutation).
  clear IH. induction Hs as [|y s Hy Hs IHs]; simpl; [done|].
  rewrite nsub_cmp by done. by rewrite IHs.
Qed.

(** ** [Math.min] and [Math.max] *)

Abbreviation not_nan := (λ x : num, is_nan x = false).

Lemma nlt_cmp x y : not_nan x → not_nan y → SFltb x y = true ↔ num_cmp x y = Lt.
Proof.
  intros Hx Hy. unfold SFltb, num_cmp.
  destruct (SFcompare x y) as [[]|] eqn:E; done.
Qed.

Lemma num_cmp_refl x : not_nan x → cmp_le num_cmp x x.
Proof. intros Hx. unfold cmp_le. by rewrite (cmp_refl not_nan num_cmp x Hx). Qed.

Lemma nmin2_spec x y :
  not_nan x → not_nan y →
  (nmin2 x y = x ∨ nmin2 x y = y) ∧
  cmp_le num_cmp (nmin2 x y) x ∧ cmp_le num_cmp (nmin2 x y) y.
Proof.
  intros Hx Hy.
  pose proof num_cmp_refl as Hr.
  assert (Hgen : (let r := if SFltb y x then y else x in
    (r = x ∨ r = y) ∧ cmp_le num_cmp r x ∧ cmp_le num_cmp r y)).
  { simpl. destruct (SFltb y x) eqn:E.
    - apply nlt_cmp in E; [|done|done]. split_and!; auto. unfold cmp_le. by rewrite E.
    - split_and!; auto. unfold cmp_le. rewrite (cmp_opp (P := not_nan) y x) by done.
      destruct (num_cmp y x) eqn:E2; try done.
      apply nlt_cmp in E2; [congruence|done|done]. }
  destruct x as [sx|sx| |sx mx ex], y as [sy|sy| |sy my ey];
    try discriminate; try exact Hgen.
  destruct sx, sy; simpl; split_and!; by auto.
Qed.

Lemma nmax2_spec x y :
  not_nan x → not_nan y →
  (nmax2 x y = x ∨ nmax2 x y = y) ∧
  cmp_le num_cmp x (nmax2 x y) ∧ cmp_le num_cmp y (nmax2 x y).
Proof.
  intros Hx Hy.
  pose proof num_cmp_refl as Hr.
  assert (Hgen : (let r := if SFltb x y then y else x in
    (r = x ∨ r = y) ∧ cmp_le num_cmp x r ∧ cmp_le num_cmp y r)).
  { simpl. destruct (SFltb x y) eqn:E.
    - apply nlt_cmp in E; [|done|done]. split_and!; auto. unfold cmp_le. by rewrite E.
    - split_and!; auto. unfold cmp_le. rewrite (cmp_opp (P := not_nan) x y) by done.
      destruct (num_cmp x y) eqn:E2; try done.
      apply nlt_cmp in E2; [congruence|done|done]. }
  destruct x as [sx|sx| |sx mx ex], y as [sy|sy| |sy my ey];
    try discriminate; try exact Hgen.
  destruct sx, sy; simpl; split_and!; by auto.
Qed.

(** A fold that always keeps one of its two arguments, the extreme one. *)
Lemma fold_extreme (op : num → num → num) (R : num → num → Prop) x l :
  (∀ a, not_nan a → R a a) →
  (∀ a b c, not_nan a → not_nan b → not_nan c → R a b → R b c → R a c) →
  (∀ a b, not_nan a → not_nan b → (op a b = a ∨ op a b = b) ∧ R (op a b) a ∧ R (op a b) b) →
  not_nan x → Forall not_nan l →
  foldl op x l ∈ x :: l ∧ ∀ y, y ∈ x :: l → R (foldl op x l) y.
Proof.
  intros Hrefl Htr Hop Hx Hl. revert x Hx. induction Hl as [|y l Hy Hl IH]; intros x Hx.
  { simpl. split; [by left|]. intros y ->%list_elem_of_singleton. auto. }
  simpl. destruct (Hop x y Hx Hy) as (Hc & H1 & H2).
  assert (Ho : not_nan (op x y)) by (destruct Hc as [->| ->]; done).
  destruct (IH (op x y) Ho) as [Hin Hle]. split.
  - apply elem_of_cons in Hin as [->|?]; [destruct Hc as [->| ->]|];
      rewrite !elem_of_cons; auto.
  - assert (Hn : not_nan (foldl op (op x y) l)).
    { apply elem_of_cons in Hin as [->|Hin]; [done|]. rewrite Forall_forall in Hl. auto. }
    intros z [->|[->|Hz]%elem_of_cons]%elem_of_cons.
    + apply (Htr _ (op x y)); auto. apply Hle. by left.
    + apply (Htr _ (op x y)); auto. apply Hle. by left.
    + apply Hle. by right.
Qed.

(** [Math.min] of numbers is one of them and below all of them. *)
Lemma math_min_spec l :
  l ≠ [] → Forall not_nan l → math_min l ∈ l ∧ ∀ y, y ∈ l → cmp_le num_cmp (math_min l) y.
Proof.
  intros Hne Hl. destruct Hl as [|x l Hx Hl]; [done|]. unfold math_min. cbn [foldl].
  assert (nmin2 (S754_infinity false) x = x) as -> by (by destruct x as [[]|[]| |[]]).
  apply fold_extreme; try done.
  - apply num_cmp_refl.
  - intros a b c. apply (cmp_trans (P := not_nan)).
  - apply nmin2_spec.
Qed.

(** [Math.max] of numbers is one of them and above all of them. *)
Lemma math_max_spec l :
  l ≠ [] → Forall not_nan l → math_max l ∈ l ∧ ∀ y, y ∈ l → cmp_le num_cmp y (math_max l).
Proof.
  intros Hne Hl. destruct Hl as [|x l Hx Hl]; [done|]. unfold math_max. cbn [foldl].
  assert (nmax2 (S754_infinity true) x = x) as -> by (by destruct x as [[]|[]| |[]]).
  apply (fold_extreme nmax2 (λ a b, cmp_le num_cmp b a)); try done.
  - apply num_cmp_refl.
  - intros a b c Ha Hb Hc H1 H2. by apply (cmp_trans (P := not_nan) c b a).
  - apply nmax2_spec.
Qed.
