(* ===== verification/JsText.v ===== *)
(** * Strings and the conversions between strings and numbers

    A string is modelled by the bytes of its UTF-8 encoding: equality,
    concatenation, and splitting or replacing at ASCII characters, which is all
    the dashboard does with text, are the same on both, and percent-encoding
    in URLs is defined on those bytes.
    The file has the string operations the dashboard calls ([split], [replace]
    with the two patterns it uses, [join]) and the number conversions
    [String(n)], [n.toFixed(d)], [Number.parseInt(s)] and [Number(s)]. *)

From Stdlib Require Import SpecFloat.
From S2P Require Import Prelude JsNumber.

#[local] Open Scope Z_scope.

(** ** Decimal digits *)

Definition digit_char (d : N) : ascii := ascii_of_N (48 + d).

(** The value of a digit character in the given radix. *)
Definition char_digit (radix : N) (c : ascii) : option N :=
  let n := N_of_ascii c in
  let d := if (48 <=? n)%N && (n <=? 57)%N then Some (n - 48)%N
           else if (97 <=? n)%N && (n <=? 122)%N then Some (n - 87)%N
           else if (65 <=? n)%N && (n <=? 90)%N then Some (n - 55)%N
           else None in
  match d with
  | Some d => if (d <? radix)%N then Some d else None
  | None => None
  end.

Fixpoint dec_aux (fuel : nat) (n : N) (acc : string) : string :=
  let acc' := String (digit_char (n mod 10)) acc in
  match fuel with
  | O => acc'
  | S fuel' => if (n <? 10)%N then acc' else dec_aux fuel' (n / 10) acc'
  end.

(** The decimal digits of a natural number; its bit length is enough fuel. *)
Definition dec_N (n : N) : string := dec_aux (N.to_nat (N.size n)) n "".

(** The longest prefix of digits, its value and what follows. *)
Fixpoint read_digits (radix : N) (acc : N) (s : string) : N * string :=
  match s with
  | EmptyString => (acc, EmptyString)
  | String c s' => match char_digit radix c with
                   | Some d => read_digits radix (acc * radix + d)%N s'
                   | None => (acc, s)
                   end
  end.

(** ** [Number.prototype.toString] *)

(** The integer a positive double is, when it is one. *)
Definition int_value (m : positive) (e : Z) : option Z :=
  if 0 <=? e then Some (Zpos m * 2 ^ e)
  else if Zpos m mod 2 ^ (- e) =? 0 then Some (Zpos m / 2 ^ (- e)) else None.

Fixpoint zeros (n : nat) : string :=
  match n with O => "" | S n' => String "0" (zeros n') end.

(** The shortest decimal [s * 10^(n-k)] with [k] digits that rounds to the
    double [m * 2^e], the closest one if there are several: [(s, n)]. *)
Definition shortest_at (m : positive) (e : Z) (n : Z) (k : Z) : option (N * Z) :=
  let x := S754_finite false m e in
  let p := Zpos m * (if 0 <=? e then 2 ^ e else 1) * (if 0 <=? k - n then 10 ^ (k - n) else 1) in
  let q := (if 0 <=? e then 1 else 2 ^ (- e)) * (if 0 <=? k - n then 1 else 10 ^ (n - k)) in
  let lo := p / q in
  let rounds s := SFeqb (of_dec false (Z.to_N s) (n - k)) x in
  let up := if lo + 1 =? 10 ^ k then (1%N, n + 1) else (Z.to_N (lo + 1), n) in
  match rounds lo, rounds (lo + 1) with
  | true, true => Some (if 2 * (p mod q) <=? q then (Z.to_N lo, n) else up)
  | true, false => Some (Z.to_N lo, n)
  | false, true => Some up
  | false, false => None
  end.

Fixpoint shortest_from (m : positive) (e : Z) (n : Z) (k : Z) (fuel : nat) : N * Z :=
  match shortest_at m e n k, fuel with
  | Some r, _ => r
  | None, O => (Z.to_N (Zpos m), n)
  | None, S fuel' => shortest_from m e n (k + 1) fuel'
  end.

(** Seventeen digits always suffice for a double, so the search from one digit
    needs sixteen further tries. *)
Definition shortest (m : positive) (e : Z) : N * Z :=
  let scaled := if 0 <=? e then Zpos m * 2 ^ e * 10 ^ 400
                else Zpos m * 10 ^ 400 / 2 ^ (- e) in
  let n := Z.of_nat (String.length (dec_N (Z.to_N scaled))) - 400 in
  shortest_from m e n 1 16.

Definition show_Z (z : Z) : string :=
  if z <? 0 then String "-" (dec_N (Z.to_N (- z))) else dec_N (Z.to_N z).

(** The layout of digits [s] with decimal point position [n]. *)
Definition layout (s : N) (n : Z) : string :=
  let d := dec_N s in
  let k := Z.of_nat (String.length d) in
  if (k <=? n) && (n <=? 21) then d +:+ zeros (Z.to_nat (n - k))
  else if (0 <? n) && (n <=? 21) then
    String.substring 0 (Z.to_nat n) d +:+ "." +:+ String.substring (Z.to_nat n) (Z.to_nat (k - n)) d
  else if (-6 <? n) && (n <=? 0) then "0." +:+ zeros (Z.to_nat (- n)) +:+ d
  else
    let ex := (if n - 1 <? 0 then "e-" else "e+") +:+ dec_N (Z.to_N (Z.abs (n - 1))) in
    if k =? 1 then d +:+ ex
    else String.substring 0 1 d +:+ "." +:+ String.substring 1 (Z.to_nat (k - 1)) d +:+ ex.

Definition show_pos (m : positive) (e : Z) : string :=
  match int_value m e with
  | Some z => if z <? 2 ^ 53 then dec_N (Z.to_N z)
              else let '(s, n) := shortest m e in layout s n
  | None => let '(s, n) := shortest m e in layout s n
  end.

Definition num_to_string (x : num) : string :=
  match x with
  | S754_nan => "NaN"
  | S754_zero _ => "0"
  | S754_infinity s => if s then "-Infinity" else "Infinity"
  | S754_finite s m e => (if s then "-" else "") +:+ show_pos m e
  end.

(** ** [Number.prototype.toFixed] *)

(** The digits of [n / 10^f] with exactly [f] decimals. *)
Definition fixed_digits (n : N) (f : nat) : string :=
  match f with
  | O => dec_N n
  | _ =>
      let d := dec_N n in
      let d := zeros (S f - String.length d) +:+ d in
      let k := (String.length d - f)%nat in
      String.substring 0 k d +:+ "." +:+ String.substring k f d
  end.

(** The integer closest to [m * 2^e * 10^f], the larger one on a tie. *)
Definition fixed_int (m : positive) (e : Z) (f : nat) : N :=
  let p := Zpos m * 10 ^ Z.of_nat f in
  Z.to_N (if 0 <=? e then p * 2 ^ e else (2 * p + 2 ^ (- e)) / 2 ^ (1 - e)).

Definition to_fixed (x : num) (f : nat) : string :=
  match x with
  | S754_nan => "NaN"
  | S754_infinity s => if s then "-Infinity" else "Infinity"
  | S754_zero _ => fixed_digits 0 f
  | S754_finite s m e =>
      if SFleb (lit 1 21) (S754_finite false m e) then num_to_string x
      else (if s then "-" else "") +:+ fixed_digits (fixed_int m e f) f
  end.

(** ** [Number.parseInt(s)] *)

(** White space and line terminators.  Strings are sequences of UTF-8 bytes; the
    characters beyond ASCII are U+00A0; U+1680, U+2000 to U+200A, U+2028, U+2029,
    U+202F, U+205F, U+3000 and U+FEFF. *)
Definition is_space (c : ascii) : bool :=
  let n := N_of_ascii c in
  ((9 <=? n) && (n <=? 13) || (n =? 32))%N.

Definition is_space2 (c d : ascii) : bool := ((N_of_ascii c =? 0xC2) && (N_of_ascii d =? 0xA0))%N.

Definition is_space3 (c d e : ascii) : bool :=
  let n := (N_of_ascii c * 0x10000 + N_of_ascii d * 0x100 + N_of_ascii e)%N in
  bool_decide (n ∈ [0xE19A80; 0xE280A8; 0xE280A9; 0xE280AF; 0xE2819F; 0xE38080; 0xEFBBBF]%N)
  || ((0xE28080 <=? n) && (n <=? 0xE2808A))%N.

Fixpoint trim_start (s : string) : string :=
  match s with
  | EmptyString => EmptyString
  | String c s1 =>
      if is_space c then trim_start s1
      else match s1 with
           | EmptyString => s
           | String d s2 =>
               if is_space2 c d then trim_start s2
               else match s2 with
                    | EmptyString => s
                    | String e s3 => if is_space3 c d e then trim_start s3 else s
                    end
           end
  end.

Definition read_sign (s : string) : bool * string :=
  match s with
  | String "-" s' => (true, s')
  | String "+" s' => (false, s')
  | _ => (false, s)
  end.

Definition int_num (neg : bool) (n : N) : num :=
  match n with
  | N0 => S754_zero neg
  | Npos p => binary_normalize 53 1024 (if neg then Zneg p else Zpos p) 0 neg
  end.

Definition parse_int (s : string) : num :=
  let '(neg, s1) := read_sign (trim_start s) in
  let '(radix, s2) :=
    match s1 with
    | String "0" (String "x" s') | String "0" (String "X" s') => (16%N, s')
    | _ => (10%N, s1)
    end in
  match s2 with
  | String c _ => match char_digit radix c with
                  | Some _ => int_num neg (fst (read_digits radix 0 s2))
                  | None => S754_nan
                  end
  | EmptyString => S754_nan
  end.

(** ** Decimal digits read back *)

Fixpoint all_digits (s : string) : bool :=
  match s with
  | EmptyString => true
  | String c s' => bool_decide (is_Some (char_digit 10 c)) && all_digits s'
  end.

Lemma char_digit_digit_char d : (d < 10)%N → char_digit 10 (digit_char d) = Some d.
Proof.
  intros Hd.
  assert (d = 0 ∨ d = 1 ∨ d = 2 ∨ d = 3 ∨ d = 4 ∨ d = 5 ∨ d = 6 ∨ d = 7 ∨ d = 8 ∨ d = 9)%N
    as Hc by lia.
  by repeat destruct Hc as [->|Hc]; subst.
Qed.

Lemma read_dec_aux fuel n rest :
  (n < 2 ^ N.of_nat fuel)%N →
  ∃ k, ∀ acc, read_digits 10 acc (dec_aux fuel n rest) = read_digits 10 (acc * k + n) rest.
Proof.
  revert n rest. induction fuel as [|fuel IH]; intros n rest Hn.
  { assert (n = 0)%N as -> by (simpl in Hn; lia). exists 10%N. intros acc. simpl.
    done. }
  cbn [dec_aux].
  pose proof (N.mod_upper_bound n 10 ltac:(lia)) as Hm.
  case_match eqn:E.
  - exists 10%N. intros acc. cbn [read_digits]. rewrite char_digit_digit_char by lia.
    apply N.ltb_lt in E. by rewrite N.mod_small.
  - apply N.ltb_ge in E.
    destruct (IH (n / 10)%N (String (digit_char (n mod 10)) rest)) as [k Hk].
    { apply N.Div0.div_lt_upper_bound. rewrite Nat2N.inj_succ, N.pow_succ_r' in Hn. lia. }
    exists (k * 10)%N. intros acc. rewrite Hk. cbn [read_digits].
    rewrite char_digit_digit_char by lia. f_equal.
    pose proof (N.div_mod n 10 ltac:(lia)). lia.
Qed.

Lemma read_dec_N n : read_digits 10 0 (dec_N n) = (n, "").
Proof.
  unfold dec_N. destruct (read_dec_aux (N.to_nat (N.size n)) n "") as [k Hk].
  { rewrite N2Nat.id. apply N.size_gt. }
  by rewrite Hk.
Qed.

Lemma all_digits_dec_aux fuel n rest : all_digits rest → all_digits (dec_aux fuel n rest).
Proof.
  assert (∀ n rest, all_digits rest → all_digits (String (digit_char (n mod 10)) rest)) as Hd.
  { intros m r Hr. simpl. rewrite char_digit_digit_char by (apply N.mod_upper_bound; lia).
    done. }
  revert n rest. induction fuel as [|fuel IH]; intros n rest Hr; cbn [dec_aux]; [auto|].
  case_match; auto.
Qed.

Lemma dec_aux_nonempty fuel n rest : dec_aux fuel n rest ≠ "".
Proof.
  revert n rest. induction fuel as [|fuel IH]; intros; cbn [dec_aux]; [done|].
  by case_match.
Qed.

Lemma all_digits_dec_N n : all_digits (dec_N n).
Proof. by apply all_digits_dec_aux. Qed.

Lemma dec_N_nonempty n : dec_N n ≠ "".
Proof. apply dec_aux_nonempty. Qed.

(** A digit is neither a space nor a sign nor the [x] of a radix prefix. *)
Lemma digit_plain c :
  is_Some (char_digit 10 c) →
  is_space c = false ∧ c ≠ "-"%char ∧ c ≠ "+"%char ∧ c ≠ "x"%char ∧ c ≠ "X"%char.
Proof.
  intros [d Hd]. destruct c as [[][][][][][][][]]; first [discriminate Hd|split_and!; done].
Qed.

(** Nor the first byte of a longer white space. *)
Lemma digit_small c : is_Some (char_digit 10 c) → (N_of_ascii c < 0x80)%N.
Proof. intros [d Hd]. destruct c as [[][][][][][][][]]; first [discriminate Hd|done]. Qed.

Lemma trim_start_digit c s : is_Some (char_digit 10 c) → trim_start (String c s) = String c s.
Proof.
  intros Hc. pose proof (digit_small c Hc) as Hn. apply digit_plain in Hc as [Hs _].
  cbn [trim_start]. rewrite Hs. destruct s as [|d s]; [done|].
  assert (is_space2 c d = false) as ->.
  { unfold is_space2. destruct (N.eqb_spec (N_of_ascii c) 0xC2); [lia|done]. }
  destruct s as [|e s]; [done|]. assert (is_space3 c d e = false) as ->; [|done].
  pose proof (N_ascii_bounded d). pose proof (N_ascii_bounded e). unfold is_space3. cbn zeta.
  set (n := (_ + _ + _)%N). assert (n < 0xE19A80)%N by (subst n; lia).
  rewrite bool_decide_false; [|rewrite !elem_of_cons, elem_of_nil; lia].
  apply andb_false_iff. left. apply N.leb_gt. lia.
Qed.

Lemma trim_sign_digits s :
  all_digits s → s ≠ "" → read_sign (trim_start s) = (false, s).
Proof.
  destruct s as [|c s]; [done|]. intros [Hc _]%andb_True _. apply bool_decide_unpack in Hc.
  rewrite trim_start_digit by done. apply digit_plain in Hc as (Hs & ? & ? & _).
  unfold read_sign. repeat case_match; done.
Qed.

(** [Number.parseInt] reads decimal digits back. *)
Lemma parse_int_dec_N n : parse_int (dec_N n) = int_num false n.
Proof.
  pose proof (all_digits_dec_N n) as Hd. pose proof (dec_N_nonempty n) as Hne.
  pose proof (read_dec_N n) as Hr.
  unfold parse_int. rewrite trim_sign_digits by done.
  destruct (dec_N n) as [|c s]; [done|]. simpl in Hd.
  apply andb_True in Hd as [Hc Hs]. apply bool_decide_unpack in Hc as Hc'.
  destruct Hc' as [d Hcd].
  assert (match String c s with
    | String "0" (String "x" s') | String "0" (String "X" s') => (16%N, s')
    | _ => (10%N, String c s)
    end = (10%N, String c s)) as ->.
  { repeat case_match; try done; subst; simpl in Hs; exfalso;
      apply andb_True in Hs as [Hc' _]; apply bool_decide_unpack, digit_plain in Hc';
      destruct_and!; done. }
  rewrite Hcd, Hr. done.
Qed.

(** ** Integers survive printing and parsing *)

Lemma digits2_iter_xO p d :
  Zpos (digits2_pos (Pos.iter xO p d)) = Zpos (digits2_pos p) + Zpos d.
Proof.
  induction d as [|d IH] using Pos.peano_ind; [simpl; lia|].
  rewrite Pos.iter_succ. cbn [digits2_pos]. lia.
Qed.

Lemma round_aux_exact p e :
  Zpos (digits2_pos p) = 53 → -1074 ≤ e ≤ 971 →
  binary_round_aux 53 1024 false (Zpos p) e loc_Exact = S754_finite false p e.
Proof.
  intros Hd He. unfold binary_round_aux.
  assert (shr_fexp 53 1024 (Zpos p) e loc_Exact = (Build_shr_record (Zpos p) false false, e)) as Hs.
  { unfold shr_fexp, Zdigits2, fexp, emin. rewrite Hd.
    replace (_ - e) with 0 by lia. done. }
  rewrite Hs. cbn [shr_m loc_of_shr_record round_nearest_even]. rewrite Hs.
  cbn [shr_m]. by rewrite (proj2 (Z.leb_le e (1024 - 53))) by lia.
Qed.

(** An integer below [2^53] is a double, without rounding. *)
Lemma of_Z_exact z :
  0 < z < 2 ^ 53 →
  ∃ m e, of_Z z = S754_finite false m e ∧ -53 ≤ e ≤ 0 ∧ Zpos m = z * 2 ^ (- e)
         ∧ Zpos (digits2_pos m) = 53.
Proof.
  intros [Hz Hlt]. destruct z as [|p|p]; [lia| |lia].
  pose proof (digits2_bounds p) as [Hlo _].
  assert (Zpos (digits2_pos p) ≤ 53) as Hd.
  { apply Znot_gt_le. intros Hgt.
    assert (2 ^ 53 ≤ 2 ^ (Zpos (digits2_pos p) - 1)) by (apply Z.pow_le_mono_r; lia). lia. }
  unfold of_Z, binary_normalize, binary_round, shl_align, fexp, emin.
  replace (Z.max _ _ - 0) with (Zpos (digits2_pos p) - 53) by lia.
  replace (Z.max _ _) with (Zpos (digits2_pos p) - 53) by lia.
  destruct (Zpos (digits2_pos p) - 53) as [|d|d] eqn:E; [|lia|].
  - exists p, 0. rewrite round_aux_exact by lia. split_and!; lia || done.
  - exists (Pos.iter xO p d), (Zneg d).
    pose proof (digits2_iter_xO p d) as Hit. rewrite round_aux_exact by lia.
    split_and!; try lia; [done|]. apply iter_xO_value.
Qed.

Lemma show_of_Z z : 0 ≤ z < 2 ^ 53 → num_to_string (of_Z z) = dec_N (Z.to_N z).
Proof.
  intros Hz. destruct (decide (z = 0)) as [->|Hne]; [done|].
  destruct (of_Z_exact z ltac:(lia)) as (m & e & -> & He & Hm & _). simpl.
  assert (int_value m e = Some z) as Hi.
  { unfold int_value. assert (0 < 2 ^ (- e)) by (apply Z.pow_pos_nonneg; lia).
    case_match eqn:E.
    - assert (e = 0) as -> by lia. simpl in Hm. by rewrite Hm, !Z.mul_1_r.
    - rewrite Hm, Z.mod_mul, Z.div_mul by lia. done. }
  unfold show_pos. rewrite Hi. by rewrite (proj2 (Z.ltb_lt z (2 ^ 53))) by lia.
Qed.

(** [Number.parseInt(String(n)) === n] for the integers [0 <= n < 2^53]. *)
Lemma parse_int_show z :
  0 ≤ z < 2 ^ 53 → parse_int (num_to_string (of_Z z)) = of_Z z.
Proof.
  intros Hz. rewrite show_of_Z, parse_int_dec_N by done.
  destruct z as [|p|p]; [done| |lia]. done.
Qed.

Lemma show_of_Z_nonempty z : 0 ≤ z < 2 ^ 53 → num_to_string (of_Z z) ≠ "".
Proof. intros. rewrite show_of_Z by done. apply dec_N_nonempty. Qed.

(** ** [split], [join], [replace] *)

(** [s.split(c)] for a one-character separator; never empty. *)
Fixpoint split_on (c : ascii) (s : string) : list string :=
  match s with
  | EmptyString => [""]
  | String a s' =>
      if bool_decide (a = c) then "" :: split_on c s'
      else match split_on c s' with
           | [] => [String a ""]
           | w :: ws => String a w :: ws
           end
  end.

(** [l.join(sep)]. *)
Fixpoint join (sep : string) (l : list string) : string :=
  match l with
  | [] => ""
  | [w] => w
  | w :: l' => w +:+ sep +:+ join sep l'
  end.

(** [s.replace(/__/g, "+")]: leftmost matches, not overlapping. *)
Fixpoint replace_underscores (s : string) : string :=
  match s with
  | EmptyString => EmptyString
  | String a s' =>
      match s' with
      | String b s'' =>
          if bool_decide (a = "_"%char) && bool_decide (b = "_"%char)
          then String "+" (replace_underscores s'')
          else String a (replace_underscores s')
      | EmptyString => String a EmptyString
      end
  end.

(** [s.replace(/\+/g, "__")]. *)
Fixpoint replace_plus (s : string) : string :=
  match s with
  | EmptyString => EmptyString
  | String a s' => if bool_decide (a = "+"%char) then "__" +:+ replace_plus s'
                   else String a (replace_plus s')
  end.

(** [s.split("___")[0]]. *)
Fixpoint before_triple (s : string) : string :=
  match s with
  | EmptyString => EmptyString
  | String a s' => if String.prefix "___" s then EmptyString else String a (before_triple s')
  end.

(** Whether a character occurs in a string. *)
Fixpoint has_char (c : ascii) (s : string) : bool :=
  match s with
  | EmptyString => false
  | String a s' => bool_decide (a = c) || has_char c s'
  end.

Lemma has_char_app c s t : has_char c (s +:+ t) = has_char c s || has_char c t.
Proof. induction s as [|a s IH]; simpl; [done|]. by rewrite IH, orb_assoc. Qed.

Lemma split_on_none c s : has_char c s = false → split_on c s = [s].
Proof.
  induction s as [|a s IH]; simpl; [done|]. intros [Ha Hs]%orb_false_iff.
  rewrite Ha, IH by done. done.
Qed.

Lemma split_on_app c s t :
  has_char c s = false → split_on c (s +:+ String c t) = s :: split_on c t.
Proof.
  induction s as [|a s IH]; simpl.
  - intros _. by rewrite bool_decide_true.
  - intros [Ha Hs]%orb_false_iff. by rewrite Ha, IH.
Qed.

(** [l.join(c).split(c)] is [l] when no element holds the separator. *)
Lemma split_join c l :
  l ≠ [] → Forall (λ w, has_char c w = false) l → split_on c (join (String c "") l) = l.
Proof.
  intros Hne Hl. induction Hl as [|w l Hw Hl IH]; [done|].
  destruct l as [|w' l]; simpl; [by apply split_on_none|].
  change (String c "" +:+ ?x) with (String c x). rewrite split_on_app by done.
  f_equal. apply IH. done.
Qed.

Lemma replace_underscores_cons2 a b s :
  replace_underscores (String a (String b s))
  = if bool_decide (a = "_"%char) && bool_decide (b = "_"%char)
    then String "+" (replace_underscores s)
    else String a (replace_underscores (String b s)).
Proof. done. Qed.

(** The display name of a server is reversible when the name has no [+]. *)
Lemma replace_plus_underscores s :
  has_char "+" s = false → replace_plus (replace_underscores s) = s.
Proof.
  revert s. refine (string_len_ind _ _). intros [|a [|b s]] IH Hs; [done| |].
  - simpl in *. apply orb_false_iff in Hs as [Ha _]. by rewrite Ha.
  - pose proof (IH s ltac:(simpl; lia)) as IH2.
    pose proof (IH (String b s) ltac:(simpl; lia)) as IH1.
    cbn [has_char] in Hs. apply orb_false_iff in Hs as [Ha Hbs].
    apply orb_false_iff in Hbs as Hbs'. destruct Hbs' as [Hb Hs].
    specialize (IH1 Hbs). specialize (IH2 Hs).
    rewrite replace_underscores_cons2. case_match eqn:E; breflect; subst.
    + cbn [replace_plus]. rewrite bool_decide_true by done. by rewrite IH2.
    + cbn [replace_plus]. rewrite bool_decide_false by done. by f_equal.
Qed.

(** The display name has the same spaces as the name. *)
Lemma has_char_replace_underscores c s :
  c ≠ "+"%char → c ≠ "_"%char → has_char c (replace_underscores s) = has_char c s.
Proof.
  intros Hp Hu. revert s. refine (string_len_ind _ _). intros [|a [|b s]] IH; [done|done|].
  rewrite replace_underscores_cons2. case_match eqn:E; breflect; subst.
  - cbn [has_char]. rewrite IH by (simpl; lia).
    by rewrite (bool_decide_false ("+"%char = c)), (bool_decide_false ("_"%char = c))
      by congruence.
  - cbn [has_char]. rewrite IH by (simpl; lia). done.
Qed.

(** Two servers without [+] in their names never share a display name. *)
Lemma replace_underscores_inj s t :
  has_char "+" s = false → has_char "+" t = false →
  replace_underscores s = replace_underscores t → s = t.
Proof.
  intros Hs Ht H. rewrite <- (replace_plus_underscores s), <- (replace_plus_underscores t);
    congruence.
Qed.

(** The first word of a text that continues after a space. *)
Lemma split_space_head s t :
  has_char " " s = false → head (split_on " " (s +:+ String " " t)) = Some s.
Proof. intros. by rewrite split_on_app. Qed.

(** ** Suffixes *)

Lemma string_length_app s t :
  String.length (s +:+ t) = (String.length s + String.length t)%nat.
Proof. induction s; simpl; [done|]. by f_equal. Qed.

Lemma string_app_inj_r s t u : s +:+ u = t +:+ u → s = t.
Proof.
  revert t. induction s as [|a s IH]; intros [|b t] H; [done|..].
  1,2: apply (f_equal String.length) in H; rewrite !string_length_app in H; simpl in H; lia.
  injection H as -> H. f_equal. auto.
Qed.

Fixpoint last_char (s : string) : option ascii :=
  match s with
  | EmptyString => None
  | String a s' => match s' with EmptyString => Some a | _ => last_char s' end
  end.

Lemma last_char_app s t : t ≠ "" → last_char (s +:+ t) = last_char t.
Proof.
  intros Ht. induction s as [|a s IH]; [done|]. rewrite <- IH.
  simpl. destruct (s +:+ t) eqn:E; [|done].
  destruct s; [by simpl in E; subst|done].
Qed.

(** The last character of an integer's text is a digit. *)
Lemma last_char_show z :
  0 ≤ z < 2 ^ 53 → ∃ c, last_char (num_to_string (of_Z z)) = Some c ∧ is_Some (char_digit 10 c).
Proof.
  intros Hz. pose proof (show_of_Z_nonempty z Hz) as Hne. rewrite show_of_Z in * by done.
  pose proof (all_digits_dec_N (Z.to_N z)) as Hd. revert Hd Hne. generalize (dec_N (Z.to_N z)).
  induction s as [|c [|c' s] IH]; [done|intros [Hc _]%andb_True _|intros [_ Hs]%andb_True _; by apply IH].
  exists c. split; [done|]. by apply bool_decide_unpack in Hc.
Qed.

Lemma string_app_nonempty_r s t : t ≠ "" → s +:+ t ≠ "".
Proof. intros Ht. by destruct s. Qed.

Lemma string_app_nil_r s : s +:+ "" = s.
Proof. induction s as [|c s IH]; [done|]. by apply (f_equal (String c)) in IH. Qed.

Lemma string_app_ne s t : t ≠ "" → s +:+ t ≠ s.
Proof.
  intros Ht H. apply (f_equal String.length) in H. rewrite string_length_app in H.
  destruct t; [done|]. simpl in H. lia.
Qed.

(** ** Small integers as doubles *)

Lemma of_Z_real z : 0 ≤ z < 2 ^ 53 → real_num (of_Z z).
Proof.
  intros Hz. destruct (decide (z = 0)) as [->|Hne]; [done|].
  destruct (of_Z_exact z ltac:(lia)) as (m & e & -> & He & _ & Hd). split; [|done].
  unfold valid, valid_binary, bounded, canonical_mantissa, fexp, emin. rewrite Hd.
  apply andb_true_iff. split; lia.
Qed.

(** The numeric order on small integers is the order of the integers. *)
Lemma num_cmp_of_Z a b :
  0 < a < 2 ^ 53 → 0 < b < 2 ^ 53 → num_cmp (of_Z a) (of_Z b) = (a ?= b).
Proof.
  intros Ha Hb. destruct (of_Z_real a ltac:(lia)) as [Va _]. destruct (of_Z_real b ltac:(lia)) as [Vb _].
  destruct (of_Z_exact a Ha) as (m & e & Ea & He & Hm & _). rewrite Ea in *.
  destruct (of_Z_exact b Hb) as (m' & e' & Eb & He' & Hm' & _). rewrite Eb in *.
  unfold num_cmp. cbn [SFcompare]. rewrite <- (aligned_cmp _ _ _ _ _ _ Va Vb).
  assert (∀ z x y, y ≤ x → x ≤ 0 → z * 2 ^ (- x) * 2 ^ (x - y) = z * 2 ^ (- y)) as Hp.
  { intros z x y Hxy Hx. rewrite <- Z.mul_assoc, <- Z.pow_add_r by lia. do 2 f_equal. lia. }
  rewrite Hm, Hm', !Hp by lia.
  assert (0 < 2 ^ (- Z.min e e')) by (apply Z.pow_pos_nonneg; lia).
  destruct (Z.compare_spec a b) as [->|H1|H1];
    [apply Z.compare_refl|apply Z.compare_lt_iff|apply Z.compare_gt_iff];
    by apply Z.mul_lt_mono_pos_r.
Qed.

Lemma sub_cmp_of_Z a b :
  0 < a < 2 ^ 53 → 0 < b < 2 ^ 53 → sub_cmp (of_Z a) (of_Z b) = (a ?= b).
Proof.
  intros Ha Hb. rewrite nsub_cmp by (apply of_Z_real; lia). by apply num_cmp_of_Z.
Qed.

(** The integer a text of digits stands for. *)
Definition digits_value (s : string) : Z := Z.of_N (fst (read_digits 10 0 s)).

Lemma digits_value_show z : 0 ≤ z < 2 ^ 53 → digits_value (num_to_string (of_Z z)) = z.
Proof.
  intros Hz. unfold digits_value. rewrite show_of_Z, read_dec_N by done. simpl. lia.
Qed.
