(* ===== verification/JsValue.v ===== *)
(** * JavaScript values, arrays as sets, and objects used as maps

    [prim] is the type of the leaf values of the benchmark data and of the
    filter state: the data is fetched as JSON, so a field may be absent or
    [null] where the TypeScript types promise a number, and the code relies on
    truthiness, [typeof], [===] and SameValueZero to cope with that.

    [obj A] is an object used as a dictionary.  Two facts of the language that
    the dashboard is exposed to are kept: [Object.keys] lists array-index keys
    first, in ascending order, and reading a name that [Object.prototype]
    defines (["constructor"], ["toString"], ...) finds the inherited member. *)

From Stdlib Require Import SpecFloat.
From S2P Require Import Prelude JsSort JsNumber JsText.

(** ** Primitive values *)

Inductive prim :=
  | Undefined
  | Null
  | PBool (b : bool)
  | PNum (n : num)
  | PStr (s : string).

#[global] Instance num_eq_dec : EqDecision num.
Proof. solve_decision. Defined.
#[global] Instance prim_eq_dec : EqDecision prim.
Proof. solve_decision. Defined.

(** [Boolean(v)]. *)
Definition truthy (v : prim) : bool :=
  match v with
  | Undefined | Null => false
  | PBool b => b
  | PNum n => match n with S754_zero _ | S754_nan => false | _ => true end
  | PStr s => negb (bool_decide (s = ""))
  end.

(** [a || b]. *)
Definition js_or (a b : prim) : prim := if truthy a then a else b.

(** [String(v)] and template literals. *)
Definition to_string (v : prim) : string :=
  match v with
  | Undefined => "undefined"
  | Null => "null"
  | PBool b => if b then "true" else "false"
  | PNum n => num_to_string n
  | PStr s => s
  end.

Definition is_number (v : prim) : bool := match v with PNum _ => true | _ => false end.
Definition is_boolean (v : prim) : bool := match v with PBool _ => true | _ => false end.

(** [a === b]. *)
Definition strict_eq (a b : prim) : bool :=
  match a, b with
  | Undefined, Undefined | Null, Null => true
  | PBool x, PBool y => Bool.eqb x y
  | PNum x, PNum y => nstrict_eq x y
  | PStr x, PStr y => bool_decide (x = y)
  | _, _ => false
  end.

(** SameValueZero, the equality of [includes] and of [Set]: NaN equals NaN. *)
Definition same_value_zero (a b : prim) : bool :=
  match a, b with
  | PNum x, PNum y => (is_nan x && is_nan y) || nstrict_eq x y
  | _, _ => strict_eq a b
  end.

(** [l.includes(v)]. *)
Definition includes (l : list prim) (v : prim) : bool := existsb (same_value_zero v) l.

(** [l[0]]. *)
Definition first (l : list prim) : prim := from_option id Undefined (head l).

(** [Set.prototype.add] stores [-0] as [+0]. *)
Definition set_norm (v : prim) : prim :=
  match v with PNum (S754_zero _) => PNum (S754_zero false) | _ => v end.

(** [[...new Set(l)]]. *)
Definition new_set (l : list prim) : list prim := set_of same_value_zero (map set_norm l).

(** Every value but [-0]: on them SameValueZero is equality. *)
Definition not_negzero (v : prim) : Prop := v ≠ PNum (S754_zero true).

Lemma nstrict_eq_eq x y :
  PNum x ≠ PNum (S754_zero true) → PNum y ≠ PNum (S754_zero true) →
  nstrict_eq x y = true ↔ x = y ∧ is_nan x = false.
Proof.
  intros Hx Hy. unfold nstrict_eq, SFeqb. split.
  - destruct x as [[]|[]| |[] mx ex], y as [[]|[]| |[] my ey]; simpl; try done.
    + destruct (Z.compare_spec ex ey) as [->|H|H]; try done.
      destruct (Pos.compare_cont Eq mx my) eqn:E; try done.
      apply Pos.compare_eq in E. by subst.
    + destruct (Z.compare_spec ex ey) as [->|H|H]; try done.
      destruct (Pos.compare_cont Eq mx my) eqn:E; try done.
      apply Pos.compare_eq in E. by subst.
  - intros [-> Hn]. destruct y as [[]|[]| |[] my ey]; simpl; try done.
    all: rewrite Z.compare_refl; change (Pos.compare_cont Eq my my) with (Pos.compare my my);
      by rewrite Pos.compare_refl.
Qed.

Lemma same_value_zero_eq x y :
  not_negzero x → not_negzero y → same_value_zero x y = true ↔ x = y.
Proof.
  unfold not_negzero. intros Hx Hy.
  destruct x as [| |b|n|s], y as [| |b'|n'|s']; simpl; try done.
  - rewrite Bool.eqb_true_iff. naive_solver.
  - rewrite orb_true_iff, andb_true_iff, nstrict_eq_eq by done. split.
    + intros [[H1 H2]|[-> _]]; [|done]. by destruct n, n'.
    + intros [= ->]. destruct (is_nan n') eqn:E; auto.
  - rewrite bool_decide_eq_true. naive_solver.
Qed.

Lemma set_norm_not_negzero v : not_negzero (set_norm v).
Proof. unfold not_negzero. by destruct v as [| | |[]|]. Qed.

Lemma set_norm_id v : not_negzero v → set_norm v = v.
Proof. unfold not_negzero. destruct v as [| | |[[]| | |]|]; done. Qed.

Lemma set_norm_Forall l : Forall not_negzero (map set_norm l).
Proof. induction l; constructor; auto using set_norm_not_negzero. Qed.

Lemma elem_of_new_set l v : v ∈ new_set l ↔ ∃ w, v = set_norm w ∧ w ∈ l.
Proof.
  unfold new_set. rewrite (elem_of_set_of _ not_negzero).
  - apply list_elem_of_fmap.
  - apply same_value_zero_eq.
  - apply set_norm_Forall.
Qed.

Lemma new_set_NoDup l : NoDup (new_set l).
Proof.
  unfold new_set. apply (set_of_NoDup _ not_negzero).
  - apply same_value_zero_eq.
  - apply set_norm_Forall.
Qed.

Lemma new_set_not_negzero l : Forall not_negzero (new_set l).
Proof.
  apply Forall_forall. intros v (w & -> & _)%elem_of_new_set. apply set_norm_not_negzero.
Qed.

(** On values without [-0], [includes] is membership. *)
Lemma includes_elem l v :
  Forall not_negzero l → not_negzero v → includes l v = true ↔ v ∈ l.
Proof.
  intros Hl Hv. unfold includes. rewrite existsb_elem. rewrite Forall_forall in Hl. split.
  - intros (w & Hw & E). apply same_value_zero_eq in E as ->; auto.
  - intros Hin. exists v. split; [done|]. by apply same_value_zero_eq.
Qed.

Lemma includes_elem_weak l v : includes l v = true → ∃ w, w ∈ l ∧ same_value_zero v w = true.
Proof. unfold includes. by rewrite existsb_elem. Qed.

(** ** Objects used as dictionaries *)

(** The names every plain object inherits from [Object.prototype]. *)
Definition proto_names : list string :=
  ["constructor"; "__defineGetter__"; "__defineSetter__"; "hasOwnProperty";
   "__lookupGetter__"; "__lookupSetter__"; "isPrototypeOf"; "propertyIsEnumerable";
   "toString"; "valueOf"; "__proto__"; "toLocaleString"].

Definition reserved (k : string) : bool := bool_decide (k ∈ proto_names).

(** Own properties in creation order. *)
Definition obj (A : Type) : Type := list (string * A).

Section Objects.
Context {A : Type}.
Implicit Types (o : obj A) (k : string) (v : A).

Fixpoint own_get o k : option A :=
  match o with
  | [] => None
  | (k', v) :: o' => if bool_decide (k' = k) then Some v else own_get o' k
  end.

(** Define or overwrite an own property; a new one comes last. *)
Fixpoint obj_define o k v : obj A :=
  match o with
  | [] => [(k, v)]
  | (k', v') :: o' => if bool_decide (k' = k) then (k, v) :: o'
                      else (k', v') :: obj_define o' k v
  end.

(** [o[k] = v]: the inherited [__proto__] setter swallows the assignment of
    a primitive. *)
Definition obj_set o k v : obj A :=
  if bool_decide (k = "__proto__") then o else obj_define o k v.

(** [k in o], and the property a read [o[k]] finds. *)
Definition obj_in o k : bool := bool_decide (is_Some (own_get o k)) || reserved k.

Definition keys o : list string := map fst o.

Lemma own_get_define_eq o k v : own_get (obj_define o k v) k = Some v.
Proof.
  induction o as [|[k' v'] o IH]; simpl; [by rewrite bool_decide_true|].
  case_match eqn:E; simpl; [by rewrite bool_decide_true|by rewrite E].
Qed.

Lemma own_get_define_ne o k k' v : k ≠ k' → own_get (obj_define o k v) k' = own_get o k'.
Proof.
  intros Hne. induction o as [|[k2 v2] o IH]; simpl; [by rewrite bool_decide_false|].
  case_match eqn:E; simpl; breflect; subst; [|by rewrite IH].
  by rewrite !bool_decide_false.
Qed.

Lemma own_get_define o k k' v :
  own_get (obj_define o k v) k' = if decide (k = k') then Some v else own_get o k'.
Proof.
  case_decide as H; subst; [apply own_get_define_eq|by apply own_get_define_ne].
Qed.

Lemma own_get_None o k : own_get o k = None ↔ k ∉ keys o.
Proof.
  induction o as [|[k' v] o IH]; simpl; [set_solver|].
  case_match eqn:E; breflect; subst; set_solver.
Qed.

Lemma own_get_Some_elem o k v : own_get o k = Some v → (k, v) ∈ o.
Proof.
  induction o as [|[k' v'] o IH]; simpl; [done|].
  case_match eqn:E; breflect; subst; [intros [= ->]|]; set_solver.
Qed.

Lemma own_get_is_Some o k : is_Some (own_get o k) ↔ k ∈ keys o.
Proof.
  rewrite <- not_eq_None_Some, own_get_None. split; [|tauto].
  intros H. destruct (decide (k ∈ keys o)); tauto.
Qed.

Lemma own_get_elem o k v : NoDup (keys o) → (k, v) ∈ o → own_get o k = Some v.
Proof.
  induction o as [|[k' v'] o IH]; simpl; [set_solver|].
  rewrite NoDup_cons. intros [Hk Hnd] [[= -> ->]|Hin]%elem_of_cons.
  - by rewrite bool_decide_true.
  - rewrite bool_decide_false; [auto|]. intros ->. apply Hk.
    apply list_elem_of_fmap. by exists (k, v).
Qed.

Lemma keys_define o k v : keys (obj_define o k v) = if decide (k ∈ keys o) then keys o else keys o ++ [k].
Proof.
  induction o as [|[k' v'] o IH]; cbn [obj_define keys map fst].
  { case_decide; [set_solver|done]. }
  fold (keys o). destruct (bool_decide_reflect (k' = k)) as [->|Hne]; cbn [map fst].
  - clear IH. case_decide; [done|set_solver].
  - fold (keys (obj_define o k v)). unfold keys in IH |- * at 1. rewrite IH.
    repeat case_decide; set_solver.
Qed.

Lemma elem_of_keys_define o k k' v : k' ∈ keys (obj_define o k v) ↔ k' = k ∨ k' ∈ keys o.
Proof. rewrite keys_define. case_decide; set_solver. Qed.

Lemma NoDup_keys_define o k v : NoDup (keys o) → NoDup (keys (obj_define o k v)).
Proof.
  intros Hnd. rewrite keys_define. case_decide; [done|].
  apply NoDup_app. split_and!; [done|set_solver|apply NoDup_singleton].
Qed.

(** Away from the inherited names, assignment is definition. *)
Lemma obj_set_define o k v : reserved k = false → obj_set o k v = obj_define o k v.
Proof.
  intros Hk. unfold obj_set. rewrite bool_decide_false; [done|]. intros ->. done.
Qed.
End Objects.

(** A read [o[k]]: an own value, an inherited member (a truthy object or
    function), or [undefined]. *)
Inductive lookup_result (A : Type) :=
  | Own (a : A)
  | Inherited
  | Missing.
Arguments Own {A} a.
Arguments Inherited {A}.
Arguments Missing {A}.

Definition obj_get {A} (o : obj A) (k : string) : lookup_result A :=
  match own_get o k with
  | Some a => Own a
  | None => if reserved k then Inherited else Missing
  end.

(** ** The order of [Object.keys] *)

(** The value of a canonical array index ("0", or digits without a leading
    zero, below [2^32 - 1]). *)
Definition array_index (k : string) : option N :=
  match k with
  | EmptyString => None
  | String c k' =>
      let '(n, rest) := read_digits 10 0 k in
      if bool_decide (rest = "") && (bool_decide (k = "0") || negb (bool_decide (c = "0"%char)))
         && (n <? 4294967295)%N
      then Some n else None
  end.

Definition is_index {A} (kv : string * A) : bool := bool_decide (is_Some (array_index kv.1)).

Definition index_cmp {A} (a b : string * A) : comparison :=
  (from_option id 0 (array_index a.1) ?= from_option id 0 (array_index b.1))%N.

(** [Object.entries(o)]: index keys ascending, then the others in creation
    order.  [Object.keys] and [Object.values] are its projections. *)
Definition entries {A} (o : obj A) : list (string * A) :=
  sort_by index_cmp (List.filter is_index o)
  ++ List.filter (λ kv, negb (is_index kv)) o.

Definition object_keys {A} (o : obj A) : list string := map fst (entries o).
Definition object_values {A} (o : obj A) : list A := map snd (entries o).

Lemma filter_split_Permutation {A} (f : A → bool) l :
  List.filter f l ++ List.filter (λ x, negb (f x)) l ≡ₚ l.
Proof.
  induction l as [|x l IH]; simpl; [done|]. destruct (f x); simpl; [by rewrite IH|].
  rewrite <- Permutation_middle. by rewrite IH.
Qed.

Lemma entries_Permutation {A} (o : obj A) : entries o ≡ₚ o.
Proof. unfold entries. rewrite sort_by_Permutation. apply filter_split_Permutation. Qed.

Lemma object_keys_Permutation {A} (o : obj A) : object_keys o ≡ₚ keys o.
Proof. unfold object_keys, keys. by rewrite entries_Permutation. Qed.

Lemma elem_of_object_keys {A} (o : obj A) k : k ∈ object_keys o ↔ k ∈ keys o.
Proof. by rewrite object_keys_Permutation. Qed.

(** Without index keys the entries come in creation order. *)
Lemma entries_no_index {A} (o : obj A) :
  (∀ k, k ∈ keys o → array_index k = None) → entries o = o.
Proof.
  intros H. unfold entries.
  assert (∀ kv, kv ∈ o → is_index kv = false) as Hi.
  { intros kv Hkv. unfold is_index. rewrite H; [done|]. apply list_elem_of_fmap. eauto. }
  rewrite lfilter_none by done. simpl. apply lfilter_all.
  intros kv Hkv. by rewrite Hi.
Qed.

#[export] Hint Resolve NoDup_keys_define : js.

(** ** [Number(v)] *)

Fixpoint trim_end (s : string) : string :=
  match trim_start s with
  | EmptyString => EmptyString
  | _ => match s with EmptyString => EmptyString | String c s' => String c (trim_end s') end
  end.

(** The exponent part of a decimal literal: its value and whether it is
    well-formed up to the end of the text. *)
Definition read_exponent (s : string) : option Z :=
  match s with
  | EmptyString => Some 0%Z
  | String c s' =>
      if bool_decide (c = "e"%char) || bool_decide (c = "E"%char) then
        let '(neg, s2) := read_sign s' in
        match s2, read_digits 10 0 s2 with
        | EmptyString, _ => None
        | _, (n, "") => Some (if neg then - Z.of_N n else Z.of_N n)%Z
        | _, _ => None
        end
      else None
  end.

Definition read_radix (radix : N) (s : string) : num :=
  match s, read_digits radix 0 s with
  | EmptyString, _ => S754_nan
  | _, (n, "") => int_num false n
  | _, _ => S754_nan
  end.

Definition decimal_value (neg : bool) (s : N) (k : Z) : num :=
  if (k =? 0)%Z then int_num neg s else of_dec neg s k.

(** Digits, an optional fraction and an optional exponent, to the end. *)
Definition read_decimal (neg : bool) (s : string) : num :=
  let '(n, s1) := read_digits 10 0 s in
  let int_len := (String.length s - String.length s1)%nat in
  let '(n2, s2, frac_len) :=
    match s1 with
    | String "." s' => let '(n', s'') := read_digits 10 n s' in
                       (n', s'', (String.length s' - String.length s'')%nat)
    | _ => (n, s1, 0%nat)
    end in
  if bool_decide (int_len + frac_len = 0)%nat then S754_nan
  else match read_exponent s2 with
       | Some e => decimal_value neg n2 (e - Z.of_nat frac_len)
       | None => S754_nan
       end.

Definition string_to_num (s : string) : num :=
  let t := trim_end (trim_start s) in
  match t with
  | EmptyString => S754_zero false
  | String "0" (String "x" s') | String "0" (String "X" s') => read_radix 16 s'
  | String "0" (String "o" s') | String "0" (String "O" s') => read_radix 8 s'
  | String "0" (String "b" s') | String "0" (String "B" s') => read_radix 2 s'
  | _ => let '(neg, s1) := read_sign t in
         if bool_decide (s1 = "Infinity") then S754_infinity neg else read_decimal neg s1
  end.

Definition to_number (v : prim) : num :=
  match v with
  | Undefined => S754_nan
  | Null => S754_zero false
  | PBool b => if b then of_Z 1 else S754_zero false
  | PNum n => n
  | PStr s => string_to_num s
  end.

Lemma trim_end_digits s : all_digits s → trim_end s = s.
Proof.
  induction s as [|c s IH]; [done|]. intros [Hc Hs]%andb_True. cbn [trim_end].
  apply bool_decide_unpack in Hc. rewrite trim_start_digit, IH by done. done.
Qed.

Lemma trim_start_digits s : all_digits s → trim_start s = s.
Proof.
  destruct s as [|c s]; [done|]. intros [Hc _]%andb_True.
  apply bool_decide_unpack in Hc. by apply trim_start_digit.
Qed.

Lemma digit_not_letter c :
  is_Some (char_digit 10 c) →
  c ≠ "o"%char ∧ c ≠ "O"%char ∧ c ≠ "b"%char ∧ c ≠ "B"%char ∧ c ≠ "I"%char.
Proof. intros [d Hd]. split_and!; intros ->; discriminate Hd. Qed.

(** [Number(String(n)) === n] for the integers [0 <= n < 2^53]. *)
Lemma string_to_num_dec n : string_to_num (dec_N n) = int_num false n.
Proof.
  pose proof (all_digits_dec_N n) as Hd. pose proof (dec_N_nonempty n) as Hne.
  pose proof (read_dec_N n) as Hr.
  unfold string_to_num. rewrite trim_start_digits, trim_end_digits by done.
  pose proof (trim_sign_digits _ Hd Hne) as Hsg. rewrite trim_start_digits in Hsg by done.
  assert ((let '(neg, s1) := read_sign (dec_N n) in
    if bool_decide (s1 = "Infinity") then S754_infinity neg else read_decimal neg s1)
    = int_num false n) as Hmain.
  { rewrite Hsg. rewrite bool_decide_false.
    2: { intros E. rewrite E in Hd. done. }
    unfold read_decimal. rewrite Hr.
    assert (String.length (dec_N n) ≠ 0)%nat by (by destruct (dec_N n)).
    rewrite bool_decide_false by (simpl; lia). done. }
  destruct (dec_N n) as [|c s]; [done|].
  destruct s as [|c' s']; [by repeat case_match|].
  apply andb_True in Hd as [_ [Hc' _]%andb_True].
  apply bool_decide_unpack in Hc'. apply digit_plain in Hc' as Hp.
  apply digit_not_letter in Hc'. destruct_and!. repeat case_match; done.
Qed.

Lemma to_number_show z :
  (0 ≤ z < 2 ^ 53)%Z → string_to_num (num_to_string (of_Z z)) = of_Z z.
Proof.
  intros Hz. rewrite show_of_Z, string_to_num_dec by done. by destruct z as [|p|p]; [|done|lia].
Qed.
