(* ===== verification/Markup.v ===== *)
(** * Element trees of the user-interface components

    The elements that the components of [components/ui] return, with properties
    merged the way JSX merges them: a property given later replaces the same
    property given earlier, and [{...props}] gives the caller's properties.
    Handlers list the operations they perform, in order, on the component [A]. *)

From S2P Require Import Prelude JsSort JsNumber JsText JsValue.

Record event := { ev_key : string; ev_ctrlKey : bool; ev_metaKey : bool }.

Definition click : event := {| ev_key := ""; ev_ctrlKey := false; ev_metaKey := false |}.

(** ** Trees

    Texts and elements; [V] is the type of the values that properties hold. *)

Inductive tree (V : Type) :=
  | Txt (s : string)
  | El (tag : string) (attrs : list (string * V)) (children : list (tree V)).
Arguments Txt {V} s.
Arguments El {V} tag attrs children.

Section Props.
Context {V : Type}.
Implicit Types (ps qs : list (string * V)) (k : string).

Fixpoint prop_get ps k : option V :=
  match ps with
  | [] => None
  | (k', v) :: ps' => if bool_decide (k' = k) then Some v else prop_get ps' k
  end.

(** [<T a={..} b={..} {...extra}>]. *)
Definition spread ps qs : list (string * V) :=
  List.filter (λ kv, negb (bool_decide (is_Some (prop_get qs kv.1)))) ps ++ qs.

Lemma prop_get_app ps qs k :
  prop_get (ps ++ qs) k = match prop_get ps k with Some v => Some v | None => prop_get qs k end.
Proof.
  induction ps as [|[k' v] ps IH]; simpl; [done|]. by destruct (bool_decide (k' = k)).
Qed.

(** The caller's properties win; the component's own ones are kept otherwise. *)
Lemma prop_get_spread base extra k :
  prop_get (spread base extra) k
  = match prop_get extra k with Some v => Some v | None => prop_get base k end.
Proof.
  unfold spread. rewrite prop_get_app.
  induction base as [|[k' v] base IH]; simpl; [by destruct (prop_get extra k)|].
  destruct (decide (k' = k)) as [->|Hk].
  - destruct (prop_get extra k) as [w|] eqn:E; simpl.
    + exact IH.
    + rewrite !bool_decide_true by done. done.
  - destruct (prop_get extra k'); simpl; rewrite ?(bool_decide_false (k' = k)) by done; exact IH.
Qed.

(** A property of an element. *)
Definition elem_prop (e : tree V) k : option V :=
  match e with El _ ps _ => prop_get ps k | Txt _ => None end.

(** ** Text content *)

Fixpoint texts (e : tree V) : list string :=
  match e with
  | Txt s => [s]
  | El _ _ cs => concat (map texts cs)
  end.

(** [{v}] as a child: texts and numbers are shown, the rest is not. *)
Definition prim_child (v : prim) : list (tree V) :=
  match v with
  | PStr s => [Txt s]
  | PNum n => [Txt (num_to_string n)]
  | _ => []
  end.
End Props.

(** What the components need of the values: primitive values are values, can be
    read back, and a style is a value. *)
Class PropValue (V : Type) := {
  pv : prim → V;
  as_prim : V → option prim;
  pv_style : list (string * prim) → V;
  as_prim_pv : ∀ p, as_prim (pv p) = Some p;
}.

(** ** Properties with handlers *)

Section Markup.
Context {A : Type}.

Inductive pval :=
  | VPrim (v : prim)
  | VStyle (l : list (string * prim))
  | VHandler (h : event → list A)
  | VBoolHandler (h : bool → list A).

(** What a click on an element does. *)
Definition on_click (e : tree pval) : list A :=
  match e with
  | El _ ps _ => match prop_get ps "onClick" with Some (VHandler h) => h click | _ => [] end
  | Txt _ => []
  end.

Definition is_disabled (e : tree pval) : bool :=
  match e with
  | El _ ps _ => match prop_get ps "disabled" with Some (VPrim v) => truthy v | _ => false end
  | Txt _ => false
  end.
End Markup.

Arguments pval A : clear implicits.

Abbreviation props A := (list (string * pval A)).
Abbreviation elem A := (tree (pval A)).
Abbreviation EText := Txt.
Abbreviation Elem := El.

#[global] Instance pval_value A : PropValue (pval A) := {
  pv := VPrim;
  as_prim v := match v with VPrim p => Some p | _ => None end;
  pv_style := VStyle;
  as_prim_pv p := eq_refl;
}.

Definition pstr {A} (k v : string) : string * pval A := (k, VPrim (PStr v)).

(** ** Rendering that may throw

    A component either throws, and the message is on the left, or returns. *)

Definition res (A : Type) : Type := string + A.

Definition res_bind {A B} (m : res A) (k : A → res B) : res B :=
  match m with inl e => inl e | inr a => k a end.

Notation "'try!' x := m 'in' k" := (res_bind m (λ x, k))
  (at level 10, x pattern, m at level 100, k at level 200).

Fixpoint res_map {A B} (f : nat → A → res B) (i : nat) (l : list A) : res (list B) :=
  match l with
  | [] => inr []
  | a :: l' => try! b := f i a in try! bs := res_map f (S i) l' in inr (b :: bs)
  end.

(** Mapping succeeds with the images when every call does. *)
Lemma res_map_ok {A B} (f : nat → A → res B) (g : nat → A → B) l i :
  (∀ j a, l !! j = Some a → f (i + j) a = inr (g (i + j) a)) →
  res_map f i l = inr (imap (λ j, g (i + j)) l).
Proof.
  revert i. induction l as [|a l IH]; intros i H; simpl; [done|].
  rewrite <- (Nat.add_0_r i) at 1. rewrite (H 0 a) by done. simpl.
  rewrite (IH (S i)).
  - simpl. do 2 f_equal. apply imap_ext. intros j b _. simpl. f_equal. lia.
  - intros j b Hb. replace (S i + j) with (i + S j) by lia. by apply H.
Qed.

(** A [ReactNode]: a primitive value or an element. *)
Inductive react_node (A : Type) :=
  | NPrim (v : prim)
  | NElem (e : elem A).
Arguments NPrim {A} v.
Arguments NElem {A} e.

Definition ntruthy {A} (n : react_node A) : bool :=
  match n with NPrim v => truthy v | NElem _ => true end.
Definition node_child {A} (n : react_node A) : list (elem A) :=
  match n with NPrim v => prim_child v | NElem e => [e] end.

Lemma truthy_text s : s ≠ "" → truthy (PStr s) = true.
Proof. intros H. simpl. by rewrite bool_decide_false. Qed.

(** Class names joined by spaces: the simplest [cn]. *)
Definition join_names (l : list (option string)) : string := join " " (omap id l).

(** [cond && name] and conditional names in the arguments of [cn]. *)
Definition name_if (b : bool) (s : string) : option string := if b then Some s else None.
