(* ===== verification/JsFloor.v ===== *)
(** * [Math.floor] and the range of a scaled random number

    [Math.random()] returns a double [r] with [0 <= r < 1].  The product [r * n]
    is rounded to a double, and rounding could in principle reach [n]; for the
    factor the sidebar uses it does not ([floor_random_40]).  The bound is shown by
    following a rounding through the shifts of [binary_round_aux]: a rounded
    mantissa exceeds the exact one by at most half a unit. *)

From Stdlib Require Import SpecFloat.
From S2P Require Import Prelude JsSort JsNumber JsText JsValue.

#[local] Open Scope Z_scope.

(** A double with a non-negative exponent is an integer already; otherwise the
    quotient is below [2^53] and a double. *)
Definition nfloor (x : num) : num :=
  match x with
  | S754_finite s m e =>
      if 0 <=? e then x else of_Z ((if s then Zneg m else Zpos m) / 2 ^ (- e))
  | _ => x
  end.

(** ** Rounding from above *)

(** After [n] shifts of [p]: the quotient, and if the bit shifted out last is set,
    at least half a unit was lost. *)
Definition shifted (p : Z) (n : nat) (r : shr_record) : Prop :=
  0 ≤ shr_m r ∧ shr_m r * 2 ^ Z.of_nat n ≤ p ∧
  (shr_r r = true → (2 * shr_m r + 1) * 2 ^ Z.of_nat n ≤ 2 * p).

Lemma shifted_step p n r : shifted p n r → shifted p (S n) (shr_1 r).
Proof.
  intros (H0 & H1 & _). unfold shifted. rewrite Nat2Z.inj_succ, Z.pow_succ_r by lia.
  assert (0 < 2 ^ Z.of_nat n) as Hp by (apply Z.pow_pos_nonneg; lia).
  destruct r as [m r s]. cbn [shr_m] in H0, H1. unfold shr_1.
  destruct m as [|[m|m|]|m]; cbn [shr_m shr_r]; try lia.
  all: split_and!; try lia; try done; intros _; nia.
Qed.

Lemma shifted_iter p n : 0 ≤ p → shifted p n (Nat.iter n shr_1 (Build_shr_record p false false)).
Proof.
  intros Hp. induction n as [|n IH]; [|by apply shifted_step].
  unfold shifted. cbn. split_and!; [done|lia|done].
Qed.

Lemma shr_shifted p e k :
  0 ≤ p →
  shifted p (Z.to_nat k) (fst (shr (Build_shr_record p false false) e k)) ∧
  snd (shr (Build_shr_record p false false) e k) = e + Z.max 0 k.
Proof.
  intros Hp. unfold shr. destruct k as [|k|k]; cbn [fst snd].
  - split; [by apply (shifted_iter p 0)|lia].
  - rewrite iter_pos_nat, Z2Nat.inj_pos. split; [by apply shifted_iter|lia].
  - split; [by apply (shifted_iter p 0)|lia].
Qed.

Lemma round_half p n r :
  shifted p n r →
  let q := round_nearest_even (shr_m r) (loc_of_shr_record r) in
  0 ≤ q ∧ 2 * q * 2 ^ Z.of_nat n ≤ 2 * p + 2 ^ Z.of_nat n.
Proof.
  intros (H0 & H1 & H2). destruct r as [m rb s]. cbn [shr_m shr_r] in *.
  assert (0 < 2 ^ Z.of_nat n) as Hp by (apply Z.pow_pos_nonneg; lia).
  destruct rb, s; cbn; try (specialize (H2 eq_refl)); [| |split; nia..].
  - split; nia.
  - destruct (Z.even m); split; nia.
Qed.

(** A rounded product: its mantissa [q] at exponent [e'] is at most half a unit
    above the exact one; normalising it again does not increase it. *)
Lemma round_aux_upper p e :
  let e' := Z.max e (fexp 53 1024 (Zpos (digits2_pos p) + e)) in
  ∃ q, 0 ≤ q ∧ 2 * q * 2 ^ (e' - e) ≤ 2 * Zpos p + 2 ^ (e' - e) ∧
    let e2 := Z.max e' (fexp 53 1024 (Zdigits2 q + e')) in
    (e2 ≤ 971 →
     binary_round_aux 53 1024 false (Zpos p) e loc_Exact = S754_zero false ∨
     ∃ q2, binary_round_aux 53 1024 false (Zpos p) e loc_Exact = S754_finite false q2 e2 ∧
           Zpos q2 * 2 ^ (e2 - e') ≤ q).
Proof.
  intros e'. unfold binary_round_aux, shr_fexp. cbn [shr_record_of_loc Zdigits2].
  destruct (shr_shifted (Zpos p) e (fexp 53 1024 (Zpos (digits2_pos p) + e) - e)) as [Hs He]; [lia|].
  destruct (shr _ e _) as [r1 e1]. cbn [fst snd] in *.
  apply round_half in Hs as [Hq0 Hq]. set (q := round_nearest_even _ _) in *. exists q.
  assert (e1 = e') as -> by (unfold e'; lia).
  replace (Z.of_nat (Z.to_nat (fexp 53 1024 (Z.pos (digits2_pos p) + e) - e))) with (e' - e) in Hq by lia.
  split; [done|]. split; [done|].
  intros He2. set (e2 := Z.max e' _) in *.
  destruct (shr_shifted q e' (fexp 53 1024 (Zdigits2 q + e') - e') Hq0) as [(Hm0 & Hm & _) He3].
  destruct (shr (Build_shr_record q false false) e' _) as [r2 e3]. cbn [fst snd] in *.
  assert (e3 = e2) as -> by (unfold e2; lia).
  replace (Z.of_nat (Z.to_nat (fexp 53 1024 (Zdigits2 q + e') - e'))) with (e2 - e') in Hm by lia.
  destruct (shr_m r2) as [|q2|q2]; [by left| |lia]. right.
  exists q2. rewrite (proj2 (Z.leb_le e2 (1024 - 53))) by lia. done.
Qed.

(** ** [Math.floor(Math.random() * 40)] *)

(** What [Math.random()] may return: a double with positive sign, at least [+0] and
    below 1. *)
Definition random_num (r : num) : Prop :=
  valid r = true ∧ nle (of_Z 0) r = true ∧ nlt r (of_Z 1) = true ∧ r ≠ S754_zero true.

#[global] Instance random_num_dec r : Decision (random_num r).
Proof. unfold random_num. apply _. Defined.

Lemma of_Z_40 : of_Z 40 = S754_finite false 5629499534213120 (-47).
Proof. by vm_compute. Qed.

Lemma of_Z_1 : of_Z 1 = S754_finite false 4503599627370496 (-52).
Proof. by vm_compute. Qed.

Lemma compare_cont_eq m n : Pos.compare_cont Eq m n = (m ?= n)%positive.
Proof. done. Qed.

(** A positive double below 1 has at most 53 bits and an exponent below -52. *)
Lemma random_finite m e :
  random_num (S754_finite false m e) → Zpos m < 2 ^ 53 ∧ -1074 ≤ e ≤ -53.
Proof.
  intros (Hv & _ & Hlt & _). apply valid_finite in Hv as (He & Hd & Hc).
  pose proof (digits2_bounds m) as [Hlo Hhi].
  unfold nlt, SFltb in Hlt. rewrite of_Z_1 in Hlt. cbn [SFcompare] in Hlt.
  split; [eapply Z.lt_le_trans; [exact Hhi|]; apply Z.pow_le_mono_r; lia|].
  destruct (Z.compare_spec e (-52)) as [->|?|?]; [|lia|done].
  destruct Hc as [Hc|Hc]; [|lia]. rewrite Hc in Hlo.
  change (2 ^ (53 - 1)) with (Zpos 4503599627370496) in Hlo.
  rewrite compare_cont_eq in Hlt. generalize dependent 4503599627370496%positive. intros c Hlt Hlo.
  destruct (Pos.compare_spec m c); [discriminate Hlt|lia|discriminate Hlt].
Qed.

Lemma fexp_le x y : x - 53 ≤ y → -1074 ≤ y → fexp 53 1024 x ≤ y.
Proof. unfold fexp, emin. lia. Qed.

Lemma digits_le z n : 0 ≤ n → 0 ≤ z < 2 ^ n → Zdigits2 z ≤ n.
Proof.
  intros Hn [H0 H]. destruct z as [|p|p]; cbn; [done| |lia].
  pose proof (digits2_bounds p) as [Hlo _].
  destruct (Z.le_gt_cases (Zpos (digits2_pos p)) n) as [|Hgt]; [done|].
  assert (2 ^ n ≤ 2 ^ (Zpos (digits2_pos p) - 1)) by (apply Z.pow_le_mono_r; lia). lia.
Qed.

(** The mantissa of the rounded product stays below 40 units. *)
Lemma product_40 m e q :
  Zpos m < 2 ^ 53 → -1074 ≤ e ≤ -53 →
  let p := (m * 5629499534213120)%positive in
  let x := e + -47 in
  let e' := Z.max x (fexp 53 1024 (Zpos (digits2_pos p) + x)) in
  2 * q * 2 ^ (e' - x) ≤ 2 * Zpos p + 2 ^ (e' - x) →
  e' ≤ -47 ∧ q < 40 * 2 ^ (- e').
Proof.
  intros Hm He p x e' Hq.
  assert (Zdigits2 (Zpos p) ≤ 106) as Hd.
  { apply digits_le; [lia|]. change (2 ^ 53) with 9007199254740992 in Hm.
    change (2 ^ 106) with 81129638414606681695789005144064. unfold p. lia. }
  cbn [Zdigits2] in Hd.
  assert (e' ≤ -47 ∧ e' - x ≤ 53 ∧ x ≤ e') as (He' & Hx & Hx').
  { unfold e', x, fexp, emin. lia. }
  split; [done|].
  assert (2 ^ (e' - x) ≤ 2 ^ 53) as H1 by (apply Z.pow_le_mono_r; lia).
  assert (2 ^ 100 ≤ 2 ^ (- x)) as H2 by (apply Z.pow_le_mono_r; unfold x in *; lia).
  assert (2 ^ (- x) = 2 ^ (- e') * 2 ^ (e' - x)) as H3 by (rewrite <- Z.pow_add_r by lia; f_equal; lia).
  assert (0 < 2 ^ (e' - x)) as H4 by (apply Z.pow_pos_nonneg; lia).
  assert (2 * Zpos p + 2 ^ 53 < 80 * 2 ^ 100) as H5.
  { change (2 ^ 53) with 9007199254740992 in *. change (2 ^ 100) with 1267650600228229401496703205376.
    unfold p. lia. }
  assert (q * 2 ^ (e' - x) < (40 * 2 ^ (- e')) * 2 ^ (e' - x)) as H6 by lia.
  by apply Z.mul_lt_mono_pos_r in H6.
Qed.

Lemma floor_random_40 r :
  random_num r → ∃ z, 0 ≤ z < 40 ∧ nfloor (nmul r (of_Z 40)) = of_Z z.
Proof.
  intros Hr. destruct r as [s|s| |s m e].
  - exists 0. split; [lia|]. destruct Hr as (_ & _ & _ & H). by destruct s.
  - destruct Hr as (_ & H1 & H2 & _). by destruct s.
  - by destruct Hr as (_ & H & _).
  - assert (s = false) as -> by (destruct Hr as (_ & H & _); by destruct s).
    apply random_finite in Hr as [Hm He]. rewrite of_Z_40. unfold nmul, SFmul. cbn [xorb].
    destruct (round_aux_upper (m * 5629499534213120) (e + -47)) as (q & Hq0 & Hq & Hres).
    apply product_40 in Hq as [He' Hq]; [|done..].
    set (e' := Z.max _ _) in *. cbv zeta in Hres.
    assert (Zdigits2 q + e' ≤ 6) as Hd.
    { assert (Zdigits2 q ≤ 6 - e'); [|lia]. apply digits_le; [lia|]. split; [done|].
      replace (6 - e') with (6 + - e') by lia. rewrite Z.pow_add_r by lia.
      change (2 ^ 6) with 64. assert (0 < 2 ^ (- e')) by (apply Z.pow_pos_nonneg; lia). lia. }
    set (e2 := Z.max e' _) in *.
    assert (e2 ≤ -47 ∧ e' ≤ e2) as [He2 He2'].
    { unfold e2. pose proof (fexp_le (Zdigits2 q + e') (-47)). lia. }
    destruct Hres as [->|(q2 & -> & Hq2)]; [lia|exists 0; split; [lia|done]|].
    unfold nfloor. rewrite (proj2 (Z.leb_gt 0 e2)) by lia.
    exists (Zpos q2 / 2 ^ (- e2)). split; [|done].
    assert (2 ^ (- e') = 2 ^ (- e2) * 2 ^ (e2 - e')) as H3 by (rewrite <- Z.pow_add_r by lia; f_equal; lia).
    assert (0 < 2 ^ (e2 - e')) by (apply Z.pow_pos_nonneg; lia).
    assert (0 < 2 ^ (- e2)) by (apply Z.pow_pos_nonneg; lia).
    split; [by apply Z.div_pos; lia|]. apply Z.div_lt_upper_bound; [lia|]. nia.
Qed.
