(* ===== verification/UrlParams.v ===== *)
(** * Query strings: [URLSearchParams] and the page's location

    The dashboard keeps its filter state in the page's query string.  This file
    models the part of the URL interface it uses: an ordered list of name/value
    pairs with [get], [set] and [delete], the
    application/x-www-form-urlencoded parser and serializer, and the location
    that [history.replaceState] rewrites.  The main result is that parsing
    inverts serializing for every list of pairs. *)

From S2P Require Import Prelude JsText.

Definition params : Type := list (string * string).

(** ** [get], [set], [delete] *)

(** [p.get(name)]: the first value, or [null]. *)
Fixpoint param_get (p : params) (name : string) : option string :=
  match p with
  | [] => None
  | (n, v) :: p' => if bool_decide (n = name) then Some v else param_get p' name
  end.

(** [p.delete(name)]: every pair of that name. *)
Definition param_delete (p : params) (name : string) : params :=
  List.filter (λ nv, negb (bool_decide (nv.1 = name))) p.

(** [p.set(name, value)]: the first pair of that name gets the value and the
    others go; without one the pair is appended. *)
Fixpoint param_set (p : params) (name value : string) : params :=
  match p with
  | [] => [(name, value)]
  | (n, v) :: p' => if bool_decide (n = name) then (n, value) :: param_delete p' name
                    else (n, v) :: param_set p' name value
  end.

(** ** Percent-encoding *)

Definition hex_char (d : N) : ascii :=
  ascii_of_N (if (d <? 10)%N then 48 + d else 55 + d).

(** Characters the form encoding leaves alone: alphanumerics, [* - . _]. *)
Definition form_safe (c : ascii) : bool :=
  let n := N_of_ascii c in
  ((48 <=? n) && (n <=? 57) || (65 <=? n) && (n <=? 90) || (97 <=? n) && (n <=? 122)
   || (n =? 42) || (n =? 45) || (n =? 46) || (n =? 95))%N.

Fixpoint form_encode (s : string) : string :=
  match s with
  | EmptyString => EmptyString
  | String c s' =>
      if bool_decide (c = " "%char) then String "+" (form_encode s')
      else if form_safe c then String c (form_encode s')
      else String "%" (String (hex_char (N_of_ascii c / 16))
             (String (hex_char (N_of_ascii c mod 16)) (form_encode s')))
  end.

Fixpoint form_decode (s : string) : string :=
  match s with
  | EmptyString => EmptyString
  | String c s' =>
      if bool_decide (c = "+"%char) then String " " (form_decode s')
      else if bool_decide (c = "%"%char) then
        match s' with
        | String h (String l s'') =>
            match char_digit 16 h, char_digit 16 l with
            | Some a, Some b => String (ascii_of_N (a * 16 + b)) (form_decode s'')
            | _, _ => String c (form_decode s')
            end
        | _ => String c (form_decode s')
        end
      else String c (form_decode s')
  end.

(** ** Serializer and parser *)

Definition serialize_pair (nv : string * string) : string :=
  form_encode nv.1 +:+ "=" +:+ form_encode nv.2.

(** [p.toString()]. *)
Definition serialize (p : params) : string := join "&" (map serialize_pair p).

(** The text before and after the first [=]. *)
Fixpoint cut_equals (s : string) : string * string :=
  match s with
  | EmptyString => (EmptyString, EmptyString)
  | String c s' => if bool_decide (c = "="%char) then (EmptyString, s')
                   else let '(a, b) := cut_equals s' in (String c a, b)
  end.

Definition parse_pair (s : string) : string * string :=
  let '(n, v) := cut_equals s in (form_decode n, form_decode v).

Definition parse_query (s : string) : params :=
  map parse_pair (List.filter (λ w, negb (bool_decide (w = ""))) (split_on "&" s)).

(** [new URLSearchParams(search)], which drops a leading [?]. *)
Definition parse_search (search : string) : params :=
  match search with
  | String c s => if bool_decide (c = "?"%char) then parse_query s else parse_query search
  | EmptyString => []
  end.

(** ** The location *)

Record location := Location {
  loc_path : string;    (** origin and path *)
  loc_search : string;  (** [window.location.search]: empty, or starting with [?] *)
  loc_hash : string;
}.

(** [window.history.replaceState(null, "", url)] after the search parameters of
    the current URL were changed to [p]. *)
Definition replace_search (loc : location) (p : params) : location :=
  Location (loc_path loc) (if bool_decide (p = []) then "" else String "?" (serialize p))
    (loc_hash loc).

(** ** Properties of [set] and [delete] *)

Lemma param_get_delete_eq p n : param_get (param_delete p n) n = None.
Proof.
  induction p as [|[a v] p IH]; simpl; [done|].
  destruct (bool_decide_reflect (a = n)); simpl; [done|]. by rewrite bool_decide_false.
Qed.

Lemma param_get_delete_ne p n n' : n ≠ n' → param_get (param_delete p n) n' = param_get p n'.
Proof.
  intros Hne. induction p as [|[a v] p IH]; simpl; [done|].
  destruct (bool_decide_reflect (a = n)) as [->|]; simpl; [|by rewrite IH].
  by rewrite bool_decide_false.
Qed.

Lemma param_get_set_eq p n v : param_get (param_set p n v) n = Some v.
Proof.
  induction p as [|[a w] p IH]; simpl; [by rewrite bool_decide_true|].
  destruct (bool_decide_reflect (a = n)); simpl;
    [by rewrite bool_decide_true|by rewrite bool_decide_false].
Qed.

Lemma param_get_set_ne p n n' v : n ≠ n' → param_get (param_set p n v) n' = param_get p n'.
Proof.
  intros Hne. induction p as [|[a w] p IH]; simpl; [by rewrite bool_decide_false|].
  destruct (bool_decide_reflect (a = n)) as [->|]; simpl; [|by rewrite IH].
  rewrite !bool_decide_false by done. by apply param_get_delete_ne.
Qed.

Lemma param_set_nonempty p n v : param_set p n v ≠ [].
Proof. destruct p as [|[a w] p]; simpl; [done|]. by case_match. Qed.

Lemma param_delete_nonempty p n n' v : n ≠ n' → param_delete (param_set p n v) n' ≠ [].
Proof.
  intros Hne H. pose proof (param_get_set_eq p n v) as Hg.
  rewrite <- (param_get_delete_ne _ n') in Hg by done. by rewrite H in Hg.
Qed.

(** ** Parsing inverts serializing *)

Lemma hex_char_digit d : (d < 16)%N → char_digit 16 (hex_char d) = Some d.
Proof.
  intros Hd.
  assert (d ∈ (N.of_nat <$> seq 0 16)) as Hin.
  { apply list_elem_of_fmap. exists (N.to_nat d). rewrite N2Nat.id. split; [done|].
    apply elem_of_seq. lia. }
  revert Hin. cbn. rewrite !elem_of_cons. intros H.
  repeat destruct H as [->|H]; try done. by apply elem_of_nil in H.
Qed.

Lemma form_safe_plain c :
  form_safe c = true → c ≠ "+"%char ∧ c ≠ "%"%char ∧ c ≠ "&"%char ∧ c ≠ "="%char.
Proof. intros H. split_and!; intros ->; discriminate H. Qed.

Lemma ascii_hex c :
  ascii_of_N (N_of_ascii c / 16 * 16 + N_of_ascii c mod 16) = c.
Proof.
  rewrite N.mul_comm, <- N.div_mod by done. apply ascii_N_embedding.
Qed.

Lemma N_of_ascii_lt c : (N_of_ascii c < 256)%N.
Proof. apply N_ascii_bounded. Qed.

Lemma form_decode_encode s : form_decode (form_encode s) = s.
Proof.
  induction s as [|c s IH]; [done|]. cbn [form_encode].
  destruct (bool_decide_reflect (c = " "%char)) as [->|]; [cbn; by rewrite IH|].
  destruct (form_safe c) eqn:Hs.
  - apply form_safe_plain in Hs as (? & ? & _). cbn [form_decode].
    rewrite !bool_decide_false by done. by rewrite IH.
  - cbn -[N.div N.modulo char_digit hex_char]. pose proof (N_of_ascii_lt c).
    rewrite !hex_char_digit by (apply N.mod_upper_bound || apply N.Div0.div_lt_upper_bound; lia).
    by rewrite ascii_hex, IH.
Qed.

Lemma form_encode_no_char c s :
  c ≠ "+"%char → c ≠ "%"%char → char_digit 16 c = None → form_safe c = false →
  has_char c (form_encode s) = false.
Proof.
  intros Hp Hpc Hd Hs. induction s as [|a s IH]; [done|]. cbn [form_encode].
  destruct (bool_decide _); [|destruct (form_safe a) eqn:Ha].
  - cbn [has_char]. by rewrite bool_decide_false, IH.
  - cbn [has_char]. rewrite bool_decide_false, IH by congruence. done.
  - pose proof (N_of_ascii_lt a). cbn [has_char]. rewrite !bool_decide_false, IH; try done.
    all: intros E; rewrite <- E in Hd; rewrite hex_char_digit in Hd; [done|].
    all: apply N.mod_upper_bound || apply N.Div0.div_lt_upper_bound; lia.
Qed.

Lemma cut_equals_app s t :
  has_char "=" s = false → cut_equals (s +:+ String "=" t) = (s, t).
Proof.
  induction s as [|c s IH]; simpl; [done|]. intros [Hc Hs]%orb_false_iff.
  by rewrite Hc, IH.
Qed.

Lemma parse_serialize_pair nv : parse_pair (serialize_pair nv) = nv.
Proof.
  destruct nv as [n v]. unfold parse_pair, serialize_pair; cbn [fst snd].
  change ("=" +:+ ?x) with (String "=" x).
  rewrite cut_equals_app by (by apply form_encode_no_char).
  by rewrite !form_decode_encode.
Qed.

Lemma serialize_pair_no_amp nv : has_char "&" (serialize_pair nv) = false.
Proof.
  unfold serialize_pair. rewrite !has_char_app, !form_encode_no_char by done. done.
Qed.

Lemma serialize_pair_nonempty nv : serialize_pair nv ≠ "".
Proof. unfold serialize_pair. by destruct (form_encode nv.1). Qed.

(** [new URLSearchParams(p.toString())] has the pairs of [p], in order. *)
Lemma parse_serialize p : parse_query (serialize p) = p.
Proof.
  destruct (decide (p = [])) as [->|Hne]; [done|].
  unfold parse_query, serialize. rewrite split_join.
  - rewrite lfilter_all.
    + rewrite List.map_map. rewrite <- (List.map_id p) at 2.
      apply List.map_ext. apply parse_serialize_pair.
    + intros w (nv & -> & _)%list_elem_of_fmap.
      by rewrite bool_decide_false by apply serialize_pair_nonempty.
  - by destruct p.
  - apply Forall_forall. intros w (nv & -> & _)%list_elem_of_fmap.
    apply serialize_pair_no_amp.
Qed.

(** The search string written for [p] reads back as [p]. *)
Lemma parse_replace_search loc p : parse_search (loc_search (replace_search loc p)) = p.
Proof.
  unfold replace_search. simpl.
  destruct (bool_decide_reflect (p = [])) as [->|]; [done|]. simpl. apply parse_serialize.
Qed.

