(* ===== verification/BenchmarkData.v ===== *)
(** * The benchmark data and what is derived from it

    Models the first half of [docs/benchmark-dashboard/components/benchmark-dashboard.tsx]:
    the data types, the flattening of the cpu / group / test / server hierarchy
    ([flattenedData]), the options the filters offer ([allFilterOptions],
    [filterOptions]), the grouped test cases of the test-case menu
    ([groupedTestCases]) and the colour of each server ([serverColors]).

    The data is the parsed body of [/results.json].  Leaf fields are [prim];
    the nested arrays may be absent or [null] ([NotArr]), and so may their
    elements ([None]), which is what the guards of the code are for. *)

From Stdlib Require Import SpecFloat.
From S2P Require Import Prelude JsSort JsNumber JsText JsValue.

(** ** Errors *)

Inductive js_error := TypeError.

Inductive exc (A : Type) :=
  | Ok (a : A)
  | Throw (e : js_error).
Arguments Ok {A} a.
Arguments Throw {A} e.

Definition exc_bind {A B} (m : exc A) (k : A → exc B) : exc B :=
  match m with Ok a => k a | Throw e => Throw e end.

Notation "'let!' x := m 'in' k" := (exc_bind m (λ x, k))
  (at level 10, x name, m at level 100, k at level 200) : js_scope.
#[local] Open Scope js_scope.

(** [l.forEach] over a computation that may throw, from left to right. *)
Fixpoint exc_foldl {A S} (f : S → A → exc S) (s : S) (l : list A) : exc S :=
  match l with
  | [] => Ok s
  | x :: l' => let! s' := f s x in exc_foldl f s' l'
  end.

(** ** Data types *)

Record Results := {
  successRate : prim; total : prim; slowest : prim; fastest : prim; average : prim;
  requestsPerSec : prim; totalData : prim; sizePerRequest : prim; sizePerSec : prim;
  errorDistribution : obj prim; p95_latency : prim;
}.

Record BenchmarkResult := {
  server : prim; version : prim; test_case : prim; threads : prim; workers : prim;
  http2 : prim; concurrency : prim; rss_mb : prim;
  results : option Results;
  timestamp : prim;
}.

(** A field that should hold an array. *)
Inductive jsarr (A : Type) :=
  | NotArr
  | Arr (l : list A).
Arguments NotArr {A}.
Arguments Arr {A} l.

Record ServerData := { sd_server : prim; sd_results : jsarr (option BenchmarkResult) }.
Record TestData := { td_test : prim; td_servers : jsarr (option ServerData) }.
Record GroupData := { gd_group : prim; gd_tests : jsarr (option TestData) }.
Record CpuData := { cd_cpu : prim; cd_groups : jsarr (option GroupData) }.

Definition HierarchicalBenchmarkData : Type := jsarr (option CpuData).

(** A flattened result: [{...result, cpu, group}]. *)
Record Item := { item_result : BenchmarkResult; cpu : prim; group : prim }.
Coercion item_result : Item >-> BenchmarkResult.

(** [{...null}] has no fields. *)
Definition no_result : BenchmarkResult :=
  {| server := Undefined; version := Undefined; test_case := Undefined; threads := Undefined;
     workers := Undefined; http2 := Undefined; concurrency := Undefined; rss_mb := Undefined;
     results := None; timestamp := Undefined |}.

(** ** [flattenedData] *)

(** [if (!x?.field || !Array.isArray(x.field)) return; x.field.forEach(f)] on the
    array under construction. *)
Definition for_each_field {A B S} (field : A → jsarr B) (f : S → B → S) (s : S) (x : option A) : S :=
  match x with
  | None => s
  | Some a => match field a with
              | NotArr => s
              | Arr l => foldl f s l
              end
  end.

Definition push_result (cpu_name group_name : prim) (flattened : list Item)
    (result : option BenchmarkResult) : list Item :=
  flattened ++ [{| item_result := default no_result result;
                   cpu := cpu_name; group := group_name |}].

Definition flattenedData (data : HierarchicalBenchmarkData) : list Item :=
  match data with
  | NotArr => []
  | Arr cpus =>
      foldl (λ flattened cpuData,
        for_each_field cd_groups (λ flattened groupData,
          for_each_field gd_tests (λ flattened testData,
            for_each_field td_servers (λ flattened serverData,
              for_each_field sd_results
                (push_result (from_option cd_cpu Undefined cpuData)
                             (from_option gd_group Undefined groupData))
                flattened serverData)
              flattened testData)
            flattened groupData)
          flattened cpuData)
        [] cpus
  end.

(** ** [allFilterOptions] and [filterOptions] *)

Record FilterOptions := {
  o_cpus : list prim; o_testCases : list prim; o_servers : list prim;
  o_threads : list prim; o_workers : list prim; o_concurrencyLevels : list prim;
  o_http2Options : list prim;
}.

(** [(a, b) => a - b]. *)
Definition prim_sub_cmp (a b : prim) : comparison := sub_cmp (to_number a) (to_number b).

(** [[...new Set(items.map(f).filter(Boolean))]]. *)
Definition distinct_truthy (f : Item → prim) (items : list Item) : list prim :=
  new_set (List.filter truthy (map f items)).

(** [[...new Set(items.map(f).filter((t) => typeof t === "number"))].sort((a, b) => a - b)]. *)
Definition distinct_numbers (f : Item → prim) (items : list Item) : list prim :=
  sort_by prim_sub_cmp (new_set (List.filter is_number (map f items))).

(** [["all", ...new Set(items.map((i) => i.http2).filter((h) => typeof h === "boolean"))]]. *)
Definition http2_options (items : list Item) : list prim :=
  PStr "all" :: new_set (List.filter is_boolean (map (λ i : Item, http2 i) items)).

Definition defaultOptions : FilterOptions :=
  {| o_cpus := []; o_testCases := []; o_servers := []; o_threads := []; o_workers := [];
     o_concurrencyLevels := []; o_http2Options := [PStr "all"] |}.

(** [data.map((cpuData) => cpuData.cpu)]: reading a field of [null] throws. *)
Fixpoint cpu_names (cpus : list (option CpuData)) : exc (list prim) :=
  match cpus with
  | [] => Ok []
  | None :: _ => Throw TypeError
  | Some c :: cpus' => let! names := cpu_names cpus' in Ok (cd_cpu c :: names)
  end.

Definition allFilterOptions (data : HierarchicalBenchmarkData) : exc FilterOptions :=
  match data with
  | NotArr | Arr [] => Ok defaultOptions
  | Arr cpus =>
      let items := flattenedData data in
      let! names := cpu_names cpus in
      Ok {| o_cpus := List.filter truthy names;
            o_testCases := distinct_truthy (λ i : Item, test_case i) items;
            o_servers := distinct_truthy (λ i : Item, server i) items;
            o_threads := distinct_numbers (λ i : Item, threads i) items;
            o_workers := distinct_numbers (λ i : Item, workers i) items;
            o_concurrencyLevels := distinct_numbers (λ i : Item, concurrency i) items;
            o_http2Options := http2_options items |}
  end.

(** The options left once a CPU and a test case are chosen. *)
Definition filterOptions (items : list Item) (all_cpus : list prim)
    (sel_cpu sel_testCase : prim) : FilterOptions :=
  let cpuFilteredData := List.filter (λ i : Item, strict_eq (cpu i) sel_cpu) items in
  let availableTestCases := distinct_truthy (λ i : Item, test_case i) cpuFilteredData in
  let testCaseFilteredData :=
    List.filter (λ i : Item, strict_eq (test_case i) sel_testCase) cpuFilteredData in
  {| o_cpus := all_cpus;
     o_testCases := availableTestCases;
     o_servers := distinct_truthy (λ i : Item, server i) testCaseFilteredData;
     o_threads := distinct_numbers (λ i : Item, threads i) testCaseFilteredData;
     o_workers := distinct_numbers (λ i : Item, workers i) testCaseFilteredData;
     o_concurrencyLevels := distinct_numbers (λ i : Item, concurrency i) testCaseFilteredData;
     o_http2Options := http2_options testCaseFilteredData |}.

(** ** [serverColors] *)

Definition itsiColor : string := "#ff7f0e".

Definition palette : list string :=
  ["#1f77b4"; "#2ca02c"; "#d62728"; "#9467bd"; "#8c564b"; "#e377c2"; "#7f7f7f";
   "#bcbd22"; "#17becf"; "#393b79"; "#a55194"].

(** [palette[index % palette.length]]. *)
Definition palette_at (index : nat) : string :=
  default "" (palette !! (index mod length palette)).

(** [servers.findIndex((s) => s === "itsi")], then [splice(index, 1)]. *)
Fixpoint splice_itsi (servers : list prim) : option (list prim) :=
  match servers with
  | [] => None
  | s :: servers' => if strict_eq s (PStr "itsi") then Some servers'
                     else cons s <$> splice_itsi servers'
  end.

Fixpoint assign_palette (index : nat) (servers : list prim) (colorMap : obj string) : obj string :=
  match servers with
  | [] => colorMap
  | s :: servers' =>
      assign_palette (S index) servers' (obj_set colorMap (to_string s) (palette_at index))
  end.

Definition serverColors (servers : list prim) : obj string :=
  match splice_itsi servers with
  | Some rest => assign_palette 0 rest (obj_set [] "itsi" itsiColor)
  | None => assign_palette 0 servers []
  end.

(** ** [groupedTestCases] *)

(** The default order of [sort()]: by the UTF-16 code units of the strings.  On UTF-8
    bytes that is the order of the bytes, except that the first bytes of the characters
    from U+E000 to U+FFFF come after those of the characters beyond U+FFFF, which are
    surrogates in UTF-16. *)
Definition code_unit_rank (c : ascii) : ascii :=
  match N_of_ascii c with
  | 0xEE%N => ascii_of_N 0xFE
  | 0xEF%N => ascii_of_N 0xFF
  | 0xFE%N => ascii_of_N 0xEE
  | 0xFF%N => ascii_of_N 0xEF
  | _ => c
  end.

Fixpoint code_unit_ranks (s : string) : string :=
  match s with
  | EmptyString => EmptyString
  | String c s' => String (code_unit_rank c) (code_unit_ranks s')
  end.

Definition string_cmp (a b : prim) : comparison :=
  String.compare (code_unit_ranks (to_string a)) (code_unit_ranks (to_string b)).

(** A character beyond U+FFFF sorts before U+FB00. *)
Example string_cmp_surrogates : string_cmp (PStr "😀") (PStr "ﬀ") = Lt ∧ string_cmp (PStr "é") (PStr "ﬀ") = Lt.
Proof. by vm_compute. Qed.

Definition group_step (groupedTests : obj (list prim)) (item : Item) : exc (obj (list prim)) :=
  if negb (truthy (group item)) || negb (truthy (test_case item)) then Ok groupedTests
  else
    let k := to_string (group item) in
    match obj_get groupedTests k with
    | Missing => Ok (obj_set groupedTests k [test_case item])
    | Own tests =>
        Ok (if includes tests (test_case item) then groupedTests
            else obj_set groupedTests k (tests ++ [test_case item]))
    | Inherited => Throw TypeError
    end.

Section GroupedTestCases.
(** [String.prototype.localeCompare]: the order of the host's locale. *)
Variable localeCompare : string → string → comparison.

Definition group_cmp (a b : string) : comparison :=
  if bool_decide (a = "rack") then Lt
  else if bool_decide (b = "rack") then Gt
  else localeCompare a b.

Definition groupedTestCases (items : list Item) (sel_cpu : prim)
    : exc (obj (list prim) * list string) :=
  let cpuFilteredData := List.filter (λ i : Item, strict_eq (cpu i) sel_cpu) items in
  let! groupedTests := exc_foldl group_step [] cpuFilteredData in
  let groupedTests := map (λ kv, (kv.1, sort_by string_cmp kv.2)) groupedTests in
  Ok (groupedTests, sort_by group_cmp (object_keys groupedTests)).
End GroupedTestCases.

(** ** The flattened data lists every result once, in document order *)

(** The elements of a field that are present. *)
Definition elems {A} (f : jsarr (option A)) : list A :=
  match f with NotArr => [] | Arr l => omap id l end.

(** Results may be [null] and still give an item. *)
Definition result_elems (f : jsarr (option BenchmarkResult)) : list BenchmarkResult :=
  match f with NotArr => [] | Arr l => default no_result <$> l end.

Lemma foldl_append {A B} (f : list B → A → list B) (g : A → list B) s l :
  (∀ s x, f s x = s ++ g x) → foldl f s l = s ++ (l ≫= g).
Proof.
  intros Hf. revert s. induction l as [|x l IH]; intros s; simpl; [by rewrite app_nil_r|].
  by rewrite IH, Hf, <- app_assoc.
Qed.

Lemma omap_id_bind {A B} (g : option A → list B) (h : A → list B) l :
  g None = [] → (∀ a, g (Some a) = h a) → l ≫= g = omap id l ≫= h.
Proof.
  intros HN HS. induction l as [|[a|] l IH]; [done| |]; rewrite bind_cons.
  - change (omap id (Some a :: l)) with (a :: omap id l). by rewrite bind_cons, HS, IH.
  - change (omap id (None :: l)) with (omap id l). by rewrite HN, IH.
Qed.

Lemma for_each_field_append {A B C} (field : A → jsarr (option B)) (f : list C → option B → list C)
    (h : B → list C) s x :
  (∀ s, f s None = s) → (∀ s b, f s (Some b) = s ++ h b) →
  for_each_field field f s x = s ++ from_option (λ a, elems (field a) ≫= h) [] x.
Proof.
  intros HN HS. destruct x as [a|]; simpl; [|by rewrite app_nil_r].
  destruct (field a) as [|l]; simpl; [by rewrite app_nil_r|].
  rewrite (foldl_append f (from_option h [])).
  - f_equal. by apply omap_id_bind.
  - intros s' [b|]; simpl; [by rewrite HS|by rewrite HN, app_nil_r].
Qed.

Lemma bind_singleton {A B} (f : A → B) l : l ≫= (λ x, [f x]) = f <$> l.
Proof. induction l as [|x l IH]; [done|]. rewrite bind_cons, fmap_cons. by rewrite IH. Qed.

Lemma for_each_results {C} (field : ServerData → jsarr (option BenchmarkResult))
    (mk : BenchmarkResult → C) s x :
  for_each_field field (λ s r, s ++ [mk (default no_result r)]) s x
  = s ++ from_option (λ a, mk <$> result_elems (field a)) [] x.
Proof.
  destruct x as [a|]; simpl; [|by rewrite app_nil_r].
  destruct (field a) as [|l]; simpl; [by rewrite app_nil_r|].
  rewrite (foldl_append _ (λ r, [mk (default no_result r)])) by done.
  f_equal. rewrite bind_singleton. by rewrite <- list_fmap_compose.
Qed.

(** The hierarchy read off as a comprehension. *)
Definition flattened_spec (cpus : list (option CpuData)) : list Item :=
  c ← omap id cpus;
  g ← elems (cd_groups c);
  t ← elems (gd_tests g);
  s ← elems (td_servers t);
  r ← result_elems (sd_results s);
  [{| item_result := r; cpu := cd_cpu c; group := gd_group g |}].

Lemma flattenedData_spec cpus : flattenedData (Arr cpus) = flattened_spec cpus.
Proof.
  unfold flattenedData, flattened_spec.
  rewrite (foldl_append _ (from_option (λ c,
    g ← elems (cd_groups c); t ← elems (gd_tests g); s ← elems (td_servers t);
    r ← result_elems (sd_results s);
    [{| item_result := r; cpu := cd_cpu c; group := gd_group g |}]) [])).
  { simpl. by apply omap_id_bind. }
  intros s0 [c|]; [|by rewrite app_nil_r]. cbn [from_option].
  rewrite for_each_field_append with (h := λ g,
    t ← elems (gd_tests g); s ← elems (td_servers t); r ← result_elems (sd_results s);
    [{| item_result := r; cpu := cd_cpu c; group := gd_group g |}]); [done|done|].
  intros s1 g. rewrite for_each_field_append with (h := λ t,
    s ← elems (td_servers t); r ← result_elems (sd_results s);
    [{| item_result := r; cpu := cd_cpu c; group := gd_group g |}]); [done|done|].
  intros s2 t. rewrite for_each_field_append with (h := λ s,
    r ← result_elems (sd_results s);
    [{| item_result := r; cpu := cd_cpu c; group := gd_group g |}]); [done|done|].
  intros s3 s. rewrite bind_singleton. 
  apply (for_each_results sd_results
    (λ x, {| item_result := x; cpu := cd_cpu c; group := gd_group g |}) s3 (Some s)).
Qed.

(** ** The options offered by the numeric filters *)

Lemma elem_of_distinct_truthy f items v :
  v ∈ distinct_truthy f items ↔ ∃ i, i ∈ items ∧ truthy (f i) = true ∧ v = set_norm (f i).
Proof.
  unfold distinct_truthy. rewrite elem_of_new_set. split.
  - intros (w & -> & [Ht (i & -> & Hi)%list_elem_of_fmap]%elem_of_lfilter). eauto.
  - intros (i & Hi & Ht & ->). exists (f i). split; [done|].
    apply elem_of_lfilter. split; [done|]. apply list_elem_of_fmap. eauto.
Qed.

Lemma truthy_norm v : truthy v = true → set_norm v = v.
Proof. by destruct v as [| | |[]|]. Qed.

(** Truthy values are kept as they are. *)
Lemma elem_of_distinct_truthy' f items v :
  v ∈ distinct_truthy f items ↔ truthy v = true ∧ ∃ i, i ∈ items ∧ v = f i.
Proof.
  rewrite elem_of_distinct_truthy. split.
  - intros (i & Hi & Ht & ->). rewrite truthy_norm by done. eauto.
  - intros (Ht & i & Hi & ->). exists i. by rewrite truthy_norm.
Qed.

Lemma elem_of_distinct_numbers f items v :
  v ∈ distinct_numbers f items ↔ ∃ i n, i ∈ items ∧ f i = PNum n ∧ v = set_norm (PNum n).
Proof.
  unfold distinct_numbers. rewrite elem_of_sort_by, elem_of_new_set. split.
  - intros (w & -> & [Hn (i & -> & Hi)%list_elem_of_fmap]%elem_of_lfilter).
    destruct (f i) eqn:E; try done. eauto.
  - intros (i & n & Hi & E & ->). exists (f i). rewrite E. split; [done|].
    apply elem_of_lfilter. split; [done|]. apply list_elem_of_fmap. eauto.
Qed.

Lemma distinct_numbers_NoDup f items : NoDup (distinct_numbers f items).
Proof. apply sort_by_NoDup, new_set_NoDup. Qed.

(** Every number of the data is a double other than NaN, as JSON guarantees. *)
Definition json_numbers (f : Item → prim) (items : list Item) : Prop :=
  ∀ i n, i ∈ items → f i = PNum n → real_num n.

#[global] Instance prim_sub_cmp_consistent :
  ConsistentCmp (λ v, real_num (to_number v)) prim_sub_cmp.
Proof.
  split; intros x y; unfold prim_sub_cmp.
  - by apply (cmp_opp (P := real_num) (cmp := sub_cmp)).
  - intros z. by apply (cmp_trans (P := real_num) (cmp := sub_cmp)).
Qed.

Lemma distinct_numbers_real f items :
  json_numbers f items → Forall (λ v, real_num (to_number v)) (distinct_numbers f items).
Proof.
  intros H. apply Forall_forall. intros v (i & n & Hi & E & ->)%elem_of_distinct_numbers.
  pose proof (H i n Hi E) as Hr. by destruct n.
Qed.

(** [a < b] on values. *)
Definition prim_lt (a b : prim) : Prop := nlt (to_number a) (to_number b) = true.

Lemma StronglySorted_strict {A} (R R' : A → A → Prop) l :
  (∀ x y, x ∈ l → y ∈ l → R x y → x ≠ y → R' x y) →
  StronglySorted R l → NoDup l → StronglySorted R' l.
Proof.
  intros HR Hs. induction Hs as [|x l Hs IH Hall]; intros Hnd; [constructor|].
  inversion Hnd; subst. rewrite Forall_forall in Hall. constructor.
  - apply IH; [|done]. intros a b Ha Hb. apply HR; by right.
  - apply Forall_forall. intros y Hy. apply HR; [by left|by right|auto|]. by intros ->.
Qed.

(** The offered numbers are in strictly ascending order. *)
Lemma distinct_numbers_ascending f items :
  json_numbers f items → StronglySorted prim_lt (distinct_numbers f items).
Proof.
  intros H. pose proof (distinct_numbers_real _ _ H) as Hreal.
  apply (StronglySorted_strict (cmp_le prim_sub_cmp)).
  - intros x y Hx Hy Hle Hne. rewrite Forall_forall in Hreal.
    pose proof (Hreal _ Hx) as Rx. pose proof (Hreal _ Hy) as Ry.
    apply elem_of_distinct_numbers in Hx as (i & n & _ & _ & ->).
    apply elem_of_distinct_numbers in Hy as (j & m & _ & _ & ->).
    unfold cmp_le, prim_sub_cmp in Hle. rewrite nsub_cmp in Hle by done.
    unfold prim_lt, nlt, SFltb. unfold num_cmp in Hle.
    destruct Rx as [_ Nx], Ry as [_ Ny].
    destruct (SFcompare _ _) as [[]|] eqn:E; try done.
    + exfalso. apply Hne. apply same_value_zero_eq; try apply set_norm_not_negzero.
      revert E. destruct n, m; simpl; unfold nstrict_eq, SFeqb; simpl; try done;
        intros [= E]; rewrite ?E; done || by rewrite orb_true_r.
    + by destruct n, m.
  - apply (sort_by_StronglySorted (λ v, real_num (to_number v))).
    { apply _. } unfold distinct_numbers in Hreal. by rewrite sort_by_Permutation in Hreal.
  - apply distinct_numbers_NoDup.
Qed.

(** ** Null entries *)

Lemma cpu_names_throws cpus : cpu_names cpus = Throw TypeError ↔ None ∈ cpus.
Proof.
  induction cpus as [|[c|] cpus IH]; simpl; [split; [done|set_solver]| |].
  - unfold exc_bind. destruct (cpu_names cpus) as [names|[]]; split; try done.
    + intros [?|Hin]%elem_of_cons; [done|]. by apply IH in Hin.
    + intros _. right. by apply IH.
  - split; [intros _; by left|done].
Qed.

Lemma cpu_names_ok cpus :
  None ∉ cpus → cpu_names cpus = Ok (cd_cpu <$> omap id cpus).
Proof.
  induction cpus as [|[c|] cpus IH]; simpl; intros Hn; [done| |set_solver].
  rewrite IH by set_solver. done.
Qed.

(** Null CPU entries contribute nothing to the flattened data. *)
Lemma flattened_drop_null cpus :
  flattenedData (Arr (Some <$> omap id cpus)) = flattenedData (Arr cpus).
Proof.
  rewrite !flattenedData_spec. unfold flattened_spec. f_equal.
  induction cpus as [|[c|] cpus IH]; [done| |done].
  change (omap id (Some c :: cpus)) with (c :: omap id cpus).
  rewrite fmap_cons. change (omap id (Some c :: ?l)) with (c :: omap id l). by rewrite IH.
Qed.

(** ** Options of a selection *)

Lemma strict_eq_eq a b : strict_eq a b = true → not_negzero a → not_negzero b → a = b.
Proof.
  intros H Ha Hb. apply same_value_zero_eq; [done|done|].
  destruct a, b; try done. simpl in *. by rewrite H, orb_true_r.
Qed.

Lemma strict_eq_str a s : strict_eq a (PStr s) = true ↔ a = PStr s.
Proof.
  destruct a; simpl; try done. rewrite bool_decide_eq_true. naive_solver.
Qed.

Lemma strict_eq_str_refl s : strict_eq (PStr s) (PStr s) = true.
Proof. by apply strict_eq_str. Qed.

(** The items of one CPU and one test case. *)
Definition selected (items : list Item) (sel_cpu sel_testCase : prim) : list Item :=
  List.filter (λ i : Item, strict_eq (test_case i) sel_testCase)
    (List.filter (λ i : Item, strict_eq (cpu i) sel_cpu) items).

Lemma elem_of_selected items c t i :
  i ∈ selected items c t ↔
  i ∈ items ∧ strict_eq (cpu i) c = true ∧ strict_eq (test_case i) t = true.
Proof. unfold selected. rewrite !elem_of_lfilter. tauto. Qed.

Lemma json_numbers_selected f items c t : json_numbers f items → json_numbers f (selected items c t).
Proof. intros Hj i n [Hi _]%elem_of_selected. by apply Hj. Qed.

Lemma distinct_numbers_mono f items items' :
  items ⊆ items' → distinct_numbers f items ⊆ distinct_numbers f items'.
Proof.
  intros Hsub v (i & n & Hi & E & ->)%elem_of_distinct_numbers.
  apply elem_of_distinct_numbers. eauto 10.
Qed.

Lemma distinct_truthy_mono f items items' :
  items ⊆ items' → distinct_truthy f items ⊆ distinct_truthy f items'.
Proof.
  intros Hsub v (i & Hi & E & ->)%elem_of_distinct_truthy.
  apply elem_of_distinct_truthy. eauto 10.
Qed.

Lemma selected_sub items c t : selected items c t ⊆ items.
Proof. intros i Hi. by apply elem_of_selected in Hi as [? _]. Qed.

(** ** Colours *)

Lemma palette_at_palette n : palette_at n ∈ palette.
Proof.
  unfold palette_at. destruct (palette !! (n mod length palette)) eqn:E.
  - simpl. by eapply list_elem_of_lookup_2.
  - apply lookup_ge_None in E. pose proof (Nat.mod_upper_bound n (length palette)). simpl in *. lia.
Qed.

Lemma palette_at_inj i j : i < 11 → j < 11 → palette_at i = palette_at j → i = j.
Proof.
  intros Hi Hj. assert (H : NoDup palette) by (apply (bool_decide_unpack _); by vm_compute).
  unfold palette_at. rewrite !Nat.mod_small by (simpl; lia).
  destruct (lookup_lt_is_Some_2 palette i) as [x Hx]; [simpl; lia|].
  destruct (lookup_lt_is_Some_2 palette j) as [y Hy]; [simpl; lia|].
  rewrite Hx, Hy. simpl. intros ->. by eapply NoDup_lookup.
Qed.

Lemma assign_palette_other n servers m k :
  (∀ s, s ∈ servers → to_string s ≠ k) → own_get (assign_palette n servers m) k = own_get m k.
Proof.
  revert n m. induction servers as [|s servers IH]; intros n m Hk; simpl; [done|].
  rewrite IH by (intros; apply Hk; by right). unfold obj_set. case_match; [done|].
  apply own_get_define_ne. apply Hk. by left.
Qed.

(** The [i]-th server of the list gets the palette colour of its position. *)
Lemma assign_palette_at n servers m i s :
  NoDup (to_string <$> servers) → Forall (λ s, to_string s ≠ "__proto__") servers →
  servers !! i = Some s →
  own_get (assign_palette n servers m) (to_string s) = Some (palette_at (n + i)).
Proof.
  revert n m i. induction servers as [|s0 servers IH]; intros n m i Hnd Hp Hi; [done|].
  rewrite fmap_cons in Hnd. apply NoDup_cons in Hnd as [Hn Hnd].
  apply Forall_cons in Hp as [Hs0 Hp]. simpl.
  destruct i as [|i]; simpl in Hi; simplify_eq.
  - rewrite assign_palette_other.
    + unfold obj_set. rewrite bool_decide_false by done. rewrite own_get_define_eq.
      by rewrite Nat.add_0_r.
    + intros s' Hs' E. apply Hn. rewrite <- E. by apply list_elem_of_fmap_2.
  - rewrite (IH _ _ i) by done. f_equal. f_equal. lia.
Qed.

Lemma splice_itsi_elem servers rest s :
  splice_itsi servers = Some rest → s ∈ rest → s ∈ servers.
Proof.
  revert rest. induction servers as [|a servers IH]; simpl; [done|]. intros rest H Hs.
  case_match; simplify_eq/=; [by right|].
  destruct (splice_itsi servers) as [r|]; simplify_eq/=.
  apply elem_of_cons in Hs as [->|Hs]; [by left|right; eauto].
Qed.

Lemma splice_itsi_None servers : splice_itsi servers = None ↔ PStr "itsi" ∉ servers.
Proof.
  induction servers as [|a servers IH]; simpl; [set_solver|].
  destruct (strict_eq a (PStr "itsi")) eqn:E.
  - apply strict_eq_str in E as ->. set_solver.
  - rewrite fmap_None, IH. rewrite elem_of_cons. split; [|tauto].
    intros H [<-|?]; [|done]. by rewrite strict_eq_str_refl in E.
Qed.

Lemma splice_itsi_NoDup servers rest :
  NoDup (to_string <$> servers) → splice_itsi servers = Some rest →
  NoDup (to_string <$> rest) ∧ "itsi" ∉ to_string <$> rest.
Proof.
  revert rest. induction servers as [|a servers IH]; simpl; [done|]. intros rest Hnd H.
  apply NoDup_cons in Hnd as [Ha Hnd]. case_match eqn:E; simplify_eq/=.
  - apply strict_eq_str in E as ->. done.
  - destruct (splice_itsi servers) as [r|] eqn:Er; simplify_eq/=.
    destruct (IH r) as [Hr Hi]; [done|done|]. split.
    + apply NoDup_cons. split; [|done]. intros (s & Es & Hs)%list_elem_of_fmap.
      apply Ha. rewrite Es. apply list_elem_of_fmap_2. by eapply splice_itsi_elem.
    + rewrite not_elem_of_cons. split; [|done]. intros Eq. apply Ha. rewrite <- Eq.
      destruct (decide (PStr "itsi" ∈ servers)) as [Hin|Hin].
      * by apply (list_elem_of_fmap_2 to_string) in Hin.
      * apply splice_itsi_None in Hin. congruence.
Qed.

Lemma splice_itsi_filter servers rest :
  NoDup (to_string <$> servers) → splice_itsi servers = Some rest →
  rest = List.filter (λ s, negb (strict_eq s (PStr "itsi"))) servers.
Proof.
  revert rest. induction servers as [|a servers IH]; intros rest; [done|].
  rewrite fmap_cons, NoDup_cons. intros [Ha Hnd]. cbn [splice_itsi List.filter].
  destruct (strict_eq a (PStr "itsi")) eqn:E; cbn [negb].
  - intros [= <-]. symmetry. apply lfilter_all. intros s Hs. apply negb_true_iff, not_true_is_false.
    intros ->%strict_eq_str. apply strict_eq_str in E as ->. apply Ha. by apply (list_elem_of_fmap_2 to_string).
  - destruct (splice_itsi servers) as [r|]; [|done]. intros [= <-]. by rewrite (IH r).
Qed.

(** The other servers get the palette's colours in order. *)
Lemma serverColors_other servers :
  NoDup (to_string <$> servers) → Forall (λ s, to_string s ≠ "__proto__") servers →
  ∀ i s, List.filter (λ s, negb (strict_eq s (PStr "itsi"))) servers !! i = Some s →
         own_get (serverColors servers) (to_string s) = Some (palette_at i).
Proof.
  intros Hnd Hp i s Hi. unfold serverColors. destruct (splice_itsi servers) as [rest|] eqn:E.
  - rewrite <- (splice_itsi_filter _ _ Hnd E) in Hi. apply (assign_palette_at 0); [by eapply splice_itsi_NoDup| |done].
    apply Forall_forall. intros x Hx. rewrite Forall_forall in Hp. apply Hp. by eapply splice_itsi_elem.
  - apply splice_itsi_None in E. rewrite lfilter_all in Hi; [by apply (assign_palette_at 0)|].
    intros x Hx. apply negb_true_iff, not_true_is_false. by intros ->%strict_eq_str.
Qed.

Lemma serverColors_itsi servers :
  NoDup (to_string <$> servers) → PStr "itsi" ∈ servers →
  own_get (serverColors servers) "itsi" = Some itsiColor.
Proof.
  intros Hnd Hin. unfold serverColors.
  destruct (splice_itsi servers) as [rest|] eqn:E; [|by apply splice_itsi_None in E].
  destruct (splice_itsi_NoDup _ _ Hnd E) as [Hndr Hni].
  rewrite assign_palette_other; [done|]. intros s Hs Es. apply Hni. rewrite <- Es.
  by apply list_elem_of_fmap_2.
Qed.

Lemma palette_at_lookup i : Some (palette_at i) = palette !! (i mod 11).
Proof.
  unfold palette_at. change (length palette) with 11.
  destruct (palette !! (i mod 11)) eqn:E; [done|]. apply lookup_ge_None in E.
  pose proof (Nat.mod_upper_bound i 11 ltac:(lia)). change (length palette) with 11 in E. lia.
Qed.

(** ** Grouping *)

Definition relevant (i : Item) : bool := truthy (group i) && truthy (test_case i).

(** What [groupedTests] holds after the given items. *)
Definition groups_of (o : obj (list prim)) (items : list Item) : Prop :=
  (NoDup (keys o) ∧ ∀ k, k ∈ keys o → reserved k = false) ∧
  (∀ g ts, own_get o g = Some ts → ts ≠ [] ∧ NoDup ts) ∧
  (∀ g t, (∃ ts, own_get o g = Some ts ∧ t ∈ ts) ↔
          ∃ i, i ∈ items ∧ relevant i = true ∧ to_string (group i) = g ∧ test_case i = t).

Lemma truthy_not_negzero v : truthy v = true → not_negzero v.
Proof. intros H ->. done. Qed.

Lemma group_step_irrelevant o i : relevant i = false → group_step o i = Ok o.
Proof.
  unfold relevant, group_step. intros H. by rewrite <- negb_andb, H.
Qed.

Lemma group_step_reserved o i :
  relevant i = true → reserved (to_string (group i)) = true →
  own_get o (to_string (group i)) = None → group_step o i = Throw TypeError.
Proof.
  unfold relevant, group_step, obj_get. intros H Hr Hn.
  by rewrite <- negb_andb, H, Hn, Hr.
Qed.

(** One step either leaves the object alone or defines the item's group. *)
Lemma group_step_cases o i o' :
  relevant i = true → group_step o i = Ok o' →
  let k := to_string (group i) in
  (∃ ts, own_get o k = Some ts ∧ includes ts (test_case i) = true ∧ o' = o) ∨
  (∃ ts, own_get o k = Some ts ∧ includes ts (test_case i) = false ∧
         o' = obj_set o k (ts ++ [test_case i])) ∨
  (own_get o k = None ∧ reserved k = false ∧ o' = obj_define o k [test_case i]).
Proof.
  unfold relevant, group_step, obj_get. intros Hr. rewrite <- negb_andb, Hr. simpl.
  destruct (own_get o _) as [ts|] eqn:E; [case_match; intros [= <-]; eauto 10|].
  destruct (reserved _) eqn:R; [done|]. intros [= <-]. right; right. split_and!; [done|done|].
  by apply obj_set_define.
Qed.

Lemma groups_of_skip o items i :
  groups_of o items → relevant i = false → groups_of o (items ++ [i]).
Proof.
  intros (Hnd & Hts & Hg) Hr. split_and!; [apply Hnd|apply Hnd|done|]. intros g t. rewrite Hg.
  setoid_rewrite elem_of_app. setoid_rewrite list_elem_of_singleton. split.
  - intros (j & Hj & ?). eauto.
  - intros (j & [Hj | ->] & Hrel & ?); [eauto|congruence].
Qed.

(** Defining the group's list with the new test case added. *)
Lemma groups_of_define o items i ts ts' :
  groups_of o items → relevant i = true →
  let k := to_string (group i) in
  reserved k = false → default [] (own_get o k) = ts → ts' ≠ [] → NoDup ts' →
  (∀ t, t ∈ ts' ↔ t ∈ ts ∨ t = test_case i) →
  groups_of (obj_define o k ts') (items ++ [i]).
Proof.
  intros ([Hnd Hres] & Hts & Hg) Hr k Hk <- Hne Hnd' Hin.
  split_and!; [auto with js| | |].
  - intros k'. rewrite elem_of_keys_define. intros [->|?]; auto.
  - intros g ts2. rewrite own_get_define. case_decide; [|apply Hts]. by intros [= <-].
  - intros g t. rewrite own_get_define. setoid_rewrite elem_of_app.
    setoid_rewrite list_elem_of_singleton. case_decide as E.
    + subst g. transitivity (t ∈ ts').
      { split; [by intros (? & [= <-] & ?)|eauto]. }
      rewrite Hin. transitivity ((∃ ts, own_get o k = Some ts ∧ t ∈ ts) ∨ t = test_case i).
      { destruct (own_get o k) as [ts|]; simpl; [|set_solver].
        split; [intros [?| ->]; eauto|]. intros [(? & [= <-] & ?)| ->]; eauto. }
      rewrite Hg. split.
      * intros [(j & ? & ? & ? & ?)| ->]; [exists j|exists i]; auto.
      * intros (j & [Hj | ->] & ? & ? & ?); [left; eauto|by right].
    + rewrite Hg. split.
      * intros (j & ? & ? & ? & ?). exists j; auto.
      * intros (j & [Hj | ->] & ? & ? & ?); [eauto|done].
Qed.

Lemma groups_of_step o items i o' :
  groups_of o items → group_step o i = Ok o' → groups_of o' (items ++ [i]).
Proof.
  intros Hg Hs. destruct (relevant i) eqn:Hr.
  2: { rewrite group_step_irrelevant in Hs by done. simplify_eq. by apply groups_of_skip. }
  pose proof Hg as (Hnd & Hts & Hiff).
  assert (truthy (test_case i) = true) as Ht by (unfold relevant in Hr; by breflect).
  assert (∀ ts, own_get o (to_string (group i)) = Some ts →
    includes ts (test_case i) = true ↔ test_case i ∈ ts) as Hinc.
  { intros ts Ets. apply includes_elem; [|by apply truthy_not_negzero].
    apply Forall_forall. intros t Hin.
    destruct (proj1 (Hiff (to_string (group i)) t)) as (j & _ & Hrj & _ & <-); [eauto|].
    apply truthy_not_negzero. unfold relevant in Hrj. by breflect. }
  apply group_step_cases in Hs as [(ts & Ets & Hi & ->)|[(ts & Ets & Hi & ->)|(En & Hres & ->)]];
    [..|done].
  - apply Hinc in Hi; [|done]. split_and!; [apply Hnd|apply Hnd|done|]. intros g t. rewrite Hiff.
    setoid_rewrite elem_of_app. setoid_rewrite list_elem_of_singleton.
    split; [intros (j & ? & ?); eauto|].
    intros (j & [Hj | ->] & Hrj & <- & <-); [by eauto 10|]. apply Hiff. eauto.
  - assert (test_case i ∉ ts) as Hni by (rewrite <- Hinc by done; congruence).
    assert (reserved (to_string (group i)) = false) as Hres.
    { apply Hnd. apply own_get_is_Some. eauto. }
    destruct (Hts _ _ Ets) as [_ Hndts]. rewrite obj_set_define by done.
    eapply (groups_of_define o items i ts); try done; [by rewrite Ets|by destruct ts| |].
    + apply NoDup_app. split_and!; [done|set_solver|apply NoDup_singleton].
    + set_solver.
  - eapply (groups_of_define o items i []); try done; [by rewrite En|apply NoDup_singleton|].
    set_solver.
Qed.

Lemma groups_of_nil : groups_of [] [].
Proof.
  split_and!; [constructor|set_solver|done|]. intros g t. split; [naive_solver|].
  intros (i & Hi & _). by apply elem_of_nil in Hi.
Qed.

Lemma groups_of_fold items pre o o' :
  groups_of o pre → exc_foldl group_step o items = Ok o' → groups_of o' (pre ++ items).
Proof.
  revert pre o. induction items as [|i items IH]; intros pre o Hg H; simpl in H.
  - simplify_eq. by rewrite app_nil_r.
  - destruct (group_step o i) as [o2|] eqn:E; [|done]. simpl in H.
    rewrite cons_middle, app_assoc. eapply IH; [|done]. by eapply groups_of_step.
Qed.

(** The grouping fails exactly on a group named like a member of
    [Object.prototype]. *)
Lemma group_fold_throws items pre o :
  groups_of o pre →
  exc_foldl group_step o items = Throw TypeError ↔
  ∃ i, i ∈ items ∧ relevant i = true ∧ reserved (to_string (group i)) = true.
Proof.
  revert pre o. induction items as [|i items IH]; intros pre o Hg; simpl.
  { split; [done|]. intros (i & Hi & _). by apply elem_of_nil in Hi. }
  destruct (group_step o i) as [o2|[]] eqn:E; simpl.
  - rewrite IH by (by eapply groups_of_step). setoid_rewrite elem_of_cons.
    split; [intros (j & ? & ?); eauto|]. intros (j & [->|?] & Hr & Hres); [|eauto].
    exfalso. rewrite group_step_reserved in E; try done. apply own_get_None. intros Hk.
    destruct Hg as [[_ Hn] _]. apply Hn in Hk. congruence.
  - split; [|done]. intros _. exists i. split; [by left|].
    unfold group_step in E. destruct (_ || _) eqn:Er; [done|].
    unfold relevant. breflect. unfold obj_get in E.
    destruct (own_get o _); [by case_match|]. destruct (reserved _); [|done].
    repeat match goal with H : truthy _ = _ |- _ => rewrite H end. done.
Qed.

Section SortedGroups.
Variable localeCompare : string → string → comparison.

Definition rack_prefix (ks : list string) : list string :=
  if bool_decide ("rack" ∈ ks) then ["rack"] else [].
Definition non_rack (ks : list string) : list string :=
  List.filter (λ k, negb (bool_decide (k = "rack"))) ks.

Lemma insert_non_rack x s :
  x ≠ "rack" → "rack" ∉ s → insert_by (group_cmp localeCompare) x s = insert_by localeCompare x s.
Proof.
  intros Hx. induction s as [|y s IH]; intros Hs; simpl; [done|].
  apply not_elem_of_cons in Hs as [Hy Hs].
  assert (group_cmp localeCompare x y = localeCompare x y) as ->.
  { unfold group_cmp. by rewrite !bool_decide_false by done. }
  by rewrite IH.
Qed.

Lemma non_rack_not_rack ks : "rack" ∉ non_rack ks.
Proof. unfold non_rack. rewrite elem_of_lfilter, bool_decide_true by done. by intros []. Qed.

(** Sorting distinct group names puts ["rack"] first and the others in the
    order of the locale. *)
Lemma sort_group_cmp ks :
  NoDup ks →
  sort_by (group_cmp localeCompare) ks = rack_prefix ks ++ sort_by localeCompare (non_rack ks).
Proof.
  induction 1 as [|k ks Hk Hnd IH]; [done|].
  cbn [sort_by foldr]. fold (sort_by (group_cmp localeCompare) ks). rewrite IH.
  assert (Hn : "rack" ∉ sort_by localeCompare (non_rack ks))
    by (rewrite elem_of_sort_by; apply non_rack_not_rack).
  destruct (decide (k = "rack")) as [->|Hne].
  - assert (rack_prefix ("rack" :: ks) = ["rack"]) as ->.
    { unfold rack_prefix. by rewrite bool_decide_true by left. }
    assert (rack_prefix ks = []) as -> by (unfold rack_prefix; by rewrite bool_decide_false).
    assert (non_rack ("rack" :: ks) = non_rack ks) as -> by done.
    simpl. by destruct (sort_by localeCompare (non_rack ks)).
  - assert (rack_prefix (k :: ks) = rack_prefix ks) as ->.
    { unfold rack_prefix. by rewrite (bool_decide_ext ("rack" ∈ k :: ks) ("rack" ∈ ks)) by set_solver. }
    assert (non_rack (k :: ks) = k :: non_rack ks) as ->.
    { unfold non_rack. simpl. by rewrite bool_decide_false. }
    cbn [sort_by foldr]. fold (sort_by localeCompare (non_rack ks)).
    unfold rack_prefix. case_match; simpl; [|by apply insert_non_rack].
    unfold group_cmp at 1. rewrite bool_decide_false, bool_decide_true by done.
    f_equal. by apply insert_non_rack.
Qed.
End SortedGroups.

Lemma ascii_compare_N a b : Ascii.compare a b = (N_of_ascii a ?= N_of_ascii b)%N.
Proof. done. Qed.

Lemma string_compare_trans s t u :
  String.compare s t ≠ Gt → String.compare t u ≠ Gt → String.compare s u ≠ Gt.
Proof.
  revert t u. induction s as [|a s IH]; intros [|b t] [|c u]; simpl; try done.
  rewrite !ascii_compare_N.
  destruct (N.compare_spec (N_of_ascii a) (N_of_ascii b)) as [E1|E1|E1],
    (N.compare_spec (N_of_ascii b) (N_of_ascii c)) as [E2|E2|E2],
    (N.compare_spec (N_of_ascii a) (N_of_ascii c)) as [E3|E3|E3]; try done; try lia.
  apply IH.
Qed.

#[global] Instance string_cmp_consistent : ConsistentCmp (λ _, True) string_cmp.
Proof.
  split; unfold cmp_le, string_cmp; intros.
  - apply String.compare_antisym.
  - by eapply string_compare_trans.
Qed.

Lemma keys_sorted (o : obj (list prim)) :
  keys (map (λ kv, (kv.1, sort_by string_cmp kv.2)) o) = keys o.
Proof. unfold keys. rewrite List.map_map. done. Qed.

Lemma own_get_sorted (o : obj (list prim)) g :
  own_get (map (λ kv, (kv.1, sort_by string_cmp kv.2)) o) g = sort_by string_cmp <$> own_get o g.
Proof. induction o as [|[k v] o IH]; simpl; [done|]. by case_match. Qed.

(** ** Main theorems *)

(** C22: [flattenedData] lists every result of the hierarchy exactly once, in
    document order, tagged with the names of its CPU and its group; levels that
    are [null] or not arrays are skipped, a [null] result gives an item without
    fields. *)
Theorem flattenedData_document_order cpus :
  flattenedData (Arr cpus) = flattened_spec cpus.
Proof. apply flattenedData_spec. Qed.

(** The option list of a numeric filter holds exactly the numbers that occur
    in the data ([-0] read as [0]), each once, in strictly ascending order:
    [[...new Set(...)].sort((a, b) => a - b)] sorts numerically although the
    comparator subtracts with rounding. *)
Lemma numeric_options_ascending f items :
  json_numbers f items →
  StronglySorted prim_lt (distinct_numbers f items) ∧
  NoDup (distinct_numbers f items) ∧
  ∀ v, v ∈ distinct_numbers f items ↔
       ∃ i n, i ∈ items ∧ f i = PNum n ∧ v = set_norm (PNum n).
Proof.
  intros H. split_and!; [by apply distinct_numbers_ascending|apply distinct_numbers_NoDup|].
  intros v. apply elem_of_distinct_numbers.
Qed.

(** The filter options and a [null] CPU. *)
Lemma allFilterOptions_throws_iff cpus :
  (allFilterOptions (Arr cpus) = Throw TypeError ↔ None ∈ cpus) ∧
  flattenedData (Arr (Some <$> omap id cpus)) = flattenedData (Arr cpus).
Proof.
  split; [|apply flattened_drop_null]. rewrite <- cpu_names_throws.
  destruct cpus as [|c cpus]; [done|]. unfold allFilterOptions.
  destruct (cpu_names (c :: cpus)) as [names|[]]; done.
Qed.

(** The protocols of some results. *)
Lemma elem_of_protocols (items : list Item) v :
  v ∈ new_set (List.filter is_boolean (map (λ i : Item, http2 i) items)) ↔
  ∃ (i : Item) b, i ∈ items ∧ http2 i = PBool b ∧ v = PBool b.
Proof.
  rewrite elem_of_new_set. setoid_rewrite elem_of_lfilter. setoid_rewrite list_elem_of_In.
  setoid_rewrite in_map_iff. setoid_rewrite <- list_elem_of_In. split.
  - intros (w & -> & Hb & i & <- & Hi). destruct (http2 i) as [| |b| |] eqn:E; try done. by exists i, b.
  - intros (i & b & Hi & E & ->). exists (PBool b). split_and!; [done|done|]. by exists i.
Qed.

Lemma http2_options_NoDup items : NoDup (http2_options items).
Proof.
  apply NoDup_cons. split; [|apply new_set_NoDup]. by intros (i & b & _ & _ & [=])%elem_of_protocols.
Qed.

(** C23: the options offered for a CPU and a test case are exactly what the results
    of that CPU and test case hold: the servers, the numbers of threads, workers and
    connections, and, after "all", the protocols; and the test cases offered are those
    that occur on the CPU.  Nothing is offered twice, and on JSON data the numbers are
    in strictly ascending order, although the comparator [a - b] rounds. *)
Theorem filterOptions_sound_complete items cpus c t :
  let o := filterOptions items cpus c t in
  (∀ v, v ∈ o_testCases o ↔
     truthy v = true ∧ ∃ i : Item, i ∈ items ∧ strict_eq (cpu i) c = true ∧ v = test_case i) ∧
  (∀ v, v ∈ o_threads o ↔ ∃ (i : Item) n, i ∈ selected items c t ∧
     threads i = PNum n ∧ v = set_norm (PNum n)) ∧
  (∀ v, v ∈ o_workers o ↔ ∃ (i : Item) n, i ∈ selected items c t ∧
     workers i = PNum n ∧ v = set_norm (PNum n)) ∧
  (∀ v, v ∈ o_concurrencyLevels o ↔ ∃ (i : Item) n, i ∈ selected items c t ∧
     concurrency i = PNum n ∧ v = set_norm (PNum n)) ∧
  (∀ v, v ∈ o_servers o ↔
     truthy v = true ∧ ∃ i : Item, i ∈ selected items c t ∧ v = server i) ∧
  (∃ protocols, o_http2Options o = PStr "all" :: protocols ∧
     ∀ v, v ∈ protocols ↔ ∃ (i : Item) b, i ∈ selected items c t ∧ http2 i = PBool b ∧ v = PBool b) ∧
  o_cpus o = cpus ∧
  Forall (λ l, NoDup l) [o_testCases o; o_servers o; o_threads o; o_workers o; o_concurrencyLevels o;
                         o_http2Options o] ∧
  (json_numbers (λ i : Item, threads i) items → StronglySorted prim_lt (o_threads o)) ∧
  (json_numbers (λ i : Item, workers i) items → StronglySorted prim_lt (o_workers o)) ∧
  (json_numbers (λ i : Item, concurrency i) items → StronglySorted prim_lt (o_concurrencyLevels o)).
Proof.
  simpl. split_and!; try (intros v; apply elem_of_distinct_numbers).
  - intros v. rewrite elem_of_distinct_truthy'. setoid_rewrite elem_of_lfilter. naive_solver.
  - intros v. apply elem_of_distinct_truthy'.
  - eexists. split; [done|]. intros v. apply elem_of_protocols.
  - done.
  - repeat (apply Forall_cons; split; [first [apply distinct_numbers_NoDup|apply new_set_NoDup|
      apply http2_options_NoDup]|]). done.
  - intros Hj. by apply distinct_numbers_ascending, json_numbers_selected.
  - intros Hj. by apply distinct_numbers_ascending, json_numbers_selected.
  - intros Hj. by apply distinct_numbers_ascending, json_numbers_selected.
Qed.

(** C25: the colours of the servers.  The server "itsi", wherever it stands, is drawn in
    its own orange; the other servers, in their order, get the colours of the palette
    one after the other, starting over after the eleventh, never that orange; and as
    long as there are no more than eleven others, no two of them share a colour. *)
Theorem serverColors_spec servers :
  NoDup (to_string <$> servers) →
  Forall (λ s, to_string s ≠ "__proto__") servers →
  let others := List.filter (λ s, negb (strict_eq s (PStr "itsi"))) servers in
  (PStr "itsi" ∈ servers → own_get (serverColors servers) "itsi" = Some "#ff7f0e") ∧
  (∀ i s, others !! i = Some s →
     own_get (serverColors servers) (to_string s) = palette !! (i mod 11) ∧
     own_get (serverColors servers) (to_string s) ≠ Some "#ff7f0e") ∧
  (∀ i j s s', length others ≤ 11 → others !! i = Some s → others !! j = Some s' →
     own_get (serverColors servers) (to_string s) = own_get (serverColors servers) (to_string s') →
     i = j).
Proof.
  intros Hnd Hp others. pose proof (serverColors_other servers Hnd Hp) as Hat. fold others in Hat.
  split_and!.
  - by apply serverColors_itsi.
  - intros i s Hi. rewrite (Hat i s Hi). split; [apply palette_at_lookup|]. intros [= Eq].
    pose proof (palette_at_palette i) as Hpal. rewrite Eq in Hpal.
    revert Hpal. apply (bool_decide_unpack _). by vm_compute.
  - intros i j s s' Hlen Hi Hj. rewrite (Hat _ _ Hi), (Hat _ _ Hj). intros [= Eq].
    apply lookup_lt_Some in Hi, Hj. apply palette_at_inj; [lia|lia|done].
Qed.

(** C24: the test-case menu of a CPU. Each group's list holds exactly the test
    cases of that group on that CPU, each once, in code-unit order; the groups are
    listed with "rack" first (when present) and the others in locale order. *)
Theorem groupedTestCases_menu lc items c gt sg :
  groupedTestCases lc items c = Ok (gt, sg) →
  (∀ g t, (∃ ts, own_get gt g = Some ts ∧ t ∈ ts) ↔
     ∃ i, i ∈ items ∧ strict_eq (cpu i) c = true ∧ relevant i = true ∧
          to_string (group i) = g ∧ test_case i = t) ∧
  (∀ g ts, own_get gt g = Some ts → NoDup ts ∧ StronglySorted (cmp_le string_cmp) ts) ∧
  sg = rack_prefix (keys gt) ++ sort_by lc (non_rack (object_keys gt)).
Proof.
  unfold groupedTestCases. intros H.
  destruct (exc_foldl _ _ _) as [o|] eqn:E; [|done]. simpl in H. simplify_eq.
  destruct (groups_of_fold _ _ _ _ groups_of_nil E) as ([Hnd _] & Hts & Hg). split_and!.
  - intros g t. rewrite own_get_sorted. transitivity (∃ ts, own_get o g = Some ts ∧ t ∈ ts).
    { split; intros (ts & Ets & Ht).
      - apply fmap_Some in Ets as (ts' & -> & ->). apply elem_of_sort_by in Ht. eauto.
      - rewrite Ets. eexists. split; [done|]. by apply elem_of_sort_by. }
    rewrite Hg. simpl. setoid_rewrite elem_of_lfilter. naive_solver.
  - intros g ts. rewrite own_get_sorted. intros (ts' & Ets & ->)%fmap_Some. split.
    + apply sort_by_NoDup. by eapply Hts.
    + apply (sort_by_StronglySorted (λ _, True)); [apply _|]. by apply Forall_true.
  - rewrite sort_group_cmp.
    + f_equal. unfold rack_prefix. by rewrite (bool_decide_ext ("rack" ∈ object_keys _) ("rack" ∈ keys
        (map (λ kv, (kv.1, sort_by string_cmp kv.2)) o))) by apply elem_of_object_keys.
    + rewrite object_keys_Permutation, keys_sorted. done.
Qed.

(** The menu and groups named like a member of [Object.prototype]. *)
Lemma groupedTestCases_throws_iff lc items c :
  groupedTestCases lc items c = Throw TypeError ↔
  ∃ i, i ∈ items ∧ strict_eq (cpu i) c = true ∧ relevant i = true ∧
       reserved (to_string (group i)) = true.
Proof.
  unfold groupedTestCases.
  transitivity (exc_foldl group_step [] (List.filter (λ i : Item, strict_eq (cpu i) c) items)
                = Throw TypeError).
  { destruct (exc_foldl _ _ _) as [|[]]; done. }
  rewrite (group_fold_throws _ [] []) by apply groups_of_nil.
  setoid_rewrite elem_of_lfilter. naive_solver.
Qed.

(** C39: exactly two kinds of malformed data make the page's tables throw: a [null]
    entry in the CPU list, which the filter options do not expect although
    [flattenedData] skips it; and, for the menu of a CPU, a result of that CPU whose
    group is named like a member of [Object.prototype] ("constructor", "toString",
    ...). *)
Theorem tables_throw_iff lc cpus c :
  (allFilterOptions (Arr cpus) = Throw TypeError ↔ None ∈ cpus) ∧
  flattenedData (Arr (Some <$> omap id cpus)) = flattenedData (Arr cpus) ∧
  (groupedTestCases lc (flattenedData (Arr cpus)) c = Throw TypeError ↔
   ∃ i, i ∈ flattenedData (Arr cpus) ∧ strict_eq (cpu i) c = true ∧ relevant i = true ∧
        reserved (to_string (group i)) = true).
Proof.
  destruct (allFilterOptions_throws_iff cpus) as [H1 H2].
  split_and!; [done|done|apply groupedTestCases_throws_iff].
Qed.
