(* ===== verification/SampleData.v ===== *)
(** * The sample data of the dashboard's page

    [sampleHierarchicalData] of [docs/benchmark-dashboard/app/page.tsx], value by
    value.  It doubles as the concrete input of the witnesses of the data
    component. *)

From Stdlib Require Import SpecFloat.
From S2P Require Import Prelude JsSort JsNumber JsText JsValue BenchmarkData.


(** Integer and decimal literals. *)
Definition int (n : N) : prim := PNum (of_Z (Z.of_N n)).
Definition dec (s : N) (k : Z) : prim := PNum (lit s k).

Definition agoo_version : prim :=
  PStr "Agoo v1.2.3 (Ruby 3.2.0) with experimental HTTP/2 support".
Definition puma_version : prim :=
  PStr "Puma version 6.6.0+h2o version 2.3.0-DEV@87e2aa634 (Ruby 3.2.2) with HTTP/2 support enabled".

Definition agoo_10 : BenchmarkResult :=
  {| server := PStr "agoo"; test_case := PStr "chunked"; version := agoo_version;
     threads := int 1; workers := int 1; http2 := PBool false; concurrency := int 10;
     rss_mb := dec 177 (-2);
     results := Some {|
       successRate := int 1; total := int 20000; slowest := int 5000000;
       fastest := int 200000; average := int 2500000; requestsPerSec := int 6500;
       totalData := int 0; sizePerRequest := int 0; sizePerSec := int 0;
       errorDistribution := []; p95_latency := dec 48 (-1) |};
     timestamp := PStr "2025-05-24T10:41:17Z" |}.

Definition agoo_50 : BenchmarkResult :=
  {| server := PStr "agoo"; test_case := PStr "chunked"; version := agoo_version;
     threads := int 1; workers := int 1; http2 := PBool false; concurrency := int 50;
     rss_mb := dec 177 (-2);
     results := Some {|
       successRate := dec 95 (-2); total := int 28000; slowest := int 12000000;
       fastest := int 400000; average := int 6000000; requestsPerSec := int 9500;
       totalData := int 0; sizePerRequest := int 0; sizePerSec := int 0;
       errorDistribution := [("timeout", int 50)]; p95_latency := dec 102 (-1) |};
     timestamp := PStr "2025-05-24T10:41:17Z" |}.

Definition puma_10 : BenchmarkResult :=
  {| server := PStr "puma"; test_case := PStr "chunked"; version := puma_version;
     threads := int 1; workers := int 1; http2 := PBool true; concurrency := int 10;
     rss_mb := Undefined;
     results := Some {|
       successRate := int 1; total := int 15000; slowest := int 4000000;
       fastest := int 200000; average := int 2000000; requestsPerSec := int 5000;
       totalData := int 150000000; sizePerRequest := int 10000; sizePerSec := int 50000000;
       errorDistribution := []; p95_latency := dec 38 (-1) |};
     timestamp := Undefined |}.

Definition puma_50 : BenchmarkResult :=
  {| server := PStr "puma"; test_case := PStr "chunked"; version := puma_version;
     threads := int 1; workers := int 1; http2 := PBool true; concurrency := int 50;
     rss_mb := Undefined;
     results := Some {|
       successRate := int 1; total := int 22000; slowest := int 12000000;
       fastest := int 400000; average := int 6000000; requestsPerSec := int 7500;
       totalData := int 220000000; sizePerRequest := int 10000; sizePerSec := int 75000000;
       errorDistribution := []; p95_latency := dec 112 (-1) |};
     timestamp := Undefined |}.

Definition itsi_10 : BenchmarkResult :=
  {| server := PStr "itsi"; test_case := PStr "io_party";
     version := PStr "ITSI v0.9.1-beta.3 (Experimental) with advanced IO processing and HTTP/2 multiplexing support";
     threads := int 1; workers := int 1; http2 := PBool true; concurrency := int 10;
     rss_mb := dec 6411 (-2);
     results := Some {|
       successRate := int 1; total := int 48591; slowest := int 2850375;
       fastest := int 116292; average := int 486975; requestsPerSec := dec 1619649 (-2);
       totalData := int 0; sizePerRequest := int 0; sizePerSec := int 0;
       errorDistribution := []; p95_latency := dec 977999 (-6) |};
     timestamp := PStr "2025-05-15T03:43:50Z" |}.

Definition falcon_10 : BenchmarkResult :=
  {| server := PStr "falcon"; test_case := PStr "hello_world";
     version := PStr "Falcon v0.51.1 (Ruby 3.3.0-preview1) with HTTP/2 and WebSocket support, running on Async::HTTP::Protocol::HTTP2 implementation";
     threads := int 2; workers := int 2; http2 := PBool true; concurrency := int 10;
     rss_mb := Undefined;
     results := Some {|
       successRate := int 1; total := int 30000; slowest := int 10000000;
       fastest := int 400000; average := int 5000000; requestsPerSec := int 10000;
       totalData := int 0; sizePerRequest := int 0; sizePerSec := int 0;
       errorDistribution := []; p95_latency := dec 85 (-1) |};
     timestamp := Undefined |}.

Definition results_of (name : string) (rs : list BenchmarkResult) : option ServerData :=
  Some {| sd_server := PStr name; sd_results := Arr (Some <$> rs) |}.

Definition rack_group : GroupData :=
  {| gd_group := PStr "rack";
     gd_tests := Arr
       [Some {| td_test := PStr "chunked";
                td_servers := Arr [results_of "agoo" [agoo_10; agoo_50];
                                   results_of "puma" [puma_10; puma_50]] |};
        Some {| td_test := PStr "io_party";
                td_servers := Arr [results_of "itsi" [itsi_10]] |}] |}.

Definition sinatra_group : GroupData :=
  {| gd_group := PStr "sinatra";
     gd_tests := Arr
       [Some {| td_test := PStr "hello_world";
                td_servers := Arr [results_of "falcon" [falcon_10]] |}] |}.

Definition sample_cpu : CpuData :=
  {| cd_cpu := PStr "apple_m1_pro"; cd_groups := Arr [Some rack_group; Some sinatra_group] |}.

Definition sampleHierarchicalData : HierarchicalBenchmarkData := Arr [Some sample_cpu].

Definition sample_items : list Item := flattenedData sampleHierarchicalData.

(** ** Witnesses *)

#[global] Instance Item_list_numbers_dec f (items : list Item) :
  Decision (Forall (λ i, match f i with PNum n => real_num n | _ => True end) items).
Proof. apply Forall_dec. intros i. destruct (f i); apply _. Defined.

Lemma json_numbers_Forall f items :
  Forall (λ i, match f i with PNum n => real_num n | _ => True end) items →
  json_numbers f items.
Proof.
  intros H i n Hi E. rewrite Forall_forall in H. specialize (H i Hi). by rewrite E in H.
Qed.

Lemma sample_json_numbers :
  json_numbers (λ i : Item, concurrency i) sample_items.
Proof. apply json_numbers_Forall. apply (bool_decide_unpack _). by vm_compute. Qed.

(** The options for a test case of the sample data. *)
Lemma filterOptions_sound_complete_witness :
  let o := filterOptions sample_items [PStr "apple_m1_pro"] (PStr "apple_m1_pro") (PStr "chunked") in
  StronglySorted prim_lt (o_concurrencyLevels o) ∧ o_concurrencyLevels o = [int 10; int 50] ∧
  (PStr "agoo" ∈ o_servers o → ∃ i : Item, PStr "agoo" = server i) ∧
  o_servers o = [PStr "agoo"; PStr "puma"] ∧
  (∃ protocols, o_http2Options o = PStr "all" :: protocols) ∧
  o_http2Options o = [PStr "all"; PBool false; PBool true].
Proof.
  intros o. destruct (filterOptions_sound_complete sample_items [PStr "apple_m1_pro"]
    (PStr "apple_m1_pro") (PStr "chunked")) as (_ & _ & _ & _ & H5 & (ps & H6 & _) & _ & _ & _ & _ & H10).
  split_and!; [apply H10, sample_json_numbers|by vm_compute| |by vm_compute|by exists ps|by vm_compute].
  intros (_ & i & _ & Hi)%H5. by exists i.
Defined.

Definition sample_servers : list prim := [PStr "agoo"; PStr "itsi"; PStr "puma"; PStr "falcon"].

Lemma serverColors_spec_witness :
  own_get (serverColors sample_servers) "itsi" = Some "#ff7f0e" ∧
  own_get (serverColors sample_servers) "puma" = palette !! 1 ∧
  own_get (serverColors sample_servers) "falcon" = palette !! 2.
Proof.
  destruct (serverColors_spec sample_servers) as (H1 & H2 & _); [apply (bool_decide_unpack _); by vm_compute..|].
  split_and!.
  - apply H1. right. by left.
  - by apply (H2 1 (PStr "puma")).
  - by apply (H2 2 (PStr "falcon")).
Defined.

Lemma groupedTestCases_menu_witness :
  ∃ gt sg, groupedTestCases String.compare sample_items (PStr "apple_m1_pro") = Ok (gt, sg) ∧
    sg = ["rack"; "sinatra"] ∧
    sg = rack_prefix (keys gt) ++ sort_by String.compare (non_rack (object_keys gt)).
Proof.
  do 2 eexists. split; [by vm_compute|]. split; [done|].
  apply (groupedTestCases_menu String.compare sample_items (PStr "apple_m1_pro")). by vm_compute.
Defined.
