(* ===== verification/Filters.v ===== *)
(** * The filter state and its URL

    Models the filter half of [benchmark-dashboard.tsx]: the filter state, its
    reading from and writing to the query string ([parseUrlParams],
    [updateUrlParams]), the sanitizing of what a URL says
    ([validateAndSanitizeFilters]), the initial state, and the effect that
    repairs the selection when the CPU or the test case changes. *)

From Stdlib Require Import SpecFloat.
From S2P Require Import Prelude JsSort JsNumber JsText JsValue UrlParams BenchmarkData SampleData.

(** ** State *)

Record FilterState := {
  f_cpu : prim; f_testCase : prim; f_threads : prim; f_workers : prim;
  f_concurrency : prim; f_http2 : prim; f_xAxis : prim; f_metric : prim;
  f_visibleServers : list prim;
}.

(** [Partial<FilterState>]: an absent field reads as [undefined]. *)
Record PartialFilters := {
  p_cpu : prim; p_testCase : prim; p_threads : prim; p_workers : prim;
  p_concurrency : prim; p_http2 : prim; p_xAxis : prim; p_metric : prim;
  p_visibleServers : option (list prim);
}.

(** [Object.keys(filters).length > 0]. *)
Definition has_keys (u : PartialFilters) : bool :=
  existsb (λ v, negb (bool_decide (v = Undefined)))
    [p_cpu u; p_testCase u; p_threads u; p_workers u; p_concurrency u; p_http2 u;
     p_xAxis u; p_metric u]
  || bool_decide (is_Some (p_visibleServers u)).

(** ** [parseUrlParams] *)

(** [urlParams.get(name)]. *)
Definition url_get (p : params) (name : string) : prim :=
  match param_get p name with Some s => PStr s | None => Null end.

(** [if (v) filters.x = conv(v)] on a fresh object. *)
Definition when_truthy (v : prim) (conv : prim → prim) : prim :=
  if truthy v then conv v else Undefined.

Definition parse_number (v : prim) : prim := PNum (parse_int (to_string v)).

Definition parse_http2 (v : prim) : prim :=
  if strict_eq v (PStr "all") then PStr "all" else PBool (strict_eq v (PStr "true")).

Definition parse_servers (v : prim) : list prim :=
  List.filter truthy (PStr <$> split_on "," (to_string v)).

(** [win] is the page's location, [None] when there is no [window]. *)
Definition parseUrlParams (win : option location) : option PartialFilters :=
  match win with
  | None => None
  | Some loc =>
      let urlParams := parse_search (loc_search loc) in
      let visibleServersParam := url_get urlParams "visibleServers" in
      let filters :=
        {| p_cpu := when_truthy (url_get urlParams "cpu") id;
           p_testCase := when_truthy (url_get urlParams "testCase") id;
           p_threads := when_truthy (url_get urlParams "threads") parse_number;
           p_workers := when_truthy (url_get urlParams "workers") parse_number;
           p_concurrency := when_truthy (url_get urlParams "concurrency") parse_number;
           p_http2 := when_truthy (url_get urlParams "http2") parse_http2;
           p_xAxis := when_truthy (url_get urlParams "xAxis") id;
           p_metric := when_truthy (url_get urlParams "metric") id;
           p_visibleServers :=
             if truthy visibleServersParam then Some (parse_servers visibleServersParam)
             else None |} in
      if has_keys filters then Some filters else None
  end.

(** ** [updateUrlParams] *)

(** [v.toString()]: a method call on [null] or [undefined] throws. *)
Definition method_to_string (v : prim) : exc string :=
  match v with
  | Undefined | Null => Throw TypeError
  | _ => Ok (to_string v)
  end.

(** [l.join(",")] writes [null] and [undefined] as the empty string. *)
Definition join_prims (l : list prim) : string :=
  join "," ((λ v, match v with Undefined | Null => "" | _ => to_string v end) <$> l).

#[local] Open Scope js_scope.

Definition url_params_of (p : params) (f : FilterState) : exc params :=
  let p := param_set p "cpu" (to_string (f_cpu f)) in
  let p := param_set p "testCase" (to_string (f_testCase f)) in
  let! threads := method_to_string (f_threads f) in
  let p := param_set p "threads" threads in
  let! workers := method_to_string (f_workers f) in
  let p := param_set p "workers" workers in
  let! concurrency := method_to_string (f_concurrency f) in
  let p := param_set p "concurrency" concurrency in
  let! http2 := method_to_string (f_http2 f) in
  let p := param_set p "http2" http2 in
  let p := param_set p "xAxis" (to_string (f_xAxis f)) in
  let p := param_set p "metric" (to_string (f_metric f)) in
  Ok (if bool_decide (f_visibleServers f = []) then param_delete p "visibleServers"
      else param_set p "visibleServers" (join_prims (f_visibleServers f))).

(** The [catch] clause logs the error and leaves the location alone. *)
Definition updateUrlParams (f : FilterState) (win : option location) : option location :=
  match win with
  | None => None
  | Some loc =>
      match url_params_of (parse_search (loc_search loc)) f with
      | Ok p => Some (replace_search loc p)
      | Throw _ => Some loc
      end
  end.

(** ** [validateAndSanitizeFilters] *)

Definition defaultFilters (o : FilterOptions) : FilterState :=
  {| f_cpu := js_or (first (o_cpus o)) (PStr "");
     f_testCase := js_or (first (o_testCases o)) (PStr "");
     f_threads := js_or (first (o_threads o)) (int 1);
     f_workers := js_or (first (o_workers o)) (int 1);
     f_concurrency := js_or (first (o_concurrencyLevels o)) (int 10);
     f_http2 := PStr "all";
     f_xAxis := PStr "concurrency";
     f_metric := PStr "rps";
     f_visibleServers := o_servers o |}.

Definition x_axes : list prim := [PStr "concurrency"; PStr "threads"; PStr "workers"].
Definition metrics : list prim := [PStr "rps"; PStr "p95_latency"; PStr "errorRate"].

(** [allowed.includes(v || fallback) ? v : dflt]. *)
Definition checked (allowed : list prim) (v fallback dflt : prim) : prim :=
  if includes allowed (js_or v fallback) then v else dflt.

Definition validateAndSanitizeFilters (o : FilterOptions) (u : PartialFilters) : FilterState :=
  let d := defaultFilters o in
  {| f_cpu := checked (o_cpus o) (p_cpu u) (PStr "") (f_cpu d);
     f_testCase := checked (o_testCases o) (p_testCase u) (PStr "") (f_testCase d);
     f_threads := checked (o_threads o) (p_threads u) (int 0) (f_threads d);
     f_workers := checked (o_workers o) (p_workers u) (int 0) (f_workers d);
     f_concurrency := checked (o_concurrencyLevels o) (p_concurrency u) (int 0) (f_concurrency d);
     f_http2 := if includes (o_http2Options o) (p_http2 u) then p_http2 u else f_http2 d;
     f_xAxis := checked x_axes (p_xAxis u) (PStr "") (f_xAxis d);
     f_metric := checked metrics (p_metric u) (PStr "") (f_metric d);
     f_visibleServers :=
       match p_visibleServers u with
       | Some l => List.filter (includes (o_servers o)) l
       | None => f_visibleServers d
       end |}.

(** ** The initial state *)

(** The selection without a URL; the test case "hello_world" is preferred. *)
Definition preferred_filters (o : FilterOptions) : FilterState :=
  let preferredTestCase :=
    if includes (o_testCases o) (PStr "hello_world") then PStr "hello_world"
    else js_or (first (o_testCases o)) (PStr "") in
  {| f_cpu := js_or (first (o_cpus o)) (PStr "");
     f_testCase := js_or preferredTestCase (PStr "");
     f_threads := js_or (first (o_threads o)) (int 1);
     f_workers := js_or (first (o_workers o)) (int 1);
     f_concurrency := js_or (first (o_concurrencyLevels o)) (int 10);
     f_http2 := PStr "all"; f_xAxis := PStr "concurrency"; f_metric := PStr "rps";
     f_visibleServers := o_servers o |}.

Definition initial_filters (o : FilterOptions) (win : option location) : FilterState :=
  match parseUrlParams win with
  | Some urlFilters =>
      if negb (bool_decide (o_cpus o = [])) then validateAndSanitizeFilters o urlFilters
      else preferred_filters o
  | None => preferred_filters o
  end.

(** [allFilterOptions.servers.forEach((server) => { m[server] = visible(server) })]. *)
Definition mark_servers (servers : list prim) (visible : prim → bool) (m : obj bool) : obj bool :=
  foldl (λ m s, obj_set m (to_string s) (visible s)) m servers.

(** Every server visible, unless the URL lists the visible ones. *)
Definition visible_from_url (o : FilterOptions) (u : option PartialFilters) : obj bool :=
  let initialVisibleServers := mark_servers (o_servers o) (λ _, true) [] in
  match u with
  | Some u =>
      match p_visibleServers u with
      | Some l => mark_servers (o_servers o) (includes l) initialVisibleServers
      | None => initialVisibleServers
      end
  | None => initialVisibleServers
  end.

Definition initial_visible (o : FilterOptions) (win : option location) : obj bool :=
  visible_from_url o (parseUrlParams win).

(** ** The repair effect *)

(** A numeric filter keeps its value while it is the x-axis or is offered. *)
Definition fix_number (axis : string) (options : list prim) (dflt xAxis v : prim) : prim :=
  if negb (strict_eq xAxis (PStr axis)) && negb (includes options v)
  then js_or (first options) dflt else v.

Definition fix_filters (fo : FilterOptions) (prev : FilterState) : FilterState :=
  {| f_cpu := f_cpu prev;
     f_testCase := if negb (includes (o_testCases fo) (f_testCase prev))
                   then js_or (first (o_testCases fo)) (PStr "") else f_testCase prev;
     f_threads := fix_number "threads" (o_threads fo) (int 1) (f_xAxis prev) (f_threads prev);
     f_workers := fix_number "workers" (o_workers fo) (int 1) (f_xAxis prev) (f_workers prev);
     f_concurrency := fix_number "concurrency" (o_concurrencyLevels fo) (int 10) (f_xAxis prev)
                        (f_concurrency prev);
     f_http2 := if negb (includes (o_http2Options fo) (f_http2 prev))
                then js_or (first (o_http2Options fo)) (PStr "all") else f_http2 prev;
     f_xAxis := f_xAxis prev;
     f_metric := f_metric prev;
     f_visibleServers := f_visibleServers prev |}.

(** The options for the current selection, as the effect's closure sees them. *)
Definition current_options (items : list Item) (cpus : list prim) (f : FilterState) : FilterOptions :=
  filterOptions items cpus (f_cpu f) (f_testCase f).

(** One run of the effect after a render with filters [f]. *)
Definition repair (items : list Item) (cpus : list prim) (f : FilterState) : FilterState :=
  fix_filters (current_options items cpus f) f.

(** ** What the data guarantees about the options *)

(** An offered number: a positive integer below [2^53]. *)
Definition pos_int (v : prim) : Prop := ∃ z, (0 < z < 2 ^ 53)%Z ∧ v = PNum (of_Z z).
Definition name (v : prim) : Prop := ∃ s, s ≠ "" ∧ v = PStr s.

Record opts_ok (o : FilterOptions) : Prop := {
  ok_cpus : Forall name (o_cpus o);
  ok_testCases : Forall name (o_testCases o);
  ok_servers : Forall name (o_servers o);
  ok_threads : Forall pos_int (o_threads o);
  ok_workers : Forall pos_int (o_workers o);
  ok_concurrency : Forall pos_int (o_concurrencyLevels o);
  ok_http2 : ∃ l, o_http2Options o = PStr "all" :: l ∧ Forall (λ v, ∃ b, v = PBool b) l;
}.

(** A selection is valid when every field is offered, or is the fixed default of
    a filter that has nothing to offer. *)
Definition offered (options : list prim) (dflt v : prim) : Prop :=
  v ∈ options ∨ options = [] ∧ v = dflt.

Record valid_filters (o : FilterOptions) (f : FilterState) : Prop := {
  v_cpu : offered (o_cpus o) (PStr "") (f_cpu f);
  v_testCase : offered (o_testCases o) (PStr "") (f_testCase f);
  v_threads : offered (o_threads o) (int 1) (f_threads f);
  v_workers : offered (o_workers o) (int 1) (f_workers f);
  v_concurrency : offered (o_concurrencyLevels o) (int 10) (f_concurrency f);
  v_http2 : f_http2 f ∈ o_http2Options o;
  v_xAxis : f_xAxis f ∈ x_axes;
  v_metric : f_metric f ∈ metrics;
  v_visible : f_visibleServers f ⊆ o_servers o;
}.

(** ** Lemmas on checked fields *)

Definition good (v : prim) : Prop := truthy v = true.

Lemma svz_truthy a b : same_value_zero a b = true → truthy a = truthy b.
Proof.
  destruct a as [| |[]|x|s], b as [| |[]|y|t]; simpl; try done.
  - unfold nstrict_eq, SFeqb. by destruct x as [[]|[]| |[]], y as [[]|[]| |[]].
  - intros H. breflect. by subst.
Qed.

Lemma svz_good a b : good b → same_value_zero a b = true → a = b.
Proof.
  intros Hb H. apply svz_truthy in H as Ht. unfold good in Hb. rewrite Hb in Ht.
  apply same_value_zero_eq in H; auto using truthy_not_negzero.
Qed.

Lemma svz_refl v : same_value_zero v v = true.
Proof.
  destruct v as [| |[]|x|s]; simpl; try done.
  - destruct (is_nan x) eqn:E; [done|]. unfold nstrict_eq, SFeqb.
    destruct x as [[]|[]| |[] m e]; try done; simpl; rewrite Z.compare_refl;
      change (Pos.compare_cont Eq m m) with (Pos.compare m m); by rewrite Pos.compare_refl.
  - by rewrite bool_decide_true.
Qed.

Lemma includes_good l v : Forall good l → includes l v = true ↔ v ∈ l.
Proof.
  intros Hl. rewrite Forall_forall in Hl. unfold includes. rewrite existsb_elem. split.
  - intros (w & Hw & E). apply svz_good in E as ->; auto.
  - intros Hv. exists v. by rewrite svz_refl.
Qed.

Lemma includes_first l : l ≠ [] → includes l (first l) = true.
Proof. destruct l as [|v l]; [done|]. intros _.
  change (first (v :: l)) with v. unfold includes. simpl. by rewrite svz_refl. Qed.

Lemma first_offered l d : Forall good l → offered l d (js_or (first l) d).
Proof.
  destruct l as [|v l]; [by right|]. intros [Hv _]%Forall_cons. left.
  change (first (v :: l)) with v. unfold js_or. rewrite Hv. by left.
Qed.

Lemma checked_offered l v fb d :
  Forall good l → truthy fb = false → offered l d (checked l v fb (js_or (first l) d)).
Proof.
  intros Hl Hfb. unfold checked. case_match eqn:E; [|by apply first_offered].
  apply includes_good in E; [|done]. left. unfold js_or in E.
  case_match eqn:Ht; [done|]. rewrite Forall_forall in Hl. apply Hl in E.
  unfold good in E. congruence.
Qed.

(** A field that was read back, or has no options, is recovered. *)
Lemma checked_back l u v fb d :
  Forall good l → offered l d v → (u = v ∨ l = []) →
  checked l u fb (js_or (first l) d) = v.
Proof.
  intros Hl [Hv|[-> ->]] Hu; [|done]. destruct Hu as [->| ->]; [|by apply elem_of_nil in Hv].
  unfold checked, js_or. assert (good v) as Hg by (by rewrite Forall_forall in Hl; apply Hl).
  rewrite Hg. by rewrite (proj2 (includes_good l v Hl) Hv).
Qed.

Lemma name_good v : name v → good v.
Proof. intros (s & Hs & ->). unfold good. simpl. by rewrite bool_decide_false. Qed.

Lemma pos_int_good v : pos_int v → good v.
Proof.
  intros (z & Hz & ->). destruct (of_Z_exact z Hz) as (m & e & E & _). unfold good. simpl.
  by rewrite E.
Qed.

Lemma Forall_name_good l : Forall name l → Forall good l.
Proof. intros H. eapply Forall_impl; [done|]. apply name_good. Qed.
Lemma Forall_pos_int_good l : Forall pos_int l → Forall good l.
Proof. intros H. eapply Forall_impl; [done|]. apply pos_int_good. Qed.

#[export] Hint Resolve Forall_name_good Forall_pos_int_good : js.
#[export] Hint Resolve ok_cpus ok_testCases ok_servers ok_threads ok_workers ok_concurrency : js.

Lemma pos_int_lit (z : Z) : (0 < z < 2 ^ 53)%Z → pos_int (PNum (of_Z z)).
Proof. intros. by exists z. Qed.

Lemma offered_pos_int l z v :
  Forall pos_int l → (0 < z < 2 ^ 53)%Z → offered l (PNum (of_Z z)) v → pos_int v.
Proof.
  intros Hl Hz [Hv|[_ ->]]; [|by exists z]. rewrite Forall_forall in Hl. auto.
Qed.

Lemma x_axes_good : Forall good x_axes.
Proof. by repeat constructor. Qed.
Lemma metrics_good : Forall good metrics.
Proof. by repeat constructor. Qed.
#[export] Hint Resolve x_axes_good metrics_good : js.

Lemma http2_elem o v : opts_ok o → v ∈ o_http2Options o → v = PStr "all" ∨ ∃ b, v = PBool b.
Proof.
  intros [_ _ _ _ _ _ (l & -> & Hl)] [->|Hv]%elem_of_cons; [by left|right].
  rewrite Forall_forall in Hl. auto.
Qed.

Lemma svz_not_number a b : is_number b = false → same_value_zero a b = true → a = b.
Proof.
  destruct a as [| |x|x|x], b as [| |y|y|y]; simpl; try done; intros _ H.
  - by apply Bool.eqb_prop in H as ->.
  - breflect. by subst.
Qed.

Lemma includes_http2 o v : opts_ok o → includes (o_http2Options o) v = true ↔ v ∈ o_http2Options o.
Proof.
  intros Ho. unfold includes. rewrite existsb_elem. split.
  - intros (w & Hw & E). apply svz_not_number in E as ->; [done|].
    by destruct (http2_elem o w Ho Hw) as [->|[b ->]].
  - intros Hv. exists v. by rewrite svz_refl.
Qed.

Lemma all_offered o : opts_ok o → PStr "all" ∈ o_http2Options o.
Proof. intros [_ _ _ _ _ _ (l & -> & _)]. by left. Qed.

Lemma offered_nonempty l d v : l ≠ [] → offered l d v → v ∈ l.
Proof. intros Hl [?|[? _]]; done. Qed.

(** Sanitizing whatever a URL says gives a valid selection. *)
Lemma validate_valid o u : opts_ok o → valid_filters o (validateAndSanitizeFilters o u).
Proof.
  intros Ho. split; cbn [validateAndSanitizeFilters defaultFilters f_cpu f_testCase f_threads
    f_workers f_concurrency f_http2 f_xAxis f_metric f_visibleServers].
  1-5: apply checked_offered; [eauto with js|done].
  - case_match eqn:E; [|by apply all_offered]. by apply includes_http2.
  - apply (offered_nonempty _ (PStr "concurrency")); [done|].
    by apply (checked_offered x_axes _ (PStr "") (PStr "concurrency")); [apply x_axes_good|].
  - apply (offered_nonempty _ (PStr "rps")); [done|].
    by apply (checked_offered metrics _ (PStr "") (PStr "rps")); [apply metrics_good|].
  - case_match; [|done]. intros v [Hv _]%elem_of_lfilter.
    apply includes_good in Hv; [done|eauto with js].
Qed.

Lemma preferred_valid o : opts_ok o → valid_filters o (preferred_filters o).
Proof.
  intros Ho. assert (Ht : Forall good (o_testCases o)) by eauto with js.
  split; cbn [preferred_filters f_cpu f_testCase f_threads
    f_workers f_concurrency f_http2 f_xAxis f_metric f_visibleServers].
  1,3,4,5: apply first_offered; eauto with js.
  - case_match eqn:E; [left; by apply includes_good|].
    pose proof (first_offered (o_testCases o) (PStr "") Ht) as H. unfold js_or at 1.
    case_match eqn:E2; [done|]. destruct H as [H|[H1 H2]]; [|right; by split].
    rewrite Forall_forall in Ht. apply Ht in H. unfold good in H. congruence.
  - by apply all_offered.
  - by left.
  - by left.
  - done.
Qed.

Lemma initial_valid o win : opts_ok o → valid_filters o (initial_filters o win).
Proof.
  intros Ho. unfold initial_filters. repeat case_match; auto using validate_valid, preferred_valid.
Qed.

(** ** Writing the URL and reading it back *)

Ltac param_simpl :=
  repeat first
    [ rewrite param_get_set_eq
    | rewrite param_get_delete_eq
    | rewrite param_get_set_ne by done
    | rewrite param_get_delete_ne by done ].

(** A value whose [toString()] is defined. *)
Definition has_toString (v : prim) : Prop := v ≠ Undefined ∧ v ≠ Null.

Lemma method_to_string_ok v : has_toString v → method_to_string v = Ok (to_string v).
Proof. intros [? ?]. by destruct v. Qed.

(** Such selections can always be written; the parameters then hold their texts. *)
Lemma url_params_of_ok p f :
  has_toString (f_threads f) → has_toString (f_workers f) →
  has_toString (f_concurrency f) → has_toString (f_http2 f) →
  ∃ p', url_params_of p f = Ok p' ∧
    param_get p' "cpu" = Some (to_string (f_cpu f)) ∧
    param_get p' "testCase" = Some (to_string (f_testCase f)) ∧
    param_get p' "threads" = Some (to_string (f_threads f)) ∧
    param_get p' "workers" = Some (to_string (f_workers f)) ∧
    param_get p' "concurrency" = Some (to_string (f_concurrency f)) ∧
    param_get p' "http2" = Some (to_string (f_http2 f)) ∧
    param_get p' "xAxis" = Some (to_string (f_xAxis f)) ∧
    param_get p' "metric" = Some (to_string (f_metric f)) ∧
    param_get p' "visibleServers"
    = (if bool_decide (f_visibleServers f = []) then None
       else Some (join_prims (f_visibleServers f))).
Proof.
  intros H1 H2 H3 H4. unfold url_params_of.
  rewrite !method_to_string_ok by done. cbn [exc_bind].
  eexists. split; [reflexivity|]. case_match; split_and!; param_simpl; done.
Qed.

Lemma when_truthy_str s conv : s ≠ "" → when_truthy (PStr s) conv = conv (PStr s).
Proof. intros Hs. unfold when_truthy. simpl. by rewrite bool_decide_false. Qed.

Lemma back_name l v : Forall name l → offered l (PStr "") v →
  when_truthy (PStr (to_string v)) id = v ∨ l = [].
Proof.
  intros Hl [Hv|[-> _]]; [left|by right]. rewrite Forall_forall in Hl.
  destruct (Hl _ Hv) as (s & Hs & ->). by apply when_truthy_str.
Qed.

Lemma back_number v : pos_int v → when_truthy (PStr (to_string v)) parse_number = v.
Proof.
  intros (z & Hz & ->). simpl. rewrite when_truthy_str by (apply show_of_Z_nonempty; lia).
  unfold parse_number. simpl. by rewrite parse_int_show by lia.
Qed.

Lemma back_http2 o v : opts_ok o → v ∈ o_http2Options o →
  when_truthy (PStr (to_string v)) parse_http2 = v.
Proof. intros Ho Hv. by destruct (http2_elem o v Ho Hv) as [->|[[] ->]]. Qed.

Lemma back_axis v : v ∈ x_axes → when_truthy (PStr (to_string v)) id = v.
Proof. unfold x_axes. rewrite !elem_of_cons, elem_of_nil. intros [->|[->|[->|[]]]]; done. Qed.

Lemma back_metric v : v ∈ metrics → when_truthy (PStr (to_string v)) id = v.
Proof. unfold metrics. rewrite !elem_of_cons, elem_of_nil. intros [->|[->|[->|[]]]]; done. Qed.

Lemma pos_int_toString v : pos_int v → has_toString v.
Proof. by intros (z & _ & ->). Qed.

(** Server names without a comma survive [join(",")] and [split(",")]. *)
Definition no_comma (v : prim) : Prop := has_char "," (to_string v) = false.

Lemma join_prims_names l : Forall name l → join_prims l = join "," (to_string <$> l).
Proof.
  intros Hl. unfold join_prims. f_equal. apply list_fmap_ext. intros i v Hv.
  apply list_elem_of_lookup_2 in Hv. rewrite Forall_forall in Hl.
  by destruct (Hl _ Hv) as (s & _ & ->).
Qed.

Lemma join_nonempty w l : w ≠ "" → join "," (w :: l) ≠ "".
Proof. intros Hw. destruct l; simpl; [done|]. by destruct w. Qed.

Lemma back_servers l :
  l ≠ [] → Forall name l → Forall no_comma l →
  truthy (PStr (join_prims l)) = true ∧ parse_servers (PStr (join_prims l)) = l.
Proof.
  intros Hne Hn Hc. rewrite join_prims_names by done. split.
  - destruct Hn as [|v l (s & Hs & ->) _]; [done|]. simpl.
    rewrite bool_decide_false; [done|]. by apply (join_nonempty s (to_string <$> l)).
  - unfold parse_servers. cbn [to_string]. rewrite split_join.
    + rewrite lfilter_all.
      * rewrite <- list_fmap_compose. rewrite <- (list_fmap_id l) at 2. apply list_fmap_ext.
        intros i v Hv. apply list_elem_of_lookup_2 in Hv. rewrite Forall_forall in Hn.
        by destruct (Hn _ Hv) as (s & _ & ->).
      * intros w (t & -> & (v & -> & Hv)%list_elem_of_fmap)%list_elem_of_fmap.
        rewrite Forall_forall in Hn. by destruct (name_good v (Hn _ Hv)), (Hn _ Hv) as (s & ? & ->).
    + by destruct l.
    + apply Forall_fmap. done.
Qed.

Lemma valid_toString o f :
  opts_ok o → valid_filters o f →
  pos_int (f_threads f) ∧ pos_int (f_workers f) ∧ pos_int (f_concurrency f) ∧
  has_toString (f_http2 f).
Proof.
  intros Ho Hf. split_and!.
  - apply (offered_pos_int (o_threads o) 1); [eauto with js|lia|apply Hf].
  - apply (offered_pos_int (o_workers o) 1); [eauto with js|lia|apply Hf].
  - apply (offered_pos_int (o_concurrencyLevels o) 10); [eauto with js|lia|apply Hf].
  - destruct (http2_elem o (f_http2 f) Ho (v_http2 _ _ Hf)) as [->|[b ->]]; done.
Qed.

(** What [parseUrlParams] finds after a valid selection was written. *)
Lemma parse_update o f loc :
  opts_ok o → valid_filters o f →
  ∃ u, parseUrlParams (updateUrlParams f (Some loc)) = Some u ∧
    (p_cpu u = f_cpu f ∨ o_cpus o = []) ∧ (p_testCase u = f_testCase f ∨ o_testCases o = []) ∧
    p_threads u = f_threads f ∧ p_workers u = f_workers f ∧
    p_concurrency u = f_concurrency f ∧ p_http2 u = f_http2 f ∧
    p_xAxis u = f_xAxis f ∧ p_metric u = f_metric f ∧
    p_visibleServers u =
      (if bool_decide (f_visibleServers f = []) then None
       else if truthy (PStr (join_prims (f_visibleServers f)))
            then Some (parse_servers (PStr (join_prims (f_visibleServers f)))) else None).
Proof.
  intros Ho Hf. destruct (valid_toString o f Ho Hf) as (Ht & Hw & Hc & Hh).
  destruct (url_params_of_ok (parse_search (loc_search loc)) f)
    as (p' & Hp & G1 & G2 & G3 & G4 & G5 & G6 & G7 & G8 & G9); auto using pos_int_toString.
  unfold updateUrlParams. rewrite Hp. unfold parseUrlParams.
  rewrite parse_replace_search. unfold url_get. rewrite G1, G2, G3, G4, G5, G6, G7, G8.
  rewrite (back_number (f_threads f)), (back_number (f_workers f)),
    (back_number (f_concurrency f)), (back_http2 o (f_http2 f)),
    (back_axis (f_xAxis f)), (back_metric (f_metric f)) by (done || apply Hf).
  match goal with |- context [has_keys ?u] => assert (has_keys u = true) as -> end.
  { unfold has_keys. cbn [p_xAxis existsb p_threads p_cpu p_testCase]. rewrite G9.
    destruct Ht as (z & _ & ->). simpl. by rewrite !orb_true_r. }
  eexists. split; [reflexivity|]. cbn. split_and!; try done.
  - apply back_name; [eauto with js|apply Hf].
  - apply back_name; [eauto with js|apply Hf].
  - rewrite G9. by case_match.
Qed.

(** ** The repair effect settles *)

Lemma fix_number_idem ax l d x v :
  fix_number ax l d x (fix_number ax l d x v) = fix_number ax l d x v.
Proof.
  unfold fix_number. destruct (strict_eq _ _); simpl; [done|].
  destruct (includes l v) eqn:E; simpl; [by rewrite E|]. by case_match.
Qed.

Lemma fix_filters_idem fo f : fix_filters fo (fix_filters fo f) = fix_filters fo f.
Proof.
  unfold fix_filters. cbn [f_cpu f_testCase f_threads f_workers f_concurrency f_http2 f_xAxis
    f_metric f_visibleServers].
  rewrite !fix_number_idem. f_equal.
  - destruct (includes _ (f_testCase f)) eqn:E; simpl; [by rewrite E|]. by case_match.
  - destruct (includes _ (f_http2 f)) eqn:E; simpl; [by rewrite E|]. by case_match.
Qed.

Lemma repair_cpu items cpus f : f_cpu (repair items cpus f) = f_cpu f.
Proof. done. Qed.

(** The test cases offered depend on the CPU alone, so the second run keeps the
    test case the first one chose. *)
Lemma repair_testCase items cpus f :
  f_testCase (repair items cpus (repair items cpus f)) = f_testCase (repair items cpus f).
Proof.
  unfold repair, fix_filters. cbn [f_testCase].
  change (o_testCases (current_options items cpus {| f_cpu := _; f_testCase := _; f_threads := _;
    f_workers := _; f_concurrency := _; f_http2 := _; f_xAxis := _; f_metric := _;
    f_visibleServers := _ |})) with (o_testCases (current_options items cpus f)).
  destruct (includes _ (f_testCase f)) eqn:E; cbn [negb]; [by rewrite E|]. by case_match.
Qed.

Lemma repair_options items cpus f :
  current_options items cpus (repair items cpus (repair items cpus f))
  = current_options items cpus (repair items cpus f).
Proof. unfold current_options. by rewrite repair_testCase, !repair_cpu. Qed.

Lemma repair_twice items cpus f :
  repair items cpus (repair items cpus (repair items cpus f))
  = repair items cpus (repair items cpus f).
Proof.
  unfold repair at 1. rewrite repair_options. unfold repair at 1 3. apply fix_filters_idem.
Qed.

Lemma fix_number_offered ax l d x v :
  Forall good l → x ≠ PStr ax → fix_number ax l d x v = v → offered l d v.
Proof.
  intros Hl Hx. unfold fix_number. destruct (strict_eq _ _) eqn:Ex; [by apply strict_eq_str in Ex|].
  simpl. destruct (includes l v) eqn:E; simpl.
  - intros _. left. by apply includes_good.
  - intros <-. by apply first_offered.
Qed.

(** A selection the repair leaves alone is valid off the x-axis. *)
Lemma fixed_offered fo g :
  opts_ok fo → fix_filters fo g = g →
  offered (o_testCases fo) (PStr "") (f_testCase g) ∧
  (f_xAxis g ≠ PStr "threads" → offered (o_threads fo) (int 1) (f_threads g)) ∧
  (f_xAxis g ≠ PStr "workers" → offered (o_workers fo) (int 1) (f_workers g)) ∧
  (f_xAxis g ≠ PStr "concurrency" → offered (o_concurrencyLevels fo) (int 10) (f_concurrency g)) ∧
  f_http2 g ∈ o_http2Options fo.
Proof.
  intros Ho Hg.
  pose proof (f_equal f_testCase Hg) as Ht. pose proof (f_equal f_threads Hg) as Hth.
  pose proof (f_equal f_workers Hg) as Hw. pose proof (f_equal f_concurrency Hg) as Hco.
  pose proof (f_equal f_http2 Hg) as Hh.
  cbn [fix_filters f_testCase f_threads f_workers f_concurrency f_http2] in *.
  split_and!; [|eauto using fix_number_offered with js..|].
  - destruct (includes (o_testCases fo) (f_testCase g)) eqn:E; cbn [negb] in Ht.
    + left. apply includes_good in E; eauto with js.
    + rewrite <- Ht. apply first_offered. eauto with js.
  - destruct (includes (o_http2Options fo) (f_http2 g)) eqn:E; cbn [negb] in Hh;
      [by apply includes_http2|].
    rewrite <- Hh. destruct (ok_http2 _ Ho) as (l & -> & _). by left.
Qed.

(** ** Options of well-formed data are well-formed *)

Record item_ok (i : Item) : Prop := {
  io_testCase : truthy (test_case i) = true → name (test_case i);
  io_server : truthy (server i) = true → name (server i);
  io_threads : is_number (threads i) = true → pos_int (threads i);
  io_workers : is_number (workers i) = true → pos_int (workers i);
  io_concurrency : is_number (concurrency i) = true → pos_int (concurrency i);
}.

Lemma distinct_truthy_ok f items :
  (∀ i, i ∈ items → truthy (f i) = true → name (f i)) → Forall name (distinct_truthy f items).
Proof.
  intros H. apply Forall_forall. intros v (Ht & i & Hi & ->)%elem_of_distinct_truthy'. auto.
Qed.

Lemma distinct_numbers_ok f items :
  (∀ i, i ∈ items → is_number (f i) = true → pos_int (f i)) →
  Forall pos_int (distinct_numbers f items).
Proof.
  intros H. apply Forall_forall. intros v (i & n & Hi & E & ->)%elem_of_distinct_numbers.
  assert (pos_int (PNum n)) as Hp by (rewrite <- E; apply H; [done|by rewrite E]).
  rewrite set_norm_id; [done|]. apply truthy_not_negzero. by apply pos_int_good.
Qed.

Lemma http2_options_ok items :
  ∃ l, http2_options items = PStr "all" :: l ∧ Forall (λ v, ∃ b, v = PBool b) l.
Proof.
  eexists. split; [reflexivity|]. apply Forall_forall.
  intros v (w & -> & [Hb _]%elem_of_lfilter)%elem_of_new_set. destruct w; try done. eauto.
Qed.

Lemma filterOptions_ok items cpus c t :
  Forall item_ok items → Forall name cpus → opts_ok (filterOptions items cpus c t).
Proof.
  intros Hi Hc. rewrite Forall_forall in Hi.
  split; cbn [filterOptions o_cpus o_testCases o_servers o_threads o_workers
    o_concurrencyLevels o_http2Options]; [done|..|apply http2_options_ok].
  1,2: apply distinct_truthy_ok; intros i Hin;
    rewrite !elem_of_lfilter in Hin; apply Hi; tauto.
  all: apply distinct_numbers_ok; intros i Hin;
    rewrite !elem_of_lfilter in Hin; apply Hi; tauto.
Qed.

Lemma allFilterOptions_ok cpus o :
  Forall item_ok (flattenedData (Arr cpus)) →
  Forall (λ c, truthy (cd_cpu c) = true → name (cd_cpu c)) (omap id cpus) →
  allFilterOptions (Arr cpus) = Ok o → opts_ok o.
Proof.
  intros Hi Hc E. rewrite Forall_forall in Hi.
  destruct cpus as [|c0 cpus]; unfold allFilterOptions in E.
  { simplify_eq. split; try by constructor. exists []. by split. }
  assert (None ∉ c0 :: cpus) as Hn.
  { intros H. apply cpu_names_throws in H. by rewrite H in E. }
  rewrite cpu_names_ok in E by done. cbn [exc_bind] in E. injection E as <-.
  split; cbn [o_cpus o_testCases o_servers o_threads o_workers
    o_concurrencyLevels o_http2Options]; [|..|apply http2_options_ok].
  - apply Forall_forall. intros v [Ht (c & -> & Hin)%list_elem_of_fmap]%elem_of_lfilter.
    rewrite Forall_forall in Hc. auto.
  - apply distinct_truthy_ok. intros i Hin. by apply Hi.
  - apply distinct_truthy_ok. intros i Hin. by apply Hi.
  - apply distinct_numbers_ok. intros i Hin. by apply Hi.
  - apply distinct_numbers_ok. intros i Hin. by apply Hi.
  - apply distinct_numbers_ok. intros i Hin. by apply Hi.
Qed.

(** Writing a valid selection and sanitizing what is read back is the identity. *)
Lemma written_selection_back o f loc :
  opts_ok o → valid_filters o f →
  f_visibleServers f ≠ [] → Forall no_comma (f_visibleServers f) →
  ∃ u, parseUrlParams (updateUrlParams f (Some loc)) = Some u ∧
       validateAndSanitizeFilters o u = f ∧ p_visibleServers u = Some (f_visibleServers f).
Proof.
  intros Ho Hf Hne Hc.
  destruct (parse_update o f loc Ho Hf) as (u & Hu & U1 & U2 & U3 & U4 & U5 & U6 & U7 & U8 & U9).
  exists u. split; [done|]. rewrite bool_decide_false in U9 by done.
  assert (Hn : Forall name (f_visibleServers f)).
  { apply Forall_forall. intros v Hv. apply (v_visible _ _ Hf) in Hv.
    pose proof (ok_servers _ Ho) as Hs. rewrite Forall_forall in Hs. auto. }
  destruct (back_servers _ Hne Hn Hc) as [Hb1 Hb2]. rewrite Hb1, Hb2 in U9. split; [|done].
  unfold validateAndSanitizeFilters. cbn [defaultFilters f_cpu f_testCase f_threads f_workers
    f_concurrency f_http2 f_xAxis f_metric f_visibleServers].
  rewrite (checked_back _ (p_cpu u) (f_cpu f)) by (eauto with js || apply Hf).
  rewrite (checked_back _ (p_testCase u) (f_testCase f)) by (eauto with js || apply Hf).
  rewrite (checked_back _ (p_threads u) (f_threads f)) by (eauto with js || apply Hf).
  rewrite (checked_back _ (p_workers u) (f_workers f)) by (eauto with js || apply Hf).
  rewrite (checked_back _ (p_concurrency u) (f_concurrency f)) by (eauto with js || apply Hf).
  rewrite U6, (proj2 (includes_http2 o (f_http2 f) Ho)) by apply Hf.
  assert (checked x_axes (p_xAxis u) (PStr "") (PStr "concurrency") = f_xAxis f) as ->.
  { apply (checked_back x_axes _ _ _ (PStr "concurrency") x_axes_good); left; [apply Hf|done]. }
  assert (checked metrics (p_metric u) (PStr "") (PStr "rps") = f_metric f) as ->.
  { apply (checked_back metrics _ _ _ (PStr "rps") metrics_good); left; [apply Hf|done]. }
  rewrite U9, lfilter_all; [by destruct f|].
  intros v Hv. apply includes_good; [eauto with js|]. by apply Hf.
Qed.

(** ** Main theorems *)

(** C5: whatever a URL says, the dashboard starts with a valid selection: every
    filter holds a value that is offered for the data (or the fixed default of a
    filter without options), and only known servers are listed as visible. *)
Theorem initial_filters_valid cpus o win :
  Forall item_ok (flattenedData (Arr cpus)) →
  Forall (λ c, truthy (cd_cpu c) = true → name (cd_cpu c)) (omap id cpus) →
  allFilterOptions (Arr cpus) = Ok o →
  valid_filters o (initial_filters o win).
Proof. intros Hi Hc E. apply initial_valid. by eapply allFilterOptions_ok. Qed.

(** C4: the URL is a faithful copy of the selection: writing a valid selection
    into any location and reading the location back, through percent-encoding,
    number printing and parsing, and sanitizing, gives the same selection, as long
    as at least one server is visible and no server name has a comma. *)
Theorem url_roundtrip o f loc :
  opts_ok o → valid_filters o f →
  f_visibleServers f ≠ [] → Forall no_comma (f_visibleServers f) →
  ∃ u, parseUrlParams (updateUrlParams f (Some loc)) = Some u ∧
       validateAndSanitizeFilters o u = f.
Proof.
  intros Ho Hf Hne Hc. destruct (written_selection_back o f loc Ho Hf Hne Hc) as (u & ? & ? & _). eauto.
Qed.

(** C40: a selection with every server hidden is not kept by the URL: reading it
    back shows all servers again. *)
Theorem url_forgets_all_hidden o f loc :
  opts_ok o → valid_filters o f → f_visibleServers f = [] →
  ∃ u, parseUrlParams (updateUrlParams f (Some loc)) = Some u ∧
       f_visibleServers (validateAndSanitizeFilters o u) = o_servers o ∧
       visible_from_url o (Some u) = mark_servers (o_servers o) (λ _, true) [].
Proof.
  intros Ho Hf He.
  destruct (parse_update o f loc Ho Hf) as (u & Hu & _ & _ & _ & _ & _ & _ & _ & _ & U9).
  exists u. rewrite bool_decide_true in U9 by done.
  split; [done|]. cbn. by rewrite U9.
Qed.

(** If [0] is among the offered thread counts, a URL without a thread count
    makes the sanitized selection hold [undefined] there, whose [toString()]
    throws, so the URL can no longer be written. *)
Lemma zero_option_gives_undefined o u loc :
  includes (o_threads o) (int 0) = true → p_threads u = Undefined →
  let f := validateAndSanitizeFilters o u in
  f_threads f = Undefined ∧ updateUrlParams f (Some loc) = Some loc.
Proof.
  intros H0 Hu f. assert (f_threads f = Undefined) as Hf.
  { unfold f, validateAndSanitizeFilters, checked. cbn [f_threads]. rewrite Hu.
    unfold js_or at 1. cbn [truthy]. by rewrite H0. }
  split; [done|]. unfold updateUrlParams, url_params_of. by rewrite Hf.
Qed.

(** C14: the effect that repairs the selection settles: two runs suffice from any
    selection, a third changes nothing.  On well-formed data the settled test case
    is offered for the CPU and every numeric filter off the x-axis is offered for
    that CPU and test case. *)
Theorem repair_settles items cpus f :
  Forall item_ok items → Forall name cpus →
  let g := repair items cpus (repair items cpus f) in
  let fo := current_options items cpus g in
  repair items cpus g = g ∧
  offered (o_testCases fo) (PStr "") (f_testCase g) ∧
  (f_xAxis f ≠ PStr "threads" → offered (o_threads fo) (int 1) (f_threads g)) ∧
  (f_xAxis f ≠ PStr "workers" → offered (o_workers fo) (int 1) (f_workers g)) ∧
  (f_xAxis f ≠ PStr "concurrency" → offered (o_concurrencyLevels fo) (int 10) (f_concurrency g)) ∧
  f_http2 g ∈ o_http2Options fo.
Proof.
  intros Hi Hc g fo.
  assert (Hg : repair items cpus g = g) by apply repair_twice.
  split; [done|]. change (f_xAxis f) with (f_xAxis g).
  apply fixed_offered; [by apply filterOptions_ok|done].
Qed.

(** ** Witnesses *)

Definition name_b (v : prim) : bool :=
  match v with PStr s => negb (bool_decide (s = "")) | _ => false end.

Definition pos_int_b (v : prim) : bool :=
  match v with
  | PNum (S754_finite false m e as n) =>
      match int_value m e with
      | Some z => (0 <? z)%Z && (z <? 2 ^ 53)%Z && bool_decide (n = of_Z z)
      | None => false
      end
  | _ => false
  end.

Definition item_ok_b (i : Item) : bool :=
  implb (truthy (test_case i)) (name_b (test_case i))
  && implb (truthy (server i)) (name_b (server i))
  && implb (is_number (threads i)) (pos_int_b (threads i))
  && implb (is_number (workers i)) (pos_int_b (workers i))
  && implb (is_number (concurrency i)) (pos_int_b (concurrency i)).

Lemma name_b_ok v : name_b v = true → name v.
Proof. destruct v; simpl; try done. intros H. breflect. by exists s. Qed.

Lemma pos_int_b_ok v : pos_int_b v = true → pos_int v.
Proof.
  destruct v as [| | |[| | |[] m e]|]; simpl; try done. case_match; [|done].
  intros Hb. breflect. eexists. split; [|by f_equal]. lia.
Qed.

Lemma implb_elim a b : implb a b = true → a = true → b = true.
Proof. by destruct a, b. Qed.

Lemma item_ok_b_ok i : item_ok_b i = true → item_ok i.
Proof.
  unfold item_ok_b. intros H. breflect.
  split; intros Ht; (apply name_b_ok || apply pos_int_b_ok); by eapply implb_elim.
Qed.

Lemma items_ok_b_ok items : forallb item_ok_b items = true → Forall item_ok items.
Proof.
  intros H. apply Forall_forall. intros i Hi. apply item_ok_b_ok.
  rewrite List.forallb_forall in H. apply H. by apply list_elem_of_In.
Qed.

Lemma sample_items_ok : Forall item_ok sample_items.
Proof. apply items_ok_b_ok. by vm_compute. Qed.

Lemma sample_cpus_named :
  Forall (λ c, truthy (cd_cpu c) = true → name (cd_cpu c)) (omap id [Some sample_cpu]).
Proof. constructor; [intros _; by apply name_b_ok|constructor]. Qed.

Definition sample_opts : FilterOptions :=
  Eval vm_compute in match allFilterOptions sampleHierarchicalData with
                     | Ok o => o | Throw _ => defaultOptions end.

Lemma sample_opts_ok : opts_ok sample_opts.
Proof.
  apply (allFilterOptions_ok [Some sample_cpu]);
    [apply sample_items_ok|apply sample_cpus_named|by vm_compute].
Qed.

Definition sample_filters : FilterState :=
  {| f_cpu := PStr "apple_m1_pro"; f_testCase := PStr "chunked"; f_threads := int 2;
     f_workers := int 1; f_concurrency := int 50; f_http2 := PBool true;
     f_xAxis := PStr "workers"; f_metric := PStr "errorRate";
     f_visibleServers := [PStr "puma"; PStr "itsi"] |}.

Definition sample_loc : location :=
  Location "https://itsi.fyi/benchmarks/" "?cpu=other&x=a%20b" "#top".

Lemma sample_filters_valid : valid_filters sample_opts sample_filters.
Proof.
  split; unfold offered; try (left; apply (bool_decide_unpack _); by vm_compute);
    apply (bool_decide_unpack _); by vm_compute.
Qed.

Lemma initial_filters_valid_witness :
  valid_filters sample_opts (initial_filters sample_opts (Some sample_loc)).
Proof.
  apply (initial_filters_valid [Some sample_cpu]);
    [apply sample_items_ok|apply sample_cpus_named|by vm_compute].
Defined.

Lemma url_roundtrip_witness :
  ∃ u, parseUrlParams (updateUrlParams sample_filters (Some sample_loc)) = Some u ∧
       validateAndSanitizeFilters sample_opts u = sample_filters.
Proof.
  apply (url_roundtrip sample_opts sample_filters sample_loc);
    [apply sample_opts_ok|apply sample_filters_valid|done|]. by repeat constructor.
Defined.

Definition hidden_filters : FilterState :=
  {| f_cpu := PStr "apple_m1_pro"; f_testCase := PStr "chunked"; f_threads := int 2;
     f_workers := int 1; f_concurrency := int 50; f_http2 := PBool true;
     f_xAxis := PStr "workers"; f_metric := PStr "errorRate"; f_visibleServers := [] |}.

Lemma hidden_filters_valid : valid_filters sample_opts hidden_filters.
Proof. destruct sample_filters_valid. split; try done. cbn. set_solver. Qed.

Lemma url_forgets_all_hidden_witness :
  ∃ u, parseUrlParams (updateUrlParams hidden_filters (Some sample_loc)) = Some u ∧
       f_visibleServers (validateAndSanitizeFilters sample_opts u) = o_servers sample_opts ∧
       visible_from_url sample_opts (Some u)
       = mark_servers (o_servers sample_opts) (λ _, true) [].
Proof.
  apply (url_forgets_all_hidden sample_opts hidden_filters sample_loc);
    [apply sample_opts_ok|apply hidden_filters_valid|done].
Defined.

Definition zero_opts : FilterOptions :=
  {| o_cpus := [PStr "m1"]; o_testCases := [PStr "t"]; o_servers := [PStr "s"];
     o_threads := [int 0; int 2]; o_workers := [int 1]; o_concurrencyLevels := [int 10];
     o_http2Options := [PStr "all"] |}.

Definition no_url_filters : PartialFilters :=
  {| p_cpu := PStr "m1"; p_testCase := Undefined; p_threads := Undefined;
     p_workers := Undefined; p_concurrency := Undefined; p_http2 := Undefined;
     p_xAxis := Undefined; p_metric := Undefined; p_visibleServers := None |}.

Lemma zero_option_gives_undefined_witness :
  f_threads (validateAndSanitizeFilters zero_opts no_url_filters) = Undefined.
Proof.
  apply (zero_option_gives_undefined zero_opts no_url_filters sample_loc); by vm_compute.
Defined.

Lemma repair_settles_witness :
  let cpus := [PStr "apple_m1_pro"] in
  let g := repair sample_items cpus (repair sample_items cpus sample_filters) in
  repair sample_items cpus g = g ∧ f_threads g = int 1.
Proof.
  split; [|by vm_compute].
  apply (repair_settles sample_items [PStr "apple_m1_pro"] sample_filters);
    [apply sample_items_ok|]. constructor; [by apply name_b_ok|constructor].
Defined.
