(* ===== verification/ChartData.v ===== *)
(** * From the selection to the chart

    Models the derived values of [benchmark-dashboard.tsx] that are drawn: the
    filtered results ([filteredData]), the points of the bar chart
    ([chartData]) and the keys of its bars ([visibleDataKeys]), the hover
    handler, the metric's label and formatter ([metricInfo]), the summary
    statistics and the ranking of servers ([topPerformers]). *)

From Stdlib Require Import SpecFloat.
From S2P Require Import Prelude JsSort JsNumber JsText JsValue UrlParams BenchmarkData SampleData Filters.

#[local] Open Scope js_scope.

(** ** Names and protocols *)

(** [serverName.replace(/__/g, "+")]; only strings have [replace]. *)
Definition formatServerName (v : prim) : exc string :=
  match v with
  | PStr s => Ok (replace_underscores s)
  | _ => Throw TypeError
  end.

Definition getProtocolDisplay (f : FilterState) : string :=
  if strict_eq (f_http2 f) (PStr "all") then "All Protocols"
  else if truthy (f_http2 f) then "HTTP/2" else "HTTP/1.1".

(** ** [filteredData] *)

Definition keep_item (f : FilterState) (i : Item) : bool :=
  if negb (strict_eq (cpu i) (f_cpu f)) then false
  else if negb (strict_eq (test_case i) (f_testCase f)) then false
  else if negb (strict_eq (f_xAxis f) (PStr "threads")) && negb (strict_eq (threads i) (f_threads f))
  then false
  else if negb (strict_eq (f_xAxis f) (PStr "workers")) && negb (strict_eq (workers i) (f_workers f))
  then false
  else if negb (strict_eq (f_xAxis f) (PStr "concurrency"))
          && negb (strict_eq (concurrency i) (f_concurrency f))
  then false
  else if negb (strict_eq (f_http2 f) (PStr "all")) && negb (strict_eq (http2 i) (f_http2 f))
  then false
  else true.

Definition filteredData (items : list Item) (f : FilterState) : list Item :=
  List.filter (keep_item f) items.

(** ** Metrics *)

(** [item.results.x]: reading a field of a missing [results] throws. *)
Definition results_of_item (i : Item) : exc Results :=
  match results i with Some r => Ok r | None => Throw TypeError end.

(** The [switch (filters.metric)] of [chartData] and [summaryStats]. *)
Definition metric_of (metric : prim) (r : Results) : prim :=
  if strict_eq metric (PStr "rps") then requestsPerSec r
  else if strict_eq metric (PStr "p95_latency") then p95_latency r
  else if strict_eq metric (PStr "errorRate") then
    PNum (nsub (of_Z 1) (to_number (successRate r)))
  else requestsPerSec r.

(** ** [chartData] *)

(** [item[key]] for a result, as far as [String(...)] sees it. *)
Definition item_prop (i : Item) (key : prim) : prim :=
  match key with
  | PStr "server" => server i | PStr "version" => version i
  | PStr "test_case" => test_case i | PStr "threads" => threads i
  | PStr "workers" => workers i | PStr "http2" => http2 i
  | PStr "concurrency" => concurrency i | PStr "rss_mb" => rss_mb i
  | PStr "timestamp" => timestamp i | PStr "cpu" => cpu i | PStr "group" => group i
  | PStr "results" =>
      match results i with Some _ => PStr "[object Object]" | None => Undefined end
  | _ => Undefined
  end.

(** A point of the chart: the x value, and per bar its metric and its item. *)
Inductive cell :=
  | CPrim (v : prim)
  | CItem (i : Item).

Definition point : Type := obj cell.

(** [visibleServers[server]] as a condition. *)
Definition is_visible (visible : obj bool) (server : prim) : bool :=
  match obj_get visible (to_string server) with
  | Own b => b
  | Inherited => true
  | Missing => false
  end.

Definition protocol_suffix (i : Item) : string :=
  if truthy (http2 i) then " (HTTP/2)" else " (HTTP/1.1)".

(** The key of an item's bar. *)
Definition data_key (f : FilterState) (i : Item) : exc string :=
  let! name := formatServerName (server i) in
  Ok (if strict_eq (f_http2 f) (PStr "all") then name +:+ protocol_suffix i else name).

Definition group_by_axis (f : FilterState) (grouped : obj (list Item)) (i : Item)
    : exc (obj (list Item)) :=
  let k := to_string (item_prop i (f_xAxis f)) in
  match obj_get grouped k with
  | Missing => Ok (obj_set grouped k [i])
  | Own l => Ok (obj_set grouped k (l ++ [i]))
  | Inherited => Throw TypeError
  end.

Definition add_bar (f : FilterState) (visible : obj bool) (pt : point) (i : Item) : exc point :=
  if is_visible visible (server i) then
    let! r := results_of_item i in
    let metricValue := metric_of (f_metric f) r in
    let! dataKey := data_key f i in
    Ok (obj_set (obj_set pt dataKey (CPrim metricValue)) (dataKey +:+ "_data") (CItem i))
  else Ok pt.

Definition make_point (f : FilterState) (visible : obj bool) (entry : string * list Item) : exc point :=
  exc_foldl (add_bar f visible) [(to_string (f_xAxis f), CPrim (PStr entry.1))] entry.2.

Fixpoint exc_map {A B} (g : A → exc B) (l : list A) : exc (list B) :=
  match l with
  | [] => Ok []
  | x :: l' => let! y := g x in let! ys := exc_map g l' in Ok (y :: ys)
  end.

(** [point[key]] and the conversions of what it finds. *)
Definition cell_number (c : option cell) : num :=
  match c with Some (CPrim v) => to_number v | _ => S754_nan end.
Definition cell_string (c : option cell) : string :=
  match c with Some (CPrim v) => to_string v | Some (CItem _) => "[object Object]"
             | None => "undefined" end.

Section Chart.
Variable localeCompare : string → string → comparison.

Definition point_cmp (f : FilterState) (a b : point) : comparison :=
  let aVal := own_get a (to_string (f_xAxis f)) in
  let bVal := own_get b (to_string (f_xAxis f)) in
  if negb (is_nan (cell_number aVal)) && negb (is_nan (cell_number bVal))
  then sub_cmp (cell_number aVal) (cell_number bVal)
  else localeCompare (cell_string aVal) (cell_string bVal).

Definition chartData (items : list Item) (f : FilterState) (visible : obj bool)
    : exc (list point) :=
  let! groupedByXAxis := exc_foldl (group_by_axis f) [] (filteredData items f) in
  let! points := exc_map (make_point f visible) (entries groupedByXAxis) in
  Ok (sort_by (point_cmp f) points).
End Chart.

(** ** [visibleDataKeys] *)

(** [if (has) keys.push(`${formatServerName(server)} ...`)]. *)
Definition push_key (has : bool) (server_name : prim) (suffix : string) : exc (list string) :=
  if has then let! name := formatServerName server_name in Ok [name +:+ suffix] else Ok [].

Definition server_keys (f : FilterState) (filtered : list Item) (visible : obj bool)
    (server_name : prim) : exc (list string) :=
  if is_visible visible server_name then
    if strict_eq (f_http2 f) (PStr "all") then
      let serverData := List.filter (λ i : Item, strict_eq (server i) server_name) filtered in
      let hasHttp1 := existsb (λ i : Item, negb (truthy (http2 i))) serverData in
      let hasHttp2 := existsb (λ i : Item, truthy (http2 i)) serverData in
      let! ks1 := push_key hasHttp1 server_name " (HTTP/1.1)" in
      let! ks2 := push_key hasHttp2 server_name " (HTTP/2)" in
      Ok (ks1 ++ ks2)
    else push_key true server_name ""
  else Ok [].

Definition visibleDataKeys (items : list Item) (cpus : list prim) (f : FilterState)
    (visible : obj bool) : exc (list string) :=
  let! kss := exc_map (server_keys f (filteredData items f) visible)
    (o_servers (current_options items cpus f)) in
  Ok (concat kss).

(** ** The hover handler *)

Record HoverState := { hoveredPoint : option cell; activeDataKey : option string }.

Definition no_hover : HoverState := {| hoveredPoint := None; activeDataKey := None |}.

Definition cell_truthy (c : cell) : bool :=
  match c with CPrim v => truthy v | CItem _ => true end.

(** [payload[`${dataKey}_data`]], or no hover when it is absent. *)
Definition handleChartHover (activePayload : option (string * point)) : HoverState :=
  match activePayload with
  | Some (dataKey, payload) =>
      match own_get payload (dataKey +:+ "_data") with
      | Some serverData =>
          if cell_truthy serverData
          then {| hoveredPoint := Some serverData; activeDataKey := Some dataKey |}
          else no_hover
      | None => no_hover
      end
  | None => no_hover
  end.

(** ** [metricInfo] *)

Record MetricInfo := {
  label : string; isBetter : string; icon : string; formatter : num → string;
}.

Definition formatCompact (value : num) (decimals : nat) : string :=
  if nge value (of_Z 1000000) then to_fixed (ndiv value (of_Z 1000000)) decimals +:+ "M"
  else if nge value (of_Z 1000) then to_fixed (ndiv value (of_Z 1000)) decimals +:+ "K"
  else to_fixed value decimals.

Definition rps_info : MetricInfo :=
  {| label := "Requests per Second"; isBetter := "higher"; icon := "TrendingUp";
     formatter := λ value, formatCompact value 1 |}.

Definition metricInfo (metric : prim) : MetricInfo :=
  if strict_eq metric (PStr "rps") then rps_info
  else if strict_eq metric (PStr "p95_latency") then
    {| label := "P95 Latency (ms)"; isBetter := "lower"; icon := "TrendingDown";
       formatter := λ value, if nge value (of_Z 1000) then formatCompact value 1
                             else to_fixed value 2 |}
  else if strict_eq metric (PStr "errorRate") then
    {| label := "Error Rate"; isBetter := "lower"; icon := "TrendingDown";
       formatter := λ value, to_fixed (nmul value (of_Z 100)) 1 +:+ "%" |}
  else rps_info.

(** ** [summaryStats] *)

(** [a + b]: a string operand makes it concatenation. *)
Definition js_add (a b : prim) : prim :=
  match a, b with
  | PStr _, _ | _, PStr _ => PStr (to_string a +:+ to_string b)
  | _, _ => PNum (nadd (to_number a) (to_number b))
  end.

(** [values.reduce((sum, val) => sum + val, 0) / values.length]. *)
Definition mean (values : list prim) : num :=
  ndiv (to_number (foldl js_add (int 0) values)) (of_Z (Z.of_nat (length values))).

Record Stats := { s_count : nat; s_min : num; s_max : num; s_avg : num }.

Definition metric_values (filtered : list Item) (metric : prim) : exc (list prim) :=
  exc_map (λ i : Item, let! r := results_of_item i in Ok (metric_of metric r)) filtered.

Definition summaryStats (filtered : list Item) (metric : prim) : exc (option Stats) :=
  if bool_decide (length filtered = 0) then Ok None
  else
    let! values := metric_values filtered metric in
    Ok (Some {| s_count := length filtered;
                s_min := math_min (to_number <$> values);
                s_max := math_max (to_number <$> values);
                s_avg := mean values |}).

(** ** [topPerformers] *)

(** [{ true: [], false: [] }]: the requests per second by protocol. *)
Record Variants := { v_true : list prim; v_false : list prim }.

Definition no_variants : Variants := {| v_true := []; v_false := [] |}.

(** [variants[item.http2].push(rps)]. *)
Definition push_variant (v : Variants) (h : prim) (rps : prim) : exc Variants :=
  if bool_decide (to_string h = "true") then
    Ok {| v_true := v_true v ++ [rps]; v_false := v_false v |}
  else if bool_decide (to_string h = "false") then
    Ok {| v_true := v_true v; v_false := v_false v ++ [rps] |}
  else Throw TypeError.

(** The configuration of a result: test case, threads, workers, concurrency. *)
Definition config_key (i : Item) : string :=
  to_string (test_case i) +:+ "_" +:+ to_string (threads i) +:+ "_" +:+ to_string (workers i)
  +:+ "_" +:+ to_string (concurrency i).

(** An inherited server name ends in a [push] on [undefined].  Under an inherited
    configuration key the entry goes to an object that all objects share, and the map
    keeps its own properties; the key of a result whose concurrency is a positive
    integer is never one ([config_key_free]). *)
Definition record_result (performanceMap : obj (obj Variants)) (i : Item)
    : exc (obj (obj Variants)) :=
  let key := config_key i in
  let srv := to_string (server i) in
  let add serverResults :=
    match obj_get serverResults srv with
    | Inherited => Throw TypeError
    | Own _ | Missing =>
        let v := default no_variants (own_get serverResults srv) in
        let! r := results_of_item i in
        let! v' := push_variant v (http2 i) (requestsPerSec r) in
        Ok (obj_set performanceMap key (obj_set serverResults srv v'))
    end in
  match obj_get performanceMap key with
  | Own serverResults => add serverResults
  | Missing => add []
  | Inherited => let! _ := add [] in Ok performanceMap
  end.

(** The averages of one configuration, labelled [server___http2]. *)
Definition variant_scores (e : string * Variants) : list (string * num) :=
  (if bool_decide (v_true e.2 = []) then [] else [(e.1 +:+ "___true", mean (v_true e.2))])
  ++ (if bool_decide (v_false e.2 = []) then [] else [(e.1 +:+ "___false", mean (v_false e.2))]).

Definition allScores (serverResults : obj Variants) : list (string * num) :=
  concat (variant_scores <$> entries serverResults).

(** [new Set(allScores.filter(([, v]) => v === bestScore).map(([k]) => k.split("___")[0]))]. *)
Definition winningServers (scores : list (string * num)) : list string :=
  let bestScore := math_max (scores.*2) in
  set_of (λ a b : string, bool_decide (a = b))
    (map (λ kv, before_triple kv.1) (List.filter (λ kv, nstrict_eq kv.2 bestScore) scores)).

(** A win count; incrementing an inherited member gives a text. *)
Inductive tally := Count (n : nat) | Text.

Definition tally_incr (winCounts : obj tally) (srv : string) : obj tally :=
  obj_set winCounts srv
    match obj_get winCounts srv with
    | Own (Count n) => Count (S n)
    | Missing => Count 1
    | Own Text | Inherited => Text
    end.

Definition count_wins (performanceMap : obj (obj Variants)) : obj tally :=
  foldl (λ winCounts serverResults,
    match allScores serverResults with
    | [] => winCounts
    | scores => foldl tally_incr winCounts (winningServers scores)
    end) [] (object_values performanceMap).

(** [([, a], [, b]) => b - a]: with a text the difference is NaN. *)
Definition wins_cmp (a b : string * tally) : comparison :=
  match a.2, b.2 with
  | Count m, Count n => sub_cmp (of_Z (Z.of_nat n)) (of_Z (Z.of_nat m))
  | _, _ => Eq
  end.

Definition performance_map (items : list Item) (sel_cpu currentGroup : prim)
    : exc (obj (obj Variants)) :=
  exc_foldl record_result []
    (List.filter (λ i : Item, strict_eq (cpu i) sel_cpu && strict_eq (group i) currentGroup) items).

Definition topPerformers (items filtered : list Item) (sel_cpu : prim)
    : exc (list (string * tally)) :=
  match filtered with
  | [] => Ok []
  | i :: _ =>
      let currentGroup := group i in
      if truthy currentGroup then
        let! performanceMap := performance_map items sel_cpu currentGroup in
        Ok (take 8 (sort_by wins_cmp (entries (count_wins performanceMap))))
      else Ok []
  end.

Implicit Types (i j : Item).

(** ** Lemmas on the error monad *)

Lemma exc_map_Forall2 {A B} (g : A → exc B) l ys :
  exc_map g l = Ok ys → Forall2 (λ x y, g x = Ok y) l ys.
Proof.
  revert ys. induction l as [|x l IH]; intros ys; simpl; [by intros [= <-]|].
  destruct (g x) as [y|] eqn:E; [|done]. simpl. destruct (exc_map g l) as [ys'|]; [|done].
  intros [= <-]. constructor; auto.
Qed.

(** ** Grouping by the x-axis *)

Definition axis_key (f : FilterState) (i : Item) : string := to_string (item_prop i (f_xAxis f)).

Definition with_key (f : FilterState) (k : string) (l : list Item) : list Item :=
  List.filter (λ i, bool_decide (axis_key f i = k)) l.

Definition grouped_ok (f : FilterState) (g : obj (list Item)) (l : list Item) : Prop :=
  (NoDup (keys g) ∧ ∀ k, k ∈ keys g → reserved k = false) ∧
  ∀ k, own_get g k = match with_key f k l with [] => None | l' => Some l' end.

Lemma with_key_app f k l i :
  with_key f k (l ++ [i]) = with_key f k l ++ (if bool_decide (axis_key f i = k) then [i] else []).
Proof. unfold with_key. rewrite lfilter_app. simpl. by case_match. Qed.

Lemma grouped_step f g l i g' :
  grouped_ok f g l → group_by_axis f g i = Ok g' → grouped_ok f g' (l ++ [i]).
Proof.
  intros [[Hnd Hres] Hg] H. unfold group_by_axis, obj_get in H. fold (axis_key f i) in H.
  assert (reserved (axis_key f i) = false ∧
    g' = obj_define g (axis_key f i) (with_key f (axis_key f i) l ++ [i])) as [Hr ->].
  { rewrite Hg in H. pose proof (Hg (axis_key f i)) as Hk.
    destruct (with_key f (axis_key f i) l) as [|j l'] eqn:E.
    - destruct (reserved _) eqn:Hr; [done|]. simplify_eq. by rewrite obj_set_define.
    - simplify_eq. assert (reserved (axis_key f i) = false) as Hr.
      { apply Hres. apply own_get_is_Some. by rewrite Hk. }
      by rewrite obj_set_define. }
  split; [split|].
  - auto with js.
  - intros k. rewrite elem_of_keys_define. intros [->|?]; auto.
  - intros k. rewrite own_get_define, with_key_app. case_decide as Hk.
    + subst k. rewrite bool_decide_true by done. by destruct (with_key f (axis_key f i) l).
    + rewrite bool_decide_false by done. rewrite app_nil_r. apply Hg.
Qed.

Lemma grouped_fold f l pre g g' :
  grouped_ok f g pre → exc_foldl (group_by_axis f) g l = Ok g' → grouped_ok f g' (pre ++ l).
Proof.
  revert pre g. induction l as [|i l IH]; intros pre g Hg H; simpl in H.
  - simplify_eq. by rewrite app_nil_r.
  - destruct (group_by_axis f g i) as [g2|] eqn:E; [|done]. simpl in H.
    rewrite cons_middle, app_assoc. eapply IH; [|done]. by eapply grouped_step.
Qed.

Lemma grouped_nil f : grouped_ok f [] [].
Proof. split; [split; [constructor|set_solver]|]. done. Qed.

(** The entries of the grouping: one per axis value, with its items in order. *)
Lemma grouped_entries f l g k l' :
  grouped_ok f g l → (k, l') ∈ entries g ↔ l' = with_key f k l ∧ l' ≠ [].
Proof.
  intros [[Hnd _] Hg]. rewrite entries_Permutation. split.
  - intros Hin. apply own_get_elem in Hin; [|done]. rewrite Hg in Hin.
    destruct (with_key f k l); by simplify_eq.
  - intros [-> Hne]. apply own_get_Some_elem. rewrite Hg. by destruct (with_key f k l).
Qed.

(** ** Bars of one point *)

(** Keys that cannot be mistaken for another entry of the point. *)
Definition clean_key (axis k : string) : Prop :=
  k ≠ axis ∧ k +:+ "_data" ≠ axis ∧ k ≠ "__proto__" ∧ k +:+ "_data" ≠ "__proto__".

Definition clean (f : FilterState) (l : list Item) : Prop :=
  ∀ i k, i ∈ l → data_key f i = Ok k →
    clean_key (to_string (f_xAxis f)) k ∧
    ∀ j k', j ∈ l → data_key f j = Ok k' → k ≠ k' +:+ "_data".

Record bars_ok (f : FilterState) (visible : obj bool) (x : string) (pt : point) (l : list Item)
    : Prop := {
  bars_axis : own_get pt (to_string (f_xAxis f)) = Some (CPrim (PStr x));
  bars_shown : ∀ i : Item, i ∈ l → is_visible visible (server i) = true →
    ∃ k (j : Item) r, data_key f i = Ok k ∧ j ∈ l ∧ is_visible visible (server j) = true ∧
      data_key f j = Ok k ∧ results j = Some r ∧
      own_get pt k = Some (CPrim (metric_of (f_metric f) r)) ∧
      own_get pt (k +:+ "_data") = Some (CItem j);
  bars_only : ∀ k c, own_get pt k = Some c →
    k = to_string (f_xAxis f) ∨
    ∃ (i : Item) k', i ∈ l ∧ is_visible visible (server i) = true ∧ data_key f i = Ok k' ∧
            (k = k' ∨ k = k' +:+ "_data");
}.

Lemma bars_nil f visible x :
  bars_ok f visible x [(to_string (f_xAxis f), CPrim (PStr x))] [].
Proof.
  split.
  - simpl. by rewrite bool_decide_true.
  - intros i Hi. by apply elem_of_nil in Hi.
  - simpl. intros k c. destruct (bool_decide_reflect (to_string (f_xAxis f) = k)); [by left|done].
Qed.

Lemma bars_skip f visible x pt l i :
  bars_ok f visible x pt l → is_visible visible (server i) = false →
  bars_ok f visible x pt (l ++ [i]).
Proof.
  intros [Ha Hs Ho] Hv. split; [done| |].
  - intros j [Hj | ->%list_elem_of_singleton]%elem_of_app Hvj; [|congruence].
    destruct (Hs j Hj Hvj) as (k & j' & r & ? & ? & ?). exists k, j', r.
    rewrite elem_of_app. naive_solver.
  - intros k c Hk. destruct (Ho k c Hk) as [->|(j & k' & ? & ?)]; [by left|right].
    exists j, k'. rewrite elem_of_app. naive_solver.
Qed.

Lemma bars_add f visible x pt l i k r :
  bars_ok f visible x pt l → clean f (l ++ [i]) →
  is_visible visible (server i) = true → data_key f i = Ok k → results i = Some r →
  bars_ok f visible x
    (obj_set (obj_set pt k (CPrim (metric_of (f_metric f) r))) (k +:+ "_data") (CItem i))
    (l ++ [i]).
Proof.
  intros [Ha Hs Ho] Hc Hv Hk Hr.
  assert (Hi : i ∈ l ++ [i]) by (apply elem_of_app; right; by apply list_elem_of_singleton).
  destruct (Hc i k Hi Hk) as [(C1 & C2 & C3 & C4) C5].
  unfold obj_set. rewrite !bool_decide_false by done. split.
  - by rewrite !own_get_define_ne.
  - intros j [Hj | ->%list_elem_of_singleton]%elem_of_app Hvj.
    + destruct (Hs j Hj Hvj) as (k1 & j1 & r1 & D1 & D2 & D3 & D4 & D5 & D6 & D7).
      assert (Hj' : j ∈ l ++ [i]) by (apply elem_of_app; by left).
      destruct (decide (k1 = k)) as [->|Hne].
      * exists k, i, r. split_and!; try done; [|apply own_get_define_eq].
        rewrite own_get_define_ne by (by apply string_app_ne). apply own_get_define_eq.
      * exists k1, j1, r1. split_and!; try done; [apply elem_of_app; by left| |].
        -- rewrite !own_get_define_ne; [done|done|].
           intros Eq. by destruct (Hc j k1 Hj' D1) as [_ Hcl]; apply (Hcl i k).
        -- rewrite !own_get_define_ne; [done| |].
           ++ intros Eq. by apply (C5 j k1).
           ++ intros Eq. by apply string_app_inj_r in Eq.
    + exists k, i, r. split_and!; try done; [|apply own_get_define_eq].
      rewrite own_get_define_ne by (by apply string_app_ne). apply own_get_define_eq.
  - intros k1 c. rewrite !own_get_define. intros Hk1.
    assert (k1 = k ∨ k1 = k +:+ "_data" ∨ own_get pt k1 = Some c) as Hcase.
    { repeat case_decide; auto. }
    destruct Hcase as [->|[->|Hp]].
    + right. exists i, k. auto.
    + right. exists i, k. auto.
    + destruct (Ho _ _ Hp) as [->|(j & k' & ? & ? & ? & ?)]; [by left|right].
      exists j, k'. rewrite elem_of_app. auto.
Qed.

Lemma clean_sub f l l' : clean f l → l' ⊆ l → clean f l'.
Proof. intros Hc Hs i k Hi Hk. destruct (Hc i k) as [? ?]; eauto 10. Qed.

Lemma bars_fold f visible x l pre pt pt' :
  bars_ok f visible x pt pre → clean f (pre ++ l) →
  exc_foldl (add_bar f visible) pt l = Ok pt' → bars_ok f visible x pt' (pre ++ l).
Proof.
  revert pre pt. induction l as [|i l IH]; intros pre pt Hb Hc H; simpl in H.
  - simplify_eq. by rewrite app_nil_r.
  - rewrite cons_middle, app_assoc in Hc |- *.
    destruct (add_bar f visible pt i) as [pt2|] eqn:E; [|done]. simpl in H.
    eapply IH; [|done|done]. unfold add_bar in E.
    destruct (is_visible visible (server i)) eqn:Hv; [|simplify_eq; by apply bars_skip].
    unfold results_of_item in E. destruct (results i) as [r|] eqn:Hr; [|done]. simpl in E.
    destruct (data_key f i) as [k|] eqn:Hk; [|done]. simpl in E. simplify_eq.
    apply bars_add; try done. eapply clean_sub; [done|]. set_solver.
Qed.

(** A point holds the bars of its items. *)
Lemma make_point_ok f visible x l pt :
  clean f l → make_point f visible (x, l) = Ok pt → bars_ok f visible x pt l.
Proof. intros Hc H. by apply (bars_fold f visible x l [] _ pt (bars_nil f visible x)). Qed.

(** With all protocols shown, every bar key ends in a parenthesis. *)
Lemma clean_all f l :
  f_http2 f = PStr "all" → f_xAxis f ∈ x_axes → clean f l.
Proof.
  intros Hall Hx.
  assert (Hl : ∀ i k, data_key f i = Ok k → last_char k = Some ")"%char).
  { intros i k. unfold data_key. rewrite Hall. destruct (server i); try done. simpl.
    intros [= <-]. unfold protocol_suffix. case_match; by rewrite last_char_app. }
  assert (Hd : ∀ k : string, last_char (k +:+ "_data") = Some "a"%char).
  { intros k. by rewrite last_char_app. }
  intros i k _ Hk. apply Hl in Hk as Hlk. split; [split_and!|].
  - intros ->. revert Hx Hlk. unfold x_axes. rewrite !elem_of_cons, elem_of_nil.
    by intros [->|[->|[->|[]]]].
  - intros Eq. pose proof (Hd k) as Hdk. rewrite Eq in Hdk. revert Hx Hdk.
    unfold x_axes. rewrite !elem_of_cons, elem_of_nil. by intros [->|[->|[->|[]]]].
  - intros ->. done.
  - intros Eq. pose proof (Hd k) as Hdk. by rewrite Eq in Hdk.
  - intros j k' _ _ ->. by rewrite Hd in Hlk.
Qed.

(** ** The points along the x-axis *)

Definition x_of (f : FilterState) (pt : point) : string :=
  match own_get pt (to_string (f_xAxis f)) with Some (CPrim (PStr s)) => s | _ => "" end.

(** The axis value of the item is an integer the data may hold. *)
Definition axis_int (f : FilterState) (i : Item) : Prop := pos_int (item_prop i (f_xAxis f)).

Definition int_text (s : string) : Prop := ∃ z, (0 < z < 2 ^ 53)%Z ∧ s = num_to_string (of_Z z).

Definition int_point (f : FilterState) (pt : point) : Prop :=
  ∃ s, int_text s ∧ own_get pt (to_string (f_xAxis f)) = Some (CPrim (PStr s)).

Lemma point_cmp_int lc f a b :
  int_point f a → int_point f b →
  point_cmp lc f a b = (digits_value (x_of f a) ?= digits_value (x_of f b))%Z.
Proof.
  intros (s & (z & Hz & ->) & Ea) (t & (y & Hy & ->) & Eb).
  unfold point_cmp, x_of. rewrite Ea, Eb. cbn [cell_number to_number].
  rewrite !to_number_show, !digits_value_show by lia.
  destruct (of_Z_real z ltac:(lia)) as [_ ->]. destruct (of_Z_real y ltac:(lia)) as [_ ->].
  simpl. by apply sub_cmp_of_Z.
Qed.

#[global] Instance point_cmp_consistent lc f : ConsistentCmp (int_point f) (point_cmp lc f).
Proof.
  split.
  - intros x y Hx Hy. rewrite !point_cmp_int by done. apply Z.compare_antisym.
  - intros x y z Hx Hy Hz. unfold cmp_le. rewrite !point_cmp_int by done.
    rewrite !Z.compare_le_iff. lia.
Qed.

(** What [chartData] returns, before the final sort. *)
Lemma chartData_points lc items f visible pts :
  chartData lc items f visible = Ok pts →
  ∃ g pts0, grouped_ok f g (filteredData items f) ∧
    Forall2 (λ e pt, make_point f visible e = Ok pt) (entries g) pts0 ∧
    pts = sort_by (point_cmp lc f) pts0.
Proof.
  unfold chartData. intros H. destruct (exc_foldl _ _ _) as [g|] eqn:E; [|done]. simpl in H.
  destruct (exc_map _ _) as [pts0|] eqn:E2; [|done]. simpl in H. simplify_eq.
  exists g, pts0. split_and!; [|by apply exc_map_Forall2|done].
  by apply (grouped_fold f _ [] [] g (grouped_nil f)).
Qed.

Lemma with_key_sub f k l : with_key f k l ⊆ l.
Proof. intros i Hi. by apply elem_of_lfilter in Hi as [_ ?]. Qed.

(** Every point belongs to one axis value and holds the bars of its items. *)
Lemma chartData_point lc items f visible pts pt :
  clean f (filteredData items f) →
  chartData lc items f visible = Ok pts → pt ∈ pts →
  ∃ k, let l := with_key f k (filteredData items f) in
       l ≠ [] ∧ bars_ok f visible k pt l.
Proof.
  intros Hc H Hpt. destruct (chartData_points _ _ _ _ _ H) as (g & pts0 & Hg & H2 & ->).
  apply elem_of_sort_by in Hpt. apply list_elem_of_lookup in Hpt as [n Hn].
  destruct (Forall2_lookup_r _ _ _ _ _ H2 Hn) as ([k l] & Hl & Hmk).
  apply list_elem_of_lookup_2 in Hl. apply (grouped_entries f (filteredData items f)) in Hl as [-> Hne];
    [|done].
  exists k. split; [done|]. apply make_point_ok; [|done]. eapply clean_sub; [done|].
  apply with_key_sub.
Qed.

(** Every item has the point of its axis value. *)
Lemma chartData_item lc items f visible pts i :
  clean f (filteredData items f) →
  chartData lc items f visible = Ok pts → i ∈ filteredData items f →
  ∃ pt, pt ∈ pts ∧
        bars_ok f visible (axis_key f i) pt (with_key f (axis_key f i) (filteredData items f)).
Proof.
  intros Hc H Hi. destruct (chartData_points _ _ _ _ _ H) as (g & pts0 & Hg & H2 & ->).
  set (l := with_key f (axis_key f i) (filteredData items f)).
  assert (Hil : i ∈ l) by (apply elem_of_lfilter; by rewrite bool_decide_true).
  assert ((axis_key f i, l) ∈ entries g) as He.
  { apply (grouped_entries f (filteredData items f)); [done|]. split; [done|].
    intros El. rewrite El in Hil. by apply elem_of_nil in Hil. }
  apply list_elem_of_lookup in He as [n Hn].
  destruct (Forall2_lookup_l _ _ _ _ _ H2 Hn) as (pt & Hpt & Hmk).
  exists pt. split; [apply elem_of_sort_by; by eapply list_elem_of_lookup_2|].
  apply make_point_ok; [|done]. eapply clean_sub; [done|]. apply with_key_sub.
Qed.

(** The x values are the axis values of the data, one point each. *)
Lemma chartData_axis lc items f visible pts :
  clean f (filteredData items f) →
  chartData lc items f visible = Ok pts →
  NoDup (x_of f <$> pts) ∧
  ∀ x, x ∈ x_of f <$> pts ↔ ∃ i, i ∈ filteredData items f ∧ axis_key f i = x.
Proof.
  intros Hc H. destruct (chartData_points _ _ _ _ _ H) as (g & pts0 & Hg & H2 & ->).
  assert (Hx : x_of f <$> pts0 = object_keys g).
  { unfold object_keys.
    assert (∀ e, e ∈ entries g → e.2 = with_key f e.1 (filteredData items f) ∧ e.2 ≠ []) as Hent.
    { intros [k l] He. by apply (grouped_entries f (filteredData items f)) in He. }
    clear H. revert Hent. induction H2 as [|[k l] pt es pts' Hmk H2 IH]; intros Hent; [done|].
    rewrite fmap_cons. cbn [map fst]. f_equal.
    - destruct (Hent (k, l)) as [El _]; [by left|]. simpl in El. subst l.
      apply make_point_ok in Hmk; [|eapply clean_sub; [done|apply with_key_sub]].
      unfold x_of. by rewrite (bars_axis _ _ _ _ _ Hmk).
    - apply IH. intros e He. apply Hent. by right. }
  assert (Hp : x_of f <$> sort_by (point_cmp lc f) pts0 ≡ₚ keys g).
  { rewrite sort_by_Permutation, Hx. apply object_keys_Permutation. }
  rewrite Hp. destruct Hg as [[Hnd _] Hgk]. split; [done|]. intros x.
  rewrite Hp, <- own_get_is_Some, Hgk. split.
  - intros [l Hl]. destruct (with_key f x (filteredData items f)) as [|i l'] eqn:E; [done|].
    assert (i ∈ with_key f x (filteredData items f)) as Hi by (rewrite E; by left).
    apply elem_of_lfilter in Hi as [Hk Hi]. breflect. eauto.
  - intros (i & Hi & <-).
    assert (i ∈ with_key f (axis_key f i) (filteredData items f)) as Hin.
    { apply elem_of_lfilter. by rewrite bool_decide_true. }
    destruct (with_key f (axis_key f i) (filteredData items f)); [by apply elem_of_nil in Hin|eauto].
Qed.

(** ** The chart is always computed on well-formed results *)

Lemma exc_foldl_ok {A S} (g : S → A → exc S) (P : A → Prop) s l :
  (∀ s x, P x → ∃ s', g s x = Ok s') → Forall P l → ∃ s', exc_foldl g s l = Ok s'.
Proof.
  intros Hg Hl. revert s. induction Hl as [|x l Hx Hl IH]; intros s; simpl; [eauto|].
  destruct (Hg s x Hx) as [s' ->]. simpl. apply IH.
Qed.

Lemma exc_map_ok {A B} (g : A → exc B) l :
  (∀ x, x ∈ l → ∃ y, g x = Ok y) → ∃ ys, exc_map g l = Ok ys.
Proof.
  induction l as [|x l IH]; intros Hl; simpl; [eauto|].
  destruct (Hl x) as [y ->]; [by left|]. destruct IH as [ys Hys]; [intros; apply Hl; by right|].
  simpl. rewrite Hys. simpl. eauto.
Qed.

(** What the chart needs of a result: measurements, a named server, and an axis
    value that is not the name of an inherited member. *)
Definition chart_ready (f : FilterState) (i : Item) : Prop :=
  is_Some (results i) ∧ (∃ s, server i = PStr s) ∧ reserved (axis_key f i) = false.

Lemma group_by_axis_ok f g i : chart_ready f i → ∃ g', group_by_axis f g i = Ok g'.
Proof.
  intros (_ & _ & Hr). unfold group_by_axis, obj_get. fold (axis_key f i). rewrite Hr.
  destruct (own_get g (axis_key f i)); eauto.
Qed.

Lemma add_bar_ok f visible pt i : chart_ready f i → ∃ pt', add_bar f visible pt i = Ok pt'.
Proof.
  intros ([r Hr] & [s Hs] & _). unfold add_bar, results_of_item, data_key. rewrite Hr, Hs.
  simpl. case_match; eauto.
Qed.

Lemma chartData_ok lc items f visible :
  Forall (chart_ready f) (filteredData items f) →
  ∃ pts, chartData lc items f visible = Ok pts.
Proof.
  intros Hr. unfold chartData.
  destruct (exc_foldl_ok (group_by_axis f) _ [] _ (group_by_axis_ok f) Hr) as [g Hg].
  rewrite Hg. simpl.
  destruct (exc_map_ok (make_point f visible) (entries g)) as [pts Hpts].
  - intros [k l] He.
    apply (grouped_entries f (filteredData items f)) in He as [-> _];
      [|by apply (grouped_fold f _ [] [] g (grouped_nil f))].
    apply (exc_foldl_ok _ (chart_ready f)); [apply add_bar_ok|]. by apply Forall_lfilter.
  - rewrite Hpts. simpl. eauto.
Qed.

(** ** The keys of the bars *)

Lemma elem_of_filteredData items f i :
  i ∈ filteredData items f ↔ keep_item f i = true ∧ i ∈ items.
Proof. apply elem_of_lfilter. Qed.

Lemma keep_item_selected f i :
  keep_item f i = true → strict_eq (cpu i) (f_cpu f) = true ∧ strict_eq (test_case i) (f_testCase f) = true.
Proof.
  unfold keep_item. destruct (strict_eq (cpu i) _); simpl; [|done].
  by destruct (strict_eq (test_case i) _).
Qed.

Lemma filtered_server items cpus f i :
  i ∈ filteredData items f → truthy (server i) = true →
  server i ∈ o_servers (current_options items cpus f).
Proof.
  intros [Hk Hi]%elem_of_filteredData Ht. apply keep_item_selected in Hk as [? ?].
  apply elem_of_distinct_truthy'. split; [done|]. exists i. split; [|done].
  by apply elem_of_selected.
Qed.

Lemma elem_of_push_key has s suffix ks k :
  push_key has (PStr s) suffix = Ok ks →
  k ∈ ks ↔ has = true ∧ k = replace_underscores s +:+ suffix.
Proof.
  unfold push_key. destruct has; simpl; intros [= <-]; [|set_solver].
  rewrite list_elem_of_singleton. naive_solver.
Qed.

(** The keys pushed for one server are those of its filtered results. *)
Lemma server_keys_all f filtered visible s ks k :
  f_http2 f = PStr "all" → server_keys f filtered visible (PStr s) = Ok ks →
  k ∈ ks ↔ is_visible visible (PStr s) = true ∧
           ∃ i, i ∈ filtered ∧ server i = PStr s ∧ data_key f i = Ok k.
Proof.
  intros Hall H. unfold server_keys in H. rewrite Hall in H. simpl in H.
  destruct (is_visible visible (PStr s)) eqn:Hv.
  2: { simplify_eq. split; [set_solver|]. by intros [? _]. }
  set (sd := List.filter (λ i : Item, strict_eq (server i) (PStr s)) filtered) in H.
  destruct (push_key (existsb _ _) (PStr s) " (HTTP/1.1)") as [ks1|] eqn:E1; [|done]. simpl in H.
  destruct (push_key (existsb _ _) (PStr s) " (HTTP/2)") as [ks2|] eqn:E2; [|done]. simplify_eq/=.
  rewrite elem_of_app, (elem_of_push_key _ _ _ _ _ E1), (elem_of_push_key _ _ _ _ _ E2).
  rewrite !existsb_elem.
  assert (Hsd : ∀ i, i ∈ sd ↔ i ∈ filtered ∧ server i = PStr s).
  { intros i. unfold sd. rewrite elem_of_lfilter, strict_eq_str. tauto. }
  assert (Hdk : ∀ i, server i = PStr s →
    data_key f i = Ok (replace_underscores s +:+ protocol_suffix i)).
  { intros i Hi. unfold data_key. rewrite Hi, Hall. done. }
  unfold protocol_suffix in Hdk. split.
  - intros [[(i & Hi & Hh) ->]|[(i & Hi & Hh) ->]]; split; try done;
      exists i; apply Hsd in Hi as [? Hs]; rewrite (Hdk i Hs).
    + apply negb_true_iff in Hh. by rewrite Hh.
    + by rewrite Hh.
  - intros (_ & i & Hi & Hs & Hk). rewrite (Hdk i Hs) in Hk. simplify_eq.
    destruct (truthy (http2 i)) eqn:Hh; [right|left]; (split; [|done]); exists i;
      rewrite Hh; split; try done; by apply Hsd.
Qed.

(** The keys are those pushed for the servers on offer, which have names. *)
Lemma visibleDataKeys_servers items cpus f visible ks k :
  Forall item_ok items → visibleDataKeys items cpus f visible = Ok ks →
  k ∈ ks ↔ ∃ s ks', PStr s ∈ o_servers (current_options items cpus f) ∧
                    server_keys f (filteredData items f) visible (PStr s) = Ok ks' ∧ k ∈ ks'.
Proof.
  intros Hok H. unfold visibleDataKeys in H.
  destruct (exc_map _ _) as [kss|] eqn:E; [|done]. simpl in H. simplify_eq.
  apply exc_map_Forall2 in E.
  rewrite list_elem_of_In, List.in_concat. setoid_rewrite <- list_elem_of_In. split.
  - intros (ks' & Hks & Hk). apply list_elem_of_lookup in Hks as [n Hn].
    destruct (Forall2_lookup_r _ _ _ _ _ E Hn) as (v & Hv & Hsk).
    apply list_elem_of_lookup_2 in Hv.
    pose proof Hv as (Ht & i & Hi & ->)%elem_of_distinct_truthy'. apply selected_sub in Hi.
    rewrite Forall_forall in Hok. destruct (io_server _ (Hok i Hi) Ht) as (s & _ & Hs).
    rewrite Hs in *. eauto.
  - intros (s & ks' & Hs & Hsk & Hk). apply list_elem_of_lookup in Hs as [n Hn].
    destruct (Forall2_lookup_l _ _ _ _ _ E Hn) as (ks2 & Hks & Hsk2).
    rewrite Hsk in Hsk2. simplify_eq. exists ks2. split; [by eapply list_elem_of_lookup_2|done].
Qed.

Lemma visibleDataKeys_all items cpus f visible ks k :
  Forall item_ok items → f_http2 f = PStr "all" →
  visibleDataKeys items cpus f visible = Ok ks →
  k ∈ ks ↔ ∃ i, i ∈ filteredData items f ∧ truthy (server i) = true ∧
                is_visible visible (server i) = true ∧ data_key f i = Ok k.
Proof.
  intros Hok Hall H. rewrite (visibleDataKeys_servers items cpus f visible ks k Hok H). split.
  - intros (s & ks' & Hv & Hsk & Hk).
    destruct (proj1 (server_keys_all _ _ _ _ _ _ Hall Hsk) Hk) as (Hvis & i & Hi & Hs & Hdk).
    apply elem_of_distinct_truthy' in Hv as [Ht _]. exists i. rewrite Hs. auto.
  - intros (i & Hi & Ht & Hvis & Hdk).
    pose proof (filtered_server items cpus f i Hi Ht) as Hv.
    assert (∃ s, server i = PStr s) as [s Hs].
    { unfold data_key in Hdk. destruct (server i); try done. eauto. }
    rewrite Hs in Hv, Hvis. destruct (server_keys f (filteredData items f) visible (PStr s)) as [ks'|] eqn:E.
    + exists s, ks'. split_and!; [done|done|]. apply (server_keys_all _ _ _ _ _ _ Hall E). eauto.
    + unfold server_keys, push_key in E. rewrite Hvis, Hall in E. simpl in E.
      by do 2 destruct (existsb _ _).
Qed.

(** With one protocol shown, a key is the name of a visible server on offer. *)
Lemma visibleDataKeys_one items cpus f visible ks k :
  Forall item_ok items → f_http2 f ≠ PStr "all" →
  visibleDataKeys items cpus f visible = Ok ks →
  k ∈ ks ↔ ∃ i s, i ∈ items ∧ strict_eq (cpu i) (f_cpu f) = true ∧
                  strict_eq (test_case i) (f_testCase f) = true ∧ server i = PStr s ∧ s ≠ "" ∧
                  is_visible visible (PStr s) = true ∧ k = replace_underscores s.
Proof.
  intros Hok Hone H. rewrite (visibleDataKeys_servers items cpus f visible ks k Hok H).
  assert (strict_eq (f_http2 f) (PStr "all") = false) as Hs.
  { apply not_true_is_false. by rewrite strict_eq_str. }
  unfold server_keys. rewrite Hs. split.
  - intros (s & ks' & (Ht & i & Hi & E)%elem_of_distinct_truthy' & Hsk & Hk).
    apply elem_of_selected in Hi as (Hi & Hc & Htc). destruct (is_visible visible (PStr s)) eqn:Hv.
    + injection Hsk as <-. apply list_elem_of_singleton in Hk as ->. exists i, s.
      rewrite string_app_nil_r. split_and!; try done. by intros ->.
    + injection Hsk as <-. by apply elem_of_nil in Hk.
  - intros (i & s & Hi & Hc & Htc & E & Hne & Hv & ->). exists s, [replace_underscores s]. rewrite Hv.
    split_and!; [|cbn; by rewrite string_app_nil_r|by left].
    apply elem_of_distinct_truthy'. split; [by destruct s|]. exists i. split; [|done].
    by apply elem_of_selected.
Qed.
