(* ===== verification/ChartSpec.v ===== *)
(** * What the chart shows

    The theorems on [chartData], [visibleDataKeys], [handleChartHover] and
    [summaryStats] of [ChartData]: the chart is computed, its points stand in
    numeric order of the x-axis, every visible result has its bar, hovering a bar
    shows that result, which keys the page draws bars for, and the summary numbers. *)

From Stdlib Require Import SpecFloat.
From S2P Require Import Prelude JsSort JsNumber JsText JsValue UrlParams BenchmarkData SampleData Filters ChartData.

#[local] Open Scope js_scope.

Implicit Types (i j : Item).

(** What the chart relies on: measurements, a server name, and an x value that is
    a positive integer, as [results.json] has them. *)
Record chart_item (f : FilterState) (i : Item) : Prop := {
  ci_results : is_Some (results i);
  ci_server : ∃ s, server i = PStr s;
  ci_axis : axis_int f i;
}.

Lemma int_text_not_reserved s : int_text s → reserved s = false.
Proof.
  intros (z & Hz & ->). rewrite show_of_Z by lia.
  pose proof (all_digits_dec_N (Z.to_N z)) as Hd. apply bool_decide_eq_false.
  unfold proto_names. rewrite !elem_of_cons, elem_of_nil. intros Hin.
  repeat (destruct Hin as [E|Hin]; [rewrite E in Hd; done|]). done.
Qed.

Lemma axis_int_text f i : axis_int f i → int_text (axis_key f i).
Proof. intros (z & Hz & E). exists z. split; [done|]. unfold axis_key. by rewrite E. Qed.

Lemma chart_item_ready f i : chart_item f i → chart_ready f i.
Proof.
  intros [Hr Hs Ha]. split_and!; [done|done|].
  by apply int_text_not_reserved, axis_int_text.
Qed.

Lemma chart_items_ready f l : Forall (chart_item f) l → Forall (chart_ready f) l.
Proof. intros H. eapply Forall_impl; [apply H|]. apply chart_item_ready. Qed.

(** On such data every point carries an integer. *)
Lemma chartData_int_points lc items f visible pts :
  Forall (chart_item f) (filteredData items f) → clean f (filteredData items f) →
  chartData lc items f visible = Ok pts → Forall (int_point f) pts.
Proof.
  intros Hi Hc H. apply Forall_forall. intros pt Hpt.
  destruct (chartData_point _ _ _ _ _ _ Hc H Hpt) as (k & Hne & Hb).
  destruct (with_key f k (filteredData items f)) as [|i l] eqn:E; [done|].
  assert (i ∈ with_key f k (filteredData items f)) as Hin by (rewrite E; by left).
  apply elem_of_lfilter in Hin as [Hk Hin]. breflect. subst k.
  rewrite Forall_forall in Hi. exists (axis_key f i). split.
  - apply axis_int_text. by apply (ci_axis f i), Hi.
  - apply (bars_axis _ _ _ _ _ Hb).
Qed.

Lemma int_point_text f pt : int_point f pt → int_text (x_of f pt).
Proof. intros (s & Hs & E). unfold x_of. by rewrite E. Qed.

Lemma int_text_value_inj s t :
  int_text s → int_text t → digits_value s = digits_value t → s = t.
Proof. intros (z & Hz & ->) (y & Hy & ->). rewrite !digits_value_show by lia. congruence. Qed.

(** Sorted and without repetitions is strictly sorted. *)
Lemma sorted_points_strict f pts :
  Forall (int_point f) pts → NoDup (x_of f <$> pts) →
  StronglySorted (λ a b, (digits_value (x_of f a) ≤ digits_value (x_of f b))%Z) pts →
  StronglySorted (λ a b, (digits_value (x_of f a) < digits_value (x_of f b))%Z) pts.
Proof.
  intros Hint Hnd Hs. induction Hs as [|a l Hs IH Hall]; [constructor|].
  rewrite fmap_cons, NoDup_cons in Hnd. destruct Hnd as [Hn Hnd]. inversion_clear Hint.
  constructor; [by apply IH|]. rewrite !Forall_forall in *. intros b Hb.
  specialize (Hall b Hb). assert (digits_value (x_of f a) ≠ digits_value (x_of f b)); [|lia].
  intros E. apply Hn. apply int_text_value_inj in E; [|by apply int_point_text|].
  - rewrite E. by apply list_elem_of_fmap_2.
  - apply int_point_text. auto.
Qed.

(** The order of the points on integer axis values. *)
Lemma chartData_sorted lc items f visible pts :
  Forall (chart_item f) (filteredData items f) → clean f (filteredData items f) →
  chartData lc items f visible = Ok pts →
  StronglySorted (λ a b, (digits_value (x_of f a) < digits_value (x_of f b))%Z) pts.
Proof.
  intros Hi Hc H. pose proof (chartData_int_points _ _ _ _ _ Hi Hc H) as Hint.
  destruct (chartData_axis _ _ _ _ _ Hc H) as [Hnd _].
  destruct (chartData_points _ _ _ _ _ H) as (g & pts0 & _ & _ & ->).
  apply sorted_points_strict; [done|done|].
  assert (Hint0 : Forall (int_point f) pts0) by (by rewrite <- (sort_by_Permutation (point_cmp lc f))).
  pose proof (sort_by_StronglySorted (int_point f) (point_cmp lc f) pts0 Hint0) as Hs.
  clear -Hs Hint. induction Hs as [|a l Hs IH Hall]; [constructor|]. inversion_clear Hint.
  constructor; [by apply IH|]. rewrite !Forall_forall in *. intros b Hb.
  specialize (Hall b Hb). unfold cmp_le in Hall.
  rewrite point_cmp_int in Hall by auto. by apply Z.compare_le_iff.
Qed.

(** Every visible result is drawn in the point of its axis value. *)
Lemma chart_bar lc items f visible pts i :
  clean f (filteredData items f) → chartData lc items f visible = Ok pts →
  i ∈ filteredData items f → is_visible visible (server i) = true →
  ∃ pt k j r, pt ∈ pts ∧ x_of f pt = axis_key f i ∧ data_key f i = Ok k ∧
    j ∈ filteredData items f ∧ is_visible visible (server j) = true ∧
    axis_key f j = axis_key f i ∧ data_key f j = Ok k ∧ results j = Some r ∧
    own_get pt k = Some (CPrim (metric_of (f_metric f) r)) ∧
    own_get pt (k +:+ "_data") = Some (CItem j).
Proof.
  intros Hc H Hi Hv. destruct (chartData_item _ _ _ _ _ _ Hc H Hi) as (pt & Hpt & Hb).
  destruct (bars_shown _ _ _ _ _ Hb i) as (k & j & r & ? & [Hjk Hj]%elem_of_lfilter & ?);
    [by apply elem_of_lfilter; rewrite bool_decide_true|done|].
  breflect. exists pt, k, j, r. unfold x_of. rewrite (bars_axis _ _ _ _ _ Hb). naive_solver.
Qed.

(** The bars of the points are the keys of the visible filtered results. *)
Lemma chart_bar_keys lc items f visible pts k :
  clean f (filteredData items f) → chartData lc items f visible = Ok pts →
  (∃ pt v, pt ∈ pts ∧ k ≠ to_string (f_xAxis f) ∧ own_get pt k = Some (CPrim v)) ↔
  ∃ i, i ∈ filteredData items f ∧ is_visible visible (server i) = true ∧ data_key f i = Ok k.
Proof.
  intros Hc H. split.
  - intros (pt & v & Hpt & Hk & Hg).
    destruct (chartData_point _ _ _ _ _ _ Hc H Hpt) as (x & Hne & Hb).
    destruct (bars_only _ _ _ _ _ Hb _ _ Hg) as [?|(i & k' & Hi & Hv & Hdk & Hcase)]; [done|].
    exists i. split_and!; [by eapply with_key_sub|done|].
    destruct Hcase as [->| ->]; [done|].
    destruct (bars_shown _ _ _ _ _ Hb i Hi Hv) as (k2 & j & r & Hk2 & _ & _ & _ & _ & _ & Hd).
    rewrite Hdk in Hk2. simplify_eq.
  - intros (i & Hi & Hv & Hk).
    destruct (chart_bar _ _ _ _ _ _ Hc H Hi Hv)
      as (pt & k' & j & r & Hpt & _ & Hk' & _ & _ & _ & _ & _ & Hg & _).
    rewrite Hk in Hk'. simplify_eq. exists pt. eexists. split_and!; [done| |done].
    by destruct (Hc i k' Hi Hk) as [[? _] _].
Qed.

Lemma server_keys_ok f filtered visible s : ∃ ks, server_keys f filtered visible (PStr s) = Ok ks.
Proof.
  unfold server_keys, push_key. destruct (is_visible _ _); [|eauto].
  destruct (strict_eq _ _); simpl; [|eauto].
  do 2 destruct (existsb _ _); simpl; eauto.
Qed.

Lemma visibleDataKeys_ok items cpus f visible :
  Forall item_ok items → ∃ ks, visibleDataKeys items cpus f visible = Ok ks.
Proof.
  intros Hok. unfold visibleDataKeys.
  destruct (exc_map_ok (server_keys f (filteredData items f) visible)
    (o_servers (current_options items cpus f))) as [kss ->]; [|simpl; eauto].
  intros v (Ht & i & Hi & ->)%elem_of_distinct_truthy'. apply selected_sub in Hi.
  rewrite Forall_forall in Hok. destruct (io_server _ (Hok i Hi) Ht) as (s & _ & ->).
  apply server_keys_ok.
Qed.

(** ** Summary statistics *)

(** The number [summaryStats] takes from a result: what a missing value converts to
    included. *)
Definition measured (metric : prim) (i : Item) (v : num) : Prop :=
  ∃ r, results i = Some r ∧ v = to_number (metric_of metric r).

Definition measurable (metric : prim) (i : Item) : Prop :=
  ∃ v, measured metric i v ∧ is_nan v = false.

Lemma metric_values_ok filtered metric :
  Forall (measurable metric) filtered →
  ∃ vs, metric_values filtered metric = Ok vs ∧
        Forall2 (λ i v, measured metric i (to_number v)) filtered vs ∧
        Forall not_nan (to_number <$> vs).
Proof.
  intros H. induction H as [|i l (v & (r & Hr & ->) & Hn) Hl IH].
  { exists []. split_and!; constructor. }
  destruct IH as (vs & Hvs & Hf & Hnn). unfold metric_values in *. simpl.
  unfold results_of_item at 1. rewrite Hr. simpl. rewrite Hvs. simpl.
  eexists. split_and!; [done| |].
  - constructor; [|done]. exists r. auto.
  - rewrite fmap_cons. by constructor.
Qed.

Lemma measured_fun metric i v w : measured metric i v → measured metric i w → v = w.
Proof. intros (r & Hr & ->) (r' & Hr' & ->). by simplify_eq. Qed.

Lemma elem_of_measured metric filtered vs v :
  Forall2 (λ i v, measured metric i (to_number v)) filtered vs →
  v ∈ to_number <$> vs ↔ ∃ i, i ∈ filtered ∧ measured metric i v.
Proof.
  intros H. induction H as [|i w l vs Hm H IH]; [set_solver|].
  rewrite fmap_cons, elem_of_cons, IH. setoid_rewrite elem_of_cons. split.
  - intros [->|(j & ? & ?)]; eauto.
  - intros (j & [->|Hj] & Hmj); [|eauto]. left. by eapply measured_fun.
Qed.

Lemma summaryStats_computed filtered metric :
  filtered ≠ [] → Forall (measurable metric) filtered →
  ∃ st, summaryStats filtered metric = Ok (Some st) ∧ s_count st = length filtered ∧
        (∃ i, i ∈ filtered ∧ measured metric i (s_min st)) ∧
        (∃ i, i ∈ filtered ∧ measured metric i (s_max st)) ∧
        ∀ i v, i ∈ filtered → measured metric i v →
               cmp_le num_cmp (s_min st) v ∧ cmp_le num_cmp v (s_max st).
Proof.
  intros Hne Hm. destruct (metric_values_ok _ _ Hm) as (vs & Hvs & Hf & Hnn).
  assert (Hne' : to_number <$> vs ≠ []) by (by destruct Hf).
  destruct (math_min_spec _ Hne' Hnn) as [Hmin Hmin'].
  destruct (math_max_spec _ Hne' Hnn) as [Hmax Hmax'].
  pose proof (λ v, elem_of_measured metric filtered vs v Hf) as He.
  unfold summaryStats. rewrite bool_decide_false by (by destruct filtered).
  rewrite Hvs. cbn [exc_bind]. eexists. split; [done|]. cbn [s_count s_min s_max].
  split_and!; [done|by apply He..|]. intros i v Hi Hv.
  split; [apply Hmin'|apply Hmax']; apply He; eauto.
Qed.

(** A result without a latency ([null] in [results.json]) counts as the
    number 0: as soon as one is selected, the minimum latency shown is not above
    0, whatever the other servers measured. *)
Lemma null_latency_pulls_minimum filtered i r :
  i ∈ filtered → results i = Some r → p95_latency r = Null →
  Forall (measurable (PStr "p95_latency")) filtered →
  ∃ st, summaryStats filtered (PStr "p95_latency") = Ok (Some st) ∧
        cmp_le num_cmp (s_min st) (of_Z 0).
Proof.
  intros Hi Hr Hnull Hm.
  assert (Hne : filtered ≠ []) by (intros ->; by apply elem_of_nil in Hi).
  destruct (summaryStats_computed _ _ Hne Hm) as (st & Hst & _ & _ & _ & Hb).
  exists st. split; [done|]. apply (Hb i); [done|]. exists r. split; [done|].
  unfold metric_of. cbn. by rewrite Hnull.
Qed.

(** What a result reports for a metric, read off the data as a number. *)
Definition reported (metric : prim) (i : Item) (v : num) : Prop :=
  ∃ r, results i = Some r ∧
    if decide (metric = PStr "p95_latency") then p95_latency r = PNum v
    else if decide (metric = PStr "errorRate") then
      ∃ rate, successRate r = PNum rate ∧ v = nsub (of_Z 1) rate
    else requestsPerSec r = PNum v.

Lemma reported_metric metric i v :
  reported metric i v → ∃ r, results i = Some r ∧ metric_of metric r = PNum v.
Proof.
  intros (r & Hr & Hv). exists r. split; [done|]. unfold metric_of.
  case_decide as H1; [by subst|]. case_decide as H2.
  - subst. simpl. by destruct Hv as (rate & -> & ->).
  - assert (∀ s, metric ≠ PStr s → strict_eq metric (PStr s) = false) as Hs.
    { intros s Hne. apply not_true_is_false. by rewrite strict_eq_str. }
    rewrite (Hs _ H1), (Hs _ H2). by destruct (strict_eq metric (PStr "rps")).
Qed.

Lemma reported_values metric filtered vs :
  Forall2 (reported metric) filtered vs → metric_values filtered metric = Ok (PNum <$> vs).
Proof.
  intros H. unfold metric_values. induction H as [|i v l vs Hv H IH]; [done|].
  destruct (reported_metric _ _ _ Hv) as (r & Hr & Hm). cbn [exc_map].
  unfold results_of_item at 1. rewrite Hr. cbn [exc_bind]. rewrite Hm.
  exact (f_equal (λ m, exc_bind m (λ ys, Ok (PNum v :: ys))) IH).
Qed.

Lemma to_number_nums (vs : list num) : to_number <$> (PNum <$> vs) = vs.
Proof. rewrite <- list_fmap_compose. apply list_fmap_id. Qed.

(** The average of numbers: their sum, in order, divided by how many they are. *)
Lemma mean_nums (vs : list num) :
  mean (PNum <$> vs) = ndiv (foldl nadd (of_Z 0) vs) (of_Z (Z.of_nat (length vs))).
Proof.
  unfold mean. rewrite length_fmap. f_equal. change (int 0) with (PNum (of_Z 0)).
  generalize (of_Z 0). induction vs as [|v vs IH]; intros a; [done|]. apply IH.
Qed.

(** Latencies that are numbers or [null]. *)
Definition latency_or_null (i : Item) : Prop :=
  ∃ r, results i = Some r ∧
       (p95_latency r = Null ∨ ∃ v, p95_latency r = PNum v ∧ is_nan v = false).

Lemma latency_or_null_measurable i : latency_or_null i → measurable (PStr "p95_latency") i.
Proof.
  intros (r & Hr & Hl). exists (to_number (p95_latency r)). split; [by exists r|].
  by destruct Hl as [->|(v & -> & ?)].
Qed.

(** The key of a filtered result of a visible server is a name on offer. *)
Lemma filtered_key_offered items f visible i k :
  f_http2 f ≠ PStr "all" → i ∈ filteredData items f → truthy (server i) = true →
  is_visible visible (server i) = true → data_key f i = Ok k →
  ∃ i s, i ∈ items ∧ strict_eq (cpu i) (f_cpu f) = true ∧
         strict_eq (test_case i) (f_testCase f) = true ∧ server i = PStr s ∧ s ≠ "" ∧
         is_visible visible (PStr s) = true ∧ k = replace_underscores s.
Proof.
  intros Hone [Hk Hi]%elem_of_filteredData Ht Hv Hd. apply keep_item_selected in Hk as [Hc Htc].
  unfold data_key in Hd. destruct (server i) as [| | | |s] eqn:Hs; try done. simpl in Hd.
  assert (strict_eq (f_http2 f) (PStr "all") = false) as Ha.
  { apply not_true_is_false. by rewrite strict_eq_str. }
  rewrite Ha in Hd. simplify_eq. exists i, s. split_and!; try done. by intros ->.
Qed.

(** ** Main theorems *)

(** C9: the chart is always computed on well-formed results, one point per value
    of the x-axis that occurs among the filtered results, and the points stand in
    strictly ascending numeric order (10 before 100), although they are built as
    texts and compared through a rounded floating-point subtraction. *)
Theorem chart_points_ascending lc items f visible :
  Forall (chart_item f) (filteredData items f) → clean f (filteredData items f) →
  ∃ pts, chartData lc items f visible = Ok pts ∧
    StronglySorted (λ a b, (digits_value (x_of f a) < digits_value (x_of f b))%Z) pts ∧
    ∀ x, x ∈ x_of f <$> pts ↔ ∃ i, i ∈ filteredData items f ∧ axis_key f i = x.
Proof.
  intros Hi Hc. destruct (chartData_ok lc items f visible (chart_items_ready _ _ Hi)) as [pts H].
  exists pts. split_and!; [done|by eapply chartData_sorted|by eapply chartData_axis].
Qed.

(** C10: every filtered result of a visible server is drawn: the point of its axis
    value has a bar under its key with its metric, and hovering that bar shows this
    very result, provided no other filtered result shares axis value and key. *)
Theorem visible_result_drawn lc items f visible i :
  Forall (chart_item f) (filteredData items f) → clean f (filteredData items f) →
  i ∈ filteredData items f → is_visible visible (server i) = true →
  (∀ j, j ∈ filteredData items f → axis_key f j = axis_key f i →
        data_key f j = data_key f i → j = i) →
  ∃ pts pt k r,
    chartData lc items f visible = Ok pts ∧ pt ∈ pts ∧ x_of f pt = axis_key f i ∧
    data_key f i = Ok k ∧ results i = Some r ∧
    own_get pt k = Some (CPrim (metric_of (f_metric f) r)) ∧
    handleChartHover (Some (k, pt))
    = {| hoveredPoint := Some (CItem i); activeDataKey := Some k |}.
Proof.
  intros Hci Hc Hi Hv Huniq.
  destruct (chartData_ok lc items f visible (chart_items_ready _ _ Hci)) as [pts H].
  destruct (chart_bar _ _ _ _ _ _ Hc H Hi Hv)
    as (pt & k & j & r & Hpt & Hx & Hk & Hj & _ & Hjx & Hjk & Hr & Hg & Hd).
  assert (j = i) as -> by (apply Huniq; congruence).
  exists pts, pt, k, r. split_and!; try done. unfold handleChartHover. by rewrite Hd.
Qed.

(** C11: the keys for which the page draws bars ([visibleDataKeys]), in both modes of
    the protocol filter.  With all protocols shown they are exactly the bar keys that
    occur in the chart's points: no bar is missing and none is listed without data.
    With one protocol selected they are exactly the names of the visible servers that
    have a result for the CPU and the test case, whether or not the chart has a bar for
    them, and every bar of the chart is among them. *)
Theorem bar_keys_exact lc items cpus f visible :
  Forall item_ok items → Forall (chart_item f) (filteredData items f) →
  Forall (λ i, truthy (server i) = true) (filteredData items f) →
  f_xAxis f ∈ x_axes →
  ∃ pts ks, chartData lc items f visible = Ok pts ∧
    visibleDataKeys items cpus f visible = Ok ks ∧
    (f_http2 f = PStr "all" →
     ∀ k, k ∈ ks ↔ ∃ pt v, pt ∈ pts ∧ k ≠ to_string (f_xAxis f) ∧ own_get pt k = Some (CPrim v)) ∧
    (f_http2 f ≠ PStr "all" →
     (∀ k, k ∈ ks ↔ ∃ i s, i ∈ items ∧ strict_eq (cpu i) (f_cpu f) = true ∧
                      strict_eq (test_case i) (f_testCase f) = true ∧ server i = PStr s ∧ s ≠ "" ∧
                      is_visible visible (PStr s) = true ∧ k = replace_underscores s) ∧
     (clean f (filteredData items f) →
      ∀ k pt v, pt ∈ pts → k ≠ to_string (f_xAxis f) → own_get pt k = Some (CPrim v) → k ∈ ks)).
Proof.
  intros Hok Hci Ht Hx.
  destruct (chartData_ok lc items f visible (chart_items_ready _ _ Hci)) as [pts H].
  destruct (visibleDataKeys_ok items cpus f visible Hok) as [ks Hks].
  rewrite Forall_forall in Ht. exists pts, ks. split_and!; [done|done|..].
  - intros Hall k. rewrite (chart_bar_keys lc items f visible pts k (clean_all _ _ Hall Hx) H).
    rewrite (visibleDataKeys_all items cpus f visible ks k Hok Hall Hks). naive_solver.
  - intros Hone. pose proof (λ k, visibleDataKeys_one items cpus f visible ks k Hok Hone Hks) as Hk.
    split; [done|]. intros Hc k pt v Hpt Hne Hg.
    destruct (proj1 (chart_bar_keys lc items f visible pts k Hc H)) as (i & Hi & Hv & Hd); [eauto|].
    apply Hk. apply (filtered_key_offered items f visible i); auto.
Qed.

(** C27: the summary numbers of the filtered results.  When every result reports a
    number for the metric (the requests per second, the latency, or one minus the
    success rate), the count is the number of results, the minimum and the maximum are
    two of the reported numbers, all of which lie between them, and the average is their
    sum, added in order, divided by the count.  When some latencies are [null] instead,
    as they are for failed runs in [results.json], each counts as a measured 0: as
    soon as one such result is selected, the minimum shown is not above 0. *)
Theorem summaryStats_bounds filtered metric :
  filtered ≠ [] →
  (∀ vs, Forall2 (reported metric) filtered vs → Forall not_nan vs →
   ∃ st, summaryStats filtered metric = Ok (Some st) ∧ s_count st = length filtered ∧
         s_min st ∈ vs ∧ s_max st ∈ vs ∧
         Forall (λ v, cmp_le num_cmp (s_min st) v ∧ cmp_le num_cmp v (s_max st)) vs ∧
         s_avg st = ndiv (foldl nadd (of_Z 0) vs) (of_Z (Z.of_nat (length vs)))) ∧
  (metric = PStr "p95_latency" → Forall latency_or_null filtered →
   ∀ i r, i ∈ filtered → results i = Some r → p95_latency r = Null →
   ∃ st, summaryStats filtered metric = Ok (Some st) ∧ cmp_le num_cmp (s_min st) (of_Z 0)).
Proof.
  intros Hne. split.
  - intros vs Hf Hnn. unfold summaryStats. rewrite bool_decide_false by (by destruct filtered).
    rewrite (reported_values _ _ _ Hf). cbn [exc_bind]. eexists. split; [done|].
    cbn [s_count s_min s_max s_avg]. rewrite to_number_nums, mean_nums.
    destruct (math_min_spec vs) as [Hmin Hmin']; [by destruct Hf|done|].
    destruct (math_max_spec vs) as [Hmax Hmax']; [by destruct Hf|done|].
    split_and!; [done..| |done]. apply Forall_forall. auto.
  - intros -> Hl i r Hi Hr Hnull. apply (null_latency_pulls_minimum filtered i r Hi Hr Hnull).
    eapply Forall_impl; [apply Hl|]. apply latency_or_null_measurable.
Qed.

(** ** Witnesses *)

Definition chart_item_b (f : FilterState) (i : Item) : bool :=
  bool_decide (is_Some (results i)) &&
  match server i with PStr _ => true | _ => false end &&
  pos_int_b (item_prop i (f_xAxis f)).

Lemma chart_item_b_ok f l : forallb (chart_item_b f) l = true → Forall (chart_item f) l.
Proof.
  rewrite forallb_forall, Forall_forall. intros H i Hi. apply list_elem_of_In in Hi.
  specialize (H i Hi). unfold chart_item_b in H. breflect. destruct (server i) eqn:E; try done.
  split; [done|eauto|by apply pos_int_b_ok].
Qed.

(** The page's sample data, every protocol, over the concurrency. *)
Definition chart_filters : FilterState :=
  {| f_cpu := PStr "apple_m1_pro"; f_testCase := PStr "chunked"; f_threads := int 1;
     f_workers := int 1; f_concurrency := int 10; f_http2 := PStr "all";
     f_xAxis := PStr "concurrency"; f_metric := PStr "rps";
     f_visibleServers := [PStr "agoo"; PStr "puma"] |}.

Definition all_visible : obj bool := [("agoo", true); ("puma", true); ("itsi", true); ("falcon", true)].

Definition agoo_item : Item :=
  {| item_result := agoo_10; cpu := PStr "apple_m1_pro"; group := PStr "rack" |}.

Lemma sample_chart_items : Forall (chart_item chart_filters) (filteredData sample_items chart_filters).
Proof. apply chart_item_b_ok. by vm_compute. Qed.

Lemma sample_clean : clean chart_filters (filteredData sample_items chart_filters).
Proof. apply clean_all; [done|by left]. Qed.

Lemma chart_points_ascending_witness :
  (x_of chart_filters <$>
     match chartData String.compare sample_items chart_filters all_visible with
     | Ok pts => pts | Throw _ => [] end) = ["10"; "50"] ∧
  ∃ pts, chartData String.compare sample_items chart_filters all_visible = Ok pts ∧
    StronglySorted
      (λ a b, (digits_value (x_of chart_filters a) < digits_value (x_of chart_filters b))%Z) pts ∧
    ∀ x, x ∈ x_of chart_filters <$> pts ↔
         ∃ i, i ∈ filteredData sample_items chart_filters ∧ axis_key chart_filters i = x.
Proof.
  split; [by vm_compute|].
  apply (chart_points_ascending String.compare sample_items chart_filters all_visible);
    [apply sample_chart_items|apply sample_clean].
Defined.

(** Membership and comparison of concrete results. *)
#[global] Instance Results_eq_dec : EqDecision Results.
Proof. solve_decision. Defined.
#[global] Instance BenchmarkResult_eq_dec : EqDecision BenchmarkResult.
Proof. solve_decision. Defined.
#[global] Instance Item_eq_dec : EqDecision Item.
Proof. solve_decision. Defined.

Definition same_bar (f : FilterState) (i j : Item) : bool :=
  bool_decide (axis_key f j = axis_key f i) &&
  match data_key f j, data_key f i with
  | Ok a, Ok b => bool_decide (a = b) | _, _ => true end.

Lemma unique_bar f l i :
  forallb (λ j, negb (same_bar f i j) || bool_decide (j = i)) l = true →
  ∀ j, j ∈ l → axis_key f j = axis_key f i → data_key f j = data_key f i → j = i.
Proof.
  rewrite forallb_forall. intros H j Hj Ha Hd. apply list_elem_of_In in Hj.
  specialize (H j Hj). destruct (decide (j = i)) as [|Hne]; [done|].
  rewrite (bool_decide_false (j = i)), orb_false_r in H by done.
  unfold same_bar in H. rewrite Hd, Ha in H.
  destruct (data_key f i); by rewrite !bool_decide_true in H.
Qed.

Lemma visible_result_drawn_witness :
  ∃ pts pt k r,
    chartData String.compare sample_items chart_filters all_visible = Ok pts ∧ pt ∈ pts ∧
    x_of chart_filters pt = axis_key chart_filters agoo_item ∧
    data_key chart_filters agoo_item = Ok k ∧ results agoo_item = Some r ∧
    own_get pt k = Some (CPrim (metric_of (f_metric chart_filters) r)) ∧
    handleChartHover (Some (k, pt))
    = {| hoveredPoint := Some (CItem agoo_item); activeDataKey := Some k |}.
Proof.
  apply (visible_result_drawn String.compare sample_items chart_filters all_visible agoo_item).
  - apply sample_chart_items.
  - apply sample_clean.
  - apply (bool_decide_unpack _). by vm_compute.
  - by vm_compute.
  - apply unique_bar. by vm_compute.
Defined.

(** One protocol only: the same selection for HTTP/1.1. *)
Definition one_protocol : FilterState :=
  {| f_cpu := PStr "apple_m1_pro"; f_testCase := PStr "chunked"; f_threads := int 1;
     f_workers := int 1; f_concurrency := int 10; f_http2 := PBool false;
     f_xAxis := PStr "concurrency"; f_metric := PStr "rps";
     f_visibleServers := [PStr "agoo"; PStr "puma"] |}.

Lemma bar_keys_exact_witness :
  (∃ pts ks, chartData String.compare sample_items chart_filters all_visible = Ok pts ∧
     visibleDataKeys sample_items [PStr "apple_m1_pro"] chart_filters all_visible = Ok ks ∧
     ks = ["agoo (HTTP/1.1)"; "puma (HTTP/2)"] ∧
     ∀ k, k ∈ ks ↔ ∃ pt v, pt ∈ pts ∧ k ≠ "concurrency" ∧ own_get pt k = Some (CPrim v)) ∧
  (∃ ks, visibleDataKeys sample_items [PStr "apple_m1_pro"] one_protocol all_visible = Ok ks ∧
     ks = ["agoo"; "puma"] ∧
     ∀ k, k ∈ ks → ∃ i s, i ∈ sample_items ∧ server i = PStr s ∧ k = replace_underscores s).
Proof.
  split.
  - destruct (bar_keys_exact String.compare sample_items [PStr "apple_m1_pro"] chart_filters all_visible)
      as (pts & ks & H1 & H2 & H3 & _); [apply sample_items_ok|apply sample_chart_items|..].
    { apply (bool_decide_unpack _). by vm_compute. }
    { by left. }
    exists pts, ks. split_and!; [done|done| |by apply H3]. revert H2. vm_compute. by intros [= <-].
  - destruct (bar_keys_exact String.compare sample_items [PStr "apple_m1_pro"] one_protocol all_visible)
      as (pts & ks & H1 & H2 & _ & H3); [apply sample_items_ok| |..].
    { apply chart_item_b_ok. by vm_compute. }
    { apply (bool_decide_unpack _). by vm_compute. }
    { by left. }
    exists ks. split_and!; [done|revert H2; vm_compute; by intros [= <-]|].
    intros k Hk. destruct H3 as [H3 _]; [done|]. apply H3 in Hk as (i & s & Hi & _ & _ & Hs & _ & _ & ->). eauto.
Defined.

Definition measurable_b (metric : prim) (i : Item) : bool :=
  match results i with Some r => negb (is_nan (to_number (metric_of metric r))) | None => false end.

Lemma measurable_b_ok metric l :
  forallb (measurable_b metric) l = true → Forall (measurable metric) l.
Proof.
  rewrite forallb_forall, Forall_forall. intros H i Hi. apply list_elem_of_In in Hi.
  specialize (H i Hi). unfold measurable_b in H. destruct (results i) as [r|] eqn:E; [|done].
  apply negb_true_iff in H. eexists. split; [|done]. exists r. auto.
Qed.

(** A run in which every request failed has no latencies. *)
Definition failed_results : Results :=
  {| successRate := int 0; total := int 0; slowest := Null; fastest := Null; average := Null;
     requestsPerSec := int 0; totalData := int 0; sizePerRequest := int 0; sizePerSec := int 0;
     errorDistribution := []; p95_latency := Null |}.

Definition failed_item : Item :=
  {| item_result := {| server := PStr "falcon"; version := Undefined; test_case := PStr "chunked";
       threads := int 1; workers := int 1; http2 := PBool false; concurrency := int 10;
       rss_mb := int 1; results := Some failed_results; timestamp := Undefined |};
     cpu := PStr "apple_m1_pro"; group := PStr "rack" |}.

Lemma null_latency_pulls_minimum_witness :
  ∃ st, summaryStats [agoo_item; failed_item] (PStr "p95_latency") = Ok (Some st) ∧
        cmp_le num_cmp (s_min st) (of_Z 0).
Proof.
  apply (null_latency_pulls_minimum [agoo_item; failed_item] failed_item failed_results).
  - right. by left.
  - done.
  - done.
  - apply measurable_b_ok. by vm_compute.
Defined.

(** The latencies of two results, and what a failed run does to them. *)
Lemma summaryStats_bounds_witness :
  (∃ st, summaryStats [agoo_item; agoo_item] (PStr "rps") = Ok (Some st) ∧ s_count st = 2) ∧
  (∃ st, summaryStats [agoo_item; failed_item] (PStr "p95_latency") = Ok (Some st) ∧
         cmp_le num_cmp (s_min st) (of_Z 0)).
Proof.
  split.
  - destruct (summaryStats_bounds [agoo_item; agoo_item] (PStr "rps") ltac:(done)) as [H _].
    set (v := match requestsPerSec (default failed_results (results agoo_item)) with PNum n => n | _ => S754_nan end).
    destruct (H [v; v]) as (st & H1 & H2 & _); [|by repeat constructor; vm_compute|by exists st].
    repeat constructor; eexists; (split; [done|by vm_compute]).
  - destruct (summaryStats_bounds [agoo_item; failed_item] (PStr "p95_latency") ltac:(done)) as [_ H].
    apply (H eq_refl) with (i := failed_item) (r := failed_results); [|right; by left|done|done].
    constructor; [|constructor; [|constructor]].
    + eexists. split; [done|]. right. eexists. split; [done|by vm_compute].
    + eexists. split; [done|by left].
Defined.
