(* ===== verification/Ranking.v ===== *)
(** * The ranking of servers

    The theorems on [topPerformers]: what the performance map holds, which servers
    win a configuration, and that the table lists the servers with the most wins. *)

From Stdlib Require Import SpecFloat.
From S2P Require Import Prelude JsSort JsNumber JsText JsValue UrlParams BenchmarkData SampleData Filters ChartData ChartSpec.

#[local] Open Scope js_scope.

Implicit Types (i j : Item).

(** ** The performance map *)

(** What the ranking relies on in a result. *)
Record rank_item (i : Item) : Prop := {
  ri_results : is_Some (results i);
  ri_http2 : ∃ b, http2 i = PBool b;
  ri_server : reserved (to_string (server i)) = false;
  ri_config : reserved (config_key i) = false;
}.

(** The key of a configuration ends in a digit, and no inherited name does. *)
Lemma config_key_free i : pos_int (concurrency i) → reserved (config_key i) = false.
Proof.
  intros (z & Hz & Hc). destruct (last_char_show z ltac:(lia)) as (c & Hl & Hd).
  assert (last_char (config_key i) = Some c) as Hk.
  { unfold config_key. rewrite Hc. cbn [to_string]. pose proof (show_of_Z_nonempty z ltac:(lia)) as Hne.
    rewrite !last_char_app; [done|by repeat apply string_app_nonempty_r..]. }
  apply bool_decide_eq_false. intros Hin. unfold proto_names in Hin.
  destruct Hd as [d Hd]. repeat (apply elem_of_cons in Hin as [Hin|Hin];
    [rewrite Hin in Hk; injection Hk as <-; discriminate Hd|]). by apply elem_of_nil in Hin.
Qed.

Definition rps_of (i : Item) : prim := from_option requestsPerSec Undefined (results i).

(** The results of a configuration and a server, and those of one protocol. *)
Definition runs (l : list Item) (key srv : string) : list Item :=
  List.filter (λ i, bool_decide (config_key i = key) && bool_decide (to_string (server i) = srv)) l.

Definition rps_runs (l : list Item) (key srv : string) (h : bool) : list prim :=
  rps_of <$> List.filter (λ i, bool_decide (http2 i = PBool h)) (runs l key srv).

Definition variants_of (l : list Item) (key srv : string) : Variants :=
  {| v_true := rps_runs l key srv true; v_false := rps_runs l key srv false |}.

Record pm_ok (pm : obj (obj Variants)) (l : list Item) : Prop := {
  pm_nodup : NoDup (keys pm);
  pm_free : ∀ k, k ∈ keys pm → reserved k = false;
  pm_inner : ∀ k c, own_get pm k = Some c →
    NoDup (keys c) ∧ ∀ s, s ∈ keys c → reserved s = false;
  pm_runs : ∀ k s, (own_get pm k ≫= λ c, own_get c s)
    = if bool_decide (runs l k s = []) then None else Some (variants_of l k s);
}.

Lemma pm_nil : pm_ok [] [].
Proof. split; [constructor|set_solver|done|done]. Qed.

Lemma runs_app l i key srv :
  runs (l ++ [i]) key srv
  = runs l key srv ++
    (if bool_decide (config_key i = key) && bool_decide (to_string (server i) = srv) then [i] else []).
Proof. unfold runs. rewrite lfilter_app. simpl. by case_match. Qed.

Lemma runs_app_eq l i : runs (l ++ [i]) (config_key i) (to_string (server i))
  = runs l (config_key i) (to_string (server i)) ++ [i].
Proof. rewrite runs_app. by rewrite !bool_decide_true. Qed.

Lemma runs_app_ne l i key srv :
  (key, srv) ≠ (config_key i, to_string (server i)) → runs (l ++ [i]) key srv = runs l key srv.
Proof.
  intros Hne. rewrite runs_app. destruct (_ && _) eqn:E; [|by rewrite app_nil_r].
  breflect. by subst.
Qed.

Lemma variants_app_ne l i key srv :
  (key, srv) ≠ (config_key i, to_string (server i)) →
  variants_of (l ++ [i]) key srv = variants_of l key srv.
Proof. intros Hne. unfold variants_of, rps_runs. by rewrite runs_app_ne. Qed.

(** Recording a run appends its requests per second to its own list. *)
Lemma push_variant_ok l i :
  rank_item i →
  let key := config_key i in let srv := to_string (server i) in
  ∃ r, results i = Some r ∧
  push_variant (variants_of l key srv) (http2 i) (requestsPerSec r)
  = Ok (variants_of (l ++ [i]) key srv).
Proof.
  intros [[r Hr] [b Hb] _ _] key srv. exists r. split; [done|].
  unfold variants_of, rps_runs. rewrite runs_app_eq, Hb.
  rewrite !lfilter_app. cbn [List.filter]. rewrite Hb.
  assert (rps_of i = requestsPerSec r) as Hrps by (unfold rps_of; by rewrite Hr).
  unfold push_variant. destruct b; cbn [to_string v_true v_false];
    rewrite ?bool_decide_true, ?bool_decide_false by done; rewrite !fmap_app, ?app_nil_r; simpl;
    by rewrite Hrps, ?app_nil_r.
Qed.

Lemma no_runs_variants l k s : runs l k s = [] → variants_of l k s = no_variants.
Proof. intros E. unfold variants_of, rps_runs. by rewrite E. Qed.

(** The inner record of a configuration, empty when there is none yet. *)
Lemma record_result_ok pm l i :
  rank_item i → pm_ok pm l →
  let key := config_key i in let srv := to_string (server i) in
  record_result pm i
  = Ok (obj_define pm key
         (obj_define (default [] (own_get pm key)) srv (variants_of (l ++ [i]) key srv))).
Proof.
  intros Hi [Hnd Hfree Hin Hruns] key srv.
  destruct (push_variant_ok l i Hi) as (r & Hr & Hp). fold key srv in Hp.
  pose proof (ri_config i Hi) as Hk. pose proof (ri_server i Hi) as Hs. fold key in Hk. fold srv in Hs.
  pose proof (Hruns key srv) as Hks.
  assert (Hv : default no_variants (own_get (default [] (own_get pm key)) srv) = variants_of l key srv).
  { destruct (own_get pm key) as [c|]; simpl in *; [rewrite Hks|].
    - case_bool_decide as E; [|done]. by rewrite no_runs_variants.
    - case_bool_decide as E; [|done]. by rewrite no_runs_variants. }
  unfold record_result. fold key srv. unfold obj_get, results_of_item.
  destruct (own_get pm key) as [c|] eqn:Ec; cbn [from_option id] in *; rewrite ?Hk.
  - destruct (own_get c srv) as [v|] eqn:Ev; cbn [from_option id] in *; rewrite ?Hs, ?Hr;
      cbn [exc_bind from_option id] in *; rewrite ?Hv, Hp; cbn [exc_bind];
      by rewrite !obj_set_define.
  - cbn [own_get] in *. rewrite Hs, Hr. cbn [exc_bind from_option id] in *. rewrite Hv, Hp.
    cbn [exc_bind]. by rewrite !obj_set_define.
Qed.

Lemma pm_step pm l i :
  rank_item i → pm_ok pm l → ∃ pm', record_result pm i = Ok pm' ∧ pm_ok pm' (l ++ [i]) ∧
    length pm' ≤ S (length pm).
Proof.
  intros Hi Hpm. rewrite (record_result_ok pm l i Hi Hpm). eexists. split; [done|].
  destruct Hpm as [Hnd Hfree Hin Hruns].
  assert (Hlen : ∀ {A} (o : obj A) k v, length (obj_define o k v) ≤ S (length o)).
  { intros A o k v. rewrite <- !(length_map fst). fold (keys (obj_define o k v)) (keys o).
    rewrite keys_define. case_decide; [lia|]. rewrite length_app. simpl. lia. }
  split; [|apply Hlen]. split.
  - by apply NoDup_keys_define.
  - intros k. rewrite elem_of_keys_define. intros [->|?]; [apply Hi|auto].
  - intros k c. rewrite own_get_define. case_decide as Ek; [|apply Hin].
    intros [= <-]. destruct (own_get pm (config_key i)) as [c|] eqn:Ec; simpl.
    + destruct (Hin _ _ Ec) as [Hc1 Hc2]. split; [by apply NoDup_keys_define|].
      intros s. rewrite elem_of_keys_define. intros [->|?]; [apply Hi|auto].
    + split; [apply NoDup_singleton|]. intros s ->%list_elem_of_singleton. apply Hi.
  - intros k s. rewrite own_get_define. case_decide as Ek.
    + subst k. simpl. rewrite own_get_define. case_decide as Es.
      * subst s. rewrite runs_app_eq, bool_decide_false; [done|]. by destruct (runs l _ _).
      * rewrite variants_app_ne, runs_app_ne by congruence. rewrite <- Hruns.
        by destruct (own_get pm (config_key i)).
    + rewrite variants_app_ne, runs_app_ne by congruence. apply Hruns.
Qed.

Lemma pm_fold l pre pm :
  Forall rank_item l → pm_ok pm pre →
  ∃ pm', exc_foldl record_result pm l = Ok pm' ∧ pm_ok pm' (pre ++ l) ∧
    length pm' ≤ length pm + length l.
Proof.
  intros Hl. revert pre pm. induction Hl as [|i l Hi Hl IH]; intros pre pm Hpm; simpl.
  - exists pm. rewrite app_nil_r. split_and!; [done|done|lia].
  - destruct (pm_step pm pre i Hi Hpm) as (pm1 & -> & H1 & L1). simpl.
    destruct (IH _ _ H1) as (pm2 & -> & H2 & L2). exists pm2.
    rewrite cons_middle, app_assoc. split_and!; [done|done|lia].
Qed.

(** ** Names and labels *)

(** Names from which cutting the label at [___] gives the name back. *)
Definition plain_name (s : string) : Prop := before_triple s = s ∧ last_char s ≠ Some "_"%char.

#[global] Instance plain_name_dec s : Decision (plain_name s).
Proof. apply _. Defined.

Lemma prefix_triple a s :
  String.prefix "___" (String a s) = true ↔
  a = "_"%char ∧ ∃ u, s = String "_" (String "_" u).
Proof.
  split.
  - cbn [String.prefix]. destruct (ascii_dec "_" a) as [<-|]; [|done].
    destruct s as [|b s]; [done|]. cbn [String.prefix].
    destruct (ascii_dec "_" b) as [<-|]; [|done].
    destruct s as [|c s]; [done|]. cbn [String.prefix].
    destruct (ascii_dec "_" c) as [<-|]; [|done]. eauto.
  - intros [-> [u ->]]. cbn [String.prefix].
    destruct (ascii_dec "_" "_"); [by destruct u|congruence].
Qed.

Lemma before_triple_label s t : plain_name s → before_triple (s +:+ "___" +:+ t) = s.
Proof.
  intros [Hb Hl]. induction s as [|a s IH].
  { change ("" +:+ "___" +:+ t) with (String "_" (String "_" (String "_" t))).
    cbn [before_triple]. rewrite (proj2 (prefix_triple _ _)); [done|eauto]. }
  change (String a s +:+ "___" +:+ t) with (String a (s +:+ "___" +:+ t)).
  cbn [before_triple] in Hb |- *.
  destruct (String.prefix "___" (String a s)) eqn:Es; [done|]. injection Hb as Hb.
  assert (Hl' : last_char s ≠ Some "_"%char).
  { intros E. apply Hl. simpl. destruct s; [done|]. exact E. }
  destruct (String.prefix "___" (String a (s +:+ "___" +:+ t))) eqn:Ep.
  - exfalso. apply prefix_triple in Ep as [-> [u Hu]].
    destruct s as [|b [|c s]]; [done|injection Hu as ->; done|injection Hu as -> -> _].
    rewrite (proj2 (prefix_triple _ _)) in Es; [done|]. eauto.
  - f_equal. by apply IH.
Qed.

(** ** The winners of a configuration *)

(** A server's average over its runs of a configuration in one protocol. *)
Definition scored (l : list Item) (key srv : string) (v : num) : Prop :=
  ∃ h, rps_runs l key srv h ≠ [] ∧ v = mean (rps_runs l key srv h).

Lemma elem_of_variant_scores s v k x :
  (k, x) ∈ variant_scores (s, v) ↔
  (v_true v ≠ [] ∧ k = s +:+ "___true" ∧ x = mean (v_true v)) ∨
  (v_false v ≠ [] ∧ k = s +:+ "___false" ∧ x = mean (v_false v)).
Proof.
  unfold variant_scores. cbn [fst snd]. rewrite elem_of_app.
  do 2 case_bool_decide; rewrite ?list_elem_of_singleton, ?elem_of_nil; naive_solver.
Qed.

Lemma runs_of_rps l k s h : rps_runs l k s h ≠ [] → runs l k s ≠ [].
Proof. intros H E. apply H. unfold rps_runs. by rewrite E. Qed.

Lemma elem_of_allScores pm l key c k x :
  pm_ok pm l → own_get pm key = Some c →
  (k, x) ∈ allScores c ↔
  ∃ s h, rps_runs l key s h ≠ [] ∧ x = mean (rps_runs l key s h) ∧
         k = s +:+ "___" +:+ (if h : bool then "true" else "false").
Proof.
  intros Hpm Hc. destruct (pm_inner _ _ Hpm _ _ Hc) as [Hnd _].
  assert (Hrow : ∀ s v, (s, v) ∈ c ↔ runs l key s ≠ [] ∧ v = variants_of l key s).
  { intros s v. pose proof (pm_runs _ _ Hpm key s) as Hr. rewrite Hc in Hr. simpl in Hr. split.
    - intros Hin%own_get_elem; [|done]. rewrite Hr in Hin. case_bool_decide; by simplify_eq.
    - intros [Hne ->]. apply own_get_Some_elem. by rewrite Hr, bool_decide_false. }
  unfold allScores. rewrite list_elem_of_In, List.in_concat. setoid_rewrite <- list_elem_of_In. split.
  - intros (sc & ([s v] & -> & Hin)%list_elem_of_fmap & Hk).
    rewrite entries_Permutation in Hin. apply Hrow in Hin as [_ ->].
    apply elem_of_variant_scores in Hk as [(? & -> & ->)|(? & -> & ->)];
      [exists s, true|exists s, false]; auto.
  - intros (s & h & Hne & -> & ->). exists (variant_scores (s, variants_of l key s)). split.
    + apply list_elem_of_fmap_2. rewrite entries_Permutation. apply Hrow.
      split; [by eapply runs_of_rps|done].
    + apply elem_of_variant_scores. destruct h; auto.
Qed.

Lemma nstrict_eq_cmp x y : not_nan x → not_nan y → nstrict_eq x y = true ↔ num_cmp x y = Eq.
Proof.
  intros Hx Hy. unfold nstrict_eq, SFeqb, num_cmp.
  destruct (SFcompare x y) as [[]|] eqn:E; try done. by destruct x, y.
Qed.

(** A maximal score is one that no other score exceeds. *)
Lemma best_score scores v :
  Forall not_nan scores → v ∈ scores →
  nstrict_eq v (math_max scores) = true ↔ ∀ w, w ∈ scores → cmp_le num_cmp w v.
Proof.
  intros Hn Hv. assert (Hne : scores ≠ []) by (intros ->; by apply elem_of_nil in Hv).
  destruct (math_max_spec scores Hne Hn) as [Hin Hmax].
  rewrite Forall_forall in Hn.
  rewrite nstrict_eq_cmp by auto. split.
  - intros E w Hw. apply (cmp_trans (P := not_nan) w (math_max scores) v); auto.
    unfold cmp_le. rewrite (cmp_opp (P := not_nan) v (math_max scores)), E by auto. done.
  - intros H. apply (cmp_le_antisym not_nan num_cmp); auto.
Qed.

Lemma elem_of_winningServers scores s :
  s ∈ winningServers scores ↔
  ∃ k v, (k, v) ∈ scores ∧ before_triple k = s ∧ nstrict_eq v (math_max scores.*2) = true.
Proof.
  unfold winningServers.
  rewrite (elem_of_set_of _ (λ _, True)); [|..|by apply Forall_true].
  2: { intros x y _ _. apply bool_decide_eq_true. }
  rewrite list_elem_of_fmap. split.
  - intros ([k v] & -> & [Hb Hin]%elem_of_lfilter). eauto.
  - intros (k & v & Hin & <- & Hb). exists (k, v). split; [done|]. by apply elem_of_lfilter.
Qed.

Lemma winningServers_NoDup scores : NoDup (winningServers scores).
Proof.
  unfold winningServers. apply (set_of_NoDup _ (λ _, True)); [|by apply Forall_true].
  intros x y _ _. apply bool_decide_eq_true.
Qed.

(** Winning a configuration: an average that no average of any server exceeds. *)
Definition wins_config (l : list Item) (key srv : string) : Prop :=
  ∃ v, scored l key srv v ∧ ∀ srv' w, scored l key srv' w → cmp_le num_cmp w v.

Definition plain_runs (l : list Item) : Prop :=
  ∀ i, i ∈ l → plain_name (to_string (server i)).

Lemma scored_server l key s v : scored l key s v → ∃ i, i ∈ l ∧ to_string (server i) = s.
Proof.
  intros (h & Hne & _). apply runs_of_rps in Hne. destruct (runs l key s) as [|i r] eqn:E; [done|].
  assert (i ∈ runs l key s) as Hi by (rewrite E; by left).
  apply elem_of_lfilter in Hi as [Hb Hi]. breflect. eauto.
Qed.

Lemma winners_ok pm l key c s :
  pm_ok pm l → own_get pm key = Some c → plain_runs l →
  (∀ srv w, scored l key srv w → is_nan w = false) →
  s ∈ winningServers (allScores c) ↔ wins_config l key s.
Proof.
  intros Hpm Hc Hplain Hnan.
  pose proof (λ k x, elem_of_allScores pm l key c k x Hpm Hc) as Hs.
  assert (Hv : ∀ x, x ∈ (allScores c).*2 ↔ ∃ srv, scored l key srv x).
  { intros x. rewrite list_elem_of_fmap. split.
    - intros ([k y] & -> & Hin%Hs). destruct Hin as (srv & h & ? & -> & _). exists srv, h. auto.
    - intros (srv & h & Hne & ->). eexists (_, _). split; [|apply Hs; eauto]. done. }
  assert (Hn : Forall not_nan (allScores c).*2).
  { apply Forall_forall. intros x [srv Hx]%Hv. eauto. }
  rewrite elem_of_winningServers. split.
  - intros (k & v & Hin & <- & Hbest). pose proof Hin as Hin2.
    apply Hs in Hin as (srv & h & Hne & -> & ->).
    assert (Hsc : scored l key srv (mean (rps_runs l key srv h))) by (exists h; auto).
    destruct (scored_server _ _ _ _ Hsc) as (i & Hi & <-).
    rewrite before_triple_label by auto. eexists. split; [done|]. intros srv' w Hw.
    assert (Hin : mean (rps_runs l key (to_string (server i)) h) ∈ (allScores c).*2)
      by (apply Hv; eauto).
    apply (proj1 (best_score _ _ Hn Hin) Hbest). apply Hv. eauto.
  - intros (v & Hsc & Hmax). pose proof Hsc as (h & Hne & Hveq).
    destruct (scored_server _ _ _ _ Hsc) as (i & Hi & <-).
    eexists _, v. split_and!; [apply Hs; eauto|by rewrite before_triple_label by auto|].
    apply best_score; [done|by apply Hv; eauto|]. intros w [srv' Hw]%Hv. eauto.
Qed.

(** ** Counting wins *)

Definition wins (s : string) (cs : list (obj Variants)) : nat :=
  length (List.filter (λ c, bool_decide (s ∈ winningServers (allScores c))) cs).

Definition next_tally (t : option tally) : tally :=
  match t with None => Count 1 | Some (Count n) => Count (S n) | Some Text => Text end.

Lemma own_get_incr m w s :
  reserved w = false →
  own_get (tally_incr m w) s = if decide (w = s) then Some (next_tally (own_get m w)) else own_get m s.
Proof.
  intros Hr. unfold tally_incr, obj_get. rewrite obj_set_define by done. rewrite own_get_define, Hr.
  case_decide; [|done]. by destruct (own_get m w) as [[]|].
Qed.

Lemma own_get_incrs ws m s :
  NoDup ws → Forall (λ w, reserved w = false) ws →
  own_get (foldl tally_incr m ws) s
  = if bool_decide (s ∈ ws) then Some (next_tally (own_get m s)) else own_get m s.
Proof.
  revert m. induction ws as [|w ws IH]; intros m Hnd Hr; cbn [foldl].
  { done. }
  inversion_clear Hnd as [|? ? Hw Hnd']. inversion_clear Hr as [|? ? Hrw Hr'].
  rewrite IH, own_get_incr by done. destruct (decide (w = s)) as [<-|E].
  - rewrite (bool_decide_false (w ∈ ws)) by done.
    by rewrite (bool_decide_true (w ∈ w :: ws)) by left.
  - assert (bool_decide (s ∈ w :: ws) = bool_decide (s ∈ ws)) as ->; [|done].
    apply bool_decide_ext. rewrite elem_of_cons. naive_solver.
Qed.

Lemma keys_incrs ws m :
  Forall (λ w, reserved w = false) ws → NoDup (keys m) → NoDup (keys (foldl tally_incr m ws)).
Proof.
  intros Hr. revert m. induction Hr as [|w ws Hw Hr IH]; intros m Hm; simpl; [done|].
  apply IH. unfold tally_incr. rewrite obj_set_define by done. by apply NoDup_keys_define.
Qed.

Definition free_winners (cs : list (obj Variants)) : Prop :=
  Forall (λ c, Forall (λ w, reserved w = false) (winningServers (allScores c))) cs.

Lemma count_wins_fold pm :
  count_wins pm
  = foldl (λ m c, foldl tally_incr m (winningServers (allScores c))) [] (object_values pm).
Proof.
  unfold count_wins. generalize (@nil (string * tally)).
  induction (object_values pm) as [|c cs IH]; intros m; simpl; [done|].
  rewrite IH. f_equal. by destruct (allScores c).
Qed.

Definition count_cell (n : nat) : option tally := if decide (n = 0) then None else Some (Count n).

Lemma count_wins_ok pm :
  free_winners (object_values pm) →
  NoDup (keys (count_wins pm)) ∧
  ∀ s, own_get (count_wins pm) s = count_cell (wins s (object_values pm)).
Proof.
  rewrite count_wins_fold. induction (object_values pm) as [|c cs IH] using rev_ind; intros Hf.
  { split; [constructor|done]. }
  apply Forall_app in Hf as [Hf Hc]. inversion_clear Hc as [|? ? Hw _].
  destruct (IH Hf) as [Hnd Hg]. rewrite foldl_app. simpl. split; [by apply keys_incrs|].
  intros s. rewrite own_get_incrs by (done || apply winningServers_NoDup).
  rewrite Hg. unfold wins. rewrite lfilter_app, length_app. simpl.
  unfold count_cell. case_bool_decide; simpl; repeat case_decide; try lia; simpl;
    rewrite ?Nat.add_0_r; try done; repeat f_equal; lia.
Qed.

Lemma wins_le s cs : wins s cs ≤ length cs.
Proof. unfold wins. induction cs as [|c cs IH]; simpl; [lia|]. case_match; simpl; lia. Qed.

(** ** The table *)

Definition counted (bound : Z) (e : string * tally) : Prop :=
  ∃ n, e.2 = Count n ∧ (0 < Z.of_nat n < bound)%Z.

Definition count_of (e : string * tally) : nat := match e.2 with Count n => n | Text => 0 end.

Lemma wins_cmp_counted a b :
  counted (2 ^ 53) a → counted (2 ^ 53) b →
  wins_cmp a b = (Z.of_nat (count_of b) ?= Z.of_nat (count_of a))%Z.
Proof.
  intros (m & Ha & Hm) (n & Hb & Hn). unfold wins_cmp, count_of. rewrite Ha, Hb.
  apply sub_cmp_of_Z; lia.
Qed.

#[global] Instance wins_cmp_consistent : ConsistentCmp (counted (2 ^ 53)) wins_cmp.
Proof.
  split.
  - intros x y Hx Hy. rewrite !wins_cmp_counted by done. apply Z.compare_antisym.
  - intros x y z Hx Hy Hz. unfold cmp_le. rewrite !wins_cmp_counted by done.
    rewrite !Z.compare_le_iff. lia.
Qed.

Lemma wins_sorted l :
  Forall (counted (2 ^ 53)) l →
  StronglySorted (λ a b, count_of b ≤ count_of a) (sort_by wins_cmp l).
Proof.
  intros Hl. pose proof (sort_by_StronglySorted (counted (2 ^ 53)) wins_cmp l Hl) as Hs.
  assert (Hf : Forall (counted (2 ^ 53)) (sort_by wins_cmp l)) by (by rewrite sort_by_Permutation).
  revert Hf. clear Hl. induction Hs as [|a s Hs IH Hall]; intros Hf; [constructor|].
  inversion_clear Hf. constructor; [by apply IH|].
  rewrite !Forall_forall in *. intros b Hb. specialize (Hall b Hb). unfold cmp_le in Hall.
  rewrite wins_cmp_counted in Hall by auto.
  rewrite Z.compare_le_iff in Hall.
  lia.
Qed.

(** A prefix of a descending list dominates what it leaves out. *)
Lemma take_dominates {A} (g : A → nat) n l x :
  StronglySorted (λ a b, g b ≤ g a) l → x ∈ l → x ∉ take n l →
  length (take n l) = n ∧ Forall (λ y, g x ≤ g y) (take n l).
Proof.
  revert l. induction n as [|n IH]; intros l Hs Hx Hn; simpl.
  { split; [done|constructor]. }
  destruct Hs as [|a l Hs Hall]; [by apply elem_of_nil in Hx|]. simpl in *.
  rewrite elem_of_cons in Hn. apply elem_of_cons in Hx as [->|Hx]; [naive_solver|].
  destruct (IH l Hs Hx) as [Hl Hf]; [naive_solver|]. rewrite Hl. split; [done|].
  constructor; [|done]. rewrite Forall_forall in Hall. auto.
Qed.

(** The group's results the table is computed from. *)
Definition ranked_items (items : list Item) (sel_cpu currentGroup : prim) : list Item :=
  List.filter (λ i : Item, strict_eq (cpu i) sel_cpu && strict_eq (group i) currentGroup) items.

Lemma ranked_items_length items c g : length (ranked_items items c g) ≤ length items.
Proof. apply List.filter_length_le. Qed.

Lemma performance_map_ok items c g :
  Forall rank_item (ranked_items items c g) →
  ∃ pm, performance_map items c g = Ok pm ∧ pm_ok pm (ranked_items items c g) ∧
        length pm ≤ length items.
Proof.
  intros H. destruct (pm_fold _ [] [] H pm_nil) as (pm & E & Hpm & Hl).
  exists pm. split_and!; [done|done|]. pose proof (ranked_items_length items c g). simpl in Hl. lia.
Qed.

Lemma object_values_own {A} (o : obj A) v :
  NoDup (keys o) → v ∈ object_values o → ∃ k, own_get o k = Some v.
Proof.
  intros Hnd Hv. unfold object_values in Hv.
  apply list_elem_of_fmap in Hv as ([k w] & -> & Hin). rewrite entries_Permutation in Hin.
  exists k. by apply own_get_elem.
Qed.

(** Plain server names cannot collide with inherited members as winners. *)
Lemma free_winners_ok pm l :
  pm_ok pm l → Forall rank_item l → plain_runs l → free_winners (object_values pm).
Proof.
  intros Hpm Hl Hplain. apply Forall_forall. intros c Hc.
  destruct (object_values_own pm c (pm_nodup _ _ Hpm) Hc) as [key Hkey].
  apply Forall_forall. intros w (k & v & Hin & <- & _)%elem_of_winningServers.
  apply (elem_of_allScores pm l key) in Hin as (s & h & Hne & -> & ->); [|done|done].
  destruct (scored_server l key s (mean (rps_runs l key s h))) as (i & Hi & <-); [by exists h|].
  rewrite before_triple_label by auto. rewrite Forall_forall in Hl. apply (ri_server i). auto.
Qed.

(** The counts of the table are those of the performance map. *)
Lemma elem_of_counts pm s t :
  free_winners (object_values pm) →
  (s, t) ∈ entries (count_wins pm) ↔
  t = Count (wins s (object_values pm)) ∧ 0 < wins s (object_values pm).
Proof.
  intros Hf. destruct (count_wins_ok pm Hf) as [Hnd Hg]. rewrite entries_Permutation. split.
  - intros Hin%own_get_elem; [|done]. rewrite Hg in Hin. unfold count_cell in Hin.
    case_decide; simplify_eq. split; [done|lia].
  - intros [-> Hpos]. apply own_get_Some_elem. rewrite Hg. unfold count_cell. case_decide; [lia|done].
Qed.

Lemma counts_counted pm :
  free_winners (object_values pm) → (Z.of_nat (length pm) < 2 ^ 53)%Z →
  Forall (counted (2 ^ 53)) (entries (count_wins pm)).
Proof.
  intros Hf Hl. apply Forall_forall. intros [s t] [-> Hpos]%elem_of_counts; [|done].
  eexists. split; [done|]. pose proof (wins_le s (object_values pm)) as Hw.
  unfold object_values at 2 in Hw. rewrite length_map, entries_Permutation in Hw. lia.
Qed.

Lemma counts_keys_NoDup pm :
  free_winners (object_values pm) → NoDup (sort_by wins_cmp (entries (count_wins pm))).*1.
Proof.
  intros Hf. rewrite sort_by_Permutation, entries_Permutation. by apply count_wins_ok.
Qed.

(** ** Main theorems *)

(** C12: a server is credited with a configuration exactly when one of its
    per-protocol averages of requests per second over its own runs of that
    configuration is not exceeded by any average of any server; ties credit every
    tied server.  The averages are those of the runs of the selected CPU and group. *)
Theorem winners_have_best_average items c g key s :
  let l := ranked_items items c g in
  Forall rank_item l → plain_runs l →
  (∀ srv w, scored l key srv w → is_nan w = false) →
  ∃ pm, performance_map items c g = Ok pm ∧
    ∀ row, own_get pm key = Some row →
      s ∈ winningServers (allScores row) ↔ wins_config l key s.
Proof.
  intros l Hr Hp Hn. destruct (performance_map_ok items c g Hr) as (pm & E & Hpm & _).
  exists pm. split; [done|]. intros row Hrow. by apply (winners_ok pm).
Qed.

(** C13: the table of top performers is the ranking it claims to be: at most
    eight distinct servers, each with the number of configurations it wins, at
    least one, in descending order, and a winning server that is not listed has no
    more wins than any of the eight listed ones. *)
Theorem topPerformers_ranking items i0 rest c :
  let l := ranked_items items c (group i0) in
  truthy (group i0) = true → Forall rank_item l → plain_runs l →
  (Z.of_nat (length items) < 2 ^ 53)%Z →
  ∃ pm top, performance_map items c (group i0) = Ok pm ∧
    topPerformers items (i0 :: rest) c = Ok top ∧
    let w s := wins s (object_values pm) in
    length top ≤ 8 ∧ NoDup top.*1 ∧
    StronglySorted (λ a b, count_of b ≤ count_of a) top ∧
    (∀ s t, (s, t) ∈ top → t = Count (w s) ∧ 0 < w s) ∧
    (∀ s, 0 < w s → s ∉ top.*1 →
       length top = 8 ∧ Forall (λ e, w s ≤ count_of e) top).
Proof.
  intros l Hg Hr Hp Hlen. destruct (performance_map_ok items c (group i0) Hr) as (pm & E & Hpm & Hl).
  pose proof (free_winners_ok pm l Hpm Hr Hp) as Hf.
  pose proof (counts_counted pm Hf ltac:(lia)) as Hc. pose proof (wins_sorted _ Hc) as Hs.
  pose proof (counts_keys_NoDup pm Hf) as Hnd.
  pose proof (λ s t, elem_of_counts pm s t Hf) as Hin.
  setoid_rewrite <- (elem_of_sort_by wins_cmp) in Hin.
  exists pm, (take 8 (sort_by wins_cmp (entries (count_wins pm)))).
  split; [done|]. split; [unfold topPerformers; by rewrite Hg, E|].
  set (srt := sort_by wins_cmp (entries (count_wins pm))) in *. split_and!.
  - rewrite length_take. lia.
  - rewrite fmap_take. eapply sublist_NoDup; [done|apply sublist_take].
  - rewrite <- (take_drop 8 srt) in Hs. by apply StronglySorted_app in Hs as (_ & ? & _).
  - intros s t Hst. apply Hin. by apply (subseteq_take 8).
  - intros s Hpos Hns. apply (take_dominates count_of 8 srt (s, Count (wins s (object_values pm))));
      [done|by apply Hin|]. intros Ht. apply Hns. by apply (list_elem_of_fmap_2 fst) in Ht.
Qed.

(** The label [server___protocol] is cut at the first triple underscore, so a
    server whose name ends in an underscore and has the only, hence best, score of
    a configuration is credited under a name that is not its own. *)
Lemma trailing_underscore_miscredited s v :
  plain_name s → is_nan v = false →
  winningServers [((s +:+ "_") +:+ "___true", v)] = [s] ∧ s ≠ s +:+ "_".
Proof.
  intros Hs Hv. split; [|intros E; by apply (string_app_ne s "_")].
  unfold winningServers. cbn [fmap list_fmap snd].
  destruct (math_max_spec [v]) as [->%list_elem_of_singleton _]; [done|by constructor|].
  cbn [List.filter snd].
  rewrite (proj2 (nstrict_eq_cmp v v Hv Hv)) by (apply (cmp_refl not_nan num_cmp v Hv)).
  cbn [map fst].
  assert ((s +:+ "_") +:+ "___true" = s +:+ "___" +:+ "_true") as ->.
  { clear. induction s as [|a s IH]; [done|]. exact (f_equal (String a) IH). }
  by rewrite before_triple_label.
Qed.

(** ** Witnesses *)

Definition rank_item_b (i : Item) : bool :=
  bool_decide (is_Some (results i)) && is_boolean (http2 i)
  && negb (reserved (to_string (server i))) && negb (reserved (config_key i)).

Lemma rank_item_b_ok l : forallb rank_item_b l = true → Forall rank_item l.
Proof.
  rewrite forallb_forall, Forall_forall. intros H i Hi. apply list_elem_of_In in Hi.
  specialize (H i Hi). unfold rank_item_b in H. breflect.
  split; [done| |done..]. destruct (http2 i); try done. eauto.
Qed.

Definition plain_b (i : Item) : bool := bool_decide (plain_name (to_string (server i))).

Lemma plain_runs_ok l : forallb plain_b l = true → plain_runs l.
Proof.
  rewrite forallb_forall. intros H i Hi. apply list_elem_of_In in Hi.
  specialize (H i Hi). unfold plain_b in H. by breflect.
Qed.

(** Averages of a concrete list are numbers when those of its servers are. *)
Lemma scored_numbers l key :
  forallb (λ i, let s := to_string (server i) in
     negb (is_nan (mean (rps_runs l key s true))) || bool_decide (rps_runs l key s true = [])) l
  && forallb (λ i, let s := to_string (server i) in
     negb (is_nan (mean (rps_runs l key s false))) || bool_decide (rps_runs l key s false = [])) l
  = true →
  ∀ srv w, scored l key srv w → is_nan w = false.
Proof.
  rewrite andb_true_iff, !forallb_forall. intros [Ht Hf] srv w Hsc.
  destruct (scored_server _ _ _ _ Hsc) as (i & Hi & <-). apply list_elem_of_In in Hi.
  destruct Hsc as (h & Hne & ->). specialize (Ht i Hi). specialize (Hf i Hi).
  apply negb_true_iff. destruct h; [destruct (orb_prop _ _ Ht)|destruct (orb_prop _ _ Hf)];
    try done; by breflect.
Qed.

Definition rack_items : list Item := ranked_items sample_items (PStr "apple_m1_pro") (PStr "rack").

Lemma rack_items_ranked : Forall rank_item rack_items.
Proof. apply rank_item_b_ok. by vm_compute. Qed.

Lemma rack_items_plain : plain_runs rack_items.
Proof. apply plain_runs_ok. by vm_compute. Qed.

Lemma winners_have_best_average_witness :
  ∃ pm, performance_map sample_items (PStr "apple_m1_pro") (PStr "rack") = Ok pm ∧
    ∀ row, own_get pm "chunked_1_1_10" = Some row →
      "agoo" ∈ winningServers (allScores row) ↔ wins_config rack_items "chunked_1_1_10" "agoo".
Proof.
  apply (winners_have_best_average sample_items (PStr "apple_m1_pro") (PStr "rack")
    "chunked_1_1_10" "agoo").
  - apply rack_items_ranked.
  - apply rack_items_plain.
  - apply scored_numbers. by vm_compute.
Defined.

Lemma topPerformers_ranking_witness :
  ∃ pm top, performance_map sample_items (PStr "apple_m1_pro") (group agoo_item) = Ok pm ∧
    topPerformers sample_items [agoo_item] (PStr "apple_m1_pro") = Ok top ∧
    let w s := wins s (object_values pm) in
    length top ≤ 8 ∧ NoDup top.*1 ∧
    StronglySorted (λ a b, count_of b ≤ count_of a) top ∧
    (∀ s t, (s, t) ∈ top → t = Count (w s) ∧ 0 < w s) ∧
    (∀ s, 0 < w s → s ∉ top.*1 →
       length top = 8 ∧ Forall (λ e, w s ≤ count_of e) top).
Proof.
  apply (topPerformers_ranking sample_items agoo_item [] (PStr "apple_m1_pro")).
  - done.
  - apply rack_items_ranked.
  - apply rack_items_plain.
  - by vm_compute.
Defined.

Lemma trailing_underscore_miscredited_witness :
  winningServers [("puma" +:+ "_" +:+ "___true", of_Z 100)] = ["puma"] ∧ "puma" ≠ "puma" +:+ "_".
Proof.
  apply (trailing_underscore_miscredited "puma" (of_Z 100));
    [apply (bool_decide_unpack _); by vm_compute|done].
Defined.

(** The table of the sample data's rack group. *)
Example sample_top :
  topPerformers sample_items [agoo_item] (PStr "apple_m1_pro")
  = Ok [("agoo", Count 2); ("itsi", Count 1)].
Proof. by vm_compute. Qed.
