(* ===== verification/DashboardState.v ===== *)
(** * The dashboard as a state machine

    The state [BenchmarkDashboard] keeps ([useState]), its event handlers
    ([handleFilterChange], [handleLegendClick], [handleChartHover]) and its four
    effects, composed as React composes them: a handler sets state, the component
    renders, and the effects whose dependencies changed run in source order on the
    values of that render; state they set is rendered next.

    - effect 1 writes the filters to the URL when the filters change;
    - effect 2 reads the URL once the data is there;
    - effect 3 repairs the selection when the CPU or the options change, and the
      options change with the CPU and the test case;
    - effect 4 writes filters and visible servers to the URL when either changes. *)

From Stdlib Require Import SpecFloat.
From S2P Require Import Prelude JsSort JsNumber JsText JsValue UrlParams BenchmarkData SampleData Filters ChartData ChartSpec.

#[local] Open Scope js_scope.

Record Dash := {
  filters : FilterState;
  visibleServers : obj bool;
  hover : HoverState;
  win : location;
}.

(** ** Handlers *)

(** The keys [handleFilterChange] is called with. *)
Inductive filter_key := KCpu | KTestCase | KThreads | KWorkers | KConcurrency | KHttp2 | KXAxis | KMetric.

(** [setFilters((prev) => ({ ...prev, [key]: value }))]. *)
Definition handleFilterChange (key : filter_key) (value : prim) (prev : FilterState) : FilterState :=
  {| f_cpu := match key with KCpu => value | _ => f_cpu prev end;
     f_testCase := match key with KTestCase => value | _ => f_testCase prev end;
     f_threads := match key with KThreads => value | _ => f_threads prev end;
     f_workers := match key with KWorkers => value | _ => f_workers prev end;
     f_concurrency := match key with KConcurrency => value | _ => f_concurrency prev end;
     f_http2 := match key with KHttp2 => value | _ => f_http2 prev end;
     f_xAxis := match key with KXAxis => value | _ => f_xAxis prev end;
     f_metric := match key with KMetric => value | _ => f_metric prev end;
     f_visibleServers := f_visibleServers prev |}.

(** [handleLegendClick(server, event)].  The plain click builds
    [{...prev, [server]: !prev[server]}], whose computed key defines an own
    property whatever its name; the exclusive click assigns to a fresh object. *)
Definition handleLegendClick (servers : list prim) (server_name : prim) (ctrlKey metaKey : bool)
    (prev : obj bool) : obj bool :=
  let isExclusiveMode := ctrlKey || metaKey in
  if isExclusiveMode then
    foldl (λ m s, obj_set m (to_string s) (strict_eq s server_name)) [] servers
  else obj_define (entries prev) (to_string server_name) (negb (is_visible prev server_name)).

(** [Object.keys(visibleServers).filter((server) => visibleServers[server])]. *)
Definition visibleServersForUrl (visible : obj bool) : list prim :=
  PStr <$> List.filter (λ k, is_visible visible (PStr k)) (object_keys visible).

(** [{ ...filters, visibleServers: vs }]. *)
Definition with_visible (f : FilterState) (vs : list prim) : FilterState :=
  {| f_cpu := f_cpu f; f_testCase := f_testCase f; f_threads := f_threads f;
     f_workers := f_workers f; f_concurrency := f_concurrency f; f_http2 := f_http2 f;
     f_xAxis := f_xAxis f; f_metric := f_metric f; f_visibleServers := vs |}.

(** ** Effects *)

Definition url_effect (f : FilterState) (loc : location) : location :=
  default loc (updateUrlParams f (Some loc)).

(** Effect 4, on the values of one render. *)
Definition url_effect_visible (f : FilterState) (visible : obj bool) (loc : location) : location :=
  url_effect (with_visible f (visibleServersForUrl visible)) loc.

(** Effect 2: the filters and the visible servers it sets, if any. *)
Definition load_effect (o : FilterOptions) (loc : location) : option (FilterState * obj bool) :=
  if bool_decide (o_cpus o = []) then None
  else match parseUrlParams (Some loc) with
       | Some urlFilters =>
           Some (validateAndSanitizeFilters o urlFilters, visible_from_url o (Some urlFilters))
       | None => None
       end.

(** The values effect 3 depends on, as its dependency list sees them. *)
Definition deps (f : FilterState) : prim * prim := (f_cpu f, f_testCase f).

Section Dashboard.
Variable items : list Item.
Variable o : FilterOptions.

(** Renders and effects after the filters were set, until no effect sets state;
    [ran] are the dependencies effect 3 last ran with. *)
Fixpoint flush (fuel : nat) (ran : prim * prim) (d : Dash) : Dash :=
  let loc1 := url_effect (filters d) (win d) in
  let loc2 := url_effect_visible (filters d) (visibleServers d) loc1 in
  if bool_decide (deps (filters d) = ran) then
    {| filters := filters d; visibleServers := visibleServers d; hover := hover d; win := loc2 |}
  else
    let next := {| filters := repair items (o_cpus o) (filters d);
                   visibleServers := visibleServers d; hover := hover d; win := loc2 |} in
    match fuel with
    | 0 => next
    | S n => flush n (deps (filters d)) next
    end.

(** First render at a location, its four effects, and what they cause. *)
Definition mount (loc : location) : Dash :=
  let f0 := initial_filters o (Some loc) in
  let v0 := initial_visible o (Some loc) in
  let loc1 := url_effect f0 loc in
  let loaded := default (f0, v0) (load_effect o loc1) in
  let f1 := fix_filters (current_options items (o_cpus o) f0) loaded.1 in
  let loc2 := url_effect_visible f0 v0 loc1 in
  flush 2 (deps f0)
    {| filters := f1; visibleServers := loaded.2; hover := no_hover; win := loc2 |}.

(** What a user can do. *)
Inductive action :=
  | FilterChange (key : filter_key) (value : prim)
  | LegendClick (server_name : prim) (ctrlKey metaKey : bool)
  | ChartHover (activePayload : option (string * point)).

Definition dispatch (a : action) (d : Dash) : Dash :=
  match a with
  | FilterChange key value =>
      flush 2 (deps (filters d))
        {| filters := handleFilterChange key value (filters d);
           visibleServers := visibleServers d; hover := hover d; win := win d |}
  | LegendClick server_name ctrlKey metaKey =>
      let v := handleLegendClick (o_servers o) server_name ctrlKey metaKey (visibleServers d) in
      {| filters := filters d; visibleServers := v; hover := hover d;
         win := url_effect_visible (filters d) v (win d) |}
  | ChartHover payload =>
      {| filters := filters d; visibleServers := visibleServers d;
         hover := handleChartHover payload; win := win d |}
  end.

(** The values the controls of the page offer in a state. *)
Inductive offered_action (d : Dash) : action → Prop :=
  | offer_cpu v : v ∈ o_cpus o → offered_action d (FilterChange KCpu v)
  | offer_test v : v ∈ o_testCases (current_options items (o_cpus o) (filters d)) →
      offered_action d (FilterChange KTestCase v)
  | offer_threads v : offered (o_threads (current_options items (o_cpus o) (filters d))) (int 1) v →
      offered_action d (FilterChange KThreads v)
  | offer_workers v : offered (o_workers (current_options items (o_cpus o) (filters d))) (int 1) v →
      offered_action d (FilterChange KWorkers v)
  | offer_concurrency v :
      offered (o_concurrencyLevels (current_options items (o_cpus o) (filters d))) (int 10) v →
      offered_action d (FilterChange KConcurrency v)
  | offer_http2 v : v ∈ o_http2Options (current_options items (o_cpus o) (filters d)) →
      offered_action d (FilterChange KHttp2 v)
  | offer_axis v : v ∈ x_axes → offered_action d (FilterChange KXAxis v)
  | offer_metric v : v ∈ metrics → offered_action d (FilterChange KMetric v)
  | offer_legend s c m : s ∈ o_servers (current_options items (o_cpus o) (filters d)) →
      offered_action d (LegendClick s c m)
  | offer_hover p : offered_action d (ChartHover p).

Inductive reachable : Dash → Prop :=
  | reach_mount loc : reachable (mount loc)
  | reach_step d a : reachable d → offered_action d a → reachable (dispatch a d).
End Dashboard.

(** ** The effects come to rest *)

Section Settling.
Context (items : list Item) (o : FilterOptions).
Abbreviation R := (repair items (o_cpus o)).

Lemma repair_same_deps f : deps (R f) = deps f → R (R f) = R f.
Proof.
  intros H. apply (f_equal snd) in H. cbn [deps snd] in H.
  unfold repair at 1. unfold current_options. rewrite H, repair_cpu. apply fix_filters_idem.
Qed.

Lemma deps_repair_twice f : deps (R (R f)) = deps (R f).
Proof. unfold deps. by rewrite repair_testCase. Qed.

Lemma flush_visible n ran d : visibleServers (flush items o n ran d) = visibleServers d.
Proof.
  revert ran d. induction n as [|n IH]; intros ran d; simpl; case_bool_decide; try done.
  by rewrite IH.
Qed.

Lemma flush_hover n ran d : hover (flush items o n ran d) = hover d.
Proof.
  revert ran d. induction n as [|n IH]; intros ran d; simpl; case_bool_decide; try done.
  by rewrite IH.
Qed.

(** At most two runs of the repair effect: the filters after the effects. *)
Lemma flush_filters n ran d :
  filters (flush items o (S (S n)) ran d)
  = if bool_decide (deps (filters d) = ran) then filters d else R (R (filters d)).
Proof.
  cbn [flush filters visibleServers hover win]. case_bool_decide as E1; [done|].
  case_bool_decide as E2; [cbn [filters]; by rewrite repair_same_deps|].
  assert (E3 := deps_repair_twice (filters d)).
  destruct n; simpl; by rewrite bool_decide_true.
Qed.

Lemma flush_fuel n ran d : flush items o (S (S n)) ran d = flush items o 2 ran d.
Proof.
  cbn [flush filters visibleServers hover win]. case_bool_decide as E1; [done|].
  case_bool_decide as E2; [done|].
  assert (E3 := deps_repair_twice (filters d)).
  destruct n; simpl; by rewrite bool_decide_true.
Qed.

(** The last write to the URL is that of the final filters and visibility. *)
Definition in_sync (d : Dash) : Prop :=
  ∃ base, win d = url_effect_visible (filters d) (visibleServers d) base.

Lemma flush_in_sync n ran d : in_sync (flush items o (S (S n)) ran d).
Proof.
  rewrite flush_fuel. unfold in_sync. cbn [flush filters visibleServers hover win].
  case_bool_decide as E1; [eexists; done|]. case_bool_decide as E2; [eexists; done|].
  assert (E3 := deps_repair_twice (filters d)). rewrite bool_decide_true by done.
  eexists. done.
Qed.

Lemma dispatch_in_sync a d : in_sync d → in_sync (dispatch items o a d).
Proof.
  intros Hd. destruct a; cbn [dispatch]; [apply flush_in_sync|by eexists|].
  destruct Hd as [base Hb]. by exists base.
Qed.

Lemma reachable_in_sync d : reachable items o d → in_sync d.
Proof. induction 1; [apply flush_in_sync|by apply dispatch_in_sync]. Qed.
End Settling.

(** ** Well-typed selections *)

Definition text (v : prim) : Prop := ∃ s, v = PStr s.

(** Every field has a value of the right kind, so that writing the URL and
    rendering cannot throw. *)
Record typed_filters (f : FilterState) : Prop := {
  t_cpu : text (f_cpu f); t_testCase : text (f_testCase f);
  t_threads : pos_int (f_threads f); t_workers : pos_int (f_workers f);
  t_concurrency : pos_int (f_concurrency f);
  t_http2 : f_http2 f = PStr "all" ∨ ∃ b, f_http2 f = PBool b;
  t_xAxis : f_xAxis f ∈ x_axes; t_metric : f_metric f ∈ metrics;
}.

Lemma name_text v : name v → text v.
Proof. intros (s & _ & ->). by exists s. Qed.

Lemma offered_text l v : Forall name l → offered l (PStr "") v → text v.
Proof.
  intros Hl [Hv|[_ ->]]; [|by eexists]. rewrite Forall_forall in Hl. auto using name_text.
Qed.

Lemma valid_typed o f : opts_ok o → valid_filters o f → typed_filters f.
Proof.
  intros Ho Hf. destruct (valid_toString o f Ho Hf) as (? & ? & ? & _).
  split; try done; try apply Hf.
  - apply (offered_text (o_cpus o)); [apply Ho|apply Hf].
  - apply (offered_text (o_testCases o)); [apply Ho|apply Hf].
  - by apply (http2_elem o); [|apply Hf].
Qed.

Lemma fix_number_pos ax l z x v :
  Forall pos_int l → (0 < Z.of_N z < 2 ^ 53)%Z → pos_int v → pos_int (fix_number ax l (int z) x v).
Proof.
  intros Hl Hz Hv. unfold fix_number. case_match; [|done].
  destruct Hl as [|w l Hw _]; [by exists (Z.of_N z)|].
  change (first (w :: l)) with w. unfold js_or. by rewrite (pos_int_good w Hw : truthy w = true).
Qed.

Lemma fix_filters_typed fo f : opts_ok fo → typed_filters f → typed_filters (fix_filters fo f).
Proof.
  intros Ho [H1 H2 H3 H4 H5 H6 H7 H8].
  split; cbn [fix_filters f_cpu f_testCase f_threads f_workers f_concurrency f_http2 f_xAxis f_metric];
    try done.
  - case_match; [|done]. apply (offered_text (o_testCases fo)); [apply Ho|].
    apply first_offered. apply Forall_name_good, Ho.
  - apply fix_number_pos; [apply Ho|lia|done].
  - apply fix_number_pos; [apply Ho|lia|done].
  - apply fix_number_pos; [apply Ho|lia|done].
  - case_match; [|done]. destruct (ok_http2 _ Ho) as (l & -> & _). by left.
Qed.

Lemma handleFilterChange_typed key v f :
  typed_filters f →
  match key with
  | KCpu | KTestCase => text v
  | KThreads | KWorkers | KConcurrency => pos_int v
  | KHttp2 => v = PStr "all" ∨ ∃ b, v = PBool b
  | KXAxis => v ∈ x_axes
  | KMetric => v ∈ metrics
  end → typed_filters (handleFilterChange key v f).
Proof. intros [] Hv. destruct key; split; done. Qed.
