(* ===== verification/Session.v ===== *)
(** * Sessions of the dashboard

    Invariants of the state machine of [DashboardState] over everything a user can
    do: selections stay well typed, the address bar always shows the current
    selection and visible servers, the legend does what its title says, and a
    reload restores the session. *)

From Stdlib Require Import SpecFloat.
From S2P Require Import Prelude JsSort JsNumber JsText JsValue UrlParams BenchmarkData SampleData Filters ChartData ChartSpec DashboardState.

#[local] Open Scope js_scope.

Implicit Types (i j : Item).

(** ** Visibility maps *)

Lemma own_get_entries {A} (m : obj A) k : NoDup (keys m) → own_get (entries m) k = own_get m k.
Proof.
  intros Hnd. assert (Hnd' : NoDup (keys (entries m))).
  { unfold keys. by rewrite entries_Permutation. }
  apply option_eq. intros v. split; intros H.
  - apply own_get_elem; [done|]. rewrite <- (entries_Permutation m). by apply own_get_Some_elem.
  - apply own_get_elem; [done|]. rewrite entries_Permutation. by apply own_get_Some_elem.
Qed.

Lemma keys_entries_elem {A} (m : obj A) k : k ∈ keys (entries m) ↔ k ∈ keys m.
Proof. unfold keys. by rewrite entries_Permutation. Qed.

Lemma keys_entries_NoDup {A} (m : obj A) : NoDup (keys m) → NoDup (keys (entries m)).
Proof. intros. unfold keys. by rewrite entries_Permutation. Qed.

Lemma is_visible_own v k b : own_get v k = Some b → is_visible v (PStr k) = b.
Proof. intros H. unfold is_visible, obj_get. cbn [to_string]. by rewrite H. Qed.

(** Two maps with the same own properties show the same servers. *)
Lemma is_visible_ext v w k : own_get v k = own_get w k → is_visible v (PStr k) = is_visible w (PStr k).
Proof. intros H. unfold is_visible, obj_get. cbn [to_string]. by rewrite H. Qed.

(** A server name that can be assigned as a property. *)
Definition free_name (v : prim) : Prop := ∃ s, v = PStr s ∧ reserved s = false.

Lemma mark_servers_own servers vis m :
  Forall free_name servers →
  (∀ s, PStr s ∈ servers → own_get (mark_servers servers vis m) s = Some (vis (PStr s))) ∧
  (∀ s, PStr s ∉ servers → own_get (mark_servers servers vis m) s = own_get m s).
Proof.
  intros H. unfold mark_servers. revert m. induction H as [|v l (t & -> & Ht) Hl IH]; intros m; simpl.
  { split; [intros s Hs; by apply elem_of_nil in Hs|done]. }
  rewrite obj_set_define by done. destruct (IH (obj_define m t (vis (PStr t)))) as [IH1 IH2]. split.
  - intros s Hs. destruct (decide (PStr s ∈ l)); [auto|]. rewrite IH2 by done.
    apply elem_of_cons in Hs as [[= ->]|?]; [|done]. apply own_get_define_eq.
  - intros s Hs. rewrite elem_of_cons in Hs. rewrite IH2 by tauto.
    apply own_get_define_ne. intros ->. tauto.
Qed.

Lemma mark_servers_keys servers vis m :
  Forall free_name servers → NoDup (keys m) →
  NoDup (keys (mark_servers servers vis m)) ∧
  ∀ k, k ∈ keys (mark_servers servers vis m) ↔ PStr k ∈ servers ∨ k ∈ keys m.
Proof.
  intros H. unfold mark_servers. revert m. induction H as [|v l (t & -> & Ht) Hl IH]; intros m Hm; simpl.
  { split; [done|]. set_solver. }
  rewrite obj_set_define by done.
  destruct (IH (obj_define m t (vis (PStr t)))) as [IH1 IH2]; [by apply NoDup_keys_define|].
  split; [done|]. intros k. rewrite IH2, elem_of_keys_define, elem_of_cons.
  split; [intros [?|[->|?]]|intros [[[= ->]|?]|?]]; auto.
Qed.

(** The map has one entry per server of the data. *)
Definition vis_ok (servers : list prim) (v : obj bool) : Prop :=
  NoDup (keys v) ∧ ∀ k, k ∈ keys v ↔ PStr k ∈ servers.

Lemma mark_vis_ok servers vis : Forall free_name servers → vis_ok servers (mark_servers servers vis []).
Proof.
  intros H. destruct (mark_servers_keys servers vis [] H) as [H1 H2]; [constructor|].
  split; [done|]. intros k. rewrite H2. set_solver.
Qed.

Lemma visible_from_url_ok o u : Forall free_name (o_servers o) → vis_ok (o_servers o) (visible_from_url o u).
Proof.
  intros H. unfold visible_from_url. destruct u as [u|]; [|by apply mark_vis_ok].
  destruct (p_visibleServers u) as [l|]; [|by apply mark_vis_ok].
  destruct (mark_vis_ok (o_servers o) (λ _, true) H) as [Hnd Hk].
  destruct (mark_servers_keys (o_servers o) (includes l) _ H Hnd) as [H1 H2].
  split; [done|]. intros k. rewrite H2, Hk. tauto.
Qed.

Lemma toggle_own servers v s k :
  NoDup (keys v) →
  own_get (handleLegendClick servers (PStr s) false false v) k
  = if decide (s = k) then Some (negb (is_visible v (PStr s))) else own_get v k.
Proof.
  intros Hnd. unfold handleLegendClick. cbn [orb to_string].
  rewrite own_get_define. case_decide; [done|]. by apply own_get_entries.
Qed.

Lemma legend_vis_ok servers s c m v :
  Forall free_name servers → s ∈ servers → vis_ok servers v →
  vis_ok servers (handleLegendClick servers s c m v).
Proof.
  intros Hf Hs [Hnd Hk]. unfold handleLegendClick. destruct (c || m).
  { apply (mark_vis_ok servers (λ t, strict_eq t s) Hf). }
  rewrite Forall_forall in Hf. destruct (Hf s Hs) as (t & -> & _). cbn [to_string]. split.
  - by apply NoDup_keys_define, keys_entries_NoDup.
  - intros k. rewrite elem_of_keys_define, keys_entries_elem, Hk. split; [intros [->|?]|]; auto.
Qed.

(** The servers of the URL are those shown. *)
Lemma elem_of_visibleServersForUrl servers v k :
  vis_ok servers v →
  PStr k ∈ visibleServersForUrl v ↔ PStr k ∈ servers ∧ is_visible v (PStr k) = true.
Proof.
  intros [_ Hk]. unfold visibleServersForUrl. rewrite list_elem_of_fmap. split.
  - intros (t & [= <-] & [Hv Hin]%elem_of_lfilter). rewrite elem_of_object_keys, Hk in Hin. done.
  - intros [Hin Hv]. exists k. split; [done|]. apply elem_of_lfilter.
    by rewrite elem_of_object_keys, Hk.
Qed.

(** ** The data a session runs on *)

(** Well-formed data: named CPUs, tests and servers, positive integers. *)
Record world (cpus : list (option CpuData)) (o : FilterOptions) : Prop := {
  w_items : Forall item_ok (flattenedData (Arr cpus));
  w_cpus : Forall (λ c, truthy (cd_cpu c) = true → name (cd_cpu c)) (omap id cpus);
  w_opts : allFilterOptions (Arr cpus) = Ok o;
  w_servers : Forall free_name (o_servers o);
}.

(** The global options are those of the items, also for an empty array. *)
Lemma all_options cpus o :
  allFilterOptions (Arr cpus) = Ok o →
  let items := flattenedData (Arr cpus) in
  o_testCases o = distinct_truthy (λ i : Item, test_case i) items ∧
  o_servers o = distinct_truthy (λ i : Item, server i) items ∧
  o_threads o = distinct_numbers (λ i : Item, threads i) items ∧
  o_workers o = distinct_numbers (λ i : Item, workers i) items ∧
  o_concurrencyLevels o = distinct_numbers (λ i : Item, concurrency i) items ∧
  o_http2Options o = http2_options items.
Proof.
  destruct cpus as [|c cpus]; intros H; unfold allFilterOptions in H; [by simplify_eq|].
  destruct (cpu_names (c :: cpus)); [|done]. cbn [exc_bind] in H. by injection H as <-.
Qed.

Section World.
Context (cpus : list (option CpuData)) (o : FilterOptions) (W : world cpus o).

Abbreviation items := (flattenedData (Arr cpus)).
Abbreviation R := (repair items (o_cpus o)).
Abbreviation cur f := (current_options items (o_cpus o) f).

Lemma world_opts : opts_ok o.
Proof. destruct W as [H1 H2 H3 _]. by eapply allFilterOptions_ok. Qed.

Lemma cur_ok c t : opts_ok (filterOptions items (o_cpus o) c t).
Proof. apply filterOptions_ok; [apply W|apply world_opts]. Qed.

(** What is offered for a selection is offered by the data as a whole. *)
Lemma cur_sub f :
  o_testCases (cur f) ⊆ o_testCases o ∧ o_servers (cur f) ⊆ o_servers o ∧
  o_threads (cur f) ⊆ o_threads o ∧ o_workers (cur f) ⊆ o_workers o ∧
  o_concurrencyLevels (cur f) ⊆ o_concurrencyLevels o ∧ o_http2Options (cur f) ⊆ o_http2Options o.
Proof.
  destruct (all_options cpus o (w_opts _ _ W)) as (-> & -> & -> & -> & -> & ->).
  pose proof (selected_sub items (f_cpu f) (f_testCase f)) as Hs.
  split_and!; cbn [current_options filterOptions o_testCases o_servers o_threads o_workers
    o_concurrencyLevels o_http2Options].
  - apply distinct_truthy_mono. intros i [_ ?]%elem_of_lfilter. done.
  - by apply distinct_truthy_mono.
  - by apply distinct_numbers_mono.
  - by apply distinct_numbers_mono.
  - by apply distinct_numbers_mono.
  - unfold http2_options. intros v [->|Hv]%elem_of_cons; [by left|right].
    apply elem_of_new_set in Hv as (w & -> & [Hb (i & -> & Hi)%list_elem_of_fmap]%elem_of_lfilter).
    apply elem_of_new_set. exists (http2 i). split; [done|]. apply elem_of_lfilter.
    split; [done|]. apply list_elem_of_fmap. exists i. auto.
Qed.

(** *** Typed selections *)

Lemma repair_typed f : typed_filters f → typed_filters (R f).
Proof. apply fix_filters_typed, cur_ok. Qed.

Lemma flush_typed n ran d :
  typed_filters (filters d) → typed_filters (filters (flush items o (S (S n)) ran d)).
Proof. intros H. rewrite flush_filters. case_bool_decide; auto using repair_typed. Qed.

Lemma offered_pos l z v : Forall pos_int l → (0 < Z.of_N z < 2 ^ 53)%Z → offered l (int z) v → pos_int v.
Proof.
  intros Hl Hz [Hv|[_ ->]]; [|by exists (Z.of_N z)]. rewrite Forall_forall in Hl. auto.
Qed.

Lemma dispatch_typed a d :
  typed_filters (filters d) → offered_action items o d a →
  typed_filters (filters (dispatch items o a d)).
Proof.
  intros Hd Ha. pose proof (cur_ok (f_cpu (filters d)) (f_testCase (filters d))) as Hc.
  pose proof world_opts as Ho.
  inversion Ha; subst; cbn [dispatch]; try done; apply flush_typed;
    apply handleFilterChange_typed; try done; cbn beta iota.
  - apply name_text. pose proof (ok_cpus _ Ho) as Hn. rewrite Forall_forall in Hn. auto.
  - apply name_text. pose proof (ok_testCases _ Hc) as Hn. rewrite Forall_forall in Hn. auto.
  - eapply offered_pos; [apply (ok_threads _ Hc)| |done]; lia.
  - eapply offered_pos; [apply (ok_workers _ Hc)| |done]; lia.
  - eapply offered_pos; [apply (ok_concurrency _ Hc)| |done]; lia.
  - by apply (http2_elem _ _ Hc).
Qed.

Lemma loaded_valid f0 v0 loc :
  valid_filters o f0 → valid_filters o (default (f0, v0) (load_effect o loc)).1.
Proof.
  intros Hf. unfold load_effect. case_bool_decide; [done|].
  destruct (parseUrlParams (Some loc)); [|done]. apply validate_valid, world_opts.
Qed.

Lemma mount_typed loc : typed_filters (filters (mount items o loc)).
Proof.
  unfold mount. apply flush_typed. cbn [filters]. apply fix_filters_typed; [apply cur_ok|].
  apply (valid_typed o); [apply world_opts|]. apply loaded_valid, initial_valid, world_opts.
Qed.

Lemma reachable_typed d : reachable items o d → typed_filters (filters d).
Proof. induction 1; [apply mount_typed|by apply dispatch_typed]. Qed.

(** *** Visible servers *)

Lemma flush_vis n ran d :
  vis_ok (o_servers o) (visibleServers d) → vis_ok (o_servers o) (visibleServers (flush items o n ran d)).
Proof. by rewrite flush_visible. Qed.

Lemma reachable_vis d : reachable items o d → vis_ok (o_servers o) (visibleServers d).
Proof.
  induction 1 as [loc|d a Hd IH Ha].
  - unfold mount. apply flush_vis. cbn [visibleServers].
    unfold load_effect. case_bool_decide; [by apply visible_from_url_ok, W|].
    destruct (parseUrlParams (Some _)); by apply visible_from_url_ok, W.
  - inversion Ha; subst; cbn [dispatch]; try by apply flush_vis. 2: done.
    apply legend_vis_ok; [apply W| |done]. by apply cur_sub in H.
Qed.

(** *** The address bar *)

Lemma typed_params f vs p :
  typed_filters f →
  ∃ p', url_params_of p (with_visible f vs) = Ok p' ∧
    param_get p' "cpu" = Some (to_string (f_cpu f)) ∧
    param_get p' "testCase" = Some (to_string (f_testCase f)) ∧
    param_get p' "threads" = Some (to_string (f_threads f)) ∧
    param_get p' "workers" = Some (to_string (f_workers f)) ∧
    param_get p' "concurrency" = Some (to_string (f_concurrency f)) ∧
    param_get p' "http2" = Some (to_string (f_http2 f)) ∧
    param_get p' "xAxis" = Some (to_string (f_xAxis f)) ∧
    param_get p' "metric" = Some (to_string (f_metric f)) ∧
    param_get p' "visibleServers"
    = (if bool_decide (vs = []) then None else Some (join_prims vs)).
Proof.
  intros Hf. apply (url_params_of_ok p (with_visible f vs)); cbn [with_visible f_threads f_workers
    f_concurrency f_http2]; [apply pos_int_toString, Hf..|].
  destruct (t_http2 _ Hf) as [->|[b ->]]; done.
Qed.
End World.

(** ** Valid selections on complete data *)

(** Data without gaps: every listed CPU ran some named test, and every result says
    its threads, workers and concurrency. *)
Record complete (cpus : list (option CpuData)) (o : FilterOptions) : Prop := {
  c_tests : ∀ c, c ∈ o_cpus o → ∃ i : Item, i ∈ flattenedData (Arr cpus) ∧
              cpu i = c ∧ truthy (test_case i) = true;
  c_numbers : ∀ i : Item, i ∈ flattenedData (Arr cpus) →
    is_number (threads i) = true ∧ is_number (workers i) = true ∧ is_number (concurrency i) = true;
  c_some : o_cpus o ≠ [];
}.

Section Complete.
Context (cpus : list (option CpuData)) (o : FilterOptions) (W : world cpus o) (C : complete cpus o).

Abbreviation items := (flattenedData (Arr cpus)).
Abbreviation R := (repair items (o_cpus o)).
Abbreviation cur f := (current_options items (o_cpus o) f).

Lemma cpu_name c : c ∈ o_cpus o → name c.
Proof.
  intros Hc. pose proof (ok_cpus _ (world_opts cpus o W)) as H. rewrite Forall_forall in H. auto.
Qed.

Lemma tests_offered f : f_cpu f ∈ o_cpus o → o_testCases (cur f) ≠ [].
Proof.
  intros Hc. destruct (c_tests _ _ C _ Hc) as (i & Hi & Ec & Ht).
  destruct (cpu_name _ Hc) as (s & _ & Es).
  assert (test_case i ∈ o_testCases (cur f)) as Hin; [|by intros E; rewrite E in Hin; inversion Hin].
  apply elem_of_distinct_truthy'. split; [done|]. exists i. split; [|done].
  apply elem_of_lfilter. split; [|done]. rewrite Ec, Es. apply strict_eq_str_refl.
Qed.

Lemma numbers_nonempty (g : Item → prim) l :
  l ≠ [] → (∀ i, i ∈ l → is_number (g i) = true) → distinct_numbers g l ≠ [].
Proof.
  intros Hne Hg. destruct l as [|i l]; [done|].
  specialize (Hg i (list_elem_of_here i l)). destruct (g i) as [| | |n|] eqn:E; try done.
  assert (set_norm (PNum n) ∈ distinct_numbers g (i :: l)) as Hin.
  { apply elem_of_distinct_numbers. exists i, n. split; [by left|done]. }
  intros Ee. rewrite Ee in Hin. inversion Hin.
Qed.

(** An offered test case comes with offered numbers. *)
Lemma numbers_offered f :
  f_testCase f ∈ o_testCases (cur f) →
  o_threads (cur f) ≠ [] ∧ o_workers (cur f) ≠ [] ∧ o_concurrencyLevels (cur f) ≠ [].
Proof.
  intros Ht. pose proof Ht as (Htr & i & [Hc Hi]%elem_of_lfilter & E)%elem_of_distinct_truthy'.
  pose proof (ok_testCases _ (cur_ok cpus o W (f_cpu f) (f_testCase f))) as Hn.
  rewrite Forall_forall in Hn. destruct (Hn _ Ht) as (s & _ & Es).
  assert (Hsel : i ∈ selected items (f_cpu f) (f_testCase f)).
  { apply elem_of_selected. split_and!; [done|done|]. rewrite <- E, Es. apply strict_eq_str_refl. }
  assert (Hne : selected items (f_cpu f) (f_testCase f) ≠ []).
  { intros Ee. rewrite Ee in Hsel. inversion Hsel. }
  split_and!; apply numbers_nonempty; try done; intros j Hj%selected_sub; by apply (c_numbers _ _ C j Hj).
Qed.

(** The invariant: valid for the data as a whole, and the test case is one of the
    selected CPU's. *)
Definition session_ok (f : FilterState) : Prop :=
  valid_filters o f ∧ f_testCase f ∈ o_testCases (cur f).

Lemma fix_number_axis ax l d v : fix_number ax l d (PStr ax) v = v.
Proof. unfold fix_number. by rewrite strict_eq_str_refl. Qed.

Lemma elem_of_offered l d v : v ∈ l → offered l d v.
Proof. by left. Qed.

(** A field that is either fixed by the repair or kept because it is on the axis. *)
Lemma fixed_field (ax : string) (axis : prim) (lc lg : list prim) (d v v0 : prim) :
  (axis ≠ PStr ax → offered lc d v) → (axis = PStr ax → v = v0) →
  lc ≠ [] → lc ⊆ lg → offered lg d v0 → offered lg d v.
Proof.
  intros H1 H2 Hne Hsub Hv0. destruct (decide (axis = PStr ax)) as [E|E]; [by rewrite H2|].
  left. apply Hsub. by apply (offered_nonempty lc d); [|apply H1].
Qed.

(** A selection the repair leaves alone satisfies the invariant, when its fields on
    the axis, its CPU, metric and servers come from a valid one. *)
Lemma fixed_session f g :
  valid_filters o f → f_cpu g ∈ o_cpus o → fix_filters (cur g) g = g →
  f_xAxis g ∈ x_axes → f_metric g ∈ metrics → f_visibleServers g ⊆ o_servers o →
  (f_xAxis g = PStr "threads" → f_threads g = f_threads f) →
  (f_xAxis g = PStr "workers" → f_workers g = f_workers f) →
  (f_xAxis g = PStr "concurrency" → f_concurrency g = f_concurrency f) →
  session_ok g.
Proof.
  intros Hf Hc Hfix Hx Hm Hv A1 A2 A3.
  destruct (fixed_offered _ _ (cur_ok cpus o W (f_cpu g) (f_testCase g)) Hfix)
    as (F1 & F2 & F3 & F4 & F5).
  fold (cur g) in F1, F2, F3, F4, F5.
  assert (Ht : f_testCase g ∈ o_testCases (cur g)).
  { apply (offered_nonempty _ (PStr "")); [by apply tests_offered|done]. }
  destruct (numbers_offered g Ht) as (N1 & N2 & N3).
  destruct (cur_sub cpus o W g) as (S1 & _ & S3 & S4 & S5 & S6).
  split; [|done]. split; try done.
  - by left.
  - left. auto.
  - by eapply (fixed_field "threads"); [..|apply Hf].
  - by eapply (fixed_field "workers"); [..|apply Hf].
  - by eapply (fixed_field "concurrency"); [..|apply Hf].
  - auto.
Qed.

Lemma cur_deps f g : deps f = deps g → cur f = cur g.
Proof. intros [= E1 E2]. unfold current_options. by rewrite E1, E2. Qed.

Lemma valid_cpu f : valid_filters o f → f_cpu f ∈ o_cpus o.
Proof. intros Hf. eapply offered_nonempty; [apply C|apply Hf]. Qed.

(** Two runs of the repair from any selection with a valid axis field. *)
Lemma repaired_session f g :
  valid_filters o f → f_cpu g ∈ o_cpus o → f_xAxis g ∈ x_axes → f_metric g ∈ metrics →
  f_visibleServers g ⊆ o_servers o →
  f_threads g = f_threads f → f_workers g = f_workers f → f_concurrency g = f_concurrency f →
  session_ok (R (R g)).
Proof.
  intros Hf Hc Hx Hm Hv A1 A2 A3. apply (fixed_session f); try done.
  - apply repair_twice.
  - unfold repair, fix_filters. cbn [f_xAxis f_threads]. intros ->. by rewrite !fix_number_axis.
  - unfold repair, fix_filters. cbn [f_xAxis f_workers]. intros ->. by rewrite !fix_number_axis.
  - unfold repair, fix_filters. cbn [f_xAxis f_concurrency]. intros ->. by rewrite !fix_number_axis.
Qed.

Lemma mount_session loc : session_ok (filters (mount items o loc)).
Proof.
  unfold mount. rewrite flush_filters. cbn [filters].
  set (f0 := initial_filters o (Some loc)).
  set (l := default _ _).
  assert (Hl : valid_filters o l.1).
  { apply (loaded_valid cpus o W), initial_valid, (world_opts cpus o W). }
  set (f1 := fix_filters (cur f0) l.1). case_bool_decide as E.
  - apply (fixed_session l.1 f1); try done; try apply Hl; [by apply (valid_cpu l.1)|..].
    + rewrite (cur_deps f1 f0 E). apply fix_filters_idem.
    + unfold f1, fix_filters. cbn [f_xAxis f_threads]. intros ->. by rewrite fix_number_axis.
    + unfold f1, fix_filters. cbn [f_xAxis f_workers]. intros ->. by rewrite fix_number_axis.
    + unfold f1, fix_filters. cbn [f_xAxis f_concurrency]. intros ->. by rewrite fix_number_axis.
  - apply (fixed_session l.1); try done; try apply Hl; [by apply (valid_cpu l.1)|..].
    + apply repair_twice.
    + unfold f1, repair, fix_filters. cbn [f_xAxis f_threads]. intros ->. by rewrite !fix_number_axis.
    + unfold f1, repair, fix_filters. cbn [f_xAxis f_workers]. intros ->. by rewrite !fix_number_axis.
    + unfold f1, repair, fix_filters. cbn [f_xAxis f_concurrency]. intros ->.
      by rewrite !fix_number_axis.
Qed.

Lemma handleFilterChange_session key v d :
  session_ok (filters d) → offered_action items o d (FilterChange key v) →
  deps (handleFilterChange key v (filters d)) = deps (filters d) →
  session_ok (handleFilterChange key v (filters d)).
Proof.
  intros [Hf Ht] Ha Hd.
  split; [|rewrite (cur_deps _ _ Hd); apply (f_equal snd) in Hd; cbn [deps snd] in Hd; by rewrite Hd].
  destruct (numbers_offered _ Ht) as (N1 & N2 & N3).
  destruct (cur_sub cpus o W (filters d)) as (_ & _ & S3 & S4 & S5 & S6).
  pose proof Hf as [V1 V2 V3 V4 V5 V6 V7 V8 V9].
  inversion Ha; subst; split; cbn [handleFilterChange f_cpu f_testCase f_threads f_workers
    f_concurrency f_http2 f_xAxis f_metric f_visibleServers]; try done.
  - by left.
  - injection Hd as ->. done.
  - left. apply S3. by eapply offered_nonempty.
  - left. apply S4. by eapply offered_nonempty.
  - left. apply S5. by eapply offered_nonempty.
  - by apply S6.
Qed.

Lemma dispatch_session a d :
  session_ok (filters d) → offered_action items o d a → session_ok (filters (dispatch items o a d)).
Proof.
  intros Hs Ha. destruct a as [key v| |]; [|done|done]. cbn [dispatch].
  rewrite flush_filters. cbn [filters]. case_bool_decide as E; [by apply handleFilterChange_session|].
  destruct Hs as [Hf Ht]. pose proof Hf as [V1 V2 V3 V4 V5 V6 V7 V8 V9].
  inversion Ha; subst; try by destruct E.
  - by apply (repaired_session (filters d)).
  - apply (repaired_session (filters d)); try done. by apply (valid_cpu (filters d)).
Qed.

Lemma reachable_session d : reachable items o d → session_ok (filters d).
Proof. induction 1; [apply mount_session|by apply dispatch_session]. Qed.
End Complete.

(** ** Reloading *)

Lemma repair_with_visible items cs f vs :
  repair items cs (with_visible f vs) = with_visible (repair items cs f) vs.
Proof. done. Qed.

Lemma with_visible_valid o f vs :
  valid_filters o f → vs ⊆ o_servers o → valid_filters o (with_visible f vs).
Proof. intros [] Hvs. by split. Qed.

Lemma url_effect_Some f loc : Some (url_effect f loc) = updateUrlParams f (Some loc).
Proof. unfold url_effect, updateUrlParams. by destruct (url_params_of _ _). Qed.

(** The map read from a URL that lists the visible servers. *)
Lemma visible_listed o u l s :
  Forall free_name (o_servers o) → p_visibleServers u = Some l → PStr s ∈ o_servers o →
  is_visible (visible_from_url o (Some u)) (PStr s) = includes l (PStr s).
Proof.
  intros Hf Hu Hs. unfold visible_from_url. rewrite Hu. apply is_visible_own.
  by apply mark_servers_own.
Qed.

(** Mounting at a location written from a valid, repaired selection. *)
Lemma mount_written items o f base :
  opts_ok o → valid_filters o f → o_cpus o ≠ [] → repair items (o_cpus o) f = f →
  f_visibleServers f ≠ [] → Forall no_comma (f_visibleServers f) →
  let d := mount items o (url_effect f base) in
  filters d = f ∧ (∃ u, p_visibleServers u = Some (f_visibleServers f) ∧
                        visibleServers d = visible_from_url o (Some u)).
Proof.
  intros Ho Hf Hc Hr Hne Hcomma d.
  destruct (written_selection_back o f base Ho Hf Hne Hcomma) as (u & Hu & Hval & Hvis).
  assert (Hf0 : initial_filters o (Some (url_effect f base)) = f).
  { unfold initial_filters. rewrite url_effect_Some, Hu, bool_decide_false by done. done. }
  destruct (written_selection_back o f (url_effect f base) Ho Hf Hne Hcomma)
    as (u2 & Hu2 & Hval2 & Hvis2).
  assert (Hl : load_effect o (url_effect f (url_effect f base))
               = Some (f, visible_from_url o (Some u2))).
  { unfold load_effect. rewrite bool_decide_false by done.
    by rewrite url_effect_Some, Hu2, Hval2. }
  assert (Hfix : fix_filters (current_options items (o_cpus o) f) f = f) by exact Hr.
  unfold d, mount. rewrite Hf0, Hl. cbn [default from_option id fst snd]. rewrite Hfix.
  rewrite flush_filters, flush_visible. cbn [filters visibleServers].
  rewrite bool_decide_true by done. split; [done|]. by exists u2.
Qed.

(** ** Selections no result has *)

Lemma strict_svz a b : strict_eq a b = true → same_value_zero a b = true.
Proof. intros H. destruct a, b; simpl in *; try done. by rewrite H, orb_true_r. Qed.

Lemma stale_threads_empty items cs f :
  pos_int (f_threads f) → f_xAxis f ≠ PStr "threads" →
  f_threads f ∉ o_threads (current_options items cs f) → filteredData items f = [].
Proof.
  intros Hp Hx Hn. apply lfilter_none. intros i Hi.
  destruct (keep_item f i) eqn:Hk; [|done]. exfalso. apply Hn.
  apply keep_item_selected in Hk as Hsel. destruct Hsel as [Hc Ht].
  unfold keep_item in Hk. rewrite Hc, Ht in Hk. cbn [negb] in Hk.
  assert (strict_eq (f_xAxis f) (PStr "threads") = false) as Hax.
  { destruct (strict_eq _ _) eqn:E; [|done]. by apply strict_eq_str in E. }
  rewrite Hax in Hk. destruct (strict_eq (threads i) (f_threads f)) eqn:Eth; [|done].
  apply strict_svz, svz_good in Eth; [|by apply pos_int_good].
  destruct Hp as (z & Hz & Ez). apply elem_of_distinct_numbers.
  exists i, (of_Z z). split_and!; [by apply elem_of_selected|congruence|].
  rewrite Ez. rewrite set_norm_id; [done|]. apply truthy_not_negzero, pos_int_good. by exists z.
Qed.

(** ** Main theorems *)

(** C1: the effects come to rest: after any change, at most three renders and two
    runs of the repair effect, whatever budget of renders is allowed.  When the CPU or
    the test case differs from the one the repair effect last ran with, the selection
    left is one the repair effect would not change; when both are the same, the repair
    effect does not run and the selection stays as it was set, repaired or not. *)
Theorem effects_settle items o n ran d :
  let d' := flush items o (2 + n) ran d in
  d' = flush items o 2 ran d ∧
  (deps (filters d) ≠ ran → repair items (o_cpus o) (filters d') = filters d') ∧
  (deps (filters d) = ran → filters d' = filters d).
Proof.
  change (2 + n) with (S (S n)). split_and!; [apply flush_fuel|..].
  - intros Hne. rewrite flush_filters, bool_decide_false by done. apply repair_twice.
  - intros E. by rewrite flush_filters, bool_decide_true.
Qed.

(** The parameters of the address of a reachable state. *)
Lemma address_params cpus o d :
  world cpus o → reachable (flattenedData (Arr cpus)) o d →
  let p := parse_search (loc_search (win d)) in
  let f := filters d in
  let vs := visibleServersForUrl (visibleServers d) in
  param_get p "cpu" = Some (to_string (f_cpu f)) ∧
  param_get p "testCase" = Some (to_string (f_testCase f)) ∧
  param_get p "threads" = Some (to_string (f_threads f)) ∧
  param_get p "workers" = Some (to_string (f_workers f)) ∧
  param_get p "concurrency" = Some (to_string (f_concurrency f)) ∧
  param_get p "http2" = Some (to_string (f_http2 f)) ∧
  param_get p "xAxis" = Some (to_string (f_xAxis f)) ∧
  param_get p "metric" = Some (to_string (f_metric f)) ∧
  param_get p "visibleServers" = (if bool_decide (vs = []) then None else Some (join_prims vs)).
Proof.
  intros W Hd p f vs. destruct (reachable_in_sync _ _ _ Hd) as [base Hb].
  pose proof (reachable_typed cpus o W d Hd) as Hf.
  destruct (typed_params f vs (parse_search (loc_search base)) Hf) as (p' & Hp' & Hget).
  assert (p = p') as ->; [|done].
  unfold p. rewrite Hb. unfold url_effect_visible, url_effect, updateUrlParams.
  fold f vs. rewrite Hp'. cbn [default from_option id]. apply parse_replace_search.
Qed.

(** The parameters the dashboard writes. *)
Definition url_keys : list string :=
  ["cpu"; "testCase"; "threads"; "workers"; "concurrency"; "http2"; "xAxis"; "metric"; "visibleServers"].

(** They are determined by the filters and the visible servers. *)
Lemma address_determined cpus o d d' :
  world cpus o → reachable (flattenedData (Arr cpus)) o d → reachable (flattenedData (Arr cpus)) o d' →
  filters d = filters d' → visibleServers d = visibleServers d' →
  ∀ k, k ∈ url_keys →
  param_get (parse_search (loc_search (win d))) k = param_get (parse_search (loc_search (win d'))) k.
Proof.
  intros W Hd Hd' Ef Ev k Hk. pose proof (address_params _ _ _ W Hd) as P.
  pose proof (address_params _ _ _ W Hd') as P'. cbv zeta in P, P'. rewrite <- Ef, <- Ev in P'.
  destruct P as (? & ? & ? & ? & ? & ? & ? & ? & ?), P' as (? & ? & ? & ? & ? & ? & ? & ? & ?).
  unfold url_keys in Hk. rewrite !elem_of_cons, elem_of_nil in Hk.
  destruct_or! Hk; subst; congruence.
Qed.

(** C2: the address bar always shows the session: in every state a user can
    reach, from any starting URL, the query string holds exactly the current value
    of each filter and the list of visible servers, whichever of the two effects
    that write it ran last. *)
Theorem address_bar_current cpus o d :
  world cpus o → reachable (flattenedData (Arr cpus)) o d →
  let p := parse_search (loc_search (win d)) in
  let f := filters d in
  let vs := visibleServersForUrl (visibleServers d) in
  param_get p "cpu" = Some (to_string (f_cpu f)) ∧
  param_get p "testCase" = Some (to_string (f_testCase f)) ∧
  param_get p "threads" = Some (to_string (f_threads f)) ∧
  param_get p "workers" = Some (to_string (f_workers f)) ∧
  param_get p "concurrency" = Some (to_string (f_concurrency f)) ∧
  param_get p "http2" = Some (to_string (f_http2 f)) ∧
  param_get p "xAxis" = Some (to_string (f_xAxis f)) ∧
  param_get p "metric" = Some (to_string (f_metric f)) ∧
  param_get p "visibleServers" = (if bool_decide (vs = []) then None else Some (join_prims vs)).
Proof. apply address_params. Qed.

(** C8: on data without gaps every state a user can reach has a valid selection:
    each filter is one of the options of the data, and the test case is one that
    was run on the selected CPU. *)
Theorem session_selection_valid cpus o d :
  world cpus o → complete cpus o → reachable (flattenedData (Arr cpus)) o d →
  valid_filters o (filters d) ∧
  f_testCase (filters d)
  ∈ o_testCases (current_options (flattenedData (Arr cpus)) (o_cpus o) (filters d)).
Proof. intros W C. by apply reachable_session. Qed.

(** C3: a reload restores the session: on data without gaps (every CPU ran a
    named test, every result says its threads, workers and concurrency), mounting
    the dashboard at the address of a reachable state gives back its filters and shows
    the same servers, when at least one server is visible, no server name has a comma,
    and the selection has nothing left to repair. *)
Theorem reload_restores cpus o d :
  world cpus o → complete cpus o → reachable (flattenedData (Arr cpus)) o d →
  repair (flattenedData (Arr cpus)) (o_cpus o) (filters d) = filters d →
  visibleServersForUrl (visibleServers d) ≠ [] → Forall no_comma (o_servers o) →
  let d' := mount (flattenedData (Arr cpus)) o (win d) in
  filters d' = with_visible (filters d) (visibleServersForUrl (visibleServers d)) ∧
  ∀ s, PStr s ∈ o_servers o →
       is_visible (visibleServers d') (PStr s) = is_visible (visibleServers d) (PStr s).
Proof.
  intros W C Hd Hr Hne Hcomma d'. pose proof (world_opts _ _ W) as Ho.
  destruct (reachable_session cpus o W C d Hd) as [Hf _].
  pose proof (reachable_vis cpus o W d Hd) as Hv. destruct (reachable_in_sync _ _ _ Hd) as [base Hb].
  set (vs := visibleServersForUrl (visibleServers d)) in *.
  assert (Hsub : vs ⊆ o_servers o).
  { intros v Hin. pose proof Hin as (k & -> & _)%list_elem_of_fmap.
    by apply (elem_of_visibleServersForUrl (o_servers o)) in Hin as [? _]. }
  destruct (mount_written (flattenedData (Arr cpus)) o (with_visible (filters d) vs) base)
    as [Hfd (u & Hu & Hvd)]; try done.
  - by apply with_visible_valid.
  - apply C.
  - by rewrite repair_with_visible, Hr.
  - eapply Forall_forall. intros v Hin. rewrite Forall_forall in Hcomma. by apply Hcomma, Hsub.
  - unfold url_effect_visible in Hb. fold vs in Hb. rewrite <- Hb in Hfd, Hvd. split; [done|].
    intros s Hs. unfold d'. rewrite Hvd, (visible_listed o u vs s (w_servers _ _ W) Hu Hs).
    apply eq_bool_prop_intro. rewrite !Is_true_true.
    rewrite includes_good by (eapply Forall_forall; intros v Hin%Hsub;
      pose proof (ok_servers _ Ho) as Hn; rewrite Forall_forall in Hn; by apply name_good, Hn).
    unfold vs. rewrite (elem_of_visibleServersForUrl (o_servers o)) by done. tauto.
Qed.

(** A plain click. *)
Lemma legend_toggles servers s v :
  NoDup (keys v) →
  let v' := handleLegendClick servers (PStr s) false false v in
  is_visible v' (PStr s) = negb (is_visible v (PStr s)) ∧
  (∀ t, t ≠ s → is_visible v' (PStr t) = is_visible v (PStr t)) ∧
  (∀ t, is_visible (handleLegendClick servers (PStr s) false false v') (PStr t)
        = is_visible v (PStr t)).
Proof.
  intros Hnd v'.
  assert (Hnd' : NoDup (keys v')) by (by apply NoDup_keys_define, keys_entries_NoDup).
  assert (H1 : is_visible v' (PStr s) = negb (is_visible v (PStr s))).
  { apply is_visible_own. unfold v'. by rewrite (toggle_own servers v s s Hnd), decide_True. }
  assert (H2 : ∀ t, t ≠ s → is_visible v' (PStr t) = is_visible v (PStr t)).
  { intros t Ht. apply is_visible_ext. unfold v'. by rewrite (toggle_own servers v s t Hnd), decide_False. }
  split_and!; [done|done|]. intros t. destruct (decide (t = s)) as [->|Ht].
  - rewrite (is_visible_own _ s (negb (is_visible v' (PStr s)))).
    + rewrite H1. apply negb_involutive.
    + by rewrite (toggle_own servers v' s s Hnd'), decide_True.
  - rewrite <- (H2 t Ht). apply is_visible_ext. by rewrite (toggle_own servers v' s t Hnd'), decide_False.
Qed.

(** A click with Ctrl or Cmd. *)
Lemma legend_exclusive servers s ctrlKey metaKey v :
  Forall free_name servers → ctrlKey || metaKey = true →
  ∀ t, PStr t ∈ servers →
  is_visible (handleLegendClick servers (PStr s) ctrlKey metaKey v) (PStr t) = bool_decide (t = s).
Proof.
  intros Hf Hk t Ht. unfold handleLegendClick. rewrite Hk. apply is_visible_own.
  destruct (mark_servers_own servers (λ x, strict_eq x (PStr s)) [] Hf) as [H _].
  unfold mark_servers in H. rewrite H by done. f_equal.
Qed.

(** C29: a plain click in the legend flips the clicked server and no other, and a
    second click restores the picture; a click with Ctrl or Cmd shows the clicked
    server alone, whatever was shown before. *)
Theorem legend_clicks servers s v :
  NoDup (keys v) → Forall free_name servers →
  let v' := handleLegendClick servers (PStr s) false false v in
  is_visible v' (PStr s) = negb (is_visible v (PStr s)) ∧
  (∀ t, t ≠ s → is_visible v' (PStr t) = is_visible v (PStr t)) ∧
  (∀ t, is_visible (handleLegendClick servers (PStr s) false false v') (PStr t)
        = is_visible v (PStr t)) ∧
  (∀ ctrlKey metaKey t, ctrlKey || metaKey = true → PStr t ∈ servers →
     is_visible (handleLegendClick servers (PStr s) ctrlKey metaKey v) (PStr t)
     = bool_decide (t = s)).
Proof.
  intros Hnd Hf v'. destruct (legend_toggles servers s v Hnd) as (H1 & H2 & H3).
  split_and!; [done..|]. intros ctrlKey metaKey t Hk Ht. by apply legend_exclusive.
Qed.

(** ** Independence of the controls *)

Definition is_filter_change (a : action) : bool := if a is FilterChange _ _ then true else false.
Definition is_legend_click (a : action) : bool := if a is LegendClick _ _ _ then true else false.
Definition is_chart_hover (a : action) : bool := if a is ChartHover _ then true else false.

(** A sequence of events. *)
Definition run_actions items o (l : list action) (d : Dash) : Dash :=
  foldl (λ d a, dispatch items o a d) d l.

(** What an event does to one part of the state depends on that part alone, and
    only its own kind of event changes it. *)
Lemma dispatch_filters items o a d d' :
  filters d = filters d' →
  filters (dispatch items o a d) = filters (if is_filter_change a then dispatch items o a d' else d').
Proof.
  intros E. destruct a as [key v|s c m|p]; cbn [is_filter_change dispatch filters]; try done.
  rewrite !flush_filters. cbn [filters]. by rewrite E.
Qed.

Lemma dispatch_visible items o a d d' :
  visibleServers d = visibleServers d' →
  visibleServers (dispatch items o a d)
  = visibleServers (if is_legend_click a then dispatch items o a d' else d').
Proof.
  intros E. destruct a as [key v|s c m|p]; cbn [is_legend_click dispatch visibleServers];
    rewrite ?flush_visible; try done. by rewrite E.
Qed.

Lemma dispatch_hover items o a d d' :
  hover d = hover d' →
  hover (dispatch items o a d) = hover (if is_chart_hover a then dispatch items o a d' else d').
Proof. intros E. destruct a as [key v|s c m|p]; cbn [is_chart_hover dispatch hover]; by rewrite ?flush_hover. Qed.

Lemma run_part {A} (part : Dash → A) (mine : action → bool) items o :
  (∀ a d d', part d = part d' →
     part (dispatch items o a d) = part (if mine a then dispatch items o a d' else d')) →
  ∀ l d d', part d = part d' →
  part (run_actions items o l d) = part (run_actions items o (List.filter mine l) d').
Proof.
  intros Hs l. induction l as [|a l IH]; intros d d' E; [done|]. cbn [run_actions foldl List.filter].
  fold (run_actions items o l (dispatch items o a d)). specialize (Hs a d d' E).
  destruct (mine a); by apply IH.
Qed.

Lemma same_part {A} (part : Dash → A) mine items o l l' d :
  (∀ l, part (run_actions items o l d) = part (run_actions items o (List.filter mine l) d)) →
  List.filter mine l = List.filter mine l' → part (run_actions items o l d) = part (run_actions items o l' d).
Proof. intros Hp E. by rewrite (Hp l), (Hp l'), E. Qed.

(** C18: the controls do not disturb each other: after any sequence of events, in any
    interleaving, the filters are what the filter changes alone lead to, effects
    and repairs included, the visible servers what the legend clicks alone lead to,
    and the hovered bar what the mouse alone leads to; and two sessions with the same
    filter changes and the same legend clicks, interleaved in different ways, have
    the same address. *)
Theorem controls_independent cpus o l d :
  let items := flattenedData (Arr cpus) in
  filters (run_actions items o l d) = filters (run_actions items o (List.filter is_filter_change l) d) ∧
  visibleServers (run_actions items o l d)
  = visibleServers (run_actions items o (List.filter is_legend_click l) d) ∧
  hover (run_actions items o l d) = hover (run_actions items o (List.filter is_chart_hover l) d) ∧
  (∀ l', world cpus o →
     List.filter is_filter_change l = List.filter is_filter_change l' →
     List.filter is_legend_click l = List.filter is_legend_click l' →
     reachable items o (run_actions items o l d) → reachable items o (run_actions items o l' d) →
     ∀ k, k ∈ url_keys →
     param_get (parse_search (loc_search (win (run_actions items o l d)))) k
     = param_get (parse_search (loc_search (win (run_actions items o l' d)))) k).
Proof.
  intros items. pose proof (λ l, run_part filters _ items o (dispatch_filters items o) l d d eq_refl) as Hf.
  pose proof (λ l, run_part visibleServers _ items o (dispatch_visible items o) l d d eq_refl) as Hv.
  pose proof (λ l, run_part hover _ items o (dispatch_hover items o) l d d eq_refl) as Hh.
  split_and!; [apply Hf|apply Hv|apply Hh|].
  intros l' W Ef Ev R R'. apply (address_determined cpus o); [done..| |]; by eapply same_part.
Qed.

(** C38: choosing another x-axis never repairs the selection, because the repair
    effect does not depend on it: if the thread count left over from the time the
    threads were on the axis is not offered, the page has no results to show. *)
Theorem axis_change_keeps_stale items o d v :
  let d' := dispatch items o (FilterChange KXAxis v) d in
  pos_int (f_threads (filters d)) → v ≠ PStr "threads" →
  f_threads (filters d) ∉ o_threads (current_options items (o_cpus o) (filters d)) →
  filters d' = handleFilterChange KXAxis v (filters d) ∧ filteredData items (filters d') = [].
Proof.
  intros d' Hp Hv Hn.
  assert (filters d' = handleFilterChange KXAxis v (filters d)) as Hf.
  { unfold d'. cbn [dispatch]. rewrite flush_filters. by rewrite bool_decide_true. }
  split; [done|]. rewrite Hf. by apply (stale_threads_empty items (o_cpus o)).
Qed.

(** ** Witnesses *)

Definition free_name_b (v : prim) : bool :=
  match v with PStr s => negb (reserved s) | _ => false end.

Lemma free_names_ok l : forallb free_name_b l = true → Forall free_name l.
Proof.
  rewrite forallb_forall, Forall_forall. intros H v Hv. apply list_elem_of_In in Hv.
  specialize (H v Hv). destruct v as [| | | |s]; try done. exists s. split; [done|].
  by apply negb_true_iff.
Qed.

Lemma no_commas_ok l :
  forallb (λ v, negb (has_char "," (to_string v))) l = true → Forall no_comma l.
Proof.
  rewrite forallb_forall, Forall_forall. intros H v Hv. apply list_elem_of_In in Hv.
  by apply negb_true_iff, H.
Qed.

Lemma sample_world : world [Some sample_cpu] sample_opts.
Proof.
  split; [apply sample_items_ok|apply sample_cpus_named|by vm_compute|].
  apply free_names_ok. by vm_compute.
Qed.

Lemma sample_complete : complete [Some sample_cpu] sample_opts.
Proof.
  split; [| |by vm_compute].
  - intros c Hc. assert (c = PStr "apple_m1_pro") as -> by (by apply list_elem_of_singleton in Hc).
    exists agoo_item. split_and!; [|done|done]. apply (bool_decide_unpack _). by vm_compute.
  - intros i Hi. apply list_elem_of_In in Hi.
    assert (H : forallb (λ i : Item, is_number (threads i) && is_number (workers i)
                && is_number (concurrency i)) (flattenedData (Arr [Some sample_cpu])) = true)
      by (by vm_compute).
    rewrite forallb_forall in H. specialize (H i Hi). breflect. auto.
Qed.

(** A session: open the page, put the threads on the axis, choose another test. *)
Definition session_items : list Item := flattenedData (Arr [Some sample_cpu]).

Definition session_start : Dash :=
  mount session_items sample_opts (Location "https://itsi.fyi/benchmarks/" "" "").

Definition session_axis : Dash :=
  dispatch session_items sample_opts (FilterChange KXAxis (PStr "threads")) session_start.

Definition session_test : Dash :=
  dispatch session_items sample_opts (FilterChange KTestCase (PStr "chunked")) session_axis.

Lemma session_test_reachable : reachable session_items sample_opts session_test.
Proof.
  apply reach_step; [apply reach_step; [apply reach_mount|]|].
  - apply offer_axis. right. by left.
  - apply offer_test. apply (bool_decide_unpack _). by vm_compute.
Qed.

Lemma effects_settle_witness :
  let d' := flush session_items sample_opts (2 + 5) (PStr "", PStr "") session_test in
  d' = flush session_items sample_opts 2 (PStr "", PStr "") session_test ∧
  repair session_items (o_cpus sample_opts) (filters d') = filters d' ∧
  filters (flush session_items sample_opts (2 + 5) (deps (filters session_test)) session_test)
  = filters session_test.
Proof.
  destruct (effects_settle session_items sample_opts 5 (PStr "", PStr "") session_test) as (H1 & H2 & _).
  destruct (effects_settle session_items sample_opts 5 (deps (filters session_test)) session_test) as (_ & _ & H3).
  split_and!; [exact H1|apply H2; apply (bool_decide_unpack _); by vm_compute|by apply H3].
Defined.

Lemma address_bar_current_witness :
  param_get (parse_search (loc_search (win session_test))) "xAxis" = Some "threads".
Proof.
  destruct (address_bar_current [Some sample_cpu] sample_opts session_test)
    as (_ & _ & _ & _ & _ & _ & H & _); [apply sample_world|apply session_test_reachable|].
  etransitivity; [apply H|]. by vm_compute.
Defined.

Lemma session_selection_valid_witness :
  valid_filters sample_opts (filters session_test) ∧
  f_testCase (filters session_test)
  ∈ o_testCases (current_options session_items (o_cpus sample_opts) (filters session_test)).
Proof.
  apply (session_selection_valid [Some sample_cpu] sample_opts session_test);
    [apply sample_world|apply sample_complete|apply session_test_reachable].
Defined.

Lemma reload_restores_witness :
  filters (mount session_items sample_opts (win session_test))
  = with_visible (filters session_test) (visibleServersForUrl (visibleServers session_test)).
Proof.
  apply (reload_restores [Some sample_cpu] sample_opts session_test).
  - apply sample_world.
  - apply sample_complete.
  - apply session_test_reachable.
  - by vm_compute.
  - by vm_compute.
  - apply no_commas_ok. by vm_compute.
Defined.

(** The axis and the legend, in either order. *)
Definition axis_then_legend : list action :=
  [FilterChange KXAxis (PStr "threads"); LegendClick (PStr "falcon") false false].
Definition legend_then_axis : list action :=
  [LegendClick (PStr "falcon") false false; FilterChange KXAxis (PStr "threads")].

Lemma controls_independent_witness :
  param_get (parse_search (loc_search (win (run_actions session_items sample_opts axis_then_legend session_start))))
    "visibleServers"
  = param_get (parse_search (loc_search (win (run_actions session_items sample_opts legend_then_axis session_start))))
      "visibleServers".
Proof.
  apply (controls_independent [Some sample_cpu] sample_opts axis_then_legend session_start);
    [apply sample_world|done|done|..|unfold url_keys; set_solver].
  all: apply reach_step; [apply reach_step; [apply reach_mount|]|].
  - apply offer_axis. right. by left.
  - apply offer_legend, (bool_decide_unpack _). by vm_compute.
  - apply offer_legend, (bool_decide_unpack _). by vm_compute.
  - apply offer_axis. right. by left.
Defined.

Lemma legend_clicks_witness :
  is_visible (handleLegendClick (o_servers sample_opts) (PStr "puma") false false all_visible)
    (PStr "puma") = negb (is_visible all_visible (PStr "puma")) ∧
  is_visible (handleLegendClick (o_servers sample_opts) (PStr "puma") true false all_visible)
    (PStr "itsi") = bool_decide ("itsi" = "puma").
Proof.
  destruct (legend_clicks (o_servers sample_opts) "puma" all_visible) as (H1 & _ & _ & H2).
  - apply (bool_decide_unpack _). by vm_compute.
  - apply free_names_ok. by vm_compute.
  - split; [exact H1|]. apply (H2 true false); [done|].
    apply (bool_decide_unpack _). by vm_compute.
Defined.

(** In the session above, leaving the threads axis shows an empty chart. *)
Lemma axis_change_keeps_stale_witness :
  let d' := dispatch session_items sample_opts (FilterChange KXAxis (PStr "concurrency")) session_test in
  filters d' = handleFilterChange KXAxis (PStr "concurrency") (filters session_test) ∧
  filteredData session_items (filters d') = [].
Proof.
  apply (axis_change_keeps_stale session_items sample_opts session_test (PStr "concurrency")).
  - apply pos_int_b_ok. by vm_compute.
  - done.
  - apply (bool_decide_unpack _). by vm_compute.
Defined.
