(* ===== verification/View.v ===== *)
(** * The page of the dashboard

    The JSX that [BenchmarkDashboard] returns, as a function from the state and the
    derived values to a tree.  Every element of the source is an [El] with the
    source's tag, attributes and children; handlers are functions into the
    [action]s of [DashboardState], so that what a control does when it is used can
    be read off the tree.  Components of [components/ui], recharts and lucide are
    tags: what they draw inside is theirs.  Rendering may throw. *)

From Stdlib Require Import SpecFloat.
From S2P Require Import Prelude JsSort JsNumber JsText JsValue UrlParams BenchmarkData SampleData Filters ChartData ChartSpec DashboardState Markup.

#[local] Open Scope js_scope.

(** ** Trees *)

(** Attribute values: plain values, nested objects, the chart's data, a formatter,
    a colour looked up by name, and event handlers. *)
Inductive attr :=
  | APrim (v : prim)
  | AObj (fields : list (string * attr))
  | APoints (pts : list point)
  | AFormat (g : num → string)
  | AColor (c : lookup_result string)
  | OnValue (g : string → action)
  | OnClick (g : bool → bool → action)
  | OnPoint (g : point → option action)
  | OnEvent (a : action).

Abbreviation node := (tree attr).

#[global] Instance attr_value : PropValue attr := {
  pv := APrim;
  as_prim a := match a with APrim p => Some p | _ => None end;
  pv_style l := AObj (map (λ kv, (kv.1, APrim kv.2)) l);
  as_prim_pv p := eq_refl;
}.

Definition AStr (s : string) : attr := APrim (PStr s).
Definition className (s : string) : string * attr := ("className", AStr s).

(** [{v}] as a child: texts and numbers are shown, the rest is not. *)
Definition child (v : prim) : list node :=
  match v with
  | PStr s => [Txt s]
  | PNum n => [Txt (num_to_string n)]
  | _ => []
  end.

(** [{cond && x}] for a boolean condition. *)
Definition when (b : bool) (l : list node) : list node := if b then l else [].

(** [{v && x}] for any value. *)
Definition and_then (v : prim) (l : list node) : list node := if truthy v then l else child v.

Definition div (cls : string) (children : list node) : node := El "div" [className cls] children.
Definition span (cls : string) (children : list node) : node := El "span" [className cls] children.

(** ** Filters *)

Definition SelectItem (key value : option string) (cls : string) (children : list node) : node :=
  El "SelectItem"
    (from_option (λ k, [("key", AStr k)]) [] key ++ from_option (λ v, [("value", AStr v)]) [] value
     ++ [className cls]) children.

Definition filter_label (id title : string) : node :=
  El "Label" [("htmlFor", AStr id); className "text-xs"] [Txt title].

Definition trigger (id : string) (placeholder : string) : node :=
  El "SelectTrigger" [("id", AStr id); className "h-7 text-xs"]
    [El "SelectValue" [("placeholder", AStr placeholder)] []].

(** [value={v}] where [v] is one of the filters' texts. *)
Definition change_text (key : filter_key) : string → action := λ value, FilterChange key (PStr value).

Definition cpu_filter (f : FilterState) (fo : FilterOptions) : node :=
  div "space-y-1"
    [filter_label "cpu-filter" "CPU";
     El "Select" [("value", APrim (f_cpu f)); ("onValueChange", OnValue (change_text KCpu))]
       [trigger "cpu-filter" "Select CPU";
        El "SelectContent" []
          ((λ c, SelectItem (Some (to_string c)) (Some (to_string c)) "text-xs" (child c))
           <$> o_cpus fo)]].

(** One group of the test-case menu. *)
Definition test_group (groupedTests : obj (list prim)) (g : string) : exc node :=
  match obj_get groupedTests g with
  | Own tests =>
      Ok (El "SelectGroup" [("key", AStr g)]
            (El "SelectLabel" [className "text-xs font-medium text-muted-foreground pl-2"] [Txt g]
             :: ((λ t, SelectItem (Some (to_string t)) (Some (to_string t)) "text-xs pl-6" (child t))
                 <$> tests)))
  | _ => Throw TypeError
  end.

Definition test_case_filter (f : FilterState) (menu : obj (list prim) * list string) : exc node :=
  let! groups := exc_map (test_group menu.1) menu.2 in
  Ok (div "space-y-1"
        [filter_label "test-case-filter" "Test Case";
         El "Select" [("value", APrim (f_testCase f)); ("onValueChange", OnValue (change_text KTestCase))]
           [trigger "test-case-filter" "Select test"; El "SelectContent" [] groups]]).

(** [Number.parseInt(value)]. *)
Definition change_number (key : filter_key) : string → action :=
  λ value, FilterChange key (PNum (parse_int value)).

(** The options of a numeric filter, or its default when there are none. *)
Definition number_items (options : list prim) (dflt : string) : exc (list node) :=
  match options with
  | [] => Ok [SelectItem None (Some dflt) "text-xs" [Txt dflt]]
  | _ => exc_map (λ v, let! s := method_to_string v in
                       Ok (SelectItem (Some (to_string v)) (Some s) "text-xs" (child v))) options
  end.

Definition number_filter (id title : string) (key : filter_key) (axis placeholder dflt : string)
    (xAxis current : prim) (options : list prim) : exc node :=
  let on_axis := strict_eq xAxis (PStr axis) in
  let! value := method_to_string current in
  let! its := number_items options dflt in
  Ok (div "space-y-1"
        [filter_label id title;
         El "Select" [("value", AStr value); ("onValueChange", OnValue (change_number key));
                      ("disabled", APrim (PBool on_axis))]
           [trigger id (if on_axis then "On X-Axis" else placeholder);
            El "SelectContent" [] its]]).

Definition threads_filter (f : FilterState) (fo : FilterOptions) : exc node :=
  number_filter "threads-filter" "Threads" KThreads "threads" "Select threads" "1"
    (f_xAxis f) (f_threads f) (o_threads fo).

Definition workers_filter (f : FilterState) (fo : FilterOptions) : exc node :=
  number_filter "workers-filter" "Workers" KWorkers "workers" "Select workers" "1"
    (f_xAxis f) (f_workers f) (o_workers fo).

Definition concurrency_filter (f : FilterState) (fo : FilterOptions) : exc node :=
  number_filter "concurrency-filter" "Concurrency" KConcurrency "concurrency" "Select concurrency"
    "10" (f_xAxis f) (f_concurrency f) (o_concurrencyLevels fo).

(** The protocol menu's handler. *)
Definition change_http2 (value : string) : action :=
  if bool_decide (value = "all") then FilterChange KHttp2 (PStr "all")
  else FilterChange KHttp2 (PBool (bool_decide (value = "true"))).

Definition http2_filter (f : FilterState) (fo : FilterOptions) : exc node :=
  let! value := method_to_string (f_http2 f) in
  Ok (div "space-y-1"
        [filter_label "http2-filter" "Protocol";
         El "Select" [("value", AStr value); ("onValueChange", OnValue change_http2)]
           [trigger "http2-filter" "Select protocol";
            El "SelectContent" []
              (SelectItem None (Some "all") "text-xs" [Txt "All"]
               :: ((λ v, SelectItem (Some (to_string v)) (Some (to_string v)) "text-xs"
                           [Txt (if truthy v then "HTTP/2" else "HTTP/1.1")])
                   <$> List.filter (λ v, negb (strict_eq v (PStr "all"))) (o_http2Options fo)))]]).

Definition x_axis_select (f : FilterState) : node :=
  div "space-y-1"
    [filter_label "x-axis-select" "X-Axis";
     El "Select" [("value", APrim (f_xAxis f)); ("onValueChange", OnValue (change_text KXAxis))]
       [trigger "x-axis-select" "X-Axis";
        El "SelectContent" []
          [SelectItem None (Some "concurrency") "text-xs" [Txt "Concurrency"];
           SelectItem None (Some "threads") "text-xs" [Txt "Threads"];
           SelectItem None (Some "workers") "text-xs" [Txt "Workers"]]]].

Definition metric_tab (value title : string) : node :=
  El "TabsTrigger" [("value", AStr value); className "text-xs px-2 py-0 h-4 flex-1"] [Txt title].

Definition metric_select (f : FilterState) : node :=
  div "space-y-1"
    [filter_label "metric-select" "Metric";
     El "Tabs" [("value", APrim (f_metric f)); ("onValueChange", OnValue (change_text KMetric));
                className "w-full"]
       [El "TabsList" [className "h-6 w-full"]
          [metric_tab "rps" "RPS"; metric_tab "p95_latency" "P95"; metric_tab "errorRate" "Errors"]];
     div "flex items-center justify-center text-xs text-muted-foreground"
       [El (icon (metricInfo (f_metric f))) [className "h-3 w-3 mr-1"] [];
        El "span" [] [Txt (isBetter (metricInfo (f_metric f))); Txt " is better"]]].

(** ** Summary *)

Definition stat_row (title : string) (value : string) : node :=
  div "flex justify-between" [span "text-muted-foreground" [Txt title]; span "font-medium" [Txt value]].

Definition summary_stats (f : FilterState) (st : option Stats) : list node :=
  let fmt := formatter (metricInfo (f_metric f)) in
  match st with
  | Some st =>
      [div "pt-1 space-y-1 text-xs"
         [stat_row "Results:" (num_to_string (of_Z (Z.of_nat (s_count st))));
          stat_row "Min:" (fmt (s_min st));
          stat_row "Max:" (fmt (s_max st));
          stat_row "Avg:" (fmt (s_avg st))]]
  | None => []
  end.

Definition filter_column (f : FilterState) (fo : FilterOptions)
    (menu : obj (list prim) * list string) (st : option Stats) : exc node :=
  let! tests := test_case_filter f menu in
  let! threads := threads_filter f fo in
  let! workers := workers_filter f fo in
  let! concurrency := concurrency_filter f fo in
  let! http2 := http2_filter f fo in
  Ok (div "md:col-span-3"
        [El "Card" [className "shadow-sm h-full"]
           [El "CardHeader" [className "py-2 px-3"]
              [El "CardTitle" [className "text-sm"] [Txt "Filters"]];
            El "CardContent" [className "p-2"]
              [div "space-y-2"
                 ([cpu_filter f fo; tests; div "grid grid-cols-2 gap-2" [threads; workers];
                   div "grid grid-cols-2 gap-2" [concurrency; http2];
                   x_axis_select f; metric_select f] ++ summary_stats f st)]]]).

(** ** The chart card *)

(** [s.includes(needle)]. *)
Fixpoint contains (needle s : string) : bool :=
  String.prefix needle s || match s with String _ s' => contains needle s' | EmptyString => false end.

(** [s.charAt(0).toUpperCase() + s.slice(1)], on texts that start with an ASCII
    character. *)
Definition upper_char (c : ascii) : ascii :=
  let n := N_of_ascii c in
  if bool_decide (97 ≤ n ≤ 122)%N then ascii_of_N (n - 32) else c.

Definition capitalize (v : prim) : exc string :=
  match v with
  | PStr (String c s) => Ok (String (upper_char c) s)
  | PStr EmptyString => Ok ""
  | _ => Throw TypeError
  end.

Definition card_title (f : FilterState) : node :=
  El "CardTitle" [className "text-base"]
    (Txt (label (metricInfo (f_metric f))) :: Txt ": " :: child (f_cpu f) ++ Txt " - "
     :: child (f_testCase f)
     ++ [span "text-xs font-normal ml-2 text-muted-foreground"
           (when (negb (strict_eq (f_xAxis f) (PStr "threads")))
              [Txt ("Threads: " +:+ to_string (f_threads f) +:+ ", ")]
            ++ when (negb (strict_eq (f_xAxis f) (PStr "workers")))
              [Txt ("Workers: " +:+ to_string (f_workers f) +:+ ", ")]
            ++ when (negb (strict_eq (f_xAxis f) (PStr "concurrency")))
              [Txt ("Concurrency: " +:+ to_string (f_concurrency f) +:+ ", ")]
            ++ [Txt "Protocol: "; Txt (getProtocolDisplay f)])]).

(** A colour counts as found when it is a non-empty value. *)
Definition color_truthy (c : lookup_result string) : bool :=
  match c with Own s => negb (bool_decide (s = "")) | Inherited => true | Missing => false end.

(** [serverColors[dataKey.split(" ")[0].replace(/\+/g, "__")] || serverColors[Object.keys(serverColors)[index % n]]]. *)
Definition bar_fill (colors : obj string) (dataKey : string) (index : nat) : lookup_result string :=
  let own := obj_get colors (replace_plus (default "" (head (split_on " " dataKey)))) in
  if color_truthy own then own
  else
    let ks := object_keys colors in
    obj_get colors (default "undefined" (ks !! (index mod length ks))).

Definition hover_over (dataKey : string) (payload : point) : action :=
  ChartHover (Some (dataKey, payload)).

Definition chart_bar_node (colors : obj string) (activeKey : option string) (index : nat)
    (dataKey : string) : node :=
  El "Bar"
    [("key", AStr dataKey); ("dataKey", AStr dataKey); ("name", AStr dataKey);
     ("fill", AColor (bar_fill colors dataKey index));
     ("opacity", APrim (if bool_decide (activeKey = Some dataKey) then int 1 else dec 8 (-1)));
     ("stackId", APrim (int (N.of_nat index))); ("isAnimationActive", APrim (PBool true));
     ("onMouseOver", OnPoint (λ payload, Some (hover_over dataKey payload)));
     ("onMouseLeave", OnEvent (ChartHover None))] [].

(** [data.payload[dataKey] === 0]. *)
Definition cell_is_zero (c : option cell) : bool :=
  match c with Some (CPrim v) => strict_eq v (int 0) | _ => false end.

Definition hover_bar_node (index : nat) (dataKey : string) : node :=
  El "Bar"
    [("key", AStr (dataKey +:+ "_hover")); ("dataKey", AStr dataKey);
     ("name", AStr (dataKey +:+ "_hover")); ("fill", AStr "transparent");
     ("stroke", AStr "transparent"); ("strokeWidth", APrim (int 0));
     ("minPointSize", APrim (int 20));
     ("stackId", AStr ("hover_" +:+ num_to_string (of_Z (Z.of_nat index))));
     ("isAnimationActive", APrim (PBool true));
     ("onMouseOver", OnPoint (λ payload,
        if cell_is_zero (own_get payload dataKey) then Some (hover_over dataKey payload) else None));
     ("onMouseLeave", OnEvent (ChartHover None))] [].

Definition neg_int (n : N) : prim := PNum (of_Z (- Z.of_N n)).

Definition bar_chart (f : FilterState) (pts : list point) (ks : list string)
    (colors : obj string) (activeKey : option string) : exc node :=
  let! axis_title := capitalize (f_xAxis f) in
  let info := metricInfo (f_metric f) in
  Ok (El "BarChart"
        [("data", APoints pts);
         ("margin", AObj [("top", APrim (int 10)); ("right", APrim (int 30));
                          ("left", APrim (int 30)); ("bottom", APrim (int 20))]);
         ("barCategoryGap", APrim (int 0)); ("barGap", APrim (int 0))]
        ([El "CartesianGrid" [("strokeDasharray", AStr "3 3"); ("opacity", APrim (dec 7 (-1)))] [];
          El "XAxis" [("dataKey", APrim (f_xAxis f));
                      ("label", AObj [("value", AStr axis_title); ("position", AStr "insideBottom");
                                      ("offset", APrim (neg_int 5))])] [];
          El "YAxis" [("label", AObj [("value", AStr (label info)); ("angle", APrim (neg_int 90));
                                      ("position", AStr "insideLeft"); ("offset", APrim (neg_int 15));
                                      ("style", AObj [("textAnchor", AStr "middle")])]);
                      ("tickFormatter", AFormat (formatter info))] []]
         ++ imap (chart_bar_node colors activeKey) ks ++ imap hover_bar_node ks)).

Definition legend_entry (platform : string) (colors : obj string) (visible : obj bool)
    (server_name : prim) : exc node :=
  let! shown := formatServerName server_name in
  Ok (El "div"
        [("key", APrim server_name);
         className ("flex items-center gap-1 px-2 py-0.5 rounded cursor-pointer transition-opacity "
                    +:+ (if is_visible visible server_name then "opacity-100" else "opacity-40"));
         ("onClick", OnClick (λ ctrlKey metaKey, LegendClick server_name ctrlKey metaKey));
         ("title", AStr ("Click to toggle, " +:+ (if contains "Mac" platform then "Cmd" else "Ctrl")
                         +:+ "+click to show only this server"))]
        [El "div" [className "w-2 h-2 rounded-sm";
                   ("style", AObj [("backgroundColor", AColor (obj_get colors (to_string server_name)))])] [];
         span "text-xs" [Txt shown]]).

Definition chart_card (platform : string) (f : FilterState) (fo : FilterOptions) (pts : list point)
    (ks : list string) (colors : obj string) (visible : obj bool) (activeKey : option string)
    : exc node :=
  let header := El "CardHeader" [className "pb-0 pt-2 px-3"] [card_title f] in
  match pts with
  | [] =>
      Ok (El "Card" [className "shadow"]
            [header;
             El "CardContent" [className "p-2"]
               [div "flex h-64 items-center justify-center"
                  [El "p" [className "text-gray-500"]
                     [Txt "No data available for the selected filters"]]]])
  | _ =>
      let! chart := bar_chart f pts ks colors activeKey in
      let! legend := exc_map (legend_entry platform colors visible) (o_servers fo) in
      Ok (El "Card" [className "shadow"]
            [header;
             El "CardContent" [className "p-2"]
               [div "h-[280px]"
                  [El "ResponsiveContainer" [("width", AStr "100%"); ("height", AStr "100%")] [chart]];
                div "flex flex-wrap gap-3 justify-center mt-1" legend]])
  end.

(** ** Details of the hovered result *)

(** [v.toFixed(digits)]: a method of numbers only. *)
Definition method_to_fixed (v : prim) (digits : nat) : exc string :=
  match v with PNum n => Ok (to_fixed n digits) | _ => Throw TypeError end.

(** [v != null]. *)
Definition not_nullish (v : prim) : bool := match v with Undefined | Null => false | _ => true end.

Definition latency_text (v : prim) : exc string :=
  if not_nullish v then let! s := method_to_fixed v 2 in Ok (s +:+ " ms") else Ok "N/A".

Definition badge (children : list node) : node := El "Badge" [("variant", AStr "outline")] children.

Definition color_dot (cls : string) (c : lookup_result string) : node :=
  El "div" [className cls; ("style", AObj [("backgroundColor", AColor c)])] [].

Definition detail_row (title cls : string) (children : list node) : node :=
  div "flex justify-between" [span "text-muted-foreground" [Txt title]; span cls children].

Definition error_rows (errors : obj prim) : node :=
  match object_keys errors with
  | [] => El "p" [className "text-xs text-muted-foreground"] [Txt "No errors reported"]
  | _ =>
      El "div" []
        [div "text-xs font-medium mb-1" [Txt "Error Distribution:"];
         div "space-y-1"
           ((λ e : string * prim,
              El "div" [("key", AStr e.1); className "flex items-center justify-between text-xs"]
                [El "span" [] [Txt e.1];
                 El "Badge" [("variant", AStr "destructive"); className "text-xs py-0"] (child e.2)])
            <$> entries errors)]
  end.

Definition result_details (f : FilterState) (colors : obj string) (i : Item) : exc node :=
  let! shown := formatServerName (server i) in
  let! r := results_of_item i in
  let! rps := method_to_fixed (requestsPerSec r) 2 in
  let! p95 := latency_text (p95_latency r) in
  let! avg := latency_text (average r) in
  let rate := to_number (successRate r) in
  let grid := "grid grid-cols-2 md:grid-cols-2 gap-x-2 gap-y-1 text-xs" in
  Ok (div "space-y-2"
        ([div "flex flex-wrap items-center gap-2"
            [El "Badge" [("variant", AStr "outline"); className "flex items-center"]
               [color_dot "w-2 h-2 mr-1 rounded-full" (obj_get colors (to_string (server i))); Txt shown];
             badge (child (test_case i));
             badge (child (f_xAxis f) ++ [Txt ":"; Txt " "; Txt (to_string (item_prop i (f_xAxis f)))]);
             badge [Txt (if truthy (http2 i) then "HTTP/2" else "HTTP/1.1")]]]
         ++ and_then (version i)
              [div "flex items-center text-xs text-muted-foreground"
                 [El "TagIcon" [className "h-3 w-3 mr-1"] [];
                  span "font-medium overflow-hidden text-ellipsis" (child (version i))]]
         ++ [div grid
               [detail_row "RPS:" "font-medium" [Txt rps];
                detail_row "Success Rate:"
                  ("font-medium " +:+ (if nlt rate (of_Z 1) then "text-red-600" else ""))
                  [Txt (to_fixed (nmul rate (of_Z 100)) 2); Txt "%"];
                El "br" [] []];
             div grid
               [detail_row "P95 Latency:" "font-medium" [Txt p95];
                detail_row "Avg Latency:" "font-medium" [Txt avg]];
             error_rows (errorDistribution r)])).

(** A hovered value that is not a result has no server name to format. *)
Definition hovered_details (f : FilterState) (colors : obj string) (hovered : option cell) : exc node :=
  match hovered with
  | Some (CItem i) => result_details f colors i
  | Some (CPrim _) => Throw TypeError
  | None => Ok (El "p" [className "text-xs text-muted-foreground"]
                  [Txt "Hover over a data point to see benchmark details"])
  end.

Definition details_card (f : FilterState) (colors : obj string) (hovered : option cell) (wide : bool)
    : exc node :=
  let! body := hovered_details f colors hovered in
  Ok (div (if wide then "lg:col-span-7" else "lg:col-span-12")
        [El "Card" [className "shadow-sm h-full"]
           [El "CardHeader" [className "py-1 px-3"]
              [El "CardTitle" [className "text-sm flex items-center"]
                 match hovered with
                 | Some _ => [Txt "Benchmark Details"]
                 | None =>
                     [Txt "Hover Details";
                      span "ml-2 text-xs font-normal text-muted-foreground flex items-center"
                        [El "InfoIcon" [className "h-3 w-3 mr-1"] [];
                         Txt "Hover over chart bars to see details"]]
                 end];
            El "CardContent" [className "p-2"] [body]]]).

(** ** The ranking *)

(** [v == "rack"]: a text is needed for equality with a text that is no number. *)
Definition loose_eq_rack (v : prim) : bool := strict_eq v (PStr "rack").

Section Page.
(** The host: the locale's order of texts, the platform's name, and the text that
    adding one to an inherited member of that name gives. *)
Variable localeCompare : string → string → comparison.
Variable platform : string.
Variable inherited_text : string → string.

Definition tally_text (server_name : string) (t : tally) : string :=
  match t with
  | Count n => num_to_string (of_Z (Z.of_nat n))
  | Text => inherited_text server_name
  end.

Definition performer_row (colors : obj string) (e : string * tally) : node :=
  El "div" [("key", AStr e.1); className "flex items-center justify-between text-xs"]
    [div "flex items-center gap-1"
       [color_dot "w-2 h-2 rounded-full" (obj_get colors e.1);
        span "truncate" [Txt (replace_underscores e.1)]];
     span "text-muted-foreground ml-1" [Txt (tally_text e.1 e.2)]].

Definition performers_card (colors : obj string) (top : list (string * tally)) (first_group : prim)
    : list node :=
  match top with
  | [] => []
  | _ =>
      [div "lg:col-span-5"
         [El "Card" [className "shadow-sm h-full"]
            [El "CardHeader" [className "py-1 px-3"]
               [El "CardTitle" [className "text-sm flex items-center"]
                  ([Txt "Top Performers"; Txt " "]
                   ++ and_then first_group
                        [span "ml-1 text-xs text-muted-foreground"
                           ([Txt "("] ++ child first_group ++ [Txt ")"])])];
             El "CardContent" [className "p-2"]
               (div "grid grid-cols-2 gap-x-3 gap-y-1" (performer_row colors <$> top)
                :: when (loose_eq_rack first_group)
                     [El "p" [className "text-[10px] text-muted-foreground mt-2 px-1 leading-snug"]
                        [Txt "Note: Some servers (e.g. Unicorn, Agoo) don’t participate in multi-threaded test cases so will appear less frequently in these results."]])]]]
  end.

(** ** The whole component *)

(** The values the hooks compute in a render, before anything is returned. *)
Definition view (data : HierarchicalBenchmarkData) (d : Dash) : exc node :=
  let items := flattenedData data in
  let! o := allFilterOptions data in
  let f := filters d in
  let visible := visibleServers d in
  let colors := serverColors (o_servers o) in
  let fo := current_options items (o_cpus o) f in
  let! menu := groupedTestCases localeCompare items (f_cpu f) in
  let filtered := filteredData items f in
  let! pts := chartData localeCompare items f visible in
  let! st := summaryStats filtered (f_metric f) in
  let! top := topPerformers items filtered (f_cpu f) in
  let! ks := visibleDataKeys items (o_cpus o) f visible in
  match data with
  | NotArr | Arr [] =>
      Ok (div "flex h-64 items-center justify-center"
            [El "p" [className "text-gray-500"] [Txt "No benchmark data available"]])
  | _ =>
      let! column := filter_column f fo menu st in
      let! chart := chart_card platform f fo pts ks colors visible (activeDataKey (hover d)) in
      let! details := details_card f colors (hoveredPoint (hover d))
                        (negb (bool_decide (top = []))) in
      Ok (div "grid grid-cols-1 gap-2"
            [div "grid grid-cols-1 md:grid-cols-12 gap-2"
               [column;
                div "md:col-span-9"
                  [div "space-y-2"
                     [chart;
                      div "grid grid-cols-1 lg:grid-cols-12 gap-2"
                        (details :: performers_card colors top
                           (from_option (λ i : Item, group i) Undefined (head filtered)))]]]])
  end.
End Page.
