(* ===== verification/ViewSpec.v ===== *)
(** * What the page shows and offers

    Theorems on the tree of [View]: a page is rendered without an exception in
    every reachable state, every control on it performs one of the offered actions
    of the state machine, and every bar has its server's colour. *)

From Stdlib Require Import SpecFloat.
From S2P Require Import Prelude JsSort JsNumber JsText JsValue UrlParams BenchmarkData SampleData Filters ChartData ChartSpec Ranking DashboardState Session View Markup.

#[local] Open Scope js_scope.

Implicit Types (i j : Item).

(** ** Colours *)

Definition color (c : string) : Prop := c ∈ itsiColor :: palette.

Lemma color_nonempty c : color c → c ≠ "".
Proof.
  unfold color. intros Hc ->. revert Hc. apply (bool_decide_unpack _). by vm_compute.
Qed.

Lemma assigned_color n l m s :
  NoDup (to_string <$> l) → Forall (λ s, to_string s ≠ "__proto__") l → s ∈ l →
  ∃ c, own_get (assign_palette n l m) (to_string s) = Some c ∧ color c.
Proof.
  intros Hnd Hp [i Hi]%list_elem_of_lookup. exists (palette_at (n + i)).
  split; [by apply assign_palette_at|]. right. apply palette_at_palette.
Qed.

(** Every server of the data has a colour. *)
Lemma server_color servers s :
  NoDup (to_string <$> servers) → Forall (λ s, to_string s ≠ "__proto__") servers → s ∈ servers →
  ∃ c, own_get (serverColors servers) (to_string s) = Some c ∧ color c.
Proof.
  intros Hnd Hp Hs. unfold serverColors.
  destruct (splice_itsi servers) as [rest|] eqn:E; [|by apply assigned_color].
  destruct (splice_itsi_NoDup _ _ Hnd E) as [Hndr Hni].
  assert (Hpr : Forall (λ s, to_string s ≠ "__proto__") rest).
  { apply Forall_forall. intros t Ht. rewrite Forall_forall in Hp.
    apply Hp. by eapply splice_itsi_elem. }
  destruct (decide (s ∈ rest)) as [Hr|Hr]; [by apply assigned_color|].
  assert (to_string s = "itsi") as ->.
  { clear -E Hr Hs. revert rest E Hr. induction servers as [|a l IH]; simpl; intros rest E Hr;
      [by apply elem_of_nil in Hs|].
    destruct (strict_eq a (PStr "itsi")) eqn:Ea; simplify_eq/=.
    - apply strict_eq_str in Ea as ->. apply elem_of_cons in Hs as [->|?]; done.
    - destruct (splice_itsi l) as [r|]; simplify_eq/=. rewrite elem_of_cons in Hr.
      apply elem_of_cons in Hs as [->|Hs]; [tauto|]. apply (IH Hs r); tauto. }
  exists itsiColor. split; [|by left]. rewrite assign_palette_other; [done|].
  intros t Ht Et. apply Hni. rewrite <- Et. by apply list_elem_of_fmap_2.
Qed.

(** The name a bar's colour is looked up under is the server's. *)
Lemma bar_key_server f i s k :
  server i = PStr s → has_char "+" s = false → has_char " " s = false → data_key f i = Ok k →
  replace_plus (default "" (head (split_on " " k))) = s.
Proof.
  intros Hi Hp Hsp Hk. unfold data_key in Hk. rewrite Hi in Hk. cbn [formatServerName exc_bind] in Hk.
  assert (Hru : has_char " " (replace_underscores s) = false).
  { by rewrite has_char_replace_underscores. }
  assert (head (split_on " " k) = Some (replace_underscores s)) as ->.
  { simplify_eq. destruct (strict_eq _ _).
    - unfold protocol_suffix. case_match; by apply split_space_head.
    - by rewrite split_on_none. }
  by apply replace_plus_underscores.
Qed.

(** ** Controls *)

Abbreviation attr_get := (prop_get (V := attr)).

(** The actions a control performs: the handler of the enclosing [Select] or
    [Tabs], applied to the values of the entries in it, and clicks with every
    combination of modifier keys. *)
Fixpoint choices (h : option (string → action)) (n : node) : list action :=
  match n with
  | Txt _ => []
  | El _ attrs children =>
      match h, attr_get attrs "value" with
      | Some g, Some (APrim (PStr v)) => [g v]
      | _, _ => []
      end
      ++ match attr_get attrs "onClick" with
         | Some (OnClick g) => [g false false; g false true; g true false; g true true]
         | _ => []
         end
      ++ concat (map (choices match attr_get attrs "onValueChange" with
                              | Some (OnValue g) => Some g
                              | _ => h
                              end) children)
  end.

(** The choices below some nodes. *)
Definition below (h : option (string → action)) (l : list node) : list action :=
  concat (map (choices h) l).

Lemma below_nil h : below h [] = [].
Proof. done. Qed.

Lemma below_cons h n l : below h (n :: l) = choices h n ++ below h l.
Proof. done. Qed.

Lemma below_app h l1 l2 : below h (l1 ++ l2) = below h l1 ++ below h l2.
Proof. unfold below. by rewrite map_app, concat_app. Qed.

Lemma elem_of_below h l a : a ∈ below h l ↔ ∃ n, n ∈ l ∧ a ∈ choices h n.
Proof.
  unfold below. rewrite list_elem_of_In, List.in_concat. setoid_rewrite <- list_elem_of_In. split.
  - intros (x & (n & -> & Hn)%list_elem_of_fmap & Ha). eauto.
  - intros (n & Hn & Ha). exists (choices h n). split; [|done]. by apply list_elem_of_fmap_2.
Qed.

Lemma below_fmap_nil {A} (g : A → node) h l : (∀ x, choices h (g x) = []) → below h (g <$> l) = [].
Proof. intros Hg. induction l as [|x l IH]; [done|]. rewrite fmap_cons, below_cons. by rewrite Hg, IH. Qed.

Lemma choices_Txt h s : choices h (Txt s) = [].
Proof. done. Qed.

Lemma below_child h v : below h (child v) = [].
Proof. by destruct v. Qed.

Lemma choices_El h tag attrs l :
  attr_get attrs "value" = None → attr_get attrs "onClick" = None →
  attr_get attrs "onValueChange" = None → choices h (El tag attrs l) = below h l.
Proof. intros H1 H2 H3. cbn [choices]. rewrite H1, H2, H3. by destruct h. Qed.

Lemma choices_div h cls l : choices h (div cls l) = below h l.
Proof. by apply choices_El. Qed.

Lemma choices_span h cls l : choices h (span cls l) = below h l.
Proof. by apply choices_El. Qed.

Lemma choices_label h id title : choices h (filter_label id title) = [].
Proof. by destruct h. Qed.

Lemma choices_trigger h id ph : choices h (trigger id ph) = [].
Proof. by destruct h. Qed.

(** An entry of a menu performs the menu's handler on its value. *)
Lemma choices_item g key v cls l :
  below (Some g) l = [] → choices (Some g) (SelectItem key (Some v) cls l) = [g v].
Proof.
  intros Hl. unfold below in Hl. unfold SelectItem. cbn [choices from_option].
  assert (∀ k, k ∈ ["onClick"; "onValueChange"] →
    attr_get (from_option (λ k, [("key", AStr k)]) [] key ++ [("value", AStr v)] ++ [className cls]) k
    = None) as Hn.
  { intros k [->|[->|[]%elem_of_nil]%elem_of_cons]%elem_of_cons; by destruct key. }
  rewrite (Hn "onClick"), (Hn "onValueChange") by set_solver.
  rewrite Hl. by destruct key.
Qed.

(** A menu of its own: its handler and the entries in it. *)
Lemma choices_Select g attrs l :
  attr_get attrs "onClick" = None → attr_get attrs "onValueChange" = Some (OnValue g) →
  ∀ tag, choices None (El tag attrs l) = below (Some g) l.
Proof. intros H1 H2 tag. cbn [choices]. by rewrite H1, H2. Qed.

Create Rewrite HintDb choices.
#[local] Hint Rewrite below_nil below_cons below_app choices_Txt below_child choices_div choices_span
  choices_label choices_trigger app_nil_r app_nil_l : choices.

(** The handlers of the menus, on the values the page writes into them. *)
Lemma change_number_shown key z :
  (0 < z < 2 ^ 53)%Z → change_number key (num_to_string (of_Z z)) = FilterChange key (PNum (of_Z z)).
Proof. intros Hz. unfold change_number. by rewrite parse_int_show by lia. Qed.

Lemma number_items_choices key options dflt l a :
  Forall pos_int options → number_items options dflt = Ok l →
  a ∈ below (Some (change_number key)) l →
  ∃ v, a = FilterChange key v ∧ offered options (PNum (parse_int dflt)) v.
Proof.
  intros Hp H Ha. destruct options as [|v0 options].
  { simplify_eq/=. autorewrite with choices in Ha.
    rewrite choices_item in Ha by done. apply list_elem_of_singleton in Ha as ->.
    eexists. split; [done|]. by right. }
  set (l0 := v0 :: options) in *. unfold number_items in H. fold l0 in H.
  change (exc_map (λ v, let! s := method_to_string v in
     Ok (SelectItem (Some (to_string v)) (Some s) "text-xs" (child v))) l0 = Ok l) in H.
  apply exc_map_Forall2 in H. apply elem_of_below in Ha as (n & Hn & Ha).
  apply list_elem_of_lookup in Hn as [k Hk].
  destruct (Forall2_lookup_r _ _ _ _ _ H Hk) as (v & Hv & Hnode).
  apply list_elem_of_lookup_2 in Hv. rewrite Forall_forall in Hp.
  destruct (Hp v Hv) as (z & Hz & Ez). subst v. simpl in Hnode. simplify_eq.
  rewrite choices_item in Ha by apply (below_child _ (PNum (of_Z z))).
  apply list_elem_of_singleton in Ha as ->. rewrite change_number_shown by done.
  eexists. split; [done|]. by left.
Qed.

Lemma number_filter_choices id title key axis ph dflt xAxis current options n a :
  Forall pos_int options →
  number_filter id title key axis ph dflt xAxis current options = Ok n → a ∈ choices None n →
  ∃ v, a = FilterChange key v ∧ offered options (PNum (parse_int dflt)) v.
Proof.
  intros Hp H Ha. unfold number_filter in H. destruct (method_to_string current); [|done].
  cbn [exc_bind] in H. destruct (number_items options dflt) as [its|] eqn:E; [|done].
  cbn [exc_bind] in H. simplify_eq. autorewrite with choices in Ha.
  rewrite (choices_Select (change_number key)) in Ha by done. autorewrite with choices in Ha.
  rewrite choices_El in Ha by done. by eapply number_items_choices.
Qed.

Lemma text_items_choices key cls (l : list prim) a :
  Forall name l →
  a ∈ below (Some (change_text key))
        ((λ c, SelectItem (Some (to_string c)) (Some (to_string c)) cls (child c)) <$> l) →
  ∃ v, a = FilterChange key v ∧ v ∈ l.
Proof.
  intros Hn (n & (c & -> & Hc)%list_elem_of_fmap & Ha)%elem_of_below.
  rewrite choices_item in Ha by apply below_child. apply list_elem_of_singleton in Ha as ->.
  rewrite Forall_forall in Hn. destruct (Hn c Hc) as (s & _ & ->). by exists (PStr s).
Qed.

(** The test-case menu lists tests of the CPU. *)
Lemma menu_own lc items c gt sg :
  groupedTestCases lc items c = Ok (gt, sg) →
  (∀ g, g ∈ sg → ∃ ts, own_get gt g = Some ts) ∧
  (∀ g ts t, own_get gt g = Some ts → t ∈ ts →
     ∃ i, i ∈ items ∧ strict_eq (cpu i) c = true ∧ truthy (test_case i) = true ∧ test_case i = t).
Proof.
  unfold groupedTestCases. intros H.
  destruct (exc_foldl _ _ _) as [o|] eqn:E; [|done]. cbn [exc_bind] in H. simplify_eq.
  destruct (groups_of_fold _ _ _ _ groups_of_nil E) as (_ & _ & Hg). split.
  - intros g Hgin. rewrite elem_of_sort_by, elem_of_object_keys in Hgin.
    by apply own_get_is_Some.
  - intros g ts t Hts Ht. rewrite own_get_sorted in Hts. apply fmap_Some in Hts as (ts' & Ets & ->).
    apply elem_of_sort_by in Ht.
    destruct (proj1 (Hg g t)) as (i & Hi & Hr & _ & Et); [eauto|].
    apply elem_of_lfilter in Hi as [Hc Hi]. unfold relevant in Hr. breflect. eauto 10.
Qed.

Lemma test_filter_choices f menu n a :
  (∀ g ts, own_get menu.1 g = Some ts → Forall name ts) →
  test_case_filter f menu = Ok n → a ∈ choices None n →
  ∃ g ts t, own_get menu.1 g = Some ts ∧ t ∈ ts ∧ a = FilterChange KTestCase t.
Proof.
  intros Hn H Ha. unfold test_case_filter in H. destruct (exc_map _ _) as [gs|] eqn:E; [|done].
  cbn [exc_bind] in H. simplify_eq. autorewrite with choices in Ha.
  rewrite (choices_Select (change_text KTestCase)) in Ha by done. autorewrite with choices in Ha.
  rewrite choices_El in Ha by done. apply exc_map_Forall2 in E.
  apply elem_of_below in Ha as (m & Hm & Ha). apply list_elem_of_lookup in Hm as [k Hk].
  destruct (Forall2_lookup_r _ _ _ _ _ E Hk) as (g & _ & Hg). unfold test_group in Hg.
  unfold obj_get in Hg. destruct (own_get menu.1 g) as [ts|] eqn:Eg; [|by destruct (reserved g)]. simplify_eq.
  rewrite choices_El, below_cons, choices_El in Ha by done. autorewrite with choices in Ha.
  destruct (text_items_choices _ _ _ _ (Hn g ts Eg) Ha) as (v & -> & Hv). eauto 10.
Qed.

Lemma http2_filter_choices f fo n a :
  opts_ok fo → http2_filter f fo = Ok n → a ∈ choices None n →
  ∃ v, a = FilterChange KHttp2 v ∧ v ∈ o_http2Options fo.
Proof.
  intros Ho H Ha. unfold http2_filter in H. destruct (method_to_string (f_http2 f)); [|done].
  cbn [exc_bind] in H. simplify_eq. autorewrite with choices in Ha.
  rewrite (choices_Select change_http2) in Ha by done. autorewrite with choices in Ha.
  rewrite choices_El in Ha by done. rewrite below_cons, choices_item in Ha by done.
  apply elem_of_cons in Ha as [->|Ha].
  { eexists. split; [done|]. by apply all_offered. }
  apply elem_of_below in Ha as (m & (v & -> & [Hv Hin]%elem_of_lfilter)%list_elem_of_fmap & Ha).
  rewrite choices_item in Ha by done. apply list_elem_of_singleton in Ha as ->.
  exists v. split; [|done].
  destruct (http2_elem fo v Ho Hin) as [->|[b ->]]; [done|]. by destruct b.
Qed.

(** ** The rest of the page has no menus; its clicks are those of the legend *)

Lemma below_when h b l : below h l = [] → below h (when b l) = [].
Proof. intros Hl. by destruct b. Qed.

Lemma below_and_then h v l : below h l = [] → below h (and_then v l) = [].
Proof. intros Hl. unfold and_then. destruct (truthy v); [exact Hl|apply below_child]. Qed.

Lemma below_imap_nil {A} (g : nat → A → node) h l :
  (∀ k x, choices h (g k x) = []) → below h (imap g l) = [].
Proof.
  revert g. induction l as [|x l IH]; intros g Hg; [done|].
  rewrite imap_cons, below_cons, Hg. apply (IH (λ k, g (S k))). intros k y. apply Hg.
Qed.

Ltac no_choices :=
  repeat first
    [ progress autorewrite with choices
    | rewrite below_when by no_choices
    | rewrite below_and_then by no_choices
    | rewrite below_fmap_nil by (intros; no_choices)
    | rewrite choices_El by done ];
  try done.

Lemma card_title_choices f : choices None (card_title f) = [].
Proof. unfold card_title. no_choices. Qed.

#[local] Hint Rewrite card_title_choices : choices.

Lemma bar_chart_choices f pts ks colors k n :
  bar_chart f pts ks colors k = Ok n → choices None n = [].
Proof.
  unfold bar_chart. destruct (capitalize (f_xAxis f)); [|done]. cbn [exc_bind]. intros [= <-].
  rewrite choices_El by done. cbn [app]. no_choices.
  rewrite !below_imap_nil; [done|..]; intros; unfold chart_bar_node, hover_bar_node; by rewrite choices_El.
Qed.

Lemma details_choices f colors h w n : details_card f colors h w = Ok n → choices None n = [].
Proof.
  unfold details_card, hovered_details. destruct h as [[v|i]|]; [done| |].
  - unfold result_details. destruct (formatServerName (server i)); [|done].
    destruct (results_of_item i) as [r|]; [|done]. cbn [exc_bind].
    destruct (method_to_fixed _ _); [|done]. cbn [exc_bind].
    destruct (latency_text (p95_latency r)); [|done]. cbn [exc_bind].
    destruct (latency_text (average r)); [|done]. cbn [exc_bind]. intros [= <-].
    unfold badge, color_dot, detail_row, error_rows. destruct (object_keys _); no_choices.
  - cbn [exc_bind]. intros [= <-]. no_choices.
Qed.

Lemma performers_choices it colors top g : below None (performers_card it colors top g) = [].
Proof.
  unfold performers_card, performer_row, color_dot. destruct top as [|e top]; [done|]. no_choices.
Qed.

Lemma chart_card_choices pf f fo pts ks colors visible k n a :
  chart_card pf f fo pts ks colors visible k = Ok n → a ∈ choices None n →
  ∃ s c m, s ∈ o_servers fo ∧ a = LegendClick s c m.
Proof.
  unfold chart_card. intros H Ha. destruct pts as [|pt pts].
  { simplify_eq. match type of Ha with _ ∈ ?l => assert (l = []) as E by no_choices end.
    rewrite E in Ha. by apply elem_of_nil in Ha. }
  destruct (bar_chart _ _ _ _ _) as [ch|] eqn:Ec; [|done]. cbn [exc_bind] in H.
  destruct (exc_map _ _) as [lg|] eqn:El; [|done]. cbn [exc_bind] in H. simplify_eq.
  match type of Ha with _ ∈ ?l => assert (l = below None lg) as E end.
  { no_choices. by rewrite (bar_chart_choices _ _ _ _ _ _ Ec). }
  rewrite E in Ha. clear E.
  apply exc_map_Forall2 in El. apply elem_of_below in Ha as (m & Hm & Ha).
  apply list_elem_of_lookup in Hm as [j Hj].
  destruct (Forall2_lookup_r _ _ _ _ _ El Hj) as (s & Hs & Hl). apply list_elem_of_lookup_2 in Hs.
  unfold legend_entry in Hl. destruct (formatServerName s); [|done]. cbn [exc_bind] in Hl. simplify_eq.
  assert (Ha' : a ∈ [LegendClick s false false; LegendClick s false true;
                     LegendClick s true false; LegendClick s true true]) by exact Ha.
  exists s. rewrite !elem_of_cons in Ha'. clear Ha. rename Ha' into Ha.
  destruct Ha as [->|[->|[->|[->|Ha]]]]; eauto. by apply elem_of_nil in Ha.
Qed.

(** ** The page as a whole *)

(** The derived values of a render and the three parts of the page. *)
Lemma view_parts lc pf it cpus d n :
  view lc pf it (Arr cpus) d = Ok n → cpus ≠ [] →
  let items := flattenedData (Arr cpus) in
  ∃ o menu pts st (top : list (string * tally)) ks column chart details,
    allFilterOptions (Arr cpus) = Ok o ∧
    groupedTestCases lc items (f_cpu (filters d)) = Ok menu ∧
    filter_column (filters d) (current_options items (o_cpus o) (filters d)) menu st = Ok column ∧
    chart_card pf (filters d) (current_options items (o_cpus o) (filters d)) pts ks
      (serverColors (o_servers o)) (visibleServers d) (activeDataKey (hover d)) = Ok chart ∧
    details_card (filters d) (serverColors (o_servers o)) (hoveredPoint (hover d))
      (negb (bool_decide (top = []))) = Ok details ∧
    choices None n = choices None column ++ choices None chart ++ choices None details.
Proof.
  intros H Hne items. unfold view in H. fold items in H.
  destruct (allFilterOptions (Arr cpus)) as [o|]; [|done]. cbn [exc_bind] in H.
  destruct (groupedTestCases lc items (f_cpu (filters d))) as [menu|]; [|done]. cbn [exc_bind] in H.
  destruct (chartData lc items (filters d) (visibleServers d)) as [pts|]; [|done]. cbn [exc_bind] in H.
  destruct (summaryStats _ _) as [st|]; [|done]. cbn [exc_bind] in H.
  destruct (topPerformers _ _ _) as [top|]; [|done]. cbn [exc_bind] in H.
  destruct (visibleDataKeys _ _ _ _) as [ks|]; [|done]. cbn [exc_bind] in H.
  destruct cpus as [|c cpus]; [done|].
  destruct (filter_column _ _ _ _) as [column|] eqn:E1; [|done]. cbn [exc_bind] in H.
  destruct (chart_card _ _ _ _ _ _ _ _) as [chart|] eqn:E2; [|done]. cbn [exc_bind] in H.
  destruct (details_card _ _ _ _) as [details|] eqn:E3; [|done]. cbn [exc_bind] in H.
  exists o, menu, pts, st, top, ks, column, chart, details. split_and!; try done.
  injection H as <-. no_choices. rewrite performers_choices. by rewrite app_nil_r.
Qed.

(** The choices of the filter column are those of its controls. *)
Lemma filter_column_choices f fo menu st n a :
  filter_column f fo menu st = Ok n → a ∈ choices None n →
  a ∈ choices None (cpu_filter f fo) ∨ (∃ m, test_case_filter f menu = Ok m ∧ a ∈ choices None m) ∨
  (∃ m, threads_filter f fo = Ok m ∧ a ∈ choices None m) ∨
  (∃ m, workers_filter f fo = Ok m ∧ a ∈ choices None m) ∨
  (∃ m, concurrency_filter f fo = Ok m ∧ a ∈ choices None m) ∨
  (∃ m, http2_filter f fo = Ok m ∧ a ∈ choices None m) ∨
  a ∈ choices None (x_axis_select f) ∨ a ∈ choices None (metric_select f).
Proof.
  unfold filter_column. intros H Ha.
  destruct (test_case_filter f menu) as [m1|]; [|done]. cbn [exc_bind] in H.
  destruct (threads_filter f fo) as [m2|]; [|done]. cbn [exc_bind] in H.
  destruct (workers_filter f fo) as [m3|]; [|done]. cbn [exc_bind] in H.
  destruct (concurrency_filter f fo) as [m4|]; [|done]. cbn [exc_bind] in H.
  destruct (http2_filter f fo) as [m5|]; [|done]. cbn [exc_bind] in H. injection H as <-.
  match type of Ha with _ ∈ ?l => assert (l = choices None (cpu_filter f fo) ++ choices None m1 ++
    choices None m2 ++ choices None m3 ++ choices None m4 ++ choices None m5 ++
    choices None (x_axis_select f) ++ choices None (metric_select f)) as E end.
  { no_choices. assert (below None (summary_stats f st) = []) as ->.
    { unfold summary_stats, stat_row. destruct st; [|done]. no_choices. }
    by rewrite app_nil_r, <- !app_assoc. }
  rewrite E, !elem_of_app in Ha. clear E.
  destruct Ha as [?|[?|[?|[?|[?|[?|[?|?]]]]]]]; eauto 10.
Qed.

Lemma cpu_filter_choices f fo a :
  Forall name (o_cpus fo) → a ∈ choices None (cpu_filter f fo) →
  ∃ v, a = FilterChange KCpu v ∧ v ∈ o_cpus fo.
Proof.
  intros Hn Ha. unfold cpu_filter in Ha. autorewrite with choices in Ha.
  rewrite (choices_Select (change_text KCpu)) in Ha by done. autorewrite with choices in Ha.
  rewrite choices_El in Ha by done. by eapply text_items_choices.
Qed.

Lemma x_axis_choices f a :
  a ∈ choices None (x_axis_select f) → ∃ v, a = FilterChange KXAxis v ∧ v ∈ x_axes.
Proof.
  intros Ha. assert (Ha' : a ∈ [FilterChange KXAxis (PStr "concurrency");
    FilterChange KXAxis (PStr "threads"); FilterChange KXAxis (PStr "workers")]) by exact Ha.
  clear Ha. rewrite !elem_of_cons, elem_of_nil in Ha'.
  destruct Ha' as [->|[->|[->|[]]]]; eexists; (split; [done|]); unfold x_axes; set_solver.
Qed.

Lemma metric_choices f a :
  a ∈ choices None (metric_select f) → ∃ v, a = FilterChange KMetric v ∧ v ∈ metrics.
Proof.
  intros Ha. assert (Ha' : a ∈ [FilterChange KMetric (PStr "rps");
    FilterChange KMetric (PStr "p95_latency"); FilterChange KMetric (PStr "errorRate")]) by exact Ha.
  clear Ha. rewrite !elem_of_cons, elem_of_nil in Ha'.
  destruct Ha' as [->|[->|[->|[]]]]; eexists; (split; [done|]); unfold metrics; set_solver.
Qed.

(** ** Rendering never throws *)

Definition latency_ok (v : prim) : Prop := v = Undefined ∨ v = Null ∨ ∃ n, v = PNum n.

(** What the page needs of a result, and [results.json] has: measurements, with
    latencies that may be missing, and well-formed parameters. *)
Record page_item (i : Item) : Prop := {
  pi_results : ∃ r n, results i = Some r ∧ requestsPerSec r = PNum n ∧
                      latency_ok (p95_latency r) ∧ latency_ok (average r);
  pi_server : ∃ s, server i = PStr s ∧ s ≠ "" ∧ reserved s = false;
  pi_threads : pos_int (threads i);
  pi_workers : pos_int (workers i);
  pi_concurrency : pos_int (concurrency i);
  pi_http2 : ∃ b, http2 i = PBool b;
  pi_group : reserved (to_string (group i)) = false;
}.

Definition hover_ok (h : HoverState) : Prop :=
  match hoveredPoint h with
  | None => True
  | Some (CItem i) => page_item i
  | Some (CPrim _) => False
  end.

Lemma page_item_axis f i : page_item i → f_xAxis f ∈ x_axes → axis_int f i.
Proof.
  intros Hi Hx. unfold axis_int. unfold x_axes in Hx. rewrite !elem_of_cons, elem_of_nil in Hx.
  destruct Hx as [->|[->|[->|[]]]]; apply Hi.
Qed.

Lemma page_item_chart f i : page_item i → f_xAxis f ∈ x_axes → chart_item f i.
Proof.
  intros Hi Hx. split; [|destruct (pi_server i Hi) as (s & ? & _); eauto|by apply page_item_axis].
  destruct (pi_results i Hi) as (r & _ & -> & _). eauto.
Qed.

Lemma page_item_rank i : page_item i → rank_item i.
Proof.
  intros Hi. split; try apply Hi.
  - destruct (pi_results i Hi) as (r & _ & -> & _). eauto.
  - by destruct (pi_server i Hi) as (s & -> & _ & ?).
  - apply config_key_free, Hi.
Qed.

Lemma Forall_sub {A} (P : A → Prop) l l' : Forall P l → l' ⊆ l → Forall P l'.
Proof. rewrite !Forall_forall. auto. Qed.

Lemma menu_ok lc items c :
  Forall page_item items → ∃ menu, groupedTestCases lc items c = Ok menu.
Proof.
  intros Hi. unfold groupedTestCases. destruct (exc_foldl _ _ _) as [o|[]] eqn:E; simpl; [eauto|].
  apply (group_fold_throws _ [] [] groups_of_nil) in E as (i & [_ Hin]%elem_of_lfilter & _ & Hr).
  rewrite Forall_forall in Hi. pose proof (pi_group i (Hi i Hin)). congruence.
Qed.

Lemma stats_ok filtered metric :
  Forall page_item filtered → ∃ st, summaryStats filtered metric = Ok st.
Proof.
  intros Hi. unfold summaryStats. case_bool_decide; [eauto|]. unfold metric_values.
  destruct (exc_map_ok (λ i : Item, let! r := results_of_item i in Ok (metric_of metric r)) filtered)
    as [vs ->]; [|simpl; eauto].
  intros i Hin. rewrite Forall_forall in Hi. destruct (pi_results i (Hi i Hin)) as (r & _ & Hr & _).
  unfold results_of_item. rewrite Hr. simpl. eauto.
Qed.

Lemma top_ok items filtered c : Forall page_item items → ∃ top, topPerformers items filtered c = Ok top.
Proof.
  intros Hi. unfold topPerformers. destruct filtered as [|i l]; [eauto|].
  destruct (truthy (group i)); [|eauto].
  destruct (performance_map_ok items c (group i)) as (pm & -> & _); [|simpl; eauto].
  apply Forall_lfilter. eapply Forall_impl; [apply Hi|apply page_item_rank].
Qed.

Lemma number_filter_ok id title key axis ph dflt x v l :
  pos_int v → Forall pos_int l → ∃ n, number_filter id title key axis ph dflt x v l = Ok n.
Proof.
  intros (z & _ & ->) Hl. unfold number_filter. cbn [method_to_string exc_bind].
  unfold number_items. destruct Hl as [|w l (y & _ & ->) Hl]; [simpl; eauto|].
  destruct (exc_map_ok (λ v, let! s := method_to_string v in
    Ok (SelectItem (Some (to_string v)) (Some s) "text-xs" (child v))) (PNum (of_Z y) :: l)) as [its Hits].
  - intros u Hu. assert (pos_int u ∨ ∃ m, u = PNum m) as Hcase.
    { apply elem_of_cons in Hu as [->|Hu]; [eauto|]. rewrite Forall_forall in Hl. auto. }
    destruct Hcase as [(k & _ & ->)|[m ->]]; simpl; eauto.
  - rewrite Hits. simpl. eauto.
Qed.

Lemma filter_column_ok lc items c f fo menu st :
  typed_filters f → opts_ok fo → groupedTestCases lc items c = Ok menu →
  ∃ n, filter_column f fo menu st = Ok n.
Proof.
  intros Hf Ho Hm. destruct menu as [gt sg]. destruct (menu_own _ _ _ _ _ Hm) as [Hown _].
  unfold filter_column, test_case_filter.
  destruct (exc_map_ok (test_group gt) sg) as [gs Hgs].
  { intros g Hg. destruct (Hown g Hg) as [ts Hts]. unfold test_group, obj_get. rewrite Hts. eauto. }
  cbn [fst snd]. rewrite Hgs. cbn [exc_bind].
  unfold threads_filter, workers_filter, concurrency_filter, http2_filter.
  destruct (number_filter_ok "threads-filter" "Threads" KThreads "threads" "Select threads" "1"
    (f_xAxis f) (f_threads f) (o_threads fo)) as [n1 ->]; [apply Hf|apply Ho|]. cbn [exc_bind].
  destruct (number_filter_ok "workers-filter" "Workers" KWorkers "workers" "Select workers" "1"
    (f_xAxis f) (f_workers f) (o_workers fo)) as [n2 ->]; [apply Hf|apply Ho|]. cbn [exc_bind].
  destruct (number_filter_ok "concurrency-filter" "Concurrency" KConcurrency "concurrency"
    "Select concurrency" "10" (f_xAxis f) (f_concurrency f) (o_concurrencyLevels fo)) as [n3 ->];
    [apply Hf|apply Ho|]. cbn [exc_bind].
  destruct (t_http2 _ Hf) as [->|[b ->]]; cbn [method_to_string exc_bind]; eauto.
Qed.

Lemma chart_card_ok pf f fo pts ks colors visible k :
  f_xAxis f ∈ x_axes → Forall name (o_servers fo) →
  ∃ n, chart_card pf f fo pts ks colors visible k = Ok n.
Proof.
  intros Hx Hs. unfold chart_card. destruct pts as [|pt pts]; [eauto|].
  assert (∃ t, capitalize (f_xAxis f) = Ok t) as [t Ht].
  { unfold x_axes in Hx. rewrite !elem_of_cons, elem_of_nil in Hx.
    destruct Hx as [->|[->|[->|[]]]]; simpl; eauto. }
  unfold bar_chart. rewrite Ht. cbn [exc_bind].
  destruct (exc_map_ok (legend_entry pf colors visible) (o_servers fo)) as [lg ->]; [|simpl; eauto].
  intros s Hin. rewrite Forall_forall in Hs. destruct (Hs s Hin) as (u & _ & ->).
  unfold legend_entry. simpl. eauto.
Qed.

Lemma latency_text_ok v : latency_ok v → ∃ s, latency_text v = Ok s.
Proof. intros [->|[->|[n ->]]]; unfold latency_text; simpl; eauto. Qed.

Lemma details_ok f colors h w : hover_ok h → ∃ n, details_card f colors (hoveredPoint h) w = Ok n.
Proof.
  unfold hover_ok, details_card, hovered_details.
  destruct (hoveredPoint h) as [[v|i]|]; [done| |simpl; eauto]. intros Hi.
  destruct (pi_results i Hi) as (r & n & Hr & Hrps & Hp & Ha).
  destruct (pi_server i Hi) as (s & Hs & _).
  unfold result_details, results_of_item. rewrite Hs, Hr. cbn [formatServerName exc_bind].
  rewrite Hrps. cbn [method_to_fixed exc_bind].
  destruct (latency_text_ok _ Hp) as [t1 ->], (latency_text_ok _ Ha) as [t2 ->]. simpl. eauto.
Qed.

Lemma view_ok lc pf it cpus o d :
  world cpus o → Forall page_item (flattenedData (Arr cpus)) →
  typed_filters (filters d) → hover_ok (hover d) →
  ∃ n, view lc pf it (Arr cpus) d = Ok n.
Proof.
  intros W Hi Hf Hh. unfold view. set (items := flattenedData (Arr cpus)) in *.
  rewrite (w_opts _ _ W). cbn [exc_bind].
  assert (Hfi : Forall page_item (filteredData items (filters d))) by (by apply Forall_lfilter).
  destruct (menu_ok lc items (f_cpu (filters d)) Hi) as [menu Hm]. rewrite Hm. cbn [exc_bind].
  destruct (chartData_ok lc items (filters d) (visibleServers d)) as [pts ->].
  { apply chart_items_ready. eapply Forall_impl; [apply Hfi|]. intros i Hpi.
    apply page_item_chart; [done|apply Hf]. }
  cbn [exc_bind]. destruct (stats_ok _ (f_metric (filters d)) Hfi) as [st ->]. cbn [exc_bind].
  destruct (top_ok items (filteredData items (filters d)) (f_cpu (filters d)) Hi) as [top ->].
  cbn [exc_bind].
  destruct (visibleDataKeys_ok items (o_cpus o) (filters d) (visibleServers d) (w_items _ _ W))
    as [ks ->].
  cbn [exc_bind]. destruct cpus as [|c cpus]; [eauto|].
  pose proof (cur_ok (c :: cpus) o W (f_cpu (filters d)) (f_testCase (filters d))) as Hc.
  destruct (filter_column_ok lc items _ (filters d) _ menu st Hf Hc Hm) as [n1 Hn1].
  unfold current_options. fold items in Hn1. rewrite Hn1. cbn [exc_bind].
  destruct (chart_card_ok pf (filters d) (filterOptions items (o_cpus o) (f_cpu (filters d))
    (f_testCase (filters d))) pts ks (serverColors (o_servers o)) (visibleServers d)
    (activeDataKey (hover d)) (t_xAxis _ Hf) (ok_servers _ Hc)) as [n2 ->].
  cbn [exc_bind].
  destruct (details_ok (filters d) (serverColors (o_servers o)) (hover d)
    (negb (bool_decide (top = []))) Hh) as [n3 ->]. simpl. eauto.
Qed.

(** ** Hovering the chart *)

(** Where the hover state comes from: nothing hovered, or a bar of some chart drawn
    from the data. *)
Inductive chart_hover (lc : string → string → comparison) (items : list Item) : HoverState → Prop :=
  | hover_none : chart_hover lc items (handleChartHover None)
  | hover_bar f visible pts pt i k :
      clean f (filteredData items f) → chartData lc items f visible = Ok pts → pt ∈ pts →
      i ∈ filteredData items f → data_key f i = Ok k →
      chart_hover lc items (handleChartHover (Some (k, pt))).

Lemma hovered_is_item lc items f visible pts pt i k c :
  clean f (filteredData items f) → chartData lc items f visible = Ok pts → pt ∈ pts →
  i ∈ filteredData items f → data_key f i = Ok k → own_get pt (k +:+ "_data") = Some c →
  ∃ j, j ∈ items ∧ c = CItem j.
Proof.
  intros Hc H Hpt Hi Hk Hg. destruct (chartData_point _ _ _ _ _ _ Hc H Hpt) as (x & _ & Hb).
  destruct (Hc i k Hi Hk) as [(_ & C2 & _) _].
  destruct (bars_only _ _ _ _ _ Hb _ _ Hg) as [?|(j & k' & Hj & Hv & Hjk & Hcase)]; [done|].
  pose proof Hj as Hjf%with_key_sub. destruct Hcase as [Hcase|Hcase].
  { destruct (Hc j k' Hjf Hjk) as [_ C5]. exfalso. by apply (C5 i k Hi Hk). }
  apply string_app_inj_r in Hcase as <-.
  destruct (bars_shown _ _ _ _ _ Hb j Hj Hv) as (k2 & j2 & r & Hk2 & Hj2 & _ & _ & _ & _ & Hd).
  rewrite Hjk in Hk2. simplify_eq. exists j2. split; [|done].
  apply with_key_sub in Hj2. by apply elem_of_filteredData in Hj2 as [_ ?].
Qed.

Lemma chart_hover_ok lc items h :
  Forall page_item items → chart_hover lc items h → hover_ok h.
Proof.
  intros Hp Hh. destruct Hh as [|f visible pts pt i k Hc H Hpt Hi Hk]; [done|].
  unfold handleChartHover. destruct (own_get pt (k +:+ "_data")) as [c|] eqn:E; [|done].
  destruct (hovered_is_item _ _ _ _ _ _ _ _ _ Hc H Hpt Hi Hk E) as (j & Hj & ->).
  unfold hover_ok. cbn. rewrite Forall_forall in Hp. auto.
Qed.

(** Every choice of the filter column is offered. *)
Lemma column_offered lc cpus o d menu st col a :
  world cpus o →
  let items := flattenedData (Arr cpus) in
  groupedTestCases lc items (f_cpu (filters d)) = Ok menu →
  filter_column (filters d) (current_options items (o_cpus o) (filters d)) menu st = Ok col →
  a ∈ choices None col → offered_action items o d a.
Proof.
  intros W items Hm E1 Ha.
  pose proof (cur_ok cpus o W (f_cpu (filters d)) (f_testCase (filters d))) as Hc.
  destruct menu as [gt sg]. destruct (menu_own _ _ _ _ _ Hm) as [_ Htests].
  destruct (filter_column_choices _ _ _ _ _ _ E1 Ha)
    as [Ha1|[(m & Em & Hm')|[(m & Em & Hm')|[(m & Em & Hm')|[(m & Em & Hm')|[(m & Em & Hm')|[Ha1|Ha1]]]]]]].
  - destruct (cpu_filter_choices _ _ _ (ok_cpus _ Hc) Ha1) as (v & -> & Hv). by apply offer_cpu.
  - assert (Hin : ∀ g ts t, own_get gt g = Some ts → t ∈ ts →
      t ∈ o_testCases (current_options items (o_cpus o) (filters d))).
    { intros g ts t Hg Ht. destruct (Htests g ts t Hg Ht) as (i & Hi & Hci & Htr & <-).
      apply elem_of_distinct_truthy'. split; [done|]. exists i. split; [|done].
      by apply elem_of_lfilter. }
    assert (Hn : ∀ g ts, own_get gt g = Some ts → Forall name ts).
    { intros g ts Hg. apply Forall_forall. intros t Ht. pose proof (ok_testCases _ Hc) as Hnames.
      rewrite Forall_forall in Hnames. by eapply Hnames, Hin. }
    destruct (test_filter_choices _ (gt, sg) _ _ Hn Em Hm') as (g & ts & t & Hg & Ht & ->).
    apply offer_test. by eapply Hin.
  - destruct (number_filter_choices _ _ _ _ _ _ _ _ _ _ _ (ok_threads _ Hc) Em Hm') as (v & -> & Hv).
    by apply offer_threads.
  - destruct (number_filter_choices _ _ _ _ _ _ _ _ _ _ _ (ok_workers _ Hc) Em Hm') as (v & -> & Hv).
    by apply offer_workers.
  - destruct (number_filter_choices _ _ _ _ _ _ _ _ _ _ _ (ok_concurrency _ Hc) Em Hm')
      as (v & -> & Hv). by apply offer_concurrency.
  - destruct (http2_filter_choices _ _ _ _ Hc Em Hm') as (v & -> & Hv). by apply offer_http2.
  - destruct (x_axis_choices _ _ Ha1) as (v & -> & Hv). by apply offer_axis.
  - destruct (metric_choices _ _ Ha1) as (v & -> & Hv). by apply offer_metric.
Qed.

(** ** Main theorems *)

(** C6: the page never crashes: in every state a user can reach from any URL, on
    data with well-formed results whose latencies may be missing, rendering
    returns a page, with nothing hovered or any bar of any chart hovered. *)
Theorem page_always_renders lc platform inherited cpus o d :
  world cpus o → Forall page_item (flattenedData (Arr cpus)) →
  reachable (flattenedData (Arr cpus)) o d →
  chart_hover lc (flattenedData (Arr cpus)) (hover d) →
  ∃ n, view lc platform inherited (Arr cpus) d = Ok n.
Proof.
  intros W Hp Hd Hh. apply (view_ok _ _ _ cpus o); [done|done| |by eapply chart_hover_ok].
  by eapply reachable_typed.
Qed.

(** The controls of a rendered page. *)
Lemma view_offered lc platform inherited cpus o d n :
  world cpus o → view lc platform inherited (Arr cpus) d = Ok n →
  ∀ a, a ∈ choices None n → offered_action (flattenedData (Arr cpus)) o d a.
Proof.
  intros W H a Ha. destruct (decide (cpus = [])) as [->|Hne].
  { unfold view in H. cbn in H. change (summaryStats [] (f_metric (filters d))) with (Ok (A := option Stats) None) in H.
    cbn in H. simplify_eq. exfalso. revert Ha.
    match goal with |- _ ∈ ?l → _ => assert (l = []) as -> by reflexivity end. apply not_elem_of_nil. }
  destruct (view_parts _ _ _ _ _ _ H Hne)
    as (o' & menu & pts & st & top & ks & col & ch & det & Ho & Hm & E1 & E2 & E3 & Hch).
  rewrite (w_opts _ _ W) in Ho. injection Ho as <-.
  set (items := flattenedData (Arr cpus)) in *.
  rewrite Hch, !elem_of_app, (details_choices _ _ _ _ _ E3), elem_of_nil in Ha.
  destruct Ha as [Ha|[Ha|[]]].
  2: { destruct (chart_card_choices _ _ _ _ _ _ _ _ _ _ E2 Ha) as (s & c & m & Hs & ->).
       by apply offer_legend. }
  by eapply column_offered.
Qed.

(** C7: every control of the page does something the state machine allows: each
    entry of each menu, each tab and each click in the legend performs an action
    whose value is offered for the current selection; a number survives being
    written into the menu as a text and parsed back. *)
Theorem page_controls_offered lc platform inherited cpus o d n :
  world cpus o → view lc platform inherited (Arr cpus) d = Ok n →
  ∀ a, a ∈ choices None n → offered_action (flattenedData (Arr cpus)) o d a.
Proof. apply view_offered. Qed.

(** C26: every bar is drawn in the colour of its server, the one the legend shows:
    although the bar only knows its display name, with [+] for [__] and the protocol
    appended, the lookup finds the server's own colour and never falls back to
    another one, when server names have no space and no [+]. *)
Theorem bar_has_server_colour servers f i s k index :
  NoDup (to_string <$> servers) → Forall (λ s, to_string s ≠ "__proto__") servers →
  PStr s ∈ servers → has_char "+" s = false → has_char " " s = false →
  server i = PStr s → data_key f i = Ok k →
  ∃ c, bar_fill (serverColors servers) k index = Own c ∧
       obj_get (serverColors servers) s = Own c ∧ c ∈ itsiColor :: palette.
Proof.
  intros Hnd Hp Hs Hplus Hspace Hi Hk.
  destruct (server_color servers (PStr s) Hnd Hp Hs) as (c & Hc & Hcol). cbn [to_string] in Hc.
  assert (Ho : obj_get (serverColors servers) s = Own c) by (unfold obj_get; by rewrite Hc).
  exists c. split_and!; [|done|done]. unfold bar_fill.
  rewrite (bar_key_server f i s k Hi Hplus Hspace Hk), Ho. unfold color_truthy.
  by rewrite bool_decide_false by (by apply color_nonempty).
Qed.

(** ** Witnesses *)

Definition latency_b (v : prim) : bool :=
  match v with Undefined | Null | PNum _ => true | _ => false end.

Definition page_item_b (i : Item) : bool :=
  match results i with
  | Some r => is_number (requestsPerSec r) && latency_b (p95_latency r) && latency_b (average r)
  | None => false
  end
  && match server i with PStr s => negb (bool_decide (s = "")) && negb (reserved s) | _ => false end
  && pos_int_b (threads i) && pos_int_b (workers i) && pos_int_b (concurrency i)
  && is_boolean (http2 i) && negb (reserved (to_string (group i))).

Lemma latency_b_ok v : latency_b v = true → latency_ok v.
Proof. unfold latency_ok. destruct v; try done; eauto. Qed.

Lemma page_item_b_ok l : forallb page_item_b l = true → Forall page_item l.
Proof.
  rewrite forallb_forall, Forall_forall. intros H i Hi. apply list_elem_of_In in Hi.
  specialize (H i Hi). unfold page_item_b in H. repeat rewrite andb_true_iff in H.
  destruct H as [[[[[[H1 H2] H3] H4] H5] H6] H7].
  split; try (by apply pos_int_b_ok); try (by apply negb_true_iff).
  - destruct (results i) as [r|]; [|done]. repeat rewrite andb_true_iff in H1.
    destruct H1 as [[Hr Hp] Ha]. destruct (requestsPerSec r) as [| | |n|] eqn:E; try done.
    exists r, n. auto using latency_b_ok.
  - destruct (server i) as [| | | |s]; try done. apply andb_true_iff in H2 as [Hs Hr].
    exists s. split_and!; [done|by intros ->|by apply negb_true_iff].
  - destruct (http2 i); try done. eauto.
Qed.

Definition no_text (s : string) : string := "".

Lemma page_always_renders_witness :
  ∃ n, view String.compare "MacIntel" no_text (Arr [Some sample_cpu]) session_test = Ok n.
Proof.
  apply (page_always_renders String.compare "MacIntel" no_text [Some sample_cpu] sample_opts).
  - apply sample_world.
  - apply page_item_b_ok. by vm_compute.
  - apply session_test_reachable.
  - apply hover_none.
Defined.

Abbreviation session_page :=
  (view String.compare "MacIntel" no_text (Arr [Some sample_cpu]) session_test).

Definition page_node (m : exc node) : node := match m with Ok n => n | Throw _ => Txt "" end.

Lemma page_node_ok m : match m with Ok _ => true | Throw _ => false end = true → m = Ok (page_node m).
Proof. by destruct m. Qed.

Lemma session_page_ok : session_page = Ok (page_node session_page).
Proof. apply (page_node_ok session_page). by vm_compute. Qed.

(** The page of the session offers 25 choices: entries of menus, tabs, clicks. *)
Lemma page_controls_offered_witness :
  length (choices None (page_node session_page)) = 25 ∧
  ∀ a, a ∈ choices None (page_node session_page) → offered_action session_items sample_opts session_test a.
Proof.
  split; [by vm_compute|].
  apply (page_controls_offered String.compare "MacIntel" no_text [Some sample_cpu] sample_opts
           session_test (page_node session_page)).
  - apply sample_world.
  - exact session_page_ok.
Defined.

Lemma bar_has_server_colour_witness :
  ∃ c, bar_fill (serverColors sample_servers) "agoo (HTTP/1.1)" 3 = Own c ∧
       obj_get (serverColors sample_servers) "agoo" = Own c ∧ c ∈ itsiColor :: palette.
Proof.
  apply (bar_has_server_colour sample_servers chart_filters agoo_item "agoo" "agoo (HTTP/1.1)" 3);
    try done.
  - apply (bool_decide_unpack _). by vm_compute.
  - repeat constructor; done.
  - by left.
Defined.
