(* ===== verification/UseToast.v ===== *)
(** * The toast store

    Models [docs/benchmark-dashboard/hooks/use-toast.ts]: the reducer with its side
    effects on the removal queue, the module's global state (counter, store,
    listeners), [toast] with its [update] and [dismiss], the hook that registers a
    component as a listener, and the timers of the event loop. *)

From S2P Require Import Prelude JsSort JsNumber JsText JsValue.

Definition TOAST_LIMIT : nat := 1.
Definition TOAST_REMOVE_DELAY : N := 1000000.

(** [Number.MAX_SAFE_INTEGER]. *)
Definition MAX_SAFE_INTEGER : Z := 2 ^ 53 - 1.

(** A toast: its id, whether it is open, the toast its [onOpenChange] dismisses,
    and its other properties (title, description, action, variant). *)
Record ToasterToast := {
  t_id : string; t_open : option bool; t_onOpenChange : option string; t_props : obj prim;
}.

Inductive Action :=
  | ADD_TOAST (t : ToasterToast)
  | UPDATE_TOAST (t : ToasterToast)
  | DISMISS_TOAST (toastId : option string)
  | REMOVE_TOAST (toastId : option string).

(** [toastTimeouts] and the timers it refers to, with their due times. *)
Record Queue := {
  toastTimeouts : gmap string N;
  timers : list (N * string);
  clock : N;
}.

Definition addToRemoveQueue (q : Queue) (toastId : string) : Queue :=
  if bool_decide (is_Some (toastTimeouts q !! toastId)) then q
  else
    let due := (clock q + TOAST_REMOVE_DELAY)%N in
    {| toastTimeouts := <[toastId := due]> (toastTimeouts q);
       timers := timers q ++ [(due, toastId)];
       clock := clock q |}.

(** [{ ...t, ...u }]: a property that [u] has replaces the one of [t]. *)
Definition merge (t u : ToasterToast) : ToasterToast :=
  {| t_id := t_id u;
     t_open := match t_open u with Some b => Some b | None => t_open t end;
     t_onOpenChange := match t_onOpenChange u with Some h => Some h | None => t_onOpenChange t end;
     t_props := foldl (λ o kv, obj_define o kv.1 kv.2) (t_props t) (t_props u) |}.

Definition close (t : ToasterToast) : ToasterToast :=
  {| t_id := t_id t; t_open := Some false; t_onOpenChange := t_onOpenChange t; t_props := t_props t |}.

(** [if (toastId)]: neither [undefined] nor the empty text. *)
Definition given (toastId : option string) : option string :=
  match toastId with Some "" | None => None | Some i => Some i end.

Definition reducer (q : Queue) (toasts : list ToasterToast) (action : Action)
    : Queue * list ToasterToast :=
  match action with
  | ADD_TOAST t => (q, take TOAST_LIMIT (t :: toasts))
  | UPDATE_TOAST u => (q, (λ t, if bool_decide (t_id t = t_id u) then merge t u else t) <$> toasts)
  | DISMISS_TOAST toastId =>
      (match given toastId with
       | Some i => addToRemoveQueue q i
       | None => foldl addToRemoveQueue q (t_id <$> toasts)
       end,
       (λ t, if bool_decide (Some (t_id t) = toastId) || bool_decide (toastId = None)
             then close t else t) <$> toasts)
  | REMOVE_TOAST None => (q, [])
  | REMOVE_TOAST (Some i) => (q, List.filter (λ t, negb (bool_decide (t_id t = i))) toasts)
  end.

(** The module's state: the counter, the store, the queue, the registered
    listeners, and the state of each hook of a mounted component. *)
Record Store := {
  count : Z;
  memoryState : list ToasterToast;
  queue : Queue;
  listeners : list nat;
  hook_state : gmap nat (list ToasterToast);
}.

Definition initial_store : Store :=
  {| count := 0; memoryState := [];
     queue := {| toastTimeouts := ∅; timers := []; clock := 0 |};
     listeners := []; hook_state := ∅ |}.

(** [listener(memoryState)]: a listener is the [setState] of a hook, and has no
    effect once its component is gone. *)
Definition setState (ts : list ToasterToast) (m : gmap nat (list ToasterToast)) (h : nat)
    : gmap nat (list ToasterToast) := alter (λ _, ts) h m.

Definition dispatch (s : Store) (action : Action) : Store :=
  let r := reducer (queue s) (memoryState s) action in
  {| count := count s; memoryState := r.2; queue := r.1; listeners := listeners s;
     hook_state := foldl (setState r.2) (hook_state s) (listeners s) |}.

Definition next_count (c : Z) : Z := (c + 1) mod MAX_SAFE_INTEGER.

Definition genId (s : Store) : string * Store :=
  let c := next_count (count s) in
  (num_to_string (of_Z c),
   {| count := c; memoryState := memoryState s; queue := queue s; listeners := listeners s;
      hook_state := hook_state s |}).

(** [toast(props)]: the id it returns names its [dismiss] and [update]. *)
Definition toast (p : obj prim) (s : Store) : string * Store :=
  let (i, s1) := genId s in
  (i, dispatch s1 (ADD_TOAST {| t_id := i; t_open := Some true; t_onOpenChange := Some i; t_props := p |})).

Definition update (i : string) (u : ToasterToast) (s : Store) : Store :=
  dispatch s (UPDATE_TOAST {| t_id := i; t_open := t_open u; t_onOpenChange := t_onOpenChange u;
                              t_props := t_props u |}).

Definition dismiss (toastId : option string) (s : Store) : Store := dispatch s (DISMISS_TOAST toastId).

(** [onOpenChange: (open) => { if (!open) dismiss() }]. *)
Definition onOpenChange (i : string) (open : bool) (s : Store) : Store :=
  if open then s else dismiss (Some i) s.

(** [listeners.splice(listeners.indexOf(h), 1)]. *)
Fixpoint splice_listener (h : nat) (l : list nat) : list nat :=
  match l with
  | [] => []
  | x :: l' => if bool_decide (x = h) then l' else x :: splice_listener h l'
  end.

Definition with_listeners (s : Store) (l : list nat) (m : gmap nat (list ToasterToast)) : Store :=
  {| count := count s; memoryState := memoryState s; queue := queue s; listeners := l; hook_state := m |}.

(** The hook of a component, one step for each moment at which React runs a part of
    it: the first render reads the store; the effect registers the hook, after the
    first render and again after each change of its state; the clean-up of the effect
    runs before the effect does again, and when the component goes; and a component that
    goes loses its state.  Anything may happen between these moments. *)
Definition hook_render (h : nat) (s : Store) : Store :=
  with_listeners s (listeners s) (<[h := memoryState s]> (hook_state s)).
Definition hook_effect (h : nat) (s : Store) : Store :=
  with_listeners s (listeners s ++ [h]) (hook_state s).
Definition hook_cleanup (h : nat) (s : Store) : Store :=
  with_listeners s (splice_listener h (listeners s)) (hook_state s).
Definition hook_unmount (h : nat) (s : Store) : Store :=
  with_listeners s (listeners s) (delete h (hook_state s)).

Definition with_queue (s : Store) (q : Queue) : Store :=
  {| count := count s; memoryState := memoryState s; queue := q; listeners := listeners s;
     hook_state := hook_state s |}.

(** Time passes. *)
Definition elapse (n : N) (s : Store) : Store :=
  with_queue s {| toastTimeouts := toastTimeouts (queue s); timers := timers (queue s);
                  clock := clock (queue s) + n |}.

(** The callback of the first timer, if it is due; all timers have the same delay,
    so they are due in the order they were set. *)
Definition fire (s : Store) : Store :=
  match timers (queue s) with
  | (due, i) :: rest =>
      if (due <=? clock (queue s))%N then
        dispatch (with_queue s {| toastTimeouts := delete i (toastTimeouts (queue s));
                                  timers := rest; clock := clock (queue s) |})
          (REMOVE_TOAST (Some i))
      else s
  | [] => s
  end.

(** The event loop: fire as long as timers are due. *)
Fixpoint run_due (fuel : nat) (s : Store) : Store :=
  match fuel with 0 => s | S n => run_due n (fire s) end.

(** What can happen to the store. *)
Inductive op :=
  | OToast (p : obj prim)
  | OUpdate (i : string) (u : ToasterToast)
  | ODismiss (toastId : option string)
  | OOpenChange (i : string) (open : bool)
  | OElapse (n : N)
  | OFire
  | ORender (h : nat)
  | OEffect (h : nat)
  | OCleanup (h : nat)
  | OUnmount (h : nat).

Definition exec (a : op) (s : Store) : Store :=
  match a with
  | OToast p => (toast p s).2
  | OUpdate i u => update i u s
  | ODismiss toastId => dismiss toastId s
  | OOpenChange i open => onOpenChange i open s
  | OElapse n => elapse n s
  | OFire => fire s
  | ORender h => hook_render h s
  | OEffect h => hook_effect h s
  | OCleanup h => hook_cleanup h s
  | OUnmount h => hook_unmount h s
  end.

(** What React guarantees: a component that renders for the first time is a new one,
    an effect runs for a mounted component after the clean-up of its previous run, and
    a clean-up runs once per effect. *)
Definition allowed (s : Store) (a : op) : Prop :=
  match a with
  | ORender h => hook_state s !! h = None ∧ h ∉ listeners s
  | OEffect h => is_Some (hook_state s !! h) ∧ h ∉ listeners s
  | OCleanup h => h ∈ listeners s
  | OUnmount h => is_Some (hook_state s !! h)
  | _ => True
  end.

(** The first timer is due. *)
Definition is_due (s : Store) : bool :=
  match timers (queue s) with (due, _) :: _ => (due <=? clock (queue s))%N | [] => false end.

(** The operations that dispatch an action. *)
Definition dispatches (s : Store) (a : op) : bool :=
  match a with
  | OToast _ | OUpdate _ _ | ODismiss _ => true
  | OOpenChange _ open => negb open
  | OFire => is_due s
  | _ => false
  end.

(** The mounted hooks that missed the last dispatch: they were not registered when it
    happened.  Each dispatch decides this anew. *)
Definition late_after (s : Store) (a : op) (late : gset nat) : gset nat :=
  if dispatches s a then dom (hook_state s) ∖ list_to_set (listeners s) else late.

(** An update that sets [open] itself. *)
Definition sets_open (a : op) : bool :=
  match a with OUpdate _ u => bool_decide (is_Some (t_open u)) | _ => false end.

(** The states of the store, with the hooks that missed the last dispatch and
    whether an update has set [open]. *)
Inductive reachable_store : Store → gset nat → bool → Prop :=
  | store_start : reachable_store initial_store ∅ false
  | store_step s late touched a :
      reachable_store s late touched → allowed s a →
      reachable_store (exec a s) (late_after s a late) (touched || sets_open a).

(** ** The queue *)

Record queue_ok (q : Queue) : Prop := {
  q_nodup : NoDup (timers q).*2;
  q_dom : ∀ i, is_Some (toastTimeouts q !! i) ↔ i ∈ (timers q).*2;
  q_due : Forall (λ e, (e.1 ≤ clock q + TOAST_REMOVE_DELAY)%N) (timers q);
}.

Lemma addToRemoveQueue_ok q i : queue_ok q → queue_ok (addToRemoveQueue q i).
Proof.
  intros [Hnd Hdom Hdue]. unfold addToRemoveQueue. case_bool_decide as Hi; [done|].
  split; cbn [toastTimeouts timers clock].
  - rewrite fmap_app. apply NoDup_app. split_and!; [done| |apply NoDup_singleton].
    intros x Hx ->%list_elem_of_singleton. by apply Hi, Hdom.
  - intros j. rewrite fmap_app, elem_of_app, <- Hdom. simpl. rewrite list_elem_of_singleton.
    destruct (decide (j = i)) as [->|Hne].
    + rewrite lookup_insert_eq. split; eauto.
    + rewrite lookup_insert_ne by done. tauto.
  - apply Forall_app. split; [done|]. constructor; [|constructor]. simpl. lia.
Qed.

Lemma addToRemoveQueue_has q i j :
  is_Some (toastTimeouts (addToRemoveQueue q i) !! j) ↔ i = j ∨ is_Some (toastTimeouts q !! j).
Proof.
  unfold addToRemoveQueue. case_bool_decide as Hi; cbn [toastTimeouts].
  - split; [auto|]. intros [->|?]; done.
  - destruct (decide (i = j)) as [->|Hne].
    + rewrite lookup_insert_eq. split; eauto.
    + rewrite lookup_insert_ne by done. tauto.
Qed.

Lemma queue_all_ok l q : queue_ok q → queue_ok (foldl addToRemoveQueue q l).
Proof. revert q. induction l as [|i l IH]; intros q Hq; simpl; [done|]. by apply IH, addToRemoveQueue_ok. Qed.

Lemma queue_all_has l q j :
  is_Some (toastTimeouts (foldl addToRemoveQueue q l) !! j) ↔ j ∈ l ∨ is_Some (toastTimeouts q !! j).
Proof.
  revert q. induction l as [|i l IH]; intros q; simpl; [set_solver|].
  rewrite IH, addToRemoveQueue_has, elem_of_cons. naive_solver.
Qed.

(** ** The store *)

(** Closed toasts are on their way out. *)
Definition scheduled (q : Queue) (t : ToasterToast) : Prop :=
  t_open t = Some false → is_Some (toastTimeouts q !! t_id t).

Record store_ok (s : Store) (late : gset nat) (touched : bool) : Prop := {
  so_limit : length (memoryState s) ≤ TOAST_LIMIT;
  so_queue : queue_ok (queue s);
  so_closed : touched = false → Forall (scheduled (queue s)) (memoryState s);
  so_listeners : NoDup (listeners s);
  so_hooks : ∀ h ts, hook_state s !! h = Some ts → h ∉ late → ts = memoryState s;
}.

(** The mounted listeners receive the toasts; no other hook changes. *)
Lemma notify_all (l : list nat) (m : gmap nat (list ToasterToast)) (ts : list ToasterToast) h :
  foldl (setState ts) m l !! h = if decide (h ∈ l) then (λ _, ts) <$> m !! h else m !! h.
Proof.
  revert m. induction l as [|x l IH]; intros m; cbn [foldl]; [by rewrite decide_False by set_solver|].
  rewrite IH. unfold setState at 1 2. destruct (decide (x = h)) as [->|Hne].
  - rewrite lookup_alter_eq, (decide_True (P := h ∈ h :: l)) by set_solver.
    by destruct (m !! h), (decide (h ∈ l)).
  - rewrite lookup_alter_ne by done. by rewrite (decide_ext (h ∈ l) (h ∈ x :: l)) by set_solver.
Qed.

(** After a dispatch, only hooks that were not registered do not have the toasts. *)
Lemma dispatch_notifies s a h ts :
  hook_state (dispatch s a) !! h = Some ts →
  h ∉ dom (hook_state s) ∖ (list_to_set (listeners s) : gset nat) → ts = memoryState (dispatch s a).
Proof.
  unfold dispatch. cbn [hook_state memoryState]. rewrite notify_all. intros Hm Hh.
  destruct (decide (h ∈ listeners s)) as [|Hl].
  - by apply fmap_Some in Hm as (? & _ & ->).
  - destruct Hh. apply elem_of_difference. split; [by apply elem_of_dom_2 in Hm|].
    by rewrite elem_of_list_to_set.
Qed.

(** A dispatch keeps the invariant when the reducer does. *)
Lemma dispatch_ok s a touched :
  NoDup (listeners s) →
  let r := reducer (queue s) (memoryState s) a in
  length r.2 ≤ TOAST_LIMIT → queue_ok r.1 → (touched = false → Forall (scheduled r.1) r.2) →
  store_ok (dispatch s a) (dom (hook_state s) ∖ list_to_set (listeners s)) touched.
Proof. intros Hnd r Hl Hq Hc. split; try done. intros h ts. apply dispatch_notifies. Qed.

Lemma dismiss_reducer_ok q ts toastId :
  length ts ≤ TOAST_LIMIT → queue_ok q →
  let r := reducer q ts (DISMISS_TOAST toastId) in
  length r.2 ≤ TOAST_LIMIT ∧ queue_ok r.1 ∧ (Forall (scheduled q) ts → Forall (scheduled r.1) r.2).
Proof.
  intros Hl Hq. cbn [reducer fst snd]. rewrite length_fmap.
  set (q' := match given toastId with Some i => _ | None => _ end).
  assert (Hq' : queue_ok q').
  { unfold q'. destruct (given toastId); [by apply addToRemoveQueue_ok|by apply queue_all_ok]. }
  assert (Hmono : ∀ j, is_Some (toastTimeouts q !! j) → is_Some (toastTimeouts q' !! j)).
  { intros j Hj. unfold q'. destruct (given toastId);
      [apply addToRemoveQueue_has|apply queue_all_has]; auto. }
  split_and!; [done|done|]. intros Hc. rewrite Forall_fmap, Forall_forall in *. intros t Ht. simpl.
  case_match eqn:E; [|intros Ho; by apply Hmono, Hc].
  intros _. cbn [close t_id]. unfold q', given. destruct toastId as [[|c i]|].
  - apply queue_all_has. left. by apply list_elem_of_fmap_2.
  - apply addToRemoveQueue_has. left. rewrite orb_false_r in E. breflect. congruence.
  - apply queue_all_has. left. by apply list_elem_of_fmap_2.
Qed.

Lemma exec_dismiss_ok s late touched toastId :
  store_ok s late touched →
  store_ok (dismiss toastId s) (dom (hook_state s) ∖ list_to_set (listeners s)) touched.
Proof.
  intros [H1 H2 H3 H4 _]. destruct (dismiss_reducer_ok _ _ toastId H1 H2) as (? & ? & ?).
  apply dispatch_ok; auto.
Qed.

Lemma splice_listener_sub h l x : x ∈ splice_listener h l → x ∈ l.
Proof.
  induction l as [|y l IH]; simpl; [done|]. case_bool_decide; set_solver.
Qed.

Lemma splice_listener_NoDup h l : NoDup l → NoDup (splice_listener h l) ∧ h ∉ splice_listener h l.
Proof.
  induction 1 as [|y l Hy Hl [IH1 IH2]]; simpl; [split; [constructor|set_solver]|].
  case_bool_decide as E; [by subst|]. split.
  - constructor; [|done]. intros ?%splice_listener_sub. done.
  - set_solver.
Qed.

Lemma fire_ok s late touched :
  store_ok s late touched → store_ok (fire s) (late_after s OFire late) touched.
Proof.
  intros Hs. pose proof Hs as [H1 [Hnd Hdom Hdue] H3 H4 H5]. unfold late_after, fire. cbn [dispatches].
  unfold is_due. destruct (timers (queue s)) as [|[due i] rest] eqn:Et; [done|].
  destruct (due <=? clock (queue s))%N; [|done]. simpl in *.
  apply NoDup_cons in Hnd as [Hi Hnd].
  apply (dispatch_ok (with_queue s _)); cbn [listeners with_queue queue memoryState reducer fst snd]; [done|..].
  - etransitivity; [apply List.filter_length_le|done].
  - split; cbn [timers toastTimeouts clock]; [done| |by inversion Hdue].
    intros j. destruct (decide (j = i)) as [->|Hne].
    + rewrite lookup_delete_eq. split; [by intros []|done].
    + rewrite lookup_delete_ne, Hdom, elem_of_cons by done. tauto.
  - intros Hc. specialize (H3 Hc). rewrite Forall_forall in *.
    intros t [Hne Ht]%elem_of_lfilter Ho. cbn [toastTimeouts].
    breflect. rewrite lookup_delete_ne by done. by apply H3.
Qed.

Lemma update_ok s late touched i u :
  store_ok s late touched →
  store_ok (update i u s) (dom (hook_state s) ∖ list_to_set (listeners s)) (touched || sets_open (OUpdate i u)).
Proof.
  intros [H1 H2 H3 H4 _]. apply dispatch_ok; cbn [reducer fst snd]; [done|by rewrite length_fmap|done|].
  intros [Hc Hu]%orb_false_iff. specialize (H3 Hc). apply bool_decide_eq_false in Hu.
  rewrite Forall_fmap, Forall_forall in *. intros t Ht. simpl.
  case_bool_decide as E; [|by apply H3]. intros Ho. cbn in *. destruct (t_open u); [destruct Hu; eauto|].
  rewrite <- E. by apply H3.
Qed.

(** The moments of a hook that do not dispatch. *)
Lemma hook_ok s late touched l m :
  store_ok s late touched → NoDup l →
  (∀ h ts, m !! h = Some ts → h ∉ late → ts = memoryState s) → store_ok (with_listeners s l m) late touched.
Proof. intros [H1 H2 H3 _ _] Hl Hm. by split. Qed.

Lemma exec_ok s late touched a :
  store_ok s late touched → allowed s a →
  store_ok (exec a s) (late_after s a late) (touched || sets_open a).
Proof.
  intros Hs Ha. pose proof Hs as [H1 H2 H3 H4 H5].
  destruct a as [p|i u|toastId|i [|]|n| |h|h|h|h]; [|by apply (update_ok _ late)|..];
    cbn [sets_open]; rewrite orb_false_r; cbn [exec allowed] in *.
  - apply (dispatch_ok (genId s).2); cbn; rewrite ?take_0; [done|done|done|]. by repeat constructor.
  - by apply (exec_dismiss_ok _ late).
  - done.
  - by apply (exec_dismiss_ok _ late).
  - split; cbn; try done. destruct H2 as [Q1 Q2 Q3]. split; cbn; try done.
    eapply Forall_impl; [apply Q3|]. intros e He. simpl in *. lia.
  - by apply fire_ok.
  - apply hook_ok; [done..|]. intros x ts.
    destruct (decide (h = x)) as [->|Hne]; [rewrite lookup_insert_eq|by rewrite lookup_insert_ne by done; apply H5].
    by intros [= <-].
  - apply hook_ok; [done| |done]. apply NoDup_app. split_and!; [done|set_solver|apply NoDup_singleton].
  - apply hook_ok; [done| |done]. by apply splice_listener_NoDup.
  - apply hook_ok; [done..|]. intros x ts [_ Hx]%lookup_delete_Some. by apply H5.
Qed.

Lemma initial_store_ok : store_ok initial_store ∅ false.
Proof.
  split; cbn; [unfold TOAST_LIMIT; lia| |constructor|constructor|set_solver].
  split; cbn; [constructor| |constructor]. intros i. rewrite lookup_empty.
  split; [by intros []|set_solver].
Qed.

Lemma reachable_store_ok s late touched : reachable_store s late touched → store_ok s late touched.
Proof. induction 1; [apply initial_store_ok|by apply exec_ok]. Qed.

(** An operation that dispatches brings every registered hook up to date. *)
Lemma exec_notifies s a h :
  dispatches s a = true → h ∈ listeners s → is_Some (hook_state s !! h) →
  hook_state (exec a s) !! h = Some (memoryState (exec a s)).
Proof.
  intros Ha Hh [ts Hm].
  assert (∃ s1 act, exec a s = dispatch s1 act ∧ listeners s1 = listeners s ∧ hook_state s1 = hook_state s)
    as (s1 & act & -> & Hl & Hs).
  { destruct a as [p|i u|i|i []|n| |h'|h'|h'|h']; try done; [by do 2 eexists..|].
    cbn [dispatches exec] in *. unfold is_due, fire in *.
    destruct (timers (queue s)) as [|[due i] rest]; [done|]. rewrite Ha. by do 2 eexists. }
  unfold dispatch. cbn [hook_state memoryState]. rewrite notify_all, Hl, Hs, decide_True, Hm by done. done.
Qed.

(** ** Draining the queue *)

Definition all_due (s : Store) : Prop :=
  Forall (λ e, (e.1 ≤ clock (queue s))%N) (timers (queue s)).

Lemma filter_two i (ids : list string) (l : list ToasterToast) :
  List.filter (λ t, bool_decide (t_id t ∉ ids))
    (List.filter (λ t, negb (bool_decide (t_id t = i))) l)
  = List.filter (λ t, bool_decide (t_id t ∉ i :: ids)) l.
Proof.
  induction l as [|t l IH]; simpl; [done|]. destruct (decide (t_id t = i)) as [->|Hne].
  - rewrite (bool_decide_true (i = i)) by done. cbn [negb]. rewrite IH.
    rewrite (bool_decide_false (i ∉ i :: ids)); [done|]. intros H. apply H. by left.
  - rewrite (bool_decide_false (t_id t = i)) by done. cbn [negb List.filter].
    rewrite (bool_decide_ext (t_id t ∉ ids) (t_id t ∉ i :: ids)) by set_solver.
    destruct (bool_decide _); by rewrite IH.
Qed.

Lemma run_due_drains n s :
  all_due s → length (timers (queue s)) ≤ n →
  timers (queue (run_due n s)) = [] ∧
  memoryState (run_due n s)
  = List.filter (λ t, bool_decide (t_id t ∉ (timers (queue s)).*2)) (memoryState s).
Proof.
  revert s. induction n as [|n IH]; intros s Hdue Hl; simpl.
  { destruct (timers (queue s)) eqn:E; simpl in *; [|lia]. split; [done|].
    rewrite lfilter_all; [done|]. by intros t _. }
  unfold all_due in Hdue. unfold fire. destruct (timers (queue s)) as [|[due i] rest] eqn:E.
  { destruct (IH s) as [H1 H2]; [unfold all_due; by rewrite E|rewrite E; simpl; lia|].
    rewrite E in H2. done. }
  inversion Hdue as [|? ? Hd Hrest]; subst. simpl in Hd. rewrite (proj2 (N.leb_le _ _)) by done.
  set (s1 := dispatch _ _). destruct (IH s1) as [H1 H2]; [done|simpl in *; lia|].
  split; [done|]. rewrite H2. apply filter_two.
Qed.

(** ** Identifiers *)

Lemma next_count_range c : (0 ≤ c < MAX_SAFE_INTEGER)%Z → (0 ≤ next_count c < MAX_SAFE_INTEGER)%Z.
Proof. intros. apply Z.mod_pos_bound. done. Qed.

Fixpoint counts (n : nat) (c : Z) : Z := match n with 0 => c | S n' => counts n' (next_count c) end.

Lemma counts_value n c :
  (0 ≤ c < MAX_SAFE_INTEGER)%Z → counts n c = ((c + Z.of_nat n) mod MAX_SAFE_INTEGER)%Z.
Proof.
  revert c. induction n as [|n IH]; intros c Hc; cbn [counts].
  { rewrite Z.add_0_r. symmetry. by apply Z.mod_small. }
  rewrite IH by (by apply next_count_range). unfold next_count.
  rewrite Z.add_mod_idemp_l by done. f_equal. lia.
Qed.

(** The toasts after a dispatch are old ones, up to their fields, or the added one. *)
Lemma dispatch_ids s a t' :
  t' ∈ memoryState (dispatch s a) →
  (∃ t, t ∈ memoryState s ∧ t_id t' = t_id t) ∨ a = ADD_TOAST t'.
Proof.
  unfold dispatch. cbn [memoryState]. destruct a as [t|u|toastId|[i|]]; cbn [reducer snd].
  - intros Ht. apply list_elem_of_In in Ht.
    assert (In t' (t :: memoryState s)) as [->|Hin]; [|by right|].
    { rewrite <- (firstn_skipn TOAST_LIMIT (t :: memoryState s)). apply List.in_or_app. by left. }
    left. exists t'. by rewrite list_elem_of_In.
  - intros (t & -> & Ht)%list_elem_of_fmap. left. exists t. split; [done|]. case_bool_decide; [done|done].
  - intros (t & -> & Ht)%list_elem_of_fmap. left. exists t. split; [done|]. by destruct (_ || _).
  - intros [_ Ht]%elem_of_lfilter. left. by exists t'.
  - by intros ?%elem_of_nil.
Qed.

(** The counter is a safe integer, and no toast has the empty text as id. *)
Record ids_ok (s : Store) : Prop := {
  io_count : (0 ≤ count s < MAX_SAFE_INTEGER)%Z;
  io_ids : ∀ t, t ∈ memoryState s → t_id t ≠ "";
}.

Lemma dispatch_ids_ok s a :
  ids_ok s → (∀ t, a = ADD_TOAST t → t_id t ≠ "") → ids_ok (dispatch s a).
Proof.
  intros [Hc Hi] Ha. split; [done|]. intros t' [(t & Ht & ->)|Ht]%dispatch_ids; [by apply Hi|by apply Ha].
Qed.

Lemma exec_ids_ok s a : ids_ok s → ids_ok (exec a s).
Proof.
  intros Hs. destruct a as [p|i u|i|i []|n| |h|h|h|h]; cbn [exec]; try exact Hs;
    try (apply dispatch_ids_ok; [exact Hs|done]).
  - unfold toast, genId. cbn [snd]. pose proof (next_count_range _ (io_count _ Hs)) as Hn.
    apply dispatch_ids_ok; [split; [done|apply Hs]|]. intros t [= <-]. cbn [t_id].
    apply show_of_Z_nonempty. unfold MAX_SAFE_INTEGER in Hn. lia.
  - destruct Hs as [Hc Hi]. by split.
  - unfold fire. destruct (timers (queue s)) as [|[due i] rest]; [done|].
    destruct (due <=? _)%N; [|done]. apply dispatch_ids_ok; [|done]. destruct Hs as [Hc Hi]. by split.
  - by destruct Hs as [Hc Hi].
  - by destruct Hs as [Hc Hi].
  - by destruct Hs as [Hc Hi].
  - by destruct Hs as [Hc Hi].
Qed.

Lemma reachable_ids_ok s late touched : reachable_store s late touched → ids_ok s.
Proof.
  induction 1 as [|s late touched a _ IH _]; [|by apply exec_ids_ok].
  split; [unfold MAX_SAFE_INTEGER; cbn; lia|]. by intros t ?%elem_of_nil.
Qed.

(** Running the timers is a sequence of events that keeps the listeners. *)
Lemma run_due_reachable n s late touched :
  reachable_store s late touched → ∃ late', reachable_store (run_due n s) late' touched.
Proof.
  revert s late. induction n as [|n IH]; intros s late Hs; [by exists late|]. cbn [run_due].
  apply (IH _ (late_after s OFire late)). rewrite <- (orb_false_r touched). by apply (store_step s late touched OFire).
Qed.

Lemma run_due_listeners n s : listeners (run_due n s) = listeners s.
Proof.
  revert s. induction n as [|n IH]; intros s; [done|]. cbn [run_due]. rewrite IH. unfold fire.
  destruct (timers (queue s)) as [|[due i] rest]; [done|]. by destruct (due <=? _)%N.
Qed.

(** A registered hook that is up to date stays so while the timers run. *)
Lemma run_due_current n s h :
  h ∈ listeners s → hook_state s !! h = Some (memoryState s) →
  hook_state (run_due n s) !! h = Some (memoryState (run_due n s)).
Proof.
  revert s. induction n as [|n IH]; intros s Hh Hm; [done|]. cbn [run_due].
  apply IH; [by change (h ∈ listeners (run_due 1 s)); rewrite run_due_listeners|]. destruct (is_due s) eqn:E.
  - apply (exec_notifies s OFire); eauto.
  - unfold fire, is_due in *. destruct (timers (queue s)) as [|[due i] rest]; [done|]. by rewrite E.
Qed.

(** After the delay, the toasts that are left are the ones that were not queued. *)
Lemma dismissed_drained s late touched i :
  reachable_store s late touched → i ≠ "" →
  let d := elapse TOAST_REMOVE_DELAY (dismiss (Some i) s) in
  let s' := run_due (length (timers (queue d))) d in
  timers (queue s') = [] ∧
  (∀ t, t ∈ memoryState s' → t_id t ≠ i ∧ (touched = false → t_open t ≠ Some false) ∧
                               t ∈ memoryState (dismiss (Some i) s)).
Proof.
  intros Hs Hi d s'. pose proof (exec_dismiss_ok s _ _ (Some i) (reachable_store_ok _ _ _ Hs)) as Hd.
  destruct Hd as [_ [_ Q2 Q3] H3 _ _].
  destruct (run_due_drains (length (timers (queue d))) d) as [E1 E2]; [exact Q3|done|].
  split; [done|]. intros t Ht. unfold s' in Ht. rewrite E2 in Ht.
  apply elem_of_lfilter in Ht as [Hn Ht]. breflect.
  change (timers (queue d)) with (timers (queue (dismiss (Some i) s))) in Hn.
  change (memoryState d) with (memoryState (dismiss (Some i) s)) in Ht. rewrite <- Q2 in Hn. split_and!; [| |done].
  - intros Ei. apply Hn. rewrite Ei. unfold dismiss, dispatch. cbn [reducer queue fst given].
    destruct i as [|c i]; [done|]. apply addToRemoveQueue_has. by left.
  - intros Hc Ho. apply Hn. specialize (H3 Hc). rewrite Forall_forall in H3. by apply H3.
Qed.

(** ** Main theorems *)

(** C15: the toast store keeps its promises through every sequence of toasts, updates,
    dismissals, timers and moments of the hooks of any number of components (first
    render, effect, clean-up, going away, with anything in between): never more than
    one toast; one timer per queued toast; every closed toast has a timer that will
    remove it, unless an update has set [open] itself; no component is registered
    twice; every mounted component shows the current toasts, unless it missed the last
    dispatch, which happens only to one that was not registered at that moment; and
    the next dispatch brings every registered component up to date, also one that
    missed the last.  A first render shows the store, the effect registers the
    component, and its clean-up takes it out again. *)
Theorem toast_store_invariant s late touched :
  reachable_store s late touched →
  length (memoryState s) ≤ TOAST_LIMIT ∧ NoDup (timers (queue s)).*2 ∧
  (∀ i, is_Some (toastTimeouts (queue s) !! i) ↔ i ∈ (timers (queue s)).*2) ∧
  (touched = false →
   ∀ t, t ∈ memoryState s → t_open t = Some false → t_id t ∈ (timers (queue s)).*2) ∧
  NoDup (listeners s) ∧
  (∀ h ts, hook_state s !! h = Some ts → h ∉ late → ts = memoryState s) ∧
  (∀ a h, dispatches s a = true → h ∈ listeners s → is_Some (hook_state s !! h) →
     (h ∉ late_after s a late) ∧ hook_state (exec a s) !! h = Some (memoryState (exec a s))) ∧
  (∀ h, hook_state (exec (ORender h) s) !! h = Some (memoryState s) ∧
        h ∈ listeners (exec (OEffect h) s) ∧ h ∉ listeners (exec (OCleanup h) s)).
Proof.
  intros Hs. destruct (reachable_store_ok _ _ _ Hs) as [H1 [Q1 Q2 _] H3 H4 H5].
  split_and!; try done.
  - intros Hc t Ht Ho. apply Q2. specialize (H3 Hc). rewrite Forall_forall in H3. by apply H3.
  - intros a h Ha Hh Hm. split; [|by apply exec_notifies]. unfold late_after. rewrite Ha.
    rewrite elem_of_difference, elem_of_list_to_set. tauto.
  - intros h. split_and!; cbn.
    + apply lookup_insert_eq.
    + apply elem_of_app. right. by left.
    + by apply splice_listener_NoDup.
Qed.

(** C16: dismissed toasts vanish: once the delay has passed and the event loop has
    run the timers that are due, the dismissed toast is gone, the queue is empty, and,
    unless an update has set [open] itself, no closed toast at all is left. *)
Theorem dismissed_toasts_vanish s late touched i :
  reachable_store s late touched → i ≠ "" →
  let d := elapse TOAST_REMOVE_DELAY (dismiss (Some i) s) in
  let s' := run_due (length (timers (queue d))) d in
  timers (queue s') = [] ∧
  (∀ t, t ∈ memoryState s' → t_id t ≠ i ∧ (touched = false → t_open t ≠ Some false)).
Proof.
  intros Hs Hi d s'. destruct (dismissed_drained s late touched i Hs Hi) as [H1 H2]. split; [done|].
  intros t Ht. by destruct (H2 t Ht) as (? & ? & _).
Qed.

(** A toast that is raised between the first render of a component and its effect is
    missed: the component is registered and does not show it. *)
Lemma early_toast_missed s late touched h p :
  reachable_store s late touched → hook_state s !! h = None → h ∉ listeners s →
  let s' := hook_effect h (toast p (hook_render h s)).2 in
  h ∈ listeners s' ∧ hook_state s' !! h = Some (memoryState s) ∧
  t_id <$> memoryState s' = [num_to_string (of_Z (next_count (count s)))].
Proof.
  intros Hs Hm Hh s'. split_and!.
  - cbn. set_solver.
  - change (hook_state s') with (hook_state (toast p (hook_render h s)).2). unfold toast, genId, dispatch.
    cbn [snd hook_state listeners hook_render with_listeners]. rewrite notify_all, decide_False by done.
    apply lookup_insert_eq.
  - unfold s'. cbn. by rewrite take_0.
Qed.

(** Identifiers do not repeat: any two of fewer than [2^53 - 1] consecutive
    toasts have different ids. *)
Lemma toast_ids_distinct c n m :
  (0 ≤ c < MAX_SAFE_INTEGER)%Z → n < m → (Z.of_nat m - Z.of_nat n < MAX_SAFE_INTEGER)%Z →
  num_to_string (of_Z (counts n c)) ≠ num_to_string (of_Z (counts m c)).
Proof.
  intros Hc Hnm Hlt E.
  assert (Hr : ∀ k, (0 ≤ counts k c < 2 ^ 53)%Z).
  { intros k. rewrite counts_value by done.
    pose proof (Z.mod_pos_bound (c + Z.of_nat k) MAX_SAFE_INTEGER ltac:(done)).
    unfold MAX_SAFE_INTEGER in *. lia. }
  apply (f_equal digits_value) in E. rewrite !digits_value_show in E by apply Hr.
  rewrite !counts_value in E by done.
  assert (H0 : ((c + Z.of_nat m - (c + Z.of_nat n)) mod MAX_SAFE_INTEGER = 0)%Z).
  { rewrite Zminus_mod, E, Z.sub_diag. done. }
  rewrite Z.mod_small in H0 by lia. lia.
Qed.

(** Dismissing with the empty text as id is half a dismissal: every toast is
    queued for removal, as if no id was given, but none is closed, unless its id is
    the empty text. *)
Lemma dismiss_empty_id s :
  Forall (λ t, t_id t ≠ "") (memoryState s) →
  memoryState (dismiss (Some "") s) = memoryState s ∧
  ∀ t, t ∈ memoryState s →
       is_Some (toastTimeouts (queue (dismiss (Some "") s)) !! t_id t).
Proof.
  intros Hs. unfold dismiss, dispatch. cbn [reducer memoryState queue fst snd given]. split.
  - rewrite <- (list_fmap_id (memoryState s)) at 2. apply list_fmap_ext. intros k t Hk.
    apply list_elem_of_lookup_2 in Hk. rewrite Forall_forall in Hs. specialize (Hs t Hk).
    by rewrite bool_decide_false by congruence.
  - intros t Ht. apply queue_all_has. left. by apply list_elem_of_fmap_2.
Qed.

(** ** Witnesses *)

(** Two components mount; a toast is raised before the second one is registered, then
    another one, which is dismissed. *)
Definition mounted_store : Store := exec (ORender 8) (exec (OEffect 7) (exec (ORender 7) initial_store)).

Definition one_toast : Store := exec (OToast [("title", PStr "Saving")]) mounted_store.

Definition two_toasts : Store := exec (OToast [("title", PStr "Saved")]) (exec (OEffect 8) one_toast).

Definition dismissed_store : Store := exec (ODismiss (Some "2")) two_toasts.

Lemma mounted_store_reachable : reachable_store mounted_store ∅ false.
Proof.
  apply (store_step _ ∅ false (ORender 8)); [|split; [done|apply (bool_decide_unpack _); by vm_compute]].
  apply (store_step _ ∅ false (OEffect 7)); [|split; [by eexists|apply (bool_decide_unpack _); by vm_compute]].
  apply (store_step _ ∅ false (ORender 7)); [apply store_start|split; [done|apply (bool_decide_unpack _); by vm_compute]].
Qed.

(** The second component has missed the first toast. *)
Lemma one_toast_reachable : reachable_store (exec (OEffect 8) one_toast) {[8]} false.
Proof.
  pose proof (store_step _ ∅ false (OToast [("title", PStr "Saving")]) mounted_store_reachable I) as H1.
  pose proof (store_step _ _ false (OEffect 8) H1) as H2.
  replace ({[8]} : gset nat) with (late_after one_toast (OEffect 8)
    (late_after mounted_store (OToast [("title", PStr "Saving")]) ∅)) by (by vm_compute).
  apply H2. split; [by vm_compute; eexists|apply (bool_decide_unpack _); by vm_compute].
Qed.

Lemma two_toasts_reachable : reachable_store two_toasts ∅ false.
Proof.
  pose proof (store_step _ _ false (OToast [("title", PStr "Saved")]) one_toast_reachable I) as H.
  replace (late_after (exec (OEffect 8) one_toast) (OToast [("title", PStr "Saved")]) {[8]})
    with (∅ : gset nat) in H by (by vm_compute). exact H.
Qed.

Lemma dismissed_store_reachable : reachable_store dismissed_store ∅ false.
Proof.
  pose proof (store_step _ _ false (ODismiss (Some "2")) two_toasts_reachable I) as H.
  replace (late_after two_toasts (ODismiss (Some "2")) ∅) with (∅ : gset nat) in H by (by vm_compute). exact H.
Qed.

(** The two components after the first toast, one of them late, and after the second. *)
Lemma toast_store_invariant_witness :
  (t_id <$> memoryState dismissed_store = ["2"] ∧
   t_id <$> memoryState (exec (OEffect 8) one_toast) = ["1"] ∧
   hook_state (exec (OEffect 8) one_toast) !! 8 = Some []) ∧
  (∀ t, t ∈ memoryState dismissed_store → t_open t = Some false →
        t_id t ∈ (timers (queue dismissed_store)).*2) ∧
  (∀ ts, hook_state (exec (OEffect 8) one_toast) !! 7 = Some ts →
         ts = memoryState (exec (OEffect 8) one_toast)) ∧
  hook_state two_toasts !! 8 = Some (memoryState two_toasts).
Proof.
  destruct (toast_store_invariant dismissed_store ∅ false dismissed_store_reachable)
    as (_ & _ & _ & H1 & _).
  destruct (toast_store_invariant (exec (OEffect 8) one_toast) {[8]} false one_toast_reachable)
    as (_ & _ & _ & _ & _ & H2 & H3 & _).
  split_and!; [by vm_compute..|by apply H1| |].
  - intros ts Hts. by apply (H2 7 ts Hts), (bool_decide_unpack _).
  - apply (H3 (OToast [("title", PStr "Saved")])); [done|apply (bool_decide_unpack _); by vm_compute|].
    by vm_compute; eexists.
Defined.

Lemma dismissed_toasts_vanish_witness :
  let d := elapse TOAST_REMOVE_DELAY (dismiss (Some "2") two_toasts) in
  let s' := run_due (length (timers (queue d))) d in
  timers (queue s') = [] ∧
  (∀ t, t ∈ memoryState s' → t_id t ≠ "2" ∧ (false = false → t_open t ≠ Some false)).
Proof. apply (dismissed_toasts_vanish two_toasts ∅ false "2" two_toasts_reachable). done. Defined.

Lemma toast_ids_distinct_witness :
  num_to_string (of_Z (counts 1 (MAX_SAFE_INTEGER - 1))) ≠
  num_to_string (of_Z (counts 3 (MAX_SAFE_INTEGER - 1))).
Proof. apply (toast_ids_distinct (MAX_SAFE_INTEGER - 1) 1 3); unfold MAX_SAFE_INTEGER; lia. Defined.

Lemma dismiss_empty_id_witness :
  memoryState (dismiss (Some "") two_toasts) = memoryState two_toasts ∧
  ∀ t, t ∈ memoryState two_toasts →
       is_Some (toastTimeouts (queue (dismiss (Some "") two_toasts)) !! t_id t).
Proof. apply (dismiss_empty_id two_toasts). vm_compute. by repeat constructor. Defined.
