(* ===== verification/BenchmarkUtils.v ===== *)
(** * Benchmark utilities

    Models [docs/benchmark-dashboard/lib/benchmark-utils.ts]: the placeholder loader
    and [calculateStats], whose median sorts the array of values in place after the
    other numbers were taken from it. *)

From Stdlib Require Import SpecFloat.
From S2P Require Import Prelude JsSort JsNumber JsText JsValue UrlParams BenchmarkData SampleData Filters ChartData ChartSpec.

#[local] Open Scope js_scope.

(** The keys of [results] whose values are numbers. *)
Inductive metric_key :=
  | MsuccessRate | Mtotal | Mslowest | Mfastest | Maverage | MrequestsPerSec
  | MtotalData | MsizePerRequest | MsizePerSec | Mp95_latency.

Definition results_get (r : Results) (k : metric_key) : prim :=
  match k with
  | MsuccessRate => successRate r | Mtotal => total r | Mslowest => slowest r
  | Mfastest => fastest r | Maverage => average r | MrequestsPerSec => requestsPerSec r
  | MtotalData => totalData r | MsizePerRequest => sizePerRequest r
  | MsizePerSec => sizePerSec r | Mp95_latency => p95_latency r
  end.

(** The loader is a placeholder in the source. *)
Definition loadBenchmarkData : list BenchmarkResult := [].

Record FullStats := { fs_stats : Stats; fs_median : prim }.

Definition stat_values (data : list BenchmarkResult) (k : metric_key) : exc (list prim) :=
  exc_map (λ b : BenchmarkResult,
    match results b with Some r => Ok (results_get r k) | None => Throw TypeError end) data.

(** [values.sort((a, b) => a - b)[Math.floor(values.length / 2)]]. *)
Definition median (values : list prim) : prim :=
  default Undefined (sort_by prim_sub_cmp values !! (length values / 2)).

Definition calculateStats (data : list BenchmarkResult) (k : metric_key) : exc (option FullStats) :=
  if bool_decide (length data = 0) then Ok None
  else
    let! values := stat_values data k in
    Ok (Some {| fs_stats := {| s_count := length values;
                               s_min := math_min (to_number <$> values);
                               s_max := math_max (to_number <$> values);
                               s_avg := mean values |};
                fs_median := median values |}).

(** ** The median *)

Definition real_prim (v : prim) : Prop := ∃ n, v = PNum n ∧ real_num n.

#[global] Instance prim_sub_consistent : ConsistentCmp real_prim prim_sub_cmp.
Proof.
  split.
  - intros x y (a & -> & Ha) (b & -> & Hb). unfold prim_sub_cmp. cbn [to_number].
    by apply (cmp_opp (P := real_num)).
  - intros x y z (a & -> & Ha) (b & -> & Hb) (c & -> & Hc). unfold cmp_le, prim_sub_cmp.
    cbn [to_number]. by apply (cmp_trans (P := real_num)).
Qed.

Lemma prim_le_num x y :
  real_prim x → real_prim y → cmp_le prim_sub_cmp x y → cmp_le num_cmp (to_number x) (to_number y).
Proof.
  intros (a & -> & Ha) (b & -> & Hb). unfold cmp_le, prim_sub_cmp. cbn [to_number].
  by rewrite nsub_cmp.
Qed.

(** The element at a position of a sorted list splits it. *)
Lemma sorted_split {A} (le : A → A → Prop) l k x :
  StronglySorted le l → l !! k = Some x →
  ∃ l1 l2, l = l1 ++ x :: l2 ∧ length l1 = k ∧ Forall (λ y, le y x) l1 ∧ Forall (le x) l2.
Proof.
  intros Hs Hk. exists (take k l), (drop (S k) l).
  assert (E : l = take k l ++ x :: drop (S k) l) by (by rewrite take_drop_middle).
  split_and!; [done|apply lookup_lt_Some in Hk; rewrite length_take; lia|..].
  - rewrite E in Hs. apply StronglySorted_app in Hs as (Hc & _ & _).
    apply Forall_forall. intros y Hy. apply (Hc y x Hy). by left.
  - rewrite E in Hs. apply StronglySorted_app in Hs as (_ & _ & Hs2). by inversion Hs2.
Qed.

Lemma median_spec values :
  values ≠ [] → Forall real_prim values →
  ∃ l1 l2, values ≡ₚ l1 ++ median values :: l2 ∧ length l1 = length values / 2 ∧
    Forall (λ y, cmp_le num_cmp (to_number y) (to_number (median values))) l1 ∧
    Forall (λ y, cmp_le num_cmp (to_number (median values)) (to_number y)) l2.
Proof.
  intros Hne Hr. set (s := sort_by prim_sub_cmp values).
  assert (Hp : s ≡ₚ values) by apply sort_by_Permutation.
  assert (Hlt : length values / 2 < length s).
  { rewrite Hp. destruct values; [done|]. apply Nat.div_lt; simpl; lia. }
  destruct (lookup_lt_is_Some_2 s _ Hlt) as [m Hm].
  assert (median values = m) as -> by (unfold median; fold s; by rewrite Hm).
  pose proof (sort_by_StronglySorted real_prim prim_sub_cmp values Hr) as Hs. fold s in Hs.
  destruct (sorted_split _ _ _ _ Hs Hm) as (l1 & l2 & E & Hl & H1 & H2).
  assert (Hrs : Forall real_prim (l1 ++ m :: l2)) by (rewrite <- E; by rewrite Hp).
  apply Forall_app in Hrs as [R1 R2]. inversion_clear R2 as [|? ? Rm R2'].
  exists l1, l2. split_and!; [by rewrite <- Hp, E|done|..].
  - rewrite !Forall_forall in *. intros y Hy. apply prim_le_num; auto.
  - rewrite !Forall_forall in *. intros y Hy. apply prim_le_num; auto.
Qed.

Lemma stat_values_ok data k :
  Forall (λ b : BenchmarkResult, is_Some (results b)) data →
  ∃ vs, stat_values data k = Ok vs ∧
        Forall2 (λ (b : BenchmarkResult) v, ∃ r, results b = Some r ∧ v = results_get r k) data vs.
Proof.
  intros H. unfold stat_values. destruct (exc_map_ok (λ b : BenchmarkResult,
    match results b with Some r => Ok (results_get r k) | None => Throw TypeError end) data) as [vs Hvs].
  - intros b Hb. rewrite Forall_forall in H. destruct (H b Hb) as [r ->]. eauto.
  - exists vs. split; [done|]. apply exc_map_Forall2 in Hvs.
    eapply Forall2_impl; [apply Hvs|]. intros b v. simpl.
    destruct (results b) as [r|]; [|done]. intros [= <-]. eauto.
Qed.

(** ** Main theorems *)

(** A result without measurements makes it throw. *)
Lemma stat_values_throws data k (b : BenchmarkResult) :
  b ∈ data → results b = None → stat_values data k = Throw TypeError.
Proof.
  intros Hb Hr. unfold stat_values. induction data as [|c data IH]; [by apply elem_of_nil in Hb|].
  cbn [exc_map]. apply elem_of_cons in Hb as [<-|Hb]; [by rewrite Hr|]. rewrite (IH Hb).
  by destruct (results c).
Qed.

(** The numbers that the results have under a key. *)
Lemma stat_values_nums data k vs :
  Forall2 (λ (b : BenchmarkResult) v, ∃ r, results b = Some r ∧ results_get r k = PNum v) data vs →
  stat_values data k = Ok (PNum <$> vs).
Proof.
  intros H. unfold stat_values. induction H as [|b v data vs (r & Hr & Hv) H IH]; [done|].
  cbn [exc_map]. rewrite Hr, Hv. cbn [exc_bind].
  exact (f_equal (λ m, exc_bind m (λ ys, Ok (PNum v :: ys))) IH).
Qed.

(** The median of numbers splits them. *)
Lemma median_nums vs :
  vs ≠ [] → Forall real_num vs →
  ∃ m l1 l2, median (PNum <$> vs) = PNum m ∧ vs ≡ₚ l1 ++ m :: l2 ∧ length l1 = length vs / 2 ∧
    Forall (λ y, cmp_le num_cmp y m) l1 ∧ Forall (λ y, cmp_le num_cmp m y) l2.
Proof.
  intros Hne Hr.
  destruct (median_spec (PNum <$> vs)) as (l1 & l2 & Hp & Hl & H1 & H2); [by destruct vs| |].
  { apply Forall_fmap. eapply Forall_impl; [apply Hr|]. intros v Hv. by exists v. }
  assert (median (PNum <$> vs) ∈ PNum <$> vs) as (m & Hm & _)%list_elem_of_fmap.
  { rewrite Hp at 2. rewrite elem_of_app, elem_of_cons. auto. }
  rewrite Hm in *. exists m, (to_number <$> l1), (to_number <$> l2).
  rewrite length_fmap in Hl. split_and!; [done| |by rewrite length_fmap|by apply Forall_fmap..].
  rewrite <- (to_number_nums vs), Hp, fmap_app, fmap_cons. done.
Qed.

(** C28: the statistics of a data set are right.  Whatever numbers [vs] the results
    have under the key: the count is the size of the set; the minimum and the maximum
    are two of the numbers, and all of them lie between the two; the average is their
    sum, added in order, divided by the count; and the median is one of the numbers and
    splits the others: as many as half the count, rounded down, are below or equal to
    it and the rest above or equal, although the sort uses a rounded difference.  The
    empty set has no statistics, and a result without measurements makes it throw. *)
Theorem calculateStats_spec data k :
  (data = [] → calculateStats data k = Ok None) ∧
  (∀ b : BenchmarkResult, b ∈ data → results b = None → calculateStats data k = Throw TypeError) ∧
  (∀ vs, data ≠ [] →
   Forall2 (λ (b : BenchmarkResult) v, ∃ r, results b = Some r ∧ results_get r k = PNum v) data vs →
   Forall real_num vs →
   ∃ st, calculateStats data k = Ok (Some st) ∧
     s_count (fs_stats st) = length data ∧
     s_min (fs_stats st) ∈ vs ∧ s_max (fs_stats st) ∈ vs ∧
     Forall (λ v, cmp_le num_cmp (s_min (fs_stats st)) v ∧ cmp_le num_cmp v (s_max (fs_stats st))) vs ∧
     s_avg (fs_stats st) = ndiv (foldl nadd (of_Z 0) vs) (of_Z (Z.of_nat (length vs))) ∧
     ∃ m l1 l2, fs_median st = PNum m ∧ vs ≡ₚ l1 ++ m :: l2 ∧ length l1 = length data / 2 ∧
       Forall (λ y, cmp_le num_cmp y m) l1 ∧ Forall (λ y, cmp_le num_cmp m y) l2).
Proof.
  unfold calculateStats. split_and!.
  - by intros ->.
  - intros b Hb Hr. rewrite (stat_values_throws data k b Hb Hr), bool_decide_false; [done|].
    by destruct data; [apply elem_of_nil in Hb|].
  - intros vs Hne Hf Hr. rewrite (stat_values_nums data k vs Hf), bool_decide_false by (by destruct data).
    pose proof (Forall2_length _ _ _ Hf) as Hlen. assert (Hvne : vs ≠ []) by (by destruct Hf).
    assert (Hnn : Forall not_nan vs) by (eapply Forall_impl; [apply Hr|]; by intros v [_ ?]).
    destruct (math_min_spec vs Hvne Hnn) as [Hmin Hmin'], (math_max_spec vs Hvne Hnn) as [Hmax Hmax'].
    cbn [exc_bind]. eexists. split; [done|]. cbn [fs_stats fs_median s_count s_min s_max s_avg].
    rewrite to_number_nums, mean_nums, length_fmap, Hlen.
    split_and!; [done..|apply Forall_forall; auto|done|]. by apply median_nums.
Qed.

(** The utility and the dashboard agree: on the results of the same items, for
    the requests per second, [calculateStats] gives the count, minimum, maximum and
    average that the dashboard's summary shows. *)
Lemma calculateStats_agrees (items : list Item) :
  items ≠ [] → Forall (λ i : Item, is_Some (results i)) items →
  ∃ st, calculateStats (item_result <$> items) MrequestsPerSec = Ok (Some st) ∧
        summaryStats items (PStr "rps") = Ok (Some (fs_stats st)).
Proof.
  intros Hne Hr.
  assert (Hv : stat_values (item_result <$> items) MrequestsPerSec
               = metric_values items (PStr "rps")).
  { clear Hne. unfold stat_values, metric_values.
    induction Hr as [|i l [r Hi] Hl IH]; [done|]. rewrite fmap_cons. cbn [exc_map].
    unfold results_of_item at 1. rewrite Hi. cbn [exc_bind results_get]. exact (f_equal (λ m, exc_bind m (λ ys, Ok (requestsPerSec r :: ys))) IH). }
  assert (∃ vs, metric_values items (PStr "rps") = Ok vs ∧ length vs = length items) as (vs & E & Hl).
  { destruct (stat_values_ok (item_result <$> items) MrequestsPerSec) as (vs & Hvs & Hf);
      [by apply Forall_fmap|].
    exists vs. rewrite <- Hv. split; [done|]. apply Forall2_length in Hf. by rewrite length_fmap in Hf. }
  unfold calculateStats, summaryStats. rewrite Hv, E, length_fmap.
  rewrite bool_decide_false by (by destruct items). cbn [exc_bind].
  eexists. split; [done|]. cbn [fs_stats]. by rewrite Hl.
Qed.

(** ** Witnesses *)

Definition stats_sample : list BenchmarkResult := [agoo_10; agoo_50; puma_10; puma_50].

(** The numbers of the sample, and its statistics. *)
Definition sample_rps : list num :=
  (λ b : BenchmarkResult, to_number (from_option requestsPerSec Undefined (results b))) <$> stats_sample.

Lemma calculateStats_spec_witness :
  ∃ st, calculateStats stats_sample MrequestsPerSec = Ok (Some st) ∧
    s_count (fs_stats st) = 4 ∧
    s_min (fs_stats st) ∈ sample_rps ∧ s_max (fs_stats st) ∈ sample_rps ∧
    ∃ m l1 l2, fs_median st = PNum m ∧ sample_rps ≡ₚ l1 ++ m :: l2 ∧ length l1 = 2 ∧
      Forall (λ y, cmp_le num_cmp y m) l1 ∧ Forall (λ y, cmp_le num_cmp m y) l2.
Proof.
  destruct (calculateStats_spec stats_sample MrequestsPerSec) as (_ & _ & H).
  destruct (H sample_rps) as (st & H1 & H2 & H3 & H4 & _ & _ & H5); [done| |by apply (bool_decide_unpack _)|].
  { repeat constructor; (eexists; split; [done|by vm_compute]). }
  by exists st.
Defined.

Lemma calculateStats_agrees_witness :
  ∃ st, calculateStats (item_result <$> [agoo_item; failed_item]) MrequestsPerSec = Ok (Some st) ∧
        summaryStats [agoo_item; failed_item] (PStr "rps") = Ok (Some (fs_stats st)).
Proof. apply (calculateStats_agrees [agoo_item; failed_item]); [done|]. repeat constructor; eauto. Defined.
