(* ===== verification/Sidebar.v ===== *)
(** * The sidebar

    Models [components/ui/sidebar.tsx] up to [SidebarInset] and the hook
    [hooks/use-mobile.tsx] it builds on: the provider's state, open from inside or
    controlled by a parent, the cookie it writes, the toggle, the keyboard shortcut,
    and the elements of provider, sidebar, trigger, rail and inset.

    Callbacks are those of a render: [setOpen] works on the value of [open] it was
    created with, which is an argument here. *)

From S2P Require Import Prelude JsSort JsNumber JsText JsValue Markup.

(** ** [use-mobile.tsx] *)

Definition MOBILE_BREAKPOINT : Z := 768.

(** The state after the effect, and after each change of the media query. *)
Definition measure (innerWidth : Z) : option bool := Some (innerWidth <? MOBILE_BREAKPOINT)%Z.

(** [return !!isMobile]. *)
Definition useIsMobile (isMobile : option bool) : bool := default false isMobile.

(** ** The provider *)

Definition SIDEBAR_COOKIE_NAME : string := "sidebar:state".
Definition SIDEBAR_COOKIE_MAX_AGE : Z := 60 * 60 * 24 * 7.
Definition SIDEBAR_WIDTH : string := "16rem".
Definition SIDEBAR_WIDTH_MOBILE : string := "18rem".
Definition SIDEBAR_WIDTH_ICON : string := "3rem".
Definition SIDEBAR_KEYBOARD_SHORTCUT : string := "b".

(** State and properties of the provider: the parent's [open] property, whether it
    passed [onOpenChange], and the document's last cookie assignment. *)
Record Provider := {
  sb_open : bool; sb_openMobile : bool; sb_isMobile : option bool;
  openProp : option bool; controlled : bool; cookie : option string;
}.

(** [useState(defaultOpen)] and the initial values. *)
Definition provider_mount (defaultOpen : bool) (parent_open : option bool) (onOpenChange : bool) : Provider :=
  {| sb_open := defaultOpen; sb_openMobile := false; sb_isMobile := None;
     openProp := parent_open; controlled := onOpenChange; cookie := None |}.

Definition provider_measure (innerWidth : Z) (s : Provider) : Provider :=
  {| sb_open := sb_open s; sb_openMobile := sb_openMobile s; sb_isMobile := measure innerWidth;
     openProp := openProp s; controlled := controlled s; cookie := cookie s |}.

(** [openProp ?? _open]. *)
Definition open (s : Provider) : bool := default (sb_open s) (openProp s).

Definition cookie_text (openState : bool) : string :=
  SIDEBAR_COOKIE_NAME +:+ "=" +:+ to_string (PBool openState) +:+ "; path=/; max-age="
  +:+ num_to_string (JsNumber.of_Z SIDEBAR_COOKIE_MAX_AGE).

Section Parent.
(** What the parent does with its [open] property when [onOpenChange] is called. *)
Variable parent : option bool → bool → option bool.

(** [setOpen(value)] of a render in which [open] was [captured]. *)
Definition setOpen (captured : bool) (value : bool → bool) (s : Provider) : Provider :=
  let openState := value captured in
  {| sb_open := if controlled s then sb_open s else openState;
     sb_openMobile := sb_openMobile s; sb_isMobile := sb_isMobile s;
     openProp := if controlled s then parent (openProp s) openState else openProp s;
     controlled := controlled s;
     cookie := Some (cookie_text openState) |}.

Definition setOpenMobile (value : bool → bool) (s : Provider) : Provider :=
  {| sb_open := sb_open s; sb_openMobile := value (sb_openMobile s); sb_isMobile := sb_isMobile s;
     openProp := openProp s; controlled := controlled s; cookie := cookie s |}.

(** [toggleSidebar()] of the render of [r], applied to the state [s]. *)
Definition toggleSidebar (r s : Provider) : Provider :=
  if useIsMobile (sb_isMobile r) then setOpenMobile negb s else setOpen (open r) negb s.

Definition handleKeyDown (r : Provider) (ev : event) (s : Provider) : Provider :=
  if bool_decide (ev_key ev = SIDEBAR_KEYBOARD_SHORTCUT) && (ev_metaKey ev || ev_ctrlKey ev)
  then toggleSidebar r s else s.

(** What the components' handlers ask of the provider, or of their caller. *)
Inductive sb_op := OpToggle | OpSetOpenMobile (b : bool) | OpCaller (tag : string).

Definition run_op (r : Provider) (a : sb_op) (s : Provider) : Provider :=
  match a with
  | OpToggle => toggleSidebar r s
  | OpSetOpenMobile b => setOpenMobile (λ _, b) s
  | OpCaller _ => s
  end.

Definition run_ops (r : Provider) (ops : list sb_op) (s : Provider) : Provider :=
  foldl (λ s a, run_op r a s) s ops.
End Parent.

(** ** The context *)

Record SidebarContext := {
  ctx_state : string; ctx_open : bool; ctx_openMobile : bool; ctx_isMobile : bool;
}.

Definition contextValue (s : Provider) : SidebarContext :=
  {| ctx_state := if open s then "expanded" else "collapsed";
     ctx_open := open s; ctx_openMobile := sb_openMobile s; ctx_isMobile := useIsMobile (sb_isMobile s) |}.

(** [useSidebar()]: outside a provider it throws an error with this message. *)
Definition useSidebar (context : option SidebarContext) : string + SidebarContext :=
  match context with
  | None => inl "useSidebar must be used within a SidebarProvider."
  | Some c => inr c
  end.

(** ** Elements *)

Section View.
(** [cn(...)] of [lib/utils.ts]: clsx and tailwind-merge; absent names are skipped. *)
Variable cn : list (option string) → string.

Abbreviation sb_elem := (elem sb_op).
Abbreviation sb_props := (props sb_op).

Definition SidebarProvider (className : option string) (style : list (string * prim))
    (ps : sb_props) (children : list sb_elem) : sb_elem :=
  Elem "TooltipProvider" [("delayDuration", VPrim (PNum (JsNumber.of_Z 0)))]
    [Elem "div"
       (spread
          [("style", VStyle ([("--sidebar-width", PStr SIDEBAR_WIDTH);
                              ("--sidebar-width-icon", PStr SIDEBAR_WIDTH_ICON)] ++ style));
           pstr "className" (cn [Some "group/sidebar-wrapper flex min-h-svh w-full has-[[data-variant=inset]]:bg-sidebar";
                                 className])] ps)
       children].

(** [floating] and [inset] sidebars are padded. *)
Definition padded (variant : string) : bool :=
  bool_decide (variant = "floating") || bool_decide (variant = "inset").

Definition sidebar_none (className : option string) (ps : sb_props) (children : list sb_elem) : sb_elem :=
  Elem "div"
    (spread [pstr "className" (cn [Some "flex h-full w-[--sidebar-width] flex-col bg-sidebar text-sidebar-foreground";
                                   className])] ps) children.

Definition sidebar_mobile (c : SidebarContext) (side : string) (ps : sb_props)
    (children : list sb_elem) : sb_elem :=
  Elem "Sheet"
    (spread [("open", VPrim (PBool (ctx_openMobile c)));
             ("onOpenChange", VBoolHandler (λ value, [OpSetOpenMobile value]))] ps)
    [Elem "SheetContent"
       [pstr "data-sidebar" "sidebar"; pstr "data-mobile" "true";
        pstr "className" "w-[--sidebar-width] bg-sidebar p-0 text-sidebar-foreground [&>button]:hidden";
        ("style", VStyle [("--sidebar-width", PStr SIDEBAR_WIDTH_MOBILE)]); pstr "side" side]
       [Elem "div" [pstr "className" "flex h-full w-full flex-col"] children]].

Definition sidebar_desktop (c : SidebarContext) (side variant collapsible : string)
    (className : option string) (ps : sb_props) (children : list sb_elem) : sb_elem :=
  Elem "div"
    [pstr "className" "group peer hidden md:block text-sidebar-foreground";
     pstr "data-state" (ctx_state c);
     pstr "data-collapsible" (if bool_decide (ctx_state c = "collapsed") then collapsible else "");
     pstr "data-variant" variant; pstr "data-side" side]
    [Elem "div"
       [pstr "className"
          (cn [Some "duration-200 relative h-svh w-[--sidebar-width] bg-transparent transition-[width] ease-linear";
               Some "group-data-[collapsible=offcanvas]:w-0";
               Some "group-data-[side=right]:rotate-180";
               Some (if padded variant
                     then "group-data-[collapsible=icon]:w-[calc(var(--sidebar-width-icon)_+_theme(spacing.4))]"
                     else "group-data-[collapsible=icon]:w-[--sidebar-width-icon]")])] [];
     Elem "div"
       (spread
          [pstr "className"
             (cn [Some "duration-200 fixed inset-y-0 z-10 hidden h-svh w-[--sidebar-width] transition-[left,right,width] ease-linear md:flex";
                  Some (if bool_decide (side = "left")
                        then "left-0 group-data-[collapsible=offcanvas]:left-[calc(var(--sidebar-width)*-1)]"
                        else "right-0 group-data-[collapsible=offcanvas]:right-[calc(var(--sidebar-width)*-1)]");
                  Some (if padded variant
                        then "p-2 group-data-[collapsible=icon]:w-[calc(var(--sidebar-width-icon)_+_theme(spacing.4)_+2px)]"
                        else "group-data-[collapsible=icon]:w-[--sidebar-width-icon] group-data-[side=left]:border-r group-data-[side=right]:border-l");
                  className])] ps)
       [Elem "div"
          [pstr "data-sidebar" "sidebar";
           pstr "className" "flex h-full w-full flex-col bg-sidebar group-data-[variant=floating]:rounded-lg group-data-[variant=floating]:border group-data-[variant=floating]:border-sidebar-border group-data-[variant=floating]:shadow"]
          children]].

Definition Sidebar (context : option SidebarContext) (side variant collapsible : string)
    (className : option string) (ps : sb_props) (children : list sb_elem) : string + sb_elem :=
  match useSidebar context with
  | inl e => inl e
  | inr c =>
      inr (if bool_decide (collapsible = "none") then sidebar_none className ps children
           else if ctx_isMobile c then sidebar_mobile c side ps children
           else sidebar_desktop c side variant collapsible className ps children)
  end.

(** The caller's [onClick] runs before the toggle. *)
Definition SidebarTrigger (context : option SidebarContext) (className : option string)
    (onClick : option (event → list sb_op)) (ps : sb_props) : string + sb_elem :=
  match useSidebar context with
  | inl e => inl e
  | inr _ =>
      inr (Elem "Button"
             (spread [pstr "data-sidebar" "trigger"; pstr "variant" "ghost"; pstr "size" "icon";
                      pstr "className" (cn [Some "h-7 w-7"; className]);
                      ("onClick", VHandler (λ ev, from_option (λ h, h ev) [] onClick ++ [OpToggle]))] ps)
             [Elem "PanelLeft" [] [];
              Elem "span" [pstr "className" "sr-only"] [EText "Toggle Sidebar"]])
  end.

(** The children among the properties of rail and inset are spread with the others. *)
Definition SidebarRail (context : option SidebarContext) (className : option string) (ps : sb_props)
    (children : list sb_elem) : string + sb_elem :=
  match useSidebar context with
  | inl e => inl e
  | inr _ =>
      inr (Elem "button"
             (spread [pstr "data-sidebar" "rail"; pstr "aria-label" "Toggle Sidebar";
                      ("tabIndex", VPrim (PNum (JsNumber.of_Z (-1))));
                      ("onClick", VHandler (λ _, [OpToggle])); pstr "title" "Toggle Sidebar";
                      pstr "className"
                        (cn [Some "absolute inset-y-0 z-20 hidden w-4 -translate-x-1/2 transition-all ease-linear after:absolute after:inset-y-0 after:left-1/2 after:w-[2px] hover:after:bg-sidebar-border group-data-[side=left]:-right-4 group-data-[side=right]:left-0 sm:flex";
                             Some "[[data-side=left]_&]:cursor-w-resize [[data-side=right]_&]:cursor-e-resize";
                             Some "[[data-side=left][data-state=collapsed]_&]:cursor-e-resize [[data-side=right][data-state=collapsed]_&]:cursor-w-resize";
                             Some "group-data-[collapsible=offcanvas]:translate-x-0 group-data-[collapsible=offcanvas]:after:left-full group-data-[collapsible=offcanvas]:hover:bg-sidebar";
                             Some "[[data-side=left][data-collapsible=offcanvas]_&]:-right-2";
                             Some "[[data-side=right][data-collapsible=offcanvas]_&]:-left-2";
                             className])] ps) children)
  end.

Definition SidebarInset (className : option string) (ps : sb_props) (children : list sb_elem) : sb_elem :=
  Elem "main"
    (spread [pstr "className"
       (cn [Some "relative flex min-h-svh flex-1 flex-col bg-background";
            Some "peer-data-[variant=inset]:min-h-[calc(100svh-theme(spacing.4))] md:peer-data-[variant=inset]:m-2 md:peer-data-[state=collapsed]:peer-data-[variant=inset]:ml-2 md:peer-data-[variant=inset]:ml-0 md:peer-data-[variant=inset]:rounded-xl md:peer-data-[variant=inset]:shadow";
            className])] ps) children.
End View.

(** ** Main theorems *)

(** The toggle does what it says.  On a desktop it flips the sidebar, whether
    its state is its own or kept by a parent that follows [onOpenChange], writes the
    new state into the cookie and leaves the mobile sheet alone; on a mobile device
    it flips the sheet and nothing else. *)
Lemma sidebar_toggle parent s :
  (controlled s = false ∧ openProp s = None) ∨ (controlled s = true ∧ ∀ b v, parent b v = Some v) →
  let s' := toggleSidebar parent s s in
  if useIsMobile (sb_isMobile s) then
    open s' = open s ∧ cookie s' = cookie s ∧ sb_openMobile s' = negb (sb_openMobile s)
  else
    open s' = negb (open s) ∧ cookie s' = Some (cookie_text (negb (open s))) ∧
    sb_openMobile s' = sb_openMobile s.
Proof.
  intros Hc. unfold toggleSidebar. destruct (useIsMobile (sb_isMobile s)); [done|].
  split_and!; try done. unfold setOpen, open. cbn [openProp sb_open].
  destruct Hc as [[-> E]|[-> Hp]]; [by rewrite !E|by rewrite Hp].
Qed.

(** The keyboard shortcut is Ctrl+B or Cmd+B and nothing else: such a key press
    toggles the sidebar, any other one changes nothing. *)
Lemma sidebar_shortcut parent r s ev :
  handleKeyDown parent r ev s
  = if decide (ev_key ev = "b" ∧ (ev_ctrlKey ev = true ∨ ev_metaKey ev = true))
    then toggleSidebar parent r s else s.
Proof.
  unfold handleKeyDown, SIDEBAR_KEYBOARD_SHORTCUT.
  destruct (decide (ev_key ev = "b")) as [Hk|Hk].
  - rewrite bool_decide_true by done. destruct (ev_ctrlKey ev), (ev_metaKey ev); simpl;
      case_decide; naive_solver.
  - rewrite bool_decide_false by done. case_decide; [naive_solver|done].
Qed.

(** Two toggles between two renders do not cancel on a desktop: both work on the
    [open] of the same render, so the sidebar ends flipped once; the mobile sheet,
    which is updated through a function of its current state, ends as it was. *)
Lemma sidebar_double_toggle parent s :
  controlled s = false → openProp s = None →
  let s' := toggleSidebar parent s (toggleSidebar parent s s) in
  open s' = (if useIsMobile (sb_isMobile s) then open s else negb (open s)) ∧
  sb_openMobile s' = sb_openMobile s.
Proof.
  intros Hc Ho. unfold toggleSidebar. destruct (useIsMobile (sb_isMobile s)).
  - split; [done|]. cbn. apply negb_involutive.
  - split; [|done]. unfold setOpen, open. cbn [openProp sb_open controlled]. by rewrite Hc, Ho.
Qed.

(** A click handler of the caller is combined with the trigger's but replaces
    the rail's: clicking the trigger first runs the caller's handler and then
    toggles, clicking the rail runs the caller's handler alone, and toggles only
    when the caller gave none. *)
Lemma trigger_combines_rail_replaces cn c cls h ps ch :
  prop_get ps "onClick" = None →
  (∃ e, SidebarTrigger cn (Some c) cls (Some h) ps = inr e ∧ on_click e = h click ++ [OpToggle]) ∧
  (∃ e, SidebarRail cn (Some c) cls ps ch = inr e ∧ on_click e = [OpToggle]) ∧
  (∃ e, SidebarRail cn (Some c) cls (("onClick", VHandler h) :: ps) ch = inr e ∧ on_click e = h click).
Proof.
  intros Hps. split_and!; eexists; (split; [reflexivity|]); unfold on_click;
    rewrite prop_get_spread.
  - by rewrite Hps.
  - by rewrite Hps.
  - done.
Qed.

(** ** Witnesses *)

Definition desktop_sidebar : Provider := provider_measure 1280 (provider_mount true None false).
Definition follow (b : option bool) (v : bool) : option bool := Some v.

Lemma sidebar_toggle_witness :
  let s' := toggleSidebar follow desktop_sidebar desktop_sidebar in
  open s' = negb (open desktop_sidebar) ∧
  cookie s' = Some (cookie_text (negb (open desktop_sidebar))) ∧
  sb_openMobile s' = sb_openMobile desktop_sidebar.
Proof. apply (sidebar_toggle follow desktop_sidebar). by left. Defined.

Lemma sidebar_double_toggle_witness :
  let s' := toggleSidebar follow desktop_sidebar (toggleSidebar follow desktop_sidebar desktop_sidebar) in
  open s' = negb (open desktop_sidebar) ∧ sb_openMobile s' = sb_openMobile desktop_sidebar.
Proof. apply (sidebar_double_toggle follow desktop_sidebar); done. Defined.

Lemma trigger_combines_rail_replaces_witness :
  let h := λ _ : event, [OpCaller "log"] in
  let c := contextValue desktop_sidebar in
  (∃ e, SidebarTrigger join_names (Some c) None (Some h) [] = inr e ∧
        on_click e = h click ++ [OpToggle]) ∧
  (∃ e, SidebarRail join_names (Some c) None [] [] = inr e ∧ on_click e = [OpToggle]) ∧
  (∃ e, SidebarRail join_names (Some c) None [("onClick", VHandler h)] [] = inr e ∧ on_click e = h click).
Proof.
  apply (trigger_combines_rail_replaces join_names (contextValue desktop_sidebar) None
           (λ _ : event, [OpCaller "log"]) [] []). done.
Defined.

Example cookie_example : cookie_text true = "sidebar:state=true; path=/; max-age=604800".
Proof. by vm_compute. Qed.
