(* ===== verification/Carousel.v ===== *)
(** * The carousel

    Models [components/ui/carousel.tsx]: the component's state, its callbacks and
    effects, and its elements.  The carousel engine (embla) is not part of the
    repository: it is an interface, [Embla], with the documented behaviour of its
    event registration as laws, and the theorems hold for every engine. *)

From S2P Require Import Prelude JsSort JsNumber JsText JsValue Markup.

(** ** The engine *)

(** Operations of the engine; callbacks are known by a number. *)
Class Embla (Api : Type) := {
  canScrollPrev : Api → bool;
  canScrollNext : Api → bool;
  scrollPrev : Api → Api;
  scrollNext : Api → Api;
  on : Api → string → nat → Api;
  off : Api → string → nat → Api;
  callbacks : Api → string → list nat;
}.

(** [on] registers for one event, [off] removes from one event, and neither moves
    the carousel; scrolling leaves the registrations alone. *)
Class EmblaLaws (Api : Type) `{Embla Api} : Prop := {
  on_callbacks a e h e' :
    callbacks (on a e h) e' = if decide (e = e') then callbacks a e' ++ [h] else callbacks a e';
  off_callbacks a e h e' :
    callbacks (off a e h) e'
    = if decide (e = e') then List.filter (λ x, negb (bool_decide (x = h))) (callbacks a e')
      else callbacks a e';
  on_prev a e h : canScrollPrev (on a e h) = canScrollPrev a;
  on_next a e h : canScrollNext (on a e h) = canScrollNext a;
  prev_callbacks a e : callbacks (scrollPrev a) e = callbacks a e;
  next_callbacks a e : callbacks (scrollNext a) e = callbacks a e;
}.

(** ** The component *)

Section Carousel.
Context {Api : Type} `{EA : Embla Api}.

(** [api] is absent until the engine is initialised; [given_api] records whether
    the caller's [setApi] received it, [prevented] whether the last key press was
    kept from the browser. *)
Record CarouselState := {
  api : option Api; can_prev : bool; can_next : bool; given_api : bool; prevented : bool;
}.

Definition carousel_mount : CarouselState :=
  {| api := None; can_prev := false; can_next := false; given_api := false; prevented := false |}.

Definition with_api (s : CarouselState) (a : option Api) : CarouselState :=
  {| api := a; can_prev := can_prev s; can_next := can_next s; given_api := given_api s;
     prevented := prevented s |}.

Definition onSelect (a : option Api) (s : CarouselState) : CarouselState :=
  match a with
  | None => s
  | Some a => {| api := api s; can_prev := canScrollPrev a; can_next := canScrollNext a;
                 given_api := given_api s; prevented := prevented s |}
  end.

(** [api?.scrollPrev()] and [api?.scrollNext()]. *)
Definition doScrollPrev (s : CarouselState) : CarouselState := with_api s (scrollPrev <$> api s).
Definition doScrollNext (s : CarouselState) : CarouselState := with_api s (scrollNext <$> api s).

Definition set_prevented (b : bool) (s : CarouselState) : CarouselState :=
  {| api := api s; can_prev := can_prev s; can_next := can_next s; given_api := given_api s;
     prevented := b |}.

Definition handleKeyDown (ev : event) (s : CarouselState) : CarouselState :=
  if bool_decide (ev_key ev = "ArrowLeft") then doScrollPrev (set_prevented true s)
  else if bool_decide (ev_key ev = "ArrowRight") then doScrollNext (set_prevented true s)
  else set_prevented false s.

(** The effect that hands the engine to the caller. *)
Definition api_effect (setApi : bool) (s : CarouselState) : CarouselState :=
  match api s with
  | Some a =>
      if setApi then {| api := api s; can_prev := can_prev s; can_next := can_next s;
                        given_api := true; prevented := prevented s |}
      else s
  | None => s
  end.

(** The effect that listens to the engine, with the component's callback [h], and
    its clean-up. *)
Definition listen_effect (h : nat) (s : CarouselState) : CarouselState :=
  match api s with
  | None => s
  | Some a => with_api (onSelect (Some a) s) (Some (on (on a "reInit" h) "select" h))
  end.

Definition listen_cleanup (h : nat) (s : CarouselState) : CarouselState :=
  with_api s ((λ a, off a "select" h) <$> api s).

(** The engine reports an event: the component's callback runs if registered. *)
Definition emit (h : nat) (e : string) (s : CarouselState) : CarouselState :=
  match api s with
  | Some a => if bool_decide (h ∈ callbacks a e) then onSelect (Some a) s else s
  | None => s
  end.

(** ** Elements *)

Inductive carousel_op := OpPrev | OpNext | OpKey (ev : event).

Record CarouselContext := {
  cx_orientation : string; cx_canScrollPrev : bool; cx_canScrollNext : bool;
}.

(** [{ ...opts, axis: orientation === "horizontal" ? "x" : "y" }]: the options the
    engine is created with. *)
Definition embla_options (opts : list (string * prim)) (orientation : string) : list (string * prim) :=
  spread opts [("axis", PStr (if bool_decide (orientation = "horizontal") then "x" else "y"))].

(** [orientation || (opts?.axis === "y" ? "vertical" : "horizontal")]. *)
Definition contextOrientation (orientation : string) (axis : option string) : string :=
  if truthy (PStr orientation) then orientation
  else if bool_decide (axis = Some "y") then "vertical" else "horizontal".

Definition carousel_context (s : CarouselState) (orientation : string) (axis : option string)
    : CarouselContext :=
  {| cx_orientation := contextOrientation orientation axis;
     cx_canScrollPrev := can_prev s; cx_canScrollNext := can_next s |}.

Definition useCarousel (context : option CarouselContext) : string + CarouselContext :=
  match context with
  | None => inl "useCarousel must be used within a <Carousel />"
  | Some c => inr c
  end.
End Carousel.

Section View.
Variable cn : list (option string) → string.

Abbreviation c_elem := (elem carousel_op).
Abbreviation c_props := (props carousel_op).

Definition horizontal (c : CarouselContext) : bool := bool_decide (cx_orientation c = "horizontal").

Definition Carousel (className : option string) (ps : c_props) (children : list c_elem) : c_elem :=
  Elem "div"
    (spread [("onKeyDownCapture", VHandler (λ ev, [OpKey ev])); pstr "className" (cn [Some "relative"; className]);
             pstr "role" "region"; pstr "aria-roledescription" "carousel"] ps) children.

(** The slides among the properties of the content, and what a slide holds, are spread
    with the other properties. *)
Definition CarouselContent (context : option CarouselContext) (className : option string)
    (ps : c_props) (children : list c_elem) : string + c_elem :=
  match useCarousel context with
  | inl e => inl e
  | inr c =>
      inr (Elem "div" [pstr "className" "overflow-hidden"]
             [Elem "div"
                (spread [pstr "className"
                   (cn [Some "flex"; Some (if horizontal c then "-ml-4" else "-mt-4 flex-col"); className])] ps)
                children])
  end.

Definition CarouselItem (context : option CarouselContext) (className : option string)
    (ps : c_props) (children : list c_elem) : string + c_elem :=
  match useCarousel context with
  | inl e => inl e
  | inr c =>
      inr (Elem "div"
             (spread [pstr "role" "group"; pstr "aria-roledescription" "slide";
                      pstr "className"
                        (cn [Some "min-w-0 shrink-0 grow-0 basis-full";
                             Some (if horizontal c then "pl-4" else "pt-4"); className])] ps) children)
  end.

Definition CarouselPrevious (context : option CarouselContext) (className : option string)
    (variant size : string) (ps : c_props) : string + c_elem :=
  match useCarousel context with
  | inl e => inl e
  | inr c =>
      inr (Elem "Button"
             (spread [pstr "variant" variant; pstr "size" size;
                      pstr "className"
                        (cn [Some "absolute  h-8 w-8 rounded-full";
                             Some (if horizontal c then "-left-12 top-1/2 -translate-y-1/2"
                                   else "-top-12 left-1/2 -translate-x-1/2 rotate-90"); className]);
                      ("disabled", VPrim (PBool (negb (cx_canScrollPrev c))));
                      ("onClick", VHandler (λ _, [OpPrev]))] ps)
             [Elem "ArrowLeft" [pstr "className" "h-4 w-4"] [];
              Elem "span" [pstr "className" "sr-only"] [EText "Previous slide"]])
  end.

Definition CarouselNext (context : option CarouselContext) (className : option string)
    (variant size : string) (ps : c_props) : string + c_elem :=
  match useCarousel context with
  | inl e => inl e
  | inr c =>
      inr (Elem "Button"
             (spread [pstr "variant" variant; pstr "size" size;
                      pstr "className"
                        (cn [Some "absolute h-8 w-8 rounded-full";
                             Some (if horizontal c then "-right-12 top-1/2 -translate-y-1/2"
                                   else "-bottom-12 left-1/2 -translate-x-1/2 rotate-90"); className]);
                      ("disabled", VPrim (PBool (negb (cx_canScrollNext c))));
                      ("onClick", VHandler (λ _, [OpNext]))] ps)
             [Elem "ArrowRight" [pstr "className" "h-4 w-4"] [];
              Elem "span" [pstr "className" "sr-only"] [EText "Next slide"]])
  end.
End View.

(** ** Lemmas *)

Section Theorems.
Context {Api : Type} `{EL : EmblaLaws Api}.
Implicit Types s : @CarouselState Api.

(** The component's flags are those of the engine. *)
Definition mirrors s : Prop :=
  ∃ a, api s = Some a ∧ can_prev s = canScrollPrev a ∧ can_next s = canScrollNext a.

Lemma listen_registers h s a :
  api s = Some a →
  ∃ a', api (listen_effect h s) = Some a' ∧ h ∈ callbacks a' "reInit" ∧ h ∈ callbacks a' "select".
Proof.
  intros Ha. unfold listen_effect. rewrite Ha. eexists. split; [done|].
  rewrite !on_callbacks. simpl. split; apply elem_of_app; right; by left.
Qed.

Lemma emit_mirrors h e s a :
  api s = Some a → h ∈ callbacks a e → mirrors (emit h e s).
Proof. intros Ha Hh. unfold emit. rewrite Ha, bool_decide_true by done. by exists a. Qed.

Lemma listen_mirrors h s a : api s = Some a → mirrors (listen_effect h s).
Proof.
  intros Ha. unfold listen_effect. rewrite Ha. eexists. split; [done|]. cbn [with_api onSelect can_prev can_next].
  by rewrite !on_prev, !on_next.
Qed.

(** ** Main theorems *)

(** The buttons tell the truth: once the component listens to the engine, and
    again after every event of the engine, whatever scrolling happened in between,
    each of the two buttons is enabled exactly when the engine can scroll that way,
    and a click on it scrolls that way. *)
Lemma carousel_buttons_mirror_engine cn cls v sz orientation axis h s a a2 e :
  api s = Some a → e ∈ ["select"; "reInit"] →
  let s1 := listen_effect h s in
  (∀ ev, callbacks a2 ev = callbacks (on (on a "reInit" h) "select" h) ev) →
  let s2 := emit h e (with_api s1 (Some a2)) in
  mirrors s1 ∧
  ∃ prev next,
    CarouselPrevious cn (Some (carousel_context s2 orientation axis)) cls v sz [] = inr prev ∧
    CarouselNext cn (Some (carousel_context s2 orientation axis)) cls v sz [] = inr next ∧
    is_disabled prev = negb (canScrollPrev a2) ∧ is_disabled next = negb (canScrollNext a2) ∧
    on_click prev = [OpPrev] ∧ on_click next = [OpNext].
Proof.
  intros Ha He s1 Hcb s2. split; [by eapply listen_mirrors|].
  assert (Hreg : h ∈ callbacks a2 e).
  { rewrite Hcb, !on_callbacks. rewrite !elem_of_cons, elem_of_nil in He.
    destruct He as [->|[->|[]]]; simpl; apply elem_of_app; right; by left. }
  destruct (emit_mirrors h e (with_api s1 (Some a2)) a2 eq_refl Hreg) as (a3 & Ha3 & Hp & Hn).
  fold s2 in Ha3, Hp, Hn.
  assert (a3 = a2) as ->.
  { unfold s2, emit in Ha3. cbn [with_api api] in Ha3. rewrite bool_decide_true in Ha3 by done.
    cbn in Ha3. congruence. }
  eexists _, _. split_and!; try reflexivity.
  - transitivity (negb (can_prev s2)); [reflexivity|by rewrite Hp].
  - transitivity (negb (can_next s2)); [reflexivity|by rewrite Hn].
Qed.

(** The engine scrolls along the axis the context tells the elements to lay out for;
    the caller's own [axis] is overridden. *)
Lemma carousel_axis_agrees opts orientation axis :
  orientation ∈ ["horizontal"; "vertical"] →
  prop_get (embla_options opts orientation) "axis"
  = Some (PStr (if bool_decide (contextOrientation orientation axis = "horizontal") then "x" else "y")).
Proof.
  intros Ho. unfold embla_options. rewrite prop_get_spread.
  by apply elem_of_cons in Ho as [->|[->|[]%elem_of_nil]%elem_of_cons].
Qed.

(** The arrow keys scroll and are kept from the browser; every other key leaves
    the carousel alone. *)
Lemma carousel_keys ev s a :
  api s = Some a →
  let s' := handleKeyDown ev s in
  api s' = Some (if decide (ev_key ev = "ArrowLeft") then scrollPrev a
                 else if decide (ev_key ev = "ArrowRight") then scrollNext a else a) ∧
  (prevented s' = true ↔ ev_key ev = "ArrowLeft" ∨ ev_key ev = "ArrowRight").
Proof.
  intros Ha. unfold handleKeyDown. destruct (decide (ev_key ev = "ArrowLeft")) as [E|E].
  { rewrite bool_decide_true by done. cbn. rewrite Ha. split; [done|]. split; auto. }
  rewrite bool_decide_false by done.
  destruct (decide (ev_key ev = "ArrowRight")) as [E2|E2].
  { rewrite bool_decide_true by done. cbn. rewrite Ha. split; [done|]. split; auto. }
  rewrite bool_decide_false by done. cbn. split; [done|]. naive_solver.
Qed.

(** The clean-up forgets one of the two registrations: after the component is
    gone its callback is no longer called on "select" but stays registered for
    "reInit". *)
Lemma carousel_cleanup_leaks h s a :
  api s = Some a →
  ∃ a', api (listen_cleanup h (listen_effect h s)) = Some a' ∧
        h ∉ callbacks a' "select" ∧ h ∈ callbacks a' "reInit".
Proof.
  intros Ha. destruct (listen_registers h s a Ha) as (a1 & E1 & Hr & _).
  unfold listen_cleanup. cbn [with_api api]. rewrite E1. eexists. split; [done|].
  rewrite !off_callbacks. simpl. split; [|done].
  intros [Hb _]%elem_of_lfilter. by rewrite bool_decide_true in Hb.
Qed.
End Theorems.

(** ** Witnesses *)

(** An engine with a position among its slides. *)
Record Slides := { position : nat; slides : nat; registered : gmap string (list nat) }.

Definition slide_callbacks (a : Slides) (e : string) : list nat := default [] (registered a !! e).

#[global] Instance slides_embla : Embla Slides := {
  canScrollPrev a := bool_decide (0 < position a);
  canScrollNext a := bool_decide (S (position a) < slides a);
  scrollPrev a := {| position := pred (position a); slides := slides a; registered := registered a |};
  scrollNext a := {| position := if bool_decide (S (position a) < slides a) then S (position a) else position a;
                     slides := slides a; registered := registered a |};
  on a e h := {| position := position a; slides := slides a;
                 registered := <[e := slide_callbacks a e ++ [h]]> (registered a) |};
  off a e h := {| position := position a; slides := slides a;
                  registered := <[e := List.filter (λ x, negb (bool_decide (x = h))) (slide_callbacks a e)]>
                                  (registered a) |};
  callbacks := slide_callbacks;
}.

#[global] Instance slides_laws : EmblaLaws Slides.
Proof.
  split; try done; intros a e h e'; cbn; unfold slide_callbacks; cbn; case_decide as E; subst;
    by rewrite ?lookup_insert_eq, ?lookup_insert_ne.
Qed.

Definition three_slides : Slides := {| position := 0; slides := 3; registered := ∅ |}.
Definition carousel_ready : @CarouselState Slides := with_api carousel_mount (Some three_slides).
Definition names (l : list (option string)) : string := join " " (omap id l).

Lemma carousel_buttons_mirror_engine_witness :
  let a2 := scrollNext (on (on three_slides "reInit" 4) "select" 4) in
  let s2 := emit 4 "select" (with_api (listen_effect 4 carousel_ready) (Some a2)) in
  mirrors (listen_effect 4 carousel_ready) ∧
  ∃ prev next,
    CarouselPrevious names (Some (carousel_context s2 "horizontal" None)) None "outline" "icon" [] = inr prev ∧
    CarouselNext names (Some (carousel_context s2 "horizontal" None)) None "outline" "icon" [] = inr next ∧
    is_disabled prev = negb (canScrollPrev a2) ∧ is_disabled next = negb (canScrollNext a2) ∧
    on_click prev = [OpPrev] ∧ on_click next = [OpNext].
Proof.
  apply (carousel_buttons_mirror_engine names None "outline" "icon" "horizontal" None 4
           carousel_ready three_slides).
  - done.
  - by left.
  - done.
Defined.

Definition arrow_right : event := {| ev_key := "ArrowRight"; ev_ctrlKey := false; ev_metaKey := false |}.

Lemma carousel_keys_witness :
  api (handleKeyDown arrow_right carousel_ready) = Some (scrollNext three_slides) ∧
  (prevented (handleKeyDown arrow_right carousel_ready) = true
   ↔ ev_key arrow_right = "ArrowLeft" ∨ ev_key arrow_right = "ArrowRight").
Proof. apply (carousel_keys arrow_right carousel_ready three_slides). done. Defined.

Lemma carousel_cleanup_leaks_witness :
  ∃ a', api (listen_cleanup 4 (listen_effect 4 carousel_ready)) = Some a' ∧
        4 ∉ callbacks a' "select" ∧ 4 ∈ callbacks a' "reInit".
Proof. apply (carousel_cleanup_leaks 4 carousel_ready three_slides). done. Defined.
