(* ===== verification/Chart.v ===== *)
(** * The chart container

    Models [components/ui/chart.tsx]: the context that carries the configuration of
    the series, the style sheet generated from it ([ChartStyle]), the contents of
    tooltip and legend, and the lookup of an item's configuration
    ([getPayloadConfigFromPayload]), which tries the texts of the item and of its
    datum before the key itself.

    The items that recharts passes are objects read under computed names, so they
    are objects ([obj jval]) here.  The formatting of a value for the locale
    ([toLocaleString]) and [cn] are arguments. *)

From S2P Require Import Prelude JsSort JsNumber JsText JsValue Markup.

(** ** Values *)

(** Primitive values, objects, and functions with their source text. *)
Inductive jval :=
  | JPrim (v : prim)
  | JObj (o : list (string * jval))
  | JFun (source : string).

Definition item : Type := obj jval.

Definition jtruthy (v : jval) : bool := match v with JPrim p => truthy p | _ => true end.

(** [a || b]. *)
Definition jor (a b : jval) : jval := if jtruthy a then a else b.

(** A template literal [`${v}`]. *)
Definition jtext (v : jval) : string :=
  match v with
  | JPrim p => to_string p
  | JObj _ => "[object Object]"
  | JFun source => source
  end.

(** [item.f] for a name [f] that [Object.prototype] does not have. *)
Definition field (i : item) (f : string) : jval := default (JPrim Undefined) (own_get i f).

(** [v.f] for such a name: reading from [undefined] or [null] throws. *)
Definition member (v : jval) (f : string) : res jval :=
  match v with
  | JPrim Undefined | JPrim Null => inl "TypeError"
  | JObj o => inr (field o f)
  | _ => inr (JPrim Undefined)
  end.

(** The [key] property of an element: it is turned into a text unless absent. *)
Definition react_key (v : jval) : prim :=
  match v with JPrim Undefined => Undefined | _ => PStr (jtext v) end.

(** The component has no handlers of its own. *)
Abbreviation chart_elem := (elem Empty_set).

Abbreviation rnode := (react_node Empty_set).

Definition node_or (a b : rnode) : rnode := if ntruthy a then a else b.

(** A value as a child; objects and functions are not valid children. *)
Definition as_node (v : jval) : rnode := match v with JPrim p => NPrim p | _ => NPrim Undefined end.

(** ** Configuration *)

Definition THEMES : list (string * string) := [("light", ""); ("dark", ".dark")].

(** One series: its label, its icon (a component), and a colour or one per theme. *)
Record SeriesConfig := {
  label : rnode; icon : option string; color : prim; theme : option (obj prim);
}.

Definition ChartConfig : Type := obj SeriesConfig.

Definition useChart (context : option ChartConfig) : res ChartConfig :=
  match context with
  | None => inl "useChart must be used within a <ChartContainer />"
  | Some config => inr config
  end.

(** [c?.label] and [c?.icon] of a lookup; inherited members have neither. *)
Definition label_of (c : lookup_result SeriesConfig) : rnode :=
  match c with Own s => label s | _ => NPrim Undefined end.
Definition icon_of (c : lookup_result SeriesConfig) : option string :=
  match c with Own s => icon s | _ => None end.

(** [key in o && typeof o[key] === "string"], with the text. *)
Definition text_at (o : obj jval) (key : string) : option string :=
  if obj_in o key
  then match obj_get o key with Own (JPrim (PStr s)) => Some s | _ => None end
  else None.

Definition payload_of (p : obj jval) : option (obj jval) :=
  if obj_in p "payload"
  then match obj_get p "payload" with Own (JObj q) => Some q | _ => None end
  else None.

Definition getPayloadConfigFromPayload (config : ChartConfig) (payload : jval) (key : string)
    : lookup_result SeriesConfig :=
  match payload with
  | JObj p =>
      let payloadPayload := payload_of p in
      let configLabelKey :=
        match text_at p key with
        | Some s => s
        | None => match payloadPayload with
                  | Some q => default key (text_at q key)
                  | None => key
                  end
        end in
      if obj_in config configLabelKey then obj_get config configLabelKey else obj_get config key
  | _ => Missing
  end.

(** ** The style sheet *)

Definition newline : string := String "010" "".

(** [itemConfig.theme?.[theme] || itemConfig.color]. *)
Definition theme_color (theme_name : string) (s : SeriesConfig) : prim :=
  js_or (match theme s with
         | Some t => default Undefined (own_get t theme_name)
         | None => Undefined
         end) (color s).

(** A declaration, or [null], which [join] turns into the empty text. *)
Definition declaration (theme_name : string) (entry : string * SeriesConfig) : string :=
  let c := theme_color theme_name entry.2 in
  if truthy c then "  --color-" +:+ entry.1 +:+ ": " +:+ to_string c +:+ ";" else "".

Definition theme_block (id : string) (colorConfig : list (string * SeriesConfig))
    (t : string * string) : string :=
  newline +:+ t.2 +:+ " [data-chart=" +:+ id +:+ "] {" +:+ newline
  +:+ join newline (declaration t.1 <$> colorConfig) +:+ newline +:+ "}" +:+ newline.

Definition colorConfig (config : ChartConfig) : list (string * SeriesConfig) :=
  List.filter (λ e, bool_decide (is_Some (theme e.2)) || truthy (color e.2)) (entries config).

Definition style_text (id : string) (config : ChartConfig) : string :=
  join newline (theme_block id (colorConfig config) <$> THEMES).

Definition ChartStyle (id : string) (config : ChartConfig) : option chart_elem :=
  if bool_decide (colorConfig config = []) then None
  else Some (Elem "style" [pstr "dangerouslySetInnerHTML" (style_text id config)] []).

(** ** Elements *)

(** Tooltip and legend of recharts. *)
Definition ChartTooltip (ps : props Empty_set) (children : list chart_elem) : chart_elem :=
  Elem "RechartsPrimitive.Tooltip" ps children.
Definition ChartLegend (ps : props Empty_set) (children : list chart_elem) : chart_elem :=
  Elem "RechartsPrimitive.Legend" ps children.

(** [s.replace(/:/g, "")]. *)
Fixpoint remove_colons (s : string) : string :=
  match s with
  | EmptyString => EmptyString
  | String c s' => if bool_decide (c = ":"%char) then remove_colons s' else String c (remove_colons s')
  end.

Section View.
Variable cn : list (option string) → string.
Variable toLocaleString : jval → string.

(** The context the container provides, and the element below it. *)
Definition ChartContainer (uniqueId : string) (id : prim) (className : option string)
    (config : ChartConfig) (ps : props Empty_set) (children : list chart_elem)
    : ChartConfig * chart_elem :=
  let chartId := "chart-" +:+ to_string (js_or id (PStr (remove_colons uniqueId))) in
  (config,
   Elem "div"
     (spread
        [pstr "data-chart" chartId;
         pstr "className"
           (cn [Some "flex aspect-video justify-center text-xs [&_.recharts-cartesian-axis-tick_text]:fill-muted-foreground [&_.recharts-cartesian-grid_line[stroke='#ccc']]:stroke-border/50 [&_.recharts-curve.recharts-tooltip-cursor]:stroke-border [&_.recharts-dot[stroke='#fff']]:stroke-transparent [&_.recharts-layer]:outline-none [&_.recharts-polar-grid_[stroke='#ccc']]:stroke-border [&_.recharts-radial-bar-background-sector]:fill-muted [&_.recharts-rectangle.recharts-tooltip-cursor]:fill-muted [&_.recharts-reference-line_[stroke='#ccc']]:stroke-border [&_.recharts-sector[stroke='#fff']]:stroke-transparent [&_.recharts-sector]:outline-none [&_.recharts-surface]:outline-none";
                className])] ps)
     (option_list (ChartStyle chartId config)
      ++ [Elem "RechartsPrimitive.ResponsiveContainer" [] children])).

(** The properties of the tooltip, with their defaults filled in. *)
Record TooltipProps := {
  active : bool;
  payload : option (list item);
  tt_className : option string;
  indicator : string;
  hideLabel : bool;
  hideIndicator : bool;
  tt_label : rnode;
  labelFormatter : option (rnode → list item → rnode);
  labelClassName : option string;
  formatter : option (jval → jval → item → nat → jval → rnode);
  tt_color : prim;
  nameKey : prim;
  labelKey : prim;
}.

(** [payload?.length] as a condition. *)
Definition items_of (p : option (list item)) : list item := default [] p.

Definition tooltipLabel (config : ChartConfig) (t : TooltipProps) : option chart_elem :=
  match items_of (payload t) with
  | [] => None
  | it :: _ as l =>
      if hideLabel t then None
      else
        let key := jtext (jor (JPrim (labelKey t)) (jor (field it "dataKey")
                            (jor (field it "name") (JPrim (PStr "value"))))) in
        let itemConfig := getPayloadConfigFromPayload config (JObj it) key in
        let value :=
          match tt_label t with
          | NPrim (PStr s) =>
              if truthy (labelKey t) then label_of itemConfig
              else node_or (label_of (obj_get config s)) (NPrim (PStr s))
          | _ => label_of itemConfig
          end in
        let box v := Elem "div" [pstr "className" (cn [Some "font-medium"; labelClassName t])]
                       (node_child v) in
        match labelFormatter t with
        | Some g => Some (box (g value l))
        | None => if ntruthy value then Some (box value) else None
        end
  end.

(** [payload.length === 1 && indicator !== "dot"]. *)
Definition nestLabel (t : TooltipProps) : bool :=
  bool_decide (length (items_of (payload t)) = 1) && negb (bool_decide (indicator t = "dot")).

(** The mark before an entry: its icon, a coloured box, or nothing. *)
Definition entry_mark (t : TooltipProps) (itemConfig : lookup_result SeriesConfig)
    (indicatorColor : prim) : list chart_elem :=
  match icon_of itemConfig with
  | Some c => [Elem c [] []]
  | None =>
      if hideIndicator t then []
      else
        [Elem "div"
           [pstr "className"
              (cn [Some "shrink-0 rounded-[2px] border-[--color-border] bg-[--color-bg]";
                   name_if (bool_decide (indicator t = "dot")) "h-2.5 w-2.5";
                   name_if (bool_decide (indicator t = "line")) "w-1";
                   name_if (bool_decide (indicator t = "dashed")) "w-0 border-[1.5px] border-dashed bg-transparent";
                   name_if (nestLabel t && bool_decide (indicator t = "dashed")) "my-0.5"]);
            ("style", VStyle [("--color-bg", indicatorColor); ("--color-border", indicatorColor)])] []]
  end.

(** Label and value of an entry; a value that is [0] is shown bare. *)
Definition entry_body (config : ChartConfig) (t : TooltipProps)
    (itemConfig : lookup_result SeriesConfig) (it : item) : chart_elem :=
  Elem "div"
    [pstr "className" (cn [Some "flex flex-1 justify-between leading-none";
                           Some (if nestLabel t then "items-end" else "items-center")])]
    (Elem "div" [pstr "className" "grid gap-1.5"]
       ((if nestLabel t then option_list (tooltipLabel config t) else [])
        ++ [Elem "span" [pstr "className" "text-muted-foreground"]
              (node_child (node_or (label_of itemConfig) (as_node (field it "name"))))])
     :: if jtruthy (field it "value")
        then [Elem "span" [pstr "className" "font-mono font-medium tabular-nums text-foreground"]
                [EText (toLocaleString (field it "value"))]]
        else node_child (as_node (field it "value"))).

(** A colour as the value of a style property. *)
Definition style_value (v : jval) : prim :=
  match v with JPrim p => p | _ => PStr (jtext v) end.

(** One entry of the tooltip. *)
Definition tooltip_entry (config : ChartConfig) (t : TooltipProps) (index : nat) (it : item)
    : res chart_elem :=
  let key := jtext (jor (JPrim (nameKey t)) (jor (field it "name")
                      (jor (field it "dataKey") (JPrim (PStr "value"))))) in
  let itemConfig := getPayloadConfigFromPayload config (JObj it) key in
  try! indicatorColor :=
    (if truthy (tt_color t) then inr (JPrim (tt_color t))
     else try! fill := member (field it "payload") "fill" in inr (jor fill (field it "color"))) in
  let plain := entry_mark t itemConfig (style_value indicatorColor) ++ [entry_body config t itemConfig it] in
  inr (Elem "div"
         [("key", VPrim (react_key (field it "dataKey")));
          pstr "className"
            (cn [Some "flex w-full flex-wrap items-stretch gap-2 [&>svg]:h-2.5 [&>svg]:w-2.5 [&>svg]:text-muted-foreground";
                 name_if (bool_decide (indicator t = "dot")) "items-center"])]
         match formatter t, field it "value" with
         | None, _ | _, JPrim Undefined => plain
         | Some g, value =>
             if jtruthy (field it "name")
             then node_child (g value (field it "name") it index (field it "payload"))
             else plain
         end).

Definition ChartTooltipContent (context : option ChartConfig) (t : TooltipProps)
    : res (option chart_elem) :=
  try! config := useChart context in
  if negb (active t) || bool_decide (items_of (payload t) = []) then inr None
  else
    try! rows := res_map (tooltip_entry config t) 0 (items_of (payload t)) in
    inr (Some (Elem "div"
           [pstr "className"
              (cn [Some "grid min-w-[8rem] items-start gap-1.5 rounded-lg border border-border/50 bg-background px-2.5 py-1.5 text-xs shadow-xl";
                   tt_className t])]
           ((if nestLabel t then [] else option_list (tooltipLabel config t))
            ++ [Elem "div" [pstr "className" "grid gap-1.5"] rows]))).

(** One entry of the legend. *)
Definition legend_item (config : ChartConfig) (hideIcon : bool) (nameKey : prim) (it : item) : chart_elem :=
  let key := jtext (jor (JPrim nameKey) (jor (field it "dataKey") (JPrim (PStr "value")))) in
  let itemConfig := getPayloadConfigFromPayload config (JObj it) key in
  Elem "div"
    [("key", VPrim (react_key (field it "value")));
     pstr "className" (cn [Some "flex items-center gap-1.5 [&>svg]:h-3 [&>svg]:w-3 [&>svg]:text-muted-foreground"])]
    (match icon_of itemConfig, hideIcon with
     | Some c, false => Elem c [] []
     | _, _ => Elem "div" [pstr "className" "h-2 w-2 shrink-0 rounded-[2px]";
                           ("style", VStyle [("backgroundColor", style_value (field it "color"))])] []
     end :: node_child (label_of itemConfig)).

Definition ChartLegendContent (context : option ChartConfig) (className : option string)
    (hideIcon : bool) (payload : option (list item)) (verticalAlign : string) (nameKey : prim)
    : res (option chart_elem) :=
  try! config := useChart context in
  if bool_decide (items_of payload = []) then inr None
  else
    inr (Some (Elem "div"
           [pstr "className"
              (cn [Some "flex items-center justify-center gap-4";
                   Some (if bool_decide (verticalAlign = "top") then "pb-3" else "pt-3");
                   className])]
           (legend_item config hideIcon nameKey <$> items_of payload))).
End View.

(** ** Lookup *)

(** Whether an object's text under [key] leads the lookup to another entry. *)
Definition redirects (config : ChartConfig) (o : obj jval) (key : string) : Prop :=
  ∃ s, text_at o key = Some s ∧ obj_in config s = true ∧ s ≠ key.

Lemma lookup_own (config : ChartConfig) key sc :
  own_get config key = Some sc → obj_in config key = true ∧ obj_get config key = Own sc.
Proof. intros H. unfold obj_in, obj_get. rewrite H. by rewrite bool_decide_true by eauto. Qed.

(** The entry of the key is found unless the item or its datum redirects. *)
Lemma payload_config_key config (p : obj jval) key sc :
  own_get config key = Some sc → ¬ redirects config p key →
  (∀ q, payload_of p = Some q → ¬ redirects config q key) →
  getPayloadConfigFromPayload config (JObj p) key = Own sc.
Proof.
  intros Hk Hp Hq. apply lookup_own in Hk as [Hin Hget]. unfold getPayloadConfigFromPayload.
  assert (∀ o, ¬ redirects config o key → ∀ s, text_at o key = Some s →
          (if obj_in config s then obj_get config s else obj_get config key) = Own sc) as Hs.
  { intros o Ho s Es. destruct (obj_in config s) eqn:E; [|done].
    destruct (decide (s = key)) as [->|Hne]; [done|]. destruct Ho. by exists s. }
  destruct (text_at p key) eqn:E; [by apply (Hs p)|].
  destruct (payload_of p) as [q|] eqn:Eq; [|by rewrite Hin].
  destruct (text_at q key) eqn:E'; simpl; [by apply (Hs q); auto|by rewrite Hin].
Qed.

(** ** Tooltip *)

(** An item of a configured series: named after its key, with a label in the
    configuration, a value to show and a datum. *)
Record series_item (config : ChartConfig) (key text : string) (it : item) : Prop := {
  si_name : own_get it "name" = Some (JPrim (PStr key));
  si_key : key ≠ "";
  si_entry : ∃ sc, own_get config key = Some sc ∧ label sc = NPrim (PStr text);
  si_text : text ≠ "";
  si_value : jtruthy (field it "value") = true;
  si_datum : ∃ q, own_get it "payload" = Some (JObj q) ∧ ¬ redirects config q key;
  si_item : ¬ redirects config it key;
}.

Lemma jor_text s v : s ≠ "" → jor (JPrim (PStr s)) v = JPrim (PStr s).
Proof. intros H. unfold jor. cbn [jtruthy]. by rewrite truthy_text. Qed.

Lemma payload_of_own p q : own_get p "payload" = Some (JObj q) → payload_of p = Some q.
Proof.
  intros H. unfold payload_of, obj_in, obj_get. rewrite H. by rewrite bool_decide_true by eauto.
Qed.

Lemma series_config config key text it :
  series_item config key text it →
  ∃ sc, getPayloadConfigFromPayload config (JObj it) key = Own sc ∧ label sc = NPrim (PStr text).
Proof.
  intros [_ _ (sc & Hc & Hl) _ _ (q & Hq & Hr) Hi]. exists sc. split; [|done].
  apply payload_config_key; [done..|]. intros q' Hq'.
  apply payload_of_own in Hq. congruence.
Qed.

Lemma texts_mark cn t c v : concat (map texts (entry_mark cn t c v)) = [].
Proof. unfold entry_mark. by destruct (icon_of c), (hideIndicator t). Qed.

Definition heading_texts cn config t : list string :=
  concat (map texts (option_list (tooltipLabel cn config t))).

Lemma texts_body cn loc config t c it text :
  label_of c = NPrim (PStr text) → text ≠ "" → jtruthy (field it "value") = true →
  texts (entry_body cn loc config t c it)
  = (if nestLabel t then heading_texts cn config t else []) ++ [text; loc (field it "value")].
Proof.
  intros Hl Ht Hv. unfold entry_body. rewrite Hl, Hv. unfold node_or.
  cbn [ntruthy]. rewrite truthy_text by done. cbn.
  rewrite map_app, concat_app. cbn. destruct (nestLabel t); cbn; [|done].
  unfold heading_texts. by rewrite <- app_assoc.
Qed.

Lemma texts_entry cn loc config t i it key text :
  formatter t = None → nameKey t = Undefined → series_item config key text it →
  ∃ e, tooltip_entry cn loc config t i it = inr e ∧
       texts e = (if nestLabel t then heading_texts cn config t else []) ++ [text; loc (field it "value")].
Proof.
  intros Hf Hn Hs. pose proof (series_config _ _ _ _ Hs) as (sc & Hc & Hl).
  destruct Hs as [Hname Hkey _ Ht Hv (q & Hq & _) _].
  unfold tooltip_entry. rewrite Hf, Hn.
  assert (field it "name" = JPrim (PStr key)) as -> by (unfold field; by rewrite Hname).
  assert (field it "payload" = JObj q) as -> by (unfold field; by rewrite Hq).
  change (jor (JPrim Undefined) ?b) with b. rewrite (jor_text key) by done. cbn [jtext to_string].
  rewrite Hc. destruct (truthy (tt_color t)); cbn [res_bind member]; eexists; (split; [reflexivity|]).
  all: cbn [texts]; rewrite map_app, concat_app, texts_mark; cbn [map concat app];
    rewrite app_nil_r; by apply texts_body.
Qed.

(** The heading of a tooltip over a tick with a text: the text itself, unless the
    configuration has an entry of that name. *)
Lemma heading_plain cn config t h it l :
  payload t = Some (it :: l) → hideLabel t = false → labelFormatter t = None →
  labelKey t = Undefined → tt_label t = NPrim (PStr h) → h ≠ "" → own_get config h = None →
  heading_texts cn config t = [h].
Proof.
  intros Hp Hh Hf Hk Hl Hne Ho. unfold heading_texts, tooltipLabel.
  rewrite Hp, Hh, Hf, Hk, Hl. cbn [items_of default].
  assert (label_of (obj_get config h) = NPrim Undefined) as ->.
  { unfold obj_get. rewrite Ho. by destruct (reserved h). }
  change (truthy Undefined) with false. cbv beta iota zeta.
  change (node_or (NPrim Undefined) ?b) with b.
  change (ntruthy (NPrim (PStr h))) with (truthy (PStr h)). by rewrite truthy_text.
Qed.

(** ** Style sheet *)

Lemma string_app_assoc (s t u : string) : (s +:+ t) +:+ u = s +:+ t +:+ u.
Proof.
  induction s as [|c s IH]; [done|].
  change (String c ((s +:+ t) +:+ u) = String c (s +:+ t +:+ u)). by rewrite IH.
Qed.

Lemma join_app sep l1 l2 :
  l1 ≠ [] → l2 ≠ [] → join sep (l1 ++ l2) = join sep l1 +:+ sep +:+ join sep l2.
Proof.
  intros H1 H2. induction l1 as [|a l1 IH]; [done|]. destruct l1 as [|b l1].
  - simpl. by destruct l2.
  - change (join sep ((a :: b :: l1) ++ l2)) with (a +:+ sep +:+ join sep ((b :: l1) ++ l2)).
    rewrite IH by done. simpl. by rewrite !string_app_assoc.
Qed.

Definition selector (prefix id : string) : string := prefix +:+ " [data-chart=" +:+ id +:+ "] {".

(** The lines of one theme's block. *)
Definition block_lines (id : string) (cc : list (string * SeriesConfig)) (t : string * string)
    : list string :=
  ["" ; selector t.2 id] ++ (declaration t.1 <$> cc) ++ ["}"; ""].

Lemma theme_block_lines id cc t :
  cc ≠ [] → theme_block id cc t = join newline (block_lines id cc t).
Proof.
  intros Hcc. unfold block_lines. rewrite join_app by (done || (by destruct cc)).
  rewrite join_app by (done || (by destruct cc)).
  unfold theme_block, selector. cbn [join]. by rewrite !string_app_assoc.
Qed.

(** No line break in the name and the colours of a series. *)
Definition one_line (e : string * SeriesConfig) : Prop :=
  has_char "010" e.1 = false ∧ has_char "010" (to_string (color e.2)) = false ∧
  ∀ t name c, theme e.2 = Some t → own_get t name = Some c → has_char "010" (to_string c) = false.

Lemma one_line_color e t : one_line e → has_char "010" (to_string (theme_color t e.2)) = false.
Proof.
  intros (_ & Hc & Ht). unfold theme_color, js_or. destruct (theme e.2) as [th|] eqn:E; [|done].
  destruct (own_get th t) as [c|] eqn:Ec; cbn [default from_option id]; [|done].
  destruct (truthy c); [by eapply Ht|done].
Qed.

(** The line that a series must have in the style sheet of a theme: the theme's colour
    comes first, then the common one; without either the line is empty. *)
Inductive color_line (theme_name key : string) (s : SeriesConfig) : string → Prop :=
  | line_theme t c :
      theme s = Some t → own_get t theme_name = Some c → truthy c = true →
      color_line theme_name key s ("  --color-" +:+ key +:+ ": " +:+ to_string c +:+ ";")
  | line_color :
      (∀ t c, theme s = Some t → own_get t theme_name = Some c → truthy c = false) →
      truthy (color s) = true →
      color_line theme_name key s ("  --color-" +:+ key +:+ ": " +:+ to_string (color s) +:+ ";")
  | line_none :
      (∀ t c, theme s = Some t → own_get t theme_name = Some c → truthy c = false) →
      truthy (color s) = false → color_line theme_name key s "".

Lemma declaration_line t e : color_line t e.1 e.2 (declaration t e).
Proof.
  unfold declaration, theme_color, js_or. destruct (theme e.2) as [th|] eqn:E.
  - destruct (own_get th t) as [c|] eqn:Ec; cbn [default from_option id].
    + destruct (truthy c) eqn:Hc; [rewrite Hc; by eapply line_theme|].
      destruct (truthy (color e.2)) eqn:Hk; [apply line_color|apply line_none]; congruence.
    + cbn [truthy]. destruct (truthy (color e.2)) eqn:Hk; [apply line_color|apply line_none]; congruence.
  - cbn [truthy]. destruct (truthy (color e.2)) eqn:Hk; [apply line_color|apply line_none]; congruence.
Qed.

Lemma declaration_lines t l : Forall2 (λ e line, color_line t e.1 e.2 line) l (declaration t <$> l).
Proof. apply Forall2_fmap_r, Forall_Forall2_diag, Forall_true. apply declaration_line. Qed.

Lemma block_lines_one id cc t :
  t ∈ THEMES → has_char "010" id = false → Forall one_line cc →
  Forall (λ w, has_char "010" w = false) (block_lines id cc t).
Proof.
  intros Ht Hid Hcc. unfold block_lines, selector. repeat (apply Forall_cons; split); [done|..].
  - rewrite !has_char_app, Hid. unfold THEMES in Ht.
    apply elem_of_cons in Ht as [->|[->|[]%elem_of_nil]%elem_of_cons]; done.
  - apply Forall_app. split; [|by repeat constructor]. apply Forall_fmap. eapply Forall_impl; [done|].
    intros e He. unfold compose, declaration. destruct (truthy _); [|done].
    rewrite !has_char_app, (one_line_color e t.1 He). destruct He as [-> _]. done.
Qed.

(** ** Main theorems *)

(** C32: the tooltip reads as it should: a heading with the tick's text, then for each
    series of the hovered point, in order, its label from the configuration and
    its value as the locale writes it, for every indicator and whether or not
    the heading is nested in the single entry. *)
Theorem tooltip_lists_series cn loc config t h (l : list (string * string * item)) :
  active t = true → payload t = Some l.*2 → l ≠ [] →
  formatter t = None → nameKey t = Undefined →
  hideLabel t = false → labelFormatter t = None → labelKey t = Undefined →
  tt_label t = NPrim (PStr h) → h ≠ "" → own_get config h = None →
  Forall (λ x, series_item config x.1.1 x.1.2 x.2) l →
  ∃ e, ChartTooltipContent cn loc (Some config) t = inr (Some e) ∧
       texts e = h :: concat ((λ x, [x.1.2; loc (field x.2 "value")]) <$> l).
Proof.
  intros Ha Hp Hne Hf Hn Hh Hlf Hlk Htl Hh' Ho Hl.
  assert (heading_texts cn config t = [h]) as Hd.
  { destruct l as [|x l]; [done|]. by eapply heading_plain. }
  assert (∃ rows, res_map (tooltip_entry cn loc config t) 0 l.*2 = inr rows ∧
            texts <$> rows = (λ x, (if nestLabel t then [h] else [])
                                   ++ [x.1.2; loc (field x.2 "value")]) <$> l) as (rows & Hr & Ht).
  { clear Hp Hne. generalize 0. induction Hl as [|x l Hx Hl IH]; intros n; [by exists []|].
    eapply texts_entry in Hx as (e & He & Hte); [|done..].
    destruct (IH (S n)) as (rows & Hr & Ht). exists (e :: rows). cbn. rewrite He. cbn.
    rewrite Hr. split; [done|]. rewrite Hte, Hd. cbn. by rewrite Ht. }
  unfold ChartTooltipContent. cbn [useChart res_bind]. rewrite Ha, Hp. cbn [items_of default negb orb id].
  change (id l.*2) with l.*2. rewrite bool_decide_false by (by destruct l).
  rewrite Hr. cbn [res_bind]. eexists. split; [done|].
  cbn [texts]. rewrite map_app, concat_app. cbn. rewrite app_nil_r.
  change (map texts rows) with (texts <$> rows). rewrite Ht.
  unfold heading_texts in Hd. destruct (nestLabel t) eqn:En; [|by rewrite Hd].
  unfold nestLabel in En. rewrite Hp in En. breflect. cbn in H. rewrite length_fmap in H.
  destruct l as [|x [|y l]]; done.
Qed.

(** There is no style sheet exactly when no series has a colour. *)
Lemma no_style_sheet id config :
  ChartStyle id config = None ↔ ∀ k s, (k, s) ∈ config → theme s = None ∧ truthy (color s) = false.
Proof.
  unfold ChartStyle. case_bool_decide as E; split; try done.
  - intros _ k s Hks. unfold colorConfig in E.
    assert ((k, s) ∉ colorConfig config) as Hn by (unfold colorConfig; rewrite E; set_solver).
    unfold colorConfig in Hn. rewrite elem_of_lfilter, entries_Permutation in Hn.
    destruct (theme s) eqn:Et, (truthy (color s)) eqn:Ec; try done;
      (destruct Hn; split; [cbn; rewrite ?Et, ?Ec; done|done]).
  - intros H. destruct E. unfold colorConfig. apply lfilter_none. intros [k s] Hks.
    rewrite entries_Permutation in Hks. destruct (H _ _ Hks) as [Ht Hc]. cbn. by rewrite Ht, Hc.
Qed.

(** C33: the generated style sheet, line by line: for the light and the dark theme a
    block with the chart's selector and one line per series that has a colour or a
    theme, in the order of the configuration: "  --color-<key>: <colour>;" with the
    theme's colour, or else the common colour, or the empty line when the series has
    no colour in that theme.  There is no style sheet exactly when no series has a
    colour or a theme. *)
Theorem chart_style_lines id config :
  let coloured := List.filter (λ e, bool_decide (is_Some (theme e.2)) || truthy (color e.2)) (entries config) in
  has_char "010" id = false → Forall one_line coloured →
  (ChartStyle id config = None ↔
     ∀ k s, (k, s) ∈ config → theme s = None ∧ truthy (color s) = false) ∧
  ∀ e, ChartStyle id config = Some e →
    ∃ css light dark, e = Elem "style" [pstr "dangerouslySetInnerHTML" css] [] ∧
      split_on "010" css
      = [""; " [data-chart=" +:+ id +:+ "] {"] ++ light ++ ["}"; "";
         ""; ".dark [data-chart=" +:+ id +:+ "] {"] ++ dark ++ ["}"; ""] ∧
      Forall2 (λ s line, color_line "light" s.1 s.2 line) coloured light ∧
      Forall2 (λ s line, color_line "dark" s.1 s.2 line) coloured dark.
Proof.
  intros coloured Hid Hcc. split; [apply no_style_sheet|].
  change coloured with (colorConfig config) in *.
  unfold ChartStyle. case_bool_decide as E; [done|]. intros e [= <-].
  eexists _, (declaration "light" <$> colorConfig config), (declaration "dark" <$> colorConfig config).
  split_and!; [done| |apply declaration_lines..].
  unfold style_text, THEMES. cbn [fmap list_fmap]. rewrite !theme_block_lines by done.
  change (join newline [?a; ?b]) with (a +:+ newline +:+ b). rewrite <- join_app by done.
  rewrite split_join.
  - unfold block_lines, selector. by rewrite <- !app_assoc.
  - done.
  - apply Forall_app. split; apply block_lines_one; done || (unfold THEMES; set_solver).
Qed.

(** ** Witnesses *)

Definition visitors : ChartConfig :=
  [("desktop", {| label := NPrim (PStr "Desktop"); icon := None;
                  color := PStr "hsl(var(--chart-1))"; theme := None |});
   ("mobile", {| label := NPrim (PStr "Mobile"); icon := Some "Smartphone"; color := Undefined;
                 theme := Some [("light", PStr "#fff"); ("dark", PStr "#000")] |})].

Definition january (key : string) (n : Z) : item :=
  [("name", JPrim (PStr key)); ("dataKey", JPrim (PStr key)); ("value", JPrim (PNum (JsNumber.of_Z n)));
   ("payload", JObj [("month", JPrim (PStr "January")); ("fill", JPrim (PStr "red"))])].

Definition january_tooltip : TooltipProps :=
  {| active := true; payload := Some [january "desktop" 186; january "mobile" 80];
     tt_className := None; indicator := "line"; hideLabel := false; hideIndicator := false;
     tt_label := NPrim (PStr "January"); labelFormatter := None; labelClassName := None;
     formatter := None; tt_color := Undefined; nameKey := Undefined; labelKey := Undefined |}.

Lemma no_text_no_redirect config o key : text_at o key = None → ¬ redirects config o key.
Proof. intros H (s & Hs & _). congruence. Qed.

Lemma tooltip_lists_series_witness :
  ∃ e, ChartTooltipContent join_names jtext (Some visitors) january_tooltip = inr (Some e) ∧
       texts e = ["January"; "Desktop"; "186"; "Mobile"; "80"].
Proof.
  apply (tooltip_lists_series join_names jtext visitors january_tooltip "January"
           [("desktop", "Desktop", january "desktop" 186); ("mobile", "Mobile", january "mobile" 80)]);
    try done.
  repeat constructor; try done; try (eexists; split; [reflexivity|]);
    done || by apply no_text_no_redirect.
Defined.

Lemma chart_style_lines_witness :
  ∃ css light dark,
    ChartStyle "chart-r1" visitors = Some (Elem "style" [pstr "dangerouslySetInnerHTML" css] []) ∧
    split_on "010" css
    = [""; " [data-chart=chart-r1] {"] ++ light ++ ["}"; ""; ""; ".dark [data-chart=chart-r1] {"] ++ dark ++ ["}"; ""] ∧
    light = ["  --color-desktop: hsl(var(--chart-1));"; "  --color-mobile: #fff;"] ∧
    dark = ["  --color-desktop: hsl(var(--chart-1));"; "  --color-mobile: #000;"].
Proof.
  destruct (chart_style_lines "chart-r1" visitors) as [_ H]; [done|..].
  - change (Forall one_line visitors). apply Forall_cons. split; [|apply Forall_singleton].
    + split_and!; done.
    + split_and!; [done|done|]. intros t name c [= <-]. cbn. repeat case_match; by intros [= <-].
  - destruct (H _ eq_refl) as (css & light & dark & He & Hs & Hl & Hd). exists css, light, dark.
    rewrite <- He. split_and!; [done|done|..]; revert Hl Hd; clear.
    all: intros Hl Hd; change (List.filter _ _) with visitors in *.
    + apply Forall2_cons_inv_l in Hl as (? & ? & H1 & Hl & ->).
      apply Forall2_cons_inv_l in Hl as (? & ? & H2 & ->%Forall2_nil_inv_l & ->).
      inversion H1; inversion H2; naive_solver.
    + apply Forall2_cons_inv_l in Hd as (? & ? & H1 & Hd & ->).
      apply Forall2_cons_inv_l in Hd as (? & ? & H2 & ->%Forall2_nil_inv_l & ->).
      inversion H1; inversion H2; naive_solver.
Defined.
