(* ===== verification/Form.v ===== *)
(** * Form fields

    Models [components/ui/form.tsx]: the two contexts, the hook [useFormField] that
    combines them with the state of the field, and the elements of a field, whose
    ids have to agree for assistive technology.

    The form itself belongs to react-hook-form: [useFormContext()] gives
    [getFieldState], which is an argument ([None] outside a form provider, where the
    hook's destructuring throws). *)

From S2P Require Import Prelude JsSort JsNumber JsText JsValue Markup.

(** What [getFieldState] returns: [error] with its [message], and flags. *)
Record FieldState := {
  error : option prim; invalid : bool; isDirty : bool; isTouched : bool; isValidating : bool;
}.

(** The value of [FormFieldContext]: an object with the field's name; its default,
    outside a [FormField], is the object without fields. *)
Definition field_default : option prim := Some Undefined.

(** The value of [FormItemContext], an object with an id, and its default. *)
Definition item_default : prim := Undefined.

(** What [useFormField] returns. *)
Record FormFieldInfo := {
  ff_id : prim; ff_name : prim; formItemId : string; formDescriptionId : string;
  formMessageId : string; fieldState : FieldState;
}.

Definition guard_message : string := "useFormField should be used within <FormField>".

Definition useFormField (fieldContext : option prim) (itemContext : prim)
    (form : option (prim → FieldState)) : res FormFieldInfo :=
  match form, fieldContext with
  | None, _ => inl "TypeError"
  | Some getFieldState, None => inl "TypeError"
  | Some getFieldState, Some name =>
      let st := getFieldState name in
      if negb (bool_decide (is_Some fieldContext)) then inl guard_message
      else
        let id := itemContext in
        inr {| ff_id := id; ff_name := name;
               formItemId := to_string id +:+ "-form-item";
               formDescriptionId := to_string id +:+ "-form-item-description";
               formMessageId := to_string id +:+ "-form-item-message";
               fieldState := st |}
  end.

Section View.
Variable cn : list (option string) → string.
Context {A : Type}.
Abbreviation f_elem := (elem A).
Abbreviation f_props := (props A).

(** [FormProvider] of react-hook-form. *)
Definition Form (ps : f_props) (children : list f_elem) : f_elem := Elem "FormProvider" ps children.

(** The context a [FormField] provides, and the controller below it. *)
Definition FormField (name : prim) (ps : f_props) : option prim * f_elem :=
  (Some name, Elem "Controller" (("name", VPrim name) :: ps) []).

(** The context a [FormItem] provides ([id] is [React.useId()]), and its element. *)
Definition FormItem (id : string) (className : option string) (ps : f_props) (children : list f_elem)
    : prim * f_elem :=
  (PStr id, Elem "div" (spread [pstr "className" (cn [Some "space-y-2"; className])] ps) children).

(** A component of a field: it reads the hook and renders; its children are spread with
    its other properties. *)
Definition FormLabel (fieldContext : option prim) (itemContext : prim)
    (form : option (prim → FieldState)) (className : option string) (ps : f_props)
    (children : list f_elem) : res f_elem :=
  try! f := useFormField fieldContext itemContext form in
  inr (Elem "Label"
         (spread [pstr "className" (cn [name_if (bool_decide (is_Some (error (fieldState f)))) "text-destructive";
                                        className]);
                  pstr "htmlFor" (formItemId f)] ps) children).

Definition FormControl (fieldContext : option prim) (itemContext : prim)
    (form : option (prim → FieldState)) (ps : f_props) (children : list f_elem) : res f_elem :=
  try! f := useFormField fieldContext itemContext form in
  let has_error := bool_decide (is_Some (error (fieldState f))) in
  inr (Elem "Slot"
         (spread [pstr "id" (formItemId f);
                  pstr "aria-describedby"
                    (if negb has_error then formDescriptionId f
                     else formDescriptionId f +:+ " " +:+ formMessageId f);
                  ("aria-invalid", VPrim (PBool has_error))] ps) children).

Definition FormDescription (fieldContext : option prim) (itemContext : prim)
    (form : option (prim → FieldState)) (className : option string) (ps : f_props)
    (children : list f_elem) : res f_elem :=
  try! f := useFormField fieldContext itemContext form in
  inr (Elem "p"
         (spread [pstr "id" (formDescriptionId f);
                  pstr "className" (cn [Some "text-sm text-muted-foreground"; className])] ps) children).

Definition FormMessage (fieldContext : option prim) (itemContext : prim)
    (form : option (prim → FieldState)) (className : option string) (children : react_node A)
    (ps : f_props) : res (option f_elem) :=
  try! f := useFormField fieldContext itemContext form in
  let body := match error (fieldState f) with
              | Some message => NPrim (PStr (to_string message))
              | None => children
              end in
  inr (if ntruthy body
       then Some (Elem "p"
              (spread [pstr "id" (formMessageId f);
                       pstr "className" (cn [Some "text-sm font-medium text-destructive"; className])] ps)
              (node_child body))
       else None).
End View.

(** ** Theorems *)

(** The guard of the hook is dead: without a [FormField] the context is still an
    object, and without any context the line before the guard throws already. *)
Lemma guard_unreachable fieldContext itemContext form :
  useFormField fieldContext itemContext form ≠ inl guard_message.
Proof. by destruct form, fieldContext. Qed.

(** The ids of a control's description, as a list. *)
Definition described_by {A} (e : elem A) : list string :=
  match elem_prop e "aria-describedby" with Some (VPrim (PStr s)) => split_on " " s | _ => [] end.

(** No property of the caller replaces the wiring. *)
Definition keeps_wiring {A} (ps : props A) : Prop :=
  prop_get ps "id" = None ∧ prop_get ps "htmlFor" = None ∧
  prop_get ps "aria-describedby" = None ∧ prop_get ps "aria-invalid" = None.

Lemma described_control {A} (i d : string) v (ps : props A) ch :
  prop_get ps "aria-describedby" = None →
  described_by (Elem "Slot" (spread [pstr "id" i; pstr "aria-describedby" d; ("aria-invalid", v)] ps) ch)
  = split_on " " d.
Proof. intros H. unfold described_by, elem_prop. by rewrite prop_get_spread, H. Qed.

Lemma describe_one id : has_char " " id = false →
  split_on " " (if negb (bool_decide (is_Some (@None prim))) then id +:+ "-form-item-description"
                else (id +:+ "-form-item-description") +:+ " " +:+ (id +:+ "-form-item-message"))
  = [id +:+ "-form-item-description"].
Proof. intros H. cbn. apply split_on_none. by rewrite has_char_app, H. Qed.

Lemma describe_two id (m : prim) : has_char " " id = false →
  split_on " " (if negb (bool_decide (is_Some (Some m))) then id +:+ "-form-item-description"
                else (id +:+ "-form-item-description") +:+ " " +:+ (id +:+ "-form-item-message"))
  = [id +:+ "-form-item-description"; id +:+ "-form-item-message"].
Proof.
  intros H. cbn. change (" " +:+ ?x) with (String " " x).
  rewrite split_on_app by (by rewrite has_char_app, H).
  f_equal. apply split_on_none. by rewrite has_char_app, H.
Qed.

(** C34: the parts of a field are wired together for assistive technology: the label
    points at the control, the control is described by the element that
    [FormDescription] renders, and, exactly when the field has an error, also by the
    one [FormMessage] renders, which then shows the error's message; the message
    element is there unless that message is the empty text; and item, label, control
    and description show what they are given. *)
Theorem form_field_wiring (cn : list (option string) → string) {A} (name : prim) (id : string) (cls : option string)
    (children : react_node A) (ps : props A) (item_ch lab_ch ctl_ch des_ch : list (elem A))
    (getFieldState : prim → FieldState) :
  keeps_wiring ps → has_char " " id = false →
  let fc := fst (FormField name ps) in
  let ic := fst (FormItem cn id cls ps item_ch) in
  let form := Some getFieldState in
  ∃ lab ctl des,
    FormLabel cn fc ic form cls ps lab_ch = inr lab ∧ FormControl fc ic form ps ctl_ch = inr ctl ∧
    FormDescription cn fc ic form cls ps des_ch = inr des ∧
    (texts <$> [snd (FormItem cn id cls ps item_ch); lab; ctl; des]
     = (λ ch, concat (map texts ch)) <$> [item_ch; lab_ch; ctl_ch; des_ch]) ∧
    elem_prop lab "htmlFor" = elem_prop ctl "id" ∧
    (∃ d, elem_prop des "id" = Some (VPrim (PStr d)) ∧ head (described_by ctl) = Some d) ∧
    match error (getFieldState name) with
    | None => length (described_by ctl) = 1 ∧ elem_prop ctl "aria-invalid" = Some (VPrim (PBool false))
    | Some message =>
        elem_prop ctl "aria-invalid" = Some (VPrim (PBool true)) ∧
        if decide (to_string message = "")
        then FormMessage cn fc ic form cls children ps = inr None
        else ∃ msg m, FormMessage cn fc ic form cls children ps = inr (Some msg) ∧
               elem_prop msg "id" = Some (VPrim (PStr m)) ∧ described_by ctl !! 1 = Some m ∧
               texts msg = [to_string message]
    end.
Proof.
  intros (Hid & Hfor & Hdes & Hinv) Hsp. cbn [FormField FormItem fst snd].
  unfold FormLabel, FormControl, FormDescription, FormMessage, useFormField.
  rewrite bool_decide_true by eauto. cbn [negb res_bind error fieldState formItemId formDescriptionId formMessageId].
  change (to_string (PStr id)) with id.
  do 3 eexists. split_and!; [reflexivity..| | | |]; rewrite ?described_control by done;
    unfold elem_prop; rewrite ?prop_get_spread, ?Hid, ?Hfor, ?Hinv.
  - done.
  - done.
  - eexists. split; [reflexivity|].
    destruct (error (getFieldState name)); [by rewrite describe_two|by rewrite describe_one].
  - destruct (error (getFieldState name)) as [message|].
    + split; [done|]. case_decide as E; [by rewrite E|]. cbn [ntruthy].
      rewrite truthy_text by done. do 2 eexists. split; [reflexivity|].
      cbv beta iota. rewrite prop_get_spread, Hid. split_and!; [reflexivity| |done].
      by rewrite describe_two.
    + by rewrite describe_one.
Qed.

(** ** Witness *)

Definition required_email (name : prim) : FieldState :=
  {| error := if strict_eq name (PStr "email") then Some (PStr "Required") else None;
     invalid := strict_eq name (PStr "email"); isDirty := false; isTouched := true;
     isValidating := false |}.

Lemma form_field_wiring_witness :
  ∃ ctl msg m,
    FormControl (A := Empty_set) (Some (PStr "email")) (PStr ":r1:") (Some required_email) [] [] = inr ctl ∧
    FormMessage join_names (A := Empty_set) (Some (PStr "email")) (PStr ":r1:") (Some required_email)
      None (NPrim Undefined) [] = inr (Some msg) ∧
    elem_prop msg "id" = Some (VPrim (PStr m)) ∧ described_by ctl !! 1 = Some m ∧
    texts msg = ["Required"].
Proof.
  destruct (form_field_wiring join_names (A := Empty_set) (PStr "email") ":r1:" None (NPrim Undefined)
              [] [] [EText "Email"] [] [] required_email)
    as (lab & ctl & des & _ & Hc & _ & _ & _ & _ & _ & msg & m & H1 & H2 & H3 & H4); [done..|].
  by exists ctl, msg, m.
Defined.
