(* ===== verification/UiKit.v ===== *)
(** * Components of the user-interface library: the common part

    The files of [components/ui] are React components: functions from properties
    and children to a tree.  Here are the operations their bodies are written
    with: reading a destructured property with its default, the properties that
    remain ([...props]), class names, and the variant tables of
    class-variance-authority.  A component works for every type of property
    values that can hold primitive values ([PropValue]).

    [clsx], [twMerge] (tailwind-merge) and [cva] belong to packages; they are the
    interface [Styling], and [cn] of [lib/utils.ts] is made from the first two.
    References ([ref]) and display names are left out. *)

From S2P Require Import Prelude JsSort JsNumber JsText JsValue Markup.

(** ** Styling *)

(** The argument of [cva]: base classes, variants with their options, defaults. *)
Record cva_spec := {
  cva_base : string;
  cva_variants : list (string * list (string * string));
  cva_defaults : list (string * string);
}.

Class Styling := {
  clsx : list (option string) → string;
  twMerge : string → string;
  cva : cva_spec → list (string * prim) → string;
}.

(** [cn] of [lib/utils.ts]. *)
Definition cn `{Styling} (inputs : list (option string)) : string := twMerge (clsx inputs).

(** ** Properties *)

Section Kit.
Context {V : Type} `{PropValue V}.
Implicit Types (ps : list (string * V)) (k : string).

Definition prim_of (v : V) : prim := default Undefined (as_prim v).

(** A destructured property, as a value and as the primitive it holds. *)
Definition raw ps k : V := default (pv Undefined) (prop_get ps k).
Definition get ps k : prim := prim_of (raw ps k).

(** A destructured property with a default, which stands in for [undefined]. *)
Definition with_default ps k (d : V) : V :=
  match prop_get ps k with
  | Some v => match as_prim v with Some Undefined => d | _ => v end
  | None => d
  end.

(** [...props] after some properties were destructured. *)
Definition omit (names : list string) ps : list (string * V) :=
  List.filter (λ kv, negb (bool_decide (kv.1 ∈ names))) ps.

(** A class name given by the caller. *)
Definition class_at ps k : option string :=
  match get ps k with PStr s => Some s | _ => None end.

Lemma prop_get_omit names ps k :
  prop_get (omit names ps) k = if decide (k ∈ names) then None else prop_get ps k.
Proof.
  induction ps as [|[k' v] ps IH]; simpl; [by case_decide|].
  destruct (bool_decide_reflect (k' ∈ names)); simpl.
  - rewrite IH. case_decide; [done|]. rewrite bool_decide_false; [done|]. by intros ->.
  - rewrite IH. destruct (bool_decide_reflect (k' = k)) as [->|]; [|done]. by rewrite decide_False.
Qed.

Context `{Styling}.

(** [className={cn(...)}]. *)
Definition class_names (l : list (option string)) : V := pv (PStr (cn l)).

(** A component: properties and children in, a tree out. *)
Definition component : Type := list (string * V) → list (tree V) → tree V.

(** ** Elements of a tree *)

Fixpoint elements (t : tree V) : list (tree V) :=
  t :: match t with
       | Txt _ => []
       | El _ _ cs => concat (map elements cs)
       end.

Lemma elements_here t : t ∈ elements t.
Proof. destruct t; apply list_elem_of_here. Qed.

Lemma elements_child x c tag ps cs : c ∈ cs → x ∈ elements c → x ∈ elements (El tag ps cs).
Proof.
  intros Hc Hx. simpl. apply list_elem_of_further. rewrite list_elem_of_In, List.in_concat.
  exists (elements c). split; [|by rewrite <- list_elem_of_In].
  rewrite <- list_elem_of_In. by apply list_elem_of_fmap_2.
Qed.

(** Induction on trees with the hypothesis for all children. *)
Lemma tree_ind_list (P : tree V → Prop) :
  (∀ s, P (Txt s)) → (∀ tag ps cs, Forall P cs → P (El tag ps cs)) → ∀ t, P t.
Proof.
  intros Ht He. fix IH 1. intros [s|tag ps cs]; [apply Ht|]. apply He.
  induction cs as [|c cs IHc]; constructor; [apply IH|apply IHc].
Qed.

Lemma elements_trans x y t : x ∈ elements y → y ∈ elements t → x ∈ elements t.
Proof.
  intros Hx. induction t as [s|tag ps cs IH] using tree_ind_list; intros Hy.
  - by apply list_elem_of_singleton in Hy as ->.
  - cbn [elements] in Hy. apply elem_of_cons in Hy as [->|Hy]; [done|].
    apply list_elem_of_In, List.in_concat in Hy as (l & (c & <- & Hc)%List.in_map_iff & Hy).
    rewrite <- list_elem_of_In in Hc, Hy. rewrite Forall_forall in IH.
    eapply elements_child; [done|]. by apply IH.
Qed.
End Kit.

Arguments component V : clear implicits.

(** The documented behaviour of the packages, without the merging of conflicting
    classes: base classes, then per variant the classes of the given option, or of
    the default one, then [className]. *)
Definition plain_cva (spec : cva_spec) (given : list (string * prim)) : string :=
  let chosen dim :=
    match prop_get given dim with
    | Some (PStr s) => Some s
    | _ => prop_get (cva_defaults spec) dim
    end in
  join_names
    ([Some (cva_base spec)]
     ++ map (λ dv, chosen dv.1 ≫= prop_get dv.2) (cva_variants spec)
     ++ [match prop_get given "className" with Some (PStr s) => Some s | _ => None end]).

Definition plain_styling : Styling := {| clsx := join_names; twMerge := id; cva := plain_cva |}.
