(* ===== verification/UiElements.v ===== *)
(** * Elements of the user-interface library

    The components of [components/ui] that are no overlays and no menus: controls,
    texts, tables and cards.  Every component is the function of its source. *)

From S2P Require Import Prelude JsSort JsNumber JsText JsValue Markup UiKit.

Section Components.
Context {V : Type} `{PropValue V} `{Styling}.

(** ** [button.tsx] *)

Definition buttonVariants : cva_spec :=
  {| cva_base := "inline-flex items-center justify-center gap-2 whitespace-nowrap rounded-md text-sm font-medium ring-offset-background transition-colors focus-visible:outline-none focus-visible:ring-2 focus-visible:ring-ring focus-visible:ring-offset-2 disabled:pointer-events-none disabled:opacity-50 [&_svg]:pointer-events-none [&_svg]:size-4 [&_svg]:shrink-0";
     cva_variants :=
      [("variant",
        [("default", "bg-primary text-primary-foreground hover:bg-primary/90");
         ("destructive", "bg-destructive text-destructive-foreground hover:bg-destructive/90");
         ("outline", "border border-input bg-background hover:bg-accent hover:text-accent-foreground");
         ("secondary", "bg-secondary text-secondary-foreground hover:bg-secondary/80");
         ("ghost", "hover:bg-accent hover:text-accent-foreground");
         ("link", "text-primary underline-offset-4 hover:underline")]);
       ("size",
        [("default", "h-10 px-4 py-2");
         ("sm", "h-9 rounded-md px-3");
         ("lg", "h-11 rounded-md px-8");
         ("icon", "h-10 w-10")])];
     cva_defaults := [("variant", "default"); ("size", "default")] |}.

Definition Button : component V := λ ps ch,
  let asChild := with_default ps "asChild" (pv (PBool false)) in
  El (if truthy (prim_of asChild) then "Slot" else "button")
    (spread [("className", class_names [Some (cva buttonVariants [("variant", get ps "variant"); ("size", get ps "size"); ("className", get ps "className")])])]
      (omit ["className"; "variant"; "size"; "asChild"] ps))
    ch.


(** ** [badge.tsx] *)

Definition badgeVariants : cva_spec :=
  {| cva_base := "inline-flex items-center rounded-full border px-2.5 py-0.5 text-xs font-semibold transition-colors focus:outline-none focus:ring-2 focus:ring-ring focus:ring-offset-2";
     cva_variants :=
      [("variant",
        [("default", "border-transparent bg-primary text-primary-foreground hover:bg-primary/80");
         ("secondary", "border-transparent bg-secondary text-secondary-foreground hover:bg-secondary/80");
         ("destructive", "border-transparent bg-destructive text-destructive-foreground hover:bg-destructive/80");
         ("outline", "text-foreground")])];
     cva_defaults := [("variant", "default")] |}.

Definition Badge : component V := λ ps ch,
  El "div"
    (spread [("className", class_names [Some (cva badgeVariants [("variant", get ps "variant")]);
        class_at ps "className"])]
      (omit ["className"; "variant"] ps))
    ch.


(** ** [card.tsx] *)

Definition Card : component V := λ ps ch,
  El "div"
    (spread [("className", class_names [Some "rounded-lg border bg-card text-card-foreground shadow-sm";
        class_at ps "className"])]
      (omit ["className"] ps))
    ch.

Definition CardHeader : component V := λ ps ch,
  El "div"
    (spread [("className", class_names [Some "flex flex-col space-y-1.5 p-6";
        class_at ps "className"])]
      (omit ["className"] ps))
    ch.

Definition CardTitle : component V := λ ps ch,
  El "div"
    (spread [("className", class_names [Some "text-2xl font-semibold leading-none tracking-tight";
        class_at ps "className"])]
      (omit ["className"] ps))
    ch.

Definition CardDescription : component V := λ ps ch,
  El "div"
    (spread [("className", class_names [Some "text-sm text-muted-foreground";
        class_at ps "className"])]
      (omit ["className"] ps))
    ch.

Definition CardContent : component V := λ ps ch,
  El "div"
    (spread [("className", class_names [Some "p-6 pt-0";
        class_at ps "className"])]
      (omit ["className"] ps))
    ch.

Definition CardFooter : component V := λ ps ch,
  El "div"
    (spread [("className", class_names [Some "flex items-center p-6 pt-0";
        class_at ps "className"])]
      (omit ["className"] ps))
    ch.


(** ** [label.tsx] *)

Definition labelVariants : cva_spec :=
  {| cva_base := "text-sm font-medium leading-none peer-disabled:cursor-not-allowed peer-disabled:opacity-70";
     cva_variants :=
      [];
     cva_defaults := [] |}.

Definition Label : component V := λ ps ch,
  El "LabelPrimitive.Root"
    (spread [("className", class_names [Some (cva labelVariants []);
        class_at ps "className"])]
      (omit ["className"] ps))
    ch.


(** ** [separator.tsx] *)

Definition Separator : component V := λ ps ch,
  let orientation := with_default ps "orientation" (pv (PStr "horizontal")) in
  let decorative := with_default ps "decorative" (pv (PBool true)) in
  El "SeparatorPrimitive.Root"
    (spread [("decorative", decorative);
     ("orientation", orientation);
     ("className", class_names [Some "shrink-0 bg-border";
        Some (if strict_eq (prim_of orientation) (PStr "horizontal") then "h-[1px] w-full" else "h-full w-[1px]");
        class_at ps "className"])]
      (omit ["className"; "orientation"; "decorative"] ps))
    ch.


(** ** [skeleton.tsx] *)

Definition Skeleton : component V := λ ps ch,
  El "div"
    (spread [("className", class_names [Some "animate-pulse rounded-md bg-muted";
        class_at ps "className"])]
      (omit ["className"] ps))
    ch.


(** ** [input.tsx] *)

Definition Input : component V := λ ps ch,
  El "input"
    (spread [("type", raw ps "type");
     ("className", class_names [Some "flex h-10 w-full rounded-md border border-input bg-background px-3 py-2 text-base ring-offset-background file:border-0 file:bg-transparent file:text-sm file:font-medium file:text-foreground placeholder:text-muted-foreground focus-visible:outline-none focus-visible:ring-2 focus-visible:ring-ring focus-visible:ring-offset-2 disabled:cursor-not-allowed disabled:opacity-50 md:text-sm";
        class_at ps "className"])]
      (omit ["className"; "type"] ps))
    ch.


(** ** [textarea.tsx] *)

Definition Textarea : component V := λ ps ch,
  El "textarea"
    (spread [("className", class_names [Some "flex min-h-[80px] w-full rounded-md border border-input bg-background px-3 py-2 text-base ring-offset-background placeholder:text-muted-foreground focus-visible:outline-none focus-visible:ring-2 focus-visible:ring-ring focus-visible:ring-offset-2 disabled:cursor-not-allowed disabled:opacity-50 md:text-sm";
        class_at ps "className"])]
      (omit ["className"] ps))
    ch.


(** ** [tabs.tsx] *)

Definition Tabs : component V := El "TabsPrimitive.Root".

Definition TabsList : component V := λ ps ch,
  El "TabsPrimitive.List"
    (spread [("className", class_names [Some "inline-flex h-10 items-center justify-center rounded-md bg-muted p-1 text-muted-foreground";
        class_at ps "className"])]
      (omit ["className"] ps))
    ch.

Definition TabsTrigger : component V := λ ps ch,
  El "TabsPrimitive.Trigger"
    (spread [("className", class_names [Some "inline-flex items-center justify-center whitespace-nowrap rounded-sm px-3 py-1.5 text-sm font-medium ring-offset-background transition-all focus-visible:outline-none focus-visible:ring-2 focus-visible:ring-ring focus-visible:ring-offset-2 disabled:pointer-events-none disabled:opacity-50 data-[state=active]:bg-background data-[state=active]:text-foreground data-[state=active]:shadow-sm";
        class_at ps "className"])]
      (omit ["className"] ps))
    ch.

Definition TabsContent : component V := λ ps ch,
  El "TabsPrimitive.Content"
    (spread [("className", class_names [Some "mt-2 ring-offset-background focus-visible:outline-none focus-visible:ring-2 focus-visible:ring-ring focus-visible:ring-offset-2";
        class_at ps "className"])]
      (omit ["className"] ps))
    ch.


(** ** [select.tsx] *)

Definition Select : component V := El "SelectPrimitive.Root".

Definition SelectGroup : component V := El "SelectPrimitive.Group".

Definition SelectValue : component V := El "SelectPrimitive.Value".

Definition SelectTrigger : component V := λ ps ch,
  El "SelectPrimitive.Trigger"
    (spread [("className", class_names [Some "flex h-10 w-full items-center justify-between rounded-md border border-input bg-background px-3 py-2 text-sm ring-offset-background placeholder:text-muted-foreground focus:outline-none focus:ring-2 focus:ring-ring focus:ring-offset-2 disabled:cursor-not-allowed disabled:opacity-50 [&>span]:line-clamp-1";
        class_at ps "className"])]
      (omit ["className"] ps))
    (ch
    ++ [El "SelectPrimitive.Icon" [("asChild", pv (PBool true))]
       [El "ChevronDown" [("className", pv (PStr "h-4 w-4 opacity-50"))] []]]).

Definition SelectScrollUpButton : component V := λ ps ch,
  El "SelectPrimitive.ScrollUpButton"
    (spread [("className", class_names [Some "flex cursor-default items-center justify-center py-1";
        class_at ps "className"])]
      (omit ["className"] ps))
    [El "ChevronUp" [("className", pv (PStr "h-4 w-4"))] []].

Definition SelectScrollDownButton : component V := λ ps ch,
  El "SelectPrimitive.ScrollDownButton"
    (spread [("className", class_names [Some "flex cursor-default items-center justify-center py-1";
        class_at ps "className"])]
      (omit ["className"] ps))
    [El "ChevronDown" [("className", pv (PStr "h-4 w-4"))] []].

Definition SelectContent : component V := λ ps ch,
  let position := with_default ps "position" (pv (PStr "popper")) in
  El "SelectPrimitive.Portal" []
    [El "SelectPrimitive.Content"
       (spread [("className", class_names [Some "relative z-50 max-h-96 min-w-[8rem] overflow-hidden rounded-md border bg-popover text-popover-foreground shadow-md data-[state=open]:animate-in data-[state=closed]:animate-out data-[state=closed]:fade-out-0 data-[state=open]:fade-in-0 data-[state=closed]:zoom-out-95 data-[state=open]:zoom-in-95 data-[side=bottom]:slide-in-from-top-2 data-[side=left]:slide-in-from-right-2 data-[side=right]:slide-in-from-left-2 data-[side=top]:slide-in-from-bottom-2";
           name_if (strict_eq (prim_of position) (PStr "popper")) "data-[side=bottom]:translate-y-1 data-[side=left]:-translate-x-1 data-[side=right]:translate-x-1 data-[side=top]:-translate-y-1";
           class_at ps "className"]);
        ("position", position)]
         (omit ["className"; "position"] ps))
       ([SelectScrollUpButton [] []]
       ++ [El "SelectPrimitive.Viewport"
          [("className", class_names [Some "p-1";
              name_if (strict_eq (prim_of position) (PStr "popper")) "h-[var(--radix-select-trigger-height)] w-full min-w-[var(--radix-select-trigger-width)]"])]
          ch]
       ++ [SelectScrollDownButton [] []])].

Definition SelectLabel : component V := λ ps ch,
  El "SelectPrimitive.Label"
    (spread [("className", class_names [Some "py-1.5 pl-8 pr-2 text-sm font-semibold";
        class_at ps "className"])]
      (omit ["className"] ps))
    ch.

Definition SelectItem : component V := λ ps ch,
  El "SelectPrimitive.Item"
    (spread [("className", class_names [Some "relative flex w-full cursor-default select-none items-center rounded-sm py-1.5 pl-8 pr-2 text-sm outline-none focus:bg-accent focus:text-accent-foreground data-[disabled]:pointer-events-none data-[disabled]:opacity-50";
        class_at ps "className"])]
      (omit ["className"] ps))
    ([El "span"
       [("className", pv (PStr "absolute left-2 flex h-3.5 w-3.5 items-center justify-center"))]
       [El "SelectPrimitive.ItemIndicator" [] [El "Check" [("className", pv (PStr "h-4 w-4"))] []]]]
    ++ [El "SelectPrimitive.ItemText" [] ch]).

Definition SelectSeparator : component V := λ ps ch,
  El "SelectPrimitive.Separator"
    (spread [("className", class_names [Some "-mx-1 my-1 h-px bg-muted";
        class_at ps "className"])]
      (omit ["className"] ps))
    ch.


(** ** [tooltip.tsx] *)

Definition TooltipProvider : component V := El "TooltipPrimitive.Provider".

Definition Tooltip : component V := El "TooltipPrimitive.Root".

Definition TooltipTrigger : component V := El "TooltipPrimitive.Trigger".

Definition TooltipContent : component V := λ ps ch,
  let sideOffset := with_default ps "sideOffset" (pv (PNum (JsNumber.of_Z 4))) in
  El "TooltipPrimitive.Content"
    (spread [("sideOffset", sideOffset);
     ("className", class_names [Some "z-50 overflow-hidden rounded-md border bg-popover px-3 py-1.5 text-sm text-popover-foreground shadow-md animate-in fade-in-0 zoom-in-95 data-[state=closed]:animate-out data-[state=closed]:fade-out-0 data-[state=closed]:zoom-out-95 data-[side=bottom]:slide-in-from-top-2 data-[side=left]:slide-in-from-right-2 data-[side=right]:slide-in-from-left-2 data-[side=top]:slide-in-from-bottom-2";
        class_at ps "className"])]
      (omit ["className"; "sideOffset"] ps))
    ch.


(** ** [toast.tsx] *)

Definition ToastProvider : component V := El "ToastPrimitives.Provider".

Definition ToastViewport : component V := λ ps ch,
  El "ToastPrimitives.Viewport"
    (spread [("className", class_names [Some "fixed top-0 z-[100] flex max-h-screen w-full flex-col-reverse p-4 sm:bottom-0 sm:right-0 sm:top-auto sm:flex-col md:max-w-[420px]";
        class_at ps "className"])]
      (omit ["className"] ps))
    ch.

Definition toastVariants : cva_spec :=
  {| cva_base := "group pointer-events-auto relative flex w-full items-center justify-between space-x-4 overflow-hidden rounded-md border p-6 pr-8 shadow-lg transition-all data-[swipe=cancel]:translate-x-0 data-[swipe=end]:translate-x-[var(--radix-toast-swipe-end-x)] data-[swipe=move]:translate-x-[var(--radix-toast-swipe-move-x)] data-[swipe=move]:transition-none data-[state=open]:animate-in data-[state=closed]:animate-out data-[swipe=end]:animate-out data-[state=closed]:fade-out-80 data-[state=closed]:slide-out-to-right-full data-[state=open]:slide-in-from-top-full data-[state=open]:sm:slide-in-from-bottom-full";
     cva_variants :=
      [("variant",
        [("default", "border bg-background text-foreground");
         ("destructive", "destructive group border-destructive bg-destructive text-destructive-foreground")])];
     cva_defaults := [("variant", "default")] |}.

Definition Toast : component V := λ ps ch,
  El "ToastPrimitives.Root"
    (spread [("className", class_names [Some (cva toastVariants [("variant", get ps "variant")]);
        class_at ps "className"])]
      (omit ["className"; "variant"] ps))
    ch.

Definition ToastAction : component V := λ ps ch,
  El "ToastPrimitives.Action"
    (spread [("className", class_names [Some "inline-flex h-8 shrink-0 items-center justify-center rounded-md border bg-transparent px-3 text-sm font-medium ring-offset-background transition-colors hover:bg-secondary focus:outline-none focus:ring-2 focus:ring-ring focus:ring-offset-2 disabled:pointer-events-none disabled:opacity-50 group-[.destructive]:border-muted/40 group-[.destructive]:hover:border-destructive/30 group-[.destructive]:hover:bg-destructive group-[.destructive]:hover:text-destructive-foreground group-[.destructive]:focus:ring-destructive";
        class_at ps "className"])]
      (omit ["className"] ps))
    ch.

Definition ToastClose : component V := λ ps ch,
  El "ToastPrimitives.Close"
    (spread [("className", class_names [Some "absolute right-2 top-2 rounded-md p-1 text-foreground/50 opacity-0 transition-opacity hover:text-foreground focus:opacity-100 focus:outline-none focus:ring-2 group-hover:opacity-100 group-[.destructive]:text-red-300 group-[.destructive]:hover:text-red-50 group-[.destructive]:focus:ring-red-400 group-[.destructive]:focus:ring-offset-red-600";
        class_at ps "className"]);
     ("toast-close", pv (PStr ""))]
      (omit ["className"] ps))
    [El "X" [("className", pv (PStr "h-4 w-4"))] []].

Definition ToastTitle : component V := λ ps ch,
  El "ToastPrimitives.Title"
    (spread [("className", class_names [Some "text-sm font-semibold";
        class_at ps "className"])]
      (omit ["className"] ps))
    ch.

Definition ToastDescription : component V := λ ps ch,
  El "ToastPrimitives.Description"
    (spread [("className", class_names [Some "text-sm opacity-90";
        class_at ps "className"])]
      (omit ["className"] ps))
    ch.


(** ** [table.tsx] *)

Definition Table : component V := λ ps ch,
  El "div" [("className", pv (PStr "relative w-full overflow-auto"))]
    [El "table"
       (spread [("className", class_names [Some "w-full caption-bottom text-sm";
           class_at ps "className"])]
         (omit ["className"] ps))
       ch].

Definition TableHeader : component V := λ ps ch,
  El "thead"
    (spread [("className", class_names [Some "[&_tr]:border-b";
        class_at ps "className"])]
      (omit ["className"] ps))
    ch.

Definition TableBody : component V := λ ps ch,
  El "tbody"
    (spread [("className", class_names [Some "[&_tr:last-child]:border-0";
        class_at ps "className"])]
      (omit ["className"] ps))
    ch.

Definition TableFooter : component V := λ ps ch,
  El "tfoot"
    (spread [("className", class_names [Some "border-t bg-muted/50 font-medium [&>tr]:last:border-b-0";
        class_at ps "className"])]
      (omit ["className"] ps))
    ch.

Definition TableRow : component V := λ ps ch,
  El "tr"
    (spread [("className", class_names [Some "border-b transition-colors hover:bg-muted/50 data-[state=selected]:bg-muted";
        class_at ps "className"])]
      (omit ["className"] ps))
    ch.

Definition TableHead : component V := λ ps ch,
  El "th"
    (spread [("className", class_names [Some "h-12 px-4 text-left align-middle font-medium text-muted-foreground [&:has([role=checkbox])]:pr-0";
        class_at ps "className"])]
      (omit ["className"] ps))
    ch.

Definition TableCell : component V := λ ps ch,
  El "td"
    (spread [("className", class_names [Some "p-4 align-middle [&:has([role=checkbox])]:pr-0";
        class_at ps "className"])]
      (omit ["className"] ps))
    ch.

Definition TableCaption : component V := λ ps ch,
  El "caption"
    (spread [("className", class_names [Some "mt-4 text-sm text-muted-foreground";
        class_at ps "className"])]
      (omit ["className"] ps))
    ch.


(** ** [alert.tsx] *)

Definition alertVariants : cva_spec :=
  {| cva_base := "relative w-full rounded-lg border p-4 [&>svg~*]:pl-7 [&>svg+div]:translate-y-[-3px] [&>svg]:absolute [&>svg]:left-4 [&>svg]:top-4 [&>svg]:text-foreground";
     cva_variants :=
      [("variant",
        [("default", "bg-background text-foreground");
         ("destructive", "border-destructive/50 text-destructive dark:border-destructive [&>svg]:text-destructive")])];
     cva_defaults := [("variant", "default")] |}.

Definition Alert : component V := λ ps ch,
  El "div"
    (spread [("role", pv (PStr "alert"));
     ("className", class_names [Some (cva alertVariants [("variant", get ps "variant")]);
        class_at ps "className"])]
      (omit ["className"; "variant"] ps))
    ch.

Definition AlertTitle : component V := λ ps ch,
  El "h5"
    (spread [("className", class_names [Some "mb-1 font-medium leading-none tracking-tight";
        class_at ps "className"])]
      (omit ["className"] ps))
    ch.

Definition AlertDescription : component V := λ ps ch,
  El "div"
    (spread [("className", class_names [Some "text-sm [&_p]:leading-relaxed";
        class_at ps "className"])]
      (omit ["className"] ps))
    ch.


(** ** [avatar.tsx] *)

Definition Avatar : component V := λ ps ch,
  El "AvatarPrimitive.Root"
    (spread [("className", class_names [Some "relative flex h-10 w-10 shrink-0 overflow-hidden rounded-full";
        class_at ps "className"])]
      (omit ["className"] ps))
    ch.

Definition AvatarImage : component V := λ ps ch,
  El "AvatarPrimitive.Image"
    (spread [("className", class_names [Some "aspect-square h-full w-full";
        class_at ps "className"])]
      (omit ["className"] ps))
    ch.

Definition AvatarFallback : component V := λ ps ch,
  El "AvatarPrimitive.Fallback"
    (spread [("className", class_names [Some "flex h-full w-full items-center justify-center rounded-full bg-muted";
        class_at ps "className"])]
      (omit ["className"] ps))
    ch.


(** ** [accordion.tsx] *)

Definition Accordion : component V := El "AccordionPrimitive.Root".

Definition AccordionItem : component V := λ ps ch,
  El "AccordionPrimitive.Item"
    (spread [("className", class_names [Some "border-b";
        class_at ps "className"])]
      (omit ["className"] ps))
    ch.

Definition AccordionTrigger : component V := λ ps ch,
  El "AccordionPrimitive.Header" [("className", pv (PStr "flex"))]
    [El "AccordionPrimitive.Trigger"
       (spread [("className", class_names [Some "flex flex-1 items-center justify-between py-4 font-medium transition-all hover:underline [&[data-state=open]>svg]:rotate-180";
           class_at ps "className"])]
         (omit ["className"] ps))
       (ch
       ++ [El "ChevronDown"
          [("className", pv (PStr "h-4 w-4 shrink-0 transition-transform duration-200"))]
          []])].

Definition AccordionContent : component V := λ ps ch,
  El "AccordionPrimitive.Content"
    (spread [("className", pv (PStr "overflow-hidden text-sm transition-all data-[state=closed]:animate-accordion-up data-[state=open]:animate-accordion-down"))]
      (omit ["className"] ps))
    [El "div"
       [("className", class_names [Some "pb-4 pt-0";
           class_at ps "className"])]
       ch].


(** ** [checkbox.tsx] *)

Definition Checkbox : component V := λ ps ch,
  El "CheckboxPrimitive.Root"
    (spread [("className", class_names [Some "peer h-4 w-4 shrink-0 rounded-sm border border-primary ring-offset-background focus-visible:outline-none focus-visible:ring-2 focus-visible:ring-ring focus-visible:ring-offset-2 disabled:cursor-not-allowed disabled:opacity-50 data-[state=checked]:bg-primary data-[state=checked]:text-primary-foreground";
        class_at ps "className"])]
      (omit ["className"] ps))
    [El "CheckboxPrimitive.Indicator"
       [("className", class_names [Some "flex items-center justify-center text-current"])]
       [El "Check" [("className", pv (PStr "h-4 w-4"))] []]].


(** ** [switch.tsx] *)

Definition Switch : component V := λ ps ch,
  El "SwitchPrimitives.Root"
    (spread [("className", class_names [Some "peer inline-flex h-6 w-11 shrink-0 cursor-pointer items-center rounded-full border-2 border-transparent transition-colors focus-visible:outline-none focus-visible:ring-2 focus-visible:ring-ring focus-visible:ring-offset-2 focus-visible:ring-offset-background disabled:cursor-not-allowed disabled:opacity-50 data-[state=checked]:bg-primary data-[state=unchecked]:bg-input";
        class_at ps "className"])]
      (omit ["className"] ps))
    [El "SwitchPrimitives.Thumb"
       [("className", class_names [Some "pointer-events-none block h-5 w-5 rounded-full bg-background shadow-lg ring-0 transition-transform data-[state=checked]:translate-x-5 data-[state=unchecked]:translate-x-0"])]
       []].


(** ** [slider.tsx] *)

Definition Slider : component V := λ ps ch,
  El "SliderPrimitive.Root"
    (spread [("className", class_names [Some "relative flex w-full touch-none select-none items-center";
        class_at ps "className"])]
      (omit ["className"] ps))
    ([El "SliderPrimitive.Track"
       [("className", pv (PStr "relative h-2 w-full grow overflow-hidden rounded-full bg-secondary"))]
       [El "SliderPrimitive.Range" [("className", pv (PStr "absolute h-full bg-primary"))] []]]
    ++ [El "SliderPrimitive.Thumb"
       [("className", pv (PStr "block h-5 w-5 rounded-full border-2 border-primary bg-background ring-offset-background transition-colors focus-visible:outline-none focus-visible:ring-2 focus-visible:ring-ring focus-visible:ring-offset-2 disabled:pointer-events-none disabled:opacity-50"))]
       []]).


(** ** [radio-group.tsx] *)

Definition RadioGroup : component V := λ ps ch,
  El "RadioGroupPrimitive.Root"
    (spread [("className", class_names [Some "grid gap-2";
        class_at ps "className"])]
      (omit ["className"] ps))
    ch.

Definition RadioGroupItem : component V := λ ps ch,
  El "RadioGroupPrimitive.Item"
    (spread [("className", class_names [Some "aspect-square h-4 w-4 rounded-full border border-primary text-primary ring-offset-background focus:outline-none focus-visible:ring-2 focus-visible:ring-ring focus-visible:ring-offset-2 disabled:cursor-not-allowed disabled:opacity-50";
        class_at ps "className"])]
      (omit ["className"] ps))
    [El "RadioGroupPrimitive.Indicator"
       [("className", pv (PStr "flex items-center justify-center"))]
       [El "Circle" [("className", pv (PStr "h-2.5 w-2.5 fill-current text-current"))] []]].


(** ** [scroll-area.tsx] *)

Definition ScrollBar : component V := λ ps ch,
  let orientation := with_default ps "orientation" (pv (PStr "vertical")) in
  El "ScrollAreaPrimitive.ScrollAreaScrollbar"
    (spread [("orientation", orientation);
     ("className", class_names [Some "flex touch-none select-none transition-colors";
        name_if (strict_eq (prim_of orientation) (PStr "vertical")) "h-full w-2.5 border-l border-l-transparent p-[1px]";
        name_if (strict_eq (prim_of orientation) (PStr "horizontal")) "h-2.5 flex-col border-t border-t-transparent p-[1px]";
        class_at ps "className"])]
      (omit ["className"; "orientation"] ps))
    [El "ScrollAreaPrimitive.ScrollAreaThumb"
       [("className", pv (PStr "relative flex-1 rounded-full bg-border"))]
       []].

Definition ScrollArea : component V := λ ps ch,
  El "ScrollAreaPrimitive.Root"
    (spread [("className", class_names [Some "relative overflow-hidden";
        class_at ps "className"])]
      (omit ["className"] ps))
    ([El "ScrollAreaPrimitive.Viewport" [("className", pv (PStr "h-full w-full rounded-[inherit]"))]
       ch]
    ++ [ScrollBar [] []]
    ++ [El "ScrollAreaPrimitive.Corner" [] []]).


(** ** [progress.tsx] *)

(** [`translateX(-${100 - (value || 0)}%)`]. *)
Definition indicator_shift (value : prim) : string :=
  "translateX(-" +:+ num_to_string (nsub (of_Z 100) (to_number (js_or value (PNum (of_Z 0)))))
  +:+ "%)".

Definition Progress : component V := λ ps ch,
  El "ProgressPrimitive.Root"
    (spread [("className", class_names [Some "relative h-4 w-full overflow-hidden rounded-full bg-secondary";
        class_at ps "className"])]
      (omit ["className"; "value"] ps))
    [El "ProgressPrimitive.Indicator"
       [("className", pv (PStr "h-full w-full flex-1 bg-primary transition-all"));
        ("style", pv_style [("transform", PStr (indicator_shift (get ps "value")))])] []].


(** ** [toggle.tsx] *)

Definition toggleVariants : cva_spec :=
  {| cva_base := "inline-flex items-center justify-center rounded-md text-sm font-medium ring-offset-background transition-colors hover:bg-muted hover:text-muted-foreground focus-visible:outline-none focus-visible:ring-2 focus-visible:ring-ring focus-visible:ring-offset-2 disabled:pointer-events-none disabled:opacity-50 data-[state=on]:bg-accent data-[state=on]:text-accent-foreground [&_svg]:pointer-events-none [&_svg]:size-4 [&_svg]:shrink-0 gap-2";
     cva_variants :=
      [("variant",
        [("default", "bg-transparent");
         ("outline", "border border-input bg-transparent hover:bg-accent hover:text-accent-foreground")]);
       ("size",
        [("default", "h-10 px-3 min-w-10");
         ("sm", "h-9 px-2.5 min-w-9");
         ("lg", "h-11 px-5 min-w-11")])];
     cva_defaults := [("variant", "default"); ("size", "default")] |}.

Definition Toggle : component V := λ ps ch,
  El "TogglePrimitive.Root"
    (spread [("className", class_names [Some (cva toggleVariants [("variant", get ps "variant"); ("size", get ps "size"); ("className", get ps "className")])])]
      (omit ["className"; "variant"; "size"] ps))
    ch.


(** ** [toggle-group.tsx] *)

(** The context a group gives its items, and its value outside a group. *)
Record ToggleContext := { tg_variant : prim; tg_size : prim }.

Definition no_group : ToggleContext := {| tg_variant := PStr "default"; tg_size := PStr "default" |}.

(** The context of the items, and the element. *)
Definition ToggleGroup (ps : list (string * V)) (ch : list (tree V)) : ToggleContext * tree V :=
  ({| tg_variant := get ps "variant"; tg_size := get ps "size" |},
   El "ToggleGroupPrimitive.Root"
     (spread [("className", class_names [Some "flex items-center justify-center gap-1";
         class_at ps "className"])]
       (omit ["className"; "variant"; "size"] ps))
     ch).

Definition ToggleGroupItem (context : ToggleContext) : component V := λ ps ch,
  El "ToggleGroupPrimitive.Item"
    (spread [("className", class_names [Some (cva toggleVariants
          [("variant", js_or (tg_variant context) (get ps "variant"));
           ("size", js_or (tg_size context) (get ps "size"))]);
        class_at ps "className"])]
      (omit ["className"; "variant"; "size"] ps))
    ch.


(** ** [breadcrumb.tsx] *)

Definition Breadcrumb : component V := λ ps ch,
  El "nav"
    (spread [("aria-label", pv (PStr "breadcrumb"))]
      ps)
    ch.

Definition BreadcrumbList : component V := λ ps ch,
  El "ol"
    (spread [("className", class_names [Some "flex flex-wrap items-center gap-1.5 break-words text-sm text-muted-foreground sm:gap-2.5";
        class_at ps "className"])]
      (omit ["className"] ps))
    ch.

Definition BreadcrumbItem : component V := λ ps ch,
  El "li"
    (spread [("className", class_names [Some "inline-flex items-center gap-1.5";
        class_at ps "className"])]
      (omit ["className"] ps))
    ch.

Definition BreadcrumbLink : component V := λ ps ch,
  El (if truthy (get ps "asChild") then "Slot" else "a")
    (spread [("className", class_names [Some "transition-colors hover:text-foreground";
        class_at ps "className"])]
      (omit ["asChild"; "className"] ps))
    ch.

Definition BreadcrumbPage : component V := λ ps ch,
  El "span"
    (spread [("role", pv (PStr "link"));
     ("aria-disabled", pv (PStr "true"));
     ("aria-current", pv (PStr "page"));
     ("className", class_names [Some "font-normal text-foreground";
        class_at ps "className"])]
      (omit ["className"] ps))
    ch.

Definition BreadcrumbSeparator : component V := λ ps ch,
  El "li"
    (spread [("role", pv (PStr "presentation"));
     ("aria-hidden", pv (PStr "true"));
     ("className", class_names [Some "[&>svg]:w-3.5 [&>svg]:h-3.5";
        class_at ps "className"])]
      (omit ["className"] ps))
    (match ch with [] => [El "ChevronRight" [] []] | _ => ch end).

Definition BreadcrumbEllipsis : component V := λ ps ch,
  El "span"
    (spread [("role", pv (PStr "presentation"));
     ("aria-hidden", pv (PStr "true"));
     ("className", class_names [Some "flex h-9 w-9 items-center justify-center";
        class_at ps "className"])]
      (omit ["className"] ps))
    ([El "MoreHorizontal" [("className", pv (PStr "h-4 w-4"))] []]
    ++ [El "span" [("className", pv (PStr "sr-only"))] [Txt "More"]]).


(** ** [pagination.tsx] *)

Definition Pagination : component V := λ ps ch,
  El "nav"
    (spread [("role", pv (PStr "navigation"));
     ("aria-label", pv (PStr "pagination"));
     ("className", class_names [Some "mx-auto flex w-full justify-center";
        class_at ps "className"])]
      (omit ["className"] ps))
    ch.

Definition PaginationContent : component V := λ ps ch,
  El "ul"
    (spread [("className", class_names [Some "flex flex-row items-center gap-1";
        class_at ps "className"])]
      (omit ["className"] ps))
    ch.

Definition PaginationItem : component V := λ ps ch,
  El "li"
    (spread [("className", class_names [Some "";
        class_at ps "className"])]
      (omit ["className"] ps))
    ch.

Definition PaginationLink : component V := λ ps ch,
  let size := with_default ps "size" (pv (PStr "icon")) in
  El "a"
    (spread [("aria-current", pv (if truthy (get ps "isActive") then PStr "page" else Undefined));
     ("className", class_names [Some (cva buttonVariants [("variant", PStr (if truthy (get ps "isActive") then "outline" else "ghost")); ("size", prim_of size)]);
        class_at ps "className"])]
      (omit ["className"; "isActive"; "size"] ps))
    ch.

Definition PaginationPrevious : component V := λ ps ch,
  PaginationLink
    (spread [("aria-label", pv (PStr "Go to previous page"));
     ("size", pv (PStr "default"));
     ("className", class_names [Some "gap-1 pl-2.5";
        class_at ps "className"])]
      (omit ["className"] ps))
    ([El "ChevronLeft" [("className", pv (PStr "h-4 w-4"))] []]
    ++ [El "span" [] [Txt "Previous"]]).

Definition PaginationNext : component V := λ ps ch,
  PaginationLink
    (spread [("aria-label", pv (PStr "Go to next page"));
     ("size", pv (PStr "default"));
     ("className", class_names [Some "gap-1 pr-2.5";
        class_at ps "className"])]
      (omit ["className"] ps))
    ([El "span" [] [Txt "Next"]] ++ [El "ChevronRight" [("className", pv (PStr "h-4 w-4"))] []]).

Definition PaginationEllipsis : component V := λ ps ch,
  El "span"
    (spread [("aria-hidden", pv (PBool true));
     ("className", class_names [Some "flex h-9 w-9 items-center justify-center";
        class_at ps "className"])]
      (omit ["className"] ps))
    ([El "MoreHorizontal" [("className", pv (PStr "h-4 w-4"))] []]
    ++ [El "span" [("className", pv (PStr "sr-only"))] [Txt "More pages"]]).


(** ** [resizable.tsx] *)

Definition ResizablePanelGroup : component V := λ ps ch,
  El "ResizablePrimitive.PanelGroup"
    (spread [("className", class_names [Some "flex h-full w-full data-[panel-group-direction=vertical]:flex-col";
        class_at ps "className"])]
      (omit ["className"] ps))
    ch.

Definition ResizablePanel : component V := El "ResizablePrimitive.Panel".

Definition ResizableHandle : component V := λ ps ch,
  El "ResizablePrimitive.PanelResizeHandle"
    (spread [("className", class_names [Some "relative flex w-px items-center justify-center bg-border after:absolute after:inset-y-0 after:left-1/2 after:w-1 after:-translate-x-1/2 focus-visible:outline-none focus-visible:ring-1 focus-visible:ring-ring focus-visible:ring-offset-1 data-[panel-group-direction=vertical]:h-px data-[panel-group-direction=vertical]:w-full data-[panel-group-direction=vertical]:after:left-0 data-[panel-group-direction=vertical]:after:h-1 data-[panel-group-direction=vertical]:after:w-full data-[panel-group-direction=vertical]:after:-translate-y-1/2 data-[panel-group-direction=vertical]:after:translate-x-0 [&[data-panel-group-direction=vertical]>div]:rotate-90";
        class_at ps "className"])]
      (omit ["withHandle"; "className"] ps))
    (if truthy (get ps "withHandle") then [El "div"
            [("className", pv (PStr "z-10 flex h-4 w-3 items-center justify-center rounded-sm border bg-border"))]
            [El "GripVertical" [("className", pv (PStr "h-2.5 w-2.5"))] []]] else []).


(** ** [input-otp.tsx] *)

Definition InputOTP : component V := λ ps ch,
  El "OTPInput"
    (spread [("containerClassName", class_names [Some "flex items-center gap-2 has-[:disabled]:opacity-50";
        class_at ps "containerClassName"]);
     ("className", class_names [Some "disabled:cursor-not-allowed";
        class_at ps "className"])]
      (omit ["className"; "containerClassName"] ps))
    ch.

Definition InputOTPGroup : component V := λ ps ch,
  El "div"
    (spread [("className", class_names [Some "flex items-center";
        class_at ps "className"])]
      (omit ["className"] ps))
    ch.

(** A slot of the context of input-otp. *)
Record otp_slot := { char : prim; hasFakeCaret : bool; isActive : bool }.

(** [slots[index]] is destructured: a slot that is not there throws. *)
Definition InputOTPSlot (slots : list otp_slot) (index : nat) (ps : list (string * V))
    : res (tree V) :=
  match slots !! index with
  | None => inl "TypeError"
  | Some s =>
      inr (El "div"
             (spread
                [("className", class_names [Some "relative flex h-10 w-10 items-center justify-center border-y border-r border-input text-sm transition-all first:rounded-l-md first:border-l last:rounded-r-md";
                   name_if (isActive s) "z-10 ring-2 ring-ring ring-offset-background";
                   class_at ps "className"])]
                (omit ["index"; "className"] ps))
             (prim_child (char s)
              ++ if hasFakeCaret s
                 then [El "div" [("className", pv (PStr "pointer-events-none absolute inset-0 flex items-center justify-center"))]
                         [El "div" [("className", pv (PStr "h-4 w-px animate-caret-blink bg-foreground duration-1000"))] []]]
                 else []))
  end.

Definition InputOTPSeparator : component V := λ ps ch,
  El "div"
    (spread [("role", pv (PStr "separator"))]
      ps)
    [El "Dot" [] []].


(** ** [aspect-ratio.tsx] *)

Definition AspectRatio : component V := El "AspectRatioPrimitive.Root".


(** ** [collapsible.tsx] *)

Definition Collapsible : component V := El "CollapsiblePrimitive.Root".

Definition CollapsibleTrigger : component V := El "CollapsiblePrimitive.CollapsibleTrigger".

Definition CollapsibleContent : component V := El "CollapsiblePrimitive.CollapsibleContent".


(** ** [loading-spinner.tsx] *)

Definition LoadingSpinner : tree V :=
  El "div"
    [("className", pv (PStr "inline-block h-6 w-6 animate-spin rounded-full border-4 border-solid border-current border-r-transparent align-[-0.125em] motion-reduce:animate-[spin_1.5s_linear_infinite]"));
     ("role", pv (PStr "status"))]
    [El "span"
       [("className", pv (PStr "!absolute !-m-px !h-px !w-px !overflow-hidden !whitespace-nowrap !border-0 !p-0 ![clip:rect(0,0,0,0)]"))]
       [Txt "Loading..."]].
End Components.
