(* ===== verification/UiOverlays.v ===== *)
(** * Overlays of the user-interface library

    Sheets, dialogs, drawers, popovers and hover cards: their content is rendered
    through a portal. *)

From S2P Require Import Prelude JsSort JsNumber JsText JsValue Markup UiKit UiElements.

Section Components.
Context {V : Type} `{PropValue V} `{Styling}.

(** ** [sheet.tsx] *)

Definition Sheet : component V := El "SheetPrimitive.Root".

Definition SheetTrigger : component V := El "SheetPrimitive.Trigger".

Definition SheetClose : component V := El "SheetPrimitive.Close".

Definition SheetPortal : component V := El "SheetPrimitive.Portal".

Definition SheetOverlay : component V := λ ps ch,
  El "SheetPrimitive.Overlay"
    (spread [("className", class_names [Some "fixed inset-0 z-50 bg-black/80  data-[state=open]:animate-in data-[state=closed]:animate-out data-[state=closed]:fade-out-0 data-[state=open]:fade-in-0";
        class_at ps "className"])]
      (omit ["className"] ps))
    ch.

Definition sheetVariants : cva_spec :=
  {| cva_base := "fixed z-50 gap-4 bg-background p-6 shadow-lg transition ease-in-out data-[state=open]:animate-in data-[state=closed]:animate-out data-[state=closed]:duration-300 data-[state=open]:duration-500";
     cva_variants :=
      [("side",
        [("top", "inset-x-0 top-0 border-b data-[state=closed]:slide-out-to-top data-[state=open]:slide-in-from-top");
         ("bottom", "inset-x-0 bottom-0 border-t data-[state=closed]:slide-out-to-bottom data-[state=open]:slide-in-from-bottom");
         ("left", "inset-y-0 left-0 h-full w-3/4 border-r data-[state=closed]:slide-out-to-left data-[state=open]:slide-in-from-left sm:max-w-sm");
         ("right", "inset-y-0 right-0 h-full w-3/4  border-l data-[state=closed]:slide-out-to-right data-[state=open]:slide-in-from-right sm:max-w-sm")])];
     cva_defaults := [("side", "right")] |}.

Definition SheetContent : component V := λ ps ch,
  let side := with_default ps "side" (pv (PStr "right")) in
  SheetPortal []
    ([SheetOverlay [] []]
    ++ [El "SheetPrimitive.Content"
       (spread [("className", class_names [Some (cva sheetVariants [("side", prim_of side)]);
           class_at ps "className"])]
         (omit ["side"; "className"] ps))
       (ch
       ++ [El "SheetPrimitive.Close"
          [("className", pv (PStr "absolute right-4 top-4 rounded-sm opacity-70 ring-offset-background transition-opacity hover:opacity-100 focus:outline-none focus:ring-2 focus:ring-ring focus:ring-offset-2 disabled:pointer-events-none data-[state=open]:bg-secondary"))]
          ([El "X" [("className", pv (PStr "h-4 w-4"))] []]
          ++ [El "span" [("className", pv (PStr "sr-only"))] [Txt "Close"]])])]).

Definition SheetHeader : component V := λ ps ch,
  El "div"
    (spread [("className", class_names [Some "flex flex-col space-y-2 text-center sm:text-left";
        class_at ps "className"])]
      (omit ["className"] ps))
    ch.

Definition SheetFooter : component V := λ ps ch,
  El "div"
    (spread [("className", class_names [Some "flex flex-col-reverse sm:flex-row sm:justify-end sm:space-x-2";
        class_at ps "className"])]
      (omit ["className"] ps))
    ch.

Definition SheetTitle : component V := λ ps ch,
  El "SheetPrimitive.Title"
    (spread [("className", class_names [Some "text-lg font-semibold text-foreground";
        class_at ps "className"])]
      (omit ["className"] ps))
    ch.

Definition SheetDescription : component V := λ ps ch,
  El "SheetPrimitive.Description"
    (spread [("className", class_names [Some "text-sm text-muted-foreground";
        class_at ps "className"])]
      (omit ["className"] ps))
    ch.


(** ** [dialog.tsx] *)

Definition Dialog : component V := El "DialogPrimitive.Root".

Definition DialogTrigger : component V := El "DialogPrimitive.Trigger".

Definition DialogPortal : component V := El "DialogPrimitive.Portal".

Definition DialogClose : component V := El "DialogPrimitive.Close".

Definition DialogOverlay : component V := λ ps ch,
  El "DialogPrimitive.Overlay"
    (spread [("className", class_names [Some "fixed inset-0 z-50 bg-black/80  data-[state=open]:animate-in data-[state=closed]:animate-out data-[state=closed]:fade-out-0 data-[state=open]:fade-in-0";
        class_at ps "className"])]
      (omit ["className"] ps))
    ch.

Definition DialogContent : component V := λ ps ch,
  DialogPortal []
    ([DialogOverlay [] []]
    ++ [El "DialogPrimitive.Content"
       (spread [("className", class_names [Some "fixed left-[50%] top-[50%] z-50 grid w-full max-w-lg translate-x-[-50%] translate-y-[-50%] gap-4 border bg-background p-6 shadow-lg duration-200 data-[state=open]:animate-in data-[state=closed]:animate-out data-[state=closed]:fade-out-0 data-[state=open]:fade-in-0 data-[state=closed]:zoom-out-95 data-[state=open]:zoom-in-95 data-[state=closed]:slide-out-to-left-1/2 data-[state=closed]:slide-out-to-top-[48%] data-[state=open]:slide-in-from-left-1/2 data-[state=open]:slide-in-from-top-[48%] sm:rounded-lg";
           class_at ps "className"])]
         (omit ["className"] ps))
       (ch
       ++ [El "DialogPrimitive.Close"
          [("className", pv (PStr "absolute right-4 top-4 rounded-sm opacity-70 ring-offset-background transition-opacity hover:opacity-100 focus:outline-none focus:ring-2 focus:ring-ring focus:ring-offset-2 disabled:pointer-events-none data-[state=open]:bg-accent data-[state=open]:text-muted-foreground"))]
          ([El "X" [("className", pv (PStr "h-4 w-4"))] []]
          ++ [El "span" [("className", pv (PStr "sr-only"))] [Txt "Close"]])])]).

Definition DialogHeader : component V := λ ps ch,
  El "div"
    (spread [("className", class_names [Some "flex flex-col space-y-1.5 text-center sm:text-left";
        class_at ps "className"])]
      (omit ["className"] ps))
    ch.

Definition DialogFooter : component V := λ ps ch,
  El "div"
    (spread [("className", class_names [Some "flex flex-col-reverse sm:flex-row sm:justify-end sm:space-x-2";
        class_at ps "className"])]
      (omit ["className"] ps))
    ch.

Definition DialogTitle : component V := λ ps ch,
  El "DialogPrimitive.Title"
    (spread [("className", class_names [Some "text-lg font-semibold leading-none tracking-tight";
        class_at ps "className"])]
      (omit ["className"] ps))
    ch.

Definition DialogDescription : component V := λ ps ch,
  El "DialogPrimitive.Description"
    (spread [("className", class_names [Some "text-sm text-muted-foreground";
        class_at ps "className"])]
      (omit ["className"] ps))
    ch.


(** ** [alert-dialog.tsx] *)

Definition AlertDialog : component V := El "AlertDialogPrimitive.Root".

Definition AlertDialogTrigger : component V := El "AlertDialogPrimitive.Trigger".

Definition AlertDialogPortal : component V := El "AlertDialogPrimitive.Portal".

Definition AlertDialogOverlay : component V := λ ps ch,
  El "AlertDialogPrimitive.Overlay"
    (spread [("className", class_names [Some "fixed inset-0 z-50 bg-black/80  data-[state=open]:animate-in data-[state=closed]:animate-out data-[state=closed]:fade-out-0 data-[state=open]:fade-in-0";
        class_at ps "className"])]
      (omit ["className"] ps))
    ch.

Definition AlertDialogContent : component V := λ ps ch,
  AlertDialogPortal []
    ([AlertDialogOverlay [] []]
    ++ [El "AlertDialogPrimitive.Content"
       (spread [("className", class_names [Some "fixed left-[50%] top-[50%] z-50 grid w-full max-w-lg translate-x-[-50%] translate-y-[-50%] gap-4 border bg-background p-6 shadow-lg duration-200 data-[state=open]:animate-in data-[state=closed]:animate-out data-[state=closed]:fade-out-0 data-[state=open]:fade-in-0 data-[state=closed]:zoom-out-95 data-[state=open]:zoom-in-95 data-[state=closed]:slide-out-to-left-1/2 data-[state=closed]:slide-out-to-top-[48%] data-[state=open]:slide-in-from-left-1/2 data-[state=open]:slide-in-from-top-[48%] sm:rounded-lg";
           class_at ps "className"])]
         (omit ["className"] ps))
       ch]).

Definition AlertDialogHeader : component V := λ ps ch,
  El "div"
    (spread [("className", class_names [Some "flex flex-col space-y-2 text-center sm:text-left";
        class_at ps "className"])]
      (omit ["className"] ps))
    ch.

Definition AlertDialogFooter : component V := λ ps ch,
  El "div"
    (spread [("className", class_names [Some "flex flex-col-reverse sm:flex-row sm:justify-end sm:space-x-2";
        class_at ps "className"])]
      (omit ["className"] ps))
    ch.

Definition AlertDialogTitle : component V := λ ps ch,
  El "AlertDialogPrimitive.Title"
    (spread [("className", class_names [Some "text-lg font-semibold";
        class_at ps "className"])]
      (omit ["className"] ps))
    ch.

Definition AlertDialogDescription : component V := λ ps ch,
  El "AlertDialogPrimitive.Description"
    (spread [("className", class_names [Some "text-sm text-muted-foreground";
        class_at ps "className"])]
      (omit ["className"] ps))
    ch.

Definition AlertDialogAction : component V := λ ps ch,
  El "AlertDialogPrimitive.Action"
    (spread [("className", class_names [Some (cva buttonVariants []);
        class_at ps "className"])]
      (omit ["className"] ps))
    ch.

Definition AlertDialogCancel : component V := λ ps ch,
  El "AlertDialogPrimitive.Cancel"
    (spread [("className", class_names [Some (cva buttonVariants [("variant", PStr "outline")]);
        Some "mt-2 sm:mt-0";
        class_at ps "className"])]
      (omit ["className"] ps))
    ch.


(** ** [drawer.tsx] *)

Definition Drawer : component V := λ ps ch,
  let shouldScaleBackground := with_default ps "shouldScaleBackground" (pv (PBool true)) in
  El "DrawerPrimitive.Root"
    (spread [("shouldScaleBackground", shouldScaleBackground)]
      (omit ["shouldScaleBackground"] ps))
    ch.

Definition DrawerTrigger : component V := El "DrawerPrimitive.Trigger".

Definition DrawerPortal : component V := El "DrawerPrimitive.Portal".

Definition DrawerClose : component V := El "DrawerPrimitive.Close".

Definition DrawerOverlay : component V := λ ps ch,
  El "DrawerPrimitive.Overlay"
    (spread [("className", class_names [Some "fixed inset-0 z-50 bg-black/80";
        class_at ps "className"])]
      (omit ["className"] ps))
    ch.

Definition DrawerContent : component V := λ ps ch,
  DrawerPortal []
    ([DrawerOverlay [] []]
    ++ [El "DrawerPrimitive.Content"
       (spread [("className", class_names [Some "fixed inset-x-0 bottom-0 z-50 mt-24 flex h-auto flex-col rounded-t-[10px] border bg-background";
           class_at ps "className"])]
         (omit ["className"] ps))
       ([El "div" [("className", pv (PStr "mx-auto mt-4 h-2 w-[100px] rounded-full bg-muted"))] []]
       ++ ch)]).

Definition DrawerHeader : component V := λ ps ch,
  El "div"
    (spread [("className", class_names [Some "grid gap-1.5 p-4 text-center sm:text-left";
        class_at ps "className"])]
      (omit ["className"] ps))
    ch.

Definition DrawerFooter : component V := λ ps ch,
  El "div"
    (spread [("className", class_names [Some "mt-auto flex flex-col gap-2 p-4";
        class_at ps "className"])]
      (omit ["className"] ps))
    ch.

Definition DrawerTitle : component V := λ ps ch,
  El "DrawerPrimitive.Title"
    (spread [("className", class_names [Some "text-lg font-semibold leading-none tracking-tight";
        class_at ps "className"])]
      (omit ["className"] ps))
    ch.

Definition DrawerDescription : component V := λ ps ch,
  El "DrawerPrimitive.Description"
    (spread [("className", class_names [Some "text-sm text-muted-foreground";
        class_at ps "className"])]
      (omit ["className"] ps))
    ch.


(** ** [popover.tsx] *)

Definition Popover : component V := El "PopoverPrimitive.Root".

Definition PopoverTrigger : component V := El "PopoverPrimitive.Trigger".

Definition PopoverContent : component V := λ ps ch,
  let align := with_default ps "align" (pv (PStr "center")) in
  let sideOffset := with_default ps "sideOffset" (pv (PNum (JsNumber.of_Z 4))) in
  El "PopoverPrimitive.Portal" []
    [El "PopoverPrimitive.Content"
       (spread [("align", align);
        ("sideOffset", sideOffset);
        ("className", class_names [Some "z-50 w-72 rounded-md border bg-popover p-4 text-popover-foreground shadow-md outline-none data-[state=open]:animate-in data-[state=closed]:animate-out data-[state=closed]:fade-out-0 data-[state=open]:fade-in-0 data-[state=closed]:zoom-out-95 data-[state=open]:zoom-in-95 data-[side=bottom]:slide-in-from-top-2 data-[side=left]:slide-in-from-right-2 data-[side=right]:slide-in-from-left-2 data-[side=top]:slide-in-from-bottom-2";
           class_at ps "className"])]
         (omit ["className"; "align"; "sideOffset"] ps))
       ch].


(** ** [hover-card.tsx] *)

Definition HoverCard : component V := El "HoverCardPrimitive.Root".

Definition HoverCardTrigger : component V := El "HoverCardPrimitive.Trigger".

Definition HoverCardContent : component V := λ ps ch,
  let align := with_default ps "align" (pv (PStr "center")) in
  let sideOffset := with_default ps "sideOffset" (pv (PNum (JsNumber.of_Z 4))) in
  El "HoverCardPrimitive.Content"
    (spread [("align", align);
     ("sideOffset", sideOffset);
     ("className", class_names [Some "z-50 w-64 rounded-md border bg-popover p-4 text-popover-foreground shadow-md outline-none data-[state=open]:animate-in data-[state=closed]:animate-out data-[state=closed]:fade-out-0 data-[state=open]:fade-in-0 data-[state=closed]:zoom-out-95 data-[state=open]:zoom-in-95 data-[side=bottom]:slide-in-from-top-2 data-[side=left]:slide-in-from-right-2 data-[side=right]:slide-in-from-left-2 data-[side=top]:slide-in-from-bottom-2";
        class_at ps "className"])]
      (omit ["className"; "align"; "sideOffset"] ps))
    ch.
End Components.
