(* ===== verification/UiMenus.v ===== *)
(** * Menus of the user-interface library

    The menu bar, the dropdown and the context menu, the navigation menu and the
    command palette. *)

From S2P Require Import Prelude JsSort JsNumber JsText JsValue Markup UiKit UiElements UiOverlays.

Section Components.
Context {V : Type} `{PropValue V} `{Styling}.

(** ** [menubar.tsx] *)

Definition MenubarMenu : component V := El "MenubarPrimitive.Menu".

Definition MenubarGroup : component V := El "MenubarPrimitive.Group".

Definition MenubarPortal : component V := El "MenubarPrimitive.Portal".

Definition MenubarSub : component V := El "MenubarPrimitive.Sub".

Definition MenubarRadioGroup : component V := El "MenubarPrimitive.RadioGroup".

Definition Menubar : component V := λ ps ch,
  El "MenubarPrimitive.Root"
    (spread [("className", class_names [Some "flex h-10 items-center space-x-1 rounded-md border bg-background p-1";
        class_at ps "className"])]
      (omit ["className"] ps))
    ch.

Definition MenubarTrigger : component V := λ ps ch,
  El "MenubarPrimitive.Trigger"
    (spread [("className", class_names [Some "flex cursor-default select-none items-center rounded-sm px-3 py-1.5 text-sm font-medium outline-none focus:bg-accent focus:text-accent-foreground data-[state=open]:bg-accent data-[state=open]:text-accent-foreground";
        class_at ps "className"])]
      (omit ["className"] ps))
    ch.

Definition MenubarSubTrigger : component V := λ ps ch,
  El "MenubarPrimitive.SubTrigger"
    (spread [("className", class_names [Some "flex cursor-default select-none items-center rounded-sm px-2 py-1.5 text-sm outline-none focus:bg-accent focus:text-accent-foreground data-[state=open]:bg-accent data-[state=open]:text-accent-foreground";
        name_if (truthy (get ps "inset")) "pl-8";
        class_at ps "className"])]
      (omit ["className"; "inset"] ps))
    (ch ++ [El "ChevronRight" [("className", pv (PStr "ml-auto h-4 w-4"))] []]).

Definition MenubarSubContent : component V := λ ps ch,
  El "MenubarPrimitive.SubContent"
    (spread [("className", class_names [Some "z-50 min-w-[8rem] overflow-hidden rounded-md border bg-popover p-1 text-popover-foreground data-[state=open]:animate-in data-[state=closed]:animate-out data-[state=closed]:fade-out-0 data-[state=open]:fade-in-0 data-[state=closed]:zoom-out-95 data-[state=open]:zoom-in-95 data-[side=bottom]:slide-in-from-top-2 data-[side=left]:slide-in-from-right-2 data-[side=right]:slide-in-from-left-2 data-[side=top]:slide-in-from-bottom-2";
        class_at ps "className"])]
      (omit ["className"] ps))
    ch.

Definition MenubarContent : component V := λ ps ch,
  let align := with_default ps "align" (pv (PStr "start")) in
  let alignOffset := with_default ps "alignOffset" (pv (PNum (JsNumber.of_Z (-4)))) in
  let sideOffset := with_default ps "sideOffset" (pv (PNum (JsNumber.of_Z 8))) in
  El "MenubarPrimitive.Portal" []
    [El "MenubarPrimitive.Content"
       (spread [("align", align);
        ("alignOffset", alignOffset);
        ("sideOffset", sideOffset);
        ("className", class_names [Some "z-50 min-w-[12rem] overflow-hidden rounded-md border bg-popover p-1 text-popover-foreground shadow-md data-[state=open]:animate-in data-[state=closed]:fade-out-0 data-[state=open]:fade-in-0 data-[state=closed]:zoom-out-95 data-[state=open]:zoom-in-95 data-[side=bottom]:slide-in-from-top-2 data-[side=left]:slide-in-from-right-2 data-[side=right]:slide-in-from-left-2 data-[side=top]:slide-in-from-bottom-2";
           class_at ps "className"])]
         (omit ["className"; "align"; "alignOffset"; "sideOffset"] ps))
       ch].

Definition MenubarItem : component V := λ ps ch,
  El "MenubarPrimitive.Item"
    (spread [("className", class_names [Some "relative flex cursor-default select-none items-center rounded-sm px-2 py-1.5 text-sm outline-none focus:bg-accent focus:text-accent-foreground data-[disabled]:pointer-events-none data-[disabled]:opacity-50";
        name_if (truthy (get ps "inset")) "pl-8";
        class_at ps "className"])]
      (omit ["className"; "inset"] ps))
    ch.

Definition MenubarCheckboxItem : component V := λ ps ch,
  El "MenubarPrimitive.CheckboxItem"
    (spread [("className", class_names [Some "relative flex cursor-default select-none items-center rounded-sm py-1.5 pl-8 pr-2 text-sm outline-none focus:bg-accent focus:text-accent-foreground data-[disabled]:pointer-events-none data-[disabled]:opacity-50";
        class_at ps "className"]);
     ("checked", raw ps "checked")]
      (omit ["className"; "checked"] ps))
    ([El "span"
       [("className", pv (PStr "absolute left-2 flex h-3.5 w-3.5 items-center justify-center"))]
       [El "MenubarPrimitive.ItemIndicator" [] [El "Check" [("className", pv (PStr "h-4 w-4"))] []]]]
    ++ ch).

Definition MenubarRadioItem : component V := λ ps ch,
  El "MenubarPrimitive.RadioItem"
    (spread [("className", class_names [Some "relative flex cursor-default select-none items-center rounded-sm py-1.5 pl-8 pr-2 text-sm outline-none focus:bg-accent focus:text-accent-foreground data-[disabled]:pointer-events-none data-[disabled]:opacity-50";
        class_at ps "className"])]
      (omit ["className"] ps))
    ([El "span"
       [("className", pv (PStr "absolute left-2 flex h-3.5 w-3.5 items-center justify-center"))]
       [El "MenubarPrimitive.ItemIndicator" []
          [El "Circle" [("className", pv (PStr "h-2 w-2 fill-current"))] []]]]
    ++ ch).

Definition MenubarLabel : component V := λ ps ch,
  El "MenubarPrimitive.Label"
    (spread [("className", class_names [Some "px-2 py-1.5 text-sm font-semibold";
        name_if (truthy (get ps "inset")) "pl-8";
        class_at ps "className"])]
      (omit ["className"; "inset"] ps))
    ch.

Definition MenubarSeparator : component V := λ ps ch,
  El "MenubarPrimitive.Separator"
    (spread [("className", class_names [Some "-mx-1 my-1 h-px bg-muted";
        class_at ps "className"])]
      (omit ["className"] ps))
    ch.

Definition MenubarShortcut : component V := λ ps ch,
  El "span"
    (spread [("className", class_names [Some "ml-auto text-xs tracking-widest text-muted-foreground";
        class_at ps "className"])]
      (omit ["className"] ps))
    ch.


(** ** [dropdown-menu.tsx] *)

Definition DropdownMenu : component V := El "DropdownMenuPrimitive.Root".

Definition DropdownMenuTrigger : component V := El "DropdownMenuPrimitive.Trigger".

Definition DropdownMenuGroup : component V := El "DropdownMenuPrimitive.Group".

Definition DropdownMenuPortal : component V := El "DropdownMenuPrimitive.Portal".

Definition DropdownMenuSub : component V := El "DropdownMenuPrimitive.Sub".

Definition DropdownMenuRadioGroup : component V := El "DropdownMenuPrimitive.RadioGroup".

Definition DropdownMenuSubTrigger : component V := λ ps ch,
  El "DropdownMenuPrimitive.SubTrigger"
    (spread [("className", class_names [Some "flex cursor-default gap-2 select-none items-center rounded-sm px-2 py-1.5 text-sm outline-none focus:bg-accent data-[state=open]:bg-accent [&_svg]:pointer-events-none [&_svg]:size-4 [&_svg]:shrink-0";
        name_if (truthy (get ps "inset")) "pl-8";
        class_at ps "className"])]
      (omit ["className"; "inset"] ps))
    (ch ++ [El "ChevronRight" [("className", pv (PStr "ml-auto"))] []]).

Definition DropdownMenuSubContent : component V := λ ps ch,
  El "DropdownMenuPrimitive.SubContent"
    (spread [("className", class_names [Some "z-50 min-w-[8rem] overflow-hidden rounded-md border bg-popover p-1 text-popover-foreground shadow-lg data-[state=open]:animate-in data-[state=closed]:animate-out data-[state=closed]:fade-out-0 data-[state=open]:fade-in-0 data-[state=closed]:zoom-out-95 data-[state=open]:zoom-in-95 data-[side=bottom]:slide-in-from-top-2 data-[side=left]:slide-in-from-right-2 data-[side=right]:slide-in-from-left-2 data-[side=top]:slide-in-from-bottom-2";
        class_at ps "className"])]
      (omit ["className"] ps))
    ch.

Definition DropdownMenuContent : component V := λ ps ch,
  let sideOffset := with_default ps "sideOffset" (pv (PNum (JsNumber.of_Z 4))) in
  El "DropdownMenuPrimitive.Portal" []
    [El "DropdownMenuPrimitive.Content"
       (spread [("sideOffset", sideOffset);
        ("className", class_names [Some "z-50 min-w-[8rem] overflow-hidden rounded-md border bg-popover p-1 text-popover-foreground shadow-md data-[state=open]:animate-in data-[state=closed]:animate-out data-[state=closed]:fade-out-0 data-[state=open]:fade-in-0 data-[state=closed]:zoom-out-95 data-[state=open]:zoom-in-95 data-[side=bottom]:slide-in-from-top-2 data-[side=left]:slide-in-from-right-2 data-[side=right]:slide-in-from-left-2 data-[side=top]:slide-in-from-bottom-2";
           class_at ps "className"])]
         (omit ["className"; "sideOffset"] ps))
       ch].

Definition DropdownMenuItem : component V := λ ps ch,
  El "DropdownMenuPrimitive.Item"
    (spread [("className", class_names [Some "relative flex cursor-default select-none items-center gap-2 rounded-sm px-2 py-1.5 text-sm outline-none transition-colors focus:bg-accent focus:text-accent-foreground data-[disabled]:pointer-events-none data-[disabled]:opacity-50 [&_svg]:pointer-events-none [&_svg]:size-4 [&_svg]:shrink-0";
        name_if (truthy (get ps "inset")) "pl-8";
        class_at ps "className"])]
      (omit ["className"; "inset"] ps))
    ch.

Definition DropdownMenuCheckboxItem : component V := λ ps ch,
  El "DropdownMenuPrimitive.CheckboxItem"
    (spread [("className", class_names [Some "relative flex cursor-default select-none items-center rounded-sm py-1.5 pl-8 pr-2 text-sm outline-none transition-colors focus:bg-accent focus:text-accent-foreground data-[disabled]:pointer-events-none data-[disabled]:opacity-50";
        class_at ps "className"]);
     ("checked", raw ps "checked")]
      (omit ["className"; "checked"] ps))
    ([El "span"
       [("className", pv (PStr "absolute left-2 flex h-3.5 w-3.5 items-center justify-center"))]
       [El "DropdownMenuPrimitive.ItemIndicator" []
          [El "Check" [("className", pv (PStr "h-4 w-4"))] []]]]
    ++ ch).

Definition DropdownMenuRadioItem : component V := λ ps ch,
  El "DropdownMenuPrimitive.RadioItem"
    (spread [("className", class_names [Some "relative flex cursor-default select-none items-center rounded-sm py-1.5 pl-8 pr-2 text-sm outline-none transition-colors focus:bg-accent focus:text-accent-foreground data-[disabled]:pointer-events-none data-[disabled]:opacity-50";
        class_at ps "className"])]
      (omit ["className"] ps))
    ([El "span"
       [("className", pv (PStr "absolute left-2 flex h-3.5 w-3.5 items-center justify-center"))]
       [El "DropdownMenuPrimitive.ItemIndicator" []
          [El "Circle" [("className", pv (PStr "h-2 w-2 fill-current"))] []]]]
    ++ ch).

Definition DropdownMenuLabel : component V := λ ps ch,
  El "DropdownMenuPrimitive.Label"
    (spread [("className", class_names [Some "px-2 py-1.5 text-sm font-semibold";
        name_if (truthy (get ps "inset")) "pl-8";
        class_at ps "className"])]
      (omit ["className"; "inset"] ps))
    ch.

Definition DropdownMenuSeparator : component V := λ ps ch,
  El "DropdownMenuPrimitive.Separator"
    (spread [("className", class_names [Some "-mx-1 my-1 h-px bg-muted";
        class_at ps "className"])]
      (omit ["className"] ps))
    ch.

Definition DropdownMenuShortcut : component V := λ ps ch,
  El "span"
    (spread [("className", class_names [Some "ml-auto text-xs tracking-widest opacity-60";
        class_at ps "className"])]
      (omit ["className"] ps))
    ch.


(** ** [context-menu.tsx] *)

Definition ContextMenu : component V := El "ContextMenuPrimitive.Root".

Definition ContextMenuTrigger : component V := El "ContextMenuPrimitive.Trigger".

Definition ContextMenuGroup : component V := El "ContextMenuPrimitive.Group".

Definition ContextMenuPortal : component V := El "ContextMenuPrimitive.Portal".

Definition ContextMenuSub : component V := El "ContextMenuPrimitive.Sub".

Definition ContextMenuRadioGroup : component V := El "ContextMenuPrimitive.RadioGroup".

Definition ContextMenuSubTrigger : component V := λ ps ch,
  El "ContextMenuPrimitive.SubTrigger"
    (spread [("className", class_names [Some "flex cursor-default select-none items-center rounded-sm px-2 py-1.5 text-sm outline-none focus:bg-accent focus:text-accent-foreground data-[state=open]:bg-accent data-[state=open]:text-accent-foreground";
        name_if (truthy (get ps "inset")) "pl-8";
        class_at ps "className"])]
      (omit ["className"; "inset"] ps))
    (ch ++ [El "ChevronRight" [("className", pv (PStr "ml-auto h-4 w-4"))] []]).

Definition ContextMenuSubContent : component V := λ ps ch,
  El "ContextMenuPrimitive.SubContent"
    (spread [("className", class_names [Some "z-50 min-w-[8rem] overflow-hidden rounded-md border bg-popover p-1 text-popover-foreground shadow-md data-[state=open]:animate-in data-[state=closed]:animate-out data-[state=closed]:fade-out-0 data-[state=open]:fade-in-0 data-[state=closed]:zoom-out-95 data-[state=open]:zoom-in-95 data-[side=bottom]:slide-in-from-top-2 data-[side=left]:slide-in-from-right-2 data-[side=right]:slide-in-from-left-2 data-[side=top]:slide-in-from-bottom-2";
        class_at ps "className"])]
      (omit ["className"] ps))
    ch.

Definition ContextMenuContent : component V := λ ps ch,
  El "ContextMenuPrimitive.Portal" []
    [El "ContextMenuPrimitive.Content"
       (spread [("className", class_names [Some "z-50 min-w-[8rem] overflow-hidden rounded-md border bg-popover p-1 text-popover-foreground shadow-md animate-in fade-in-80 data-[state=open]:animate-in data-[state=closed]:animate-out data-[state=closed]:fade-out-0 data-[state=open]:fade-in-0 data-[state=closed]:zoom-out-95 data-[state=open]:zoom-in-95 data-[side=bottom]:slide-in-from-top-2 data-[side=left]:slide-in-from-right-2 data-[side=right]:slide-in-from-left-2 data-[side=top]:slide-in-from-bottom-2";
           class_at ps "className"])]
         (omit ["className"] ps))
       ch].

Definition ContextMenuItem : component V := λ ps ch,
  El "ContextMenuPrimitive.Item"
    (spread [("className", class_names [Some "relative flex cursor-default select-none items-center rounded-sm px-2 py-1.5 text-sm outline-none focus:bg-accent focus:text-accent-foreground data-[disabled]:pointer-events-none data-[disabled]:opacity-50";
        name_if (truthy (get ps "inset")) "pl-8";
        class_at ps "className"])]
      (omit ["className"; "inset"] ps))
    ch.

Definition ContextMenuCheckboxItem : component V := λ ps ch,
  El "ContextMenuPrimitive.CheckboxItem"
    (spread [("className", class_names [Some "relative flex cursor-default select-none items-center rounded-sm py-1.5 pl-8 pr-2 text-sm outline-none focus:bg-accent focus:text-accent-foreground data-[disabled]:pointer-events-none data-[disabled]:opacity-50";
        class_at ps "className"]);
     ("checked", raw ps "checked")]
      (omit ["className"; "checked"] ps))
    ([El "span"
       [("className", pv (PStr "absolute left-2 flex h-3.5 w-3.5 items-center justify-center"))]
       [El "ContextMenuPrimitive.ItemIndicator" []
          [El "Check" [("className", pv (PStr "h-4 w-4"))] []]]]
    ++ ch).

Definition ContextMenuRadioItem : component V := λ ps ch,
  El "ContextMenuPrimitive.RadioItem"
    (spread [("className", class_names [Some "relative flex cursor-default select-none items-center rounded-sm py-1.5 pl-8 pr-2 text-sm outline-none focus:bg-accent focus:text-accent-foreground data-[disabled]:pointer-events-none data-[disabled]:opacity-50";
        class_at ps "className"])]
      (omit ["className"] ps))
    ([El "span"
       [("className", pv (PStr "absolute left-2 flex h-3.5 w-3.5 items-center justify-center"))]
       [El "ContextMenuPrimitive.ItemIndicator" []
          [El "Circle" [("className", pv (PStr "h-2 w-2 fill-current"))] []]]]
    ++ ch).

Definition ContextMenuLabel : component V := λ ps ch,
  El "ContextMenuPrimitive.Label"
    (spread [("className", class_names [Some "px-2 py-1.5 text-sm font-semibold text-foreground";
        name_if (truthy (get ps "inset")) "pl-8";
        class_at ps "className"])]
      (omit ["className"; "inset"] ps))
    ch.

Definition ContextMenuSeparator : component V := λ ps ch,
  El "ContextMenuPrimitive.Separator"
    (spread [("className", class_names [Some "-mx-1 my-1 h-px bg-border";
        class_at ps "className"])]
      (omit ["className"] ps))
    ch.

Definition ContextMenuShortcut : component V := λ ps ch,
  El "span"
    (spread [("className", class_names [Some "ml-auto text-xs tracking-widest text-muted-foreground";
        class_at ps "className"])]
      (omit ["className"] ps))
    ch.


(** ** [navigation-menu.tsx] *)

Definition NavigationMenuList : component V := λ ps ch,
  El "NavigationMenuPrimitive.List"
    (spread [("className", class_names [Some "group flex flex-1 list-none items-center justify-center space-x-1";
        class_at ps "className"])]
      (omit ["className"] ps))
    ch.

Definition NavigationMenuItem : component V := El "NavigationMenuPrimitive.Item".

Definition navigationMenuTriggerStyle : cva_spec :=
  {| cva_base := "group inline-flex h-10 w-max items-center justify-center rounded-md bg-background px-4 py-2 text-sm font-medium transition-colors hover:bg-accent hover:text-accent-foreground focus:bg-accent focus:text-accent-foreground focus:outline-none disabled:pointer-events-none disabled:opacity-50 data-[active]:bg-accent/50 data-[state=open]:bg-accent/50";
     cva_variants :=
      [];
     cva_defaults := [] |}.

Definition NavigationMenuTrigger : component V := λ ps ch,
  El "NavigationMenuPrimitive.Trigger"
    (spread [("className", class_names [Some (cva navigationMenuTriggerStyle []);
        Some "group";
        class_at ps "className"])]
      (omit ["className"] ps))
    (ch
    ++ [Txt " "]
    ++ [El "ChevronDown"
       [("className", pv (PStr "relative top-[1px] ml-1 h-3 w-3 transition duration-200 group-data-[state=open]:rotate-180"));
        ("aria-hidden", pv (PStr "true"))]
       []]).

Definition NavigationMenuContent : component V := λ ps ch,
  El "NavigationMenuPrimitive.Content"
    (spread [("className", class_names [Some "left-0 top-0 w-full data-[motion^=from-]:animate-in data-[motion^=to-]:animate-out data-[motion^=from-]:fade-in data-[motion^=to-]:fade-out data-[motion=from-end]:slide-in-from-right-52 data-[motion=from-start]:slide-in-from-left-52 data-[motion=to-end]:slide-out-to-right-52 data-[motion=to-start]:slide-out-to-left-52 md:absolute md:w-auto ";
        class_at ps "className"])]
      (omit ["className"] ps))
    ch.

Definition NavigationMenuLink : component V := El "NavigationMenuPrimitive.Link".

Definition NavigationMenuViewport : component V := λ ps ch,
  El "div" [("className", class_names [Some "absolute left-0 top-full flex justify-center"])]
    [El "NavigationMenuPrimitive.Viewport"
       (spread [("className", class_names [Some "origin-top-center relative mt-1.5 h-[var(--radix-navigation-menu-viewport-height)] w-full overflow-hidden rounded-md border bg-popover text-popover-foreground shadow-lg data-[state=open]:animate-in data-[state=closed]:animate-out data-[state=closed]:zoom-out-95 data-[state=open]:zoom-in-90 md:w-[var(--radix-navigation-menu-viewport-width)]";
           class_at ps "className"])]
         (omit ["className"] ps))
       ch].

Definition NavigationMenu : component V := λ ps ch,
  El "NavigationMenuPrimitive.Root"
    (spread [("className", class_names [Some "relative z-10 flex max-w-max flex-1 items-center justify-center";
        class_at ps "className"])]
      (omit ["className"] ps))
    (ch ++ [NavigationMenuViewport [] []]).

Definition NavigationMenuIndicator : component V := λ ps ch,
  El "NavigationMenuPrimitive.Indicator"
    (spread [("className", class_names [Some "top-full z-[1] flex h-1.5 items-end justify-center overflow-hidden data-[state=visible]:animate-in data-[state=hidden]:animate-out data-[state=hidden]:fade-out data-[state=visible]:fade-in";
        class_at ps "className"])]
      (omit ["className"] ps))
    [El "div"
       [("className", pv (PStr "relative top-[60%] h-2 w-2 rotate-45 rounded-tl-sm bg-border shadow-md"))]
       []].


(** ** [command.tsx] *)

Definition Command : component V := λ ps ch,
  El "CommandPrimitive"
    (spread [("className", class_names [Some "flex h-full w-full flex-col overflow-hidden rounded-md bg-popover text-popover-foreground";
        class_at ps "className"])]
      (omit ["className"] ps))
    ch.

Definition CommandDialog : component V := λ ps ch,
  Dialog ps
    [DialogContent [("className", pv (PStr "overflow-hidden p-0 shadow-lg"))]
       [Command
          [("className", pv (PStr "[&_[cmdk-group-heading]]:px-2 [&_[cmdk-group-heading]]:font-medium [&_[cmdk-group-heading]]:text-muted-foreground [&_[cmdk-group]:not([hidden])_~[cmdk-group]]:pt-0 [&_[cmdk-group]]:px-2 [&_[cmdk-input-wrapper]_svg]:h-5 [&_[cmdk-input-wrapper]_svg]:w-5 [&_[cmdk-input]]:h-12 [&_[cmdk-item]]:px-2 [&_[cmdk-item]]:py-3 [&_[cmdk-item]_svg]:h-5 [&_[cmdk-item]_svg]:w-5"))]
          ch]].

Definition CommandInput : component V := λ ps ch,
  El "div"
    [("className", pv (PStr "flex items-center border-b px-3"));
     ("cmdk-input-wrapper", pv (PStr ""))]
    ([El "Search" [("className", pv (PStr "mr-2 h-4 w-4 shrink-0 opacity-50"))] []]
    ++ [El "CommandPrimitive.Input"
       (spread [("className", class_names [Some "flex h-11 w-full rounded-md bg-transparent py-3 text-sm outline-none placeholder:text-muted-foreground disabled:cursor-not-allowed disabled:opacity-50";
           class_at ps "className"])]
         (omit ["className"] ps))
       ch]).

Definition CommandList : component V := λ ps ch,
  El "CommandPrimitive.List"
    (spread [("className", class_names [Some "max-h-[300px] overflow-y-auto overflow-x-hidden";
        class_at ps "className"])]
      (omit ["className"] ps))
    ch.

(** The caller's class name replaces the component's. *)
Definition CommandEmpty : component V := λ ps ch,
  El "CommandPrimitive.Empty"
    (spread [("className", pv (PStr "py-6 text-center text-sm"))] ps)
    ch.

Definition CommandGroup : component V := λ ps ch,
  El "CommandPrimitive.Group"
    (spread [("className", class_names [Some "overflow-hidden p-1 text-foreground [&_[cmdk-group-heading]]:px-2 [&_[cmdk-group-heading]]:py-1.5 [&_[cmdk-group-heading]]:text-xs [&_[cmdk-group-heading]]:font-medium [&_[cmdk-group-heading]]:text-muted-foreground";
        class_at ps "className"])]
      (omit ["className"] ps))
    ch.

Definition CommandSeparator : component V := λ ps ch,
  El "CommandPrimitive.Separator"
    (spread [("className", class_names [Some "-mx-1 h-px bg-border";
        class_at ps "className"])]
      (omit ["className"] ps))
    ch.

Definition CommandItem : component V := λ ps ch,
  El "CommandPrimitive.Item"
    (spread [("className", class_names [Some "relative flex cursor-default gap-2 select-none items-center rounded-sm px-2 py-1.5 text-sm outline-none data-[disabled=true]:pointer-events-none data-[selected='true']:bg-accent data-[selected=true]:text-accent-foreground data-[disabled=true]:opacity-50 [&_svg]:pointer-events-none [&_svg]:size-4 [&_svg]:shrink-0";
        class_at ps "className"])]
      (omit ["className"] ps))
    ch.

Definition CommandShortcut : component V := λ ps ch,
  El "span"
    (spread [("className", class_names [Some "ml-auto text-xs tracking-widest text-muted-foreground";
        class_at ps "className"])]
      (omit ["className"] ps))
    ch.
End Components.
