(* ===== verification/SidebarMenu.v ===== *)
(** * The menu elements of the sidebar

    Models [components/ui/sidebar.tsx] from [SidebarInput] on: the containers, the menu
    with its buttons, actions and badges, and the loading skeleton with its random
    width. *)

From S2P Require Import Prelude JsSort JsNumber JsText JsValue Markup UiKit JsFloor UiElements Sidebar.

Section Components.
Context {V : Type} `{PropValue V} `{Styling}.

(** ** [sidebar.tsx] *)

Definition SidebarInput : component V := λ ps ch,
  Input
    (spread [("data-sidebar", pv (PStr "input"));
     ("className", class_names [Some "h-8 w-full bg-background shadow-none focus-visible:ring-2 focus-visible:ring-sidebar-ring";
        class_at ps "className"])]
      (omit ["className"] ps))
    ch.

Definition SidebarHeader : component V := λ ps ch,
  El "div"
    (spread [("data-sidebar", pv (PStr "header"));
     ("className", class_names [Some "flex flex-col gap-2 p-2";
        class_at ps "className"])]
      (omit ["className"] ps))
    ch.

Definition SidebarFooter : component V := λ ps ch,
  El "div"
    (spread [("data-sidebar", pv (PStr "footer"));
     ("className", class_names [Some "flex flex-col gap-2 p-2";
        class_at ps "className"])]
      (omit ["className"] ps))
    ch.

Definition SidebarSeparator : component V := λ ps ch,
  Separator
    (spread [("data-sidebar", pv (PStr "separator"));
     ("className", class_names [Some "mx-2 w-auto bg-sidebar-border";
        class_at ps "className"])]
      (omit ["className"] ps))
    ch.

Definition SidebarContent : component V := λ ps ch,
  El "div"
    (spread [("data-sidebar", pv (PStr "content"));
     ("className", class_names [Some "flex min-h-0 flex-1 flex-col gap-2 overflow-auto group-data-[collapsible=icon]:overflow-hidden";
        class_at ps "className"])]
      (omit ["className"] ps))
    ch.

Definition SidebarGroup : component V := λ ps ch,
  El "div"
    (spread [("data-sidebar", pv (PStr "group"));
     ("className", class_names [Some "relative flex w-full min-w-0 flex-col p-2";
        class_at ps "className"])]
      (omit ["className"] ps))
    ch.

Definition SidebarGroupLabel : component V := λ ps ch,
  let asChild := with_default ps "asChild" (pv (PBool false)) in
  El (if truthy (prim_of asChild) then "Slot" else "div")
    (spread [("data-sidebar", pv (PStr "group-label"));
     ("className", class_names [Some "duration-200 flex h-8 shrink-0 items-center rounded-md px-2 text-xs font-medium text-sidebar-foreground/70 outline-none ring-sidebar-ring transition-[margin,opa] ease-linear focus-visible:ring-2 [&>svg]:size-4 [&>svg]:shrink-0";
        Some "group-data-[collapsible=icon]:-mt-8 group-data-[collapsible=icon]:opacity-0";
        class_at ps "className"])]
      (omit ["className"; "asChild"] ps))
    ch.

Definition SidebarGroupAction : component V := λ ps ch,
  let asChild := with_default ps "asChild" (pv (PBool false)) in
  El (if truthy (prim_of asChild) then "Slot" else "button")
    (spread [("data-sidebar", pv (PStr "group-action"));
     ("className", class_names [Some "absolute right-3 top-3.5 flex aspect-square w-5 items-center justify-center rounded-md p-0 text-sidebar-foreground outline-none ring-sidebar-ring transition-transform hover:bg-sidebar-accent hover:text-sidebar-accent-foreground focus-visible:ring-2 [&>svg]:size-4 [&>svg]:shrink-0";
        Some "after:absolute after:-inset-2 after:md:hidden";
        Some "group-data-[collapsible=icon]:hidden";
        class_at ps "className"])]
      (omit ["className"; "asChild"] ps))
    ch.

Definition SidebarGroupContent : component V := λ ps ch,
  El "div"
    (spread [("data-sidebar", pv (PStr "group-content"));
     ("className", class_names [Some "w-full text-sm";
        class_at ps "className"])]
      (omit ["className"] ps))
    ch.

Definition SidebarMenu : component V := λ ps ch,
  El "ul"
    (spread [("data-sidebar", pv (PStr "menu"));
     ("className", class_names [Some "flex w-full min-w-0 flex-col gap-1";
        class_at ps "className"])]
      (omit ["className"] ps))
    ch.

Definition SidebarMenuItem : component V := λ ps ch,
  El "li"
    (spread [("data-sidebar", pv (PStr "menu-item"));
     ("className", class_names [Some "group/menu-item relative";
        class_at ps "className"])]
      (omit ["className"] ps))
    ch.

Definition sidebarMenuButtonVariants : cva_spec :=
  {| cva_base := "peer/menu-button flex w-full items-center gap-2 overflow-hidden rounded-md p-2 text-left text-sm outline-none ring-sidebar-ring transition-[width,height,padding] hover:bg-sidebar-accent hover:text-sidebar-accent-foreground focus-visible:ring-2 active:bg-sidebar-accent active:text-sidebar-accent-foreground disabled:pointer-events-none disabled:opacity-50 group-has-[[data-sidebar=menu-action]]/menu-item:pr-8 aria-disabled:pointer-events-none aria-disabled:opacity-50 data-[active=true]:bg-sidebar-accent data-[active=true]:font-medium data-[active=true]:text-sidebar-accent-foreground data-[state=open]:hover:bg-sidebar-accent data-[state=open]:hover:text-sidebar-accent-foreground group-data-[collapsible=icon]:!size-8 group-data-[collapsible=icon]:!p-2 [&>span:last-child]:truncate [&>svg]:size-4 [&>svg]:shrink-0";
     cva_variants :=
      [("variant",
        [("default", "hover:bg-sidebar-accent hover:text-sidebar-accent-foreground");
         ("outline", "bg-background shadow-[0_0_0_1px_hsl(var(--sidebar-border))] hover:bg-sidebar-accent hover:text-sidebar-accent-foreground hover:shadow-[0_0_0_1px_hsl(var(--sidebar-accent))]")]);
       ("size",
        [("default", "h-8 text-sm");
         ("sm", "h-7 text-xs");
         ("lg", "h-12 text-sm group-data-[collapsible=icon]:!p-0")])];
     cva_defaults := [("variant", "default"); ("size", "default")] |}.

(** The [tooltip] property: absent, a text, or the properties and children of the
    tooltip's content. *)
Inductive menu_tooltip :=
  | TipNone
  | TipText (s : string)
  | TipProps (ps : list (string * V)) (ch : list (tree V)).

(** The tooltip is hidden unless the sidebar is collapsed on a desktop, or the
    tooltip's own properties say otherwise. *)
Definition SidebarMenuButton (context : option SidebarContext) (tooltip : menu_tooltip)
    (ps : list (string * V)) (ch : list (tree V)) : res (tree V) :=
  let asChild := with_default ps "asChild" (pv (PBool false)) in
  let isActive := with_default ps "isActive" (pv (PBool false)) in
  let variant := with_default ps "variant" (pv (PStr "default")) in
  let size := with_default ps "size" (pv (PStr "default")) in
  try! c := useSidebar context in
  let button :=
    El (if truthy (prim_of asChild) then "Slot" else "button")
      (spread [("data-sidebar", pv (PStr "menu-button")); ("data-size", size); ("data-active", isActive);
         ("className", class_names [Some (cva sidebarMenuButtonVariants
             [("variant", prim_of variant); ("size", prim_of size)]);
           class_at ps "className"])]
        (omit ["asChild"; "isActive"; "variant"; "size"; "tooltip"; "className"] ps))
      ch in
  let content tip_ps tip_ch :=
    TooltipContent
      (spread [("side", pv (PStr "right")); ("align", pv (PStr "center"));
         ("hidden", pv (PBool (negb (bool_decide (ctx_state c = "collapsed")) || ctx_isMobile c)))]
        tip_ps)
      tip_ch in
  let with_tooltip content :=
    Tooltip [] [TooltipTrigger [("asChild", pv (PBool true))] [button]; content] in
  inr (match tooltip with
       | TipNone => button
       | TipText s => if truthy (PStr s) then with_tooltip (content [] [Txt s]) else button
       | TipProps tip_ps tip_ch => with_tooltip (content tip_ps tip_ch)
       end).

Definition SidebarMenuAction : component V := λ ps ch,
  let asChild := with_default ps "asChild" (pv (PBool false)) in
  let showOnHover := with_default ps "showOnHover" (pv (PBool false)) in
  El (if truthy (prim_of asChild) then "Slot" else "button")
    (spread [("data-sidebar", pv (PStr "menu-action"));
     ("className", class_names [Some "absolute right-1 top-1.5 flex aspect-square w-5 items-center justify-center rounded-md p-0 text-sidebar-foreground outline-none ring-sidebar-ring transition-transform hover:bg-sidebar-accent hover:text-sidebar-accent-foreground focus-visible:ring-2 peer-hover/menu-button:text-sidebar-accent-foreground [&>svg]:size-4 [&>svg]:shrink-0";
        Some "after:absolute after:-inset-2 after:md:hidden";
        Some "peer-data-[size=sm]/menu-button:top-1";
        Some "peer-data-[size=default]/menu-button:top-1.5";
        Some "peer-data-[size=lg]/menu-button:top-2.5";
        Some "group-data-[collapsible=icon]:hidden";
        name_if (truthy (prim_of showOnHover)) "group-focus-within/menu-item:opacity-100 group-hover/menu-item:opacity-100 data-[state=open]:opacity-100 peer-data-[active=true]/menu-button:text-sidebar-accent-foreground md:opacity-0";
        class_at ps "className"])]
      (omit ["className"; "asChild"; "showOnHover"] ps))
    ch.

Definition SidebarMenuBadge : component V := λ ps ch,
  El "div"
    (spread [("data-sidebar", pv (PStr "menu-badge"));
     ("className", class_names [Some "absolute right-1 flex h-5 min-w-5 items-center justify-center rounded-md px-1 text-xs font-medium tabular-nums text-sidebar-foreground select-none pointer-events-none";
        Some "peer-hover/menu-button:text-sidebar-accent-foreground peer-data-[active=true]/menu-button:text-sidebar-accent-foreground";
        Some "peer-data-[size=sm]/menu-button:top-1";
        Some "peer-data-[size=default]/menu-button:top-1.5";
        Some "peer-data-[size=lg]/menu-button:top-2.5";
        Some "group-data-[collapsible=icon]:hidden";
        class_at ps "className"])]
      (omit ["className"] ps))
    ch.

(** [`${Math.floor(Math.random() * 40) + 50}%`]. *)
Definition skeleton_width (random : num) : string :=
  num_to_string (nadd (nfloor (nmul random (of_Z 40))) (of_Z 50)) +:+ "%".

(** The width is drawn when the component mounts; [random] is what was drawn. *)
Definition SidebarMenuSkeleton (random : num) : component V := λ ps ch,
  let showIcon := with_default ps "showIcon" (pv (PBool false)) in
  El "div"
    (spread [("data-sidebar", pv (PStr "menu-skeleton"));
       ("className", class_names [Some "rounded-md h-8 flex gap-2 px-2 items-center";
         class_at ps "className"])]
      (omit ["className"; "showIcon"] ps))
    ((if truthy (prim_of showIcon)
      then [Skeleton [("className", pv (PStr "size-4 rounded-md"));
                      ("data-sidebar", pv (PStr "menu-skeleton-icon"))] []]
      else [])
     ++ [Skeleton [("className", pv (PStr "h-4 flex-1 max-w-[--skeleton-width]"));
                   ("data-sidebar", pv (PStr "menu-skeleton-text"));
                   ("style", pv_style [("--skeleton-width", PStr (skeleton_width random))])] []]).

Definition SidebarMenuSub : component V := λ ps ch,
  El "ul"
    (spread [("data-sidebar", pv (PStr "menu-sub"));
     ("className", class_names [Some "mx-3.5 flex min-w-0 translate-x-px flex-col gap-1 border-l border-sidebar-border px-2.5 py-0.5";
        Some "group-data-[collapsible=icon]:hidden";
        class_at ps "className"])]
      (omit ["className"] ps))
    ch.

Definition SidebarMenuSubItem : component V := λ ps ch,
  El "li" ps ch.

Definition SidebarMenuSubButton : component V := λ ps ch,
  let asChild := with_default ps "asChild" (pv (PBool false)) in
  let size := with_default ps "size" (pv (PStr "md")) in
  El (if truthy (prim_of asChild) then "Slot" else "a")
    (spread [("data-sidebar", pv (PStr "menu-sub-button"));
     ("data-size", size);
     ("data-active", raw ps "isActive");
     ("className", class_names [Some "flex h-7 min-w-0 -translate-x-px items-center gap-2 overflow-hidden rounded-md px-2 text-sidebar-foreground outline-none ring-sidebar-ring hover:bg-sidebar-accent hover:text-sidebar-accent-foreground focus-visible:ring-2 active:bg-sidebar-accent active:text-sidebar-accent-foreground disabled:pointer-events-none disabled:opacity-50 aria-disabled:pointer-events-none aria-disabled:opacity-50 [&>span:last-child]:truncate [&>svg]:size-4 [&>svg]:shrink-0 [&>svg]:text-sidebar-accent-foreground";
        Some "data-[active=true]:bg-sidebar-accent data-[active=true]:text-sidebar-accent-foreground";
        name_if (strict_eq (prim_of size) (PStr "sm")) "text-xs";
        name_if (strict_eq (prim_of size) (PStr "md")) "text-sm";
        Some "group-data-[collapsible=icon]:hidden";
        class_at ps "className"])]
      (omit ["asChild"; "size"; "isActive"; "className"] ps))
    ch.
End Components.

(** ** Theorems *)

Lemma add_50 z : (0 ≤ z < 40)%Z → nadd (of_Z z) (of_Z 50) = of_Z (z + 50).
Proof.
  intros Hz. assert (z ∈ seqZ 0 40) as Hin by (apply elem_of_seqZ; lia). clear Hz.
  revert z Hin. apply Forall_forall. repeat constructor.
Qed.

(** C36: the loading skeleton is between 50 and 89 percent wide, whatever number was
    drawn: although the product of the drawn number and 40 is rounded to a double,
    it never reaches 40, and the width is written as a plain integer. *)
Theorem skeleton_width_bounds r :
  random_num r →
  ∃ z, (50 ≤ z ≤ 89)%Z ∧ skeleton_width r = dec_N (Z.to_N z) +:+ "%".
Proof.
  intros (z & Hz & E)%floor_random_40. exists (z + 50)%Z. split; [lia|].
  unfold skeleton_width. rewrite E, add_50 by done. by rewrite show_of_Z by lia.
Qed.

(** The content of a menu button's tooltip. *)
Definition tooltip_content {V} (t : tree V) : option (tree V) :=
  match t with El _ _ [_; c] => Some c | _ => None end.

(** C35: the tooltip of a menu button stands in for its label exactly while the label
    cannot be seen: in every state of the provider it is hidden if the sidebar is
    open or shown as a mobile sheet, and a toggle on a desktop flips it. *)
Theorem menu_tooltip_follows_sidebar {V} `{PropValue V} `{Styling} parent s
    (tip : string) (ps : list (string * V)) (ch : list (tree V)) :
  tip ≠ "" →
  (controlled s = false ∧ openProp s = None) ∨ (controlled s = true ∧ ∀ b v, parent b v = Some v) →
  let hidden s := ∃ t c, SidebarMenuButton (Some (contextValue s)) (TipText tip) ps ch = inr t ∧
                         tooltip_content t = Some c ∧ texts c = [tip] ∧
                         elem_prop c "hidden" = Some (pv (PBool (open s || useIsMobile (sb_isMobile s)))) in
  hidden s ∧ hidden (toggleSidebar parent s s) ∧
  (useIsMobile (sb_isMobile s) = false → open (toggleSidebar parent s s) = negb (open s)).
Proof.
  intros Ht Hc hidden. assert (∀ s, hidden s) as Hh.
  { intros s'. unfold hidden, SidebarMenuButton. cbn [useSidebar res_bind contextValue ctx_state ctx_isMobile].
    rewrite truthy_text by done. do 2 eexists. split_and!; [reflexivity..|].
    cbn [TooltipContent elem_prop]. rewrite prop_get_spread, prop_get_omit.
    rewrite decide_False by set_solver. rewrite prop_get_spread. cbn. by destruct (open s'). }
  split_and!; [done..|]. intros Hm. unfold toggleSidebar. rewrite Hm. unfold setOpen, open.
  cbn [openProp sb_open]. destruct Hc as [[-> E]|[-> Hp]]; [by rewrite !E|by rewrite Hp].
Qed.

(** ** Witnesses *)

Lemma skeleton_width_bounds_witness :
  ∃ z, (50 ≤ z ≤ 89)%Z ∧ skeleton_width (lit 99999999999999989 (-17)) = dec_N (Z.to_N z) +:+ "%".
Proof. apply (skeleton_width_bounds (lit 99999999999999989 (-17))). by vm_compute. Defined.

#[local] Existing Instance plain_styling.

Lemma menu_tooltip_follows_sidebar_witness :
  let s' := toggleSidebar follow desktop_sidebar desktop_sidebar in
  open s' = false ∧
  ∃ t c, SidebarMenuButton (V := pval Empty_set) (Some (contextValue s')) (TipText "Home") [] [] = inr t ∧
         tooltip_content t = Some c ∧ texts c = ["Home"] ∧
         elem_prop c "hidden" = Some (VPrim (PBool false)).
Proof.
  destruct (menu_tooltip_follows_sidebar (V := pval Empty_set) follow desktop_sidebar "Home" [] [])
    as (_ & H & Ho); [done|by left|].
  split; [by apply Ho|exact H].
Defined.
