(* ===== verification/UiSpec.v ===== *)
(** * What every component of the library promises

    The components of [components/ui] follow one convention: properties they do not
    use are passed on to the element they stand for, the caller's class name is
    merged behind the component's own so that it wins, and the caller's children
    are shown.  [library] lists all of them with what they use themselves; the
    theorem [ui_contract] states the convention with its exceptions, which are listed
    one by one ([kept_properties], [own_children]) and shown to be real. *)

From S2P Require Import Prelude JsSort JsNumber JsText JsValue Markup UiKit UiElements UiOverlays UiMenus JsFloor Sidebar SidebarMenu.

(** What happens to the caller's class name: merged last by [cn], given to the
    variant table, or passed on like any other property. *)
Inductive class_use :=
  | ClassMerged
  | ClassVariant (spec : cva_spec)
  | ClassPassed.

(** The properties that a component uses itself and passes to no element: variants,
    flags for its class names, [asChild], and the [value] of [Progress]. *)
Definition kept_properties : list (string * string) :=
  [("Button", "variant"); ("Button", "size"); ("Button", "asChild");
   ("Badge", "variant"); ("Toast", "variant"); ("Alert", "variant");
   ("Progress", "value"); ("Toggle", "variant"); ("Toggle", "size");
   ("BreadcrumbLink", "asChild"); ("PaginationLink", "isActive"); ("PaginationLink", "size");
   ("PaginationPrevious", "isActive"); ("PaginationPrevious", "size"); ("PaginationNext", "isActive");
   ("PaginationNext", "size"); ("ResizableHandle", "withHandle"); ("SheetContent", "side");
   ("MenubarSubTrigger", "inset"); ("MenubarItem", "inset"); ("MenubarLabel", "inset");
   ("DropdownMenuSubTrigger", "inset"); ("DropdownMenuItem", "inset"); ("DropdownMenuLabel", "inset");
   ("ContextMenuSubTrigger", "inset"); ("ContextMenuItem", "inset"); ("ContextMenuLabel", "inset");
   ("SidebarGroupLabel", "asChild"); ("SidebarGroupAction", "asChild"); ("SidebarMenuAction", "asChild");
   ("SidebarMenuAction", "showOnHover"); ("SidebarMenuSubButton", "asChild"); ("SidebarMenuSubButton", "size");
   ("SidebarMenuSubButton", "isActive")].

(** The components that have children of their own and show none of the caller's. *)
Definition own_children : list string :=
  ["SelectScrollUpButton"; "SelectScrollDownButton"; "ToastClose"; "Checkbox"; "Switch";
   "Slider"; "RadioGroupItem"; "ScrollBar"; "Progress"; "BreadcrumbEllipsis";
   "PaginationPrevious"; "PaginationNext"; "PaginationEllipsis"; "ResizableHandle"; "InputOTPSeparator";
   "NavigationMenuIndicator"].

Section Contract.
Context {V : Type} `{PropValue V} `{Styling}.

Record entry := Entry {
  e_name : string;
  e_comp : component V;
  e_consumed : list string;
  e_class : class_use;
  e_children : bool;
}.

(** [c] is the last of the merged class names, perhaps of names merged before. *)
Inductive ends_with (c : option string) : list (option string) → Prop :=
  | ends_here l : ends_with c (l ++ [c])
  | ends_nested l l' : ends_with c l' → ends_with c (l ++ [Some (cn l')]).

(** [arrives t k v]: some element of the tree has the value under the name. *)
Definition arrives (t : tree V) (k : string) (v : V) : Prop :=
  ∃ x, x ∈ elements t ∧ elem_prop x k = Some v.

Record contract (e : entry) : Prop := Contract {
  c_forward : ∀ ps ch k v, prop_get ps k = Some v → k ∉ e_consumed e →
    ∃ x, x ∈ elements (e_comp e ps ch) ∧ elem_prop x k = Some v;
  c_given : ∀ ps ch k v, prop_get ps k = Some v → as_prim v ≠ Some Undefined →
    k ∈ e_consumed e → k ≠ "className" → (e_name e, k) ∉ kept_properties →
    (e_name e, k) ≠ ("InputOTP", "containerClassName") → arrives (e_comp e ps ch) k v;
  c_class : ∀ ps ch,
    match e_class e with
    | ClassMerged => ∃ x, x ∈ elements (e_comp e ps ch) ∧
        ∃ l, elem_prop x "className" = Some (class_names l) ∧ ends_with (class_at ps "className") l
    | ClassVariant spec => ∃ x, x ∈ elements (e_comp e ps ch) ∧
        ∃ given, elem_prop x "className" = Some (class_names [Some (cva spec given)]) ∧
                 prop_get given "className" = Some (get ps "className")
    | ClassPassed => "className" ∉ e_consumed e
    end;
  c_children : ∀ ps ch,
    if e_children e then ∀ t, t ∈ ch → ∃ x, x ∈ elements (e_comp e ps ch) ∧ x = t
    else e_comp e ps ch = e_comp e ps [];
}.

(** ** The library *)

Definition button_entries : list entry :=
  [Entry "Button" Button ["className"; "variant"; "size"; "asChild"] (ClassVariant buttonVariants) true].

Definition badge_entries : list entry :=
  [Entry "Badge" Badge ["className"; "variant"] ClassMerged true].

Definition card_entries : list entry :=
  [Entry "Card" Card ["className"] ClassMerged true;
   Entry "CardHeader" CardHeader ["className"] ClassMerged true;
   Entry "CardTitle" CardTitle ["className"] ClassMerged true;
   Entry "CardDescription" CardDescription ["className"] ClassMerged true;
   Entry "CardContent" CardContent ["className"] ClassMerged true;
   Entry "CardFooter" CardFooter ["className"] ClassMerged true].

Definition label_entries : list entry :=
  [Entry "Label" Label ["className"] ClassMerged true].

Definition separator_entries : list entry :=
  [Entry "Separator" Separator ["className"; "orientation"; "decorative"] ClassMerged true].

Definition skeleton_entries : list entry :=
  [Entry "Skeleton" Skeleton ["className"] ClassMerged true].

Definition input_entries : list entry :=
  [Entry "Input" Input ["className"; "type"] ClassMerged true].

Definition textarea_entries : list entry :=
  [Entry "Textarea" Textarea ["className"] ClassMerged true].

Definition tabs_entries : list entry :=
  [Entry "Tabs" Tabs [] ClassPassed true;
   Entry "TabsList" TabsList ["className"] ClassMerged true;
   Entry "TabsTrigger" TabsTrigger ["className"] ClassMerged true;
   Entry "TabsContent" TabsContent ["className"] ClassMerged true].

Definition select_entries : list entry :=
  [Entry "Select" Select [] ClassPassed true;
   Entry "SelectGroup" SelectGroup [] ClassPassed true;
   Entry "SelectValue" SelectValue [] ClassPassed true;
   Entry "SelectTrigger" SelectTrigger ["className"] ClassMerged true;
   Entry "SelectScrollUpButton" SelectScrollUpButton ["className"] ClassMerged false;
   Entry "SelectScrollDownButton" SelectScrollDownButton ["className"] ClassMerged false;
   Entry "SelectContent" SelectContent ["className"; "position"] ClassMerged true;
   Entry "SelectLabel" SelectLabel ["className"] ClassMerged true;
   Entry "SelectItem" SelectItem ["className"] ClassMerged true;
   Entry "SelectSeparator" SelectSeparator ["className"] ClassMerged true].

Definition tooltip_entries : list entry :=
  [Entry "TooltipProvider" TooltipProvider [] ClassPassed true;
   Entry "Tooltip" Tooltip [] ClassPassed true;
   Entry "TooltipTrigger" TooltipTrigger [] ClassPassed true;
   Entry "TooltipContent" TooltipContent ["className"; "sideOffset"] ClassMerged true].

Definition toast_entries : list entry :=
  [Entry "ToastProvider" ToastProvider [] ClassPassed true;
   Entry "ToastViewport" ToastViewport ["className"] ClassMerged true;
   Entry "Toast" Toast ["className"; "variant"] ClassMerged true;
   Entry "ToastAction" ToastAction ["className"] ClassMerged true;
   Entry "ToastClose" ToastClose ["className"] ClassMerged false;
   Entry "ToastTitle" ToastTitle ["className"] ClassMerged true;
   Entry "ToastDescription" ToastDescription ["className"] ClassMerged true].

Definition table_entries : list entry :=
  [Entry "Table" Table ["className"] ClassMerged true;
   Entry "TableHeader" TableHeader ["className"] ClassMerged true;
   Entry "TableBody" TableBody ["className"] ClassMerged true;
   Entry "TableFooter" TableFooter ["className"] ClassMerged true;
   Entry "TableRow" TableRow ["className"] ClassMerged true;
   Entry "TableHead" TableHead ["className"] ClassMerged true;
   Entry "TableCell" TableCell ["className"] ClassMerged true;
   Entry "TableCaption" TableCaption ["className"] ClassMerged true].

Definition alert_entries : list entry :=
  [Entry "Alert" Alert ["className"; "variant"] ClassMerged true;
   Entry "AlertTitle" AlertTitle ["className"] ClassMerged true;
   Entry "AlertDescription" AlertDescription ["className"] ClassMerged true].

Definition avatar_entries : list entry :=
  [Entry "Avatar" Avatar ["className"] ClassMerged true;
   Entry "AvatarImage" AvatarImage ["className"] ClassMerged true;
   Entry "AvatarFallback" AvatarFallback ["className"] ClassMerged true].

Definition accordion_entries : list entry :=
  [Entry "Accordion" Accordion [] ClassPassed true;
   Entry "AccordionItem" AccordionItem ["className"] ClassMerged true;
   Entry "AccordionTrigger" AccordionTrigger ["className"] ClassMerged true;
   Entry "AccordionContent" AccordionContent ["className"] ClassMerged true].

Definition checkbox_entries : list entry :=
  [Entry "Checkbox" Checkbox ["className"] ClassMerged false].

Definition switch_entries : list entry :=
  [Entry "Switch" Switch ["className"] ClassMerged false].

Definition slider_entries : list entry :=
  [Entry "Slider" Slider ["className"] ClassMerged false].

Definition radio_group_entries : list entry :=
  [Entry "RadioGroup" RadioGroup ["className"] ClassMerged true;
   Entry "RadioGroupItem" RadioGroupItem ["className"] ClassMerged false].

Definition scroll_area_entries : list entry :=
  [Entry "ScrollBar" ScrollBar ["className"; "orientation"] ClassMerged false;
   Entry "ScrollArea" ScrollArea ["className"] ClassMerged true].

Definition progress_entries : list entry :=
  [Entry "Progress" Progress ["className"; "value"] ClassMerged false].

Definition toggle_entries : list entry :=
  [Entry "Toggle" Toggle ["className"; "variant"; "size"] (ClassVariant toggleVariants) true].

Definition breadcrumb_entries : list entry :=
  [Entry "Breadcrumb" Breadcrumb [] ClassPassed true;
   Entry "BreadcrumbList" BreadcrumbList ["className"] ClassMerged true;
   Entry "BreadcrumbItem" BreadcrumbItem ["className"] ClassMerged true;
   Entry "BreadcrumbLink" BreadcrumbLink ["asChild"; "className"] ClassMerged true;
   Entry "BreadcrumbPage" BreadcrumbPage ["className"] ClassMerged true;
   Entry "BreadcrumbSeparator" BreadcrumbSeparator ["className"] ClassMerged true;
   Entry "BreadcrumbEllipsis" BreadcrumbEllipsis ["className"] ClassMerged false].

Definition pagination_entries : list entry :=
  [Entry "Pagination" Pagination ["className"] ClassMerged true;
   Entry "PaginationContent" PaginationContent ["className"] ClassMerged true;
   Entry "PaginationItem" PaginationItem ["className"] ClassMerged true;
   Entry "PaginationLink" PaginationLink ["className"; "isActive"; "size"] ClassMerged true;
   Entry "PaginationPrevious" PaginationPrevious ["className"; "isActive"; "size"] ClassMerged false;
   Entry "PaginationNext" PaginationNext ["className"; "isActive"; "size"] ClassMerged false;
   Entry "PaginationEllipsis" PaginationEllipsis ["className"] ClassMerged false].

Definition resizable_entries : list entry :=
  [Entry "ResizablePanelGroup" ResizablePanelGroup ["className"] ClassMerged true;
   Entry "ResizablePanel" ResizablePanel [] ClassPassed true;
   Entry "ResizableHandle" ResizableHandle ["withHandle"; "className"] ClassMerged false].

Definition input_otp_entries : list entry :=
  [Entry "InputOTP" InputOTP ["className"; "containerClassName"] ClassMerged true;
   Entry "InputOTPGroup" InputOTPGroup ["className"] ClassMerged true;
   Entry "InputOTPSeparator" InputOTPSeparator [] ClassPassed false].

Definition aspect_ratio_entries : list entry :=
  [Entry "AspectRatio" AspectRatio [] ClassPassed true].

Definition collapsible_entries : list entry :=
  [Entry "Collapsible" Collapsible [] ClassPassed true;
   Entry "CollapsibleTrigger" CollapsibleTrigger [] ClassPassed true;
   Entry "CollapsibleContent" CollapsibleContent [] ClassPassed true].

Definition sheet_entries : list entry :=
  [Entry "Sheet" Sheet [] ClassPassed true;
   Entry "SheetTrigger" SheetTrigger [] ClassPassed true;
   Entry "SheetClose" SheetClose [] ClassPassed true;
   Entry "SheetPortal" SheetPortal [] ClassPassed true;
   Entry "SheetOverlay" SheetOverlay ["className"] ClassMerged true;
   Entry "SheetContent" SheetContent ["side"; "className"] ClassMerged true;
   Entry "SheetHeader" SheetHeader ["className"] ClassMerged true;
   Entry "SheetFooter" SheetFooter ["className"] ClassMerged true;
   Entry "SheetTitle" SheetTitle ["className"] ClassMerged true;
   Entry "SheetDescription" SheetDescription ["className"] ClassMerged true].

Definition dialog_entries : list entry :=
  [Entry "Dialog" Dialog [] ClassPassed true;
   Entry "DialogTrigger" DialogTrigger [] ClassPassed true;
   Entry "DialogPortal" DialogPortal [] ClassPassed true;
   Entry "DialogClose" DialogClose [] ClassPassed true;
   Entry "DialogOverlay" DialogOverlay ["className"] ClassMerged true;
   Entry "DialogContent" DialogContent ["className"] ClassMerged true;
   Entry "DialogHeader" DialogHeader ["className"] ClassMerged true;
   Entry "DialogFooter" DialogFooter ["className"] ClassMerged true;
   Entry "DialogTitle" DialogTitle ["className"] ClassMerged true;
   Entry "DialogDescription" DialogDescription ["className"] ClassMerged true].

Definition alert_dialog_entries : list entry :=
  [Entry "AlertDialog" AlertDialog [] ClassPassed true;
   Entry "AlertDialogTrigger" AlertDialogTrigger [] ClassPassed true;
   Entry "AlertDialogPortal" AlertDialogPortal [] ClassPassed true;
   Entry "AlertDialogOverlay" AlertDialogOverlay ["className"] ClassMerged true;
   Entry "AlertDialogContent" AlertDialogContent ["className"] ClassMerged true;
   Entry "AlertDialogHeader" AlertDialogHeader ["className"] ClassMerged true;
   Entry "AlertDialogFooter" AlertDialogFooter ["className"] ClassMerged true;
   Entry "AlertDialogTitle" AlertDialogTitle ["className"] ClassMerged true;
   Entry "AlertDialogDescription" AlertDialogDescription ["className"] ClassMerged true;
   Entry "AlertDialogAction" AlertDialogAction ["className"] ClassMerged true;
   Entry "AlertDialogCancel" AlertDialogCancel ["className"] ClassMerged true].

Definition drawer_entries : list entry :=
  [Entry "Drawer" Drawer ["shouldScaleBackground"] ClassPassed true;
   Entry "DrawerTrigger" DrawerTrigger [] ClassPassed true;
   Entry "DrawerPortal" DrawerPortal [] ClassPassed true;
   Entry "DrawerClose" DrawerClose [] ClassPassed true;
   Entry "DrawerOverlay" DrawerOverlay ["className"] ClassMerged true;
   Entry "DrawerContent" DrawerContent ["className"] ClassMerged true;
   Entry "DrawerHeader" DrawerHeader ["className"] ClassMerged true;
   Entry "DrawerFooter" DrawerFooter ["className"] ClassMerged true;
   Entry "DrawerTitle" DrawerTitle ["className"] ClassMerged true;
   Entry "DrawerDescription" DrawerDescription ["className"] ClassMerged true].

Definition popover_entries : list entry :=
  [Entry "Popover" Popover [] ClassPassed true;
   Entry "PopoverTrigger" PopoverTrigger [] ClassPassed true;
   Entry "PopoverContent" PopoverContent ["className"; "align"; "sideOffset"] ClassMerged true].

Definition hover_card_entries : list entry :=
  [Entry "HoverCard" HoverCard [] ClassPassed true;
   Entry "HoverCardTrigger" HoverCardTrigger [] ClassPassed true;
   Entry "HoverCardContent" HoverCardContent ["className"; "align"; "sideOffset"] ClassMerged true].

Definition menubar_entries : list entry :=
  [Entry "MenubarMenu" MenubarMenu [] ClassPassed true;
   Entry "MenubarGroup" MenubarGroup [] ClassPassed true;
   Entry "MenubarPortal" MenubarPortal [] ClassPassed true;
   Entry "MenubarSub" MenubarSub [] ClassPassed true;
   Entry "MenubarRadioGroup" MenubarRadioGroup [] ClassPassed true;
   Entry "Menubar" Menubar ["className"] ClassMerged true;
   Entry "MenubarTrigger" MenubarTrigger ["className"] ClassMerged true;
   Entry "MenubarSubTrigger" MenubarSubTrigger ["className"; "inset"] ClassMerged true;
   Entry "MenubarSubContent" MenubarSubContent ["className"] ClassMerged true;
   Entry "MenubarContent" MenubarContent ["className"; "align"; "alignOffset"; "sideOffset"] ClassMerged true;
   Entry "MenubarItem" MenubarItem ["className"; "inset"] ClassMerged true;
   Entry "MenubarCheckboxItem" MenubarCheckboxItem ["className"; "checked"] ClassMerged true;
   Entry "MenubarRadioItem" MenubarRadioItem ["className"] ClassMerged true;
   Entry "MenubarLabel" MenubarLabel ["className"; "inset"] ClassMerged true;
   Entry "MenubarSeparator" MenubarSeparator ["className"] ClassMerged true;
   Entry "MenubarShortcut" MenubarShortcut ["className"] ClassMerged true].

Definition dropdown_menu_entries : list entry :=
  [Entry "DropdownMenu" DropdownMenu [] ClassPassed true;
   Entry "DropdownMenuTrigger" DropdownMenuTrigger [] ClassPassed true;
   Entry "DropdownMenuGroup" DropdownMenuGroup [] ClassPassed true;
   Entry "DropdownMenuPortal" DropdownMenuPortal [] ClassPassed true;
   Entry "DropdownMenuSub" DropdownMenuSub [] ClassPassed true;
   Entry "DropdownMenuRadioGroup" DropdownMenuRadioGroup [] ClassPassed true;
   Entry "DropdownMenuSubTrigger" DropdownMenuSubTrigger ["className"; "inset"] ClassMerged true;
   Entry "DropdownMenuSubContent" DropdownMenuSubContent ["className"] ClassMerged true;
   Entry "DropdownMenuContent" DropdownMenuContent ["className"; "sideOffset"] ClassMerged true;
   Entry "DropdownMenuItem" DropdownMenuItem ["className"; "inset"] ClassMerged true;
   Entry "DropdownMenuCheckboxItem" DropdownMenuCheckboxItem ["className"; "checked"] ClassMerged true;
   Entry "DropdownMenuRadioItem" DropdownMenuRadioItem ["className"] ClassMerged true;
   Entry "DropdownMenuLabel" DropdownMenuLabel ["className"; "inset"] ClassMerged true;
   Entry "DropdownMenuSeparator" DropdownMenuSeparator ["className"] ClassMerged true;
   Entry "DropdownMenuShortcut" DropdownMenuShortcut ["className"] ClassMerged true].

Definition context_menu_entries : list entry :=
  [Entry "ContextMenu" ContextMenu [] ClassPassed true;
   Entry "ContextMenuTrigger" ContextMenuTrigger [] ClassPassed true;
   Entry "ContextMenuGroup" ContextMenuGroup [] ClassPassed true;
   Entry "ContextMenuPortal" ContextMenuPortal [] ClassPassed true;
   Entry "ContextMenuSub" ContextMenuSub [] ClassPassed true;
   Entry "ContextMenuRadioGroup" ContextMenuRadioGroup [] ClassPassed true;
   Entry "ContextMenuSubTrigger" ContextMenuSubTrigger ["className"; "inset"] ClassMerged true;
   Entry "ContextMenuSubContent" ContextMenuSubContent ["className"] ClassMerged true;
   Entry "ContextMenuContent" ContextMenuContent ["className"] ClassMerged true;
   Entry "ContextMenuItem" ContextMenuItem ["className"; "inset"] ClassMerged true;
   Entry "ContextMenuCheckboxItem" ContextMenuCheckboxItem ["className"; "checked"] ClassMerged true;
   Entry "ContextMenuRadioItem" ContextMenuRadioItem ["className"] ClassMerged true;
   Entry "ContextMenuLabel" ContextMenuLabel ["className"; "inset"] ClassMerged true;
   Entry "ContextMenuSeparator" ContextMenuSeparator ["className"] ClassMerged true;
   Entry "ContextMenuShortcut" ContextMenuShortcut ["className"] ClassMerged true].

Definition navigation_menu_entries : list entry :=
  [Entry "NavigationMenuList" NavigationMenuList ["className"] ClassMerged true;
   Entry "NavigationMenuItem" NavigationMenuItem [] ClassPassed true;
   Entry "NavigationMenuTrigger" NavigationMenuTrigger ["className"] ClassMerged true;
   Entry "NavigationMenuContent" NavigationMenuContent ["className"] ClassMerged true;
   Entry "NavigationMenuLink" NavigationMenuLink [] ClassPassed true;
   Entry "NavigationMenuViewport" NavigationMenuViewport ["className"] ClassMerged true;
   Entry "NavigationMenu" NavigationMenu ["className"] ClassMerged true;
   Entry "NavigationMenuIndicator" NavigationMenuIndicator ["className"] ClassMerged false].

Definition command_entries : list entry :=
  [Entry "Command" Command ["className"] ClassMerged true;
   Entry "CommandDialog" CommandDialog [] ClassPassed true;
   Entry "CommandInput" CommandInput ["className"] ClassMerged true;
   Entry "CommandList" CommandList ["className"] ClassMerged true;
   Entry "CommandEmpty" CommandEmpty [] ClassPassed true;
   Entry "CommandGroup" CommandGroup ["className"] ClassMerged true;
   Entry "CommandSeparator" CommandSeparator ["className"] ClassMerged true;
   Entry "CommandItem" CommandItem ["className"] ClassMerged true;
   Entry "CommandShortcut" CommandShortcut ["className"] ClassMerged true].

Definition sidebar_entries : list entry :=
  [Entry "SidebarInput" SidebarInput ["className"; "type"] ClassMerged true;
   Entry "SidebarHeader" SidebarHeader ["className"] ClassMerged true;
   Entry "SidebarFooter" SidebarFooter ["className"] ClassMerged true;
   Entry "SidebarSeparator" SidebarSeparator ["className"; "orientation"; "decorative"] ClassMerged true;
   Entry "SidebarContent" SidebarContent ["className"] ClassMerged true;
   Entry "SidebarGroup" SidebarGroup ["className"] ClassMerged true;
   Entry "SidebarGroupLabel" SidebarGroupLabel ["className"; "asChild"] ClassMerged true;
   Entry "SidebarGroupAction" SidebarGroupAction ["className"; "asChild"] ClassMerged true;
   Entry "SidebarGroupContent" SidebarGroupContent ["className"] ClassMerged true;
   Entry "SidebarMenu" SidebarMenu ["className"] ClassMerged true;
   Entry "SidebarMenuItem" SidebarMenuItem ["className"] ClassMerged true;
   Entry "SidebarMenuAction" SidebarMenuAction ["className"; "asChild"; "showOnHover"] ClassMerged true;
   Entry "SidebarMenuBadge" SidebarMenuBadge ["className"] ClassMerged true;
   Entry "SidebarMenuSub" SidebarMenuSub ["className"] ClassMerged true;
   Entry "SidebarMenuSubItem" SidebarMenuSubItem [] ClassPassed true;
   Entry "SidebarMenuSubButton" SidebarMenuSubButton ["asChild"; "size"; "isActive"; "className"] ClassMerged true].

Definition library : list entry :=
  button_entries
  ++ badge_entries
  ++ card_entries
  ++ label_entries
  ++ separator_entries
  ++ skeleton_entries
  ++ input_entries
  ++ textarea_entries
  ++ tabs_entries
  ++ select_entries
  ++ tooltip_entries
  ++ toast_entries
  ++ table_entries
  ++ alert_entries
  ++ avatar_entries
  ++ accordion_entries
  ++ checkbox_entries
  ++ switch_entries
  ++ slider_entries
  ++ radio_group_entries
  ++ scroll_area_entries
  ++ progress_entries
  ++ toggle_entries
  ++ breadcrumb_entries
  ++ pagination_entries
  ++ resizable_entries
  ++ input_otp_entries
  ++ aspect_ratio_entries
  ++ collapsible_entries
  ++ sheet_entries
  ++ dialog_entries
  ++ alert_dialog_entries
  ++ drawer_entries
  ++ popover_entries
  ++ hover_card_entries
  ++ menubar_entries
  ++ dropdown_menu_entries
  ++ context_menu_entries
  ++ navigation_menu_entries
  ++ command_entries
  ++ sidebar_entries.

(** ** Finding an element in a tree *)

Implicit Types (P : tree V → Prop) (cs : list (tree V)).

Lemma reach_here P t : P t → ∃ x, x ∈ elements t ∧ P x.
Proof. intros Ht. exists t. split; [apply elements_here|done]. Qed.

Lemma reach_child P tag ps cs :
  (∃ c, c ∈ cs ∧ ∃ x, x ∈ elements c ∧ P x) → ∃ x, x ∈ elements (El tag ps cs) ∧ P x.
Proof. intros (c & Hc & x & Hx & HP). exists x. split; [by eapply elements_child|done]. Qed.

Lemma reach_head P c cs :
  (∃ x, x ∈ elements c ∧ P x) → ∃ c', c' ∈ c :: cs ∧ ∃ x, x ∈ elements c' ∧ P x.
Proof. intros Hx. exists c. split; [apply list_elem_of_here|done]. Qed.

Lemma reach_tail P c cs :
  (∃ c', c' ∈ cs ∧ ∃ x, x ∈ elements c' ∧ P x) → ∃ c', c' ∈ c :: cs ∧ ∃ x, x ∈ elements c' ∧ P x.
Proof. intros (c' & Hc & Hx). exists c'. split; [by apply list_elem_of_further|done]. Qed.

Lemma reach_app_l P cs cs' :
  (∃ c, c ∈ cs ∧ ∃ x, x ∈ elements c ∧ P x) → ∃ c, c ∈ cs ++ cs' ∧ ∃ x, x ∈ elements c ∧ P x.
Proof. intros (c & Hc & Hx). exists c. split; [apply elem_of_app; by left|done]. Qed.

Lemma reach_app_r P cs cs' :
  (∃ c, c ∈ cs' ∧ ∃ x, x ∈ elements c ∧ P x) → ∃ c, c ∈ cs ++ cs' ∧ ∃ x, x ∈ elements c ∧ P x.
Proof. intros (c & Hc & Hx). exists c. split; [apply elem_of_app; by right|done]. Qed.

Lemma reach_given t cs : t ∈ cs → ∃ c, c ∈ cs ∧ ∃ x, x ∈ elements c ∧ x = t.
Proof. intros Ht. exists t. split; [done|]. exists t. split; [apply elements_here|done]. Qed.

Lemma raw_spread base (ps : list (string * V)) k :
  raw (spread base ps) k = match prop_get ps k with Some v => v | None => raw base k end.
Proof. unfold raw. rewrite prop_get_spread. by destruct (prop_get ps k). Qed.

(** The class name that a component hands to another one. *)
Lemma class_at_spread base (ps : list (string * V)) names l :
  "className" ∈ names → prop_get base "className" = Some (class_names l) →
  class_at (spread base (omit names ps)) "className" = Some (cn l).
Proof.
  intros Hn Hb. unfold class_at, get. rewrite raw_spread, prop_get_omit, decide_True by done.
  unfold raw. rewrite Hb. unfold class_names, prim_of. cbn. by rewrite as_prim_pv.
Qed.

(** Searches the tree for an element with which [tac] succeeds. *)
Ltac reach tac :=
  lazymatch goal with
  | |- ∃ x, x ∈ elements ?t ∧ _ =>
      let t' := eval hnf in t in change t with t';
      first [apply reach_here; solve [tac] | apply reach_child; reach tac]
  | |- ∃ c, c ∈ ?cs ∧ _ =>
      first [ solve [apply reach_given; assumption]
            | let cs' := eval hnf in cs in change cs with cs';
              first [apply reach_head; reach tac | apply reach_tail; reach tac]
            | first [apply reach_app_l; reach tac | apply reach_app_r; reach tac] ]
  end.

Ltac not_consumed :=
  repeat match goal with
  | Hk : ?k ∉ _ |- context [decide (?k ∈ _)] => rewrite decide_False by set_solver
  end.

Ltac forwarded Hv :=
  cbn [elem_prop]; rewrite ?prop_get_spread, ?prop_get_omit; not_consumed;
  rewrite ?prop_get_spread, ?prop_get_omit; not_consumed; rewrite Hv; reflexivity.

(** A destructured property is the one the caller gave. *)
Lemma with_default_given ps k (d v : V) :
  prop_get ps k = Some v → as_prim v ≠ Some Undefined → with_default ps k d = v.
Proof. intros Hv Hu. unfold with_default. rewrite Hv. by destruct (as_prim v) as [[]|]. Qed.

Lemma raw_given ps k (v : V) : prop_get ps k = Some v → raw ps k = v.
Proof. intros Hv. unfold raw. by rewrite Hv. Qed.

(** The caller's property, below the properties that other components put around it. *)
Ltac given_below Hv :=
  rewrite ?prop_get_spread, ?prop_get_omit, ?decide_False by set_solver;
  rewrite ?prop_get_spread, ?prop_get_omit, ?decide_False by set_solver; rewrite Hv; reflexivity.

(** A property that the component destructures and sets again. *)
Ltac set_again Hv Hu :=
  cbn [elem_prop]; rewrite prop_get_spread, prop_get_omit, decide_True by set_solver;
  lazymatch goal with |- ?l = Some ?v => let l' := eval hnf in l in change (l' = Some v) end;
  f_equal; first [ apply with_default_given; [given_below Hv|exact Hu] | apply raw_given; given_below Hv ].

Ltac given_property :=
  lazymatch goal with
  | Hv : prop_get _ _ = Some _, Hu : as_prim _ ≠ _, Hc : _ ≠ "className", Hk : _ ∉ kept_properties,
    Ho : _ ≠ ("InputOTP", _) |- _ =>
      first [ by destruct Hc
            | by destruct Ho
            | destruct Hk; apply (bool_decide_unpack _); by vm_compute
            | unfold arrives; reach ltac:(set_again Hv Hu) ]
  end.

Ltac own_class :=
  cbn [elem_prop]; rewrite prop_get_spread, prop_get_omit, decide_True by set_solver; reflexivity.

Ltac plain_class := cbn [elem_prop]; reflexivity.

Ltac last_class :=
  first [ apply (ends_here _ []) | apply (ends_here _ [_]) | apply (ends_here _ [_; _])
        | apply (ends_here _ [_; _; _]) | apply (ends_here _ [_; _; _; _])
        | apply (ends_here _ [_; _; _; _; _]) | apply (ends_here _ [_; _; _; _; _; _])
        | apply (ends_here _ [_; _; _; _; _; _; _]) ].

Ltac merged_class :=
  eexists; split; [first [own_class|plain_class]|];
  first
    [ last_class
    | erewrite class_at_spread by first [set_solver|reflexivity];
      first [apply (ends_nested _ []) | apply (ends_nested _ [_]) | apply (ends_nested _ [_; _])];
      last_class ].

Ltac solve_contract :=
  apply Contract; cbn [e_name e_comp e_consumed e_class e_children];
  [ intros ps ch k v Hv Hk; reach ltac:(forwarded Hv)
  | intros ps ch k v Hv Hu Hin Hc Hk Ho;
    repeat (apply elem_of_cons in Hin as [->|Hin]; [given_property|]); by apply elem_of_nil in Hin
  | first [ intros _ _; set_solver
          | intros ps ch; reach ltac:(merged_class)
          | intros ps ch; reach ltac:(eexists; split; [own_class|reflexivity]) ]
  | intros ps ch;
    first [ reflexivity
          | intros t Ht; first [ reach idtac
                               | destruct ch as [|c ch]; [by apply elem_of_nil in Ht|reach idtac] ] ] ].

Ltac solve_entries table :=
  unfold table; repeat (apply Forall_cons; split; [solve_contract|]); by apply Forall_nil.

Create HintDb contract.

Lemma button_entries_ok : Forall contract button_entries.
Proof. solve_entries button_entries. Qed.

Lemma badge_entries_ok : Forall contract badge_entries.
Proof. solve_entries badge_entries. Qed.

Lemma card_entries_ok : Forall contract card_entries.
Proof. solve_entries card_entries. Qed.

Lemma label_entries_ok : Forall contract label_entries.
Proof. solve_entries label_entries. Qed.

Lemma separator_entries_ok : Forall contract separator_entries.
Proof. solve_entries separator_entries. Qed.

Lemma skeleton_entries_ok : Forall contract skeleton_entries.
Proof. solve_entries skeleton_entries. Qed.

Lemma input_entries_ok : Forall contract input_entries.
Proof. solve_entries input_entries. Qed.

Lemma textarea_entries_ok : Forall contract textarea_entries.
Proof. solve_entries textarea_entries. Qed.

Lemma tabs_entries_ok : Forall contract tabs_entries.
Proof. solve_entries tabs_entries. Qed.

Lemma select_entries_ok : Forall contract select_entries.
Proof. solve_entries select_entries. Qed.

Lemma tooltip_entries_ok : Forall contract tooltip_entries.
Proof. solve_entries tooltip_entries. Qed.

Lemma toast_entries_ok : Forall contract toast_entries.
Proof. solve_entries toast_entries. Qed.

Lemma table_entries_ok : Forall contract table_entries.
Proof. solve_entries table_entries. Qed.

Lemma alert_entries_ok : Forall contract alert_entries.
Proof. solve_entries alert_entries. Qed.

Lemma avatar_entries_ok : Forall contract avatar_entries.
Proof. solve_entries avatar_entries. Qed.

Lemma accordion_entries_ok : Forall contract accordion_entries.
Proof. solve_entries accordion_entries. Qed.

Lemma checkbox_entries_ok : Forall contract checkbox_entries.
Proof. solve_entries checkbox_entries. Qed.

Lemma switch_entries_ok : Forall contract switch_entries.
Proof. solve_entries switch_entries. Qed.

Lemma slider_entries_ok : Forall contract slider_entries.
Proof. solve_entries slider_entries. Qed.

Lemma radio_group_entries_ok : Forall contract radio_group_entries.
Proof. solve_entries radio_group_entries. Qed.

Lemma scroll_area_entries_ok : Forall contract scroll_area_entries.
Proof. solve_entries scroll_area_entries. Qed.

Lemma progress_entries_ok : Forall contract progress_entries.
Proof. solve_entries progress_entries. Qed.

Lemma toggle_entries_ok : Forall contract toggle_entries.
Proof. solve_entries toggle_entries. Qed.

Lemma breadcrumb_entries_ok : Forall contract breadcrumb_entries.
Proof. solve_entries breadcrumb_entries. Qed.

Lemma pagination_entries_ok : Forall contract pagination_entries.
Proof. solve_entries pagination_entries. Qed.

Lemma resizable_entries_ok : Forall contract resizable_entries.
Proof. solve_entries resizable_entries. Qed.

Lemma input_otp_entries_ok : Forall contract input_otp_entries.
Proof. solve_entries input_otp_entries. Qed.

Lemma aspect_ratio_entries_ok : Forall contract aspect_ratio_entries.
Proof. solve_entries aspect_ratio_entries. Qed.

Lemma collapsible_entries_ok : Forall contract collapsible_entries.
Proof. solve_entries collapsible_entries. Qed.

Lemma sheet_entries_ok : Forall contract sheet_entries.
Proof. solve_entries sheet_entries. Qed.

Lemma dialog_entries_ok : Forall contract dialog_entries.
Proof. solve_entries dialog_entries. Qed.

Lemma alert_dialog_entries_ok : Forall contract alert_dialog_entries.
Proof. solve_entries alert_dialog_entries. Qed.

Lemma drawer_entries_ok : Forall contract drawer_entries.
Proof. solve_entries drawer_entries. Qed.

Lemma popover_entries_ok : Forall contract popover_entries.
Proof. solve_entries popover_entries. Qed.

Lemma hover_card_entries_ok : Forall contract hover_card_entries.
Proof. solve_entries hover_card_entries. Qed.

Lemma menubar_entries_ok : Forall contract menubar_entries.
Proof. solve_entries menubar_entries. Qed.

Lemma dropdown_menu_entries_ok : Forall contract dropdown_menu_entries.
Proof. solve_entries dropdown_menu_entries. Qed.

Lemma context_menu_entries_ok : Forall contract context_menu_entries.
Proof. solve_entries context_menu_entries. Qed.

Lemma navigation_menu_entries_ok : Forall contract navigation_menu_entries.
Proof. solve_entries navigation_menu_entries. Qed.

Lemma command_entries_ok : Forall contract command_entries.
Proof. solve_entries command_entries. Qed.

Lemma sidebar_entries_ok : Forall contract sidebar_entries.
Proof. solve_entries sidebar_entries. Qed.

#[local] Hint Resolve button_entries_ok badge_entries_ok card_entries_ok label_entries_ok
  separator_entries_ok skeleton_entries_ok input_entries_ok textarea_entries_ok
  tabs_entries_ok select_entries_ok tooltip_entries_ok toast_entries_ok
  table_entries_ok alert_entries_ok avatar_entries_ok accordion_entries_ok
  checkbox_entries_ok switch_entries_ok slider_entries_ok radio_group_entries_ok
  scroll_area_entries_ok progress_entries_ok toggle_entries_ok breadcrumb_entries_ok
  pagination_entries_ok resizable_entries_ok input_otp_entries_ok aspect_ratio_entries_ok
  collapsible_entries_ok sheet_entries_ok dialog_entries_ok alert_dialog_entries_ok
  drawer_entries_ok popover_entries_ok hover_card_entries_ok menubar_entries_ok
  dropdown_menu_entries_ok context_menu_entries_ok navigation_menu_entries_ok command_entries_ok
  sidebar_entries_ok : contract.

Lemma library_ok : Forall contract library.
Proof.
  unfold library. repeat (apply Forall_app; split).
  all: auto with contract.
Qed.

Lemma library_names : NoDup (e_name <$> library).
Proof. apply (bool_decide_unpack _). by vm_compute. Qed.

(** Properties: everything the caller gives arrives, except what is kept. *)
Lemma given_arrives e ps ch k v :
  contract e → prop_get ps k = Some v → as_prim v ≠ Some Undefined → k ≠ "className" →
  (e_name e, k) ∉ kept_properties → (e_name e, k) ≠ ("InputOTP", "containerClassName") →
  arrives (e_comp e ps ch) k v.
Proof.
  intros He Hv Hu Hc Hk Ho. destruct (decide (k ∈ e_consumed e)); [by apply (c_given e He)|].
  by apply (c_forward e He).
Qed.

(** The caller's class name wins: it is merged behind the component's own, goes
    through the variant table, or is the only one. *)
Definition class_wins (e : entry) (ps : list (string * V)) (ch : list (tree V)) : Prop :=
  (∃ x l, x ∈ elements (e_comp e ps ch) ∧ elem_prop x "className" = Some (class_names l) ∧
          ends_with (class_at ps "className") l) ∨
  (∃ x spec given, x ∈ elements (e_comp e ps ch) ∧
     elem_prop x "className" = Some (class_names [Some (cva spec given)]) ∧
     prop_get given "className" = Some (get ps "className")) ∨
  ((∀ v, prop_get ps "className" = Some v → arrives (e_comp e ps ch) "className" v) ∧
   elem_prop (e_comp e [] []) "className" = None).

(** A component that passes the class name on and has one of its own. *)
Definition replaces_class (e : entry) : bool :=
  match e_class e, elem_prop (e_comp e [] []) "className" with
  | ClassPassed, Some _ => true
  | _, _ => false
  end.

Lemma library_replaces : e_name <$> List.filter replaces_class library = ["CommandEmpty"].
Proof. by vm_compute. Qed.

Lemma contract_class e ps ch : contract e → replaces_class e = false → class_wins e ps ch.
Proof.
  intros He Hr. pose proof (c_class e He ps ch) as Hc. unfold replaces_class in Hr. unfold class_wins.
  destruct (e_class e) as [|spec|].
  - destruct Hc as (x & Hx & l & Hl & Hw). left. by exists x, l.
  - destruct Hc as (x & Hx & g & Hg & Hw). right. left. by exists x, spec, g.
  - right. right. split; [|by destruct (elem_prop (e_comp e [] []) "className")].
    intros v Hv. by apply (c_forward e He).
Qed.

Lemma library_class e ps ch :
  e ∈ library → e_name e ≠ "CommandEmpty" → class_wins e ps ch.
Proof.
  intros He Hn. pose proof library_ok as Hok. rewrite Forall_forall in Hok.
  apply contract_class; [by apply Hok|]. apply not_true_is_false. intros Hr. apply Hn.
  assert (e_name e ∈ e_name <$> List.filter replaces_class library) as Hin
    by (apply list_elem_of_fmap_2, elem_of_lfilter; done).
  rewrite library_replaces in Hin. by apply list_elem_of_singleton in Hin.
Qed.

(** The table's column for children is the list of exceptions. *)
Lemma library_children :
  Forall (λ e, e_children e = negb (bool_decide (e_name e ∈ own_children))) library.
Proof. unfold library. repeat (apply Forall_app; split). all: by repeat constructor. Qed.

(** The exceptions are real: the component renders no element with that property. *)
Definition swallows (e : entry) (k : string) : bool :=
  forallb (λ x, match elem_prop x k with None => true | Some _ => false end)
    (elements (e_comp e [(k, pv (PStr "given"))] [])).

Lemma kept_real :
  forallb (λ nk, existsb (λ e, bool_decide (e_name e = nk.1) && swallows e nk.2) library) kept_properties = true.
Proof.
  pose proof (as_prim_pv (PStr "given")) as Hp. vm_compute in Hp |- *.
  repeat (rewrite ?Hp; vm_compute). reflexivity.
Qed.

Lemma kept_swallowed n k :
  (n, k) ∈ kept_properties →
  ∃ e, e ∈ library ∧ e_name e = n ∧
    ∀ x, x ∈ elements (e_comp e [(k, pv (PStr "given"))] []) → elem_prop x k = None.
Proof.
  intros Hin. pose proof kept_real as H1. rewrite forallb_forall in H1. apply list_elem_of_In in Hin.
  specialize (H1 _ Hin). apply existsb_elem in H1 as (e & He & [Hn Hs]%andb_true_iff).
  breflect. exists e. split_and!; [done|done|]. intros x Hx. unfold swallows in Hs. rewrite forallb_forall in Hs.
  apply list_elem_of_In in Hx. specialize (Hs x Hx). cbn [snd] in Hs. by destruct (elem_prop x k).
Qed.

(** C20: the convention that the components of the library follow, with all its
    exceptions.  A property that the caller gives arrives unchanged at one of the
    elements the component renders, also where the component has a default for it,
    unless it is in [kept_properties]; each of those is really swallowed: no element
    has it.  (The container class of [InputOTP] is merged with the component's own.)
    The caller's class name wins: it is merged behind the component's own, goes
    through the variant table, or is passed on by a component that has none of its
    own; only [CommandEmpty] lets it replace its own.  The caller's children are shown,
    except by the components in [own_children], which render the same whatever
    children they get.  No name occurs twice. *)
Theorem ui_contract :
  (∀ e ps ch, e ∈ library →
     (∀ k v, prop_get ps k = Some v → as_prim v ≠ Some Undefined → k ≠ "className" →
        (e_name e, k) ∉ kept_properties → (e_name e, k) ≠ ("InputOTP", "containerClassName") →
        ∃ x, x ∈ elements (e_comp e ps ch) ∧ elem_prop x k = Some v) ∧
     (e_name e ≠ "CommandEmpty" → class_wins e ps ch) ∧
     (e_name e ∉ own_children → ∀ t, t ∈ ch → t ∈ elements (e_comp e ps ch)) ∧
     (e_name e ∈ own_children → e_comp e ps ch = e_comp e ps [])) ∧
  (∀ n k, (n, k) ∈ kept_properties →
     ∃ e, e ∈ library ∧ e_name e = n ∧
       ∀ x, x ∈ elements (e_comp e [(k, pv (PStr "given"))] []) → elem_prop x k = None) ∧
  NoDup (e_name <$> library).
Proof.
  split_and!; [|exact kept_swallowed|apply library_names].
  intros e ps ch He. pose proof library_ok as Hok. pose proof library_children as Hch.
  rewrite Forall_forall in Hok, Hch. specialize (Hok e He). specialize (Hch e He).
  pose proof (c_children e Hok ps ch) as Hc. rewrite Hch in Hc. split_and!.
  - intros k v. by apply given_arrives.
  - by apply library_class.
  - intros Hn t Ht. rewrite bool_decide_false in Hc by done. destruct (Hc t Ht) as (x & Hx & ->). done.
  - intros Hn. by rewrite bool_decide_true in Hc.
Qed.
End Contract.

(** ** Witness *)

#[local] Existing Instance plain_styling.

(** A tooltip with its own offset, class name and content. *)
Lemma ui_contract_witness :
  let ps := [("sideOffset", VPrim (PNum (JsNumber.of_Z 12))); ("className", VPrim (PStr "wide"))] in
  let e := TooltipContent (V := pval Empty_set) ps [EText "Save"] in
  (∃ x, x ∈ elements e ∧ elem_prop x "sideOffset" = Some (VPrim (PNum (JsNumber.of_Z 12)))) ∧
  EText "Save" ∈ elements e ∧
  (∃ bar, bar ∈ library (V := pval Empty_set) ∧ e_name bar = "Progress" ∧
     ∀ x, x ∈ elements (e_comp bar [("value", VPrim (PStr "given"))] []) → elem_prop x "value" = None).
Proof.
  intros ps e. destruct (ui_contract (V := pval Empty_set)) as (H1 & H2 & _).
  destruct (H1 (Entry "TooltipContent" TooltipContent ["className"; "sideOffset"] ClassMerged true)
              ps [EText "Save"]) as (Hf & _ & Hc & _).
  { by apply (list_elem_of_lookup_2 _ 30). }
  split_and!.
  - apply Hf; try done; apply (bool_decide_unpack _); by vm_compute.
  - apply Hc; [apply (bool_decide_unpack _); by vm_compute|by left].
  - apply (H2 "Progress" "value"). apply (bool_decide_unpack _). by vm_compute.
Defined.
