(* ===== verification/UiRender.v ===== *)
(** * Rendering a tree through the library

    The trees of the other components name the components of the library by their
    tags.  React renders such an element by calling the component with its
    properties, without the key, and its rendered children ([render]).  The lemmas
    here are proved against the components' contract alone ([UiSpec]): a property,
    a handler or a text that a tree has arrives on the screen, as long as no
    component on the way keeps it for itself. *)

From S2P Require Import Prelude JsSort JsNumber JsText JsValue Markup UiKit UiElements UiOverlays UiMenus JsFloor Sidebar SidebarMenu UiSpec.

Section Render.
Context {V : Type} `{PropValue V} `{Styling}.
Implicit Types (t x y : tree V) (e : entry (V := V)).

Definition find_entry (tag : string) : option (entry (V := V)) :=
  List.find (λ e, String.eqb (e_name e) tag) library.

Fixpoint render (t : tree V) : tree V :=
  match t with
  | Txt s => Txt s
  | El tag ps cs =>
      match find_entry tag with
      | Some e => e_comp e (omit ["key"] ps) (map render cs)
      | None => El tag ps (map render cs)
      end
  end.

Lemma find_contract tag e : find_entry tag = Some e → contract e.
Proof.
  intros [He _]%List.find_some. pose proof library_ok as Hl. rewrite Forall_forall in Hl.
  by apply Hl, list_elem_of_In.
Qed.

(** What the table says about a tag: plain elements show all and keep nothing. *)
Definition shows_children (tag : string) : bool := from_option e_children true (find_entry tag).
Definition consumes (tag k : string) : bool :=
  from_option (λ e, bool_decide (k ∈ e_consumed e)) false (find_entry tag).

(** ** What arrives on the screen *)

(** [x] is part of [t], and below no component that ignores its children. *)
Inductive shown x : tree V → Prop :=
  | shown_here : shown x x
  | shown_below tag ps cs c :
      c ∈ cs → shown x c → shows_children tag = true → shown x (El tag ps cs).

Lemma render_shown x t : shown x t → render x ∈ elements (render t).
Proof.
  induction 1 as [|tag ps cs c Hc _ IH He]; [apply elements_here|]. cbn [render].
  assert (render c ∈ map render cs) as Hm by (by apply list_elem_of_fmap_2).
  unfold shows_children in He. destruct (find_entry tag) as [e|] eqn:E; [|by eapply elements_child].
  apply (elements_trans _ (render c)); [done|].
  pose proof (c_children e (find_contract _ _ E) (omit ["key"] ps) (map render cs)) as Hch.
  cbn in He. rewrite He in Hch. by destruct (Hch _ Hm) as (y & Hy & ->).
Qed.

(** A text of the tree is on the screen. *)
Lemma render_text s t : shown (Txt s) t → Txt s ∈ elements (render t).
Proof. apply render_shown. Qed.

(** A property that an element has, and its component does not use itself, is a
    property of an element on the screen. *)
Lemma render_own tag ps cs k v :
  prop_get ps k = Some v → k ≠ "key" → consumes tag k = false →
  ∃ y, y ∈ elements (render (El tag ps cs)) ∧ elem_prop y k = Some v.
Proof.
  intros Hk Hkey He. cbn [render]. unfold consumes in He. destruct (find_entry tag) as [e|] eqn:E.
  - cbn in He. apply (c_forward e (find_contract _ _ E)); [|by breflect].
    by rewrite prop_get_omit, decide_False by set_solver.
  - exists (El tag ps (map render cs)). split; [apply elements_here|done].
Qed.

Lemma render_prop tag ps cs t k v :
  shown (El tag ps cs) t → prop_get ps k = Some v → k ≠ "key" → consumes tag k = false →
  ∃ y, y ∈ elements (render t) ∧ elem_prop y k = Some v.
Proof.
  intros Hs Hk Hkey He. destruct (render_own tag ps cs k v Hk Hkey He) as (y & Hy & Hv).
  exists y. split; [|done]. eapply elements_trans; [done|]. by apply render_shown.
Qed.
End Render.

(** ** Buttons

    The other components draw their controls as a [Button] of the library: what a
    click does and whether it is disabled is the same on the screen. *)
Section Buttons.
Context {A : Type} `{Styling}.

Lemma button_on_screen (ps : props A) cs :
  on_click (render (El "Button" ps cs)) = on_click (El "Button" ps cs) ∧
  is_disabled (render (El "Button" ps cs)) = is_disabled (El "Button" ps cs).
Proof.
  change (render (El "Button" ps cs)) with (Button (omit ["key"] ps) (map render cs)).
  unfold on_click, is_disabled, Button. rewrite !prop_get_spread, !prop_get_omit.
  rewrite !decide_False by set_solver. split; by destruct (prop_get ps _).
Qed.
End Buttons.
