(* ===== verification/Toaster.v ===== *)
(** * Toasts on the screen

    Models [components/ui/toaster.tsx]: a component that subscribes to the toast
    store and draws its toasts with the elements of [components/ui/toast.tsx].  The
    theorem follows a toast through all three parts: from the store through the
    tree of [Toaster] and the library to the screen, and back from the close button,
    whose primitive calls [onOpenChange(false)], to the store. *)

From S2P Require Import Prelude JsSort JsNumber JsText JsValue Markup UseToast UiKit UiElements UiOverlays UiMenus JsFloor Sidebar SidebarMenu UiSpec UiRender.

(** ** [Toaster] *)

Abbreviation toast_tree := (elem op).

(** [{v && <T>{v}</T>}] for the texts of a toast. *)
Definition when_given (v : prim) (tag : string) : list toast_tree :=
  if truthy v then [Elem tag [] (prim_child v)] else prim_child v.

Definition toast_prop (t : ToasterToast) (k : string) : prim := default Undefined (own_get (t_props t) k).

(** The fields of a toast that are not among its other properties, and the ones
    that [Toaster] takes out. *)
Definition toast_fields : list string :=
  ["id"; "open"; "onOpenChange"; "title"; "description"; "action"].

(** The properties left after [id], [title], [description] and [action]. *)
Definition rest_props (t : ToasterToast) : props op :=
  from_option (λ b, [("open", VPrim (PBool b))]) [] (t_open t)
  ++ from_option (λ i, [("onOpenChange", VBoolHandler (λ open, [OOpenChange i open]))]) []
       (t_onOpenChange t)
  ++ omit toast_fields (map (λ kv, (kv.1, VPrim kv.2)) (t_props t)).

Definition toast_elem (t : ToasterToast) : toast_tree :=
  Elem "Toast" (spread [pstr "key" (t_id t)] (rest_props t))
    (Elem "div" [pstr "className" "grid gap-1"]
       (when_given (toast_prop t "title") "ToastTitle"
        ++ when_given (toast_prop t "description") "ToastDescription")
     :: prim_child (toast_prop t "action") ++ [Elem "ToastClose" [] []]).

Definition Toaster (toasts : list ToasterToast) : toast_tree :=
  Elem "ToastProvider" [] ((toast_elem <$> toasts) ++ [Elem "ToastViewport" [] []]).

(** ** The screen *)

Section Screen.
Context `{Styling}.

(** What the [Toaster] whose hook is [h] shows, once rendered through the library. *)
Definition screen (h : nat) (s : Store) : option toast_tree :=
  (λ toasts, render (Toaster toasts)) <$> hook_state s !! h.

Definition is_root (t : toast_tree) : bool :=
  match t with El tag _ _ => bool_decide (tag = "ToastPrimitives.Root") | Txt _ => false end.

(** The toasts on the screen. *)
Definition roots (t : toast_tree) : list toast_tree := List.filter is_root (elements t).

(** The user closes a toast: its primitive reports that it is no longer open. *)
Definition user_close (root : toast_tree) : list op :=
  match elem_prop root "onOpenChange" with Some (VBoolHandler f) => f false | _ => [] end.

Definition run_toast_ops (ops : list op) (s : Store) : Store := foldl (λ s a, exec a s) s ops.

(** The removal delay passes, and the timers that are due run. *)
Definition after_delay (s : Store) : Store :=
  let d := elapse TOAST_REMOVE_DELAY s in run_due (length (timers (queue d))) d.

(** The texts of a toast in the order it shows them. *)
Definition toast_texts (t : ToasterToast) : list string :=
  concat (map texts (prim_child (V := pval op) (toast_prop t "title")
                     ++ prim_child (toast_prop t "description")
                     ++ prim_child (toast_prop t "action"))).

(** ** The rendered tree *)

Lemma render_prim_child v : map render (prim_child v) = prim_child (V := pval op) v.
Proof. by destruct v. Qed.

Lemma roots_prim_child v : concat (map roots (prim_child v)) = [].
Proof. by destruct v. Qed.

Lemma texts_app {V} (l1 l2 : list (tree V)) :
  concat (map texts (l1 ++ l2)) = concat (map texts l1) ++ concat (map texts l2).
Proof. by rewrite map_app, concat_app. Qed.

Lemma roots_app (l1 l2 : list toast_tree) :
  concat (map roots (l1 ++ l2)) = concat (map roots l1) ++ concat (map roots l2).
Proof. by rewrite map_app, concat_app. Qed.

Lemma filter_concat {A} (f : A → bool) (ls : list (list A)) :
  List.filter f (concat ls) = concat (map (List.filter f) ls).
Proof. induction ls as [|l ls IH]; [done|]. cbn. by rewrite List.filter_app, IH. Qed.

(** The roots of an element are its own and those of its children. *)
Lemma roots_El tag ps cs :
  roots (El tag ps cs)
  = (if bool_decide (tag = "ToastPrimitives.Root") then [El tag ps cs] else []) ++ concat (map roots cs).
Proof.
  unfold roots. cbn [elements List.filter is_root]. rewrite filter_concat, map_map.
  by destruct (bool_decide _).
Qed.

Lemma title_rendered (ps : props op) cs :
  ∃ ps', render (El "ToastTitle" ps cs) = El "ToastPrimitives.Title" ps' (map render cs).
Proof. by eexists. Qed.

Lemma description_rendered (ps : props op) cs :
  ∃ ps', render (El "ToastDescription" ps cs) = El "ToastPrimitives.Description" ps' (map render cs).
Proof. by eexists. Qed.

Lemma rendered_when_given v tag :
  tag ∈ ["ToastTitle"; "ToastDescription"] →
  concat (map texts (map render (when_given v tag))) = concat (map texts (prim_child (V := pval op) v)) ∧
  concat (map roots (map render (when_given v tag))) = [].
Proof.
  intros Ht. unfold when_given. destruct (truthy v); [|by rewrite render_prim_child, roots_prim_child].
  assert (∃ tag' (ps' : props op), render (Elem tag [] (prim_child v)) = El tag' ps' (prim_child v) ∧
                      tag' ≠ "ToastPrimitives.Root") as (tag' & ps' & Hr & Hne).
  { apply elem_of_cons in Ht as [->|[->|[]%elem_of_nil]%elem_of_cons].
    - destruct (title_rendered [] (prim_child v)) as [ps' ->]. rewrite render_prim_child. by do 2 eexists.
    - destruct (description_rendered [] (prim_child v)) as [ps' ->]. rewrite render_prim_child. by do 2 eexists. }
  cbn [map concat]. rewrite Hr, !app_nil_r, roots_El, bool_decide_false, roots_prim_child by done. done.
Qed.

(** The close button. *)
Lemma close_rendered :
  texts (V := pval op) (render (El "ToastClose" [] [])) = [] ∧ roots (render (El "ToastClose" [] [])) = [].
Proof. done. Qed.

Lemma toast_rendered t :
  render (toast_elem t)
  = Toast (omit ["key"] (spread [pstr "key" (t_id t)] (rest_props t)))
      (El "div" [pstr "className" "grid gap-1"]
         (map render (when_given (toast_prop t "title") "ToastTitle"
                      ++ when_given (toast_prop t "description") "ToastDescription"))
       :: map render (prim_child (toast_prop t "action") ++ [Elem "ToastClose" [] []])).
Proof. done. Qed.

(** The fields of the toast are properties of its root. *)
Lemma prop_get_rest t k :
  k ∈ ["open"; "onOpenChange"] →
  prop_get (omit ["className"; "variant"] (omit ["key"] (spread [pstr "key" (t_id t)] (rest_props t)))) k
  = if decide (k = "open") then (λ b, VPrim (PBool b)) <$> t_open t
    else (λ i, VBoolHandler (λ open, [OOpenChange i open])) <$> t_onOpenChange t.
Proof.
  intros Hk. rewrite !prop_get_omit, prop_get_spread.
  rewrite !decide_False by set_solver. unfold rest_props. rewrite !prop_get_app, prop_get_omit.
  rewrite (decide_True (P := k ∈ toast_fields)) by (unfold toast_fields; set_solver).
  apply elem_of_cons in Hk as [->|[->|[]%elem_of_nil]%elem_of_cons];
    by destruct (t_open t), (t_onOpenChange t).
Qed.

(** The root that a toast is rendered to. *)
Lemma toast_root t :
  ∃ ps cs, render (toast_elem t) = El "ToastPrimitives.Root" ps cs ∧
    concat (map texts cs) = toast_texts t ∧ concat (map roots cs) = [] ∧
    prop_get ps "open" = (λ b, VPrim (PBool b)) <$> t_open t ∧
    prop_get ps "onOpenChange" = (λ i, VBoolHandler (λ open, [OOpenChange i open])) <$> t_onOpenChange t.
Proof.
  rewrite toast_rendered. do 2 eexists. split; [reflexivity|].
  destruct (rendered_when_given (toast_prop t "title") "ToastTitle") as [T1 R1]; [set_solver|].
  destruct (rendered_when_given (toast_prop t "description") "ToastDescription") as [T2 R2]; [set_solver|].
  destruct close_rendered as [T3 R3]. unfold toast_texts.
  split_and!.
  - rewrite map_cons, concat_cons. rewrite !map_app, render_prim_child. cbn [texts].
    rewrite !map_app, !concat_app, T1, T2. cbn [map concat]. by rewrite T3, !app_nil_r, app_assoc.
  - rewrite map_cons, concat_cons, roots_El, bool_decide_false by done. rewrite !map_app, render_prim_child.
    rewrite ?map_app, !concat_app, R1, R2, roots_prim_child. cbn [map concat]. by rewrite R3.
  - rewrite prop_get_spread, prop_get_rest by set_solver. by destruct (t_open t).
  - rewrite prop_get_spread, prop_get_rest by set_solver. by destruct (t_onOpenChange t).
Qed.

Lemma Toaster_rendered ts :
  texts (render (Toaster ts)) = concat (toast_texts <$> ts) ∧
  roots (render (Toaster ts)) = (λ t, render (toast_elem t)) <$> ts.
Proof.
  assert (render (Toaster ts)
    = El "ToastPrimitives.Provider" [] (map render (toast_elem <$> ts)
        ++ [render (El "ToastViewport" [] [])])) as -> by (unfold Toaster; cbn; by rewrite map_app).
  assert (texts (V := pval op) (render (El "ToastViewport" [] [])) = [] ∧
          roots (render (El "ToastViewport" [] [])) = []) as [T R] by done.
  cbn [texts]. rewrite roots_El, bool_decide_false, texts_app, roots_app by done. cbn [map concat].
  rewrite T, R, !app_nil_r. clear. cbn [app]. induction ts as [|t ts [IH1 IH2]]; [done|].
  destruct (toast_root t) as (ps & cs & Hr & Ht & Hn & _).
  cbn [fmap list_fmap map concat]. rewrite Hr, roots_El, bool_decide_true, Hn by done. cbn [texts app].
  by rewrite Ht, IH1, IH2.
Qed.

(** ** Main theorem *)

(** A hook with the current toasts shows the store. *)
Lemma screen_current s h :
  hook_state s !! h = Some (memoryState s) → screen h s = Some (render (Toaster (memoryState s))).
Proof. intros Hh. unfold screen. by rewrite Hh. Qed.

(** A toast that the user closed is gone after the delay. *)
Lemma closed_toast_gone s late touched t :
  reachable_store s late touched → t ∈ memoryState s →
  memoryState (after_delay (dismiss (Some (t_id t)) s)) = [].
Proof.
  intros Hs Ht. pose proof (io_ids _ (reachable_ids_ok _ _ _ Hs) t Ht) as Hi.
  destruct (dismissed_drained s _ _ (t_id t) Hs Hi) as [_ Hd]. fold (after_delay (dismiss (Some (t_id t)) s)) in Hd.
  set (s' := after_delay _) in *. destruct (memoryState s') as [|t' l] eqn:E; [done|]. exfalso.
  destruct (Hd t') as (Hne & _ & Hin); [by left|]. apply Hne.
  apply dispatch_ids in Hin as [(t2 & Ht2 & ->)|]; [|done].
  pose proof (so_limit _ _ _ (reachable_store_ok _ _ _ Hs)) as Hl. unfold TOAST_LIMIT in Hl.
  destruct (memoryState s) as [|a [|b l']]; [by apply elem_of_nil in Ht| |cbn in Hl; lia].
  apply list_elem_of_singleton in Ht, Ht2. by subst.
Qed.

(** The screen of a registered hook after a dismissal and the delay. *)
Lemma screen_after_delay s h i :
  h ∈ listeners s → is_Some (hook_state s !! h) →
  let s' := after_delay (dismiss (Some i) s) in screen h s' = Some (render (Toaster (memoryState s'))).
Proof.
  intros Hh Hm s'. apply screen_current, run_due_current; [exact Hh|].
  exact (exec_notifies s (ODismiss (Some i)) h eq_refl Hh Hm).
Qed.

(** C17: the screen shows the store: in every reachable state a mounted [Toaster] that
    has not missed the last dispatch shows exactly the toasts of the store in order,
    each with its title, description and action and open or closing as the store says;
    once it is registered and the user closes one of them, the click reaches the store,
    and after the removal delay the screen has no toast left.  A registered [Toaster],
    also one that missed the last dispatch, shows the store after the next one. *)
Theorem toaster_shows_store s late touched h :
  reachable_store s late touched → is_Some (hook_state s !! h) →
  (h ∉ late →
   ∃ scr, screen h s = Some scr ∧ texts scr = concat (toast_texts <$> memoryState s) ∧
    Forall2 (λ root t,
      texts root = toast_texts t ∧
      elem_prop root "open" = (λ b, VPrim (PBool b)) <$> t_open t ∧
      (h ∈ listeners s → t_onOpenChange t = Some (t_id t) →
       ∃ scr', screen h (after_delay (run_toast_ops (user_close root) s)) = Some scr' ∧ roots scr' = []))
      (roots scr) (memoryState s)) ∧
  (h ∈ listeners s → ∀ a, dispatches s a = true →
   ∃ scr, screen h (exec a s) = Some scr ∧ texts scr = concat (toast_texts <$> memoryState (exec a s)) ∧
     length (roots scr) = length (memoryState (exec a s))).
Proof.
  intros Hs Hm. split.
  - intros Hh. destruct (Toaster_rendered (memoryState s)) as [Ht Hr]. destruct Hm as [ts Hm].
    pose proof (so_hooks _ _ _ (reachable_store_ok _ _ _ Hs) h ts Hm Hh) as ->.
    eexists. split_and!; [by apply screen_current|done|]. rewrite Hr. apply Forall2_fmap_l, Forall_Forall2_diag.
    rewrite Forall_forall. intros t Hin. cbn beta delta [compose].
    destruct (toast_root t) as (ps & cs & -> & H1 & _ & H2 & H3).
    split_and!; [done|done|]. intros Hl Hc. unfold user_close. cbn [elem_prop]. rewrite H3, Hc.
    cbn [fmap option_fmap option_map]. change (run_toast_ops _ s) with (dismiss (Some (t_id t)) s).
    eexists. split; [apply screen_after_delay; eauto|].
    rewrite (closed_toast_gone s _ _ t Hs Hin). apply Toaster_rendered.
  - intros Hl a Ha. destruct (Toaster_rendered (memoryState (exec a s))) as [Ht Hr].
    eexists. split_and!; [by apply screen_current, exec_notifies|done|]. by rewrite Hr, length_fmap.
Qed.
End Screen.

(** ** Witness *)

#[local] Existing Instance plain_styling.

(** The toast of the sample history, and closing it; the second [Toaster], which missed
    the first toast, shows the second one. *)
Lemma toaster_shows_store_witness :
  (∃ scr root rest, screen 7 two_toasts = Some scr ∧ texts scr = ["Saved"] ∧
    roots scr = root :: rest ∧ elem_prop root "open" = Some (VPrim (PBool true)) ∧
    ∃ scr', screen 7 (after_delay (run_toast_ops (user_close root) two_toasts)) = Some scr' ∧
            roots scr' = []) ∧
  (∃ scr, screen 8 two_toasts = Some scr ∧ texts scr = ["Saved"]).
Proof.
  assert (memoryState two_toasts
    = [{| t_id := "2"; t_open := Some true; t_onOpenChange := Some "2";
          t_props := [("title", PStr "Saved")] |}]) as E by (by vm_compute).
  assert (∀ s, bool_decide (7 ∈ listeners s ∧ 8 ∈ listeners s) = true →
               7 ∈ listeners s ∧ 8 ∈ listeners s) as Hd by (intros s; apply bool_decide_eq_true).
  split.
  - destruct (toaster_shows_store two_toasts ∅ false 7 two_toasts_reachable) as [H _];
      [by vm_compute; eexists|].
    destruct H as (scr & H1 & H2 & H3); [set_solver|]. rewrite E in H2, H3.
    apply Forall2_cons_inv_r in H3 as (root & rest & (_ & Ho & Hc) & _ & R).
    exists scr, root, rest. split_and!; [done|by rewrite H2|done|exact Ho|].
    apply Hc; [|done]. apply Hd. by vm_compute.
  - destruct (toaster_shows_store (exec (OEffect 8) one_toast) {[8]} false 8 one_toast_reachable) as [_ H];
      [by vm_compute; eexists|].
    destruct (H ltac:(apply Hd; by vm_compute) (OToast [("title", PStr "Saved")]) eq_refl) as (scr & H1 & H2 & _).
    exists scr. split; [exact H1|]. fold two_toasts in H2. by rewrite H2, E.
Defined.
