(* ===== verification/SidebarSession.v ===== *)
(** * A session with the sidebar

    The provider of [components/ui/sidebar.tsx] over time, and the sidebar on the
    screen.  Handlers belong to the render they were created in, and several events
    may come before the next one: the state of a session is the render the screen
    shows and the current state.  The screen is the sidebar's tree rendered through
    the library, and what is said about it is proved from the contract of the
    components ([UiRender]). *)

From S2P Require Import Prelude JsSort JsNumber JsText JsValue Markup UiKit UiElements UiOverlays UiMenus JsFloor Sidebar SidebarMenu UiSpec UiRender.

(** ** Sessions *)

Section Session.
Variable parent : option bool → bool → option bool.
Variable defaultOpen : bool.
(** The [open] property that the parent passed at first, and whether it passed
    [onOpenChange]. *)
Variable given : option bool.
Variable handler : bool.

(** [session r s]: the screen shows the render of [r], the current state is [s]. *)
Inductive session : Provider → Provider → Prop :=
  | session_mount :
      session (provider_mount defaultOpen given handler) (provider_mount defaultOpen given handler)
  | session_op r s a : session r s → session r (run_op parent r a s)
  | session_key r s ev : session r s → session r (handleKeyDown parent r ev s)
  | session_resize r s w : session r s → session r (provider_measure w s)
  | session_render r s : session r s → session s s.

(** The two ways to use the provider: it keeps its state itself, or a parent does, who
    passes what [onOpenChange] tells it as [open]. *)
Definition follows : Prop := ∀ b v, parent b v = Some v.

Definition keeps_state (p : option bool) (c : bool) : Prop :=
  (c = false ∧ p = None) ∨ (c = true ∧ follows).

(** The cookie, once written, is about the state; before, the sidebar is as the parent
    said, or else as the default says. *)
Record provider_ok (s : Provider) : Prop := {
  po_mode : keeps_state (openProp s) (controlled s);
  po_cookie : cookie s = match cookie s with
                         | None => None
                         | Some _ => Some (cookie_text (open s))
                         end;
  po_default : cookie s = None → open s = match given with Some b => b | None => defaultOpen end;
}.

Lemma toggle_ok r s : provider_ok s → provider_ok (toggleSidebar parent r s).
Proof.
  intros [Hm Hk Hd]. unfold toggleSidebar. destruct (useIsMobile _); [by split|].
  split; unfold setOpen, open; cbn [controlled openProp sb_open cookie];
    destruct Hm as [[-> ->]|[-> Hf]]; rewrite ?Hf; try done; [by left|by right].
Qed.

Lemma run_op_ok r a s : provider_ok s → provider_ok (run_op parent r a s).
Proof. intros Hs. destruct a; [by apply toggle_ok|by destruct Hs; split|done]. Qed.

Lemma mount_provider_ok : keeps_state given handler → provider_ok (provider_mount defaultOpen given handler).
Proof. intros Hm. split; [exact Hm|done|]. intros _. by destruct given. Qed.

Lemma session_provider_ok r s :
  keeps_state given handler → session r s → provider_ok r ∧ provider_ok s.
Proof.
  intros Hm.
  induction 1 as [|r s a _ [Hr Hs]|r s ev _ [Hr Hs]|r s w _ [Hr Hs]|r s _ [Hr Hs]];
    [split; by apply mount_provider_ok|split; try done..].
  - by apply run_op_ok.
  - unfold handleKeyDown. destruct (_ && _); [by apply toggle_ok|done].
  - by destruct Hs; split.
Qed.
End Session.

(** ** The screen *)

Section Screen.
Context `{Styling}.
Variable parent : option bool → bool → option bool.

Abbreviation sb_tree := (elem sb_op).

(** The sidebar with its content, and the button that toggles it. *)
Definition sidebar_tree (s : Provider) (side variant collapsible : string) (content : list sb_tree)
    : string + sb_tree :=
  Sidebar cn (Some (contextValue s)) side variant collapsible None [] content.

Definition trigger_tree (s : Provider) : string + sb_tree :=
  SidebarTrigger cn (Some (contextValue s)) None None [].

(** What the user does on the screen: a click on one of its elements, or a dialog
    primitive that reports whether it is open. *)
Definition clicks (scr : sb_tree) : list (list sb_op) :=
  omap (λ e, match elem_prop e "onClick" with Some (VHandler h) => Some (h click) | _ => None end)
    (elements scr).

Definition reports (b : bool) (scr : sb_tree) : list (list sb_op) :=
  omap (λ e, match elem_prop e "onOpenChange" with Some (VBoolHandler f) => Some (f b) | _ => None end)
    (elements scr).

Lemma clicks_own tag ps cs h :
  prop_get ps "onClick" = Some (VHandler h) → consumes (V := pval sb_op) tag "onClick" = false →
  h click ∈ clicks (render (El tag ps cs)).
Proof.
  intros Hh Hc. destruct (render_own tag ps cs "onClick" (VHandler h)) as (e & He & Hv); [done..|].
  apply list_elem_of_omap. exists e. by rewrite Hv.
Qed.

Lemma reports_own tag ps cs f b :
  prop_get ps "onOpenChange" = Some (VBoolHandler f) →
  consumes (V := pval sb_op) tag "onOpenChange" = false →
  f b ∈ reports b (render (El tag ps cs)).
Proof.
  intros Hf Hc. destruct (render_own tag ps cs "onOpenChange" (VBoolHandler f)) as (e & He & Hv); [done..|].
  apply list_elem_of_omap. exists e. by rewrite Hv.
Qed.

(** The desktop sidebar on the screen: its state and its content. *)
Lemma desktop_screen s side variant collapsible content :
  collapsible ≠ "none" → useIsMobile (sb_isMobile s) = false →
  ∃ t, sidebar_tree s side variant collapsible content = inr t ∧
    (∃ e, e ∈ elements (render t) ∧
          elem_prop e "data-state" = Some (VPrim (PStr (if open s then "expanded" else "collapsed")))) ∧
    (∀ c, c ∈ content → render c ∈ elements (render t)).
Proof.
  intros Hc Hm. unfold sidebar_tree, Sidebar. cbn [useSidebar contextValue ctx_isMobile].
  rewrite bool_decide_false, Hm by done. eexists. split; [reflexivity|]. split.
  - by eapply render_own.
  - intros c Hin. apply render_shown. eapply shown_below; [apply list_elem_of_further, list_elem_of_here| |done].
    eapply shown_below; [apply list_elem_of_here| |done]. by eapply shown_below; [|apply shown_here|].
Qed.

(** The mobile sheet on the screen: open or not, how it is closed, its content. *)
Lemma mobile_screen s side variant collapsible content :
  collapsible ≠ "none" → useIsMobile (sb_isMobile s) = true →
  ∃ t, sidebar_tree s side variant collapsible content = inr t ∧
    (∃ e, e ∈ elements (render t) ∧ elem_prop e "open" = Some (VPrim (PBool (sb_openMobile s)))) ∧
    (∀ b, [OpSetOpenMobile b] ∈ reports b (render t)) ∧
    (∀ c, c ∈ content → render c ∈ elements (render t)).
Proof.
  intros Hc Hm. unfold sidebar_tree, Sidebar. cbn [useSidebar contextValue ctx_isMobile].
  rewrite bool_decide_false, Hm by done. eexists. split; [reflexivity|]. split_and!.
  - by eapply render_own.
  - intros b. eapply (reports_own _ _ _ (λ value, [OpSetOpenMobile value])); [reflexivity|done].
  - intros c Hin. apply render_shown. eapply shown_below; [apply list_elem_of_here| |done].
    eapply shown_below; [apply list_elem_of_here| |done]. by eapply shown_below; [|apply shown_here|].
Qed.

(** The trigger on the screen toggles. *)
Lemma trigger_screen s : ∃ t, trigger_tree s = inr t ∧ [OpToggle] ∈ clicks (render t).
Proof.
  eexists. split; [reflexivity|]. eapply (clicks_own _ _ _ (λ ev, [OpToggle])); [reflexivity|done].
Qed.

(** C30: the sidebar on the screen is the sidebar of the state, at every render of a
    session, whatever clicks, shortcuts, resizes and late handlers came before, in both
    ways to use the provider: it keeps its state itself (neither [open] nor
    [onOpenChange] is passed), or a parent does, who passes back what [onOpenChange]
    tells it.  On a desktop the screen says whether the sidebar is expanded, on a phone
    it is a sheet that is open or not and that closes itself through its own report; the
    content is shown either way; a click on the trigger flips the one that is visible
    and leaves the other alone, and so do Ctrl+B and Cmd+B, and no other key; and the
    cookie, once written, holds the desktop's state; before, that is the [open] the
    parent passed at first, or the default. *)
Theorem sidebar_on_screen defaultOpen given handler s side variant collapsible content :
  keeps_state parent given handler → session parent defaultOpen given handler s s → collapsible ≠ "none" →
  (cookie s = None ∧ open s = match given with Some b => b | None => defaultOpen end
   ∨ cookie s = Some (cookie_text (open s))) ∧
  ∃ t tr, sidebar_tree s side variant collapsible content = inr t ∧ trigger_tree s = inr tr ∧
    (∀ c, c ∈ content → render c ∈ elements (render t)) ∧
    [OpToggle] ∈ clicks (render tr) ∧
    let s' := run_ops parent s [OpToggle] s in
    (∀ ev, handleKeyDown parent s ev s
           = if decide (ev_key ev = "b" ∧ (ev_ctrlKey ev = true ∨ ev_metaKey ev = true)) then s' else s) ∧
    if useIsMobile (sb_isMobile s) then
      (∃ e, e ∈ elements (render t) ∧ elem_prop e "open" = Some (VPrim (PBool (sb_openMobile s)))) ∧
      (∃ ops, ops ∈ reports false (render t) ∧ sb_openMobile (run_ops parent s ops s) = false ∧
              open (run_ops parent s ops s) = open s) ∧
      sb_openMobile s' = negb (sb_openMobile s) ∧ open s' = open s
    else
      (∃ e, e ∈ elements (render t) ∧
            elem_prop e "data-state" = Some (VPrim (PStr (if open s then "expanded" else "collapsed")))) ∧
      open s' = negb (open s) ∧ sb_openMobile s' = sb_openMobile s.
Proof.
  intros Hm0 Hs Hc. destruct (session_provider_ok _ _ _ _ _ _ Hm0 Hs) as [_ [Hmode Hk Hd]]. split.
  { destruct (cookie s); [by right|left; auto]. }
  destruct (trigger_screen s) as (tr & Htr & Hcl).
  assert ((controlled s = false ∧ openProp s = None) ∨ (controlled s = true ∧ ∀ b v, parent b v = Some v))
    as Hmode' by exact Hmode.
  pose proof (sidebar_toggle parent s Hmode') as Ht. cbn in Ht.
  pose proof (sidebar_shortcut parent s s) as Hkey.
  destruct (useIsMobile (sb_isMobile s)) eqn:Hm.
  - destruct (mobile_screen s side variant collapsible content Hc Hm) as (t & Hst & He & Hr & Hch).
    exists t, tr. destruct Ht as (Ht1 & _ & Ht2). cbv zeta. split_and!; try done.
    exists [OpSetOpenMobile false]. by split_and!.
  - destruct (desktop_screen s side variant collapsible content Hc Hm) as (t & Hst & He & Hch).
    exists t, tr. destruct Ht as (Ht1 & _ & Ht2). cbv zeta. by split_and!.
Qed.
End Screen.

(** ** Witness *)

#[local] Existing Instance plain_styling.

(** On a phone: the page loads, measures the window, and the trigger is pressed. *)
Definition phone_session : Provider :=
  let m := provider_measure 390 (provider_mount true None false) in
  run_op follow m OpToggle m.

Lemma phone_session_ok : session follow true None false phone_session phone_session.
Proof.
  apply (session_render _ _ _ _ (provider_measure 390 (provider_mount true None false))).
  apply session_op, (session_render _ _ _ _ (provider_mount true None false)), session_resize, session_mount.
Qed.

(** On a desktop, with a parent who keeps the state and starts with a closed sidebar. *)
Definition controlled_session : Provider := provider_measure 1280 (provider_mount true (Some false) true).

Lemma controlled_session_ok : session follow true (Some false) true controlled_session controlled_session.
Proof. apply (session_render _ _ _ _ (provider_mount true (Some false) true)), session_resize, session_mount. Qed.

Lemma sidebar_on_screen_witness :
  (∃ t, sidebar_tree phone_session "left" "sidebar" "offcanvas" [EText "Menu"] = inr t ∧
        EText "Menu" ∈ elements (render t) ∧
        ∃ e, e ∈ elements (render t) ∧ elem_prop e "open" = Some (VPrim (PBool true))) ∧
  (∃ t, sidebar_tree controlled_session "left" "sidebar" "offcanvas" [] = inr t ∧
        (∃ e, e ∈ elements (render t) ∧ elem_prop e "data-state" = Some (VPrim (PStr "collapsed"))) ∧
        open (run_ops follow controlled_session [OpToggle] controlled_session) = true).
Proof.
  split.
  - destruct (sidebar_on_screen follow true None false phone_session "left" "sidebar" "offcanvas" [EText "Menu"]
                ltac:(by left) phone_session_ok) as (_ & t & tr & Ht & _ & Hch & _ & _ & He & _); [done|].
    exists t. split_and!; [exact Ht|by apply (Hch (EText "Menu")), list_elem_of_here|exact He].
  - destruct (sidebar_on_screen follow true (Some false) true controlled_session "left" "sidebar" "offcanvas" []
                ltac:(by right) controlled_session_ok) as (_ & t & tr & Ht & _ & _ & _ & _ & He & Ho & _); [done|].
    exists t. split_and!; [exact Ht|exact He|exact Ho].
Defined.
