(* ===== verification/UiControls.v ===== *)
(** * Progress bars, toggle groups, code slots and the carousel's buttons

    The components of the library that compute: the shift of the progress
    indicator, the variant of an item in a toggle group, and the slots of a
    one-time-code input; and the labels of form fields and the buttons of the
    carousel on the screen. *)

From S2P Require Import Prelude JsSort JsNumber JsText JsValue Markup Carousel Form UiKit UiElements UiOverlays UiMenus JsFloor Sidebar SidebarMenu UiSpec UiRender.

(** ** Progress *)

(** The shift for a whole percentage; above 100 the number after the sign is
    negative itself. *)
Definition shift_text (z : Z) : string :=
  if (z <=? 100)%Z then "translateX(-" +:+ dec_N (Z.to_N (100 - z)) +:+ "%)"
  else "translateX(--" +:+ dec_N (Z.to_N (z - 100)) +:+ "%)".

Lemma shift_table :
  Forall (λ z, indicator_shift (PNum (of_Z z)) = shift_text z) (seqZ 0 201).
Proof. apply (bool_decide_unpack _). by vm_compute. Qed.

Lemma indicator_shift_whole z :
  (0 ≤ z ≤ 200)%Z → indicator_shift (PNum (of_Z z)) = shift_text z.
Proof.
  intros Hz. pose proof shift_table as Ht. rewrite Forall_forall in Ht. apply Ht, elem_of_seqZ. lia.
Qed.

Section Controls.
Context {V : Type} `{PropValue V} `{Styling}.
Implicit Types (ps : list (string * V)) (ch : list (tree V)).

(** A progress bar shows its value: for a whole percentage the indicator is moved
    left by exactly the missing part, and without a value by all of it; for a value
    above 100 the style has two signs, [translateX(--5%)], which is no length. *)
Lemma progress_position ps ch z :
  get ps "value" = PNum (of_Z z) ∨ (get ps "value" ∈ [Undefined; Null] ∧ z = 0%Z) →
  (0 ≤ z ≤ 200)%Z →
  ∃ x, x ∈ elements (Progress ps ch) ∧
       elem_prop x "style" = Some (pv_style [("transform", PStr (shift_text z))]).
Proof.
  intros Hv Hz. eexists. split; [eapply elements_child; [apply list_elem_of_here|apply elements_here]|].
  cbn [elem_prop prop_get]. rewrite bool_decide_false, bool_decide_true by done. do 5 f_equal.
  destruct Hv as [->|[Hv ->]]; [by apply indicator_shift_whole|].
  apply elem_of_cons in Hv as [->|[->|[]%elem_of_nil]%elem_of_cons]; by vm_compute.
Qed.

(** ** Toggle groups *)

(** The options an item asks its variant table for. *)
Definition item_options (context : ToggleContext) ps : list (string * prim) :=
  [("variant", js_or (tg_variant context) (get ps "variant"));
   ("size", js_or (tg_size context) (get ps "size"))].

Lemma item_class context ps ch :
  elem_prop (ToggleGroupItem context ps ch) "className"
  = Some (class_names [Some (cva toggleVariants (item_options context ps)); class_at ps "className"]).
Proof.
  unfold ToggleGroupItem. cbn [elem_prop]. rewrite prop_get_spread, prop_get_omit.
  by rewrite decide_True by set_solver.
Qed.

(** The group decides; an item decides only what its group leaves open. *)
Lemma group_options gps ps ch :
  item_options (fst (ToggleGroup gps ch)) ps
  = [("variant", if truthy (get gps "variant") then get gps "variant" else get ps "variant");
     ("size", if truthy (get gps "size") then get gps "size" else get ps "size")].
Proof. done. Qed.

(** Outside a group the default context decides, and an item's own variant and size
    are ignored. *)
Lemma standalone_options ps :
  item_options no_group ps = [("variant", PStr "default"); ("size", PStr "default")].
Proof. done. Qed.

(** ** Code slots *)

Lemma slot_throws_iff slots index ps :
  InputOTPSlot slots index ps = inl "TypeError" ↔ length slots ≤ index.
Proof.
  unfold InputOTPSlot. destruct (slots !! index) eqn:E.
  - split; [done|]. apply lookup_lt_Some in E. lia.
  - by apply lookup_ge_None in E.
Qed.
End Controls.

(** ** The label of a form field *)

(** Rendered through the library, the label still points at its control. *)
Lemma form_label_rendered `{Styling} {A} fieldContext itemContext form cls (ps : props A) ch lab v :
  FormLabel cn fieldContext itemContext form cls ps ch = inr lab → elem_prop lab "htmlFor" = Some v →
  ∃ x, x ∈ elements (render lab) ∧ elem_prop x "htmlFor" = Some v.
Proof.
  unfold FormLabel. destruct (useFormField fieldContext itemContext form) as [e|f]; [done|].
  cbn [res_bind]. intros [= <-] Hv. by apply render_own.
Qed.

(** ** The carousel's buttons *)

(** Rendered through the library, the buttons are enabled as the context says, and
    a click scrolls their way. *)
Lemma carousel_buttons_rendered `{Styling} c cls v sz :
  ∃ prev next,
    CarouselPrevious cn (Some c) cls v sz [] = inr prev ∧ CarouselNext cn (Some c) cls v sz [] = inr next ∧
    is_disabled (render prev) = negb (cx_canScrollPrev c) ∧
    is_disabled (render next) = negb (cx_canScrollNext c) ∧
    on_click (render prev) = [OpPrev] ∧ on_click (render next) = [OpNext].
Proof.
  eexists _, _. split_and!; [reflexivity..| | | |].
  - by etransitivity; [apply button_on_screen|].
  - by etransitivity; [apply button_on_screen|].
  - by etransitivity; [apply button_on_screen|].
  - by etransitivity; [apply button_on_screen|].
Qed.

(** ** Witness *)

#[local] Existing Instance plain_styling.

Lemma progress_position_witness :
  ∃ x, x ∈ elements (Progress (V := pval Empty_set) [("value", VPrim (PNum (of_Z 105)))] []) ∧
       elem_prop x "style" = Some (VStyle [("transform", PStr "translateX(--5%)")]).
Proof.
  exact (progress_position [("value", VPrim (PNum (of_Z 105)))] [] 105
           (or_introl eq_refl) ltac:(lia)).
Defined.
