(* ===== verification/CarouselSession.v ===== *)
(** * A session with the carousel

    The component of [components/ui/carousel.tsx] together with its engine over
    time: the user clicks the buttons on the screen or presses keys, the engine also
    moves by itself (dragging, a plugin, a resize), and it reports what happened by
    events, which arrive later.  The buttons are the ones on the screen, rendered
    through the library. *)

From S2P Require Import Prelude JsSort JsNumber JsText JsValue Markup Carousel UiKit UiElements UiOverlays UiMenus JsFloor Sidebar SidebarMenu UiSpec UiRender UiControls.

Section Session.
Context {Api : Type} `{EL : EmblaLaws Api} `{Styling}.
(** The component's callback, its orientation, and the [axis] of its options. *)
Variables (h : nat) (orientation : string) (axis : option string).

(** The component, and the events the engine has not delivered yet. *)
Record CarouselRun := { cr_state : @CarouselState Api; pending : list string }.

(** What a click on the screen asks for. *)
Definition run_carousel_op (s : @CarouselState Api) (a : carousel_op) : @CarouselState Api :=
  match a with
  | OpPrev => doScrollPrev s
  | OpNext => doScrollNext s
  | OpKey ev => Carousel.handleKeyDown ev s
  end.

(** The two buttons on the screen. *)
Definition prev_button (s : @CarouselState Api) : string + elem carousel_op :=
  CarouselPrevious cn (Some (carousel_context s orientation axis)) None "outline" "icon" [].
Definition next_button (s : @CarouselState Api) : string + elem carousel_op :=
  CarouselNext cn (Some (carousel_context s orientation axis)) None "outline" "icon" [].

(** Scrolling is reported by a "select" event; a re-initialisation by "reInit". *)
Inductive carousel_step : CarouselRun → CarouselRun → Prop :=
  | step_click r b :
      prev_button (cr_state r) = inr b ∨ next_button (cr_state r) = inr b →
      is_disabled (render b) = false →
      carousel_step r {| cr_state := foldl run_carousel_op (cr_state r) (on_click (render b));
                         pending := pending r ++ ["select"] |}
  | step_press r ev :
      carousel_step r {| cr_state := Carousel.handleKeyDown ev (cr_state r);
                         pending := pending r ++ ["select"] |}
  | step_engine r a a' e :
      api (cr_state r) = Some a → (∀ ev, callbacks a' ev = callbacks a ev) →
      e ∈ ["select"; "reInit"] →
      carousel_step r {| cr_state := with_api (cr_state r) (Some a'); pending := pending r ++ [e] |}
  | step_deliver r e rest :
      pending r = e :: rest →
      carousel_step r {| cr_state := emit h e (cr_state r); pending := rest |}.

(** From the moment the effect listens to the engine. *)
Inductive carousel_reachable (s0 : @CarouselState Api) : CarouselRun → Prop :=
  | carousel_start : carousel_reachable s0 {| cr_state := listen_effect h s0; pending := [] |}
  | carousel_next r r' : carousel_reachable s0 r → carousel_step r r' → carousel_reachable s0 r'.

(** Delivering what is pending. *)
Definition drain (r : CarouselRun) : CarouselRun :=
  {| cr_state := foldl (λ s e, emit h e s) (cr_state r) (pending r); pending := [] |}.

(** ** The invariant *)

(** The callback stays registered, only its two events are pending, and the flags
    may be out of date only while an event is pending. *)
Record run_ok (r : CarouselRun) : Prop := {
  ro_listens : ∃ a, api (cr_state r) = Some a ∧ h ∈ callbacks a "select" ∧ h ∈ callbacks a "reInit";
  ro_events : ∀ e, e ∈ pending r → e ∈ ["select"; "reInit"];
  ro_mirrors : pending r = [] → mirrors (cr_state r);
}.

Definition listens (s : @CarouselState Api) : Prop :=
  ∃ a, api s = Some a ∧ h ∈ callbacks a "select" ∧ h ∈ callbacks a "reInit".

Lemma scroll_listens s :
  listens s → listens (doScrollPrev s) ∧ listens (doScrollNext s) ∧ ∀ b, listens (set_prevented b s).
Proof.
  intros (a & Ha & H1 & H2). split_and!.
  - exists (scrollPrev a). cbn. by rewrite Ha, !prev_callbacks.
  - exists (scrollNext a). cbn. by rewrite Ha, !next_callbacks.
  - intros b. by exists a.
Qed.

Lemma key_listens ev s : listens s → listens (Carousel.handleKeyDown ev s).
Proof.
  intros Hs. unfold Carousel.handleKeyDown. destruct (scroll_listens s Hs) as (_ & _ & Hp).
  case_bool_decide; [apply scroll_listens, Hp|]. case_bool_decide; [apply scroll_listens, Hp|apply Hp].
Qed.

Lemma op_listens a s : listens s → listens (run_carousel_op s a).
Proof. intros Hs. destruct a; [by apply scroll_listens..|by apply key_listens]. Qed.

Lemma emit_ok e s : listens s → e ∈ ["select"; "reInit"] → listens (emit h e s) ∧ mirrors (emit h e s).
Proof.
  intros (a & Ha & H1 & H2) He.
  assert (h ∈ callbacks a e) as Hh
    by (apply elem_of_cons in He as [->|[->|[]%elem_of_nil]%elem_of_cons]; done).
  split; [|by eapply emit_mirrors]. exists a. unfold emit. by rewrite Ha, bool_decide_true.
Qed.

(** A new event is pending, so only the registration matters. *)
Lemma event_ok s q e :
  listens s → (∀ e, e ∈ q → e ∈ ["select"; "reInit"]) → e ∈ ["select"; "reInit"] →
  run_ok {| cr_state := s; pending := q ++ [e] |}.
Proof.
  intros Hs Hq He. split; [done| |].
  - intros e' [?|E]%elem_of_app; [by apply Hq|]. by apply list_elem_of_singleton in E as ->.
  - cbn. by intros [_ ?]%app_nil.
Qed.

Lemma step_ok r r' : run_ok r → carousel_step r r' → run_ok r'.
Proof.
  intros [Hl He Hm] Hs. destruct Hs as [r b Hb _|r ev|r a a' e Ha Hc Hin|r e rest Hp].
  - apply event_ok; [|done|set_solver].
    induction (on_click (render b)) as [|op ops IH] using rev_ind; [done|].
    rewrite foldl_app. by apply op_listens.
  - apply event_ok; [by apply key_listens|done|set_solver].
  - apply event_ok; [|done|done]. destruct Hl as (a0 & Ha0 & H1 & H2). rewrite Ha in Ha0. injection Ha0 as <-.
    exists a'. by rewrite !Hc.
  - destruct (emit_ok e (cr_state r) Hl) as [H1 H2]; [apply He; rewrite Hp; by left|].
    split; [done| |done]. intros e' Hin. apply He. rewrite Hp. by right.
Qed.

Lemma reachable_ok s0 a0 r : api s0 = Some a0 → carousel_reachable s0 r → run_ok r.
Proof.
  intros Ha. induction 1 as [|r r' _ IH Hs]; [|by eapply step_ok].
  split; [|by intros e ?%elem_of_nil|intros _; by eapply listen_mirrors].
  destruct (listen_registers h s0 a0 Ha) as (a & E & H1 & H2). by exists a.
Qed.

Lemma drain_ok r : run_ok r → run_ok (drain r).
Proof.
  destruct r as [s q]. intros [Hl He Hm]. cbn in *. revert s Hl Hm.
  induction q as [|e q IH]; intros s Hl Hm; [by split|].
  destruct (emit_ok e s Hl) as [H1 H2]; [apply He; by left|].
  apply (IH ltac:(intros e' Hin; apply He; by right) (emit h e s)); [done|by intros _].
Qed.

(** ** Main theorem *)

(** C31: the buttons tell the truth: however the session went, with clicks on the
    screen, keys and moves of the engine in any order and with events arriving late,
    once the pending events are delivered each button on the screen is enabled
    exactly when the engine can scroll that way, and a click on it scrolls that way. *)
Theorem carousel_buttons_truthful s0 a0 r :
  api s0 = Some a0 → carousel_reachable s0 r →
  let s := cr_state (drain r) in
  ∃ a prev next, api s = Some a ∧ prev_button s = inr prev ∧ next_button s = inr next ∧
    is_disabled (render prev) = negb (canScrollPrev a) ∧
    is_disabled (render next) = negb (canScrollNext a) ∧
    api (foldl run_carousel_op s (on_click (render prev))) = Some (scrollPrev a) ∧
    api (foldl run_carousel_op s (on_click (render next))) = Some (scrollNext a).
Proof.
  intros Ha Hr s. destruct (drain_ok r (reachable_ok s0 a0 r Ha Hr)) as [_ _ Hm].
  destruct (Hm eq_refl) as (a & Hs & Hp & Hn). fold s in Hs, Hp, Hn.
  destruct (carousel_buttons_rendered (carousel_context s orientation axis) None "outline" "icon")
    as (prev & next & E1 & E2 & D1 & D2 & C1 & C2).
  exists a, prev, next. rewrite D1, D2, C1, C2. cbn [foldl run_carousel_op doScrollPrev doScrollNext with_api api
    carousel_context cx_canScrollPrev cx_canScrollNext]. by rewrite Hs, Hp, Hn.
Qed.
End Session.

(** ** Witness *)

#[local] Existing Instance plain_styling.

(** Three slides: a click on "next", and the engine drags on by itself before its
    events arrive. *)
Lemma carousel_buttons_truthful_witness :
  ∃ r : CarouselRun (Api := Slides),
    carousel_reachable 4 "horizontal" None carousel_ready r ∧ pending r = ["select"; "select"] ∧
    let s := cr_state (drain 4 r) in
    ∃ prev next, prev_button "horizontal" None s = inr prev ∧ next_button "horizontal" None s = inr next ∧
      is_disabled (render prev) = false ∧ is_disabled (render next) = true.
Proof.
  set (s1 := listen_effect 4 carousel_ready).
  destruct (carousel_buttons_rendered (carousel_context s1 "horizontal" None) None "outline" "icon")
    as (prev & next & _ & E & _ & D & _ & C).
  set (a2 := scrollNext (scrollNext (on (on three_slides "reInit" 4) "select" 4))).
  assert (Hr : carousel_reachable 4 "horizontal" None carousel_ready
    {| cr_state := with_api (doScrollNext s1) (Some a2); pending := ["select"; "select"] |}).
  { eapply (carousel_next _ _ _ _ {| cr_state := doScrollNext s1; pending := ["select"] |}).
    - eapply (carousel_next _ _ _ _ {| cr_state := s1; pending := [] |}); [apply carousel_start|].
      pose proof (step_click 4 "horizontal" None {| cr_state := s1; pending := [] |} next) as Hs.
      rewrite C in Hs. apply Hs; [by right|]. by rewrite D.
    - eapply (step_engine _ _ _ {| cr_state := doScrollNext s1; pending := ["select"] |});
        [reflexivity|done|by left]. }
  eexists. split_and!; [exact Hr|done|].
  destruct (carousel_buttons_truthful 4 "horizontal" None carousel_ready three_slides _ eq_refl Hr)
    as (a & p & n & Ha & Ep & En & Dp & Dn & _).
  exists p, n. rewrite Dp, Dn. split_and!; [exact Ep|exact En|..]; injection Ha as <-; by vm_compute.
Defined.
