(* ===== verification/UiOptions.v ===== *)
(** * Components that take objects of options

    [calendar.tsx] and [sonner.tsx] of [components/ui] configure a package through
    properties that hold objects: class names by part, nested options, components
    to render with.  Objects and components are values here; the packages'
    elements, [DayPicker] and [Sonner], are tags. *)

From S2P Require Import Prelude JsSort JsNumber JsText JsValue Markup UiKit UiElements.

(** A value of such a property; a component maps properties to what it renders. *)
Inductive oval :=
  | OPrim (v : prim)
  | OObj (fields : list (string * oval))
  | ORender (f : list (string * prim) → tree prim).

Abbreviation flat l := (OObj (map (λ kv, (kv.1, OPrim kv.2)) l)).

#[export] Instance oval_value : PropValue oval := {
  pv := OPrim;
  as_prim v := match v with OPrim p => Some p | _ => None end;
  pv_style l := flat l;
  as_prim_pv p := eq_refl;
}.

(** [...v] in an object literal; [undefined] and [null] have no fields. *)
Definition fields_of (v : oval) : list (string * oval) :=
  match v with OObj l => l | _ => [] end.

(** A field of an object. *)
Definition field (v : oval) (k : string) : option oval := prop_get (fields_of v) k.

Section Options.
Context `{Styling}.

(** ** [Calendar] *)

Definition calendar_classes : list (string * prim) :=
  [("months", PStr "flex flex-col sm:flex-row space-y-4 sm:space-x-4 sm:space-y-0");
   ("month", PStr "space-y-4");
   ("caption", PStr "flex justify-center pt-1 relative items-center");
   ("caption_label", PStr "text-sm font-medium");
   ("nav", PStr "space-x-1 flex items-center");
   ("nav_button", PStr (cn [Some (cva buttonVariants [("variant", PStr "outline")]); Some "h-7 w-7 bg-transparent p-0 opacity-50 hover:opacity-100"]));
   ("nav_button_previous", PStr "absolute left-1");
   ("nav_button_next", PStr "absolute right-1");
   ("table", PStr "w-full border-collapse space-y-1");
   ("head_row", PStr "flex");
   ("head_cell", PStr "text-muted-foreground rounded-md w-9 font-normal text-[0.8rem]");
   ("row", PStr "flex w-full mt-2");
   ("cell", PStr "h-9 w-9 text-center text-sm p-0 relative [&:has([aria-selected].day-range-end)]:rounded-r-md [&:has([aria-selected].day-outside)]:bg-accent/50 [&:has([aria-selected])]:bg-accent first:[&:has([aria-selected])]:rounded-l-md last:[&:has([aria-selected])]:rounded-r-md focus-within:relative focus-within:z-20");
   ("day", PStr (cn [Some (cva buttonVariants [("variant", PStr "ghost")]); Some "h-9 w-9 p-0 font-normal aria-selected:opacity-100"]));
   ("day_range_end", PStr "day-range-end");
   ("day_selected", PStr "bg-primary text-primary-foreground hover:bg-primary hover:text-primary-foreground focus:bg-primary focus:text-primary-foreground");
   ("day_today", PStr "bg-accent text-accent-foreground");
   ("day_outside", PStr "day-outside text-muted-foreground aria-selected:bg-accent/50 aria-selected:text-muted-foreground");
   ("day_disabled", PStr "text-muted-foreground opacity-50");
   ("day_range_middle", PStr "aria-selected:bg-accent aria-selected:text-accent-foreground");
   ("day_hidden", PStr "invisible")].

Definition IconLeft (ps : list (string * prim)) : tree prim :=
  El "ChevronLeft" [("className", PStr "h-4 w-4")] [].

Definition IconRight (ps : list (string * prim)) : tree prim :=
  El "ChevronRight" [("className", PStr "h-4 w-4")] [].

Definition Calendar : component oval := λ ps ch,
  let showOutsideDays := with_default ps "showOutsideDays" (pv (PBool true)) in
  El "DayPicker"
    (spread
      [("showOutsideDays", showOutsideDays);
       ("className", class_names [Some "p-3"; class_at ps "className"]);
       ("classNames", OObj (spread (fields_of (flat calendar_classes)) (fields_of (raw ps "classNames"))));
       ("components", OObj [("IconLeft", ORender IconLeft); ("IconRight", ORender IconRight)])]
      (omit ["className"; "classNames"; "showOutsideDays"] ps))
    ch.

(** ** [Toaster] of [sonner.tsx] *)

Definition sonner_classes : list (string * prim) :=
  [("toast", PStr "group toast group-[.toaster]:bg-background group-[.toaster]:text-foreground group-[.toaster]:border-border group-[.toaster]:shadow-lg");
   ("description", PStr "group-[.toast]:text-muted-foreground");
   ("actionButton", PStr "group-[.toast]:bg-primary group-[.toast]:text-primary-foreground");
   ("cancelButton", PStr "group-[.toast]:bg-muted group-[.toast]:text-muted-foreground")].

(** [theme] is what [useTheme()] has, with its default. *)
Definition SonnerToaster (theme : option string) : component oval := λ ps ch,
  El "Sonner"
    (spread
      [("theme", pv (PStr (default "system" theme)));
       ("className", pv (PStr "toaster group"));
       ("toastOptions", OObj [("classNames", flat sonner_classes)])]
      ps)
    ch.

(** ** Lemmas *)

(** A field of an object made with [{ ...defaults, ...given }]. *)
Lemma field_spread base extra k :
  field (OObj (spread base extra)) k
  = match prop_get extra k with Some v => Some v | None => prop_get base k end.
Proof. apply prop_get_spread. Qed.

(** The caller restyles single parts of the calendar; the other parts keep the
    library's classes. *)
Lemma calendar_class_names ps ch :
  ∃ v, elem_prop (Calendar ps ch) "classNames" = Some v ∧
       ∀ k, field v k = match field (raw ps "classNames") k with
                        | Some c => Some c
                        | None => prop_get (fields_of (flat calendar_classes)) k
                        end.
Proof.
  eexists. split; [|intros k; apply field_spread].
  unfold Calendar. cbn [elem_prop]. rewrite prop_get_spread, prop_get_omit.
  by rewrite decide_True by set_solver.
Qed.

(** The days of other months are shown unless the caller says something else. *)
Lemma calendar_outside_days ps ch :
  elem_prop (Calendar ps ch) "showOutsideDays" = Some (with_default ps "showOutsideDays" (OPrim (PBool true))).
Proof.
  unfold Calendar. cbn [elem_prop]. rewrite prop_get_spread, prop_get_omit.
  by rewrite decide_True by set_solver.
Qed.

(** Options of the notifications, on the other hand, replace the library's classes
    all together: nothing is merged below the top level. *)
Lemma sonner_options theme ps ch v :
  prop_get ps "toastOptions" = Some v →
  elem_prop (SonnerToaster theme ps ch) "toastOptions" = Some v.
Proof. intros E. unfold SonnerToaster. cbn [elem_prop]. by rewrite prop_get_spread, E. Qed.
End Options.
