(* ===== verification/Theme.v ===== *)
(** * The theme

    Models the theme of [tailwind.config.ts], its colours, radii, key frames and
    animations, and the custom properties that [app/globals.css] gives a value in
    its two themes, [:root] and [.dark].  Shown is that they fit together: what
    the configuration refers to is defined. *)

From S2P Require Import Prelude JsSort JsNumber JsText JsValue Markup UiKit UiElements.

(** ** [tailwind.config.ts] *)

Inductive config_color :=
  | Flat (value : string)
  | Shades (values : list (string * string)).

Definition colors : list (string * config_color) :=
  [("background", Flat "hsl(var(--background))");
   ("foreground", Flat "hsl(var(--foreground))");
   ("card", Shades
      [("DEFAULT", "hsl(var(--card))");
       ("foreground", "hsl(var(--card-foreground))")]);
   ("popover", Shades
      [("DEFAULT", "hsl(var(--popover))");
       ("foreground", "hsl(var(--popover-foreground))")]);
   ("primary", Shades
      [("DEFAULT", "hsl(var(--primary))");
       ("foreground", "hsl(var(--primary-foreground))")]);
   ("secondary", Shades
      [("DEFAULT", "hsl(var(--secondary))");
       ("foreground", "hsl(var(--secondary-foreground))")]);
   ("muted", Shades
      [("DEFAULT", "hsl(var(--muted))");
       ("foreground", "hsl(var(--muted-foreground))")]);
   ("accent", Shades
      [("DEFAULT", "hsl(var(--accent))");
       ("foreground", "hsl(var(--accent-foreground))")]);
   ("destructive", Shades
      [("DEFAULT", "hsl(var(--destructive))");
       ("foreground", "hsl(var(--destructive-foreground))")]);
   ("border", Flat "hsl(var(--border))");
   ("input", Flat "hsl(var(--input))");
   ("ring", Flat "hsl(var(--ring))");
   ("chart", Shades
      [("1", "hsl(var(--chart-1))");
       ("2", "hsl(var(--chart-2))");
       ("3", "hsl(var(--chart-3))");
       ("4", "hsl(var(--chart-4))");
       ("5", "hsl(var(--chart-5))")]);
   ("sidebar", Shades
      [("DEFAULT", "hsl(var(--sidebar-background))");
       ("foreground", "hsl(var(--sidebar-foreground))");
       ("primary", "hsl(var(--sidebar-primary))");
       ("primary-foreground", "hsl(var(--sidebar-primary-foreground))");
       ("accent", "hsl(var(--sidebar-accent))");
       ("accent-foreground", "hsl(var(--sidebar-accent-foreground))");
       ("border", "hsl(var(--sidebar-border))");
       ("ring", "hsl(var(--sidebar-ring))")])].

Definition borderRadius : list (string * string) :=
  [("lg", "var(--radius)");
   ("md", "calc(var(--radius) - 2px)");
   ("sm", "calc(var(--radius) - 4px)")].

(** Key frames: from and to, each with the height it sets. *)
Definition keyframes : list (string * list (string * list (string * string))) :=
  [("accordion-down",
     [("from", [("height", "0")]); ("to", [("height", "var(--radix-accordion-content-height)")])]);
   ("accordion-up",
     [("from", [("height", "var(--radix-accordion-content-height)")]); ("to", [("height", "0")])])].

Definition animation : list (string * string) :=
  [("accordion-down", "accordion-down 0.2s ease-out");
   ("accordion-up", "accordion-up 0.2s ease-out")].

(** ** [globals.css] *)

Definition root_properties : list (string * string) :=
  [("--background", "0 0% 100%");
   ("--foreground", "0 0% 3.9%");
   ("--card", "0 0% 100%");
   ("--card-foreground", "0 0% 3.9%");
   ("--popover", "0 0% 100%");
   ("--popover-foreground", "0 0% 3.9%");
   ("--primary", "0 0% 9%");
   ("--primary-foreground", "0 0% 98%");
   ("--secondary", "0 0% 96.1%");
   ("--secondary-foreground", "0 0% 9%");
   ("--muted", "0 0% 96.1%");
   ("--muted-foreground", "0 0% 45.1%");
   ("--accent", "0 0% 96.1%");
   ("--accent-foreground", "0 0% 9%");
   ("--destructive", "0 84.2% 60.2%");
   ("--destructive-foreground", "0 0% 98%");
   ("--border", "0 0% 89.8%");
   ("--input", "0 0% 89.8%");
   ("--ring", "0 0% 3.9%");
   ("--chart-1", "12 76% 61%");
   ("--chart-2", "173 58% 39%");
   ("--chart-3", "197 37% 24%");
   ("--chart-4", "43 74% 66%");
   ("--chart-5", "27 87% 67%");
   ("--radius", "0.5rem");
   ("--sidebar-background", "0 0% 98%");
   ("--sidebar-foreground", "240 5.3% 26.1%");
   ("--sidebar-primary", "240 5.9% 10%");
   ("--sidebar-primary-foreground", "0 0% 98%");
   ("--sidebar-accent", "240 4.8% 95.9%");
   ("--sidebar-accent-foreground", "240 5.9% 10%");
   ("--sidebar-border", "220 13% 91%");
   ("--sidebar-ring", "217.2 91.2% 59.8%")].

Definition dark_properties : list (string * string) :=
  [("--background", "0 0% 3.9%");
   ("--foreground", "0 0% 98%");
   ("--card", "0 0% 3.9%");
   ("--card-foreground", "0 0% 98%");
   ("--popover", "0 0% 3.9%");
   ("--popover-foreground", "0 0% 98%");
   ("--primary", "0 0% 98%");
   ("--primary-foreground", "0 0% 9%");
   ("--secondary", "0 0% 14.9%");
   ("--secondary-foreground", "0 0% 98%");
   ("--muted", "0 0% 14.9%");
   ("--muted-foreground", "0 0% 63.9%");
   ("--accent", "0 0% 14.9%");
   ("--accent-foreground", "0 0% 98%");
   ("--destructive", "0 62.8% 30.6%");
   ("--destructive-foreground", "0 0% 98%");
   ("--border", "0 0% 14.9%");
   ("--input", "0 0% 14.9%");
   ("--ring", "0 0% 83.1%");
   ("--chart-1", "220 70% 50%");
   ("--chart-2", "160 60% 45%");
   ("--chart-3", "30 80% 55%");
   ("--chart-4", "280 65% 60%");
   ("--chart-5", "340 75% 55%");
   ("--sidebar-background", "240 5.9% 10%");
   ("--sidebar-foreground", "240 4.8% 95.9%");
   ("--sidebar-primary", "224.3 76.3% 48%");
   ("--sidebar-primary-foreground", "0 0% 100%");
   ("--sidebar-accent", "240 3.7% 15.9%");
   ("--sidebar-accent-foreground", "240 4.8% 95.9%");
   ("--sidebar-border", "240 3.7% 15.9%");
   ("--sidebar-ring", "217.2 91.2% 59.8%")].

(** ** References *)

(** The custom properties that a value refers to with [var(...)]. *)
Fixpoint css_vars (s : string) : list string :=
  match s with
  | EmptyString => []
  | String _ s' =>
      (if String.prefix "var(" s
       then match String.index 0 ")" s with
            | Some n => [String.substring 4 (n - 4) s]
            | None => []
            end
       else []) ++ css_vars s'
  end.

(** [a b c] of an [hsl(var(--x))]: a hue, a saturation and a lightness. *)
Definition is_hsl (v : string) : bool :=
  match split_on " " v with
  | [h; s; l] => String.eqb (String.substring (String.length s - 1) 1 s) "%"
                 && String.eqb (String.substring (String.length l - 1) 1 l) "%"
                 && negb (is_nan (string_to_num h))
  | _ => false
  end.

Definition color_values (c : config_color) : list string :=
  match c with Flat v => [v] | Shades l => l.*2 end.

(** The value of a property in the dark theme, which falls back on [:root]. *)
Definition dark_get (k : string) : option string :=
  match prop_get dark_properties k with Some v => Some v | None => prop_get root_properties k end.

(** ** The theme fits together *)

(** Every colour is made from one custom property, which both themes define anew as
    a hue, a saturation and a lightness; every radius is made from a defined length;
    every animation runs key frames that exist. *)
Definition theme_closed : bool :=
  forallb (λ c, forallb (λ v,
    match css_vars v with
    | [x] => String.eqb v ("hsl(var(" +:+ x +:+ "))")
             && from_option is_hsl false (prop_get root_properties x)
             && from_option is_hsl false (prop_get dark_properties x)
    | _ => false
    end) (color_values c.2)) colors
  && forallb (λ r, forallb (λ x, bool_decide (is_Some (dark_get x))) (css_vars r.2)
                   && negb (bool_decide (css_vars r.2 = []))) borderRadius
  && forallb (λ a, match split_on " " a.2 with
                   | k :: _ => bool_decide (is_Some (prop_get keyframes k))
                   | [] => false
                   end) animation.

Lemma theme_is_closed : theme_closed = true.
Proof. by vm_compute. Qed.

(** No property is defined twice, and the dark theme defines nothing that the light
    one lacks; it keeps the radius of the light one. *)
Lemma themes_agree :
  NoDup root_properties.*1 ∧ NoDup dark_properties.*1 ∧
  List.filter (λ k, negb (bool_decide (k ∈ dark_properties.*1))) root_properties.*1 = ["--radius"] ∧
  Forall (λ k, k ∈ root_properties.*1) dark_properties.*1.
Proof. split_and!; [apply (bool_decide_unpack _)..| |apply (bool_decide_unpack _)]; by vm_compute. Qed.

(** The classes of an element. *)
Definition class_list {V} `{PropValue V} (t : tree V) : list string :=
  match elem_prop t "className" ≫= as_prim with Some (PStr s) => split_on " " s | _ => [] end.

(** The accordion's animations are those of the theme. *)
Lemma accordion_animations `{Styling} (ch : list (elem Empty_set)) :
  Forall (λ a, "data-[state=closed]:animate-" +:+ a.1 ∈ class_list (AccordionContent [] ch) ∨
               "data-[state=open]:animate-" +:+ a.1 ∈ class_list (AccordionContent [] ch)) animation.
Proof.
  assert (class_list (AccordionContent [] ch)
    = ["overflow-hidden"; "text-sm"; "transition-all"; "data-[state=closed]:animate-accordion-up";
       "data-[state=open]:animate-accordion-down"]) as -> by reflexivity.
  apply Forall_cons; split; [right; set_solver|]. apply Forall_cons; split; [left; set_solver|done].
Qed.
