(* ===== verification/UiPage.v ===== *)
(** * The dashboard's page through the user-interface library

    [View] draws the page with the components of [components/ui] as tags.  Here
    these tags are replaced by what the components render ([expand]), and the
    result is compared with the page: the library neither adds, drops nor changes
    what a control does, and the page reads the same. *)

From Stdlib Require Import SpecFloat.
From S2P Require Import Prelude JsSort JsNumber JsText JsValue Markup UrlParams BenchmarkData SampleData Filters ChartData ChartSpec Ranking DashboardState Session View ViewSpec UiKit UiElements.

#[local] Open Scope js_scope.

Section Page.
Context `{Styling}.

(** The components the dashboard imports. *)
Definition dashboard_components : list (string * component attr) :=
  [("Badge", Badge); ("Card", Card); ("CardContent", CardContent); ("CardHeader", CardHeader);
   ("CardTitle", CardTitle); ("Label", Label); ("Select", Select); ("SelectContent", SelectContent);
   ("SelectGroup", SelectGroup); ("SelectItem", UiElements.SelectItem); ("SelectLabel", SelectLabel);
   ("SelectTrigger", SelectTrigger); ("SelectValue", SelectValue); ("Tabs", Tabs);
   ("TabsList", TabsList); ("TabsTrigger", TabsTrigger)].

(** Rendering an element whose tag is a component calls the component; the key stays
    with React. *)
Fixpoint expand (n : node) : node :=
  match n with
  | Txt s => Txt s
  | El tag attrs cs =>
      match own_get dashboard_components tag with
      | Some c => c (omit ["key"] attrs) (map expand cs)
      | None => El tag attrs (map expand cs)
      end
  end.

(** ** Components that leave the controls alone *)

(** The component does what an element with the same attributes and children does,
    and shows the same texts. *)
Definition transparent (c : component attr) : Prop :=
  ∀ tag attrs cs,
    (∀ h, choices h (c attrs cs) = choices h (El tag attrs cs)) ∧
    texts (c attrs cs) = texts (El tag attrs cs).

(** The attributes that make a control. *)
Definition control_attrs : list string := ["value"; "onClick"; "onValueChange"].

(** Other tags, other attributes than these, and decoration without controls do not
    matter. *)
Lemma choices_same h t t' attrs attrs' cs cs' :
  (∀ k, k ∈ control_attrs → attr_get attrs' k = attr_get attrs k) →
  (∀ h, below h cs' = below h cs) →
  choices h (El t' attrs' cs') = choices h (El t attrs cs).
Proof.
  intros Hk Hb. cbn [choices]. unfold below in Hb. rewrite !Hk by (unfold control_attrs; set_solver).
  by rewrite Hb.
Qed.

(** Merging the class name and leaving out other properties keeps them. *)
Lemma attrs_kept base names (attrs : list (string * attr)) :
  Forall (λ k, k ∉ names ∧ prop_get base k = None) control_attrs →
  ∀ k, k ∈ control_attrs → attr_get (spread base (omit names attrs)) k = attr_get attrs k.
Proof.
  intros Hb k Hk. rewrite Forall_forall in Hb. destruct (Hb k Hk) as [Hn Hk'].
  rewrite prop_get_spread, prop_get_omit. rewrite decide_False by done. rewrite Hk'.
  by destruct (prop_get attrs k).
Qed.

Lemma texts_El t attrs (cs : list node) : texts (El t attrs cs) = concat (map texts cs).
Proof. done. Qed.

Lemma below_decor h (cs l : list node) : below h l = [] → below h (cs ++ l) = below h cs.
Proof. intros Hl. by rewrite below_app, Hl, app_nil_r. Qed.

Lemma below_single h t attrs (cs : list node) :
  Forall (λ k, attr_get attrs k = None) control_attrs → below h [El t attrs cs] = below h cs.
Proof.
  unfold control_attrs. rewrite !Forall_cons. intros (H1 & H2 & H3 & _).
  rewrite below_cons, below_nil, app_nil_r. by apply choices_El.
Qed.

Ltac no_control := by repeat constructor.

Ltac kept :=
  apply attrs_kept; unfold control_attrs;
  repeat (apply Forall_cons; split; [split; [set_solver|reflexivity]|]); by apply Forall_nil.

Ltac wrapper :=
  intros tag attrs cs; split; [intros h; apply choices_same; [kept|done]|done].

Lemma transparent_alias t : transparent (El t).
Proof. intros tag attrs cs. split; [intros h; by apply choices_same|done]. Qed.

Lemma SelectTrigger_transparent : transparent SelectTrigger.
Proof.
  intros tag attrs cs. split.
  - intros h. apply choices_same; [kept|]. intros h'. apply below_decor. by destruct h'.
  - unfold SelectTrigger. rewrite !texts_El, map_app, concat_app. apply app_nil_r.
Qed.

Lemma SelectItem_transparent : transparent UiElements.SelectItem.
Proof.
  intros tag attrs cs. split.
  - intros h. apply choices_same; [kept|]. intros h'. rewrite below_app, !below_single by no_control.
    by destruct h'.
  - unfold UiElements.SelectItem. rewrite texts_El, map_app, concat_app. cbn. by rewrite !app_nil_r.
Qed.

Lemma SelectContent_transparent : transparent SelectContent.
Proof.
  intros tag attrs cs. split.
  - intros h. unfold SelectContent. cbv zeta. rewrite choices_El by done.
    rewrite below_cons, below_nil, app_nil_r. apply choices_same; [kept|]. intros h'.
    rewrite app_assoc.
    rewrite below_decor by (by destruct h').
    rewrite below_app, below_single by no_control. by destruct h'.
  - unfold SelectContent. cbv zeta. rewrite texts_El. cbn. by rewrite !app_nil_r.
Qed.

Lemma dashboard_components_transparent :
  Forall (λ nc, transparent nc.2) dashboard_components.
Proof.
  unfold dashboard_components. repeat (apply Forall_cons; split); [..|by apply Forall_nil]; cbn [snd].
  all: first [ apply SelectTrigger_transparent | apply SelectItem_transparent
             | apply SelectContent_transparent | apply transparent_alias | wrapper ].
Qed.

Lemma expand_transparent n :
  (∀ h, choices h (expand n) = choices h n) ∧ texts (expand n) = texts n.
Proof.
  induction n as [s|tag attrs cs IH] using tree_ind_list; [done|]. rewrite Forall_forall in IH.
  assert (∀ h, below h (map expand cs) = below h cs) as Hb.
  { intros h. unfold below. rewrite map_map. f_equal. apply List.map_ext_in. intros c Hi.
    by apply IH, list_elem_of_In. }
  assert (concat (map texts (map expand cs)) = concat (map texts cs)) as Ht.
  { rewrite map_map. f_equal. apply List.map_ext_in. intros c Hi. by apply IH, list_elem_of_In. }
  cbn [expand]. destruct (own_get dashboard_components tag) as [c|] eqn:E.
  - apply own_get_Some_elem in E. pose proof dashboard_components_transparent as Hd.
    rewrite Forall_forall in Hd.
    destruct (Hd _ E tag (omit ["key"] attrs) (map expand cs)) as [H1 H2]. cbn [snd] in H1, H2. split.
    + intros h. rewrite H1. apply choices_same; [|done]. intros k Hk. rewrite prop_get_omit.
      rewrite decide_False; [done|]. unfold control_attrs in Hk. set_solver.
    + by rewrite H2, !texts_El.
  - split; [intros h; by apply choices_same|by rewrite !texts_El].
Qed.

(** ** Nothing of the library is left to render *)

Definition is_component (tag : string) : bool :=
  bool_decide (is_Some (own_get dashboard_components tag)).

Fixpoint rendered (n : node) : bool :=
  match n with
  | Txt _ => true
  | El tag _ cs => negb (is_component tag) && forallb rendered cs
  end.

Definition renders (c : component attr) : Prop :=
  ∀ attrs cs, forallb rendered cs = true → rendered (c attrs cs) = true.

Lemma dashboard_components_render : Forall (λ nc, renders nc.2) dashboard_components.
Proof.
  unfold dashboard_components. repeat (apply Forall_cons; split); [..|by apply Forall_nil]; cbn [snd].
  all: intros attrs cs Hcs.
  all: first [ exact Hcs
             | cbn; rewrite ?forallb_app, Hcs; reflexivity ].
Qed.

Lemma expand_rendered n : rendered (expand n) = true.
Proof.
  induction n as [s|tag attrs cs IH] using tree_ind_list; [done|]. cbn [expand].
  assert (forallb rendered (map expand cs) = true) as Hcs.
  { rewrite List.forallb_forall. intros x (c & <- & Hc)%List.in_map_iff.
    rewrite Forall_forall in IH. by apply IH, list_elem_of_In. }
  destruct (own_get dashboard_components tag) as [c|] eqn:E.
  - apply own_get_Some_elem in E. pose proof dashboard_components_render as Hd.
    rewrite Forall_forall in Hd. by apply (Hd _ E).
  - cbn [rendered]. unfold is_component. by rewrite E, Hcs.
Qed.

(** C19: the library is transparent to the dashboard: rendering the page's components,
    down to the primitives of the packages, keeps every control with the action it
    performs, under every enclosing menu, keeps the texts in order, and leaves no
    component unrendered; so what the user can do on the finished page is what the
    state machine offers. *)
Theorem page_through_library lc platform inherited cpus o d n :
  world cpus o → view lc platform inherited (Arr cpus) d = Ok n →
  (∀ h, choices h (expand n) = choices h n) ∧ texts (expand n) = texts n ∧
  rendered (expand n) = true ∧
  (∀ a, a ∈ choices None (expand n) → offered_action (flattenedData (Arr cpus)) o d a).
Proof.
  intros W Hn. destruct (expand_transparent n) as [H1 H2].
  split_and!; [done|done|apply expand_rendered|]. intros a. rewrite H1. by eapply view_offered.
Qed.
End Page.

(** ** Witness *)

#[local] Existing Instance plain_styling.

(** The page of the sample session. *)
Lemma page_through_library_witness :
  rendered (page_node session_page) = false ∧ rendered (expand (page_node session_page)) = true ∧
  length (choices None (expand (page_node session_page))) = 25.
Proof.
  destruct (page_through_library String.compare "MacIntel" no_text [Some sample_cpu] sample_opts
              session_test (page_node session_page)) as (H1 & _ & H2 & _).
  - apply sample_world.
  - exact session_page_ok.
  - split_and!; [by vm_compute|exact H2|]. rewrite H1. by vm_compute.
Defined.
