(* ===== verification/Page.v ===== *)
(** * The page around the dashboard

    Models [app/page.tsx]: the component [Home], which loads the sample data in an
    effect and shows a spinner, an error or the dashboard. *)

From Stdlib Require Import SpecFloat.
From S2P Require Import Prelude JsSort JsNumber JsText JsValue UrlParams BenchmarkData SampleData Filters ChartData ChartSpec Ranking DashboardState Session View ViewSpec Markup.

#[local] Open Scope js_scope.

(** ** [Home] *)

Record HomeState := {
  isLoading : bool; benchmarkData : HierarchicalBenchmarkData; home_error : option string;
}.

Definition home_start : HomeState :=
  {| isLoading := true; benchmarkData := Arr []; home_error := None |}.

(** The effect: nothing in its [try] block throws. *)
Definition fetchData (s : HomeState) : HomeState :=
  {| isLoading := false; benchmarkData := sampleHierarchicalData; home_error := home_error s |}.

(** What [Home] returns: its own elements, or the dashboard's page. *)
Inductive home_page :=
  | HomeElem (e : elem False)
  | HomeMain (cls : string) (dashboard : exc node).

Section Home.
Variable localeCompare : string → string → comparison.
Variable platform : string.
Variable inherited_text : string → string.

(** The dashboard on some data, as it comes up at a location. *)
Definition dashboard (data : HierarchicalBenchmarkData) (loc : location) : exc node :=
  let! o := allFilterOptions data in
  view localeCompare platform inherited_text data (mount (flattenedData data) o loc).

Definition Home (s : HomeState) (loc : location) : home_page :=
  if isLoading s then
    HomeElem (Elem "div" [pstr "className" "flex h-screen items-center justify-center"]
      [Elem "LoadingSpinner" [] [];
       Elem "span" [pstr "className" "ml-2"] [EText "Loading benchmark data..."]])
  else
    let main := HomeMain "container mx-auto p-2" (dashboard (benchmarkData s) loc) in
    match home_error s with
    | Some e =>
        if truthy (PStr e) then
          HomeElem (Elem "div" [pstr "className" "flex h-screen items-center justify-center"]
            [Elem "div" [pstr "className" "text-center"]
               [Elem "h2" [pstr "className" "text-2xl font-bold text-red-600"] [EText "Error"];
                Elem "p" [pstr "className" "mt-2"] [EText e]]])
        else main
    | None => main
    end.
End Home.

(** ** Main theorems *)

(** The application comes up at every address: after the first effect [Home]
    shows the dashboard on its data, and whatever the query string says, the
    dashboard initialises, runs its effects and renders a page. *)
Lemma home_comes_up lc platform inherited loc :
  ∃ n, Home lc platform inherited (fetchData home_start) loc
       = HomeMain "container mx-auto p-2" (Ok n).
Proof.
  unfold Home, dashboard. cbn [fetchData isLoading home_error benchmarkData home_start].
  unfold sampleHierarchicalData. rewrite (w_opts _ _ sample_world). cbn [exc_bind].
  destruct (view_ok lc platform inherited [Some sample_cpu] sample_opts
    (mount (flattenedData (Arr [Some sample_cpu])) sample_opts loc)) as [n Hn].
  - apply sample_world.
  - apply page_item_b_ok. by vm_compute.
  - apply mount_typed, sample_world.
  - unfold mount. by rewrite flush_hover.
  - exists n. by rewrite Hn.
Qed.
