(* ===== verification/Entry.v ===== *)
(** * Entry points

    Models [embed.tsx], which mounts the dashboard on the published results,
    [app/layout.tsx], [components/theme-provider.tsx] and the API route
    [app/api/benchmarks/route.ts].  What the network and the server framework return
    is an argument. *)

From Stdlib Require Import SpecFloat.
From S2P Require Import Prelude JsSort JsNumber JsText JsValue Markup UrlParams BenchmarkData SampleData Filters ChartData ChartSpec Ranking DashboardState Session View ViewSpec Page UiKit.

#[local] Open Scope js_scope.

(** ** [embed.tsx] *)

Section Embed.
Variable localeCompare : string → string → comparison.
Variable platform : string.
Variable inherited_text : string → string.

(** What [fetch] gives for an address: a rejected promise, or a response whose [json()]
    is rejected or gives the parsed results. *)
Definition fetched : Type := res (res HierarchicalBenchmarkData).

(** What the script does, in order: it requests an address, hands a page to React's
    root, or leaves a rejected promise unhandled. *)
Inductive embed_event :=
  | Requested (url : string)
  | Rendered (page : exc node)
  | Unhandled (reason : string).

Definition embed (root : bool) (fetch : string → fetched) (loc : location) : list embed_event :=
  if root then
    Requested "/results.json" ::
    match fetch "/results.json" with
    | inl e => [Unhandled e]
    | inr response =>
        match response with
        | inl e => [Unhandled e]
        | inr data => [Rendered (dashboard localeCompare platform inherited_text data loc)]
        end
    end
  else [].
End Embed.

(** ** Elements *)

Section Elements.
Context {V : Type} `{PropValue V}.

Definition RootLayout (children : list (tree V)) : tree V :=
  El "html" [("lang", pv (PStr "en"))] [El "body" [] children].

Definition ThemeProvider : component V := El "NextThemesProvider".
End Elements.

(** ** The API route *)

(** A field of the object an answer is made from. *)
Inductive body_field :=
  | BPrim (v : prim)
  | BList (l : list prim).

Definition body : Type := list (string * body_field).

Section Route.
(** [NextResponse.json(body, { status })], the status being optional; it may throw. *)
Context {R : Type} (json : body → option Z → res R).

(** The lines written to the error console, and the answer. *)
Definition GET : list string * res R :=
  match json [("success", BPrim (PBool true)); ("data", BList [])] None with
  | inr r => ([], inr r)
  | inl _ =>
      (["Error fetching benchmark data:"],
       json [("success", BPrim (PBool false)); ("error", BPrim (PStr "Failed to fetch benchmark data"))]
         (Some 500%Z))
  end.
End Route.

(** The route throws exactly when neither of its two answers can be built, and
    what it answers says whether it succeeded. *)
Lemma GET_answers {R} (json : body → option Z → res R) :
  ((∃ e, (GET json).2 = inl e) ↔
   (∃ e, json [("success", BPrim (PBool true)); ("data", BList [])] None = inl e) ∧
   (∃ e, json [("success", BPrim (PBool false)); ("error", BPrim (PStr "Failed to fetch benchmark data"))]
           (Some 500%Z) = inl e)) ∧
  (∀ r, (GET json).2 = inr r → ∃ ok rest st,
     json (("success", BPrim (PBool ok)) :: rest) st = inr r ∧ (ok = true ↔ (GET json).1 = [])).
Proof.
  unfold GET. destruct (json [("success", BPrim (PBool true)); _] None) as [e|r] eqn:E; simpl.
  - split; [naive_solver|]. intros r Hr. by exists false, [("error", BPrim (PStr "Failed to fetch benchmark data"))], (Some 500%Z).
  - split; [naive_solver|]. intros r' [= <-]. by exists true, [("data", BList [])], None.
Qed.

(** ** Theorems *)

(** Without data the dashboard says so. *)
Lemma dashboard_no_data lc pf it data loc :
  data = NotArr ∨ data = Arr [] →
  ∃ n, dashboard lc pf it data loc = Ok n ∧ texts n = ["No benchmark data available"].
Proof.
  intros Hd. assert (flattenedData data = [] ∧ allFilterOptions data = Ok defaultOptions) as [Hf Ho]
    by (destruct Hd as [-> | ->]; done).
  unfold dashboard, view. rewrite Hf, Ho. cbn [exc_bind].
  set (d := mount [] defaultOptions loc).
  destruct (visibleDataKeys_ok [] (o_cpus defaultOptions) (filters d) (visibleServers d)) as [ks Hk];
    [constructor|]. rewrite Hk. destruct Hd as [-> | ->]; by eexists.
Qed.

Lemma dashboard_page lc pf it cpus o loc :
  world cpus o → Forall page_item (flattenedData (Arr cpus)) →
  ∃ n, view lc pf it (Arr cpus) (mount (flattenedData (Arr cpus)) o loc) = Ok n ∧
       dashboard lc pf it (Arr cpus) loc = Ok n.
Proof.
  intros Hw Hi. unfold dashboard. rewrite (w_opts _ _ Hw). cbn [exc_bind].
  destruct (view_ok lc pf it cpus o (mount (flattenedData (Arr cpus)) o loc)) as [n Hn];
    [done|done|by apply mount_typed| |by exists n].
  unfold mount. by rewrite flush_hover.
Qed.

Lemma dashboard_null_cpu lc pf it cpus loc :
  None ∈ cpus → dashboard lc pf it (Arr cpus) loc = Throw TypeError.
Proof.
  intros Hn. unfold dashboard, allFilterOptions. destruct cpus as [|c cpus]; [by apply elem_of_nil in Hn|].
  by rewrite (proj2 (cpu_names_throws (c :: cpus)) Hn).
Qed.

(** C21: what the published page does, in every case, at every address: without a root
    element it requests and renders nothing; with one it makes one request, for
    "/results.json"; when the request or the parsing of its answer is rejected it
    renders nothing and the rejection stays unhandled; when the answer is not an array
    or an empty one, the page says that no data is available; on results whose
    entries are well formed (latencies may be missing) the page is the view of the
    dashboard's state after its first effects; a [null] CPU makes it throw. *)
Theorem embed_renders lc platform inherited loc fetch :
  let run root := embed lc platform inherited root fetch loc in
  run false = [] ∧
  (∀ e, fetch "/results.json" = inl e ∨ fetch "/results.json" = inr (inl e) →
     run true = [Requested "/results.json"; Unhandled e]) ∧
  (∀ data, fetch "/results.json" = inr (inr data) → data = NotArr ∨ data = Arr [] →
     ∃ n, run true = [Requested "/results.json"; Rendered (Ok n)] ∧
          texts n = ["No benchmark data available"]) ∧
  (∀ cpus o, fetch "/results.json" = inr (inr (Arr cpus)) → world cpus o →
     Forall page_item (flattenedData (Arr cpus)) →
     ∃ n, view lc platform inherited (Arr cpus) (mount (flattenedData (Arr cpus)) o loc) = Ok n ∧
          run true = [Requested "/results.json"; Rendered (Ok n)]) ∧
  (∀ cpus, fetch "/results.json" = inr (inr (Arr cpus)) → None ∈ cpus →
     run true = [Requested "/results.json"; Rendered (Throw TypeError)]).
Proof.
  unfold embed. split_and!.
  - done.
  - by intros e [-> | ->].
  - intros data -> Hd. destruct (dashboard_no_data lc platform inherited data loc Hd) as (n & -> & Ht). by exists n.
  - intros cpus o -> Hw Hi. destruct (dashboard_page lc platform inherited cpus o loc Hw Hi) as (n & Hn & ->).
    by exists n.
  - intros cpus -> Hn. by rewrite dashboard_null_cpu.
Qed.

(** ** Witness *)

(** A server that has the sample results, one that answers with something that is not
    JSON, and one that answers with [null]. *)
Definition serves (answer : fetched) (url : string) : fetched :=
  if bool_decide (url = "/results.json") then answer else inl "Not found".

Definition sample_loc : location :=
  {| loc_path := "/"; loc_search := "?threads=3&http2=true"; loc_hash := "" |}.

Lemma embed_renders_witness :
  let run answer := embed String.compare "Linux x86_64" (λ _, "") true (serves answer) sample_loc in
  (∃ n, run (inr (inr (Arr [Some sample_cpu]))) = [Requested "/results.json"; Rendered (Ok n)]) ∧
  run (inr (inl "Unexpected token")) = [Requested "/results.json"; Unhandled "Unexpected token"] ∧
  (∃ n, run (inr (inr NotArr)) = [Requested "/results.json"; Rendered (Ok n)] ∧
        texts n = ["No benchmark data available"]) ∧
  run (inr (inr (Arr [None]))) = [Requested "/results.json"; Rendered (Throw TypeError)].
Proof.
  cbn zeta. split_and!.
  - destruct (embed_renders String.compare "Linux x86_64" (λ _, "") sample_loc
      (serves (inr (inr (Arr [Some sample_cpu]))))) as (_ & _ & _ & H & _).
    destruct (H [Some sample_cpu] sample_opts eq_refl sample_world) as (n & _ & Hn); [|by exists n].
    apply page_item_b_ok. by vm_compute.
  - apply (embed_renders String.compare "Linux x86_64" (λ _, "") sample_loc (serves (inr (inl "Unexpected token")))).
    by right.
  - destruct (embed_renders String.compare "Linux x86_64" (λ _, "") sample_loc (serves (inr (inr NotArr))))
      as (_ & _ & H & _). apply (H NotArr eq_refl). by left.
  - destruct (embed_renders String.compare "Linux x86_64" (λ _, "") sample_loc (serves (inr (inr (Arr [None])))))
      as (_ & _ & _ & _ & H). apply (H [None] eq_refl). by left.
Defined.
