(* ===== verification/Spa.v ===== *)
(** * The single-page example application

    Models [examples/spa/src]: [App.jsx] with its hand-written router and the two
    pages, together with the part of the browser it relies on: the session
    history ([pushState], back and forward), the location, and the [popstate] event,
    which the browser fires when the user moves in the history and not on
    [pushState]. *)

From S2P Require Import Prelude JsSort JsNumber JsText JsValue Markup.

(** ** Browser *)

(** The session history as pathnames: behind, current, ahead. *)
Record History := { behind : list string; here : string; ahead : list string }.

(** [window.history.pushState(null, "", to)] for a path. *)
Definition pushState (to : string) (h : History) : History :=
  {| behind := here h :: behind h; here := to; ahead := [] |}.

(** The back and the forward button; [None] when there is nowhere to go. *)
Definition go_back (h : History) : option History :=
  match behind h with
  | [] => None
  | p :: ps => Some {| behind := ps; here := p; ahead := here h :: ahead h |}
  end.

Definition go_forward (h : History) : option History :=
  match ahead h with
  | [] => None
  | p :: ps => Some {| behind := here h :: behind h; here := p; ahead := ps |}
  end.

(** ** [App] *)

(** The component's state, whether its effect has registered [onPop], and the
    browser. *)
Record Spa := { path : string; listening : bool; history : History }.

(** [useState(window.location.pathname)]. *)
Definition spa_mount (h : History) : Spa := {| path := here h; listening := false; history := h |}.

(** The effect and its clean-up. *)
Definition listen (s : Spa) : Spa := {| path := path s; listening := true; history := history s |}.
Definition unlisten (s : Spa) : Spa := {| path := path s; listening := false; history := history s |}.

(** [onPop], called by the browser if it is registered. *)
Definition onPop (s : Spa) : Spa :=
  {| path := here (history s); listening := listening s; history := history s |}.

Definition popstate (h : History) (s : Spa) : Spa :=
  let s' := {| path := path s; listening := listening s; history := h |} in
  if listening s then onPop s' else s'.

Definition navigate (to : string) (s : Spa) : Spa :=
  {| path := to; listening := listening s; history := pushState to (history s) |}.

(** What the links' handlers do. *)
Inductive spa_op := OpPreventDefault | OpNavigate (to : string).

Definition run_spa (ops : list spa_op) (s : Spa) : Spa :=
  foldl (λ s a, match a with OpPreventDefault => s | OpNavigate to => navigate to s end) s ops.

Abbreviation spa_elem := (elem spa_op).

Definition About : spa_elem :=
  El "div" [] [El "h1" [] [Txt "About"]; El "p" [] [Txt "This is the About page."]].

Definition HomePage : spa_elem :=
  El "div" [] [El "h1" [] [Txt "Home"]; El "p" [] [Txt "Welcome to the minimal React SPA."]].

Definition link (to text : string) (style : list (string * pval spa_op)) : spa_elem :=
  El "a" ([pstr "href" to; ("onClick", VHandler (λ _, [OpPreventDefault; OpNavigate to]))] ++ style)
    [Txt text].

(** [let Page; if (path === "/about") Page = About; else Page = Home]. *)
Definition page_of (p : string) : spa_elem := if bool_decide (p = "/about") then About else HomePage.

Definition App (s : Spa) : spa_elem :=
  El "div" [("style", VStyle [("padding", PNum (JsNumber.of_Z 20)); ("fontFamily", PStr "sans-serif")])]
    [El "nav" [("style", VStyle [("marginBottom", PNum (JsNumber.of_Z 20))])]
       [link "/" "Home" [("style", VStyle [("marginRight", PNum (JsNumber.of_Z 10))])];
        link "/about" "About" []];
     page_of (path s)].

(** ** The running application *)

(** The links of a rendered application, by their destination. *)
Fixpoint click_link (href : string) (t : spa_elem) : list spa_op :=
  match t with
  | Txt _ => []
  | El tag ps cs =>
      match prop_get ps "href" with
      | Some (VPrim (PStr h)) => if bool_decide (h = href) then on_click t else []
      | _ => concat (map (click_link href) cs)
      end
  end.

(** The running application: the effect and its clean-up run, the user clicks a link of
    the page or moves in the history, also before the effect has run.  The flag says
    that the last change of the address was a move in the history that nobody listened
    to. *)
Inductive spa_reachable (h0 : History) : Spa → bool → Prop :=
  | spa_start : spa_reachable h0 (spa_mount h0) false
  | spa_listen s missed : spa_reachable h0 s missed → spa_reachable h0 (listen s) missed
  | spa_unlisten s missed : spa_reachable h0 s missed → spa_reachable h0 (unlisten s) missed
  | spa_click s missed href :
      spa_reachable h0 s missed → href ∈ ["/"; "/about"] →
      spa_reachable h0 (run_spa (click_link href (App s)) s) false
  | spa_move s missed h :
      spa_reachable h0 s missed → go_back (history s) = Some h ∨ go_forward (history s) = Some h →
      spa_reachable h0 (popstate h s) (negb (listening s)).

(** ** What is on the screen *)

(** The texts of the whole page at a pathname. *)
Definition texts_at (pathname : string) : list string :=
  ["Home"; "About"]
  ++ if decide (pathname = "/about") then ["About"; "This is the About page."]
     else ["Home"; "Welcome to the minimal React SPA."].

Lemma App_texts s : texts (App s) = texts_at (path s).
Proof.
  unfold texts_at, App, page_of. cbn. case_bool_decide; [rewrite decide_True by done|rewrite decide_False by done]; done.
Qed.

Lemma click_navigates s href :
  href ∈ ["/"; "/about"] → run_spa (click_link href (App s)) s = navigate href s.
Proof.
  intros Hh. assert (∀ p, click_link href (page_of p) = []) as Hp.
  { intros p. unfold page_of. by destruct (bool_decide _). }
  apply elem_of_cons in Hh as [->|[->|[]%elem_of_nil]%elem_of_cons].
  all: unfold App; cbn; by rewrite Hp.
Qed.

Lemma spa_invariant h0 s missed :
  spa_reachable h0 s missed → missed = false → path s = here (history s).
Proof.
  induction 1 as [|s missed _ IH|s missed _ IH|s missed href _ _ Hh|s missed h _ _ _]; [done..| |].
  - by rewrite click_navigates.
  - unfold popstate. by destruct (listening s).
Qed.

(** C37: the page shown is the one the address bar names: from any address, after any
    clicks, any moves in the session history and any runs of the effect, the
    application shows its two links and, below them, the about page at "/about" and
    the home page at every other address, unless the last thing that happened to the
    address was a move in the history while [onPop] was not registered.  Whatever
    happened before, a click on a link leads to its page and its address, and once the
    effect has run a move in the history leads to the page of its address. *)
Theorem spa_follows_location h0 s missed :
  spa_reachable h0 s missed →
  (missed = false → texts (App s) = texts_at (here (history s))) ∧
  (∀ href, href ∈ ["/"; "/about"] →
     let s' := run_spa (click_link href (App s)) s in
     here (history s') = href ∧ texts (App s') = texts_at href) ∧
  (∀ s' h, s' = listen s ∨ s' = s ∧ listening s = true →
     go_back (history s) = Some h ∨ go_forward (history s) = Some h →
     here (history (popstate h s')) = here h ∧ texts (App (popstate h s')) = texts_at (here h)).
Proof.
  intros Hr. split_and!.
  - intros Hm. by rewrite App_texts, (spa_invariant _ _ _ Hr Hm).
  - intros href Hh. cbn zeta. rewrite click_navigates by done. by rewrite App_texts.
  - intros s' h Hs' _. rewrite App_texts. unfold popstate. destruct Hs' as [->|[-> ->]]; done.
Qed.

(** Going back undoes a click: the page and the address are those of before. *)
Lemma spa_back_undoes h0 s href h :
  spa_reachable h0 s false → listening s = true → href ∈ ["/"; "/about"] →
  let s' := run_spa (click_link href (App s)) s in
  go_back (history s') = Some h → path (popstate h s') = path s ∧ here h = here (history s).
Proof.
  intros Hr Hl Hh s'. subst s'. pose proof (spa_invariant _ _ _ Hr eq_refl) as Hp.
  rewrite click_navigates by done. intros [= <-]. unfold popstate. cbn. by rewrite Hl.
Qed.

(** A move in the history before the effect has run is missed: the application keeps
    the page of its first render. *)
Lemma early_move_missed h0 h :
  go_back h0 = Some h → path (listen (popstate h (spa_mount h0))) = here h0.
Proof. done. Qed.

(** ** Witness *)

Definition at_root : History := {| behind := []; here := "/"; ahead := [] |}.
Definition back_at_root : History := {| behind := []; here := "/"; ahead := ["/about"] |}.

(** A click on "About", then back. *)
Lemma spa_follows_location_witness :
  let s := popstate back_at_root (navigate "/about" (listen (spa_mount at_root))) in
  texts (App s) = ["Home"; "About"; "Home"; "Welcome to the minimal React SPA."] ∧
  texts (App (navigate "/about" s)) = ["Home"; "About"; "About"; "This is the About page."].
Proof.
  assert (spa_reachable at_root (navigate "/about" (listen (spa_mount at_root))) false) as H1.
  { rewrite <- click_navigates by set_solver. eapply spa_click; [apply spa_listen, spa_start|set_solver]. }
  assert (spa_reachable at_root
    (popstate back_at_root (navigate "/about" (listen (spa_mount at_root)))) false) as H2.
  { exact (spa_move _ _ _ back_at_root H1 (or_introl eq_refl)). }
  destruct (spa_follows_location at_root _ _ H2) as (E1 & E2 & _). split; [exact (E1 eq_refl)|].
  destruct (E2 "/about" ltac:(set_solver)) as [_ E3]. rewrite click_navigates in E3 by set_solver. exact E3.
Defined.
